(* ===== verification/_CoqProject ===== *)
-Q . S2P
Prelude.v
PyStr.v
DateTime.v
Uuid.v
State.v
Retention.v
Naming.v
Intents.v
Models.v
Filesystem.v
CatalogDb.v
Catalog.v
CatalogDemo.v
ManagedPath.v
CatalogInv.v
CatalogSafe.v
Reconcile.v
ReconcileSafe.v
CatalogProperties.v
ReconcileProperties.v
Convergence.v
Protection.v
EventProperties.v
EventReplay.v
Reclaimer.v
ReclaimerProperties.v
Space.v
SpaceProperties.v
Segmenter.v
SegmenterProperties.v
PyFloat.v
Pipeline.v
PipelineProperties.v
PyRepr.v
Json.v
JsonProperties.v
LocalTime.v
Metadata.v
Sidecar.v
MetadataDemo.v
SidecarMapping.v
SidecarProperties.v
SidecarSize.v
SidecarClaims.v
Projection.v
ProjectionProperties.v
Coordinator.v
CoordinatorDemo.v
NameConvergence.v
CoordinatorProperties.v
CoordinatorRename.v
FinalizeConvergence.v
FinalizerFilesystem.v
Finalizer.v
FinalizerSidecar.v
FinalizerSafe.v
FinalizerRun.v
FinalizerClosing.v
FinalizerRefusals.v
FinalizerDemo.v
Clock.v
Nmea.v
NmeaProperties.v
NmeaRoundtrip.v
Anchors.v
AnchorProperties.v
NetworkProfile.v
NetworkProfileProperties.v
NetworkFallback.v
NetworkProperties.v
NetworkEvidence.v
NetworkSelection.v
NetworkClock.v
NetworkRetry.v
NetworkDemo.v
