(* ===== verification/Prelude.v ===== *)
(** * DashCam Pi Zero 2 W: verification library of the recorder core

    The program is the Python recorder of [src/dashcam]. A media pipeline writes video segments;
    each closed segment is finalized into a clip, a pair of files (video and metadata sidecar)
    indexed by a durable SQLite catalog; clips are protected by events, leased for download,
    and deleted oldest first when the card fills up; a GPS receiver anchors the monotonic clock
    to UTC, from which clips get their civil names. The library models that core as executable
    definitions translated from the source and proves what makes it correct.

    ** How the parts interact

    - [recorder/segmenter.py] decides the boundaries and submits closed segments to a bounded
      queue, whose worker calls the finalizer. [recorder/finalizer.py] stages the sidecar of a closed
      segment beside its video in [pending/], registers the promotion with the catalog and has it
      carried out; its recovery pass does the same for what an interruption left pending.
    - [catalog/database.py] is the only owner of clip state. Moves, deletions and renames of a pair
      are first recorded as intents ([storage/intents.py]) and then carried out against the
      filesystem ([catalog/filesystem.py]) by [reconcile_intent], which may be interrupted anywhere
      and repeated; [reconcile_startup] runs it for everything left over by a crash.
    - [storage/space.py] watches free space and turns it into a retention mode
      ([storage/retention.py], [catalog/policy.py]) stored in a latch row of the catalog before it is
      published; [storage/reclaimer.py] deletes one pair per step through the catalog.
    - [gps/nmea.py] parses serial records, [gps/anchors.py] adapts the trusted ones, and
      [gps/clock.py] keeps the anchor that converts monotonic to UTC time.
    - [metadata/schema.py] is the sidecar of a clip, [metadata/reconcile.py] parses it and projects an
      anchor onto it, and [metadata/coordinator.py] gives a provisional clip its civil name: it plans
      the new sidecar, registers the rename with the catalog and has it carried out.
    - [recorder/pipeline.py] supervises the one media pipeline that owns the camera, with bounded
      restarts, and isolates optional branches from it.

    - [network_fallback.py] chooses the Wi-Fi mode of a boot on its own: it polls NetworkManager for a
      client connection and, when the window ends, brings up an access point from stored credentials.

    ** Files

    Foundations.
    - [Prelude]: Python exceptions as [result], notations, tactics, sorting by a key.
    - [PyStr], [DateTime], [Uuid], [PyFloat]: the pieces of Python's [str], [datetime], [uuid.UUID] and
      [float] the code uses, with their round trips.

    Values and pure policies, one file per source file.
    - [State] ([state.py]): the lifecycle table, leases and [ClipRecord].
    - [Retention]: thresholds, hysteresis controller and oldest-first planner.
    - [Naming] ([storage/naming.py]): the three filename grammars, generation and parsing.
    - [Intents] ([storage/intents.py]): path validation, intents, their JSON form and the planner.
    - [Models] ([catalog/models.py]): the values the catalog exchanges.

    The catalog.
    - [Filesystem]: the catalog's filesystem protocol as the class [CatalogFilesystem] with
      [FilesystemLaws], and the rooted adapter that discharges them.
    - [CatalogDb]: tables as finite maps with the schema's constraints, the world monad (database,
      filesystem, random UUIDs), transactions, one definition per statement.
    - [Catalog]: every public method but recovery; [Reconcile]: [reconcile_intent] and
      [reconcile_startup] with all helpers. [_locked] helpers run in their caller's transaction as in
      the source. The environment class holds what the catalog uses of the sidecar codec and the
      digest, so that its theorems hold for every codec; [Coordinator] instantiates it.
    - [CatalogInv], [CatalogSafe], [ReconcileSafe]: the invariant [db_ok] and that every method keeps
      it, with inversion lemmas for statements; [ManagedPath]: path shapes.
    - [CatalogProperties], [ReconcileProperties], [Convergence], [Protection], [EventProperties],
      [EventReplay]: the theorems; [CatalogDemo]: a concrete recording for their witnesses.

    Storage control.
    - [Reclaimer], [ReclaimerProperties]: [StorageReclaimer.run_one] over the modelled catalog.
    - [Space], [SpaceProperties]: the free-space monitor against the interface [RetentionLatchStore]
      with [LatchStoreLaws], discharged by the catalog's latch table.

    Recording and time.
    - [Segmenter], [SegmenterProperties]: boundary policy, finalization queue, worker, closing and
      segmenter as interleaved steps, cut at their awaits.
    - [Pipeline], [PipelineProperties]: the supervision loop of one run, cut into attempts, the
      ownership guard and the optional branches.
    - [Clock]: the anchor clock; [Nmea], [NmeaProperties], [NmeaRoundtrip]: the sentence parser;
      [Anchors], [AnchorProperties]: the tracker and the path from a serial record to the clock.

    Sidecars and civil names.
    - [PyRepr], [Json]: Python's [repr] of a float and the part of the [json] module the codec uses,
      on texts of Latin-1 characters; [JsonProperties]: reading a written value back.
    - [LocalTime] ([to_local_time] of [gps/clock.py]): zones as a class [ZoneDatabase] with the laws of
      [datetime] and [zoneinfo], and aware local times compared as Python compares them.
    - [Metadata] ([metadata/schema.py]): the records of a sidecar and their constructors; [Sidecar]: its
      mapping and canonical text, and the strict parser of [metadata/reconcile.py].
    - [SidecarMapping], [SidecarSize], [SidecarProperties], [SidecarClaims]: the round trip in layers;
      [MetadataDemo]: concrete sidecars and zones.
    - [Projection], [ProjectionProperties]: an anchor projected onto a sidecar, and the rename plan.
    - [Coordinator] ([metadata/coordinator.py]) over the catalog, with the codec as its environment;
      [NameConvergence], [CoordinatorProperties], [CoordinatorRename]: its theorems, on the recording
      of [CoordinatorDemo].

    The finalizer.
    - [FinalizerFilesystem]: the filesystem protocol it adds to the catalog's, as a class with its law,
      and the durable adapter; [Finalizer]: [RecorderClipFinalizer], its control operations and its
      recovery pass, over the catalog with the codec as its environment.
    - [FinalizeConvergence], [FinalizerSidecar], [FinalizerSafe], [FinalizerRun], [FinalizerClosing],
      [FinalizerRefusals]: its theorems, on the closed segment of [FinalizerDemo].

    The network fallback.
    - [NetworkProfile]: credentials, results, the access point's profile and its validation;
      [NetworkFallback]: the controller over interfaces for its commands, files, clock and random source,
      with a log of what it did.
    - [NetworkProfileProperties], [NetworkProperties] (a logic of logged calls), [NetworkEvidence],
      [NetworkSelection], [NetworkClock], [NetworkRetry]: its theorems, on the device of [NetworkDemo].

    ** What the theorems show

    - The catalog is safe over every history ([catalog_reachable_safe]): from an empty database,
      through any calls, over any filesystem, with files changing between calls. A raising call
      changes nothing ([failed_call_changes_nothing]).
    - Footage: recovery loses no content but that of a clip reserved for deletion
      ([reconcile_never_loses_footage]), deletions and protection moves converge from every state an
      interruption leaves ([delete_intent_converges], [protect_intent_converges]), and a protection
      event keeps its clips through every later call but an explicit unprotect
      ([event_protects_its_clips]); repeating an event changes nothing ([trigger_event_idempotent]).
    - Finalization: a closed segment reaches [clips/] with its sidecar and its row in one call, and a
      repeated call changes nothing ([closed_segment_finalized]); a protected one is moved on to
      [protected/] ([protected_segment_moved]). No sequence of the finalizer's calls breaks the catalog
      or, reclamation aside, loses media ([finalizer_loses_no_media]); the recovery pass is bounded and
      honest ([recovery_pass_bounded]); the two filesystem adapters agree ([durable_agrees_with_rooted]).
    - Reclamation spares everything but the oldest eligible pair ([run_one_spares_footage],
      [run_one_deletes_oldest_pair]), drains what is pending
      ([replay_drains_pending_deletes]), and is blocked by one reachable state, a finding
      ([outside_clips_blocks_reclamation]).
    - Free space: the published mode is durable, hysteresis survives restarts, and a sample publishes
      what the policy says.
    - Segments are contiguous, bounded, accounted for, finalized once and in order, and a running
      worker drains the queue.
    - Time: only a record that states a complete UTC time moves the clock
      ([only_stated_time_moves_clock]) and any stated time is kept exactly
      ([stated_time_sets_clock]); the clock stays close to what it accepted
      ([clock_tracks_observations]) and conversion keeps order and length
      ([convert_preserves_intervals]); the parser is total and no single corrupted byte passes the
      checksum ([corrupted_byte_refused]).
    - Supervision: a run always returns, within the policy's restarts and with the camera free
      ([supervision_bounded]); a persistent failure exhausts the policy exactly
      ([persistent_failure_exhausts]).
    - Sidecars: every accepted file is bounded, canonical and satisfies the schema
      ([accepted_sidecar_well_formed]); a constructed sidecar is written within the bound and read
      back as it was ([sidecar_roundtrip]), except that one starting in a repeated local hour is
      written and then always refused, so that its clip is never finalized, a finding
      ([repeated_hour_never_finalized]). A huge integer makes the
      parser raise an exception nothing catches, a second finding ([huge_integer_escapes]).
    - Civil names: a projection changes only names and times and says the anchor's time to the
      millisecond ([projection_correct]), it succeeds when the times are representable and the names
      free ([projection_succeeds]); a pending rename converges from every interruption
      ([name_reconciliation_converges]); the coordinator keeps the catalog safe whatever it returns
      ([reconcile_clip_outcome]) and renames every idle clip that can be projected
      ([provisional_clip_renamed]).
    - Network: a reported mode is earned by the commands and writes before it and never changes
      ([selected_mode_earned]); the selection ends on every steady clock ([boot_selection_ends]); a retry
      takes down what was brought up ([retry_takes_down_activated_ap]), unless the stored profile holds a
      character outside ASCII, a finding ([non_ascii_profile_escapes]); the policy's interactions are a
      closed list ([network_actions_closed]).
    - Pure layers: lifecycle and leases, controller refinement, planner minimality, filename round
      trips and replanning.

    ** Conventions and bounds

    A raised exception is [Err] with its class; its message is the source's literal text. Integers
    are Python's and unbounded; the width checks of the code appear where the code has them.
    Monotonic readings, observer results, backend answers and random UUIDs are arguments or a
    supply in the state, so that theorems quantify over them. The catalog's mutex and SQLite's
    atomicity make a method one step; the filesystem may change between any two steps. Fuel is
    used for the number of decimal digits of an integer (its binary logarithm, which is at least
    that), for removing a substring (the length of the text), and for the supervision loop (the
    allowed restarts and one more, proved enough by [supervision_bounded]); the exception chain walk
    is bounded by the source itself. The JSON scanners take twice the length of the text and two as
    fuel, since every call but the first consumes a character; [JsonProperties.loads_dumps] shows it
    is enough for every text the encoder writes. The polling loop of the network selection takes fuel,
    and [boot_selection_ends] shows that one more than the polls of its window is enough. All other
    recursion is structural.

    ** Not modelled

    - Of modelled files: schema migration, connection handling and locks of the catalog; directory
      syncs and device probes of the filesystem adapter; JSON forms of snapshots; diagnostic texts
      of parse errors; the temporary file of [write_sidecar_atomic]; the recursion limit of the JSON
      reader. The zone database, SHA-256 and random UUIDs are parameters. A text with a character
      above U+00FF is outside the model of the JSON reader, which answers with an exception of its
      own, so nothing is claimed of it. Type checks that Python repeats at run time hold by typing.
    - Of the network fallback: its system adapters for processes and files.
    - Left out: GStreamer, ALSA, sockets, the web front end, provisioning, health probes, command
      lines and deployment scripts, which are input and output around the modelled rules. *)

From Stdlib Require Import Ascii String ZArith Lia.
From stdpp Require Import base list gmap strings sorting.

#[global] Open Scope Z_scope.

(** ** Python values

    A Python [str] is a list of characters ([str]); only ASCII texts are ever
    accepted by the code modelled here, and [ascii] also holds the 128 non-ASCII
    byte values, so that [str.isascii] is a real test. *)

Abbreviation str := (list ascii).

Definition u (s : string) : str := list_ascii_of_string s.
Arguments u : simpl never.

(** A UUID is its 128-bit integer, as in [uuid.UUID.int]. *)
Record UUID := mkUUID { uuid_int : N }.

#[export] Instance UUID_eq_dec : EqDecision UUID.
Proof. solve_decision. Defined.

#[export] Program Instance UUID_countable : Countable UUID :=
  inj_countable' uuid_int mkUUID _.
Next Obligation. by intros []. Qed.

(** ** Exceptions

    [exn_class] has one constructor per exception class the modelled code raises
    or catches; a raised exception carries the message of its [raise] statement. *)

Inductive exn_class :=
  | ValueError | TypeError | RuntimeError | AssertionError | OverflowError
  | OSError | FileExistsError | FileNotFoundError
  | IntegrityError
  | StateTransitionError | DownloadLeaseError
  | ClipNameError
  | CatalogConflictError | ClipNotFoundError | ActiveClipProtectionChanged
  | DownloadLeaseCapacityReached | ReconciliationLimitError
  | ReclamationError
  | SegmentContractError
  | PipelineContractError | ProfileValidationError | CameraOwnershipError
  | RecoverablePipelineError | PipelineFault
  | SidecarParseError
  | MetadataValidationError | JSONDecodeError | UnicodeDecodeError | MetadataReconciliationError
  | MetadataReconciliationRefused (retryable : bool) | SidecarWriteError | ZoneInfoNotFoundError
  | RecorderStatusTransitionError | FinalizationRefused
  | NetworkError
  | OtherException.

#[export] Instance exn_class_eq_dec : EqDecision exn_class.
Proof. solve_decision. Defined.

Record exn := Exn { exn_cls : exn_class; exn_msg : string }.

(** [except ValueError] also catches its subclasses. *)
Definition is_ValueError (e : exn) : bool :=
  match exn_cls e with
  | ValueError | StateTransitionError | DownloadLeaseError | ClipNameError
  | ProfileValidationError | SidecarParseError
  | MetadataValidationError | JSONDecodeError | UnicodeDecodeError | MetadataReconciliationError
  | RecorderStatusTransitionError | NetworkError => true
  | _ => false
  end.

Definition is_OSError (e : exn) : bool :=
  match exn_cls e with
  | OSError | FileExistsError | FileNotFoundError | SidecarWriteError => true
  | _ => false
  end.

Inductive result (A : Type) :=
  | Ok (a : A)
  | Err (e : exn).
Arguments Ok {A} a.
Arguments Err {A} e.

Definition is_ok {A} (r : result A) : bool := match r with Ok _ => true | Err _ => false end.

Definition result_bind {A B} (r : result A) (f : A -> result B) : result B :=
  match r with Ok a => f a | Err e => Err e end.

Declare Scope py_scope.
Delimit Scope py_scope with py.

Notation "'let!' x := r 'in' k" := (result_bind r (fun x => k))
  (at level 10, x pattern, r at level 100, k at level 200) : py_scope.

(** [if cond: raise C(msg)] followed by the rest of the body. *)
Notation "'raise_if' b 'as' c 'msg' m ';;' k" := (if b then Err (Exn c m) else k)
  (at level 10, b at level 100, c at level 0, m at level 1, k at level 200) : py_scope.

#[global] Open Scope py_scope.

Lemma result_bind_ok {A B} (r : result A) (f : A -> result B) b :
  result_bind r f = Ok b <-> exists a, r = Ok a /\ f a = Ok b.
Proof. destruct r; simpl; split; [eauto|by intros (? & [= ->] & ?)|done|by intros (? & ? & ?)]. Qed.

Lemma result_bind_ok2 {A B C} (r : result A) (s : result B) (k : A -> B -> result C) c :
  result_bind r (fun a => result_bind s (k a)) = Ok c <->
  exists a, r = Ok a /\ exists b, s = Ok b /\ k a b = Ok c.
Proof. rewrite result_bind_ok. by setoid_rewrite result_bind_ok. Qed.

(** [fold] of a fallible loop body over a list. *)
Fixpoint result_fold {A B} (f : B -> A -> result B) (b : B) (l : list A) : result B :=
  match l with
  | [] => Ok b
  | x :: l' => let! b' := f b x in result_fold f b' l'
  end.

(** A comprehension whose element expression may raise. *)
Fixpoint result_map {A B} (f : A -> result B) (l : list A) : result (list B) :=
  match l with
  | [] => Ok []
  | x :: l' => let! y := f x in let! ys := result_map f l' in Ok (y :: ys)
  end.

(** The first failing validator of a sequence of checks. *)
Fixpoint validate_all {A} (check : A -> result unit) (l : list A) : result unit :=
  match l with
  | [] => Ok tt
  | x :: l' => let! _ := check x in validate_all check l'
  end.

Lemma validate_all_ok {A} (check : A -> result unit) l :
  validate_all check l = Ok tt <-> Forall (fun x => check x = Ok tt) l.
Proof.
  induction l as [|x l IH]; simpl; [by split|].
  rewrite Forall_cons, result_bind_ok, <-IH. split; [intros ([] & ? & ?)|intros []]; eauto.
Qed.

Lemma result_map_Forall2 {A B} (f : A -> result B) l vs :
  result_map f l = Ok vs -> Forall2 (fun x v => f x = Ok v) l vs.
Proof.
  revert vs. induction l as [|x l IH]; intros vs; simpl; [intros [= <-]; constructor|].
  intros (y & Hy & (ys & Hys & [= <-])%result_bind_ok)%result_bind_ok. constructor; eauto.
Qed.

Lemma Forall_one {A} (P : A -> Prop) x : Forall P [x] -> P x.
Proof. by intros [? _]%Forall_cons. Qed.

Lemma Forall_app_3 {A} (P : A -> Prop) l1 l2 l3 :
  Forall P (l1 ++ l2 ++ l3) -> Forall P l1 /\ Forall P l2 /\ Forall P l3.
Proof. by rewrite !Forall_app. Qed.

(** ** Automation *)

(** Split every [if] and [match] on a boolean of the goal or of a hypothesis,
    discarding the branches that contradict the context. *)
Ltac split_if :=
  match goal with
  | |- context [if ?b then _ else _] => let E := fresh "Hif" in destruct b eqn:E
  | H : context [if ?b then _ else _] |- _ => let E := fresh "Hif" in destruct b eqn:E
  end.

Ltac bool_prop :=
  repeat match goal with
  | H : (_ && _)%bool = true |- _ => apply andb_true_iff in H; destruct H
  | H : (_ || _)%bool = false |- _ => apply orb_false_iff in H; destruct H
  | H : negb _ = true |- _ => apply negb_true_iff in H
  | H : negb _ = false |- _ => apply negb_false_iff in H
  | H : (_ <=? _)%Z = true |- _ => apply Z.leb_le in H
  | H : (_ <=? _)%Z = false |- _ => apply Z.leb_gt in H
  | H : (_ <? _)%Z = true |- _ => apply Z.ltb_lt in H
  | H : (_ <? _)%Z = false |- _ => apply Z.ltb_ge in H
  | H : (_ =? _)%Z = true |- _ => apply Z.eqb_eq in H
  | H : (_ =? _)%Z = false |- _ => apply Z.eqb_neq in H
  | H : bool_decide _ = true |- _ => apply bool_decide_eq_true_1 in H
  | H : bool_decide _ = false |- _ => apply bool_decide_eq_false_1 in H
  end.

(** Walk down a fallible body that is known to have returned [Ok]. *)
Ltac inv_ok :=
  repeat match goal with
  | H : Ok _ = Ok _ |- _ => injection H as H; try subst
  | H : Err _ = Ok _ |- _ => discriminate H
  | H : Ok _ = Err _ |- _ => discriminate H
  | H : Err _ = Err _ |- _ => injection H as H; try subst
  | H : result_bind _ _ = Ok _ |- _ =>
      let E := fresh "Hb" in apply result_bind_ok in H; destruct H as (? & E & H)
  | H : (if ?b then Err _ else _) = Ok _ |- _ =>
      let E := fresh "Hg" in destruct b eqn:E; [discriminate H|]
  end.

Create HintDb dashcam.
#[export] Hint Resolve Z.le_refl : dashcam.

(** ** Stable sorting by a boolean order, as Python's [sorted] *)

Section sort_by.
Context {A : Type} (leb : A -> A -> bool).

Fixpoint insert_by (x : A) (l : list A) : list A :=
  match l with
  | [] => [x]
  | y :: l' => if leb x y then x :: l else y :: insert_by x l'
  end.

Definition sort_by (l : list A) : list A := foldr insert_by [] l.

Lemma insert_by_perm x l : insert_by x l ≡ₚ x :: l.
Proof.
  induction l as [|y l IH]; simpl; [done|]. destruct (leb x y); [done|].
  rewrite IH. apply Permutation_swap.
Qed.

Lemma sort_by_perm l : sort_by l ≡ₚ l.
Proof. induction l as [|x l IH]; simpl; [done|]. by rewrite insert_by_perm, IH. Qed.

Context (leb_total : forall a b, leb a b = true \/ leb b a = true).
Context (leb_trans : forall a b c, leb a b = true -> leb b c = true -> leb a c = true).

Lemma insert_by_sorted x l :
  StronglySorted (fun a b => leb a b = true) l ->
  StronglySorted (fun a b => leb a b = true) (insert_by x l).
Proof.
  induction 1 as [|y l Hl IH Hy]; simpl; [repeat constructor|].
  destruct (leb x y) eqn:E.
  - constructor; [by constructor|]. constructor; [done|].
    eapply Forall_impl; [exact Hy|]. eauto.
  - constructor; [done|]. rewrite insert_by_perm. constructor; [|done].
    destruct (leb_total x y); congruence.
Qed.

Lemma sort_by_sorted l : StronglySorted (fun a b => leb a b = true) (sort_by l).
Proof. induction l; simpl; [constructor|]. by apply insert_by_sorted. Qed.
End sort_by.
