(* ===== verification/PyStr.v ===== *)
(** * Python string operations

    The [str] methods, formatting and regular-expression pieces the recorder
    core uses, on lists of characters, with the round trips between decimal
    text and integers that its filename and sentence grammars rest on.
    A [str] is a Latin-1 text; [casefold] folds the ASCII letters. *)

From Stdlib Require Import Ascii String ZArith Lia.
From stdpp Require Import base list gmap strings.
From S2P Require Import Prelude.

(** ** Character classes *)

Definition ord (c : ascii) : Z := Z.of_N (N_of_ascii c).
Definition chr (z : Z) : ascii := ascii_of_N (Z.to_N z).

Definition in_range (lo hi : Z) (c : ascii) : bool := (lo <=? ord c) && (ord c <=? hi).
Definition is_digit (c : ascii) : bool := in_range 48 57 c.
Definition is_upper (c : ascii) : bool := in_range 65 90 c.
Definition is_lower (c : ascii) : bool := in_range 97 122 c.
Definition is_alpha (c : ascii) : bool := is_upper c || is_lower c.
Definition is_alnum (c : ascii) : bool := is_alpha c || is_digit c.
(** [[a-z0-9]] *)
Definition is_lower_alnum (c : ascii) : bool := is_lower c || is_digit c.
(** [[0-9A-Fa-f]] *)
Definition is_hex (c : ascii) : bool := is_digit c || in_range 65 70 c || in_range 97 102 c.
(** [[A-Z0-9]] *)
Definition is_upper_alnum (c : ascii) : bool := is_upper c || is_digit c.

Definition char_eqb (a b : ascii) : bool := Ascii.eqb a b.

(** Membership of a character in a literal set. *)
Definition one_of (cs : string) (c : ascii) : bool := existsb (char_eqb c) (u cs).

(** Latin-1 whitespace, as [str.strip] without argument removes it. *)
Definition is_space (c : ascii) : bool :=
  in_range 9 13 c || in_range 28 32 c || (ord c =? 133) || (ord c =? 160).

Definition printable (c : ascii) : bool :=
  in_range 32 126 c || ((161 <=? ord c) && negb (ord c =? 173)).

Definition isascii (s : str) : bool := forallb (fun c => ord c <? 128) s.
Definition isprintable (s : str) : bool := forallb printable s.
Definition isdecimal (s : str) : bool := negb (bool_decide (s = [])) && forallb is_digit s.

Definition upper_char (c : ascii) : ascii := if is_lower c then chr (ord c - 32) else c.
Definition lower_char (c : ascii) : ascii := if is_upper c then chr (ord c + 32) else c.
Definition upper (s : str) : str := map upper_char s.
Definition casefold (s : str) : str := map lower_char s.

Definition len (s : str) : Z := Z.of_nat (length s).

(** ** Searching and cutting *)

Definition contains (c : ascii) (s : str) : bool := existsb (char_eqb c) s.

Fixpoint startswith (p s : str) : bool :=
  match p, s with
  | [], _ => true
  | a :: p', b :: s' => char_eqb a b && startswith p' s'
  | _ :: _, [] => false
  end.

Definition endswith (p s : str) : bool := startswith (rev p) (rev s).

Definition removesuffix (p s : str) : str :=
  if endswith p s then take (length s - length p) s else s.

(** [sub in s] *)
Fixpoint contains_str (p s : str) : bool :=
  startswith p s || match s with [] => false | _ :: s' => contains_str p s' end.

(** [s.split(c)]: never empty. *)
Fixpoint split_on (c : ascii) (s : str) : list str :=
  match s with
  | [] => [[]]
  | x :: s' =>
      if char_eqb x c then [] :: split_on c s'
      else match split_on c s' with
           | p :: ps => (x :: p) :: ps
           | [] => [[x]]
           end
  end.

Fixpoint join_with (c : ascii) (parts : list str) : str :=
  match parts with
  | [] => []
  | [p] => p
  | p :: ps => p ++ c :: join_with c ps
  end.

(** The maximal prefix of characters in a class, and the rest. *)
Fixpoint span (f : ascii -> bool) (s : str) : str * str :=
  match s with
  | [] => ([], [])
  | x :: s' => if f x then let '(a, b) := span f s' in (x :: a, b) else ([], s)
  end.

Definition lstrip_by (f : ascii -> bool) (s : str) : str := snd (span f s).
Definition rstrip_by (f : ascii -> bool) (s : str) : str := rev (lstrip_by f (rev s)).
Definition strip_by (f : ascii -> bool) (s : str) : str := rstrip_by f (lstrip_by f s).

(** [s.partition(c)] as (head, separator found, tail). *)
Fixpoint partition (c : ascii) (s : str) : str * bool * str :=
  match s with
  | [] => ([], false, [])
  | x :: s' =>
      if char_eqb x c then ([], true, s')
      else let '(h, f, t) := partition c s' in (x :: h, f, t)
  end.

(** A literal prefix of a regular expression. *)
Fixpoint eat (p s : str) : option str :=
  match p, s with
  | [], _ => Some s
  | a :: p', b :: s' => if char_eqb a b then eat p' s' else None
  | _ :: _, [] => None
  end.

(** Exactly [n] characters of a class, then the rest. *)
Fixpoint eat_n (f : ascii -> bool) (n : nat) (s : str) : option (str * str) :=
  match n, s with
  | O, _ => Some ([], s)
  | S n', x :: s' =>
      if f x then match eat_n f n' s' with
                  | Some (a, b) => Some (x :: a, b)
                  | None => None
                  end
      else None
  | S _, [] => None
  end.

(** ** Lines and words *)

Definition removeprefix (p s : str) : str := if startswith p s then drop (length p) s else s.

(** The Latin-1 line boundaries of [str.splitlines]. *)
Definition is_line_break (c : ascii) : bool := in_range 10 13 c || in_range 28 30 c || (ord c =? 133).

(** [s.splitlines()]: a carriage return and a line feed are one boundary. *)
Fixpoint splitlines (s : str) : list str :=
  match s with
  | [] => []
  | c :: r =>
      if is_line_break c then
        match r with
        | d :: r' => if (ord c =? 13) && (ord d =? 10) then [] :: splitlines r' else [] :: splitlines r
        | [] => [[]]
        end
      else
        match splitlines r with
        | l :: ls => (c :: l) :: ls
        | [] => [[c]]
        end
  end.

(** [s.split()], with the word read so far. *)
Fixpoint words_from (w s : str) : list str :=
  let flush := if bool_decide (w = []) then [] else [w] in
  match s with
  | [] => flush
  | c :: r => if is_space c then flush ++ words_from [] r else words_from (w ++ [c]) r
  end.
Definition words (s : str) : list str := words_from [] s.

(** [s.count(p)] and [s.replace(p, new)] of a non-empty [p], with the characters of an occurrence left. *)
Fixpoint count_from (skip : nat) (p s : str) : Z :=
  match s, skip with
  | [], _ => 0
  | _ :: r, S k => count_from k p r
  | _ :: r, O => if startswith p s then 1 + count_from (length p - 1) p r else count_from 0 p r
  end.
Definition count_str (p s : str) : Z := count_from 0 p s.

Fixpoint replace_from (skip : nat) (p new s : str) : str :=
  match s, skip with
  | [], _ => []
  | _ :: r, S k => replace_from k p new r
  | c :: r, O =>
      if startswith p s then new ++ replace_from (length p - 1) p new r else c :: replace_from 0 p new r
  end.
Definition replace_str (p new s : str) : str := replace_from 0 p new s.

(** [s.encode()]: UTF-8, one byte below U+0080 and two below U+0100. *)
Definition encode (s : str) : list Byte.byte :=
  flat_map (fun c => if ord c <? 128 then [byte_of_ascii c]
                     else [byte_of_ascii (chr (192 + ord c / 64)); byte_of_ascii (chr (128 + ord c mod 64))]) s.

(** ** [PurePosixPath]

    A path text is read as its root and its parts; empty and [.] parts vanish. *)

Definition slash : ascii := "/"%char.

Definition path_parts (s : str) : list str :=
  List.filter (fun p => negb (bool_decide (p = [])) && negb (bool_decide (p = u "."))) (split_on slash s).

Definition path_root (s : str) : str :=
  if startswith (u "//") s && negb (startswith (u "///") s) then u "//"
  else if startswith (u "/") s then u "/" else [].

Definition as_posix (root : str) (parts : list str) : str :=
  match root, parts with
  | [], [] => u "."
  | _, _ => root ++ join_with slash parts
  end.

(** [PurePosixPath(s).name] *)
Definition path_name (s : str) : str := List.last (path_parts s) [].
(** [PurePosixPath(s).parent.as_posix()] *)
Definition path_parent (s : str) : str := as_posix (path_root s) (removelast (path_parts s)).
(** [PurePosixPath(directory, name).as_posix()] for a relative [name]. *)
Definition path_join (directory name : str) : str :=
  as_posix (path_root directory) (path_parts directory ++ path_parts name).

(** ** Decimal text *)

Definition digit_char (d : Z) : ascii := chr (48 + d).

(** The [k] low decimal digits of [n], most significant first. *)
Fixpoint digits_fixed (k : nat) (n : Z) : str :=
  match k with
  | O => []
  | S k' => digits_fixed k' (n / 10) ++ [digit_char (n mod 10)]
  end.

Fixpoint ndigits_fuel (fuel : nat) (n : Z) : nat :=
  match fuel with
  | O => 1
  | S f => if n <? 10 then 1%nat else S (ndigits_fuel f (n / 10))
  end.

(** Number of decimal digits of a non-negative integer. *)
Definition ndigits (n : Z) : nat := ndigits_fuel (Z.to_nat (Z.log2 n)) n.

(** [f"{n:0{w}d}"] for [n >= 0]; [zpad 0 n] is [str(n)]. *)
Definition zpad (w : nat) (n : Z) : str := digits_fixed (Nat.max w (ndigits n)) n.

(** [int(s)] for a text of decimal digits. *)
Definition int_of_digits (s : str) : Z := foldl (fun acc c => acc * 10 + (ord c - 48)) 0 s.

(** ** Lemmas *)

Lemma char_eqb_eq a b : char_eqb a b = true <-> a = b.
Proof. apply Ascii.eqb_eq. Qed.

Lemma char_eqb_neq a b : char_eqb a b = false <-> a <> b.
Proof. apply Ascii.eqb_neq. Qed.

Lemma char_eqb_refl a : char_eqb a a = true.
Proof. by apply char_eqb_eq. Qed.

Lemma ord_chr z : 0 <= z < 256 -> ord (chr z) = z.
Proof.
  intros Hz. unfold ord, chr. rewrite N_ascii_embedding; lia.
Qed.

Lemma ord_bounds c : 0 <= ord c < 256.
Proof. unfold ord. pose proof (N_ascii_bounded c). lia. Qed.

Lemma chr_ord c : chr (ord c) = c.
Proof. unfold ord, chr. by rewrite N2Z.id, ascii_N_embedding. Qed.

Lemma in_range_iff lo hi c : in_range lo hi c = true <-> lo <= ord c <= hi.
Proof. unfold in_range. rewrite andb_true_iff, !Z.leb_le. lia. Qed.

Lemma is_digit_iff c : is_digit c = true <-> 48 <= ord c <= 57.
Proof. apply in_range_iff. Qed.

Lemma ord_digit_char d : 0 <= d < 10 -> ord (digit_char d) = 48 + d.
Proof. intros. apply ord_chr. lia. Qed.

Lemma is_digit_digit_char d : 0 <= d < 10 -> is_digit (digit_char d) = true.
Proof. intros. apply is_digit_iff. rewrite ord_digit_char; lia. Qed.

Lemma digits_fixed_length k n : length (digits_fixed k n) = k.
Proof.
  revert n. induction k as [|k IH]; intros n; simpl; [done|].
  rewrite length_app, IH. simpl. lia.
Qed.

Lemma digits_fixed_digits k n : Forall (fun c => is_digit c = true) (digits_fixed k n).
Proof.
  revert n. induction k as [|k IH]; intros n; simpl; [constructor|].
  apply Forall_app. split; [apply IH|]. repeat constructor.
  apply is_digit_digit_char, Z.mod_pos_bound. lia.
Qed.

Lemma int_of_digits_snoc s c : int_of_digits (s ++ [c]) = int_of_digits s * 10 + (ord c - 48).
Proof. unfold int_of_digits. by rewrite foldl_app. Qed.

Lemma int_of_digits_fixed k n : int_of_digits (digits_fixed k n) = n mod 10 ^ Z.of_nat k.
Proof.
  revert n. induction k as [|k IH]; intros n; [simpl; by rewrite Z.mod_1_r|].
  cbn [digits_fixed]. rewrite int_of_digits_snoc, IH, ord_digit_char by (apply Z.mod_pos_bound; lia).
  rewrite Nat2Z.inj_succ, Z.pow_succ_r by lia.
  rewrite (Z.rem_mul_r n 10 (10 ^ Z.of_nat k)) by lia. lia.
Qed.

Lemma int_of_digits_fixed_small k n :
  0 <= n < 10 ^ Z.of_nat k -> int_of_digits (digits_fixed k n) = n.
Proof. intros. rewrite int_of_digits_fixed. by apply Z.mod_small. Qed.

Lemma int_of_digits_bounds s :
  Forall (fun c => is_digit c = true) s -> 0 <= int_of_digits s < 10 ^ len s.
Proof.
  induction s as [|c s IH] using rev_ind; [cbn -[Z.lt]; intros; vm_compute; done|].
  intros [Hs Hc]%Forall_app. specialize (IH Hs). apply Forall_singleton, is_digit_iff in Hc.
  rewrite int_of_digits_snoc. unfold len in *. rewrite length_app. cbn [length].
  rewrite Nat2Z.inj_add. change (Z.of_nat 1) with 1. rewrite Z.pow_add_r by lia. lia.
Qed.

(** Parsing is injective on digit texts of one length. *)
Lemma digits_fixed_int s :
  Forall (fun c => is_digit c = true) s -> digits_fixed (length s) (int_of_digits s) = s.
Proof.
  induction s as [|c s IH] using rev_ind; [done|].
  intros [Hs Hc]%Forall_app. apply Forall_singleton, is_digit_iff in Hc.
  rewrite length_app. cbn [length]. rewrite Nat.add_comm. cbn [Nat.add digits_fixed].
  rewrite int_of_digits_snoc, Z.div_add_l by lia.
  rewrite (Z.div_small (ord c - 48)), Z.add_0_r, (IH Hs) by lia.
  rewrite Z.add_comm, Z.mod_add, Z.mod_small by lia.
  unfold digit_char. replace (48 + (ord c - 48)) with (ord c) by lia. by rewrite chr_ord.
Qed.

Lemma ndigits_fuel_le fuel n w :
  (1 <= w)%nat -> 0 <= n < 10 ^ Z.of_nat w -> (ndigits_fuel fuel n <= w)%nat.
Proof.
  revert n w. induction fuel as [|f IH]; intros n w Hw Hn; simpl; [lia|].
  destruct (n <? 10) eqn:E; [lia|]. apply Z.ltb_ge in E.
  destruct w as [|[|w]]; [lia|cbn in Hn; lia|].
  apply le_n_S, IH; [lia|].
  rewrite (Nat2Z.inj_succ (S w)), Z.pow_succ_r in Hn by lia.
  split; [apply Z.div_pos; lia|apply Z.div_lt_upper_bound; lia].
Qed.

Lemma zpad_fixed w n :
  (1 <= w)%nat -> 0 <= n < 10 ^ Z.of_nat w -> zpad w n = digits_fixed w n.
Proof.
  intros Hw Hn. unfold zpad, ndigits. f_equal.
  pose proof (ndigits_fuel_le (Z.to_nat (Z.log2 n)) n w Hw Hn). lia.
Qed.

(** Years of four digits are rendered as four digits. *)
Lemma zpad_0_year n : 1000 <= n < 10000 -> zpad 0 n = digits_fixed 4 n.
Proof.
  intros Hn. unfold zpad, ndigits. f_equal. rewrite Nat.max_0_l.
  assert (9 <= Z.log2 n) as Hl by (apply Z.log2_le_pow2; lia).
  replace (Z.to_nat (Z.log2 n)) with (S (S (S (S (Z.to_nat (Z.log2 n) - 4))))) by lia.
  cbn [ndigits_fuel]. rewrite !Z.div_div by lia. change (10 * 10 * 10) with 1000. change (10 * 10) with 100.
  pose proof (Z.div_le_lower_bound n 10 100 ltac:(lia) ltac:(lia)).
  pose proof (Z.div_le_lower_bound n 100 10 ltac:(lia) ltac:(lia)).
  pose proof (Z.div_lt_upper_bound n 1000 10 ltac:(lia) ltac:(lia)).
  replace (n <? 10) with false by lia. replace (n / 10 <? 10) with false by lia.
  replace (n / 100 <? 10) with false by lia. by replace (n / 1000 <? 10) with true by lia.
Qed.

Lemma eat_app p s : eat p (p ++ s) = Some s.
Proof. induction p as [|a p IH]; simpl; [done|]. by rewrite char_eqb_refl. Qed.

Lemma eat_inv p s r : eat p s = Some r -> s = p ++ r.
Proof.
  revert s. induction p as [|a p IH]; intros [|b s]; simpl; try naive_solver.
  destruct (char_eqb a b) eqn:E; [|done]. apply char_eqb_eq in E. intros ->%IH. by subst.
Qed.

Lemma eat_n_app f n s r :
  length s = n -> Forall (fun c => f c = true) s -> eat_n f n (s ++ r) = Some (s, r).
Proof.
  revert n. induction s as [|x s IH]; intros [|n] Hn Hf; simpl in *; try done.
  apply Forall_cons in Hf as [-> Hf]. by rewrite (IH n) by (done || lia).
Qed.

Lemma eat_n_inv f n s a r :
  eat_n f n s = Some (a, r) -> s = a ++ r /\ length a = n /\ Forall (fun c => f c = true) a.
Proof.
  revert s a. induction n as [|n IH]; intros s a; simpl; [by intros [= <- <-]|].
  destruct s as [|x s]; [done|].
  destruct (f x) eqn:E; [|done]. destruct (eat_n f n s) as [[a' r']|] eqn:E'; [|done].
  intros [= <- <-]. destruct (IH _ _ E') as (-> & <- & ?).
  repeat split. by constructor.
Qed.

Lemma span_app_stop f s x r :
  Forall (fun c => f c = true) s -> f x = false -> span f (s ++ x :: r) = (s, x :: r).
Proof.
  induction 1 as [|c s Hc Hs IH]; simpl; intros Hx; [by rewrite Hx|].
  rewrite Hc. by rewrite (IH Hx).
Qed.

Lemma span_inv f s a r :
  span f s = (a, r) -> s = a ++ r /\ Forall (fun c => f c = true) a.
Proof.
  revert a. induction s as [|x s IH]; intros a; simpl; [by intros [= <- <-]|].
  destruct (f x) eqn:E; [|by intros [= <- <-]].
  destruct (span f s) as [a' r'] eqn:E'. intros [= <- <-].
  destruct (IH _ eq_refl) as [-> ?]. split; [done|by constructor].
Qed.

Lemma contains_false_iff c s : contains c s = false <-> c ∉ s.
Proof.
  unfold contains. induction s as [|x s IH]; simpl; [split; [intros _; apply not_elem_of_nil|done]|].
  rewrite orb_false_iff, IH, not_elem_of_cons, char_eqb_neq. done.
Qed.

Lemma contains_true_iff c s : contains c s = true <-> c ∈ s.
Proof.
  rewrite <- not_false_iff_true, contains_false_iff. split; [|tauto].
  intros ?. by apply dec_stable.
Qed.

Lemma split_on_not_nil c s : split_on c s <> [].
Proof. destruct s as [|x s]; simpl; [done|]. repeat case_match; done. Qed.

(** [c.join(s.split(c)) == s] *)
Lemma join_split c s : join_with c (split_on c s) = s.
Proof.
  induction s as [|x s IH]; simpl; [done|].
  pose proof (split_on_not_nil c s).
  destruct (char_eqb x c) eqn:E.
  - apply char_eqb_eq in E as ->. destruct (split_on c s) eqn:E'; [done|].
    rewrite <- IH. done.
  - destruct (split_on c s) as [|p ps] eqn:E'; [done|].
    rewrite <- IH. by destruct ps.
Qed.

Lemma split_on_no_sep c s : Forall (fun p => c ∉ p) (split_on c s).
Proof.
  induction s as [|x s IH]; simpl; [repeat constructor; apply not_elem_of_nil|].
  destruct (char_eqb x c) eqn:E; [by constructor; [apply not_elem_of_nil|]|].
  apply char_eqb_neq in E. destruct (split_on c s) as [|p ps].
  - repeat constructor. intros ?%list_elem_of_singleton. congruence.
  - apply Forall_cons in IH as [Hp Hps]. constructor; [|done].
    rewrite not_elem_of_cons. naive_solver.
Qed.

Lemma split_on_single c s : c ∉ s -> split_on c s = [s].
Proof.
  induction s as [|x s IH]; simpl; [done|]. rewrite not_elem_of_cons. intros [Hx Hs].
  rewrite (IH Hs). destruct (char_eqb x c) eqn:E; [apply char_eqb_eq in E; congruence|done].
Qed.

Lemma split_on_app_sep c p s : c ∉ p -> split_on c (p ++ c :: s) = p :: split_on c s.
Proof.
  induction p as [|x p IH]; simpl; [by rewrite char_eqb_refl|].
  rewrite not_elem_of_cons. intros [Hx Hp]. rewrite (IH Hp).
  destruct (char_eqb x c) eqn:E; [apply char_eqb_eq in E; congruence|done].
Qed.

Lemma startswith_app p s : startswith p (p ++ s) = true.
Proof. induction p as [|a p IH]; simpl; [done|]. by rewrite char_eqb_refl. Qed.

Lemma endswith_app p s : endswith p (s ++ p) = true.
Proof. unfold endswith. rewrite rev_app_distr. apply startswith_app. Qed.

Lemma startswith_inv p s : startswith p s = true -> exists r, s = p ++ r.
Proof.
  revert s. induction p as [|a p IH]; intros s; simpl; [by exists s|].
  destruct s as [|b s]; [done|]. intros [E H]%andb_true_iff. apply char_eqb_eq in E as ->.
  destruct (IH _ H) as [r ->]. by exists r.
Qed.

Lemma endswith_inv p s : endswith p s = true -> exists r, s = r ++ p.
Proof.
  intros [r Hr]%startswith_inv. exists (rev r).
  rewrite <- (rev_involutive s), Hr, rev_app_distr. by rewrite rev_involutive.
Qed.

Lemma removesuffix_app p s : removesuffix p (s ++ p) = s.
Proof.
  unfold removesuffix. rewrite endswith_app, length_app.
  replace (length s + length p - length p)%nat with (length s) by lia.
  by rewrite take_app_length.
Qed.

Lemma forallb_Forall {A} (f : A -> bool) l : forallb f l = true <-> Forall (fun x => f x = true) l.
Proof. by rewrite forallb_forall, List.Forall_forall. Qed.

Lemma lstrip_by_id f s : (forall c r, s = c :: r -> f c = false) -> lstrip_by f s = s.
Proof. destruct s as [|c s]; [done|]. intros H. unfold lstrip_by. simpl. by rewrite (H c s). Qed.

#[export] Hint Resolve digits_fixed_digits : dashcam.

(** ** Decimal integers *)

Lemma ndigits_fuel_bound fuel n :
  0 <= n < 2 ^ Z.of_nat (S fuel) -> n < 10 ^ Z.of_nat (ndigits_fuel fuel n).
Proof.
  revert n. induction fuel as [|f IH]; intros n Hn; simpl ndigits_fuel; [cbn in *; lia|].
  destruct (n <? 10) eqn:E; bool_prop; [cbn; lia|].
  rewrite Nat2Z.inj_succ, Z.pow_succ_r in Hn by lia.
  specialize (IH (n / 10)). rewrite Nat2Z.inj_succ, Z.pow_succ_r by lia.
  assert (0 <= n / 10 < 2 ^ Z.of_nat (S f)).
  { split; [apply Z.div_pos; lia|]. apply Z.div_lt_upper_bound; lia. }
  pose proof (Z.mod_pos_bound n 10 ltac:(lia)). pose proof (Z.div_mod n 10 ltac:(lia)). lia.
Qed.

Lemma zpad_0_int n : 0 <= n -> int_of_digits (zpad 0 n) = n.
Proof.
  intros Hn. unfold zpad. rewrite Nat.max_0_l. apply int_of_digits_fixed_small. split; [done|].
  apply ndigits_fuel_bound. split; [done|]. rewrite Nat2Z.inj_succ, Z2Nat.id by apply Z.log2_nonneg.
  destruct (decide (n = 0)) as [->|]; [by vm_compute|]. apply Z.log2_spec. lia.
Qed.

Lemma zpad_0_not_nil n : zpad 0 n <> [].
Proof.
  unfold zpad, ndigits. rewrite Nat.max_0_l. intros E. apply (f_equal length) in E.
  rewrite digits_fixed_length in E. simpl in E. destruct (Z.to_nat (Z.log2 n)); simpl in E; [done|].
  by destruct (n <? 10).
Qed.

Lemma ndigits_fuel_lower fuel n : 0 < n -> 10 ^ (Z.of_nat (ndigits_fuel fuel n) - 1) <= n.
Proof.
  revert n. induction fuel as [|f IH]; intros n Hn; simpl ndigits_fuel; [cbn; lia|].
  destruct (n <? 10) eqn:E; bool_prop; [cbn; lia|].
  assert (0 < n / 10) as Hq by (apply Z.div_str_pos; lia). specialize (IH _ Hq).
  replace (Z.of_nat (S (ndigits_fuel f (n / 10))) - 1) with (Z.succ (Z.of_nat (ndigits_fuel f (n / 10)) - 1)) by lia.
  assert (1 <= ndigits_fuel f (n / 10))%nat by (destruct f; simpl; [lia|destruct (_ <? _); lia]).
  rewrite Z.pow_succ_r by lia. pose proof (Z.div_mod n 10 ltac:(lia)).
  pose proof (Z.mod_pos_bound n 10 ltac:(lia)). lia.
Qed.

Lemma int_of_digits_cons c s : int_of_digits (c :: s) = (ord c - 48) * 10 ^ len s + int_of_digits s.
Proof.
  induction s as [|d s IH] using rev_ind; [unfold int_of_digits, len; cbn [foldl length]; lia|].
  change (c :: s ++ [d]) with ((c :: s) ++ [d]). rewrite !int_of_digits_snoc, IH. unfold len.
  rewrite length_app, Nat2Z.inj_add. change (Z.of_nat (length [d])) with 1.
  rewrite Z.pow_add_r by lia. lia.
Qed.

(** No leading zero. *)
Lemma zpad_0_head n : 0 < n -> exists c r, zpad 0 n = c :: r /\ is_digit c = true /\ c <> "0"%char.
Proof.
  intros Hn. pose proof (zpad_0_not_nil n) as Hnil. pose proof (zpad_0_int n ltac:(lia)) as Hint.
  unfold zpad in *. rewrite Nat.max_0_l in *.
  pose proof (digits_fixed_digits (ndigits n) n) as Hd. pose proof (digits_fixed_length (ndigits n) n) as Hl.
  destruct (digits_fixed (ndigits n) n) as [|c r]; [done|]. exists c, r.
  apply Forall_cons in Hd as [Hc Hr]. split_and!; try done. intros ->.
  rewrite int_of_digits_cons in Hint. change (ord "0" - 48) with 0 in Hint.
  pose proof (int_of_digits_bounds r Hr) as Hb. pose proof (ndigits_fuel_lower (Z.to_nat (Z.log2 n)) n Hn) as Hlow.
  unfold ndigits in Hl. unfold len in Hb. cbn [length] in Hl. rewrite <- Hl, Nat2Z.inj_succ in Hlow.
  replace (Z.succ (Z.of_nat (length r)) - 1) with (Z.of_nat (length r)) in Hlow by lia. lia.
Qed.

Lemma zpad_0_zero : zpad 0 0 = ["0"%char].
Proof. reflexivity. Qed.

(** ** Cuts *)

Lemma partition_app c a b : c ∉ a -> partition c (a ++ c :: b) = (a, true, b).
Proof.
  induction a as [|x a IH]; simpl; [by rewrite char_eqb_refl|].
  rewrite not_elem_of_cons. intros [Hx Ha]. destruct (char_eqb x c) eqn:E; [apply char_eqb_eq in E; congruence|].
  by rewrite IH.
Qed.

Lemma span_app_end f s r :
  Forall (fun c => f c = true) s -> (forall c r', r = c :: r' -> f c = false) -> span f (s ++ r) = (s, r).
Proof.
  intros Hs Hr. destruct r as [|x r].
  - rewrite app_nil_r. induction Hs as [|c s Hc _ IH]; simpl; [done|]. by rewrite Hc, IH.
  - apply span_app_stop; [done|]. by apply (Hr x r).
Qed.
