(* ===== verification/DateTime.v ===== *)
(** * Python [datetime] values

    The proleptic Gregorian calendar of Python's [datetime] module as far as the
    GPS, clock and file-naming code uses it: validated construction, ordinals,
    aware and naive values, conversion to UTC and addition of a [timedelta]
    with its [OverflowError]. A [timedelta] is its number of microseconds. *)

From Stdlib Require Import Ascii String ZArith Lia Bool.
From stdpp Require Import base list.
From S2P Require Import Prelude.

Definition is_leap (y : Z) : bool :=
  (y mod 4 =? 0) && (negb (y mod 100 =? 0) || (y mod 400 =? 0)).

Definition days_in_month (y m : Z) : Z :=
  match m with
  | 2 => if is_leap y then 29 else 28
  | 4 | 6 | 9 | 11 => 30
  | _ => 31
  end.

(** Days before January 1st of year [y], counted from 0001-01-01. *)
Definition days_before_year (y : Z) : Z :=
  (y - 1) * 365 + (y - 1) / 4 - (y - 1) / 100 + (y - 1) / 400.

Definition days_before_month (y m : Z) : Z :=
  let l := if is_leap y then 1 else 0 in
  match m with
  | 1 => 0 | 2 => 31
  | 3 => 59 + l | 4 => 90 + l | 5 => 120 + l | 6 => 151 + l | 7 => 181 + l
  | 8 => 212 + l | 9 => 243 + l | 10 => 273 + l | 11 => 304 + l | _ => 334 + l
  end.

Definition toordinal (y m d : Z) : Z := days_before_year y + days_before_month y m + d.

(** The year holding ordinal [n]: 400-, 100-, 4- and 1-year cycles. *)
Definition year_of_ordinal (n : Z) : Z :=
  let n0 := n - 1 in
  let a := n0 / 146097 in let r := n0 mod 146097 in
  let b := r / 36524 in let r := r mod 36524 in
  let c := r / 1461 in let r := r mod 1461 in
  let d := r / 365 in
  let y := a * 400 + b * 100 + c * 4 + d + 1 in
  if (d =? 4) || (b =? 4) then y - 1 else y.

(** The month holding day [k] (from 1) of year [y]. *)
Definition month_of_day (y k : Z) : Z :=
  if k <=? days_before_month y 2 then 1 else if k <=? days_before_month y 3 then 2
  else if k <=? days_before_month y 4 then 3 else if k <=? days_before_month y 5 then 4
  else if k <=? days_before_month y 6 then 5 else if k <=? days_before_month y 7 then 6
  else if k <=? days_before_month y 8 then 7 else if k <=? days_before_month y 9 then 8
  else if k <=? days_before_month y 10 then 9 else if k <=? days_before_month y 11 then 10
  else if k <=? days_before_month y 12 then 11 else 12.

Definition fromordinal (n : Z) : Z * Z * Z :=
  let y := year_of_ordinal n in
  let k := n - days_before_year y in
  let m := month_of_day y k in
  (y, m, k - days_before_month y m).

Record date := mkDate { d_year : Z; d_month : Z; d_day : Z }.

Definition date_valid (y m d : Z) : bool :=
  (1 <=? y) && (y <=? 9999) && (1 <=? m) && (m <=? 12) && (1 <=? d) && (d <=? days_in_month y m).

(** [date(year, month, day)] *)
Definition date_new (y m d : Z) : result date :=
  if date_valid y m d then Ok (mkDate y m d)
  else Err (Exn ValueError "date field is out of range").

Record time := mkTime { t_hour : Z; t_minute : Z; t_second : Z; t_us : Z }.

Definition time_valid (h mi s us : Z) : bool :=
  (0 <=? h) && (h <=? 23) && (0 <=? mi) && (mi <=? 59) && (0 <=? s) && (s <=? 59) &&
  (0 <=? us) && (us <=? 999999).

(** [time(hour, minute, second, microsecond, tzinfo=UTC)] *)
Definition time_new (h mi s us : Z) : result time :=
  if time_valid h mi s us then Ok (mkTime h mi s us)
  else Err (Exn ValueError "time field is out of range").

(** A [datetime]: its local fields and its UTC offset in microseconds; [None] when naive. *)
Record datetime := mkDT { dt_date : date; dt_time : time; dt_off : option Z }.

#[export] Instance date_eq_dec : EqDecision date. Proof. solve_decision. Defined.
#[export] Instance time_eq_dec : EqDecision time. Proof. solve_decision. Defined.
#[export] Instance datetime_eq_dec : EqDecision datetime. Proof. solve_decision. Defined.

Definition day_us : Z := 86400 * 1000000.
(** One past the last representable local microsecond, 9999-12-31T23:59:59.999999. *)
Definition max_us : Z := 3652059 * day_us.

Definition time_us (t : time) : Z :=
  ((t_hour t * 60 + t_minute t) * 60 + t_second t) * 1000000 + t_us t.

(** Local microseconds since 0001-01-01T00:00:00. *)
Definition local_us (dt : datetime) : Z :=
  (toordinal (d_year (dt_date dt)) (d_month (dt_date dt)) (d_day (dt_date dt)) - 1) * day_us
  + time_us (dt_time dt).

Definition time_of_us (n : Z) : time :=
  mkTime (n / 3600000000) (n / 60000000 mod 60) (n / 1000000 mod 60) (n mod 1000000).

Definition dt_of_us (n : Z) (off : option Z) : result datetime :=
  if (0 <=? n) && (n <? max_us) then
    let '(y, m, d) := fromordinal (n / day_us + 1) in
    Ok (mkDT (mkDate y m d) (time_of_us (n mod day_us)) off)
  else Err (Exn OverflowError "date value out of range").

(** [dt + timedelta(microseconds=delta)] *)
Definition dt_add (dt : datetime) (delta : Z) : result datetime :=
  dt_of_us (local_us dt + delta) (dt_off dt).

(** Position of an aware value on the UTC time line. *)
Definition utc_us (dt : datetime) : Z := local_us dt - default 0 (dt_off dt).

(** [dt.astimezone(UTC)]; a naive value would be read in the system's zone, and
    every caller modelled here has excluded it. *)
Definition astimezone_utc (dt : datetime) : result datetime := dt_of_us (utc_us dt) (Some 0).

Definition is_aware (dt : datetime) : bool := bool_decide (is_Some (dt_off dt)).

Definition date_ok (d : date) : Prop := date_valid (d_year d) (d_month d) (d_day d) = true.
Definition time_ok (t : time) : Prop :=
  time_valid (t_hour t) (t_minute t) (t_second t) (t_us t) = true.
(** What the [datetime] constructor guarantees. *)
Definition dt_ok (dt : datetime) : Prop := date_ok (dt_date dt) /\ time_ok (dt_time dt).

(** ** The calendar is a bijection *)

(** [lia] decides division and remainder by numerals in this file. *)
#[local] Ltac Zify.zify_post_hook ::= Z.to_euclidean_division_equations.

Lemma days_before_year_succ y :
  days_before_year (y + 1) = days_before_year y + 365 + (if is_leap y then 1 else 0).
Proof.
  unfold days_before_year, is_leap.
  destruct (y mod 4 =? 0) eqn:E4, (y mod 100 =? 0) eqn:E100, (y mod 400 =? 0) eqn:E400;
    simpl; bool_prop; lia.
Qed.

Lemma days_before_year_lt y1 y2 : y1 < y2 -> days_before_year (y1 + 1) <= days_before_year y2.
Proof. unfold days_before_year. lia. Qed.

Lemma year_unique n y1 y2 :
  days_before_year y1 < n <= days_before_year (y1 + 1) ->
  days_before_year y2 < n <= days_before_year (y2 + 1) -> y1 = y2.
Proof.
  intros H1 H2. destruct (Z.lt_trichotomy y1 y2) as [H|[H|H]]; [|done|];
    apply days_before_year_lt in H; lia.
Qed.

Lemma year_of_ordinal_spec n :
  days_before_year (year_of_ordinal n) < n <= days_before_year (year_of_ordinal n + 1).
Proof.
  unfold year_of_ordinal. cbv zeta.
  set (a := (n - 1) / 146097). set (r := (n - 1) mod 146097).
  set (b := r / 36524). set (r' := r mod 36524). set (c := r' / 1461). set (r'' := r' mod 1461).
  assert (n = 146097 * a + r + 1 /\ 0 <= r < 146097) as [Hn Hr] by lia.
  assert (r = 36524 * b + r' /\ 0 <= r' < 36524 /\ 0 <= b <= 4) as (Hb & Hr' & Hb') by lia.
  assert (r' = 1461 * c + r'' /\ 0 <= r'' < 1461 /\ 0 <= c <= 24) as (Hc & Hr'' & Hc') by lia.
  assert (0 <= r'' / 365 <= 4) as Hd by lia.
  clearbody a r b r' c r''. unfold days_before_year.
  destruct ((r'' / 365 =? 4) || (b =? 4)) eqn:E; bool_prop; [|lia].
  apply orb_true_iff in E as [E|E]; bool_prop; lia.
Qed.

Lemma year_of_ordinal_eq y n :
  days_before_year y < n <= days_before_year (y + 1) -> year_of_ordinal n = y.
Proof. intros H. exact (year_unique n _ _ (year_of_ordinal_spec n) H). Qed.

Ltac month_cases m :=
  let H := fresh in
  assert (m = 1 \/ m = 2 \/ m = 3 \/ m = 4 \/ m = 5 \/ m = 6 \/ m = 7 \/ m = 8 \/ m = 9
          \/ m = 10 \/ m = 11 \/ m = 12) as H by lia;
  destruct H as [->|[->|[->|[->|[->|[->|[->|[->|[->|[->|[->| ->]]]]]]]]]]].

Lemma day_of_year_bounds y m d :
  1 <= m <= 12 -> 1 <= d <= days_in_month y m ->
  1 <= days_before_month y m + d <= 365 + (if is_leap y then 1 else 0).
Proof.
  intros Hm. unfold days_in_month, days_before_month.
  month_cases m; destruct (is_leap y); lia.
Qed.

Lemma month_of_day_eq y m d :
  1 <= m <= 12 -> 1 <= d <= days_in_month y m ->
  month_of_day y (days_before_month y m + d) = m.
Proof.
  intros Hm Hd. unfold month_of_day.
  month_cases m; unfold days_before_month, days_in_month in *; destruct (is_leap y);
    repeat match goal with |- context [?a <=? ?b] => destruct (Z.leb_spec a b) end;
    first [reflexivity | lia].
Qed.

Lemma month_of_day_spec y k :
  1 <= k <= 365 + (if is_leap y then 1 else 0) ->
  1 <= month_of_day y k <= 12 /\
  1 <= k - days_before_month y (month_of_day y k) <= days_in_month y (month_of_day y k).
Proof.
  intros Hk. unfold month_of_day.
  repeat match goal with |- context [k <=? ?b] => destruct (Z.leb_spec k b) end;
    unfold days_before_month, days_in_month in *; destruct (is_leap y); lia.
Qed.

Lemma date_valid_iff y m d :
  date_valid y m d = true <-> 1 <= y <= 9999 /\ 1 <= m <= 12 /\ 1 <= d <= days_in_month y m.
Proof. unfold date_valid. rewrite !andb_true_iff, !Z.leb_le. tauto. Qed.

Lemma time_valid_iff h mi s us :
  time_valid h mi s us = true <->
  0 <= h <= 23 /\ 0 <= mi <= 59 /\ 0 <= s <= 59 /\ 0 <= us <= 999999.
Proof. unfold time_valid. rewrite !andb_true_iff, !Z.leb_le. tauto. Qed.

Lemma toordinal_year y m d :
  date_valid y m d = true ->
  days_before_year y < toordinal y m d <= days_before_year (y + 1).
Proof.
  intros (Hy & Hm & Hd)%date_valid_iff. unfold toordinal.
  pose proof (day_of_year_bounds y m d Hm Hd). rewrite days_before_year_succ. lia.
Qed.

(** [date.fromordinal(date.toordinal()) == date] *)
Lemma fromordinal_toordinal y m d :
  date_valid y m d = true -> fromordinal (toordinal y m d) = (y, m, d).
Proof.
  intros Hv. pose proof (toordinal_year y m d Hv) as H.
  unfold fromordinal. rewrite (year_of_ordinal_eq y _ H).
  apply date_valid_iff in Hv as (Hy & Hm & Hd).
  unfold toordinal.
  replace (days_before_year y + days_before_month y m + d - days_before_year y)
    with (days_before_month y m + d) by lia.
  rewrite month_of_day_eq by done. repeat f_equal. lia.
Qed.

Lemma fromordinal_valid n y m d :
  1 <= n <= 3652059 -> fromordinal n = (y, m, d) ->
  date_valid y m d = true /\ toordinal y m d = n.
Proof.
  intros Hn. unfold fromordinal. intros [= <- <- <-].
  pose proof (year_of_ordinal_spec n) as Hs. set (y := year_of_ordinal n) in *.
  rewrite days_before_year_succ in Hs.
  destruct (month_of_day_spec y (n - days_before_year y)) as [Hm Hd]; [lia|].
  split; [|unfold toordinal; lia].
  apply date_valid_iff. split; [|done].
  assert (year_of_ordinal n = y) as Hy by done. clearbody y.
  pose proof (year_of_ordinal_spec n) as Hs'. rewrite Hy in Hs'.
  unfold days_before_year in Hs'. lia.
Qed.

Lemma toordinal_range y m d : date_valid y m d = true -> 1 <= toordinal y m d <= 3652059.
Proof.
  intros Hv. pose proof (toordinal_year y m d Hv) as H.
  apply date_valid_iff in Hv as (Hy & Hm & Hd). unfold days_before_year in H. lia.
Qed.

Lemma time_us_bounds t : time_ok t -> 0 <= time_us t < day_us.
Proof. unfold time_ok. rewrite time_valid_iff. unfold time_us, day_us. lia. Qed.

Lemma time_of_us_time_us t : time_ok t -> time_of_us (time_us t) = t.
Proof.
  unfold time_ok. rewrite time_valid_iff. destruct t as [h mi s us]; simpl. intros Ht.
  unfold time_of_us, time_us; simpl. f_equal; lia.
Qed.

Lemma time_of_us_ok n :
  0 <= n < day_us -> time_ok (time_of_us n) /\ time_us (time_of_us n) = n.
Proof.
  unfold day_us. intros Hn. unfold time_ok, time_of_us, time_us; simpl.
  rewrite time_valid_iff. lia.
Qed.

Lemma local_us_bounds dt : dt_ok dt -> 0 <= local_us dt < max_us.
Proof.
  intros [Hd Ht]. apply time_us_bounds in Ht. apply toordinal_range in Hd.
  unfold local_us, max_us in *. nia.
Qed.

Lemma dt_of_us_local_us dt :
  dt_ok dt -> dt_of_us (local_us dt) (dt_off dt) = Ok dt.
Proof.
  intros Hok. pose proof (local_us_bounds dt Hok) as Hb. destruct Hok as [Hd Ht].
  unfold dt_of_us. replace ((0 <=? local_us dt) && (local_us dt <? max_us)) with true by lia.
  pose proof (time_us_bounds _ Ht) as Htb.
  unfold local_us. rewrite Z.div_add_l, Z.div_small, Z.add_0_r by (done || unfold day_us; lia).
  replace (toordinal (d_year (dt_date dt)) (d_month (dt_date dt)) (d_day (dt_date dt)) - 1 + 1)
    with (toordinal (d_year (dt_date dt)) (d_month (dt_date dt)) (d_day (dt_date dt))) by lia.
  rewrite fromordinal_toordinal by done.
  rewrite Z.add_comm, Z.mod_add, Z.mod_small by (done || unfold day_us; lia).
  rewrite time_of_us_time_us by done. by destruct dt as [[] [] ?].
Qed.

Lemma dt_of_us_ok n off dt :
  dt_of_us n off = Ok dt -> dt_ok dt /\ local_us dt = n /\ dt_off dt = off /\ 0 <= n < max_us.
Proof.
  unfold dt_of_us. destruct ((0 <=? n) && (n <? max_us)) eqn:E; [|done]. bool_prop.
  destruct (fromordinal (n / day_us + 1)) as [[y m] d] eqn:Ef. intros [= <-].
  assert (1 <= n / day_us + 1 <= 3652059) as Hr by (unfold max_us, day_us in *; lia).
  destruct (fromordinal_valid _ _ _ _ Hr Ef) as [Hv Ho].
  destruct (time_of_us_ok (n mod day_us)) as [Ht Hu]; [apply Z.mod_pos_bound; unfold day_us; lia|].
  repeat split; simpl; try done.
  unfold local_us; simpl. rewrite Ho, Hu. unfold day_us. lia.
Qed.

Lemma dt_of_us_in_range n off : 0 <= n < max_us -> exists dt, dt_of_us n off = Ok dt.
Proof.
  intros Hn. unfold dt_of_us. replace ((0 <=? n) && (n <? max_us)) with true by lia.
  destruct (fromordinal _) as [[??]?]. eauto.
Qed.

Lemma dt_of_us_error n off e : dt_of_us n off = Err e -> exn_cls e = OverflowError.
Proof. unfold dt_of_us. split_if; [destruct (fromordinal _) as [[??]?]; done|]. by intros [= <-]. Qed.

#[export] Hint Resolve dt_of_us_local_us local_us_bounds : dashcam.
