(* ===== verification/Uuid.v ===== *)
(** * [uuid.UUID] text form

    [str(UUID)] and the text constructor of the standard library's [UUID], which
    the catalog, the intents and the API identifiers go through, with their
    round trip. *)

From Stdlib Require Import Ascii String ZArith Lia Btauto.
From stdpp Require Import base list gmap strings sorting.
From S2P Require Import Prelude PyStr.

Definition uuid_ok (i : UUID) : Prop := (uuid_int i < 2 ^ 128)%N.

Definition nibble_char (d : Z) : ascii := if d <? 10 then chr (48 + d) else chr (87 + d).

Definition hex_value (c : ascii) : Z :=
  if is_digit c then ord c - 48 else if in_range 97 102 c then ord c - 87 else ord c - 55.

(** [f"{n:0{k}x}"] for [n < 16^k]. *)
Fixpoint hex_fixed (k : nat) (n : Z) : str :=
  match k with
  | O => []
  | S k' => hex_fixed k' (n / 16) ++ [nibble_char (n mod 16)]
  end.

Definition dash : ascii := "-"%char.

Definition hyphenate (h : str) : str :=
  take 8 h ++ dash :: take 4 (drop 8 h) ++ dash :: take 4 (drop 12 h)
    ++ dash :: take 4 (drop 16 h) ++ dash :: drop 20 h.

(** [str(uuid)] *)
Definition uuid_str (i : UUID) : str := hyphenate (hex_fixed 32 (Z.of_N (uuid_int i))).

(** [s.replace(p, '')] for a non-empty [p]. *)
Fixpoint remove_str_fuel (fuel : nat) (p s : str) : str :=
  match fuel with
  | O => s
  | S f =>
      match s with
      | [] => []
      | x :: r =>
          if startswith p s then remove_str_fuel f p (drop (length p) s)
          else x :: remove_str_fuel f p r
      end
  end.
Definition remove_str (p s : str) : str := remove_str_fuel (length s) p s.

(** Hexadecimal digits with single underscores between them. *)
Fixpoint hex_digits (prev : bool) (acc : Z) (s : str) : option Z :=
  match s with
  | [] => if prev then Some acc else None
  | c :: r =>
      if is_hex c then hex_digits true (acc * 16 + hex_value c) r
      else if char_eqb c "_" && prev then hex_digits false acc r else None
  end.

(** [int(s, 16)] on a text without a minus sign. *)
Definition int_base16 (s : str) : option Z :=
  let s := strip_by is_space s in
  let s := match s with c :: r => if char_eqb c "+" then r else s | [] => [] end in
  match s with
  | a :: b :: r =>
      if char_eqb a "0" && (char_eqb b "x" || char_eqb b "X") then
        match r with
        | c :: r' => if char_eqb c "_" then hex_digits false 0 r' else hex_digits false 0 r
        | [] => None
        end
      else hex_digits false 0 s
  | _ => hex_digits false 0 s
  end.

(** [UUID(text)] *)
Definition UUID_of_str (s : str) : result UUID :=
  let hex := remove_str (u "uuid:") (remove_str (u "urn:") s) in
  let hex := filter (fun c => c <> dash) (strip_by (one_of "{}") hex) in
  raise_if negb (Nat.eqb (length hex) 32)
    as ValueError msg "badly formed hexadecimal UUID string" ;;
  match int_base16 hex with
  | None => Err (Exn ValueError "invalid literal for int() with base 16")
  | Some z => Ok (mkUUID (Z.to_N z))
  end.

(** Stable catalog order: [(retention_order, str(clip_id))], and SQL's
    [ORDER BY retention_order, clip_id] on the text column. *)
Definition order_key_leb (a b : Z * UUID) : bool :=
  (fst a <? fst b)
  || ((fst a =? fst b)
      && String.leb (string_of_list_ascii (uuid_str (snd a))) (string_of_list_ascii (uuid_str (snd b)))).

(** ** Lemmas *)

Definition is_lower_hex (c : ascii) : bool := is_digit c || in_range 97 102 c.

Lemma nibble_char_ord d :
  0 <= d < 16 -> ord (nibble_char d) = if d <? 10 then 48 + d else 87 + d.
Proof. intros. unfold nibble_char. destruct (d <? 10) eqn:E; bool_prop; apply ord_chr; lia. Qed.

Lemma nibble_char_hex d : 0 <= d < 16 -> is_lower_hex (nibble_char d) = true.
Proof.
  intros Hd. unfold is_lower_hex, is_digit. rewrite orb_true_iff, !in_range_iff, nibble_char_ord by done.
  destruct (d <? 10) eqn:E; bool_prop; lia.
Qed.

Lemma hex_value_nibble d : 0 <= d < 16 -> hex_value (nibble_char d) = d.
Proof.
  intros Hd. unfold hex_value, is_digit, in_range. rewrite nibble_char_ord by done.
  destruct (d <? 10) eqn:E; bool_prop.
  - replace ((48 <=? 48 + d) && (48 + d <=? 57)) with true by lia. lia.
  - replace ((48 <=? 87 + d) && (87 + d <=? 57)) with false by lia.
    replace ((97 <=? 87 + d) && (87 + d <=? 102)) with true by lia. lia.
Qed.

Lemma hex_fixed_length k n : length (hex_fixed k n) = k.
Proof. revert n. induction k as [|k IH]; intros n; simpl; [done|]. rewrite length_app, IH. simpl. lia. Qed.

Lemma hex_fixed_hex k n : Forall (fun c => is_lower_hex c = true) (hex_fixed k n).
Proof.
  revert n. induction k as [|k IH]; intros n; simpl; [constructor|].
  apply Forall_app. split; [apply IH|]. repeat constructor. apply nibble_char_hex, Z.mod_pos_bound. lia.
Qed.

Lemma is_lower_hex_is_hex c : is_lower_hex c = true -> is_hex c = true.
Proof. unfold is_lower_hex, is_hex. rewrite !orb_true_iff. tauto. Qed.

Lemma hex_digits_snoc s c prev acc z :
  is_hex c = true -> hex_digits prev acc s = Some z ->
  hex_digits prev acc (s ++ [c]) = Some (z * 16 + hex_value c).
Proof.
  revert prev acc. induction s as [|x s IH]; intros prev acc Hc; simpl.
  - destruct prev; [|done]. intros [= ->]. by rewrite Hc.
  - destruct (is_hex x); [by apply IH|]. destruct (char_eqb x "_" && prev); [by apply IH|done].
Qed.

Lemma hex_digits_fixed k n :
  (1 <= k)%nat -> hex_digits false 0 (hex_fixed k n) = Some (n mod 16 ^ Z.of_nat k).
Proof.
  revert n. induction k as [|k IH]; intros n Hk; [lia|].
  assert (0 <= n mod 16 < 16) as Hm by (apply Z.mod_pos_bound; lia).
  pose proof (is_lower_hex_is_hex _ (nibble_char_hex _ Hm)) as Hh.
  destruct k as [|k].
  - cbn [hex_fixed app hex_digits]. rewrite Hh. rewrite hex_value_nibble by done.
    by rewrite Z.mul_0_l, Z.add_0_l.
  - cbn [hex_fixed] in *. rewrite (hex_digits_snoc _ _ _ _ ((n / 16) mod 16 ^ Z.of_nat (S k)));
      [|done|by apply IH; lia].
    rewrite hex_value_nibble by done. f_equal.
    rewrite (Nat2Z.inj_succ (S k)), Z.pow_succ_r by lia.
    rewrite (Z.rem_mul_r n 16) by lia. lia.
Qed.

Lemma remove_str_absent c p s : c ∉ s -> remove_str (c :: p) s = s.
Proof.
  unfold remove_str. generalize (length s) at 1. intros f Hc. revert s Hc.
  induction f as [|f IH]; intros s Hc; [done|].
  destruct s as [|x s]; [done|]. apply not_elem_of_cons in Hc as [Hx Hs]. cbn [remove_str_fuel].
  cbn [startswith]. destruct (char_eqb c x) eqn:E; [apply char_eqb_eq in E; congruence|].
  cbn [andb]. by rewrite (IH s Hs).
Qed.

Lemma strip_by_id f s :
  Forall (fun c => f c = false) s -> strip_by f s = s.
Proof.
  intros H. unfold strip_by, rstrip_by.
  assert (forall s', Forall (fun c => f c = false) s' -> lstrip_by f s' = s') as Hl.
  { intros s' Hs'. apply lstrip_by_id. intros c r ->. by apply Forall_cons in Hs' as [? _]. }
  rewrite (Hl s H), Hl; [apply rev_involutive|]. by apply Forall_rev.
Qed.

Lemma lower_hex_not c x :
  is_lower_hex c = true -> is_lower_hex x = false -> c <> x.
Proof. congruence. Qed.

(** No character outside the hexadecimal digits and the hyphen occurs in a UUID text. *)
Lemma hyphenate_chars h c :
  Forall (fun x => is_lower_hex x = true) h -> c ∈ hyphenate h -> is_lower_hex c = true \/ c = dash.
Proof.
  rewrite Forall_forall. intros H. unfold hyphenate.
  assert (Ht : forall n l, (forall x, x ∈ l -> is_lower_hex x = true) ->
                 forall x, x ∈ take n l -> is_lower_hex x = true)
    by (intros n l Hl x Hx; apply Hl; by eapply elem_of_take_inv || (eapply subseteq_take; eauto)).
  assert (Hd : forall n l, (forall x, x ∈ l -> is_lower_hex x = true) ->
                 forall x, x ∈ drop n l -> is_lower_hex x = true)
    by (intros n l Hl x Hx; apply Hl; by eapply subseteq_drop; eauto).
  rewrite !elem_of_app, !elem_of_cons, !elem_of_app, !elem_of_cons, !elem_of_app,
    !elem_of_cons, !elem_of_app, !elem_of_cons.
  intros [Hc|[?|[Hc|[?|[Hc|[?|[Hc|[?|Hc]]]]]]]]; auto; left; revert Hc; eauto.
Qed.

Lemma filter_dash_hex l :
  Forall (fun x => is_lower_hex x = true) l -> filter (fun c => c <> dash) l = l.
Proof.
  induction 1 as [|x l Hx _ IH]; [done|]. rewrite filter_cons, decide_True, IH; [done|].
  intros ->. by vm_compute in Hx.
Qed.

Lemma filter_hyphenate h :
  length h = 32%nat -> Forall (fun x => is_lower_hex x = true) h ->
  filter (fun c => c <> dash) (hyphenate h) = h.
Proof.
  intros Hlen Hh. unfold hyphenate.
  assert (forall r, filter (fun c => c <> dash) (dash :: r) = filter (fun c => c <> dash) r) as Hdash
    by (intros r; by rewrite filter_cons, decide_False by naive_solver).
  rewrite !filter_app, !Hdash, !filter_app, !Hdash, !filter_app, !Hdash, !filter_app, !Hdash.
  rewrite !filter_dash_hex by auto using Forall_take, Forall_drop.
  replace (drop 20 h) with (drop 4 (drop 16 h)) by (by rewrite drop_drop).
  rewrite take_drop. replace (drop 16 h) with (drop 4 (drop 12 h)) by (by rewrite drop_drop).
  rewrite take_drop. replace (drop 12 h) with (drop 4 (drop 8 h)) by (by rewrite drop_drop).
  by rewrite take_drop, take_drop.
Qed.

Lemma int_base16_fixed k n :
  (2 <= k)%nat -> int_base16 (hex_fixed k n) = Some (n mod 16 ^ Z.of_nat k).
Proof.
  intros Hk. unfold int_base16.
  pose proof (hex_fixed_hex k n) as Hh. pose proof (hex_fixed_length k n) as Hl.
  pose proof (hex_digits_fixed k n ltac:(lia)) as Hd.
  rewrite strip_by_id.
  2: { eapply Forall_impl; [exact Hh|]. intros c. unfold is_lower_hex, is_digit, is_space, in_range.
       intros Hc. pose proof (ord_bounds c). repeat (apply orb_true_iff in Hc as [Hc|Hc]);
         bool_prop; rewrite !orb_false_iff, !andb_false_iff, !Z.leb_gt, !Z.eqb_neq; lia. }
  destruct (hex_fixed k n) as [|a [|b r]] eqn:E; [simpl in Hl; lia|simpl in Hl; lia|].
  apply Forall_cons in Hh as [Ha Hh]. apply Forall_cons in Hh as [Hb _].
  destruct (char_eqb a "+") eqn:Ep; [apply char_eqb_eq in Ep as ->; by vm_compute in Ha|].
  assert (char_eqb b "x" = false) as -> by (apply char_eqb_neq; intros ->; by vm_compute in Hb).
  assert (char_eqb b "X" = false) as -> by (apply char_eqb_neq; intros ->; by vm_compute in Hb).
  by rewrite andb_false_r.
Qed.

(** [UUID(str(uuid)) == uuid] *)
Lemma UUID_of_str_uuid_str i : uuid_ok i -> UUID_of_str (uuid_str i) = Ok i.
Proof.
  intros Hok. unfold UUID_of_str, uuid_str.
  set (h := hex_fixed 32 (Z.of_N (uuid_int i))).
  assert (length h = 32%nat) as Hlen by apply hex_fixed_length.
  assert (Forall (fun x => is_lower_hex x = true) h) as Hh by apply hex_fixed_hex.
  assert (forall c, is_lower_hex c = false -> c <> dash -> c ∉ hyphenate h) as Habs.
  { intros c Hc Hd Hin. apply hyphenate_chars in Hin as [?|?]; congruence. }
  change (u "urn:") with ("u"%char :: u "rn:"). change (u "uuid:") with ("u"%char :: u "uid:").
  rewrite !remove_str_absent by (rewrite ?remove_str_absent; apply Habs; done).
  rewrite strip_by_id.
  2: { apply Forall_forall. intros c Hc. apply hyphenate_chars in Hc as [Hc| ->]; [|done|done].
       unfold one_of. simpl.
       destruct (char_eqb c "{") eqn:E1; [apply char_eqb_eq in E1 as ->; by vm_compute in Hc|].
       destruct (char_eqb c "}") eqn:E2; [apply char_eqb_eq in E2 as ->; by vm_compute in Hc|done]. }
  rewrite filter_hyphenate by done. rewrite Hlen. cbn [Nat.eqb negb].
  unfold h. rewrite int_base16_fixed by lia. rewrite Z.mod_small; [by destruct i; simpl; rewrite N2Z.id|].
  unfold uuid_ok in Hok. change (16 ^ Z.of_nat 32) with (2 ^ 128). lia.
Qed.

Lemma uuid_str_inj i j : uuid_ok i -> uuid_ok j -> uuid_str i = uuid_str j -> i = j.
Proof.
  intros Hi Hj E. apply UUID_of_str_uuid_str in Hi. rewrite E in Hi.
  rewrite (UUID_of_str_uuid_str j Hj) in Hi. congruence.
Qed.

Lemma order_key_leb_total a b : order_key_leb a b = true \/ order_key_leb b a = true.
Proof.
  unfold order_key_leb. destruct (Z.lt_trichotomy (fst a) (fst b)) as [H|[H|H]].
  - left. by replace (fst a <? fst b) with true by lia.
  - rewrite H, Z.ltb_irrefl, Z.eqb_refl. simpl. apply String.leb_total.
  - right. by replace (fst b <? fst a) with true by lia.
Qed.

Lemma order_key_leb_trans a b c :
  order_key_leb a b = true -> order_key_leb b c = true -> order_key_leb a c = true.
Proof.
  unfold order_key_leb. rewrite !orb_true_iff, !andb_true_iff, !Z.ltb_lt, !Z.eqb_eq.
  intros [H1|[H1 S1]] [H2|[H2 S2]]; try (left; lia).
  right. split; [lia|].
  assert (String.le (string_of_list_ascii (uuid_str (snd a))) (string_of_list_ascii (uuid_str (snd c)))) as H.
  { etrans; (apply Is_true_true; eassumption). }
  by apply Is_true_true in H.
Qed.

Lemma order_key_leb_order a b : order_key_leb a b = true -> fst a <= fst b.
Proof. unfold order_key_leb. rewrite orb_true_iff, andb_true_iff, Z.ltb_lt, Z.eqb_eq. lia. Qed.
