(* ===== verification/State.v ===== *)
(** * Recorder and clip state models ([src/dashcam/state.py])

    The clip lifecycle table, download leases bound to the monotonic clock, and
    the immutable [ClipRecord] with its operations. *)

From Stdlib Require Import Ascii String ZArith Lia.
From stdpp Require Import base list gmap strings.
From S2P Require Import Prelude PyStr.

Inductive GpsTimeState := UNSYNCED | GPS_TIME_VALID | GPS_TIME_STALE.

Inductive SystemClockState := UNSET | SYNCING | SYNCHRONIZED | SYSTEM_ERROR.

Inductive TimestampQuality := MONOTONIC_ONLY | GPS_ANCHORED | SYSTEM_DERIVED.

Inductive ClipLifecycle :=
  | CREATING | WRITING | FINALIZING | FINALIZED | DELETING | DELETED
  | CORRUPT | QUARANTINED | MISSING_SIDECAR | MISSING_VIDEO.

#[export] Instance GpsTimeState_eq_dec : EqDecision GpsTimeState.
Proof. solve_decision. Defined.
#[export] Instance SystemClockState_eq_dec : EqDecision SystemClockState.
Proof. solve_decision. Defined.
#[export] Instance TimestampQuality_eq_dec : EqDecision TimestampQuality.
Proof. solve_decision. Defined.
#[export] Instance ClipLifecycle_eq_dec : EqDecision ClipLifecycle.
Proof. solve_decision. Defined.

(** The enumeration values, as they are stored in text columns and JSON. *)
Definition lifecycle_value (l : ClipLifecycle) : string :=
  match l with
  | CREATING => "CREATING" | WRITING => "WRITING" | FINALIZING => "FINALIZING"
  | FINALIZED => "FINALIZED" | DELETING => "DELETING" | DELETED => "DELETED"
  | CORRUPT => "CORRUPT" | QUARANTINED => "QUARANTINED"
  | MISSING_SIDECAR => "MISSING_SIDECAR" | MISSING_VIDEO => "MISSING_VIDEO"
  end.

Definition NANOSECONDS_PER_SECOND : Z := 1000000000.
Definition MAX_DOWNLOAD_LEASE_NS : Z := 15 * 60 * NANOSECONDS_PER_SECOND.
Definition MAX_LEASE_HOLDER_LENGTH : Z := 128.

(** [A-Za-z0-9][A-Za-z0-9._:-]{0,127} *)
Definition LEASE_HOLDER_PATTERN (s : str) : bool :=
  match s with
  | [] => false
  | c :: r =>
      is_alnum c && forallb (fun x => is_alnum x || one_of "._:-" x) r && (len r <=? 127)
  end.

Definition TRANSITIONS (l : ClipLifecycle) : list ClipLifecycle :=
  match l with
  | CREATING => [WRITING; CORRUPT; QUARANTINED]
  | WRITING => [FINALIZING; CORRUPT; QUARANTINED]
  | FINALIZING => [FINALIZED; CORRUPT; QUARANTINED; MISSING_SIDECAR; MISSING_VIDEO]
  | FINALIZED => [DELETING; CORRUPT; QUARANTINED; MISSING_SIDECAR; MISSING_VIDEO]
  | DELETING => [DELETED; FINALIZED; CORRUPT; QUARANTINED; MISSING_SIDECAR; MISSING_VIDEO]
  | DELETED => []
  | CORRUPT => [QUARANTINED]
  | QUARANTINED => []
  | MISSING_SIDECAR => [FINALIZED; QUARANTINED]
  | MISSING_VIDEO => [FINALIZED; QUARANTINED]
  end.

Record DownloadLease := mkLease {
  holder : str;
  issued_at_monotonic_ns : Z;
  expires_at_monotonic_ns : Z
}.

#[export] Instance DownloadLease_eq_dec : EqDecision DownloadLease.
Proof. solve_decision. Defined.

Definition duration_ns (l : DownloadLease) : Z :=
  expires_at_monotonic_ns l - issued_at_monotonic_ns l.

(** The constructor: [__post_init__] on the given fields. *)
Definition DownloadLease_new (h : str) (issued expires : Z) : result DownloadLease :=
  let self := mkLease h issued expires in
  raise_if negb (isascii h) || (MAX_LEASE_HOLDER_LENGTH <? len h)
           || negb (LEASE_HOLDER_PATTERN h)
    as DownloadLeaseError msg "lease holder must be a bounded safe identifier" ;;
  raise_if issued <? 0
    as DownloadLeaseError msg "lease issue time cannot be negative" ;;
  raise_if expires <=? issued
    as DownloadLeaseError msg "lease expiry must be after issue time" ;;
  raise_if MAX_DOWNLOAD_LEASE_NS <? duration_ns self
    as DownloadLeaseError msg "lease duration exceeds configured bound" ;;
  Ok self.

(** Expiry is exclusive. *)
Definition is_active (l : DownloadLease) (monotonic_now_ns : Z) : result bool :=
  raise_if monotonic_now_ns <? 0
    as DownloadLeaseError msg "monotonic time cannot be negative" ;;
  Ok (monotonic_now_ns <? expires_at_monotonic_ns l).

Definition issue (h : str) (monotonic_now_ns duration : Z) : result DownloadLease :=
  raise_if (duration <=? 0) || (MAX_DOWNLOAD_LEASE_NS <? duration)
    as DownloadLeaseError msg "lease duration must be positive and bounded" ;;
  DownloadLease_new h monotonic_now_ns (monotonic_now_ns + duration).

Record ClipRecord := mkClip {
  clip_id : UUID;
  lifecycle : ClipLifecycle;
  protected : bool;
  download_lease : option DownloadLease
}.

(** [ClipRecord.create(clip_id)] once the identifier is chosen. *)
Definition create (i : UUID) : ClipRecord := mkClip i CREATING false None.

Definition transition_to (self : ClipRecord) (target : ClipLifecycle) : result ClipRecord :=
  raise_if negb (bool_decide (target ∈ TRANSITIONS (lifecycle self)))
    as StateTransitionError
    msg ("cannot transition " ++ lifecycle_value (lifecycle self) ++ " to "
         ++ lifecycle_value target)%string ;;
  raise_if bool_decide (target = DELETED) && bool_decide (is_Some (download_lease self))
    as StateTransitionError msg "cannot delete a clip with a lease record" ;;
  Ok (mkClip (clip_id self) target (protected self) (download_lease self)).

Definition set_protected (self : ClipRecord) (p : bool) : result ClipRecord :=
  raise_if bool_decide (lifecycle self = DELETED)
    as StateTransitionError msg "cannot change protection on a deleted clip" ;;
  Ok (mkClip (clip_id self) (lifecycle self) p (download_lease self)).

Definition has_active_download_lease (self : ClipRecord) (now : Z) : result bool :=
  match download_lease self with
  | None => Ok false
  | Some l => is_active l now
  end.

Definition acquire_download_lease (self : ClipRecord) (h : str) (now duration : Z)
    : result ClipRecord :=
  raise_if now <? 0
    as DownloadLeaseError msg "monotonic time must be non-negative integer nanoseconds" ;;
  raise_if negb (bool_decide (lifecycle self = FINALIZED))
    as DownloadLeaseError msg "only finalized clips can be downloaded" ;;
  let! active := has_active_download_lease self now in
  raise_if active
    as DownloadLeaseError msg "clip already has an active download lease" ;;
  let! l := issue h now duration in
  Ok (mkClip (clip_id self) (lifecycle self) (protected self) (Some l)).

Definition clear_expired_download_lease (self : ClipRecord) (now : Z) : result ClipRecord :=
  match download_lease self with
  | None => Ok self
  | Some l =>
      let! active := is_active l now in
      if active then Ok self
      else Ok (mkClip (clip_id self) (lifecycle self) (protected self) None)
  end.

Definition release_download_lease (self : ClipRecord) (h : str) : result ClipRecord :=
  match download_lease self with
  | None => Ok self
  | Some l =>
      raise_if negb (bool_decide (holder l = h))
        as DownloadLeaseError msg "lease is owned by a different holder" ;;
      Ok (mkClip (clip_id self) (lifecycle self) (protected self) None)
  end.

(** [and] short-circuits: the lease is consulted only for an unprotected finalized clip. *)
Definition is_retention_eligible (self : ClipRecord) (now : Z) : result bool :=
  if bool_decide (lifecycle self = FINALIZED) && negb (protected self) then
    let! active := has_active_download_lease self now in Ok (negb active)
  else Ok false.

(** ** Sequences of operations *)

Inductive clip_op :=
  | OpTransition (target : ClipLifecycle)
  | OpProtect (p : bool)
  | OpAcquire (h : str) (now duration : Z)
  | OpClear (now : Z)
  | OpRelease (h : str).

Definition apply_op (c : ClipRecord) (o : clip_op) : result ClipRecord :=
  match o with
  | OpTransition t => transition_to c t
  | OpProtect p => set_protected c p
  | OpAcquire h now d => acquire_download_lease c h now d
  | OpClear now => clear_expired_download_lease c now
  | OpRelease h => release_download_lease c h
  end.

(** Records a caller can hold after any successful operations on a created one. *)
Inductive clip_reachable (i : UUID) : ClipRecord -> Prop :=
  | reach_create : clip_reachable i (create i)
  | reach_step c o c' :
      clip_reachable i c -> apply_op c o = Ok c' -> clip_reachable i c'.

(** A lease no constructor call would refuse. *)
Definition lease_ok (l : DownloadLease) : Prop :=
  LEASE_HOLDER_PATTERN (holder l) = true /\
  0 <= issued_at_monotonic_ns l /\
  0 < duration_ns l <= MAX_DOWNLOAD_LEASE_NS.

Definition clip_ok (c : ClipRecord) : Prop :=
  (lifecycle c = DELETED -> download_lease c = None) /\
  (forall l, download_lease c = Some l -> lease_ok l).

(** ** Lemmas *)

Lemma DownloadLease_new_ok h issued expires l :
  DownloadLease_new h issued expires = Ok l ->
  l = mkLease h issued expires /\ lease_ok l.
Proof.
  unfold DownloadLease_new. intros H. inv_ok. bool_prop. unfold lease_ok, duration_ns in *.
  simpl in *. repeat split; try done; lia.
Qed.

Lemma issue_ok h now d l :
  issue h now d = Ok l -> l = mkLease h now (now + d) /\ lease_ok l.
Proof. unfold issue. intros H. inv_ok. by apply DownloadLease_new_ok. Qed.

Lemma apply_op_clip_id c o c' : apply_op c o = Ok c' -> clip_id c' = clip_id c.
Proof.
  destruct o; simpl;
    unfold transition_to, set_protected, acquire_download_lease, clear_expired_download_lease,
      release_download_lease; intros H; try case_match; inv_ok; try done.
  by destruct x; inv_ok.
Qed.

Lemma transition_ok c t c' :
  transition_to c t = Ok c' ->
  t ∈ TRANSITIONS (lifecycle c) /\ (t = DELETED -> download_lease c = None) /\
  c' = mkClip (clip_id c) t (protected c) (download_lease c).
Proof.
  unfold transition_to. intros H. inv_ok. bool_prop. repeat split; [done|].
  intros ->. destruct (download_lease c); [|done].
  apply andb_false_iff in Hg0 as [H|H]; bool_prop; [done|by destruct H; eexists].
Qed.

Lemma apply_op_clip_ok c o c' : clip_ok c -> apply_op c o = Ok c' -> clip_ok c'.
Proof.
  intros Hc. pose proof Hc as [Hd Hl]. destruct o; simpl; intros H.
  - apply transition_ok in H as (_ & Hn & ->). split; simpl; auto.
  - unfold set_protected in H. inv_ok. by split.
  - unfold acquire_download_lease in H. inv_ok. bool_prop. apply issue_ok in Hb0 as [-> ?].
    split; simpl; [congruence|]. by intros l [= <-].
  - unfold clear_expired_download_lease in H. clear Hd Hl. destruct (download_lease c); inv_ok; [|done].
    destruct x; inv_ok; [done|]. by split.
  - unfold release_download_lease in H. clear Hd Hl. destruct (download_lease c); inv_ok; [|done].
    by split.
Qed.

Lemma clip_reachable_ok i c : clip_reachable i c -> clip_ok c /\ clip_id c = i.
Proof.
  induction 1 as [|c o c' _ [IH IHi] H]; [by split; [split|]|].
  split; [by eapply apply_op_clip_ok|]. by rewrite (apply_op_clip_id _ _ _ H).
Qed.

Lemma deleted_terminal c o c' :
  clip_ok c -> lifecycle c = DELETED -> apply_op c o = Ok c' -> c' = c.
Proof.
  intros [Hd _] E. specialize (Hd E). destruct o; simpl; intros H.
  - apply transition_ok in H as (Ht & _). rewrite E in Ht. by apply not_elem_of_nil in Ht.
  - unfold set_protected in H. rewrite E in H. inv_ok. done.
  - unfold acquire_download_lease in H. inv_ok. bool_prop. congruence.
  - unfold clear_expired_download_lease in H. rewrite Hd in H. by inv_ok.
  - unfold release_download_lease in H. rewrite Hd in H. by inv_ok.
Qed.

Lemma acquire_ok c h now d c' :
  acquire_download_lease c h now d = Ok c' ->
  0 <= now /\ lifecycle c = FINALIZED /\ has_active_download_lease c now = Ok false /\
  c' = mkClip (clip_id c) (lifecycle c) (protected c) (Some (mkLease h now (now + d))) /\
  lease_ok (mkLease h now (now + d)).
Proof.
  unfold acquire_download_lease. intros H. inv_ok. bool_prop. subst.
  apply issue_ok in Hb0 as [-> ?]. done.
Qed.

(** ** Properties *)

(** Every record reachable from [ClipRecord.create] by successful operations is safe: each
    lease it holds has a safe holder, a non-negative issue time and a duration of at most
    fifteen minutes; a DELETED record holds no lease, and no later successful operation
    changes it. *)
Theorem clip_reachable_safe i c :
  clip_reachable i c ->
  (forall l, download_lease c = Some l -> lease_ok l) /\
  (lifecycle c = DELETED ->
     download_lease c = None /\ forall o c', apply_op c o = Ok c' -> c' = c).
Proof.
  intros [Hok _]%clip_reachable_ok. split; [apply Hok|]. intros Hd.
  split; [by apply Hok|]. intros o c'. by apply deleted_terminal.
Qed.

Definition sample_clip : ClipRecord := mkClip (mkUUID 7) DELETED false None.

Lemma clip_reachable_safe_witness :
  download_lease sample_clip = None /\
  forall o c', apply_op sample_clip o = Ok c' -> c' = sample_clip.
Proof.
  apply (clip_reachable_safe (mkUUID 7)); [|reflexivity].
  apply (reach_step _ (mkClip (mkUUID 7) DELETING false None) (OpTransition DELETED)); [|reflexivity].
  apply (reach_step _ (mkClip (mkUUID 7) FINALIZED false None) (OpTransition DELETING)); [|reflexivity].
  apply (reach_step _ (mkClip (mkUUID 7) FINALIZING false None) (OpTransition FINALIZED)); [|reflexivity].
  apply (reach_step _ (mkClip (mkUUID 7) WRITING false None) (OpTransition FINALIZING)); [|reflexivity].
  apply (reach_step _ (create (mkUUID 7)) (OpTransition WRITING)); [|reflexivity].
  constructor.
Defined.

(** A download lease excludes every other use of the clip for exactly its duration: from
    its issue until its (exclusive) expiry no acquisition succeeds and the clip is not
    eligible for retention, and from the expiry on a finalized unprotected clip is eligible
    again and the lease can be replaced. *)
Theorem lease_excludes_until_expiry c h now d c' t :
  acquire_download_lease c h now d = Ok c' ->
  now <= t ->
  (t < now + d ->
     (forall h' d', exists e, acquire_download_lease c' h' t d' = Err e) /\
     is_retention_eligible c' t = Ok false) /\
  (now + d <= t ->
     is_retention_eligible c' t = Ok (negb (protected c)) /\
     clear_expired_download_lease c' t
       = Ok (mkClip (clip_id c) FINALIZED (protected c) None)).
Proof.
  intros (Hnow & Hl & _ & -> & _)%acquire_ok Ht. rewrite Hl.
  assert ((t <? 0) = false) as Ht0 by lia.
  unfold acquire_download_lease, is_retention_eligible, clear_expired_download_lease,
    has_active_download_lease, is_active; simpl.
  split; intros Hd; rewrite Ht0; simpl.
  - replace (t <? now + d) with true by lia. split; [eauto|by destruct (protected c)].
  - replace (t <? now + d) with false by lia. by destruct (protected c).
Qed.

Lemma lease_excludes_until_expiry_witness :
  is_retention_eligible
    (mkClip (mkUUID 7) FINALIZED false (Some (mkLease (u "browser-1") 100 160))) 160 = Ok true.
Proof.
  apply (lease_excludes_until_expiry (mkClip (mkUUID 7) FINALIZED false None)
           (u "browser-1") 100 60 _ 160); [reflexivity|lia|lia].
Defined.
