(* ===== verification/Retention.v ===== *)
(** * Retention policy ([src/dashcam/storage/retention.py], [src/dashcam/catalog/policy.py])

    Free-space thresholds resolved for one capacity, the hysteresis of the
    retention mode and its stateful controller, and the oldest-first selection
    of clips to delete. *)

From Stdlib Require Import Ascii String ZArith Lia.
From stdpp Require Import base list strings sorting.
From S2P Require Import Prelude PyStr Uuid.

Inductive RetentionMode := NORMAL | RECLAIMING | EMERGENCY.

#[export] Instance RetentionMode_eq_dec : EqDecision RetentionMode.
Proof. solve_decision. Defined.

Record ResolvedThresholds := mkResolved {
  start_deletion_below_bytes : Z;
  stop_deletion_at_bytes : Z;
  emergency_below_bytes : Z
}.

Record StorageThresholds := mkThresholds {
  low_watermark_percent : Z;
  high_watermark_percent : Z;
  minimum_free_bytes : Z;
  emergency_free_bytes : Z
}.

Definition StorageThresholds_new (low high minimum emergency : Z) : result StorageThresholds :=
  raise_if negb ((0 <=? low) && (low <? high) && (high <? 100))
    as ValueError msg "watermarks must satisfy 0 <= low < high < 100" ;;
  raise_if (minimum <? 0) || (emergency <? 0)
    as ValueError msg "free-space thresholds cannot be negative" ;;
  raise_if minimum <=? emergency
    as ValueError msg "emergency reserve must be below the minimum free reserve" ;;
  Ok (mkThresholds low high minimum emergency).

(** A ceiling percentage. *)
Definition percent_bytes (capacity_bytes percent : Z) : Z := (capacity_bytes * percent + 99) / 100.

Definition resolve (self : StorageThresholds) (capacity_bytes : Z) : result ResolvedThresholds :=
  raise_if capacity_bytes <=? 0 as ValueError msg "capacity_bytes must be positive" ;;
  let start := Z.max (percent_bytes capacity_bytes (low_watermark_percent self))
                     (minimum_free_bytes self) in
  let stop := Z.max (percent_bytes capacity_bytes (high_watermark_percent self))
                    (minimum_free_bytes self) in
  raise_if stop <=? start
    as ValueError msg "resolved stop threshold must be greater than start threshold" ;;
  raise_if capacity_bytes <=? stop
    as ValueError msg "resolved stop threshold must be below total capacity" ;;
  raise_if start <=? emergency_free_bytes self
    as ValueError msg "emergency threshold must be below deletion start threshold" ;;
  Ok (mkResolved start stop (emergency_free_bytes self)).

Definition retention_mode (free_bytes : Z) (thresholds : ResolvedThresholds)
    (was_reclaiming : bool) : result RetentionMode :=
  raise_if free_bytes <? 0 as ValueError msg "free_bytes cannot be negative" ;;
  Ok (if free_bytes <? emergency_below_bytes thresholds then EMERGENCY
      else if was_reclaiming then
        if free_bytes <? stop_deletion_at_bytes thresholds then RECLAIMING else NORMAL
      else if free_bytes <? start_deletion_below_bytes thresholds then RECLAIMING else NORMAL).

(** ** The stateful controller *)

Record StorageThresholdController := mkController {
  thresholds : ResolvedThresholds;
  mode : RetentionMode
}.

Definition StorageThresholdController_new (t : ResolvedThresholds) (m : RetentionMode)
    : result StorageThresholdController :=
  raise_if emergency_below_bytes t <? 0
    as ValueError msg "emergency_below_bytes must be a non-negative integer" ;;
  raise_if start_deletion_below_bytes t <? 0
    as ValueError msg "start_deletion_below_bytes must be a non-negative integer" ;;
  raise_if stop_deletion_at_bytes t <? 0
    as ValueError msg "stop_deletion_at_bytes must be a non-negative integer" ;;
  raise_if negb ((emergency_below_bytes t <? start_deletion_below_bytes t)
                 && (start_deletion_below_bytes t <? stop_deletion_at_bytes t))
    as ValueError msg "thresholds must satisfy emergency < start < stop" ;;
  Ok (mkController t m).

Definition was_reclaiming_mode (m : RetentionMode) : bool :=
  match m with RECLAIMING | EMERGENCY => true | NORMAL => false end.

(** [evaluate]: the new mode is also the controller's state; on an error the state is kept. *)
Definition evaluate (self : StorageThresholdController) (free_bytes : Z) (no_space_write : bool)
    : result StorageThresholdController :=
  if no_space_write then Ok (mkController (thresholds self) EMERGENCY)
  else
    let! m := retention_mode free_bytes (thresholds self) (was_reclaiming_mode (mode self)) in
    Ok (mkController (thresholds self) m).
Arguments evaluate : simpl never.

(** ** Oldest-first selection *)

Record RetentionCandidate := mkCandidate {
  clip_id : UUID;
  retention_order : Z;
  size_bytes : Z;
  managed : bool;
  finalized : bool;
  pair_reconciled : bool;
  protected : bool;
  mutation_in_progress : bool;
  lease_expires_monotonic_ns : option Z
}.

Definition RetentionCandidate_new (c : RetentionCandidate) : result RetentionCandidate :=
  raise_if retention_order c <? 0 as ValueError msg "retention_order cannot be negative" ;;
  raise_if size_bytes c <? 0 as ValueError msg "size_bytes cannot be negative" ;;
  raise_if match lease_expires_monotonic_ns c with Some e => e <? 0 | None => false end
    as ValueError msg "lease expiry cannot be negative" ;;
  Ok c.

Definition has_active_lease (c : RetentionCandidate) (monotonic_ns : Z) : bool :=
  match lease_expires_monotonic_ns c with Some e => monotonic_ns <? e | None => false end.

Definition eligible_now (c : RetentionCandidate) (monotonic_ns : Z) : bool :=
  managed c && finalized c && pair_reconciled c && negb (protected c)
  && negb (mutation_in_progress c) && negb (has_active_lease c monotonic_ns).

Definition eligible_at (c : RetentionCandidate) (monotonic_ns : Z) : result bool :=
  raise_if monotonic_ns <? 0 as ValueError msg "monotonic_ns cannot be negative" ;;
  Ok (eligible_now c monotonic_ns).

Record RetentionPlan := mkPlan {
  selected_clip_ids : list UUID;
  planned_reclaim_bytes : Z;
  requested_reclaim_bytes : Z
}.

Definition target_reached (p : RetentionPlan) : bool :=
  requested_reclaim_bytes p <=? planned_reclaim_bytes p.

Definition candidate_key (c : RetentionCandidate) : Z * UUID := (retention_order c, clip_id c).

Definition candidate_leb (a b : RetentionCandidate) : bool :=
  order_key_leb (candidate_key a) (candidate_key b).

(** The eligible candidates in stable durable-catalog order. *)
Definition eligible_sorted (candidates : list RetentionCandidate) (monotonic_ns : Z)
    : list RetentionCandidate :=
  sort_by candidate_leb (List.filter (fun c => eligible_now c monotonic_ns) candidates).

(** The selection loop: append, add, break once the request is met. *)
Fixpoint select_loop (requested planned : Z) (eligible : list RetentionCandidate)
    : list UUID * Z :=
  match eligible with
  | [] => ([], planned)
  | c :: rest =>
      let planned := planned + size_bytes c in
      if requested <=? planned then ([clip_id c], planned)
      else let '(ids, total) := select_loop requested planned rest in (clip_id c :: ids, total)
  end.

Definition select_oldest_eligible (candidates : list RetentionCandidate)
    (requested monotonic_ns : Z) : result RetentionPlan :=
  raise_if requested <? 0 as ValueError msg "requested_reclaim_bytes cannot be negative" ;;
  raise_if monotonic_ns <? 0 as ValueError msg "monotonic_ns cannot be negative" ;;
  if requested =? 0 then Ok (mkPlan [] 0 0)
  else
    let '(ids, total) := select_loop requested 0 (eligible_sorted candidates monotonic_ns) in
    Ok (mkPlan ids total requested).

(** ** Abstract hysteresis

    What the controller promises, over a whole history of observations: the
    reclaim latch is set by the last decisive event, an observation below the
    start threshold or an out-of-space write setting it and one at or above the
    stop threshold clearing it. *)

Inductive space_event := Observed (free_bytes : Z) | NoSpaceWrite.

Definition run_event (c : StorageThresholdController) (e : space_event)
    : result StorageThresholdController :=
  match e with
  | Observed f => evaluate c f false
  | NoSpaceWrite => evaluate c 0 true
  end.

Definition sets_latch (t : ResolvedThresholds) (e : space_event) : Prop :=
  match e with Observed f => f < start_deletion_below_bytes t | NoSpaceWrite => True end.

Definition clears_latch (t : ResolvedThresholds) (e : space_event) : Prop :=
  match e with Observed f => stop_deletion_at_bytes t <= f | NoSpaceWrite => False end.

Definition latched (t : ResolvedThresholds) (initially : bool) (history : list space_event) : Prop :=
  (exists before e after, history = before ++ e :: after /\ sets_latch t e /\
     Forall (fun e' => ~ clears_latch t e') after) \/
  (initially = true /\ Forall (fun e' => ~ clears_latch t e') history).

Definition event_ok (e : space_event) : Prop :=
  match e with Observed f => 0 <= f | NoSpaceWrite => True end.

Definition thresholds_ok (t : ResolvedThresholds) : Prop :=
  0 <= emergency_below_bytes t < start_deletion_below_bytes t /\
  start_deletion_below_bytes t < stop_deletion_at_bytes t.

(** ** Lemmas *)

Lemma percent_bytes_ceiling c p :
  100 * (percent_bytes c p - 1) < c * p <= 100 * percent_bytes c p.
Proof.
  unfold percent_bytes. pose proof (Z.div_mod (c * p + 99) 100 ltac:(lia)).
  pose proof (Z.mod_pos_bound (c * p + 99) 100 ltac:(lia)). lia.
Qed.

Lemma resolve_ok th cap r :
  resolve th cap = Ok r ->
  0 < cap /\
  r = mkResolved (Z.max (percent_bytes cap (low_watermark_percent th)) (minimum_free_bytes th))
        (Z.max (percent_bytes cap (high_watermark_percent th)) (minimum_free_bytes th))
        (emergency_free_bytes th) /\
  emergency_below_bytes r < start_deletion_below_bytes r < stop_deletion_at_bytes r /\
  stop_deletion_at_bytes r < cap.
Proof. unfold resolve. intros H. inv_ok. bool_prop. simpl in *. split_and!; done || lia. Qed.

Lemma evaluate_thresholds c f n c' : evaluate c f n = Ok c' -> thresholds c' = thresholds c.
Proof. unfold evaluate. destruct n; intros H; by inv_ok. Qed.

Lemma evaluate_ok c f :
  0 <= f -> exists m, evaluate c f false = Ok (mkController (thresholds c) m) /\
    retention_mode f (thresholds c) (was_reclaiming_mode (mode c)) = Ok m.
Proof.
  intros Hf. unfold evaluate, retention_mode. replace (f <? 0) with false by lia. simpl. eauto.
Qed.

Lemma evaluate_emergency c f c' :
  evaluate c f false = Ok c' -> (mode c' = EMERGENCY <-> f < emergency_below_bytes (thresholds c)).
Proof.
  unfold evaluate, retention_mode. intros H. inv_ok. simpl.
  destruct (f <? emergency_below_bytes (thresholds c)) eqn:E; bool_prop; [tauto|].
  destruct (was_reclaiming_mode (mode c)), (f <? stop_deletion_at_bytes (thresholds c)),
    (f <? start_deletion_below_bytes (thresholds c)); (split; [discriminate|lia]).
Qed.

Lemma run_event_ok c e :
  event_ok e -> exists c', run_event c e = Ok c' /\ thresholds c' = thresholds c.
Proof.
  destruct e as [f|]; simpl; intros He; [|by eexists].
  destruct (evaluate_ok c f He) as (m & -> & _). by eexists.
Qed.

(** One event moves the latch exactly as the abstract rule says. *)
Lemma run_event_latch c e c' :
  thresholds_ok (thresholds c) -> run_event c e = Ok c' ->
  (was_reclaiming_mode (mode c') = true <->
     sets_latch (thresholds c) e \/
     (was_reclaiming_mode (mode c) = true /\ ~ clears_latch (thresholds c) e)).
Proof.
  intros [He Hs]. destruct e as [f|]; simpl.
  - unfold evaluate, retention_mode. intros H. inv_ok. bool_prop. simpl.
    destruct (f <? emergency_below_bytes (thresholds c)) eqn:E1,
      (was_reclaiming_mode (mode c)) eqn:E0,
      (f <? stop_deletion_at_bytes (thresholds c)) eqn:E2,
      (f <? start_deletion_below_bytes (thresholds c)) eqn:E3;
      bool_prop; simpl; intuition (lia || congruence).
  - intros [= <-]. simpl. tauto.
Qed.

Lemma latched_snoc t b h e :
  latched t b (h ++ [e]) <-> sets_latch t e \/ (latched t b h /\ ~ clears_latch t e).
Proof.
  unfold latched. split.
  - intros [(l1 & x & l2 & E & Hx & Hl2)|[-> H]].
    + destruct l2 as [|y l2 _] using rev_ind.
      * apply app_inj_tail in E as [_ ->]. by left.
      * rewrite app_comm_cons, app_assoc in E. apply app_inj_tail in E as [-> ->].
        apply Forall_app in Hl2 as [? ?%Forall_one]. right. split; [|done].
        left. by exists l1, x, l2.
    + apply Forall_app in H as [? ?%Forall_one]. right. split; [by right|done].
  - intros [He|[[(l1 & x & l2 & -> & Hx & Hl2)|[-> H]] He]].
    + left. exists h, e, []. by split; [|split].
    + left. exists l1, x, (l2 ++ [e]). split; [by rewrite <- app_assoc|].
      split; [done|]. apply Forall_app. by rewrite Forall_singleton.
    + right. split; [done|]. apply Forall_app. by rewrite Forall_singleton.
Qed.

Lemma result_fold_snoc {A B} (f : B -> A -> result B) b l x :
  result_fold f b (l ++ [x]) = result_bind (result_fold f b l) (fun b' => f b' x).
Proof.
  revert b. induction l as [|y l IH]; intros b; simpl.
  - destruct (f b x); done.
  - destruct (f b y); simpl; [apply IH|done].
Qed.

Lemma run_history c h :
  thresholds_ok (thresholds c) -> Forall event_ok h ->
  exists c', result_fold run_event c h = Ok c' /\ thresholds c' = thresholds c /\
    (was_reclaiming_mode (mode c') = true
       <-> latched (thresholds c) (was_reclaiming_mode (mode c)) h).
Proof.
  intros Ht. induction h as [|e h IH] using rev_ind; intros Hh.
  - exists c. split; [done|]. split; [done|]. unfold latched. split; [by right|].
    intros [(l1 & x & l2 & E & _)|[? _]]; [by destruct l1|done].
  - apply Forall_app in Hh as [Hh He%Forall_one].
    destruct (IH Hh) as (c1 & H1 & T1 & L1).
    destruct (run_event_ok c1 e He) as (c2 & H2 & T2).
    exists c2. rewrite result_fold_snoc, H1. simpl. split; [done|]. split; [congruence|].
    rewrite (run_event_latch c1 e c2), T1, L1, latched_snoc; [done|by rewrite T1|done].
Qed.

Lemma candidate_leb_total a b : candidate_leb a b = true \/ candidate_leb b a = true.
Proof. apply order_key_leb_total. Qed.

Lemma candidate_leb_trans a b c :
  candidate_leb a b = true -> candidate_leb b c = true -> candidate_leb a c = true.
Proof. apply order_key_leb_trans. Qed.

Definition sum_sizes (l : list RetentionCandidate) : Z := foldr (fun c acc => size_bytes c + acc) 0 l.

(** The loop takes the shortest prefix that meets the request, or everything. *)
Lemma select_loop_spec requested planned l ids total :
  select_loop requested planned l = (ids, total) ->
  exists l1 l2, l = l1 ++ l2 /\ ids = map clip_id l1 /\ total = planned + sum_sizes l1 /\
    (l2 = [] \/ requested <= total) /\
    (forall p q, l1 = p ++ q -> q <> [] -> p <> [] -> planned + sum_sizes p < requested) .
Proof.
  revert planned ids total. induction l as [|c l IH]; intros planned ids total; simpl.
  - intros [= <- <-]. exists [], []. split_and!; try done; [simpl; lia|by left|].
    intros p q Epq. by destruct p.
  - destruct (requested <=? planned + size_bytes c) eqn:E; bool_prop.
    + intros [= <- <-]. exists [c], l. split_and!; try done; [simpl; lia|by right|].
      intros [|x p] q Epq Hq Hp; [done|]. injection Epq as -> Epq. by destruct p, q.
    + destruct (select_loop requested (planned + size_bytes c) l) as [ids' total'] eqn:E'.
      intros [= <- <-]. destruct (IH _ _ _ E') as (l1 & l2 & -> & -> & -> & Hend & Hmin).
      exists (c :: l1), l2. split_and!; try done; [simpl; lia|].
      intros [|x p] q Epq Hq Hp; [done|]. injection Epq as <- Epq. simpl.
      destruct p as [|y p]; [simpl; lia|].
      specialize (Hmin (y :: p) q Epq Hq ltac:(done)). simpl in *. lia.
Qed.

Lemma eligible_sorted_elem c cs now :
  c ∈ eligible_sorted cs now <-> c ∈ cs /\ eligible_now c now = true.
Proof.
  unfold eligible_sorted. rewrite sort_by_perm, list_elem_of_In, filter_In, <- list_elem_of_In. done.
Qed.

Lemma eligible_sorted_sorted cs now :
  StronglySorted (fun a b => candidate_leb a b = true) (eligible_sorted cs now).
Proof. apply sort_by_sorted; [apply candidate_leb_total|apply candidate_leb_trans]. Qed.

(** ** Properties *)

(** Thresholds that resolve are strictly ordered inside the volume, emergency below start
    below stop below capacity, and the start and stop levels are the exact ceilings of their
    percentages (the least byte count not below the percentage) or the absolute minimum. *)
Theorem resolve_thresholds_ordered low high minimum emergency th cap r :
  StorageThresholds_new low high minimum emergency = Ok th ->
  resolve th cap = Ok r ->
  (0 <= emergency_below_bytes r < start_deletion_below_bytes r /\
   start_deletion_below_bytes r < stop_deletion_at_bytes r < cap) /\
  (forall level percent,
     (level, percent) ∈ [(start_deletion_below_bytes r, low); (stop_deletion_at_bytes r, high)] ->
     cap * percent <= 100 * level /\ minimum <= level /\
     (minimum < level -> 100 * (level - 1) < cap * percent)).
Proof.
  unfold StorageThresholds_new. intros H (Hcap & -> & Hord & Hstop)%resolve_ok. inv_ok. bool_prop.
  simpl in *. split; [lia|].
  intros level percent [Hin|[Hin|[]%not_elem_of_nil]%elem_of_cons]%elem_of_cons;
    injection Hin as -> ->;
    match goal with |- context [percent_bytes ?c ?p] => pose proof (percent_bytes_ceiling c p) end;
    lia.
Qed.

Lemma resolve_thresholds_ordered_witness :
  start_deletion_below_bytes (mkResolved 101 201 5) < stop_deletion_at_bytes (mkResolved 101 201 5).
Proof.
  apply (resolve_thresholds_ordered 10 20 50 5 (mkThresholds 10 20 50 5) 1001); reflexivity.
Defined.



(** The retention planner selects, oldest first in (order, id) order, the shortest prefix
    of the eligible clips whose sizes meet the byte request, or every eligible clip when they
    do not suffice; nothing protected, leased, unmanaged, unfinalized, unreconciled or being
    mutated is ever selected. *)
Theorem select_oldest_eligible_shortest_prefix cs requested now plan :
  0 < requested ->
  select_oldest_eligible cs requested now = Ok plan ->
  exists chosen rest,
    let sorted := chosen ++ rest in
    StronglySorted (fun a b => candidate_leb a b = true) sorted /\
    (forall c, c ∈ sorted <-> c ∈ cs /\ eligible_now c now = true) /\
    selected_clip_ids plan = map clip_id chosen /\
    planned_reclaim_bytes plan = sum_sizes chosen /\
    (target_reached plan = true \/ rest = []) /\
    (forall p q, chosen = p ++ q -> q <> [] -> sum_sizes p < requested).
Proof.
  intros Hreq. unfold select_oldest_eligible. intros H. inv_ok. bool_prop.
  replace (requested =? 0) with false in H by lia.
  destruct (select_loop requested 0 (eligible_sorted cs now)) as [ids total] eqn:E. inv_ok.
  destruct (select_loop_spec _ _ _ _ _ E) as (l1 & l2 & El & -> & -> & Hend & Hmin).
  exists l1, l2. simpl. rewrite <- El. split; [apply eligible_sorted_sorted|].
  split; [intros c; apply eligible_sorted_elem|]. split; [done|]. split; [done|]. split.
  - unfold target_reached; simpl. destruct Hend as [->|?]; [by right|left; lia].
  - intros [|x p] q Epq Hq; [simpl; lia|]. by apply (Hmin (x :: p) q).
Qed.

Definition sample_candidate (i : N) (order size : Z) (prot : bool) : RetentionCandidate :=
  mkCandidate (mkUUID i) order size true true true prot false None.

Lemma select_oldest_eligible_shortest_prefix_witness :
  exists chosen rest : list RetentionCandidate,
    map clip_id chosen = [mkUUID 3; mkUUID 2] /\ sum_sizes chosen = 90 /\
    ((100 <=? 90) = true \/ rest = []).
Proof.
  destruct (select_oldest_eligible_shortest_prefix
    [sample_candidate 1 0 70 true; sample_candidate 2 5 50 false; sample_candidate 3 2 40 false]
    100 1000 (mkPlan [mkUUID 3; mkUUID 2] 90 100)) as (l1 & l2 & _ & _ & H1 & H2 & H3 & _);
    [lia|vm_compute; reflexivity|].
  exists l1, l2. split; [symmetry; exact H1|]. split; [symmetry; exact H2|exact H3].
Defined.
