(* ===== verification/Naming.v ===== *)
(** * Clip filenames ([src/dashcam/storage/naming.py])

    Generation and strict parsing of the three filename grammars: provisional
    ([boot-<id>-<seq>.partial]), finalized without a civil timestamp and
    finalized with canonical UTC milliseconds. *)

From Stdlib Require Import Ascii String ZArith Lia.
From stdpp Require Import base list sets fin_sets gmap strings.
From S2P Require Import Prelude PyStr DateTime Uuid.

Definition MAX_COMPONENT_LENGTH : Z := 255.

(** [[a-z0-9]{5,16}] *)
Definition BOOT_ID_RE (s : str) : bool :=
  forallb is_lower_alnum s && (5 <=? len s) && (len s <=? 16).

Definition is_safe_char (c : ascii) : bool := is_alnum c || one_of "._-" c.

(** [[A-Za-z0-9._-]+] *)
Definition SAFE_COMPONENT_RE (s : str) : bool := negb (bool_decide (s = [])) && forallb is_safe_char s.

Definition RESERVED_DEVICE_NAMES : list str :=
  map u ["CON"; "PRN"; "AUX"; "NUL";
         "COM1"; "COM2"; "COM3"; "COM4"; "COM5"; "COM6"; "COM7"; "COM8"; "COM9";
         "LPT1"; "LPT2"; "LPT3"; "LPT4"; "LPT5"; "LPT6"; "LPT7"; "LPT8"; "LPT9"]%string.

Definition validate_filename_component (name : str) : result str :=
  raise_if bool_decide (name = []) || (MAX_COMPONENT_LENGTH <? len name)
    as ClipNameError msg "filename must be a non-empty bounded string" ;;
  raise_if negb (isascii name) || negb (bool_decide (name = strip_by is_space name))
           || endswith (u ".") name || endswith (u " ") name
    as ClipNameError msg "filename must be ASCII and cannot end in a dot or space" ;;
  raise_if contains "/" name || contains "\" name || negb (SAFE_COMPONENT_RE name)
    as ClipNameError msg "filename contains a path separator or Windows-reserved character" ;;
  let device_stem := upper (fst (fst (partition "." name))) in
  raise_if bool_decide (device_stem ∈ RESERVED_DEVICE_NAMES)
    as ClipNameError msg "filename uses a reserved Windows device name" ;;
  Ok name.

Record ClipFilePair := mkPair { video_name : str; metadata_name : str }.

Definition ClipFilePair_new (v m : str) : result ClipFilePair :=
  let! _ := validate_filename_component v in
  let! _ := validate_filename_component m in
  raise_if negb (endswith (u ".mp4") v) || negb (endswith (u ".json") m)
    as ClipNameError msg "a clip pair requires .mp4 and .json members" ;;
  raise_if negb (bool_decide (removesuffix (u ".mp4") v = removesuffix (u ".json") m))
    as ClipNameError msg "MP4 and JSON names must have the same stem" ;;
  Ok (mkPair v m).

Definition relative_paths (self : ClipFilePair) (directory : str) : result (str * str) :=
  raise_if negb (bool_decide (directory ∈ map u ["pending"; "clips"; "protected"; "quarantine"]%string))
    as ClipNameError msg "unrecognized application directory" ;;
  Ok (path_join directory (video_name self), path_join directory (metadata_name self)).

Record ParsedClipName := mkParsed {
  boot_id : str;
  sequence : Z;
  utc_started_at : option datetime;
  extension : str;
  provisional : bool;
  partial : bool
}.

(** Only the canonical text of a UUID is an API identifier. *)
Definition parse_clip_id (value : str) : result UUID :=
  match UUID_of_str value with
  | Err e =>
      if is_ValueError e then Err (Exn ClipNameError "clip ID must be a canonical UUID") else Err e
  | Ok i =>
      raise_if negb (bool_decide (uuid_str i = value))
        as ClipNameError msg "clip ID must be canonical" ;;
      Ok i
  end.

Definition new_pair (stem : str) (existing_names : list str) : result ClipFilePair :=
  let! p := ClipFilePair_new (stem ++ u ".mp4") (stem ++ u ".json") in
  let existing_casefolded := map casefold existing_names in
  raise_if bool_decide (casefold (video_name p) ∈ existing_casefolded)
           || bool_decide (casefold (metadata_name p) ∈ existing_casefolded)
    as ClipNameError msg "refusing filename collision" ;;
  Ok p.

Definition validated_boot_id (b : str) : result str :=
  raise_if negb (BOOT_ID_RE b)
    as ClipNameError msg "boot ID must be 5-16 lowercase ASCII alphanumeric characters" ;;
  Ok b.

Definition checked_sequence (n : Z) : result Z :=
  raise_if negb ((0 <=? n) && (n <=? 999999))
    as ClipNameError msg "sequence must be an integer between 0 and 999999" ;;
  Ok n.

Definition as_utc (value : datetime) : result datetime :=
  raise_if negb (is_aware value)
    as ClipNameError msg "final timestamps must be timezone-aware" ;;
  astimezone_utc value.

Definition provisional_clip_pair (b : str) (n : Z) (existing_names : list str) : result ClipFilePair :=
  let! b' := validated_boot_id b in
  let! n' := checked_sequence n in
  new_pair (u "boot-" ++ b' ++ u "-" ++ zpad 6 n' ++ u ".partial") existing_names.

Definition finalized_unsynced_clip_pair (b : str) (n : Z) (existing_names : list str)
    : result ClipFilePair :=
  let! b' := validated_boot_id b in
  let! n' := checked_sequence n in
  new_pair (u "boot-" ++ b' ++ u "-" ++ zpad 6 n') existing_names.

(** [f"{value:%Y%m%dT%H%M%S}"]; the C library's [%Y] does not pad the year. *)
Definition strftime_compact (dt : datetime) : str :=
  zpad 0 (d_year (dt_date dt)) ++ zpad 2 (d_month (dt_date dt)) ++ zpad 2 (d_day (dt_date dt))
  ++ u "T" ++ zpad 2 (t_hour (dt_time dt)) ++ zpad 2 (t_minute (dt_time dt))
  ++ zpad 2 (t_second (dt_time dt)).

Definition finalized_clip_pair (started : datetime) (b : str) (n : Z) (existing_names : list str)
    : result ClipFilePair :=
  let! utc_value := as_utc started in
  let! b' := validated_boot_id b in
  let! n' := checked_sequence n in
  new_pair
    (strftime_compact utc_value ++ u "." ++ zpad 3 (t_us (dt_time utc_value) / 1000) ++ u "Z_"
     ++ b' ++ u "_s" ++ zpad 6 n') existing_names.

(** ** Parsing *)

Notation "'let?' x := o 'in' k" := (match o with Some x => k | None => None end)
  (at level 10, x pattern, o at level 100, k at level 200) : py_scope.

Definition match_extension (s : str) : option str :=
  if bool_decide (s = u "mp4") || bool_decide (s = u "json") then Some s else None.

(** The boot identifier group, cut at the first character outside its class. *)
Definition match_boot (s : str) : option (str * str) :=
  let '(b, r) := span is_lower_alnum s in
  if (5 <=? len b) && (len b <=? 16) then Some (b, r) else None.

(** [boot-(id)-(seq)<middle>(mp4|json)] *)
Definition match_boot_name (middle : str) (name : str) : option (str * str * str) :=
  let? r := eat (u "boot-") name in
  let? (b, r) := match_boot r in
  let? r := eat (u "-") r in
  let? (n, r) := eat_n is_digit 6 r in
  let? r := eat middle r in
  let? e := match_extension r in
  Some (b, n, e).

Definition PROVISIONAL_RE : str -> option (str * str * str) := match_boot_name (u ".partial.").
Definition FINAL_UNSYNCED_RE : str -> option (str * str * str) := match_boot_name (u ".").

(** [(\d{8}T\d{6}\.\d{3}Z)_(id)_s(seq)\.(mp4|json)], the timestamp as its three digit groups. *)
Definition FINAL_RE (name : str) : option (str * str * str * str * str * str) :=
  let? (d8, r) := eat_n is_digit 8 name in
  let? r := eat (u "T") r in
  let? (h6, r) := eat_n is_digit 6 r in
  let? r := eat (u ".") r in
  let? (f3, r) := eat_n is_digit 3 r in
  let? r := eat (u "Z_") r in
  let? (b, r) := match_boot r in
  let? r := eat (u "_s") r in
  let? (n, r) := eat_n is_digit 6 r in
  let? r := eat (u ".") r in
  let? e := match_extension r in
  Some (d8, h6, f3, b, n, e).

(** [datetime.strptime(text, "%Y%m%dT%H%M%S.%fZ").replace(tzinfo=UTC)] on the matched groups.
    With eight and six digits every directive takes its full width; a three-digit [%f] is
    milliseconds. *)
Definition strptime_groups (d8 h6 f3 : str) : result datetime :=
  let! d := date_new (int_of_digits (take 4 d8)) (int_of_digits (take 2 (drop 4 d8)))
              (int_of_digits (drop 6 d8)) in
  let! t := time_new (int_of_digits (take 2 h6)) (int_of_digits (take 2 (drop 2 h6)))
              (int_of_digits (drop 4 h6)) (int_of_digits f3 * 1000) in
  Ok (mkDT d t (Some 0)).

Definition parse_clip_filename (name : str) : result ParsedClipName :=
  let! _ := validate_filename_component name in
  match PROVISIONAL_RE name with
  | Some (b, n, e) => Ok (mkParsed b (int_of_digits n) None e true true)
  | None =>
      match FINAL_UNSYNCED_RE name with
      | Some (b, n, e) => Ok (mkParsed b (int_of_digits n) None e true false)
      | None =>
          match FINAL_RE name with
          | None => Err (Exn ClipNameError "filename is not a dashcam clip name")
          | Some (d8, h6, f3, b, n, e) =>
              match strptime_groups d8 h6 f3 with
              | Err x => if is_ValueError x
                         then Err (Exn ClipNameError "filename has an invalid UTC timestamp")
                         else Err x
              | Ok dt => Ok (mkParsed b (int_of_digits n) (Some dt) e false false)
              end
          end
      end
  end.

(** ** Lemmas *)

Lemma is_safe_char_facts c :
  is_safe_char c = true ->
  ord c < 128 /\ is_space c = false /\ c <> "/"%char /\ c <> "\"%char /\ c <> " "%char.
Proof. intros Hc. destruct c as [[] [] [] [] [] [] [] []]; vm_compute in Hc; try discriminate; by vm_compute. Qed.

Lemma lower_alnum_safe c : is_lower_alnum c = true -> is_safe_char c = true.
Proof. unfold is_safe_char, is_lower_alnum, is_alnum, is_alpha. rewrite !orb_true_iff. tauto. Qed.

Lemma digit_safe c : is_digit c = true -> is_safe_char c = true.
Proof. unfold is_safe_char, is_alnum. rewrite !orb_true_iff. tauto. Qed.

Lemma endswith_char c p x : endswith [c] (p ++ [x]) = char_eqb c x.
Proof. unfold endswith. rewrite rev_app_distr. simpl. apply andb_true_r. Qed.

Lemma partition_head_length c h t :
  c ∉ h -> (length h <= length (fst (fst (partition c (h ++ t)))))%nat.
Proof.
  induction h as [|x h IH]; simpl; [lia|]. rewrite not_elem_of_cons. intros [Hx Hh].
  destruct (char_eqb x c) eqn:E; [apply char_eqb_eq in E; congruence|].
  specialize (IH Hh). destruct (partition c (h ++ t)) as [[a b] d]. simpl in *. lia.
Qed.

Lemma reserved_short r : r ∈ RESERVED_DEVICE_NAMES -> (length r <= 4)%nat.
Proof.
  assert (Forall (fun r => (length r <= 4)%nat) RESERVED_DEVICE_NAMES) as H by (repeat constructor).
  intros Hr. rewrite Forall_forall in H. by apply H.
Qed.

(** Texts of portable characters that start with five dot-free characters and do not end in a
    dot are accepted. *)
Lemma validate_component_intro h t x :
  let name := h ++ t ++ [x] in
  Forall (fun c => is_safe_char c = true) name -> len name <= MAX_COMPONENT_LENGTH ->
  x <> "."%char -> "."%char ∉ h -> (5 <= length h)%nat ->
  validate_filename_component name = Ok name.
Proof.
  intros name Hs Hlen Hx Hh Hl5. unfold validate_filename_component.
  assert (name <> []) as Hne by (intros E; apply (f_equal length) in E; unfold name in E;
    rewrite !length_app in E; simpl in E; lia).
  rewrite bool_decide_eq_false_2 by done. replace (MAX_COMPONENT_LENGTH <? len name) with false by lia.
  assert (forall c, c ∈ name -> is_safe_char c = true) as Hin by (by apply Forall_forall).
  assert (isascii name = true) as ->.
  { apply forallb_Forall. eapply Forall_impl; [exact Hs|]. intros c Hc.
    apply Z.ltb_lt. by apply is_safe_char_facts. }
  rewrite strip_by_id by (eapply Forall_impl; [exact Hs|]; intros c Hc; by apply is_safe_char_facts).
  rewrite bool_decide_eq_true_2 by done.
  assert (is_safe_char x = true) as Hxs by (apply Hin; unfold name; set_solver).
  unfold name at 1 2. rewrite app_assoc. change (u ".") with ["."%char]. change (u " ") with [" "%char].
  rewrite !endswith_char.
  assert (char_eqb "." x = false) as -> by (by apply char_eqb_neq).
  assert (char_eqb " " x = false) as -> by (apply char_eqb_neq; intros <-; by apply is_safe_char_facts in Hxs as (_&_&_&_&?)).
  assert (contains "/" name = false) as ->.
  { apply contains_false_iff. intros Hc%Hin. by apply is_safe_char_facts in Hc as (_&_&?&_). }
  assert (contains "\" name = false) as ->.
  { apply contains_false_iff. intros Hc%Hin. by apply is_safe_char_facts in Hc as (_&_&_&?&_). }
  unfold SAFE_COMPONENT_RE. rewrite bool_decide_eq_false_2 by done.
  assert (forallb is_safe_char name = true) as -> by (by apply forallb_Forall).
  simpl. rewrite bool_decide_eq_false_2; [done|]. intros Hr%reserved_short.
  unfold upper in Hr. rewrite length_map in Hr.
  pose proof (partition_head_length "." h (t ++ [x]) Hh) as Hp. unfold name in Hr. lia.
Qed.

(** No collision of a generated pair with the existing names, case-insensitively. *)
Definition collision_free (stem : str) (existing_names : list str) : Prop :=
  (casefold (stem ++ u ".mp4") ∉ map casefold existing_names) /\
  (casefold (stem ++ u ".json") ∉ map casefold existing_names).

Lemma ClipFilePair_new_stem stem :
  validate_filename_component (stem ++ u ".mp4") = Ok (stem ++ u ".mp4") ->
  validate_filename_component (stem ++ u ".json") = Ok (stem ++ u ".json") ->
  ClipFilePair_new (stem ++ u ".mp4") (stem ++ u ".json")
    = Ok (mkPair (stem ++ u ".mp4") (stem ++ u ".json")).
Proof.
  intros Hv Hm. unfold ClipFilePair_new. rewrite Hv, Hm. simpl result_bind.
  rewrite !endswith_app, !removesuffix_app. by rewrite bool_decide_eq_true_2.
Qed.

Lemma new_pair_iff stem existing p :
  validate_filename_component (stem ++ u ".mp4") = Ok (stem ++ u ".mp4") ->
  validate_filename_component (stem ++ u ".json") = Ok (stem ++ u ".json") ->
  (new_pair stem existing = Ok p) <->
  p = mkPair (stem ++ u ".mp4") (stem ++ u ".json") /\ collision_free stem existing.
Proof.
  intros Hv Hm. unfold new_pair. rewrite (ClipFilePair_new_stem stem Hv Hm). simpl result_bind.
  unfold collision_free. cbv beta iota delta [video_name metadata_name].
  split.
  - intros H. inv_ok. bool_prop. done.
  - intros [-> [H1 H2]]. by rewrite !bool_decide_eq_false_2.
Qed.

Lemma boot_id_facts b :
  BOOT_ID_RE b = true <->
  Forall (fun c => is_lower_alnum c = true) b /\ 5 <= len b <= 16.
Proof. unfold BOOT_ID_RE. rewrite !andb_true_iff, forallb_Forall, !Z.leb_le. tauto. Qed.

Lemma checked_sequence_ok n m : checked_sequence n = Ok m <-> m = n /\ 0 <= n <= 999999.
Proof.
  unfold checked_sequence. split; [intros H; inv_ok; bool_prop; lia|].
  intros [-> Hn]. by replace ((0 <=? n) && (n <=? 999999)) with true by lia.
Qed.

Lemma validated_boot_id_ok b b' : validated_boot_id b = Ok b' <-> b' = b /\ BOOT_ID_RE b = true.
Proof.
  unfold validated_boot_id. destruct (BOOT_ID_RE b); simpl; [|naive_solver].
  split; [by intros [= ->]|by intros [-> _]].
Qed.

Lemma safe_u s : forallb is_safe_char (u s) = true -> Forall (fun c => is_safe_char c = true) (u s).
Proof. by rewrite forallb_Forall. Qed.

Lemma safe_boot b : BOOT_ID_RE b = true -> Forall (fun c => is_safe_char c = true) b.
Proof. intros [H _]%boot_id_facts. eapply Forall_impl; [exact H|]. apply lower_alnum_safe. Qed.

Lemma safe_digits k n : Forall (fun c => is_safe_char c = true) (digits_fixed k n).
Proof. eapply Forall_impl; [apply digits_fixed_digits|]. apply digit_safe. Qed.

#[local] Hint Resolve safe_u safe_boot safe_digits : dashcam.

Lemma no_dot_digits k n : "."%char ∉ digits_fixed k n.
Proof.
  intros H. pose proof (digits_fixed_digits k n) as Hd. rewrite Forall_forall in Hd.
  by apply Hd in H.
Qed.

(** The stem of a generated name is portable with either extension. *)
Lemma generated_component_ok h t :
  Forall (fun c => is_safe_char c = true) (h ++ t) -> "."%char ∉ h -> (5 <= length h)%nat ->
  len (h ++ t) <= 200 ->
  validate_filename_component ((h ++ t) ++ u ".mp4") = Ok ((h ++ t) ++ u ".mp4") /\
  validate_filename_component ((h ++ t) ++ u ".json") = Ok ((h ++ t) ++ u ".json").
Proof.
  intros Hs Hh Hl Hlen.
  pose proof (validate_component_intro h (t ++ u ".mp") "4"%char) as Hv.
  pose proof (validate_component_intro h (t ++ u ".jso") "n"%char) as Hm.
  cbv zeta in Hv, Hm.
  change (u ".mp4") with (u ".mp" ++ ["4"%char]). change (u ".json") with (u ".jso" ++ ["n"%char]).
  rewrite <- !app_assoc in *. unfold len, MAX_COMPONENT_LENGTH in *. rewrite !length_app in *.
  change (length (u ".mp")) with 3%nat in *. change (length (u ".jso")) with 4%nat in *.
  cbn [length] in *. apply Forall_app in Hs as [Hs1 Hs2].
  split; [apply Hv|apply Hm]; try done; try lia; rewrite !Forall_app; split_and!; try done;
    (by apply safe_u) || by repeat constructor.
Qed.

Lemma len_app a b : len (a ++ b) = len a + len b.
Proof. unfold len. rewrite length_app. lia. Qed.

Lemma len_digits k n : len (digits_fixed k n) = Z.of_nat k.
Proof. unfold len. by rewrite digits_fixed_length. Qed.

Lemma boot_stem_ok b n tail :
  BOOT_ID_RE b = true -> 0 <= n <= 999999 ->
  Forall (fun c => is_safe_char c = true) tail -> len tail <= 20 ->
  let stem := u "boot-" ++ b ++ u "-" ++ zpad 6 n ++ tail in
  validate_filename_component (stem ++ u ".mp4") = Ok (stem ++ u ".mp4") /\
  validate_filename_component (stem ++ u ".json") = Ok (stem ++ u ".json").
Proof.
  intros Hb Hn Ht Hl stem. unfold stem. rewrite zpad_fixed by lia.
  apply generated_component_ok; [| |by change (length (u "boot-")) with 5%nat|].
  - rewrite !Forall_app. split_and!; auto with dashcam.
  - by apply contains_false_iff.
  - rewrite !len_app, len_digits. apply boot_id_facts in Hb as [_ Hb].
    change (len (u "boot-")) with 5. change (len (u "-")) with 1. lia.
Qed.

Lemma match_boot_app b x r :
  BOOT_ID_RE b = true -> is_lower_alnum x = false -> match_boot (b ++ x :: r) = Some (b, x :: r).
Proof.
  intros [Hb Hl]%boot_id_facts Hx. unfold match_boot. rewrite span_app_stop by done.
  by replace ((5 <=? len b) && (len b <=? 16)) with true by lia.
Qed.

Lemma match_boot_name_app middle b n r :
  BOOT_ID_RE b = true -> 0 <= n <= 999999 ->
  match_boot_name middle (u "boot-" ++ b ++ u "-" ++ zpad 6 n ++ r) =
  (let? r := eat middle r in let? e := match_extension r in Some (b, digits_fixed 6 n, e)).
Proof.
  intros Hb Hn. unfold match_boot_name. rewrite eat_app.
  change (u "-") with ["-"%char]. cbn [app].
  rewrite match_boot_app by done. cbn [eat]. rewrite char_eqb_refl, zpad_fixed by lia.
  by rewrite eat_n_app by auto using digits_fixed_length, digits_fixed_digits.
Qed.

Lemma match_boot_inv s b r :
  match_boot s = Some (b, r) -> s = b ++ r /\ BOOT_ID_RE b = true.
Proof.
  unfold match_boot. destruct (span is_lower_alnum s) as [b' r'] eqn:E.
  destruct (_ && _) eqn:El; [|done]. intros [= <- <-]. apply span_inv in E as [-> H]. bool_prop.
  split; [done|]. apply boot_id_facts. split; [done|lia].
Qed.

Lemma match_extension_inv s e : match_extension s = Some e -> s = e.
Proof. unfold match_extension. destruct (_ || _); [by intros [= ->]|done]. Qed.

Lemma match_extension_ok e : e = u "mp4" \/ e = u "json" -> match_extension e = Some e.
Proof. by intros [-> | ->]. Qed.

Lemma match_boot_name_inv middle name b n e :
  match_boot_name middle name = Some (b, n, e) ->
  name = u "boot-" ++ b ++ u "-" ++ n ++ middle ++ e /\ length n = 6%nat /\
  Forall (fun c => is_digit c = true) n.
Proof.
  unfold match_boot_name.
  destruct (eat (u "boot-") name) as [r1|] eqn:E1; [|done].
  destruct (match_boot r1) as [[b' r2]|] eqn:E2; [|done].
  destruct (eat (u "-") r2) as [r3|] eqn:E3; [|done].
  destruct (eat_n is_digit 6 r3) as [[n' r4]|] eqn:E4; [|done].
  destruct (eat middle r4) as [r5|] eqn:E5; [|done].
  destruct (match_extension r5) as [e'|] eqn:E6; [|done]. intros [= -> -> ->].
  apply eat_inv in E1 as ->. apply match_boot_inv in E2 as [-> _]. apply eat_inv in E3 as ->.
  apply eat_n_inv in E4 as (-> & Hl & Hd). apply eat_inv in E5 as ->.
  by apply match_extension_inv in E6 as ->.
Qed.

Lemma FINAL_RE_inv name d8 h6 f3 b n e :
  FINAL_RE name = Some (d8, h6, f3, b, n, e) ->
  name = d8 ++ u "T" ++ h6 ++ u "." ++ f3 ++ u "Z_" ++ b ++ u "_s" ++ n ++ u "." ++ e /\
  (length d8 = 8 /\ length h6 = 6 /\ length f3 = 3 /\ length n = 6)%nat /\
  Forall (fun c => is_digit c = true) (d8 ++ h6 ++ f3 ++ n).
Proof.
  unfold FINAL_RE.
  destruct (eat_n is_digit 8 name) as [[d8' r1]|] eqn:E1; [|done].
  destruct (eat (u "T") r1) as [r2|] eqn:E2; [|done].
  destruct (eat_n is_digit 6 r2) as [[h6' r3]|] eqn:E3; [|done].
  destruct (eat (u ".") r3) as [r4|] eqn:E4; [|done].
  destruct (eat_n is_digit 3 r4) as [[f3' r5]|] eqn:E5; [|done].
  destruct (eat (u "Z_") r5) as [r6|] eqn:E6; [|done].
  destruct (match_boot r6) as [[b' r7]|] eqn:E7; [|done].
  destruct (eat (u "_s") r7) as [r8|] eqn:E8; [|done].
  destruct (eat_n is_digit 6 r8) as [[n' r9]|] eqn:E9; [|done].
  destruct (eat (u ".") r9) as [r10|] eqn:E10; [|done].
  destruct (match_extension r10) as [e'|] eqn:E11; [|done].
  intros [= -> -> -> -> -> ->].
  apply eat_n_inv in E1 as (-> & ? & ?). apply eat_inv in E2 as ->.
  apply eat_n_inv in E3 as (-> & ? & ?). apply eat_inv in E4 as ->.
  apply eat_n_inv in E5 as (-> & ? & ?). apply eat_inv in E6 as ->.
  apply match_boot_inv in E7 as [-> _]. apply eat_inv in E8 as ->.
  apply eat_n_inv in E9 as (-> & ? & ?). apply eat_inv in E10 as ->.
  apply match_extension_inv in E11 as ->. by rewrite !Forall_app.
Qed.

Lemma int_of_sequence n : 0 <= n <= 999999 -> int_of_digits (digits_fixed 6 n) = n.
Proof. intros. apply int_of_digits_fixed_small. lia. Qed.

(** A text that starts with a digit is in neither boot-relative grammar. *)
Lemma match_boot_name_digit middle c r : is_digit c = true -> match_boot_name middle (c :: r) = None.
Proof.
  intros Hc. unfold match_boot_name. change (u "boot-") with ("b"%char :: u "oot-"). cbn [eat].
  destruct (char_eqb "b" c) eqn:E; [|done]. apply char_eqb_eq in E as <-. by vm_compute in Hc.
Qed.

Lemma digits_injective k s1 s2 :
  length s1 = k -> length s2 = k ->
  Forall (fun c => is_digit c = true) s1 -> Forall (fun c => is_digit c = true) s2 ->
  int_of_digits s1 = int_of_digits s2 -> s1 = s2.
Proof.
  intros H1 H2 D1 D2 E. rewrite <- (digits_fixed_int s1 D1), <- (digits_fixed_int s2 D2).
  by rewrite E, H1, H2.
Qed.

(** A digit text is recovered from the values of consecutive fields. *)
Lemma digits_split_injective i k s1 s2 :
  length s1 = k -> length s2 = k -> (i <= k)%nat ->
  Forall (fun c => is_digit c = true) s1 -> Forall (fun c => is_digit c = true) s2 ->
  int_of_digits (take i s1) = int_of_digits (take i s2) -> drop i s1 = drop i s2 -> s1 = s2.
Proof.
  intros L1 L2 Hi D1 D2 Et Ed. rewrite <- (take_drop i s1), <- (take_drop i s2), Ed. f_equal.
  apply (digits_injective i); auto using Forall_take; rewrite length_take; lia.
Qed.

Lemma strptime_groups_ok d8 h6 f3 dt :
  strptime_groups d8 h6 f3 = Ok dt ->
  dt_date dt = mkDate (int_of_digits (take 4 d8)) (int_of_digits (take 2 (drop 4 d8)))
                 (int_of_digits (drop 6 d8)) /\
  dt_time dt = mkTime (int_of_digits (take 2 h6)) (int_of_digits (take 2 (drop 2 h6)))
                 (int_of_digits (drop 4 h6)) (int_of_digits f3 * 1000) /\
  dt_ok dt /\ dt_off dt = Some 0.
Proof.
  unfold strptime_groups. intros H. inv_ok. unfold date_new, time_new in *.
  destruct (date_valid _ _ _) eqn:Ed; [|done]. destruct (time_valid _ _ _ _) eqn:Et; [|done].
  injection Hb as <-. injection Hb0 as <-. done.
Qed.

Lemma strptime_groups_injective d8 h6 f3 d8' h6' f3' dt :
  (length d8 = 8 /\ length h6 = 6 /\ length f3 = 3)%nat ->
  (length d8' = 8 /\ length h6' = 6 /\ length f3' = 3)%nat ->
  Forall (fun c => is_digit c = true) (d8 ++ h6 ++ f3) ->
  Forall (fun c => is_digit c = true) (d8' ++ h6' ++ f3') ->
  strptime_groups d8 h6 f3 = Ok dt -> strptime_groups d8' h6' f3' = Ok dt ->
  d8 = d8' /\ h6 = h6' /\ f3 = f3'.
Proof.
  intros (L1 & L2 & L3) (L1' & L2' & L3') (D1 & D2 & D3)%Forall_app_3 (D1' & D2' & D3')%Forall_app_3.
  intros (Hd & Ht & _)%strptime_groups_ok (Hd' & Ht' & _)%strptime_groups_ok.
  rewrite Hd in Hd'. rewrite Ht in Ht'. injection Hd' as E1 E2 E3. injection Ht' as F1 F2 F3 F4.
  assert (drop 6 d8 = drop 6 d8') as E3'.
  { apply (digits_injective 2); auto using Forall_drop; rewrite length_drop; lia. }
  assert (drop 4 h6 = drop 4 h6') as F3'.
  { apply (digits_injective 2); auto using Forall_drop; rewrite length_drop; lia. }
  split_and!.
  - apply (digits_split_injective 4 8); try done; [lia|].
    apply (digits_split_injective 2 4); rewrite ?length_drop, ?drop_drop;
      by auto using Forall_drop with lia.
  - apply (digits_split_injective 2 6); try done; [lia|].
    apply (digits_split_injective 2 4); rewrite ?length_drop, ?drop_drop;
      by auto using Forall_drop with lia.
  - apply (digits_injective 3); auto. lia.
Qed.

Lemma parse_boot_name name b n r e part :
  BOOT_ID_RE b = true -> 0 <= n <= 999999 ->
  (part = true /\ r = u ".partial." \/ part = false /\ r = u ".") ->
  (e = u "mp4" \/ e = u "json") ->
  name = u "boot-" ++ b ++ u "-" ++ zpad 6 n ++ r ++ e ->
  validate_filename_component name = Ok name ->
  parse_clip_filename name = Ok (mkParsed b n None e true part).
Proof.
  intros Hb Hn Hr He Hname Hv. unfold parse_clip_filename. rewrite Hv. cbn [result_bind].
  unfold PROVISIONAL_RE, FINAL_UNSYNCED_RE. rewrite Hname.
  destruct Hr as [[-> ->]|[-> ->]]; rewrite !match_boot_name_app by done.
  - by rewrite eat_app, match_extension_ok, int_of_sequence.
  - assert (eat (u ".partial.") (u "." ++ e) = None) as -> by (by destruct He as [-> | ->]).
    by rewrite eat_app, match_extension_ok, int_of_sequence.
Qed.

(** The instant a final filename can carry: UTC, truncated to milliseconds. *)
Definition truncate_ms (dt : datetime) : datetime :=
  mkDT (dt_date dt)
    (mkTime (t_hour (dt_time dt)) (t_minute (dt_time dt)) (t_second (dt_time dt))
       (t_us (dt_time dt) / 1000 * 1000)) (Some 0).

(** The digit groups of a final filename. *)
Definition date_digits (d : date) : str :=
  digits_fixed 4 (d_year d) ++ digits_fixed 2 (d_month d) ++ digits_fixed 2 (d_day d).
Definition time_digits (t : time) : str :=
  digits_fixed 2 (t_hour t) ++ digits_fixed 2 (t_minute t) ++ digits_fixed 2 (t_second t).

Lemma strftime_compact_digits dt :
  dt_ok dt -> 1000 <= d_year (dt_date dt) ->
  strftime_compact dt = date_digits (dt_date dt) ++ u "T" ++ time_digits (dt_time dt).
Proof.
  intros [Hd Ht] Hy. unfold date_ok, time_ok in *. rewrite date_valid_iff in Hd.
  rewrite time_valid_iff in Ht. unfold strftime_compact, date_digits, time_digits.
  assert (d_day (dt_date dt) <= 31) as Hday
    by (unfold days_in_month in Hd; repeat case_match; lia).
  rewrite zpad_0_year, !zpad_fixed by lia. by rewrite <- !app_assoc.
Qed.

Lemma FINAL_RE_app d8 h6 f3 b n e :
  (length d8 = 8 /\ length h6 = 6 /\ length f3 = 3)%nat ->
  Forall (fun c => is_digit c = true) (d8 ++ h6 ++ f3) ->
  BOOT_ID_RE b = true -> e = u "mp4" \/ e = u "json" ->
  FINAL_RE (d8 ++ u "T" ++ h6 ++ u "." ++ f3 ++ u "Z_" ++ b ++ u "_s" ++ digits_fixed 6 n
            ++ u "." ++ e) = Some (d8, h6, f3, b, digits_fixed 6 n, e).
Proof.
  intros (L1 & L2 & L3) (D1 & D2 & D3)%Forall_app_3 Hb He. unfold FINAL_RE.
  rewrite eat_n_app, eat_app, eat_n_app, eat_app, eat_n_app, eat_app by done.
  change (u "_s") with ("_"%char :: u "s"). cbn [app]. rewrite match_boot_app by done.
  change ("_"%char :: u "s" ++ digits_fixed 6 n ++ u "." ++ e)
    with (("_"%char :: u "s") ++ digits_fixed 6 n ++ u "." ++ e).
  rewrite eat_app, eat_n_app, eat_app by auto using digits_fixed_length, digits_fixed_digits.
  by rewrite match_extension_ok.
Qed.

Lemma take_drop_digits (a b c : str) :
  length a = 2%nat -> length b = 2%nat ->
  take 2 (a ++ b ++ c) = a /\ take 2 (drop 2 (a ++ b ++ c)) = b /\ drop 4 (a ++ b ++ c) = c.
Proof.
  intros Ha Hb. split_and!; [by apply take_app_length'| |].
  - rewrite drop_app_length' by done. by apply take_app_length'.
  - rewrite app_assoc. apply drop_app_length'. rewrite length_app. lia.
Qed.

Lemma strptime_groups_digits dt :
  dt_ok dt -> dt_off dt = Some 0 ->
  strptime_groups (date_digits (dt_date dt)) (time_digits (dt_time dt))
    (digits_fixed 3 (t_us (dt_time dt) / 1000)) = Ok (truncate_ms dt).
Proof.
  intros [Hd Ht] Ho. unfold strptime_groups, date_digits, time_digits.
  destruct (take_drop_digits (digits_fixed 2 (t_hour (dt_time dt)))
    (digits_fixed 2 (t_minute (dt_time dt))) (digits_fixed 2 (t_second (dt_time dt))))
    as (-> & -> & ->); try apply digits_fixed_length.
  rewrite take_app_length', drop_app_length', take_app_length' by (by rewrite digits_fixed_length).
  rewrite app_assoc, drop_app_length' by (by rewrite length_app, !digits_fixed_length).
  pose proof Hd as Hd'. pose proof Ht as Ht'. unfold date_ok, time_ok in Hd', Ht'.
  rewrite date_valid_iff in Hd'. rewrite time_valid_iff in Ht'.
  assert (d_day (dt_date dt) <= 31) as Hday
    by (unfold days_in_month in Hd'; repeat case_match; lia).
  assert (0 <= t_us (dt_time dt) / 1000 < 1000) as Hms.
  { split; [apply Z.div_pos; lia|apply Z.div_lt_upper_bound; lia]. }
  rewrite !int_of_digits_fixed_small by lia.
  unfold date_new. rewrite Hd. cbn [result_bind]. unfold time_new, truncate_ms.
  pose proof (Z.mul_div_le (t_us (dt_time dt)) 1000 ltac:(lia)).
  assert (time_valid (t_hour (dt_time dt)) (t_minute (dt_time dt)) (t_second (dt_time dt))
            (t_us (dt_time dt) / 1000 * 1000) = true) as -> by (apply time_valid_iff; lia).
  cbn [result_bind]. by destruct (dt_date dt).
Qed.

Lemma date_digits_cons d : exists c r, date_digits d = c :: r /\ is_digit c = true.
Proof.
  unfold date_digits. pose proof (digits_fixed_digits 4 (d_year d)) as H.
  pose proof (digits_fixed_length 4 (d_year d)) as Hl.
  destruct (digits_fixed 4 (d_year d)) as [|c r]; [done|]. apply Forall_cons in H as [Hc _].
  eexists c, _. by split.
Qed.

Lemma match_boot_name_date middle d r : match_boot_name middle (date_digits d ++ r) = None.
Proof. destruct (date_digits_cons d) as (c & s & -> & Hc). by apply match_boot_name_digit. Qed.

Lemma digits_safe_forall s :
  Forall (fun c => is_digit c = true) s -> Forall (fun c => is_safe_char c = true) s.
Proof. intros H. eapply Forall_impl; [exact H|]. apply digit_safe. Qed.

Lemma date_time_digits dt :
  Forall (fun c => is_digit c = true)
    (date_digits (dt_date dt) ++ time_digits (dt_time dt)
     ++ digits_fixed 3 (t_us (dt_time dt) / 1000)) /\
  length (date_digits (dt_date dt)) = 8%nat /\ length (time_digits (dt_time dt)) = 6%nat.
Proof.
  unfold date_digits, time_digits. split_and!; [|by rewrite !length_app, !digits_fixed_length..].
  rewrite !Forall_app. split_and!; apply digits_fixed_digits.
Qed.

(** The stem of a final pair, for its UTC instant. *)
Definition final_stem (dt : datetime) (b : str) (n : Z) : str :=
  (date_digits (dt_date dt) ++ u "T") ++ time_digits (dt_time dt) ++ u "."
  ++ digits_fixed 3 (t_us (dt_time dt) / 1000) ++ u "Z_" ++ b ++ u "_s" ++ digits_fixed 6 n.

Lemma final_stem_ok dt b n :
  BOOT_ID_RE b = true ->
  let stem := final_stem dt b n in
  validate_filename_component (stem ++ u ".mp4") = Ok (stem ++ u ".mp4") /\
  validate_filename_component (stem ++ u ".json") = Ok (stem ++ u ".json").
Proof.
  intros Hb. destruct (date_time_digits dt) as ((D1 & D2 & D3)%Forall_app_3 & L1 & L2).
  apply generated_component_ok.
  - rewrite !Forall_app. split_and!; auto using digits_safe_forall with dashcam.
  - rewrite not_elem_of_app. split; [|by apply contains_false_iff].
    intros Hin. rewrite Forall_forall in D1. by apply D1 in Hin.
  - rewrite length_app. lia.
  - rewrite !len_app. unfold len. rewrite L1, L2, !digits_fixed_length.
    apply boot_id_facts in Hb as [_ Hb]. unfold len in Hb.
    change (length (u "T")) with 1%nat. change (length (u ".")) with 1%nat.
    change (length (u "Z_")) with 2%nat. change (length (u "_s")) with 2%nat. lia.
Qed.

Lemma parse_final_name name dt b n e :
  dt_ok dt -> dt_off dt = Some 0 -> BOOT_ID_RE b = true -> 0 <= n <= 999999 ->
  e = u "mp4" \/ e = u "json" ->
  name = final_stem dt b n ++ u "." ++ e ->
  validate_filename_component name = Ok name ->
  parse_clip_filename name = Ok (mkParsed b n (Some (truncate_ms dt)) e false false).
Proof.
  intros Hdt Ho Hb Hn He -> Hv. unfold parse_clip_filename. rewrite Hv. cbn [result_bind].
  unfold PROVISIONAL_RE, FINAL_UNSYNCED_RE, final_stem in *. rewrite <- !app_assoc.
  rewrite !match_boot_name_date.
  destruct (date_time_digits dt) as (D & L1 & L2).
  rewrite FINAL_RE_app by auto using digits_fixed_length.
  by rewrite strptime_groups_digits, int_of_sequence.
Qed.

(** ** Generated names *)

Lemma finalized_clip_pair_iff started t b n existing p :
  astimezone_utc started = Ok t -> 1000 <= d_year (dt_date t) ->
  finalized_clip_pair started b n existing = Ok p <->
     is_aware started = true /\ BOOT_ID_RE b = true /\ 0 <= n <= 999999 /\
     collision_free (final_stem t b n) existing /\
     p = mkPair (final_stem t b n ++ u ".mp4") (final_stem t b n ++ u ".json").
Proof.
  intros Ht Hy. destruct (dt_of_us_ok _ _ _ Ht) as (Hok & _ & Ho & _).
  unfold finalized_clip_pair, as_utc. destruct (is_aware started); cbn [negb];
    [|split; [done|by intros [? _]]].
  rewrite Ht. cbn [result_bind]. rewrite result_bind_ok2, strftime_compact_digits by done.
  assert (0 <= t_us (dt_time t) / 1000 < 1000) as Hms.
  { destruct Hok as [_ Htm]. unfold time_ok in Htm. rewrite time_valid_iff in Htm.
    split; [apply Z.div_pos; lia|apply Z.div_lt_upper_bound; lia]. }
  rewrite (zpad_fixed 3) by lia. split.
  - intros (b' & [-> Hb]%validated_boot_id_ok & n' & [-> Hn]%checked_sequence_ok & Hp).
    rewrite zpad_fixed in Hp by lia. rewrite <- !app_assoc in Hp.
    destruct (final_stem_ok t b n Hb) as [Hv Hm]. unfold final_stem in *.
    rewrite <- (app_assoc (date_digits _)) in *. apply new_pair_iff in Hp; tauto.
  - intros (_ & Hb & Hn & Hc & ->). exists b. split; [by apply validated_boot_id_ok|].
    exists n. split; [by apply checked_sequence_ok|]. rewrite zpad_fixed by lia.
    rewrite <- !app_assoc.
    destruct (final_stem_ok t b n Hb) as [Hv Hm]. unfold final_stem in *.
    rewrite <- (app_assoc (date_digits _)) in *. by apply new_pair_iff.
Qed.

Lemma final_names_parse t b n :
  dt_ok t -> dt_off t = Some 0 -> BOOT_ID_RE b = true -> 0 <= n <= 999999 ->
  parse_clip_filename (final_stem t b n ++ u ".mp4") = Ok (mkParsed b n (Some (truncate_ms t)) (u "mp4") false false) /\
  parse_clip_filename (final_stem t b n ++ u ".json") = Ok (mkParsed b n (Some (truncate_ms t)) (u "json") false false).
Proof.
  intros Hok Ho Hb Hn. destruct (final_stem_ok t b n Hb) as [Hv Hm].
  split; [apply (parse_final_name _ t b n (u "mp4"))|apply (parse_final_name _ t b n (u "json"))];
    done || tauto.
Qed.

(** ** Properties *)

(** The provisional and the timestamp-free generators accept exactly a valid boot
    identifier, a sequence number in range and a stem whose two names collide with no existing
    name, and then both members of the pair parse back to the very identity they were
    generated from. *)
Theorem boot_pair_roundtrip b n existing part p :
  let generate := if part : bool then provisional_clip_pair else finalized_unsynced_clip_pair in
  let stem := u "boot-" ++ b ++ u "-" ++ zpad 6 n ++ (if part then u ".partial" else []) in
  (generate b n existing = Ok p <->
     BOOT_ID_RE b = true /\ 0 <= n <= 999999 /\ collision_free stem existing /\
     p = mkPair (stem ++ u ".mp4") (stem ++ u ".json")) /\
  (generate b n existing = Ok p ->
     parse_clip_filename (video_name p) = Ok (mkParsed b n None (u "mp4") true part) /\
     parse_clip_filename (metadata_name p) = Ok (mkParsed b n None (u "json") true part)).
Proof.
  intros generate stem.
  assert (BOOT_ID_RE b = true -> 0 <= n <= 999999 ->
    validate_filename_component (stem ++ u ".mp4") = Ok (stem ++ u ".mp4") /\
    validate_filename_component (stem ++ u ".json") = Ok (stem ++ u ".json")) as Hval.
  { intros Hb Hn. apply boot_stem_ok; try done; destruct part; try done; by apply safe_u. }
  assert (generate b n existing = Ok p <->
     BOOT_ID_RE b = true /\ 0 <= n <= 999999 /\ collision_free stem existing /\
     p = mkPair (stem ++ u ".mp4") (stem ++ u ".json")) as Hiff.
  { transitivity (exists b', validated_boot_id b = Ok b' /\ exists n', checked_sequence n = Ok n' /\
      new_pair (u "boot-" ++ b' ++ u "-" ++ zpad 6 n' ++ (if part then u ".partial" else [])) existing
        = Ok p).
    - unfold generate, provisional_clip_pair, finalized_unsynced_clip_pair.
      destruct part; rewrite result_bind_ok2; [done|].
      by setoid_rewrite (app_nil_r (A := ascii)).
    - split.
      + intros (b' & [-> Hb]%validated_boot_id_ok & n' & [-> Hn]%checked_sequence_ok & Hp).
        destruct (Hval Hb Hn) as [Hv Hm]. apply new_pair_iff in Hp; [|done..]. tauto.
      + intros (Hb & Hn & Hc & ->). exists b. split; [by apply validated_boot_id_ok|].
        exists n. split; [by apply checked_sequence_ok|].
        destruct (Hval Hb Hn). by apply new_pair_iff. }
  split; [exact Hiff|]. intros (Hb & Hn & _ & ->)%Hiff.
  cbn [video_name metadata_name].
  destruct (Hval Hb Hn) as [Hv Hm]. clear Hiff Hval.
  destruct part; [set (r := u ".partial.")|set (r := u ".")];
    (split; [apply (parse_boot_name _ b n r (u "mp4"))|apply (parse_boot_name _ b n r (u "json"))];
     try done; try tauto;
     unfold stem; rewrite <- !app_assoc; reflexivity).
Qed.

Lemma boot_pair_roundtrip_witness :
  parse_clip_filename (u "boot-a1b2c3-000042.partial.mp4")
    = Ok (mkParsed (u "a1b2c3") 42 None (u "mp4") true true).
Proof.
  apply (boot_pair_roundtrip (u "a1b2c3") 42 [u "boot-a1b2c3-000041.mp4"] true
           (mkPair (u "boot-a1b2c3-000042.partial.mp4") (u "boot-a1b2c3-000042.partial.json"))).
  vm_compute. reflexivity.
Defined.

(** C40: the final generator accepts exactly an aware start time representable in UTC, a valid
    boot identifier and sequence and a collision-free stem; for a UTC year of four digits both
    names of the pair parse back to the boot identifier, the sequence and the UTC instant
    truncated to milliseconds. *)
Theorem final_pair_roundtrip started t b n existing p :
  astimezone_utc started = Ok t -> 1000 <= d_year (dt_date t) ->
  (finalized_clip_pair started b n existing = Ok p <->
     is_aware started = true /\ BOOT_ID_RE b = true /\ 0 <= n <= 999999 /\
     collision_free (final_stem t b n) existing /\
     p = mkPair (final_stem t b n ++ u ".mp4") (final_stem t b n ++ u ".json")) /\
  (finalized_clip_pair started b n existing = Ok p ->
     parse_clip_filename (video_name p)
       = Ok (mkParsed b n (Some (truncate_ms t)) (u "mp4") false false) /\
     parse_clip_filename (metadata_name p)
       = Ok (mkParsed b n (Some (truncate_ms t)) (u "json") false false)).
Proof.
  intros Ht Hy. pose proof (finalized_clip_pair_iff started t b n existing p Ht Hy) as Hiff. split; [exact Hiff|].
  intros (_ & Hb & Hn & _ & ->)%Hiff. destruct (dt_of_us_ok _ _ _ Ht) as (Hok & _ & Ho & _). by apply final_names_parse.
Qed.

Definition sample_started : datetime :=
  mkDT (mkDate 2026 3 1) (mkTime 1 30 5 123456) (Some (2 * 3600 * 1000000)).

Lemma final_pair_roundtrip_witness :
  parse_clip_filename (u "20260228T233005.123Z_a1b2c3_s000042.mp4")
    = Ok (mkParsed (u "a1b2c3") 42
        (Some (mkDT (mkDate 2026 2 28) (mkTime 23 30 5 123000) (Some 0))) (u "mp4") false false).
Proof.
  apply (final_pair_roundtrip sample_started
           (mkDT (mkDate 2026 2 28) (mkTime 23 30 5 123456) (Some 0)) (u "a1b2c3") 42 []
           (mkPair (u "20260228T233005.123Z_a1b2c3_s000042.mp4")
                   (u "20260228T233005.123Z_a1b2c3_s000042.json")));
    vm_compute; [reflexivity|discriminate|reflexivity].
Defined.

(** A filename is determined by what it parses to: two accepted filenames with the same
    boot identifier, sequence, instant, extension and kind are the same text, so no two files
    of the recording volume can claim the same member of a clip. *)
Theorem parse_clip_filename_injective name1 name2 p :
  parse_clip_filename name1 = Ok p -> parse_clip_filename name2 = Ok p -> name1 = name2.
Proof.
  assert (forall name, parse_clip_filename name = Ok p ->
    (exists middle n, name = u "boot-" ++ boot_id p ++ u "-" ++ n ++ middle ++ extension p /\
       length n = 6%nat /\ Forall (fun c => is_digit c = true) n /\ sequence p = int_of_digits n /\
       provisional p = true /\ middle = if partial p then u ".partial." else u ".") \/
    (exists d8 h6 f3 n dt, FINAL_RE name = Some (d8, h6, f3, boot_id p, n, extension p) /\
       strptime_groups d8 h6 f3 = Ok dt /\ utc_started_at p = Some dt /\
       sequence p = int_of_digits n /\ provisional p = false)) as Hform.
  { intros name. unfold parse_clip_filename. intros H. inv_ok.
    destruct (PROVISIONAL_RE name) as [[[b n] e]|] eqn:E1; [inv_ok|
      destruct (FINAL_UNSYNCED_RE name) as [[[b n] e]|] eqn:E2; [inv_ok|
        destruct (FINAL_RE name) as [[[[[[d8 h6] f3] b] n] e]|] eqn:E3; [|done]]].
    - left. apply match_boot_name_inv in E1 as (-> & ? & ?). by eexists _, n.
    - left. apply match_boot_name_inv in E2 as (-> & ? & ?). by eexists _, n.
    - right. destruct (strptime_groups d8 h6 f3) as [dt|e'] eqn:E4; [inv_ok|by destruct (is_ValueError e')].
      by exists d8, h6, f3, n, dt. }
  intros [H1|H1]%Hform [H2|H2]%Hform.
  - destruct H1 as (m1 & n1 & -> & L1 & D1 & S1 & _ & ->), H2 as (m2 & n2 & -> & L2 & D2 & S2 & _ & ->).
    by rewrite (digits_injective 6 n1 n2 L1 L2 D1 D2) by congruence.
  - destruct H1 as (?&?&_&_&_&_&?&_), H2 as (?&?&?&?&?&_&_&_&_&?). congruence.
  - destruct H1 as (?&?&?&?&?&_&_&_&_&?), H2 as (?&?&_&_&_&_&?&_). congruence.
  - destruct H1 as (d1 & h1 & f1 & n1 & dt1 & (-> & (A1 & B1 & C1 & N1) & D1)%FINAL_RE_inv & P1 & U1 & S1 & _).
    destruct H2 as (d2 & h2 & f2 & n2 & dt2 & (-> & (A2 & B2 & C2 & N2) & D2)%FINAL_RE_inv & P2 & U2 & S2 & _).
    rewrite U1 in U2. injection U2 as <-.
    rewrite !app_assoc in D1, D2. apply Forall_app in D1 as [D1 Dn1], D2 as [D2 Dn2].
    rewrite <- !app_assoc in D1, D2.
    destruct (strptime_groups_injective d1 h1 f1 d2 h2 f2 dt1) as (-> & -> & ->); try done.
    by rewrite (digits_injective 6 n1 n2 N1 N2 Dn1 Dn2) by congruence.
Qed.

Lemma parse_clip_filename_injective_witness :
  u "boot-a1b2c3-000042.partial.mp4" = u "boot-a1b2c3-000042.partial.mp4".
Proof.
  apply (parse_clip_filename_injective _ _ (mkParsed (u "a1b2c3") 42 None (u "mp4") true true));
    vm_compute; reflexivity.
Defined.
