(* ===== verification/Intents.v ===== *)
(** * Durable operation intents ([src/dashcam/storage/intents.py])

    The serializable intent written before the two members of a clip pair are
    moved or unlinked, its strict parser, and the pure planner that turns an
    intent and the observed existence of the members into the next actions. *)

From Stdlib Require Import Ascii String ZArith Lia.
From stdpp Require Import base list sets fin_sets gmap strings.
From S2P Require Import Prelude PyStr Uuid DateTime Naming.

Definition SCHEMA_VERSION : Z := 1.
Definition MAX_RELATIVE_PATH_CHARS : Z := 240.

Inductive IntentKind := FINALIZE | RECONCILE_NAME | PROTECT | UNPROTECT | DELETE.
Inductive PairMember := VIDEO | SIDECAR.
Inductive ActionKind := MOVE | UNLINK.

#[export] Instance IntentKind_eq_dec : EqDecision IntentKind. Proof. solve_decision. Defined.
#[export] Instance PairMember_eq_dec : EqDecision PairMember. Proof. solve_decision. Defined.
#[export] Instance ActionKind_eq_dec : EqDecision ActionKind. Proof. solve_decision. Defined.

Definition IntentKind_value (k : IntentKind) : string :=
  match k with
  | FINALIZE => "FINALIZE" | RECONCILE_NAME => "RECONCILE_NAME" | PROTECT => "PROTECT"
  | UNPROTECT => "UNPROTECT" | DELETE => "DELETE"
  end.

(** [IntentKind(text)] *)
Definition IntentKind_of (s : str) : result IntentKind :=
  match List.find (fun k => bool_decide (u (IntentKind_value k) = s))
          [FINALIZE; RECONCILE_NAME; PROTECT; UNPROTECT; DELETE] with
  | Some k => Ok k
  | None => Err (Exn ValueError "not a valid IntentKind")
  end.

Definition validate_relative_path (path : str) : result unit :=
  raise_if bool_decide (path = []) || (MAX_RELATIVE_PATH_CHARS <? len path) || negb (isascii path)
    as ValueError msg "relative path has invalid length" ;;
  raise_if contains "\" path || contains ":" path || contains_str (u "//") path
    as ValueError msg "relative path must use Windows-safe forward-slash syntax" ;;
  let raw_parts := split_on slash path in
  raise_if existsb (fun p => bool_decide (p ∈ [[]; u "."; u ".."])) raw_parts
    as ValueError msg "path must remain below the managed recording root" ;;
  raise_if startswith (u "/") path
    as ValueError msg "path must remain below the managed recording root" ;;
  raise_if existsb (fun p => negb (bool_decide (rstrip_by (one_of " .") p = p))) raw_parts
    as ValueError msg "path components cannot end in a dot or space" ;;
  match validate_all (fun p => let! _ := validate_filename_component p in Ok tt) raw_parts with
  | Ok _ => Ok tt
  | Err e =>
      if bool_decide (exn_cls e = ClipNameError)
      then Err (Exn ValueError "path contains a non-portable component") else Err e
  end.

Definition validate_optional_path (path : option str) : result unit :=
  match path with None => Ok tt | Some p => validate_relative_path p end.

Record PairPaths := mkPaths {
  video_source : str;
  sidecar_source : str;
  video_target : option str;
  sidecar_target : option str
}.

#[export] Instance PairPaths_eq_dec : EqDecision PairPaths. Proof. solve_decision. Defined.

Definition PairPaths_new (vs ss : str) (vt st : option str) : result PairPaths :=
  let! _ := validate_all validate_optional_path [Some vs; Some ss; vt; st] in
  raise_if bool_decide (vs = ss) as ValueError msg "video and sidecar source paths must differ" ;;
  raise_if match vt, st with Some a, Some b => bool_decide (a = b) | _, _ => false end
    as ValueError msg "video and sidecar target paths must differ" ;;
  Ok (mkPaths vs ss vt st).

Record OperationIntent := mkIntent {
  intent_id : UUID;
  clip_id : UUID;
  kind : IntentKind;
  created_monotonic_ns : Z;
  paths : PairPaths;
  schema_version : Z
}.

#[export] Instance OperationIntent_eq_dec : EqDecision OperationIntent. Proof. solve_decision. Defined.

Definition OperationIntent_new (i c : UUID) (k : IntentKind) (created : Z) (p : PairPaths)
    (version : Z) : result OperationIntent :=
  raise_if negb (version =? SCHEMA_VERSION) as ValueError msg "unsupported intent schema version" ;;
  raise_if created <? 0 as ValueError msg "created_monotonic_ns cannot be negative" ;;
  match k with
  | DELETE =>
      raise_if negb (bool_decide ((video_target p, sidecar_target p) = (None, None)))
        as ValueError msg "delete intent cannot contain target paths" ;;
      Ok (mkIntent i c k created p version)
  | _ =>
      raise_if bool_decide (video_target p = None) || bool_decide (sidecar_target p = None)
        as ValueError msg (IntentKind_value k ++ " intent requires both target paths")%string ;;
      Ok (mkIntent i c k created p version)
  end.

(** ** The JSON representation *)

Inductive json :=
  | JNull
  | JBool (b : bool)
  | JInt (z : Z)
  | JStr (s : str)
  | JObj (fields : list (str * json))
  | JOther.

Definition optional_json (s : option str) : json :=
  match s with None => JNull | Some s => JStr s end.

Definition as_dict (self : OperationIntent) : list (str * json) :=
  [ (u "schema_version", JInt (schema_version self));
    (u "intent_id", JStr (uuid_str (intent_id self)));
    (u "clip_id", JStr (uuid_str (clip_id self)));
    (u "kind", JStr (u (IntentKind_value (kind self))));
    (u "created_monotonic_ns", JInt (created_monotonic_ns self));
    (u "paths", JObj
       [ (u "video_source", JStr (video_source (paths self)));
         (u "sidecar_source", JStr (sidecar_source (paths self)));
         (u "video_target", optional_json (video_target (paths self)));
         (u "sidecar_target", optional_json (sidecar_target (paths self))) ]) ].

(** [set(raw) != expected] *)
Definition require_exact_keys (raw : list (str * json)) (expected : list str) : result unit :=
  raise_if negb (forallb (fun k => bool_decide (k ∈ expected)) (map fst raw)
                 && forallb (fun k => bool_decide (k ∈ map fst raw)) expected)
    as ValueError msg "object keys differ" ;;
  Ok tt.

(** [raw[key]]; the caller has checked the key. *)
Definition field (raw : list (str * json)) (key : string) : json :=
  match List.find (fun kv => bool_decide (fst kv = u key)) raw with
  | Some kv => snd kv
  | None => JNull
  end.

Definition strict_str (v : json) : result str :=
  match v with JStr s => Ok s | _ => Err (Exn TypeError "field must be a string") end.
Definition optional_str (v : json) : result (option str) :=
  match v with JNull => Ok None | _ => let! s := strict_str v in Ok (Some s) end.
Definition strict_int (v : json) : result Z :=
  match v with JInt z => Ok z | _ => Err (Exn TypeError "field must be an integer") end.

Definition intent_keys : list str :=
  map u ["schema_version"; "intent_id"; "clip_id"; "kind"; "created_monotonic_ns"; "paths"]%string.
Definition path_keys : list str :=
  map u ["video_source"; "sidecar_source"; "video_target"; "sidecar_target"]%string.

Definition from_dict (raw : list (str * json)) : result OperationIntent :=
  let! _ := require_exact_keys raw intent_keys in
  match field raw "paths" with
  | JObj path_values =>
      let! _ := require_exact_keys path_values path_keys in
      let! version := strict_int (field raw "schema_version") in
      let! i := strict_str (field raw "intent_id") in
      let! intent := UUID_of_str i in
      let! c := strict_str (field raw "clip_id") in
      let! clip := UUID_of_str c in
      let! k := strict_str (field raw "kind") in
      let! knd := IntentKind_of k in
      let! created := strict_int (field raw "created_monotonic_ns") in
      let! vs := strict_str (field path_values "video_source") in
      let! ss := strict_str (field path_values "sidecar_source") in
      let! vt := optional_str (field path_values "video_target") in
      let! st := optional_str (field path_values "sidecar_target") in
      let! p := PairPaths_new vs ss vt st in
      OperationIntent_new intent clip knd created p version
  | _ => Err (Exn TypeError "paths must be an object")
  end.

(** ** The planner *)

Record MemberObservation := mkObs { source_exists : bool; target_exists : bool }.

Record ReconciliationAction := mkAction {
  act_kind : ActionKind; act_member : PairMember; act_source : str; act_target : option str
}.

Record ReconciliationProblem := mkProblem { prob_member : PairMember; prob_code : string }.

Record ReconciliationPlan := mkPlan {
  actions : list ReconciliationAction;
  problems : list ReconciliationProblem;
  completed_members : list PairMember
}.

Definition complete (p : ReconciliationPlan) : bool :=
  bool_decide (actions p = []) && bool_decide (problems p = [])
  && bool_decide (VIDEO ∈ completed_members p) && bool_decide (SIDECAR ∈ completed_members p).

(** One pass of the planner's loop. *)
Definition plan_member (k : IntentKind) (plan : ReconciliationPlan)
    (item : PairMember * MemberObservation * str * option str) : ReconciliationPlan :=
  let '(m, o, source, target) := item in
  let problem code := mkPlan (actions plan) (problems plan ++ [mkProblem m code]) (completed_members plan) in
  let action a := mkPlan (actions plan ++ [a]) (problems plan) (completed_members plan) in
  let done := mkPlan (actions plan) (problems plan) (completed_members plan ++ [m]) in
  match k with
  | DELETE =>
      if target_exists o then problem "UNEXPECTED_DELETE_TARGET"%string
      else if source_exists o then action (mkAction UNLINK m source None)
      else done
  | _ =>
      if source_exists o && target_exists o then problem "SOURCE_TARGET_CONFLICT"%string
      else if source_exists o then action (mkAction MOVE m source target)
      else if target_exists o then done
      else problem "SOURCE_AND_TARGET_MISSING"%string
  end.

Definition plan_reconciliation (intent : OperationIntent) (video sidecar : MemberObservation)
    : ReconciliationPlan :=
  foldl (plan_member (kind intent)) (mkPlan [] [] [])
    [ (VIDEO, video, video_source (paths intent), video_target (paths intent));
      (SIDECAR, sidecar, sidecar_source (paths intent), sidecar_target (paths intent)) ].

(** ** Lemmas *)

Definition path_ok (p : str) : Prop := validate_relative_path p = Ok tt.

(** The constructor's guarantees. *)
Definition paths_ok (p : PairPaths) : Prop :=
  PairPaths_new (video_source p) (sidecar_source p) (video_target p) (sidecar_target p) = Ok p.

Definition intent_ok (i : OperationIntent) : Prop :=
  paths_ok (paths i) /\
  OperationIntent_new (intent_id i) (clip_id i) (kind i) (created_monotonic_ns i) (paths i)
    (schema_version i) = Ok i /\
  uuid_ok (intent_id i) /\ uuid_ok (clip_id i).

Lemma PairPaths_new_ok vs ss vt st p :
  PairPaths_new vs ss vt st = Ok p ->
  p = mkPaths vs ss vt st /\ path_ok vs /\ path_ok ss /\ vs <> ss /\
  (forall t, vt = Some t \/ st = Some t -> path_ok t) /\
  (forall a b, vt = Some a -> st = Some b -> a <> b).
Proof.
  unfold PairPaths_new. intros H. inv_ok. bool_prop.
  destruct x. apply validate_all_ok in Hb.
  apply Forall_cons in Hb as [H1 Hb]. apply Forall_cons in Hb as [H2 Hb].
  apply Forall_cons in Hb as [H3 H4%Forall_one]. unfold path_ok. split_and!; try done.
  - intros t [-> | ->]; done.
  - intros a b -> ->. by apply bool_decide_eq_false_1 in Hg0.
Qed.

Lemma OperationIntent_new_ok i c k created p v it :
  OperationIntent_new i c k created p v = Ok it ->
  it = mkIntent i c k created p v /\ v = SCHEMA_VERSION /\ 0 <= created /\
  (k = DELETE -> video_target p = None /\ sidecar_target p = None) /\
  (k <> DELETE -> is_Some (video_target p) /\ is_Some (sidecar_target p)).
Proof.
  unfold OperationIntent_new. intros H. inv_ok. bool_prop.
  destruct k; inv_ok; bool_prop; split_and!; try done;
    intros _; destruct (video_target p), (sidecar_target p); by eauto.
Qed.

Lemma validate_relative_path_ok p :
  path_ok p ->
  len p <= MAX_RELATIVE_PATH_CHARS /\ isascii p = true /\ startswith (u "/") p = false /\
  Forall (fun q => validate_filename_component q = Ok q /\ q <> [] /\ q <> u "." /\ q <> u "..")
    (split_on slash p).
Proof.
  unfold path_ok, validate_relative_path. intros H. inv_ok. bool_prop.
  split_and!; try done.
  destruct (validate_all _ _) as [x|] eqn:E; [|by destruct (bool_decide _)]. destruct x.
  apply validate_all_ok in E.
  assert (Forall (fun q => q ∉ [[]; u "."; u ".."]) (split_on slash p)) as Hn.
  { apply Forall_forall. intros q Hq Hin.
    assert (existsb (fun p => bool_decide (p ∈ [[]; u "."; u ".."])) (split_on slash p) = true) as Hex.
    { apply existsb_exists. exists q. split; [by apply list_elem_of_In|by apply bool_decide_eq_true_2]. }
    congruence. }
  eapply Forall_impl; [apply Forall_and; split; [exact E|exact Hn]|].
  intros q [Hq Hq']. apply result_bind_ok in Hq as (q' & Hq & _).
  split.
  - unfold validate_filename_component in Hq |- *. by repeat (case_match; [done|]).
  - repeat setoid_rewrite not_elem_of_cons in Hq'. tauto.
Qed.

Lemma path_parts_ok p : path_ok p -> path_parts p = split_on slash p /\ path_root p = [].
Proof.
  intros (_ & _ & Hs & H)%validate_relative_path_ok. split.
  - unfold path_parts. induction H as [|q l (_ & H1 & H2 & _) _ IH]; [done|].
    cbn [List.filter]. rewrite !bool_decide_eq_false_2 by done. cbn [negb andb]. by rewrite IH.
  - unfold path_root. change (u "//") with ("/"%char :: u "/"). change (u "/") with ["/"%char] in *.
    destruct p as [|c p]; [done|]. cbn [startswith] in *. apply andb_false_iff in Hs as [Hs|Hs]; [|done].
    by rewrite Hs.
Qed.

(** A validated path is its parent directory joined with its name. *)
Lemma path_parent_name p :
  path_ok p -> (2 <= length (split_on slash p))%nat ->
  p = path_parent p ++ slash :: path_name p /\ path_name p ∈ split_on slash p.
Proof.
  intros Hp Hl. destruct (path_parts_ok p Hp) as [Hparts Hroot].
  unfold path_parent, path_name. rewrite Hroot, Hparts. pose proof (join_split slash p) as Hj.
  assert (forall l : list str, (2 <= length l)%nat -> [] ∉ l ->
    join_with slash l = as_posix [] (removelast l) ++ slash :: List.last l [] /\ List.last l [] ∈ l) as Hgen.
  { induction l as [|a l IH]; intros Hlen Hne; [simpl in Hlen; lia|].
    destruct l as [|b [|c l]]; [simpl in Hlen; lia|simpl; split; [done|set_solver]|].
    destruct IH as [IH1 IH2]; [simpl; lia|set_solver|].
    split; [|simpl in *; set_solver].
    change (join_with slash (a :: b :: c :: l)) with (a ++ slash :: join_with slash (b :: c :: l)).
    rewrite IH1. change (removelast (a :: b :: c :: l)) with (a :: removelast (b :: c :: l)).
    change (List.last (a :: b :: c :: l) []) with (List.last (b :: c :: l) []).
    unfold as_posix at 2. change (removelast (b :: c :: l)) with (b :: removelast (c :: l)).
    unfold as_posix. cbn [app join_with]. by rewrite <- app_assoc. }
  rewrite <- Hj at 1. apply Hgen; [done|].
  apply validate_relative_path_ok in Hp as (_ & _ & _ & H). rewrite Forall_forall in H.
  intros Hin. by apply H in Hin as (_ & ? & _).
Qed.

Lemma IntentKind_of_value k : IntentKind_of (u (IntentKind_value k)) = Ok k.
Proof. by destruct k. Qed.

Lemma strict_optional s : optional_str (optional_json s) = Ok s.
Proof. by destruct s. Qed.

(** What the planner decides for one member. *)
Inductive member_verdict := VAction | VProblem | VDone.

#[export] Instance member_verdict_eq_dec : EqDecision member_verdict. Proof. solve_decision. Defined.

Definition verdict (k : IntentKind) (o : MemberObservation) : member_verdict :=
  match k, source_exists o, target_exists o with
  | DELETE, _, true => VProblem
  | DELETE, true, false => VAction
  | DELETE, false, false => VDone
  | _, true, true => VProblem
  | _, true, false => VAction
  | _, false, true => VDone
  | _, false, false => VProblem
  end.

(** Effect of a member's action on its observation. *)
Definition after_action (k : IntentKind) (o : MemberObservation) : MemberObservation :=
  match k with
  | DELETE => mkObs false (target_exists o)
  | _ => mkObs false true
  end.

Lemma plan_complete_iff i v s :
  complete (plan_reconciliation i v s) = true <->
  verdict (kind i) v = VDone /\ verdict (kind i) s = VDone.
Proof.
  unfold plan_reconciliation, complete.
  destruct v as [[] []], s as [[] []], (kind i); vm_compute; intuition discriminate.
Qed.

Lemma plan_problem_free_iff i v s :
  problems (plan_reconciliation i v s) = [] <->
  verdict (kind i) v <> VProblem /\ verdict (kind i) s <> VProblem.
Proof.
  unfold plan_reconciliation.
  destruct v as [[] []], s as [[] []], (kind i); vm_compute; intuition discriminate.
Qed.

(** ** Properties *)

(** An intent the constructor accepts survives its JSON representation: parsing the
    dictionary it serializes to gives back the same intent, every field included. *)
Theorem intent_dict_roundtrip i :
  intent_ok i -> from_dict (as_dict i) = Ok i.
Proof.
  intros (Hp & Hi & Hu & Hc). unfold from_dict.
  change (require_exact_keys (as_dict i) intent_keys) with (Ok tt).
  change (field (as_dict i) "paths") with
    (JObj [ (u "video_source", JStr (video_source (paths i)));
            (u "sidecar_source", JStr (sidecar_source (paths i)));
            (u "video_target", optional_json (video_target (paths i)));
            (u "sidecar_target", optional_json (sidecar_target (paths i))) ]).
  cbn [result_bind]. set (pv := [_; _; _; _]).
  change (require_exact_keys pv path_keys) with (Ok tt).
  change (field (as_dict i) "schema_version") with (JInt (schema_version i)).
  change (field (as_dict i) "intent_id") with (JStr (uuid_str (intent_id i))).
  change (field (as_dict i) "clip_id") with (JStr (uuid_str (clip_id i))).
  change (field (as_dict i) "kind") with (JStr (u (IntentKind_value (kind i)))).
  change (field (as_dict i) "created_monotonic_ns") with (JInt (created_monotonic_ns i)).
  change (field pv "video_source") with (JStr (video_source (paths i))).
  change (field pv "sidecar_source") with (JStr (sidecar_source (paths i))).
  change (field pv "video_target") with (optional_json (video_target (paths i))).
  change (field pv "sidecar_target") with (optional_json (sidecar_target (paths i))).
  cbn [result_bind strict_str strict_int].
  rewrite !UUID_of_str_uuid_str by done. cbn [result_bind]. rewrite IntentKind_of_value.
  cbn [result_bind]. rewrite !strict_optional. cbn [result_bind]. by rewrite Hp.
Qed.

Definition sample_intent : OperationIntent :=
  mkIntent (mkUUID 11) (mkUUID 12) PROTECT 5000
    (mkPaths (u "clips/boot-a1b2c3-000001.mp4") (u "clips/boot-a1b2c3-000001.json")
       (Some (u "protected/boot-a1b2c3-000001.mp4"))
       (Some (u "protected/boot-a1b2c3-000001.json"))) 1.

Lemma intent_dict_roundtrip_witness : from_dict (as_dict sample_intent) = Ok sample_intent.
Proof. apply intent_dict_roundtrip. split_and!; vm_compute; reflexivity. Defined.

(** a relative path that passes validation stays below the recording root: it is short
    ASCII text, relative, each of its components is a portable filename other than dot and
    dot-dot, the path is exactly its components joined by slashes, and with two components or
    more it is its parent directory joined with its name. *)
Theorem validated_path_confined p :
  validate_relative_path p = Ok tt ->
  len p <= 240 /\ isascii p = true /\ path_root p = [] /\
  p = join_with slash (path_parts p) /\
  Forall (fun q => validate_filename_component q = Ok q /\ q <> u "." /\ q <> u "..") (path_parts p) /\
  ((2 <= length (path_parts p))%nat -> p = path_parent p ++ slash :: path_name p).
Proof.
  intros Hp. destruct (path_parts_ok p Hp) as [-> Hr].
  destruct (validate_relative_path_ok p Hp) as (H1 & H2 & _ & H4).
  split_and!; try done; [by rewrite join_split| |intros Hl; by apply path_parent_name].
  eapply Forall_impl; [exact H4|]. simpl. tauto.
Qed.

Lemma validated_path_confined_witness :
  u "clips/boot-a1b2c3-000001.mp4"
    = path_parent (u "clips/boot-a1b2c3-000001.mp4") ++ slash
      :: path_name (u "clips/boot-a1b2c3-000001.mp4").
Proof.
  apply (validated_path_confined (u "clips/boot-a1b2c3-000001.mp4")); vm_compute; [done|lia].
Defined.

(** Planning is total and re-plannable after any interruption: every pair member falls in
    exactly one of actions, problems and completed; and when the plan is free of problems,
    whichever of its actions were carried out before a crash, replanning from the resulting
    state is still free of problems, asks for exactly the remaining actions, and is complete
    exactly when none remain. *)
Theorem plan_reconciliation_replannable i v s (ran_video ran_sidecar : bool) :
  let plan := plan_reconciliation i v s in
  let acts o := bool_decide (verdict (kind i) o = VAction) in
  let after b o := if b && acts o then after_action (kind i) o else o in
  let replan := plan_reconciliation i (after ran_video v) (after ran_sidecar s) in
  map act_member (actions plan) ++ map prob_member (problems plan) ++ completed_members plan
    ≡ₚ [VIDEO; SIDECAR] /\
  (problems plan = [] ->
     problems replan = [] /\
     map act_member (actions replan) =
       (if acts v && negb ran_video then [VIDEO] else []) ++
       (if acts s && negb ran_sidecar then [SIDECAR] else []) /\
     (complete replan = true <-> actions replan = [])).
Proof.
  unfold plan_reconciliation. destruct i as [? ? k ? [? ? ? ?] ?].
  split.
  - destruct v as [[] []], s as [[] []], k; simpl; first [reflexivity|apply Permutation_swap].
  - destruct v as [[] []], s as [[] []], k, ran_video, ran_sidecar; vm_compute;
      intros; try discriminate; repeat split; congruence.
Qed.

Lemma plan_reconciliation_replannable_witness :
  complete (plan_reconciliation sample_intent (mkObs false true) (mkObs false true)) = true.
Proof.
  apply (plan_reconciliation_replannable sample_intent (mkObs true false) (mkObs false true) true true);
    vm_compute; reflexivity.
Defined.
