(* ===== verification/Models.v ===== *)
(** * Catalog values ([src/dashcam/catalog/models.py])

    The typed values the durable clip catalog takes and returns, and the hard
    work bounds of one startup recovery pass. *)

From Stdlib Require Import Ascii String ZArith Lia Strings.Byte.
From stdpp Require Import base list gmap strings.
From S2P Require Import Prelude PyStr State Intents.

Abbreviation bytes := (list Byte.byte).

#[export] Instance byte_eq_decision : EqDecision Byte.byte := Byte.byte_eq_dec.

Inductive EventSource := WEB | GPIO | API.
#[export] Instance EventSource_eq_dec : EqDecision EventSource. Proof. solve_decision. Defined.

Definition EventSource_value (s : EventSource) : string :=
  match s with WEB => "web" | GPIO => "gpio" | API => "api" end.

Inductive EventTargetRole := PREVIOUS | CURRENT | NEXT.
#[export] Instance EventTargetRole_eq_dec : EqDecision EventTargetRole. Proof. solve_decision. Defined.

Record CatalogClip := mkCatalogClip {
  c_clip_id : UUID;
  c_lifecycle : ClipLifecycle;
  c_video_path : str;
  c_sidecar_path : str;
  c_start_monotonic_ns : Z;
  c_end_monotonic_ns : option Z;
  c_retention_order : Z;
  c_size_bytes : Z;
  c_protected : bool;
  c_protection_reason : option str;
  c_pair_reconciled : bool;
  c_managed : bool;
  c_download_lease : option DownloadLease;
  c_lease_boot_id : option str
}.

Record EventProtectionResult := mkEventResult {
  er_event_id : UUID;
  er_protected_clip_ids : list UUID;
  er_missing_previous_count : Z;
  er_pending_next_count : Z;
  er_queued_intent_ids : list UUID
}.

Record IntentReconciliationResult := mkReconcileResult {
  rr_intent : OperationIntent;
  rr_actions_attempted : Z;
  rr_complete : bool;
  rr_problems : list string
}.

Record StartupReconciliationReport := mkStartupReport {
  sr_intents_examined : Z;
  sr_actions_attempted : Z;
  sr_catalog_clips_examined : Z;
  sr_directory_entries_examined : Z;
  sr_imported_clips : Z;
  sr_expired_leases_cleared : Z;
  sr_issues : list string;
  sr_more_work : bool
}.

Record ReconciliationBounds := mkBounds {
  max_intents : Z;
  max_actions : Z;
  max_catalog_clips : Z;
  max_directory_entries : Z;
  max_sidecar_bytes : Z;
  max_issues : Z;
  max_expired_leases : Z
}.

Definition bound_check (item : string * Z * Z) : result unit :=
  let '(name, value, maximum) := item in
  raise_if value <=? 0
    as ReconciliationLimitError msg (name ++ " must be a positive integer")%string ;;
  raise_if maximum <? value
    as ReconciliationLimitError msg (name ++ " exceeds its hard maximum")%string ;;
  Ok tt.

Definition ReconciliationBounds_new (b : ReconciliationBounds) : result ReconciliationBounds :=
  let! _ := validate_all bound_check
    [ ("max_intents"%string, max_intents b, 1024);
      ("max_actions"%string, max_actions b, 2048);
      ("max_catalog_clips"%string, max_catalog_clips b, 100000);
      ("max_directory_entries"%string, max_directory_entries b, 100000);
      ("max_sidecar_bytes"%string, max_sidecar_bytes b, 16 * 1048576);
      ("max_issues"%string, max_issues b, 4096);
      ("max_expired_leases"%string, max_expired_leases b, 10000) ] in
  Ok b.

(** The defaults, [_DEFAULT_RECONCILIATION_BOUNDS]. *)
Definition DEFAULT_RECONCILIATION_BOUNDS : ReconciliationBounds :=
  mkBounds 64 128 2048 4096 1048576 128 512.
