(* ===== verification/Filesystem.v ===== *)
(** * The catalog's filesystem ([src/dashcam/catalog/filesystem.py])

    [CatalogFilesystem] is the protocol the catalog uses, as a class of
    operations; [FilesystemLaws] states what its docstrings promise, through the
    file contents a client could observe. An operation that raises may already
    have taken effect (a rename whose directory sync fails), but never partially.
    [RootedFilesystem] is the adapter confined below one verified root, over the
    regular files of the volume, and discharges the laws. *)

From Stdlib Require Import Ascii String ZArith Lia Strings.Byte.
From stdpp Require Import base list sets gmap strings.
From S2P Require Import Prelude PyStr Uuid Intents Models.

Class CatalogFilesystem (F : Type) := {
  fs_exists : F -> str -> result bool;
  fs_move : F -> str -> str -> result unit * F;
  fs_unlink : F -> str -> result unit * F;
  fs_iter_files : F -> str -> Z -> result (list str * Z * bool);
  fs_read_bytes : F -> str -> Z -> result bytes;
  fs_file_size : F -> str -> result Z;
  fs_replace_bytes_atomic : F -> str -> bytes -> Z -> result unit * F
}.

(** A move took effect: the source's bytes are at a target that held nothing. *)
Definition moved (before after : gmap str bytes) (source target : str) : Prop :=
  exists d, before !! source = Some d /\ before !! target = None /\
    after = <[target := d]> (delete source before).

Class FilesystemLaws (F : Type) `{CatalogFilesystem F} := {
  contents : F -> gmap str bytes;
  exists_spec f p b : fs_exists f p = Ok b -> (b = true <-> is_Some (contents f !! p));
  move_spec f s t r f' : fs_move f s t = (r, f') ->
    (contents f' = contents f /\ is_ok r = false) \/ moved (contents f) (contents f') s t;
  unlink_spec f p r f' : fs_unlink f p = (r, f') ->
    (contents f' = contents f /\ is_ok r = false) \/ contents f' = delete p (contents f);
  read_spec f p m d : fs_read_bytes f p m = Ok d -> contents f !! p = Some d;
  replace_spec f p d m r f' : fs_replace_bytes_atomic f p d m = (r, f') ->
    (contents f' = contents f /\ is_ok r = false) \/
    (is_Some (contents f !! p) /\ contents f' = <[p := d]> (contents f));
  iter_spec f directory limit l examined truncated :
    fs_iter_files f directory limit = Ok (l, examined, truncated) -> 0 <= examined <= limit
}.

(** ** The rooted adapter *)

(** Regular files by path relative to the root; [rf_bound] says that the root is still the
    verified directory on the verified device. *)
Record RootedFilesystem := mkRooted { rf_files : gmap str bytes; rf_bound : bool }.

Definition DIRECTORIES : list str := map u ["pending"; "clips"; "protected"; "quarantine"]%string.

Definition positive_bound (value : Z) : result unit :=
  raise_if value <=? 0 as ValueError msg "limit must be a positive integer" ;; Ok tt.

Definition assert_bound (self : RootedFilesystem) : result unit :=
  raise_if negb (rf_bound self)
    as OSError msg "recording root is no longer bound to the verified device" ;; Ok tt.

Definition resolve_directory (self : RootedFilesystem) (directory : str) : result str :=
  let! _ := assert_bound self in
  raise_if negb (bool_decide (directory ∈ DIRECTORIES))
    as ValueError msg "directory is outside the managed namespace" ;;
  Ok directory.

(** [_resolve]: the strict path validator, then the managed first component. *)
Definition resolve_path (self : RootedFilesystem) (relative_path : str) : result str :=
  let! _ := PairPaths_new relative_path (u "__validation__.json") None None in
  let! _ := resolve_directory self (hd [] (path_parts relative_path)) in
  Ok relative_path.

Definition rooted_exists (self : RootedFilesystem) (p : str) : result bool :=
  let! path := resolve_path self p in Ok (bool_decide (is_Some (rf_files self !! path))).

(** [renameat2(..., RENAME_NOREPLACE)] on the regular files. *)
Definition rename_no_replace (self : RootedFilesystem) (s t : str) : result unit * RootedFilesystem :=
  match rf_files self !! s with
  | None => (Err (Exn OSError "No such file or directory"), self)
  | Some d =>
      match rf_files self !! t with
      | Some _ => (Err (Exn FileExistsError "File exists"), self)
      | None => (Ok tt, mkRooted (<[t := d]> (delete s (rf_files self))) (rf_bound self))
      end
  end.

Definition rooted_move (self : RootedFilesystem) (s t : str) : result unit * RootedFilesystem :=
  match resolve_path self s with
  | Err e => (Err e, self)
  | Ok source =>
      match resolve_path self t with
      | Err e => (Err e, self)
      | Ok target => rename_no_replace self source target
      end
  end.

(** Absence is a success. *)
Definition rooted_unlink (self : RootedFilesystem) (p : str) : result unit * RootedFilesystem :=
  match resolve_path self p with
  | Err e => (Err e, self)
  | Ok path => (Ok tt, mkRooted (delete path (rf_files self)) (rf_bound self))
  end.

(** The directory scan stops at the limit, with one entry of lookahead, and sorts what it kept. *)
Definition rooted_iter_files (self : RootedFilesystem) (directory : str) (limit : Z)
    : result (list str * Z * bool) :=
  raise_if negb (bool_decide (directory ∈ DIRECTORIES))
    as ValueError msg "directory is outside the managed namespace" ;;
  let! _ := positive_bound limit in
  let! directory_path := resolve_directory self directory in
  let entries := List.filter (fun p => bool_decide (path_parent p = directory_path))
                   (map fst (map_to_list (rf_files self))) in
  let examined := take (Z.to_nat limit) entries in
  Ok (sort_by (fun a b => String.leb (string_of_list_ascii (casefold a))
                            (string_of_list_ascii (casefold b))) examined,
      Z.of_nat (length examined), limit <? Z.of_nat (length entries)).

Definition blen (d : bytes) : Z := Z.of_nat (length d).

Definition rooted_read_bytes (self : RootedFilesystem) (p : str) (maximum : Z) : result bytes :=
  let! _ := positive_bound maximum in
  let! path := resolve_path self p in
  match rf_files self !! path with
  | None => Err (Exn FileNotFoundError "No such file or directory")
  | Some d =>
      raise_if maximum <? blen d as ValueError msg "file exceeds recovery size bound" ;; Ok d
  end.

Definition rooted_file_size (self : RootedFilesystem) (p : str) : result Z :=
  let! path := resolve_path self p in
  match rf_files self !! path with
  | None => Err (Exn FileNotFoundError "No such file or directory")
  | Some d => Ok (blen d)
  end.

Definition rooted_replace_bytes_atomic (self : RootedFilesystem) (p : str) (payload : bytes)
    (maximum : Z) : result unit * RootedFilesystem :=
  let checked :=
    let! _ := positive_bound maximum in
    raise_if bool_decide (payload = []) || (maximum <? blen payload)
      as ValueError msg "replacement payload is empty or exceeds its bound" ;;
    let! path := resolve_path self p in
    raise_if negb (bool_decide (is_Some (rf_files self !! path)))
      as FileNotFoundError msg "No such file or directory" ;;
    Ok path in
  match checked with
  | Err e => (Err e, self)
  | Ok path => (Ok tt, mkRooted (<[path := payload]> (rf_files self)) (rf_bound self))
  end.

#[export] Instance RootedFilesystem_ops : CatalogFilesystem RootedFilesystem := {
  fs_exists := rooted_exists;
  fs_move := rooted_move;
  fs_unlink := rooted_unlink;
  fs_iter_files := rooted_iter_files;
  fs_read_bytes := rooted_read_bytes;
  fs_file_size := rooted_file_size;
  fs_replace_bytes_atomic := rooted_replace_bytes_atomic
}.

(** ** Lemmas *)

Lemma resolve_path_ok self p q : resolve_path self p = Ok q -> q = p /\ path_ok p /\ rf_bound self = true.
Proof.
  unfold resolve_path, resolve_directory, assert_bound. intros H. inv_ok. bool_prop.
  apply PairPaths_new_ok in Hb as (_ & ? & _). by split_and!.
Qed.

#[export] Program Instance RootedFilesystem_laws : FilesystemLaws RootedFilesystem := {
  contents := rf_files
}.
Next Obligation.
  intros f p b H. simpl in H. unfold rooted_exists in H. inv_ok.
  apply resolve_path_ok in Hb as (-> & _). by rewrite bool_decide_eq_true.
Qed.
Next Obligation.
  intros f s t r f'. simpl. unfold rooted_move.
  destruct (resolve_path f s) as [s'|] eqn:Es; [|intros [= <- <-]; by left].
  destruct (resolve_path f t) as [t'|] eqn:Et; [|intros [= <- <-]; by left].
  apply resolve_path_ok in Es as (-> & _), Et as (-> & _). unfold rename_no_replace.
  destruct (rf_files f !! s) as [d|] eqn:Ed; [|intros [= <- <-]; by left].
  destruct (rf_files f !! t) eqn:Ed'; intros [= <- <-]; [by left|].
  right. by exists d.
Qed.
Next Obligation.
  intros f p r f'. simpl. unfold rooted_unlink.
  destruct (resolve_path f p) as [p'|] eqn:Ep; [|intros [= <- <-]; by left].
  apply resolve_path_ok in Ep as (-> & _). intros [= <- <-]. by right.
Qed.
Next Obligation.
  intros f p m d H. simpl in H. unfold rooted_read_bytes in H. inv_ok.
  apply resolve_path_ok in Hb0 as (-> & _). by destruct (rf_files f !! p); inv_ok.
Qed.
Next Obligation.
  intros f p d m r f'. simpl. unfold rooted_replace_bytes_atomic.
  destruct (result_bind _ _) as [path|] eqn:E; [|intros [= <- <-]; by left].
  inv_ok. bool_prop. apply resolve_path_ok in Hb0 as (-> & _). intros [= <- <-]. by right.
Qed.
Next Obligation.
  intros f directory limit l examined truncated Hi. simpl in Hi. unfold rooted_iter_files in Hi.
  unfold positive_bound in Hi. inv_ok. bool_prop.
  rewrite length_take. lia.
Qed.
