(* ===== verification/CatalogDb.v ===== *)
(** * The catalog's database ([src/dashcam/catalog/database.py])

    The SQLite tables as finite maps with the constraints of the schema, the world a catalog
    method runs in (database, filesystem, random UUID supply), the transaction, and one
    definition per SQL statement shape. Schema columns keep their types: a foreign key, primary
    key, unique index or CHECK that a statement violates raises [IntegrityError]. *)

From Stdlib Require Import Ascii String ZArith Lia Strings.Byte.
From stdpp Require Import base list gmap strings sorting.
From S2P Require Import Prelude PyStr Uuid State Intents Models Filesystem.

(** ** Rows and tables *)

Record LeaseRow := mkLeaseRow {
  l_holder : str;
  l_issued_ns : Z;
  l_expires_ns : Z;
  l_boot_id : str
}.

#[export] Instance LeaseRow_eq_dec : EqDecision LeaseRow. Proof. solve_decision. Defined.

(** A row of [clips]; the four lease columns are all NULL or all set by a CHECK. *)
Record ClipRow := mkClipRow {
  r_lifecycle : ClipLifecycle;
  r_video_path : str;
  r_sidecar_path : str;
  r_start_ns : Z;
  r_end_ns : option Z;
  r_order : Z;
  r_size : Z;
  r_protected : bool;
  r_reason : option str;
  r_reconciled : bool;
  r_managed : bool;
  r_lease : option LeaseRow;
  r_created_ns : Z;
  r_updated_ns : Z;
  r_revision : Z
}.

(** A row of [operation_intents]; [i_complete] is [status = 'COMPLETE']. *)
Record IntentRow := mkIntentRow {
  i_intent : OperationIntent;
  i_complete : bool;
  i_last_problem : option string;
  i_completed_ns : option Z;
  i_expected_revision : option Z;
  i_sidecar : option bytes;
  i_source_sha256 : option str
}.

Record EventRow := mkEventRow {
  e_source : EventSource;
  e_triggered_ns : Z;
  e_current : UUID;
  e_requested_previous : Z;
  e_requested_next : Z;
  e_missing_previous : Z;
  e_remaining_next : Z
}.

Record TargetRow := mkTargetRow { t_role : EventTargetRole; t_ordinal : Z }.

Record RetentionThresholdLatch := mkLatch {
  volume_uuid : str;
  capacity_bytes : Z;
  reclaim_latched : bool
}.

#[export] Instance RetentionThresholdLatch_eq_dec : EqDecision RetentionThresholdLatch.
Proof. solve_decision. Defined.

Record DB := mkDB {
  clips : gmap UUID ClipRow;
  intents : gmap UUID IntentRow;
  events : gmap UUID EventRow;
  targets : gmap (UUID * UUID) TargetRow;
  latch : option RetentionThresholdLatch
}.

Definition empty_db : DB := mkDB ∅ ∅ ∅ ∅ None.

(** *** Column updates *)

Definition set_clips (f : gmap UUID ClipRow -> gmap UUID ClipRow) (d : DB) : DB :=
  mkDB (f (clips d)) (intents d) (events d) (targets d) (latch d).
Definition set_intents (f : gmap UUID IntentRow -> gmap UUID IntentRow) (d : DB) : DB :=
  mkDB (clips d) (f (intents d)) (events d) (targets d) (latch d).
Definition set_events (f : gmap UUID EventRow -> gmap UUID EventRow) (d : DB) : DB :=
  mkDB (clips d) (intents d) (f (events d)) (targets d) (latch d).
Definition set_targets (f : gmap (UUID * UUID) TargetRow -> gmap (UUID * UUID) TargetRow) (d : DB) : DB :=
  mkDB (clips d) (intents d) (events d) (f (targets d)) (latch d).
Definition set_latch (l : option RetentionThresholdLatch) (d : DB) : DB :=
  mkDB (clips d) (intents d) (events d) (targets d) l.

Definition with_lifecycle (l : ClipLifecycle) (r : ClipRow) : ClipRow :=
  mkClipRow l (r_video_path r) (r_sidecar_path r) (r_start_ns r) (r_end_ns r) (r_order r)
    (r_size r) (r_protected r) (r_reason r) (r_reconciled r) (r_managed r) (r_lease r)
    (r_created_ns r) (r_updated_ns r) (r_revision r).
Definition with_paths (v s : str) (r : ClipRow) : ClipRow :=
  mkClipRow (r_lifecycle r) v s (r_start_ns r) (r_end_ns r) (r_order r)
    (r_size r) (r_protected r) (r_reason r) (r_reconciled r) (r_managed r) (r_lease r)
    (r_created_ns r) (r_updated_ns r) (r_revision r).
Definition with_end_size (e sz : Z) (r : ClipRow) : ClipRow :=
  mkClipRow (r_lifecycle r) (r_video_path r) (r_sidecar_path r) (r_start_ns r) (Some e) (r_order r)
    sz (r_protected r) (r_reason r) (r_reconciled r) (r_managed r) (r_lease r)
    (r_created_ns r) (r_updated_ns r) (r_revision r).
Definition with_size (sz : Z) (r : ClipRow) : ClipRow :=
  mkClipRow (r_lifecycle r) (r_video_path r) (r_sidecar_path r) (r_start_ns r) (r_end_ns r)
    (r_order r) sz (r_protected r) (r_reason r) (r_reconciled r) (r_managed r) (r_lease r)
    (r_created_ns r) (r_updated_ns r) (r_revision r).
Definition with_protection (p : bool) (reason : option str) (r : ClipRow) : ClipRow :=
  mkClipRow (r_lifecycle r) (r_video_path r) (r_sidecar_path r) (r_start_ns r) (r_end_ns r)
    (r_order r) (r_size r) p reason (r_reconciled r) (r_managed r) (r_lease r)
    (r_created_ns r) (r_updated_ns r) (r_revision r).
Definition bump_revision (r : ClipRow) : ClipRow :=
  mkClipRow (r_lifecycle r) (r_video_path r) (r_sidecar_path r) (r_start_ns r) (r_end_ns r)
    (r_order r) (r_size r) (r_protected r) (r_reason r) (r_reconciled r) (r_managed r) (r_lease r)
    (r_created_ns r) (r_updated_ns r) (r_revision r + 1).
Definition with_reconciled (b : bool) (r : ClipRow) : ClipRow :=
  mkClipRow (r_lifecycle r) (r_video_path r) (r_sidecar_path r) (r_start_ns r) (r_end_ns r)
    (r_order r) (r_size r) (r_protected r) (r_reason r) b (r_managed r) (r_lease r)
    (r_created_ns r) (r_updated_ns r) (r_revision r).
Definition with_lease (l : option LeaseRow) (r : ClipRow) : ClipRow :=
  mkClipRow (r_lifecycle r) (r_video_path r) (r_sidecar_path r) (r_start_ns r) (r_end_ns r)
    (r_order r) (r_size r) (r_protected r) (r_reason r) (r_reconciled r) (r_managed r) l
    (r_created_ns r) (r_updated_ns r) (r_revision r).
Definition with_updated (now : Z) (r : ClipRow) : ClipRow :=
  mkClipRow (r_lifecycle r) (r_video_path r) (r_sidecar_path r) (r_start_ns r) (r_end_ns r)
    (r_order r) (r_size r) (r_protected r) (r_reason r) (r_reconciled r) (r_managed r) (r_lease r)
    (r_created_ns r) now (r_revision r).

Definition with_problem (p : option string) (r : IntentRow) : IntentRow :=
  mkIntentRow (i_intent r) (i_complete r) p (i_completed_ns r) (i_expected_revision r)
    (i_sidecar r) (i_source_sha256 r).
Definition with_complete (now : Z) (r : IntentRow) : IntentRow :=
  mkIntentRow (i_intent r) true None (Some now) (i_expected_revision r)
    (i_sidecar r) (i_source_sha256 r).
Definition with_remaining (n : Z) (r : EventRow) : EventRow :=
  mkEventRow (e_source r) (e_triggered_ns r) (e_current r) (e_requested_previous r)
    (e_requested_next r) (e_missing_previous r) n.

(** *** Constraints *)

(** The CHECK clauses of [clips]. *)
Definition clip_checks (r : ClipRow) : bool :=
  (0 <=? r_size r) && (0 <=? r_start_ns r)
  && match r_end_ns r with Some e => r_start_ns r <? e | None => true end
  && (0 <=? r_revision r).

Definition event_checks (r : EventRow) : bool :=
  (0 <=? e_requested_previous r) && (0 <=? e_requested_next r)
  && (0 <=? e_missing_previous r) && (0 <=? e_remaining_next r).

(** The pending intents of a clip, in an index kept unique by [one_pending_intent_per_clip_idx]. *)
Definition is_pending_of (id : UUID) (row : UUID * IntentRow) : bool :=
  negb (i_complete (snd row)) && bool_decide (clip_id (i_intent (snd row)) = id).

Definition pending_of (d : DB) (id : UUID) : option (UUID * IntentRow) :=
  head (List.filter (is_pending_of id) (map_to_list (intents d))).

Definition orders (d : DB) : list Z := map (fun row => r_order (snd row)) (map_to_list (clips d)).

(** ** The world and the method monad *)

(** What the catalog takes from outside its own module: [uuid.uuid4], the sidecar codec of
    [dashcam.metadata] and [hashlib.sha256]. *)
Class Environment := {
  uuid4 : nat -> UUID;
  ClipSidecar : Type;
  sc_clip_id : ClipSidecar -> UUID;
  sc_video_file : ClipSidecar -> str;
  sc_metadata_file : ClipSidecar -> str;
  sc_start_monotonic_ns : ClipSidecar -> Z;
  sc_end_monotonic_ns : ClipSidecar -> Z;
  sc_protected : ClipSidecar -> bool;
  sc_protection_reason : ClipSidecar -> option str;
  parse_sidecar_bytes : bytes -> result ClipSidecar;
  to_canonical_json : ClipSidecar -> bytes;
  sha256_hexdigest : bytes -> str
}.

Record World (F : Type) := mkWorld { w_db : DB; w_fs : F; w_uuids : nat }.
Arguments mkWorld {F} w_db w_fs w_uuids.
Arguments w_db {F} w.
Arguments w_fs {F} w.
Arguments w_uuids {F} w.

Definition set_db {F} (d : DB) (w : World F) : World F := mkWorld d (w_fs w) (w_uuids w).
Definition set_fs {F} (f : F) (w : World F) : World F := mkWorld (w_db w) f (w_uuids w).

Definition M (F A : Type) : Type := World F -> result A * World F.

Definition mret {F A} (a : A) : M F A := fun w => (Ok a, w).
Definition mfail {F A} (c : exn_class) (m : string) : M F A := fun w => (Err (Exn c m), w).
Definition mraise {F A} (e : exn) : M F A := fun w => (Err e, w).

Definition mbind {F A B} (m : M F A) (k : A -> M F B) : M F B := fun w =>
  match m w with
  | (Ok a, w') => k a w'
  | (Err e, w') => (Err e, w')
  end.

Definition lift {F A} (r : result A) : M F A := fun w => (r, w).

(** Read the database. *)
Definition query {F A} (q : DB -> A) : M F A := fun w => (Ok (q (w_db w)), w).

(** Change the database. *)
Definition execute {F} (f : DB -> DB) : M F unit := fun w => (Ok tt, set_db (f (w_db w)) w).

Definition guard {F} (b : bool) (c : exn_class) (m : string) : M F unit :=
  if b then mfail c m else mret tt.

Declare Scope catalog_scope.
Notation "x <- m ;; k" := (mbind m (fun x => k))
  (at level 20, m at level 99, k at level 200) : catalog_scope.
Notation "' pat <- m ;; k" := (mbind m (fun x => match x with pat => k end))
  (at level 20, pat pattern, m at level 99, k at level 200) : catalog_scope.
Notation "m ;;; k" := (mbind m (fun _ => k))
  (at level 100, k at level 200, right associativity) : catalog_scope.
#[global] Open Scope catalog_scope.

(** [for x in l: ...] with a loop-carried value. *)
Fixpoint mfold {F A B} (f : B -> A -> M F B) (b : B) (l : list A) : M F B :=
  match l with
  | [] => mret b
  | x :: l' => b' <- f b x ;; mfold f b' l'
  end.

Definition mfor {F A} (f : A -> M F unit) (l : list A) : M F unit := mfold (fun _ x => f x) tt l.

(** [try: m except E as exc: h(exc)]: effects of [m] are kept. *)
Definition mtry {F A} (m : M F A) (h : exn -> M F A) : M F A := fun w =>
  match m w with
  | (Ok a, w') => (Ok a, w')
  | (Err e, w') => h e w'
  end.

(** [with self._transaction():] an exception rolls the database back, but neither the
    filesystem nor the random supply. *)
Definition transaction {F A} (m : M F A) : M F A := fun w =>
  match m w with
  | (Ok a, w') => (Ok a, w')
  | (Err e, w') => (Err e, set_db (w_db w) w')
  end.

Definition new_uuid4 {F} `{Environment} : M F UUID := fun w =>
  (Ok (uuid4 (w_uuids w)), mkWorld (w_db w) (w_fs w) (S (w_uuids w))).

(** The result of a run determines it, together with the world it ends in. *)
Lemma ran {F A} (m : M F A) w r : fst (m w) = r -> m w = (r, snd (m w)).
Proof. intros <-. by destruct (m w). Qed.

Section filesystem_calls.
Context {F : Type} `{CatalogFilesystem F}.

Definition f_exists (p : str) : M F bool := fun w => (fs_exists (w_fs w) p, w).
Definition f_read_bytes (p : str) (maximum : Z) : M F bytes := fun w =>
  (fs_read_bytes (w_fs w) p maximum, w).
Definition f_file_size (p : str) : M F Z := fun w => (fs_file_size (w_fs w) p, w).
Definition f_iter_files (directory : str) (limit : Z) : M F (list str * Z * bool) := fun w =>
  (fs_iter_files (w_fs w) directory limit, w).
Definition f_move (s t : str) : M F unit := fun w =>
  let '(r, f) := fs_move (w_fs w) s t in (r, set_fs f w).
Definition f_unlink (p : str) : M F unit := fun w =>
  let '(r, f) := fs_unlink (w_fs w) p in (r, set_fs f w).
Definition f_replace_bytes_atomic (p : str) (d : bytes) (maximum : Z) : M F unit := fun w =>
  let '(r, f) := fs_replace_bytes_atomic (w_fs w) p d maximum in (r, set_fs f w).
End filesystem_calls.

(** ** Statements *)

Section statements.
Context {F : Type}.

Definition integrity {A} (m : string) : M F A := mfail IntegrityError m.

(** [UPDATE clips SET ... WHERE clip_id = ?]; the number of matching rows is the result. *)
Definition update_clip (id : UUID) (f : ClipRow -> ClipRow) : M F Z :=
  row <- query (fun d => clips d !! id) ;;
  match row with
  | None => mret 0
  | Some r =>
      guard (negb (clip_checks (f r))) IntegrityError "CHECK constraint failed: clips" ;;;
      execute (set_clips (fun m => <[id := f r]> m)) ;;;
      mret 1
  end.

(** [INSERT INTO clips]. *)
Definition insert_clip_row (id : UUID) (r : ClipRow) : M F unit :=
  existing <- query (fun d => clips d !! id) ;;
  guard (bool_decide (is_Some existing)) IntegrityError "UNIQUE constraint failed: clips.clip_id" ;;;
  used <- query orders ;;
  guard (bool_decide (r_order r ∈ used)) IntegrityError
    "UNIQUE constraint failed: clips.retention_order" ;;;
  guard (negb (clip_checks r)) IntegrityError "CHECK constraint failed: clips" ;;;
  execute (set_clips (fun m => <[id := r]> m)).

(** [INSERT INTO operation_intents]. *)
Definition insert_intent_row (r : IntentRow) : M F unit :=
  let id := intent_id (i_intent r) in
  let clip := clip_id (i_intent r) in
  existing <- query (fun d => intents d !! id) ;;
  guard (bool_decide (is_Some existing)) IntegrityError
    "UNIQUE constraint failed: operation_intents.intent_id" ;;;
  pending <- query (fun d => pending_of d clip) ;;
  guard (bool_decide (is_Some pending)) IntegrityError
    "UNIQUE constraint failed: operation_intents.clip_id" ;;;
  parent <- query (fun d => clips d !! clip) ;;
  guard (negb (bool_decide (is_Some parent))) IntegrityError "FOREIGN KEY constraint failed" ;;;
  guard (match i_expected_revision r with Some e => e <? 0 | None => false end) IntegrityError
    "CHECK constraint failed: operation_intents" ;;;
  execute (set_intents (fun m => <[id := r]> m)).

(** [UPDATE operation_intents SET ... WHERE intent_id = ?]. *)
Definition update_intent (id : UUID) (f : IntentRow -> IntentRow) : M F unit :=
  execute (set_intents (fun m => alter f id m)).

(** [INSERT INTO protection_events]. *)
Definition insert_event_row (id : UUID) (r : EventRow) : M F unit :=
  existing <- query (fun d => events d !! id) ;;
  guard (bool_decide (is_Some existing)) IntegrityError
    "UNIQUE constraint failed: protection_events.event_id" ;;;
  guard (negb (event_checks r)) IntegrityError "CHECK constraint failed: protection_events" ;;;
  parent <- query (fun d => clips d !! e_current r) ;;
  guard (negb (bool_decide (is_Some parent))) IntegrityError "FOREIGN KEY constraint failed" ;;;
  execute (set_events (fun m => <[id := r]> m)).

(** [UPDATE protection_events SET remaining_next = remaining_next - 1 WHERE event_id = ?],
    with [AND remaining_next > 0] when [guarded]. *)
Definition decrement_remaining (id : UUID) (guarded : bool) : M F unit :=
  row <- query (fun d => events d !! id) ;;
  match row with
  | None => mret tt
  | Some r =>
      if guarded && negb (0 <? e_remaining_next r) then mret tt
      else
        let r' := with_remaining (e_remaining_next r - 1) r in
        guard (negb (event_checks r')) IntegrityError "CHECK constraint failed: protection_events" ;;;
        execute (set_events (fun m => <[id := r']> m))
  end.

(** [INSERT INTO protection_event_targets], with [OR IGNORE] when [or_ignore]. *)
Definition insert_target_row (event clip : UUID) (r : TargetRow) (or_ignore : bool) : M F unit :=
  existing <- query (fun d => targets d !! (event, clip)) ;;
  match existing with
  | Some _ =>
      if or_ignore then mret tt
      else integrity "UNIQUE constraint failed: protection_event_targets"
  | None =>
      parent_event <- query (fun d => events d !! event) ;;
      parent_clip <- query (fun d => clips d !! clip) ;;
      guard (negb (bool_decide (is_Some parent_event) && bool_decide (is_Some parent_clip)))
        IntegrityError "FOREIGN KEY constraint failed" ;;;
      execute (set_targets (fun m => <[(event, clip) := r]> m))
  end.

(** [SELECT * FROM clips WHERE p ORDER BY retention_order, clip_id]. *)
Definition row_key (row : UUID * ClipRow) : Z * UUID := (r_order (snd row), fst row).
Definition row_leb (a b : UUID * ClipRow) : bool := order_key_leb (row_key a) (row_key b).

Definition select_clips (p : UUID * ClipRow -> bool) (d : DB) : list (UUID * ClipRow) :=
  sort_by row_leb (List.filter p (map_to_list (clips d))).

(** [SELECT * FROM operation_intents WHERE status = 'PENDING' AND p
     ORDER BY created_monotonic_ns, intent_id]. *)
Definition intent_leb (a b : UUID * IntentRow) : bool :=
  order_key_leb (created_monotonic_ns (i_intent (snd a)), fst a)
                (created_monotonic_ns (i_intent (snd b)), fst b).

Definition select_pending (p : IntentRow -> bool) (d : DB) : list (UUID * IntentRow) :=
  sort_by intent_leb
    (List.filter (fun row => negb (i_complete (snd row)) && p (snd row)) (map_to_list (intents d))).

End statements.

(** [LIMIT ?]. *)
Definition limited {A} (limit : Z) (l : list A) : list A := take (Z.to_nat limit) l.
