(* ===== verification/Catalog.v ===== *)
(** * Clip catalog operations ([src/dashcam/catalog/database.py])

    Every method of [ClipCatalog] except recovery, which is in [Reconcile]: registration,
    queries, download leases, protection, deletion, events and finalization. A method runs in
    the world monad of [CatalogDb]; the [_locked] helpers run inside their caller's
    transaction, as in the source. *)

From Stdlib Require Import Ascii String ZArith Lia Strings.Byte.
From stdpp Require Import base list gmap strings sorting.
From S2P Require Import Prelude PyStr Uuid Retention State Naming Intents Models Filesystem CatalogDb.

Definition MAX_PENDING_EVENT_WINDOWS : Z := 64.
Definition MAX_QUERY_ROWS : Z := 10000.
Definition MAX_REASON_CHARS : Z := 256.
Definition MAX_BOOT_ID_CHARS : Z := 128.
Definition MAX_SIDECAR_BYTES : Z := 512 * 1024.
Definition MAX_RETENTION_ORDER : Z := 9223372036854775807.
Definition MANAGED_DIRECTORIES : list str := map u ["pending"; "clips"; "protected"; "quarantine"]%string.

(** [[A-Za-z0-9][A-Za-z0-9._:-]{0,127}], matched in full. *)
Definition CATALOG_BOOT_ID_RE (s : str) : bool :=
  match s with
  | [] => false
  | c :: s' => is_alnum c && (len s' <=? 127) && forallb (fun c => is_alnum c || one_of "._:-" c) s'
  end.

(** ** Validators *)

Definition positive_integer (value : Z) : result Z :=
  raise_if value <=? 0 as ValueError msg "value must be a positive integer" ;; Ok value.

Definition non_negative_integer (value : Z) : result Z :=
  raise_if value <? 0 as ValueError msg "value must be a non-negative integer" ;; Ok value.

Definition row_limit (value : Z) : result Z :=
  let! r := positive_integer value in
  raise_if MAX_QUERY_ROWS <? r as ValueError msg "limit exceeds 10000 row bound" ;; Ok r.

Definition bounded_count (value : Z) : result Z :=
  let! _ := non_negative_integer value in
  raise_if 32 <? value as ValueError msg "count exceeds bound" ;; Ok value.

Definition check_boot_id (boot_id : str) : result unit :=
  raise_if (MAX_BOOT_ID_CHARS <? len boot_id) || negb (CATALOG_BOOT_ID_RE boot_id)
    as ValueError msg "boot_id must be a bounded safe identifier" ;; Ok tt.

Definition check_reason (reason : str) : result unit :=
  raise_if bool_decide (reason = []) || (MAX_REASON_CHARS <? len reason)
    as ValueError msg "protection reason must be a non-empty bounded string" ;;
  raise_if negb (isascii reason) || existsb (fun c => ord c <? 32) reason
    as ValueError msg "protection reason must be printable ASCII" ;; Ok tt.

Definition validate_clip (clip : CatalogClip) : result unit :=
  let v := c_video_path clip in
  let s := c_sidecar_path clip in
  let! _ := PairPaths_new v s None None in
  let! _ := ClipFilePair_new (path_name v) (path_name s) in
  raise_if negb (bool_decide (path_parent v = path_parent s))
    as ValueError msg "clip pair members must share a managed directory" ;;
  raise_if negb (bool_decide (path_parent v ∈ MANAGED_DIRECTORIES))
    as ValueError msg "clip paths must use a managed directory" ;;
  let! _ := non_negative_integer (c_start_monotonic_ns clip) in
  let! _ := match c_end_monotonic_ns clip with
            | None => Ok tt
            | Some e =>
                let! _ := non_negative_integer e in
                raise_if e <=? c_start_monotonic_ns clip
                  as ValueError msg "end_monotonic_ns must be after start" ;; Ok tt
            end in
  let! _ := non_negative_integer (c_retention_order clip) in
  let! _ := non_negative_integer (c_size_bytes clip) in
  raise_if bool_decide (c_lifecycle clip = FINALIZED) && bool_decide (c_end_monotonic_ns clip = None)
    as ValueError msg "finalized clip requires end_monotonic_ns" ;;
  let! _ := if c_protected clip then
              match c_protection_reason clip with
              | None => Err (Exn ValueError "protected clip requires a protection reason")
              | Some r => check_reason r
              end
            else
              raise_if bool_decide (is_Some (c_protection_reason clip))
                as ValueError msg "unprotected clip cannot have a protection reason" ;; Ok tt in
  raise_if bool_decide (c_download_lease clip = None) && bool_decide (is_Some (c_lease_boot_id clip))
    as ValueError msg "lease_boot_id requires a lease" ;;
  match c_download_lease clip with
  | None => Ok tt
  | Some _ =>
      raise_if negb (bool_decide (c_lifecycle clip = FINALIZED))
        as ValueError msg "only a finalized clip may have a download lease" ;;
      match c_lease_boot_id clip with
      | None => Err (Exn ValueError "download lease requires lease_boot_id")
      | Some b => check_boot_id b
      end
  end.

Definition RetentionThresholdLatch_new (volume : str) (capacity : Z) (latched : bool)
    : result RetentionThresholdLatch :=
  raise_if bool_decide (volume = []) || (128 <? len volume)
    as ValueError msg "volume_uuid must be a bounded non-empty string" ;;
  let! _ := non_negative_integer capacity in
  raise_if capacity =? 0 as ValueError msg "capacity_bytes must be positive" ;;
  Ok (mkLatch volume capacity latched).

(** [except ClipNameError as exc: raise CatalogConflictError(m) from exc]. *)
Definition or_conflict {A} (r : result A) (m : string) : result A :=
  match r with
  | Ok a => Ok a
  | Err e => if decide (exn_cls e = ClipNameError) then Err (Exn CatalogConflictError m) else Err e
  end.

(** ** Rows to values *)

Definition row_has_active_lease (r : ClipRow) (now : Z) (boot_id : str) : bool :=
  match r_lease r with
  | Some l => bool_decide (l_boot_id l = boot_id) && (now <? l_expires_ns l)
  | None => false
  end.

Definition row_has_unexpired_lease (r : ClipRow) (now : Z) : bool :=
  match r_lease r with Some l => now <? l_expires_ns l | None => false end.

Definition clip_from_row (row : UUID * ClipRow) : result CatalogClip :=
  let '(id, r) := row in
  let! lease := match r_lease r with
                | None => Ok None
                | Some l =>
                    let! d := DownloadLease_new (l_holder l) (l_issued_ns l) (l_expires_ns l) in
                    Ok (Some d)
                end in
  Ok (mkCatalogClip id (r_lifecycle r) (r_video_path r) (r_sidecar_path r) (r_start_ns r)
        (r_end_ns r) (r_order r) (r_size r) (r_protected r) (r_reason r) (r_reconciled r)
        (r_managed r) lease (option_map l_boot_id (r_lease r))).

Definition intent_from_row (row : IntentRow) : result OperationIntent :=
  let i := i_intent row in
  let p := paths i in
  let! p' := PairPaths_new (video_source p) (sidecar_source p) (video_target p) (sidecar_target p) in
  OperationIntent_new (intent_id i) (clip_id i) (kind i) (created_monotonic_ns i) p' SCHEMA_VERSION.

Definition move_paths (video_source sidecar_source target_directory : str) : result PairPaths :=
  PairPaths_new video_source sidecar_source
    (Some (path_join target_directory (path_name video_source)))
    (Some (path_join target_directory (path_name sidecar_source))).

Section catalog.
Context {F : Type} `{CatalogFilesystem F} `{Environment}.

(** ** Helpers inside a transaction *)

Definition required_clip_row (id : UUID) : M F ClipRow :=
  row <- query (fun d => clips d !! id) ;;
  match row with
  | None => mfail ClipNotFoundError (string_of_list_ascii (uuid_str id))
  | Some r => mret r
  end.

Definition pending_intent_row (id : UUID) : M F (option (UUID * IntentRow)) :=
  query (fun d => pending_of d id).

Definition clear_lease_locked (id : UUID) : M F unit :=
  update_clip id (with_lease None) ;;; mret tt.

Definition insert_clip_locked (clip : CatalogClip) (catalog_now_ns : Z) : M F unit :=
  guard (negb (bool_decide (is_Some (c_download_lease clip) <-> is_Some (c_lease_boot_id clip))))
    IntegrityError "CHECK constraint failed: clips" ;;;
  let lease :=
    match c_download_lease clip, c_lease_boot_id clip with
    | Some l, Some b =>
        Some (mkLeaseRow (holder l) (issued_at_monotonic_ns l) (expires_at_monotonic_ns l) b)
    | _, _ => None
    end in
  insert_clip_row (c_clip_id clip)
    (mkClipRow (c_lifecycle clip) (c_video_path clip) (c_sidecar_path clip)
       (c_start_monotonic_ns clip) (c_end_monotonic_ns clip) (c_retention_order clip)
       (c_size_bytes clip) (c_protected clip) (c_protection_reason clip) (c_pair_reconciled clip)
       (c_managed clip) lease catalog_now_ns catalog_now_ns 0).

Definition insert_intent_locked (id : UUID) (k : IntentKind) (p : PairPaths) (now : Z)
    (expected_protection_revision : option Z) : M F OperationIntent :=
  new_id <- new_uuid4 ;;
  intent <- lift (OperationIntent_new new_id id k now p SCHEMA_VERSION) ;;
  insert_intent_row (mkIntentRow intent false None None expected_protection_revision None None) ;;;
  mret intent.

Definition insert_existing_intent_locked (intent : OperationIntent)
    (reconciliation_sidecar : option bytes) (reconciliation_source_sha256 : option str) : M F unit :=
  insert_intent_row (mkIntentRow intent false None None None
                       reconciliation_sidecar reconciliation_source_sha256).

(** The intent that moves a clip's pair, queued with [pair_reconciled = 0]. *)
Definition queue_move_locked (id : UUID) (k : IntentKind) (r : ClipRow) (directory : str)
    (now : Z) (expected : option Z) : M F UUID :=
  p <- lift (move_paths (r_video_path r) (r_sidecar_path r) directory) ;;
  intent <- insert_intent_locked id k p now expected ;;
  update_clip id (fun c => with_updated now (with_reconciled false c)) ;;;
  mret (intent_id intent).

Definition set_protected_row (reason : str) (now : Z) (c : ClipRow) : ClipRow :=
  with_updated now (bump_revision (with_protection true (Some reason) c)).

Definition prepare_protect_locked (id : UUID) (reason : str) (now : Z)
    (allow_existing_protection : bool) : M F (option UUID) :=
  row <- required_clip_row id ;;
  guard (row_has_unexpired_lease row now) DownloadLeaseError
    "download lease freezes the clip pair path" ;;;
  guard (bool_decide (r_lifecycle row ∈ [DELETING; DELETED])) CatalogConflictError
    "clip no longer exists" ;;;
  pending <- pending_intent_row id ;;
  match pending with
  | Some (pending_id, p) =>
      let k := kind (i_intent p) in
      if bool_decide (k = PROTECT) && r_protected row then mret (Some pending_id)
      else if allow_existing_protection && r_protected row
              && bool_decide (k ∈ [FINALIZE; RECONCILE_NAME]) then mret None
      else mfail CatalogConflictError "clip mutation is already in progress"
  | None =>
      update_clip id (set_protected_row reason now) ;;;
      if negb (bool_decide (r_lifecycle row = FINALIZED)) then mret None
      else if bool_decide (path_parent (r_video_path row) = u "protected") then mret None
      else
        queued <- queue_move_locked id PROTECT row (u "protected") now None ;;
        mret (Some queued)
  end.

Definition protect_for_event_locked (id : UUID) (reason : str) (now : Z) : M F (option UUID) :=
  row <- required_clip_row id ;;
  if bool_decide (r_lifecycle row ∈ [DELETING; DELETED]) then mret None
  else
    pending <- pending_intent_row id ;;
    if match pending with Some (_, p) => bool_decide (kind (i_intent p) = DELETE) | None => false end
    then mret None
    else
      update_clip id (set_protected_row reason now) ;;;
      match pending with
      | Some (pending_id, p) =>
          if bool_decide (kind (i_intent p) = PROTECT) then mret (Some pending_id) else mret None
      | None =>
          if row_has_unexpired_lease row now then mret None
          else if negb (bool_decide (r_lifecycle row = FINALIZED)) then mret None
          else if bool_decide (path_parent (r_video_path row) = u "protected") then mret None
          else
            queued <- queue_move_locked id PROTECT row (u "protected") now None ;;
            mret (Some queued)
      end.

(** Queue one protection-directory repair inside the caller's transaction. *)
Definition queue_directory_invariant_repair_locked (id : UUID) (row : ClipRow) (now : Z)
    : M F (option UUID) :=
  pending <- pending_intent_row id ;;
  if negb (bool_decide (r_lifecycle row = FINALIZED)) || bool_decide (is_Some pending)
     || row_has_unexpired_lease row now then mret None
  else
    let directory := path_parent (r_video_path row) in
    if negb (bool_decide (path_parent (r_sidecar_path row) = directory)) then mret None
    else if r_protected row && bool_decide (directory = u "clips") then
      queued <- queue_move_locked id PROTECT row (u "protected") now None ;; mret (Some queued)
    else if negb (r_protected row) && bool_decide (directory = u "protected") then
      queued <- queue_move_locked id UNPROTECT row (u "clips") now (Some (r_revision row)) ;;
      mret (Some queued)
    else mret None.

Definition prepare_delete_row_locked (id : UUID) (row : ClipRow) (now : Z) (boot_id : str)
    : M F UUID :=
  pending <- pending_intent_row id ;;
  match pending with
  | Some (pending_id, p) =>
      if decide (kind (i_intent p) = DELETE) then mret pending_id
      else mfail CatalogConflictError "clip mutation is already in progress"
  | None =>
      guard (negb (bool_decide (r_lifecycle row = FINALIZED))) CatalogConflictError
        "only finalized clips can be deleted" ;;;
      guard (r_protected row) CatalogConflictError "protected clips cannot be deleted" ;;;
      guard (negb (r_reconciled row) || negb (r_managed row)) CatalogConflictError
        "only reconciled managed clips can be deleted" ;;;
      guard (row_has_active_lease row now boot_id) CatalogConflictError "download lease is active" ;;;
      p <- lift (PairPaths_new (r_video_path row) (r_sidecar_path row) None None) ;;
      guard (negb (bool_decide (path_parent (video_source p) = u "clips"))
             || negb (bool_decide (path_parent (sidecar_source p) = u "clips")))
        CatalogConflictError "retention may delete only reconciled clips/ pairs" ;;;
      intent <- insert_intent_locked id DELETE p now None ;;
      update_clip id (fun c => with_updated now (with_lease None
                                 (with_reconciled false (with_lifecycle DELETING c)))) ;;;
      mret (intent_id intent)
  end.

(** ** Registration and queries *)

Definition next_retention_order : M F Z :=
  used <- query orders ;;
  let value := foldr Z.max (-1) used + 1 in
  guard (negb ((0 <=? value) && (value <=? MAX_RETENTION_ORDER))) CatalogConflictError
    "retention ordering space is exhausted" ;;;
  mret value.

Definition retention_threshold_latch : M F (option RetentionThresholdLatch) :=
  row <- query latch ;;
  match row with
  | None => mret None
  | Some l =>
      l' <- lift (RetentionThresholdLatch_new (volume_uuid l) (capacity_bytes l) (reclaim_latched l)) ;;
      mret (Some l')
  end.

Definition store_retention_threshold_latch (l : RetentionThresholdLatch) : M F unit :=
  transaction (
    row <- query latch ;;
    match row with
    | None => execute (set_latch (Some l))
    | Some stored =>
        guard (negb (bool_decide (volume_uuid stored = volume_uuid l)
                     && (capacity_bytes stored =? capacity_bytes l)))
          CatalogConflictError "retention threshold latch binding differs from durable state" ;;;
        execute (set_latch (Some l))
    end).

Definition register_clip (clip : CatalogClip) (catalog_now_ns : Z) : M F unit :=
  lift (validate_clip clip) ;;;
  lift (non_negative_integer catalog_now_ns) ;;;
  transaction (insert_clip_locked clip catalog_now_ns).

Definition register_writing_clip (clip : CatalogClip) (now : Z) : M F unit :=
  lift (validate_clip clip) ;;;
  lift (non_negative_integer now) ;;;
  let video := c_video_path clip in
  let sidecar := c_sidecar_path clip in
  guard (negb (bool_decide (c_lifecycle clip = WRITING))
         || negb (bool_decide (path_parent video = u "pending"))
         || negb (bool_decide (path_parent sidecar = u "pending"))
         || bool_decide (is_Some (c_end_monotonic_ns clip))
         || negb (c_size_bytes clip =? 0)
         || c_protected clip
         || bool_decide (is_Some (c_protection_reason clip))
         || c_pair_reconciled clip
         || negb (c_managed clip)
         || bool_decide (is_Some (c_download_lease clip)))
    CatalogConflictError
    "active registration requires one unprotected managed pending WRITING clip" ;;;
  parsed <- lift (or_conflict
                    (let! files := ClipFilePair_new (path_name video) (path_name sidecar) in
                     parse_clip_filename (video_name files))
                    "active paths are not a safe provisional pair") ;;
  guard (negb (partial parsed)) CatalogConflictError
    "active video path must retain the partial suffix" ;;;
  transaction (insert_clip_locked clip now).

(** The event windows waiting for the clip of [row]: opened by an older clip, with clips still
    to protect, and not yet covering this one. *)
Definition window_pending (id : UUID) (row : ClipRow) (d : DB) (e : UUID * EventRow) : bool :=
  match clips d !! e_current (snd e) with
  | None => false
  | Some current =>
      (0 <? e_remaining_next (snd e))
      && negb (bool_decide (e_current (snd e) = id))
      && (r_order current <? r_order row)
      && negb (bool_decide (is_Some (targets d !! (fst e, id))))
  end.

Definition event_leb (a b : UUID * EventRow) : bool :=
  order_key_leb (e_triggered_ns (snd a), fst a) (e_triggered_ns (snd b), fst b).

Definition select_pending_windows (id : UUID) (row : ClipRow) (d : DB) : list (UUID * EventRow) :=
  limited MAX_PENDING_EVENT_WINDOWS
    (sort_by event_leb (List.filter (window_pending id row d) (map_to_list (events d)))).

Definition next_target (e : EventRow) : TargetRow :=
  mkTargetRow NEXT (e_requested_next e - e_remaining_next e + 1).

Definition window_reason (event : UUID) : str := u "event:" ++ uuid_str event ++ u ":pending-window".

Record ActiveClipProtectionState := mkActiveProtection {
  ap_protected : bool;
  ap_reason : option str;
  ap_revision : Z
}.

Definition consume_closing_window (id : UUID) (now : Z) (e : UUID * EventRow) : M F unit :=
  let '(event, er) := e in
  insert_target_row event id (next_target er) false ;;;
  decrement_remaining event true ;;;
  protect_for_event_locked id (window_reason event) now ;;;
  mret tt.

Definition active_closing_protection (id : UUID) (now : Z) : M F ActiveClipProtectionState :=
  lift (non_negative_integer now) ;;;
  transaction (
    row <- required_clip_row id ;;
    guard (negb (bool_decide (r_lifecycle row = WRITING))) CatalogConflictError
      "only a WRITING clip can begin active finalization" ;;;
    pending_events <- query (select_pending_windows id row) ;;
    mfor (consume_closing_window id now) pending_events ;;;
    refreshed <- required_clip_row id ;;
    mret (mkActiveProtection (r_protected refreshed) (r_reason refreshed) (r_revision refreshed))).

Definition list_writing_clips (limit : Z) : M F (list CatalogClip) :=
  lift (row_limit limit) ;;;
  rows <- query (fun d => limited limit
                   (select_clips (fun row => bool_decide (r_lifecycle (snd row) = WRITING)) d)) ;;
  lift (result_map clip_from_row rows).

Definition mark_writing_clip_orphaned (id : UUID) (now : Z) : M F bool :=
  lift (non_negative_integer now) ;;;
  transaction (
    row <- query (fun d => clips d !! id) ;;
    match row with
    | Some r =>
        if decide (r_lifecycle r = WRITING) then
          update_clip id (fun c => with_updated now (with_reconciled false
                                     (with_lifecycle MISSING_SIDECAR c))) ;;;
          mret true
        else mret false
    | None => mret false
    end).

Definition finalization_declared (clip : CatalogClip) (p : PairPaths) : bool :=
  bool_decide (c_lifecycle clip = FINALIZING)
  && bool_decide (is_Some (c_end_monotonic_ns clip))
  && bool_decide (path_parent (c_video_path clip) = u "pending")
  && negb (c_pair_reconciled clip)
  && c_managed clip
  && bool_decide (c_download_lease clip = None)
  && bool_decide (video_source p = c_video_path clip)
  && bool_decide (sidecar_source p = c_sidecar_path clip)
  && match video_target p, sidecar_target p with
     | Some v, Some s =>
         bool_decide (path_parent v = u "clips") && bool_decide (path_parent s = u "clips")
     | _, _ => false
     end.

Definition finalization_identities (p : PairPaths) : result (ParsedClipName * ParsedClipName) :=
  let source_video_name := path_name (video_source p) in
  let target_video_name := path_name (default [] (video_target p)) in
  let! _ := ClipFilePair_new source_video_name (path_name (sidecar_source p)) in
  let! _ := ClipFilePair_new target_video_name (path_name (default [] (sidecar_target p))) in
  let! source_identity := parse_clip_filename source_video_name in
  let! target_identity := parse_clip_filename target_video_name in
  Ok (source_identity, target_identity).

(** The durable WRITING row is the clip being finalized. *)
Definition same_writing_identity (r : ClipRow) (clip : CatalogClip) : bool :=
  bool_decide (r_lifecycle r = WRITING)
  && bool_decide (r_video_path r = c_video_path clip)
  && bool_decide (r_sidecar_path r = c_sidecar_path clip)
  && (r_start_ns r =? c_start_monotonic_ns clip)
  && (r_order r =? c_retention_order clip)
  && bool_decide (r_protected r = c_protected clip)
  && bool_decide (r_reason r = c_protection_reason clip)
  && r_managed r
  && negb (r_reconciled r).

Definition register_finalizing_clip (clip : CatalogClip) (promotion_paths : PairPaths) (now : Z)
    (expected_protection_revision : option Z) : M F UUID :=
  lift (validate_clip clip) ;;;
  lift (non_negative_integer now) ;;;
  guard (negb (finalization_declared clip promotion_paths)) CatalogConflictError
    "finalization registration requires one managed unreconciled pending FINALIZING clip and explicit clips targets" ;;;
  identities <- lift (or_conflict (finalization_identities promotion_paths)
                        "finalization paths are not a safe clip pair") ;;
  let '(source_identity, target_identity) := identities in
  guard (negb (partial source_identity) || partial target_identity
         || negb (bool_decide (boot_id source_identity = boot_id target_identity))
         || negb (sequence source_identity =? sequence target_identity))
    CatalogConflictError
    "finalization targets must remove the partial suffix without changing clip identity" ;;;
  lift (match expected_protection_revision with
        | Some e => let! _ := non_negative_integer e in Ok tt
        | None => Ok tt
        end) ;;;
  transaction (
    existing <- query (fun d => clips d !! c_clip_id clip) ;;
    match existing, expected_protection_revision with
    | None, Some _ => mfail CatalogConflictError "active finalization lost its WRITING row"
    | None, None => insert_clip_locked clip now
    | Some _, None =>
        mfail CatalogConflictError "finalizing clip identity is already registered"
    | Some r, Some expected =>
        guard (negb (r_revision r =? expected)) ActiveClipProtectionChanged
          "active clip protection changed while its sidecar was staged" ;;;
        guard (negb (same_writing_identity r clip)) CatalogConflictError
          "active FINALIZE transition differs from its durable WRITING identity" ;;;
        update_clip (c_clip_id clip)
          (fun c => with_updated now (with_lifecycle FINALIZING
             (match c_end_monotonic_ns clip with
              | Some e => with_end_size e (c_size_bytes clip) c
              | None => c
              end))) ;;;
        mret tt
    end ;;;
    intent <- insert_intent_locked (c_clip_id clip) FINALIZE promotion_paths now None ;;
    mret (intent_id intent)).

Definition get_clip (id : UUID) : M F CatalogClip :=
  row <- required_clip_row id ;;
  lift (clip_from_row (id, row)).

Definition after_order_check (after_order : Z) : result unit :=
  raise_if after_order <? -1 as ValueError msg "after_order must be an integer of at least -1" ;;
  Ok tt.

Definition list_clips (limit after_order : Z) : M F (list CatalogClip) :=
  lift (row_limit limit) ;;;
  lift (after_order_check after_order) ;;;
  rows <- query (fun d => limited limit
                   (select_clips (fun row => after_order <? r_order (snd row)) d)) ;;
  lift (result_map clip_from_row rows).

(** [boot_id.hex[:12]]. *)
Definition short_boot_id (boot : UUID) : str := take 12 (hex_fixed 32 (Z.of_N (uuid_int boot))).

(** [GLOB '<directory>/boot-<short>-[0-9]...[0-9].mp4']. *)
Definition glob_provisional (directory : string) (short : str) (path : str) : bool :=
  match eat (u directory ++ u "/boot-" ++ short ++ u "-") path with
  | None => false
  | Some rest =>
      match eat_n is_digit 6 rest with
      | Some (_, tail) => bool_decide (tail = u ".mp4")
      | None => false
      end
  end.

(** The WHERE clause of the candidate page. *)
Definition metadata_candidate (short : str) (after_order : Z) (cursor : UUID) (d : DB)
    (row : UUID * ClipRow) : bool :=
  let '(id, r) := row in
  let pending_kind := option_map (fun p => kind (i_intent (snd p))) (pending_of d id) in
  bool_decide (r_lifecycle r = FINALIZED)
  && r_managed r
  && bool_decide (r_lease r = None)
  && bool_decide (r_sidecar_path r = take (length (r_video_path r) - 4) (r_video_path r) ++ u ".json")
  && (glob_provisional "clips" short (r_video_path r)
      || glob_provisional "protected" short (r_video_path r))
  && (r_reconciled r || bool_decide (pending_kind = Some RECONCILE_NAME))
  && match pending_kind with Some k => bool_decide (k = RECONCILE_NAME) | None => true end
  && negb (order_key_leb (r_order r, id) (after_order, cursor)).

Definition list_metadata_reconciliation_candidates (expected_boot_id : UUID) (limit after_order : Z)
    (after_clip_id : option UUID) : M F (list CatalogClip) :=
  lift (row_limit limit) ;;;
  lift (after_order_check after_order) ;;;
  let cursor := default (mkUUID 0) after_clip_id in
  rows <- query (fun d => limited limit
                   (select_clips (metadata_candidate (short_boot_id expected_boot_id)
                                    after_order cursor d) d)) ;;
  lift (result_map clip_from_row rows).

(** The part of [MetadataReconciliationPlan] the catalog reads. *)
Record MetadataReconciliationPlan := mkMetadataPlan {
  mp_sidecar : ClipSidecar;
  mp_intent : option OperationIntent
}.

Definition name_plan_consistent (intent : OperationIntent) (target source : ClipSidecar) (now : Z)
    : bool :=
  let p := paths intent in
  bool_decide (kind intent = RECONCILE_NAME)
  && (created_monotonic_ns intent =? now)
  && bool_decide (sc_clip_id source = sc_clip_id target)
  && bool_decide (sc_clip_id source = clip_id intent)
  && bool_decide (sc_video_file source = path_name (video_source p))
  && bool_decide (sc_metadata_file source = path_name (sidecar_source p))
  && bool_decide (sc_video_file target = path_name (default [] (video_target p)))
  && bool_decide (sc_metadata_file target = path_name (default [] (sidecar_target p)))
  && (sc_start_monotonic_ns source =? sc_start_monotonic_ns target)
  && (sc_end_monotonic_ns source =? sc_end_monotonic_ns target).

Definition preserves_name_identity (source target : ParsedClipName) : bool :=
  negb (partial source) && provisional source && negb (provisional target) && negb (partial target)
  && bool_decide (boot_id source = boot_id target) && (sequence source =? sequence target).

Definition one_final_directory (p : PairPaths) : bool :=
  let directory := path_parent (video_source p) in
  bool_decide (directory = path_parent (sidecar_source p))
  && bool_decide (directory = path_parent (default [] (video_target p)))
  && bool_decide (directory = path_parent (default [] (sidecar_target p)))
  && bool_decide (directory ∈ [u "clips"; u "protected"]).

Definition register_name_reconciliation (plan : MetadataReconciliationPlan)
    (source_sidecar : ClipSidecar) (now : Z) : M F UUID :=
  match mp_intent plan with
  | None => mfail TypeError "plan must contain a name-reconciliation intent"
  | Some intent =>
      lift (non_negative_integer now) ;;;
      guard (negb (name_plan_consistent intent (mp_sidecar plan) source_sidecar now))
        CatalogConflictError "name-reconciliation plan has inconsistent identity" ;;;
      let source_payload := to_canonical_json source_sidecar in
      let target_payload := to_canonical_json (mp_sidecar plan) in
      guard ((MAX_SIDECAR_BYTES <? blen source_payload) || (MAX_SIDECAR_BYTES <? blen target_payload))
        CatalogConflictError "name-reconciliation sidecar exceeds its byte bound" ;;;
      names <- lift (or_conflict
                       (let! s := parse_clip_filename (sc_video_file source_sidecar) in
                        let! t := parse_clip_filename (sc_video_file (mp_sidecar plan)) in
                        Ok (s, t))
                       "name-reconciliation filenames are invalid") ;;
      guard (negb (preserves_name_identity (fst names) (snd names))) CatalogConflictError
        "name reconciliation must preserve clip identity" ;;;
      transaction (
        let id := clip_id intent in
        let p := paths intent in
        row <- required_clip_row id ;;
        pending <- pending_intent_row id ;;
        guard (negb (bool_decide (r_lifecycle row = FINALIZED))
               || negb (r_reconciled row)
               || negb (r_managed row)
               || bool_decide (is_Some (r_lease row))
               || negb (bool_decide (r_video_path row = video_source p))
               || negb (bool_decide (r_sidecar_path row = sidecar_source p))
               || bool_decide (is_Some pending))
          CatalogConflictError
          "clip is not an idle reconciled finalized pair at the declared source" ;;;
        guard (negb (one_final_directory p)) CatalogConflictError
          "name reconciliation must remain in one final directory" ;;;
        insert_existing_intent_locked intent (Some target_payload)
          (Some (sha256_hexdigest source_payload)) ;;;
        update_clip id (fun c => with_updated now (with_reconciled false c)) ;;;
        mret (intent_id intent))
  end.

(** ** Download leases *)

Definition active_lease_count (now : Z) (boot : str) (d : DB) : Z :=
  Z.of_nat (length (List.filter (fun row => row_has_active_lease (snd row) now boot)
                      (map_to_list (clips d)))).

Definition acquire_download_lease (id : UUID) (h : str) (now duration : Z) (boot : str)
    (max_active_leases : Z) : M F DownloadLease :=
  lift (check_boot_id boot) ;;;
  lift (row_limit max_active_leases) ;;;
  lease <- lift (issue h now duration) ;;
  transaction (
    row <- required_clip_row id ;;
    guard (negb (bool_decide (r_lifecycle row = FINALIZED))) DownloadLeaseError
      "only finalized clips can be downloaded" ;;;
    guard (negb (r_reconciled row)) DownloadLeaseError "clip pair is not reconciled" ;;;
    pending <- pending_intent_row id ;;
    guard (bool_decide (is_Some pending)) DownloadLeaseError "clip mutation is in progress" ;;;
    guard (row_has_active_lease row now boot) DownloadLeaseError
      "clip already has an active download lease" ;;;
    active_count <- query (active_lease_count now boot) ;;
    guard (max_active_leases <=? active_count) DownloadLeaseCapacityReached
      "global download lease limit reached" ;;;
    update_clip id (fun c => with_updated now (with_lease
      (Some (mkLeaseRow (holder lease) (issued_at_monotonic_ns lease)
               (expires_at_monotonic_ns lease) boot)) c))) ;;;
  mret lease.

Definition release_download_lease (id : UUID) (h : str) (now : Z) : M F bool :=
  lift (non_negative_integer now) ;;;
  transaction (
    row <- required_clip_row id ;;
    match r_lease row with
    | None => mret false
    | Some l =>
        guard (negb (bool_decide (l_holder l = h))) DownloadLeaseError
          "lease is owned by a different holder" ;;;
        clear_lease_locked id ;;;
        row' <- required_clip_row id ;;
        queue_directory_invariant_repair_locked id row' now ;;;
        mret true
    end).

Definition lease_expired (now : Z) (boot : str) (row : UUID * ClipRow) : bool :=
  match r_lease (snd row) with
  | Some l => negb (bool_decide (l_boot_id l = boot)) || (l_expires_ns l <=? now)
  | None => false
  end.

Definition lease_leb (a b : UUID * ClipRow) : bool :=
  let key row := (match r_lease (snd row) with Some l => l_expires_ns l | None => 0 end, fst row) in
  order_key_leb (key a) (key b).

Definition select_expired (now : Z) (boot : str) (d : DB) : list (UUID * ClipRow) :=
  sort_by lease_leb (List.filter (lease_expired now boot) (map_to_list (clips d))).

Definition clear_one_expired (now : Z) (row : UUID * ClipRow) : M F unit :=
  let id := fst row in
  clear_lease_locked id ;;;
  row' <- required_clip_row id ;;
  queue_directory_invariant_repair_locked id row' now ;;;
  mret tt.

Definition clear_expired_download_leases (now : Z) (boot : str) (limit : Z) : M F (Z * bool) :=
  lift (non_negative_integer now) ;;;
  lift (check_boot_id boot) ;;;
  lift (row_limit limit) ;;;
  transaction (
    rows <- query (fun d => limited (limit + 1) (select_expired now boot d)) ;;
    let selected := limited limit rows in
    mfor (clear_one_expired now) selected ;;;
    mret (Z.of_nat (length selected), limit <? Z.of_nat (length rows))).

(** ** Retention *)

Definition retention_candidate (now : Z) (boot : str) (d : DB) (row : UUID * ClipRow)
    : result RetentionCandidate :=
  let '(id, r) := row in
  RetentionCandidate_new
    (mkCandidate id (r_order r) (r_size r) (r_managed r) (bool_decide (r_lifecycle r = FINALIZED))
       (r_reconciled r) (r_protected r) (bool_decide (is_Some (pending_of d id)))
       (if row_has_active_lease r now boot then option_map l_expires_ns (r_lease r) else None)).

Definition not_deleted (row : UUID * ClipRow) : bool :=
  negb (bool_decide (r_lifecycle (snd row) = DELETED)).

Definition retention_candidates (now : Z) (boot : str) (limit : Z) : M F (list RetentionCandidate) :=
  lift (non_negative_integer now) ;;;
  lift (check_boot_id boot) ;;;
  lift (row_limit limit) ;;;
  values <- query (fun d => result_map (retention_candidate now boot d)
                              (limited limit (select_clips not_deleted d))) ;;
  lift values.

Definition plan_retention (requested now : Z) (boot : str) (candidate_limit : Z) : M F RetentionPlan :=
  candidates <- retention_candidates now boot candidate_limit ;;
  lift (select_oldest_eligible candidates requested now).

Definition prepare_protect (id : UUID) (reason : str) (now : Z) : M F (option UUID) :=
  lift (check_reason reason) ;;;
  lift (non_negative_integer now) ;;;
  transaction (prepare_protect_locked id reason now false).

Definition prepare_unprotect (id : UUID) (now : Z) : M F (option UUID) :=
  lift (non_negative_integer now) ;;;
  transaction (
    row <- required_clip_row id ;;
    guard (row_has_unexpired_lease row now) DownloadLeaseError
      "download lease freezes the clip pair path" ;;;
    if negb (r_protected row) then mret None
    else
      pending <- pending_intent_row id ;;
      match pending with
      | Some (pending_id, p) =>
          if decide (kind (i_intent p) = UNPROTECT) then mret (Some pending_id)
          else mfail CatalogConflictError "clip mutation is already in progress"
      | None =>
          guard (negb (bool_decide (r_lifecycle row = FINALIZED))) CatalogConflictError
            "only finalized clips can be manually unprotected" ;;;
          if bool_decide (path_parent (r_video_path row) = u "clips") then
            update_clip id (fun c => with_updated now (with_protection false None c)) ;;;
            mret None
          else
            queued <- queue_move_locked id UNPROTECT row (u "clips") now (Some (r_revision row)) ;;
            mret (Some queued)
      end).

Definition prepare_delete (id : UUID) (now : Z) (boot : str) : M F UUID :=
  lift (non_negative_integer now) ;;;
  lift (check_boot_id boot) ;;;
  transaction (
    row <- required_clip_row id ;;
    prepare_delete_row_locked id row now boot).

(** The WHERE clause of the oldest-eligible query. *)
Definition deletable (now : Z) (boot : str) (d : DB) (row : UUID * ClipRow) : bool :=
  let '(id, r) := row in
  bool_decide (r_lifecycle r = FINALIZED)
  && r_managed r && r_reconciled r && negb (r_protected r)
  && negb (bool_decide (is_Some (pending_of d id)))
  && negb (row_has_active_lease r now boot).

Definition prepare_oldest_eligible_delete (now : Z) (boot : str) : M F (option UUID) :=
  lift (non_negative_integer now) ;;;
  lift (check_boot_id boot) ;;;
  transaction (
    row <- query (fun d => head (select_clips (deletable now boot d) d)) ;;
    match row with
    | None => mret None
    | Some (id, r) => queued <- prepare_delete_row_locked id r now boot ;; mret (Some queued)
    end).

(** ** Events *)

Definition role_rank (r : EventTargetRole) : Z :=
  match r with PREVIOUS => 0 | CURRENT => 1 | NEXT => 2 end.

Definition target_key_leb (a b : UUID * TargetRow) : bool :=
  let ra := role_rank (t_role (snd a)) in
  let rb := role_rank (t_role (snd b)) in
  (ra <? rb)
  || ((ra =? rb) && order_key_leb (t_ordinal (snd a), fst a) (t_ordinal (snd b), fst b)).

(** [SELECT * FROM protection_event_targets WHERE event_id = ? ORDER BY CASE role ..., ordinal,
    clip_id], as (clip_id, row) pairs. *)
Definition select_targets (event : UUID) (d : DB) : list (UUID * TargetRow) :=
  sort_by target_key_leb
    (map (fun e => (snd (fst e), snd e))
       (List.filter (fun e => bool_decide (fst (fst e) = event)) (map_to_list (targets d)))).

(** The pending PROTECT intents of the targets of an event that was already recorded. *)
Definition queued_protects (ids : list UUID) (d : DB) : list UUID :=
  omap (fun id => match pending_of d id with
                  | Some (pending_id, p) =>
                      if decide (kind (i_intent p) = PROTECT) then Some pending_id else None
                  | None => None
                  end) ids.

Definition event_reason (event : UUID) (source : EventSource) : str :=
  u "event:" ++ uuid_str event ++ u ":" ++ u (EventSource_value source).

Definition previous_rows (row : ClipRow) (count : Z) (d : DB) : list (UUID * ClipRow) :=
  limited count (rev (select_clips (fun c => (r_order (snd c) <? r_order row)
                                             && bool_decide (r_lifecycle (snd c) = FINALIZED)) d)).

Definition event_targets (previous : list (UUID * ClipRow)) (current : UUID)
    : list (UUID * EventTargetRole * Z) :=
  imap (fun k row => (fst row, PREVIOUS, Z.of_nat k + 1)) (rev previous) ++ [(current, CURRENT, 0)].

(** One target: protect it and record it; the loop carries the protected and queued ids. *)
Definition protect_target (event : UUID) (reason : str) (now : Z)
    (acc : list UUID * list UUID) (target : UUID * EventTargetRole * Z)
    : M F (list UUID * list UUID) :=
  let '(id, role, ordinal) := target in
  let '(protected_ids, intent_ids) := acc in
  queued <- protect_for_event_locked id reason now ;;
  insert_target_row event id (mkTargetRow role ordinal) false ;;;
  mret (protected_ids ++ [id], intent_ids ++ match queued with Some q => [q] | None => [] end).

(** An event identifier that is already recorded: the same request is answered from the catalog. *)
Definition replay_event (event : UUID) (source : EventSource) (previous_count next_count : Z)
    (e : EventRow) : M F EventProtectionResult :=
  guard (negb (bool_decide (e_source e = source))
         || negb (e_requested_previous e =? previous_count)
         || negb (e_requested_next e =? next_count))
    CatalogConflictError "event ID was already used for another request" ;;;
  target_ids <- query (fun d => map fst (select_targets event d)) ;;
  queued <- query (queued_protects target_ids) ;;
  mret (mkEventResult event target_ids (e_missing_previous e) (e_remaining_next e) queued).

Definition record_event (event current_clip_id : UUID) (source : EventSource)
    (now previous_count next_count : Z) (require_current_writing : bool)
    : M F EventProtectionResult :=
  current <- required_clip_row current_clip_id ;;
  guard (require_current_writing && negb (bool_decide (r_lifecycle current = WRITING)))
    CatalogConflictError "new recorder event requires the active WRITING clip" ;;;
  guard (bool_decide (r_lifecycle current ∈ [DELETING; DELETED])) CatalogConflictError
    "current event clip no longer exists" ;;;
  windows <- query (fun d => Z.of_nat (length (List.filter (fun e => 0 <? e_remaining_next (snd e))
                                                 (map_to_list (events d))))) ;;
  guard (negb (next_count =? 0) && (MAX_PENDING_EVENT_WINDOWS <=? windows)) CatalogConflictError
    "pending event-window bound reached" ;;;
  previous <- query (previous_rows current previous_count) ;;
  let missing := previous_count - Z.of_nat (length previous) in
  insert_event_row event
    (mkEventRow source now current_clip_id previous_count next_count missing next_count) ;;;
  ids <- mfold (protect_target event (event_reason event source) now) ([], [])
           (event_targets previous current_clip_id) ;;
  mret (mkEventResult event (fst ids) missing next_count (snd ids)).

Definition trigger_event (current_clip_id : option UUID) (source : EventSource)
    (now previous_count next_count : Z) (event_id : option UUID) (require_current_writing : bool)
    : M F EventProtectionResult :=
  lift (non_negative_integer now) ;;;
  lift (bounded_count previous_count) ;;;
  lift (bounded_count next_count) ;;;
  event <- match event_id with Some e => mret e | None => new_uuid4 end ;;
  transaction (
    existing_event <- query (fun d => events d !! event) ;;
    match existing_event with
    | Some e => replay_event event source previous_count next_count e
    | None =>
        match current_clip_id with
        | None => mfail CatalogConflictError "new event requires a current clip"
        | Some current =>
            record_event event current source now previous_count next_count require_current_writing
        end
    end).

Definition consume_window (id : UUID) (e : UUID * EventRow) : M F unit :=
  let '(event, er) := e in
  insert_target_row event id (next_target er) true ;;;
  decrement_remaining event false.

Definition finalize_clip (id : UUID) (end_ns size now : Z) : M F (list UUID) :=
  lift (non_negative_integer end_ns) ;;;
  lift (non_negative_integer size) ;;;
  lift (non_negative_integer now) ;;;
  transaction (
    row <- required_clip_row id ;;
    guard (negb (bool_decide (r_lifecycle row ∈ [CREATING; WRITING; FINALIZING; FINALIZED])))
      CatalogConflictError "clip cannot be finalized from its current state" ;;;
    guard (end_ns <=? r_start_ns row) ValueError "end_monotonic_ns must be after clip start" ;;;
    update_clip id (fun c => with_updated now (with_end_size end_ns size
                               (with_lifecycle FINALIZED c))) ;;;
    pending_events <- query (select_pending_windows id row) ;;
    mfor (consume_window id) pending_events ;;;
    refreshed <- required_clip_row id ;;
    if negb (r_protected refreshed) && bool_decide (pending_events = []) then mret []
    else
      reason <- match r_reason refreshed, pending_events with
                | Some (_ :: _ as r), _ => mret r
                | _, (event, _) :: _ => mret (window_reason event)
                | _, [] => mfail OtherException "list index out of range"
                end ;;
      queued <- (if bool_decide (pending_events = [])
                 then prepare_protect_locked id reason now true
                 else protect_for_event_locked id reason now) ;;
      mret (match queued with Some q => [q] | None => [] end)).

(** ** Pending intents *)

Definition list_pending_intents (limit : Z) : M F (list OperationIntent) :=
  lift (row_limit limit) ;;;
  rows <- query (fun d => limited limit (select_pending (fun _ => true) d)) ;;
  lift (result_map intent_from_row (map snd rows)).

Definition list_pending_delete_intents (limit : Z) : M F (list OperationIntent) :=
  lift (row_limit limit) ;;;
  rows <- query (fun d => limited limit
                   (select_pending (fun r => bool_decide (kind (i_intent r) = DELETE)) d)) ;;
  lift (result_map intent_from_row (map snd rows)).

Definition check_kinds (kinds : list IntentKind) : result unit :=
  raise_if bool_decide (kinds = []) || (5 <? length kinds)%nat || negb (bool_decide (NoDup kinds))
    as ValueError msg "kinds must be a non-empty unique IntentKind tuple" ;; Ok tt.

Definition list_pending_intents_by_kind (kinds : list IntentKind) (limit : Z)
    : M F (list OperationIntent) :=
  lift (row_limit limit) ;;;
  lift (check_kinds kinds) ;;;
  rows <- query (fun d => limited limit
                   (select_pending (fun r => bool_decide (kind (i_intent r) ∈ kinds)) d)) ;;
  lift (result_map intent_from_row (map snd rows)).

Definition get_pending_intent (id : UUID) : M F (option OperationIntent) :=
  row <- query (fun d => intents d !! id) ;;
  match row with
  | Some r => if i_complete r then mret None
              else i <- lift (intent_from_row r) ;; mret (Some i)
  | None => mret None
  end.

Definition list_pending_intents_for_clip (id : UUID) (kinds : list IntentKind) (limit : Z)
    : M F (list OperationIntent) :=
  lift (row_limit limit) ;;;
  lift (check_kinds kinds) ;;;
  rows <- query (fun d => limited limit
                   (select_pending (fun r => bool_decide (clip_id (i_intent r) = id)
                                             && bool_decide (kind (i_intent r) ∈ kinds)) d)) ;;
  lift (result_map intent_from_row (map snd rows)).

End catalog.
