(* ===== verification/CatalogDemo.v ===== *)
(** * A small recording

    A concrete environment, filesystem and catalog on which the catalog's theorems are
    instantiated: one finalized clip and its successor, with their sidecars. *)

From Stdlib Require Import Ascii String ZArith Lia Strings.Byte.
From stdpp Require Import base list gmap strings.
From S2P Require Import Prelude PyStr Uuid State Naming Intents Models Filesystem CatalogDb Catalog.

Record DemoSidecar := mkDemoSidecar { ds_video : str; ds_metadata : str }.

Definition demo_boot : str := u "boot-a".
Definition demo_id : UUID := mkUUID 1.
Definition next_id : UUID := mkUUID 2.

Definition demo_stem : str := u "boot-0123456789ab-000001".
Definition named_stem : str := u "20240102T030405.000Z_0123456789ab_s000001".
Definition in_dir (dir : string) (stem : str) (ext : string) : str := u dir ++ u "/" ++ stem ++ u ext.

Definition demo_sidecar : DemoSidecar := mkDemoSidecar (demo_stem ++ u ".mp4") (demo_stem ++ u ".json").

(** The demo codec knows one sidecar, stored as the byte A. *)
Definition demo_env : Environment := {|
  uuid4 n := mkUUID (N.of_nat n + 1000);
  ClipSidecar := DemoSidecar;
  sc_clip_id _ := demo_id;
  sc_video_file := ds_video;
  sc_metadata_file := ds_metadata;
  sc_start_monotonic_ns _ := 0;
  sc_end_monotonic_ns _ := 60;
  sc_protected _ := false;
  sc_protection_reason _ := None;
  parse_sidecar_bytes d :=
    if bool_decide (d = [x41]) then Ok demo_sidecar else Err (Exn SidecarParseError "not JSON");
  to_canonical_json _ := [x41];
  sha256_hexdigest _ := repeat "a"%char 64
|}.

Definition finalized_clip (id : UUID) (stem : str) (order : Z) : CatalogClip :=
  mkCatalogClip id FINALIZED (in_dir "clips" stem ".mp4") (in_dir "clips" stem ".json")
    0 (Some 60) order 1000 false None true true None None.

Definition writing_clip (id : UUID) (stem : str) (order : Z) : CatalogClip :=
  mkCatalogClip id WRITING (in_dir "pending" (stem ++ u ".partial") ".mp4")
    (in_dir "pending" (stem ++ u ".partial") ".json") 0 None order 0 false None false true None None.

Definition next_stem : str := u "boot-0123456789ab-000002".

Definition demo_fs : RootedFilesystem :=
  mkRooted (list_to_map
    [ (in_dir "clips" demo_stem ".mp4", [x00; x01]); (in_dir "clips" demo_stem ".json", [x41]);
      (in_dir "clips" next_stem ".mp4", [x02]); (in_dir "clips" next_stem ".json", [x42]);
      (in_dir "pending" (next_stem ++ u ".partial") ".mp4", [x03]);
      (in_dir "pending" (next_stem ++ u ".partial") ".json", [x43]) ]) true.

Abbreviation DemoWorld := (World RootedFilesystem).

Definition demo_start : DemoWorld := mkWorld empty_db demo_fs 0.
