(* ===== verification/ManagedPath.v ===== *)
(** * Paths of the managed namespace

    A clip member lives directly inside one of the four managed directories: lemmas on the
    shape of such paths and of the targets the catalog computes for a move. *)

From Stdlib Require Import Ascii String ZArith Lia Strings.Byte.
From stdpp Require Import base list gmap strings.
From S2P Require Import Prelude PyStr Naming Intents Models Filesystem CatalogDb Catalog.

Definition managed (p : str) : Prop := path_parent p ∈ MANAGED_DIRECTORIES.

Lemma managed_cases dir :
  dir ∈ MANAGED_DIRECTORIES ->
  path_root dir = [] /\ path_parts dir = [dir] /\ slash ∉ dir /\ dir <> [] /\ dir <> u ".".
Proof.
  unfold MANAGED_DIRECTORIES. simpl. rewrite !elem_of_cons, elem_of_nil.
  intros [->|[->|[->|[->|[]]]]]; (split_and!; [done|done| |done|done]);
    apply (bool_decide_eq_true_1 _); vm_compute; reflexivity.
Qed.

Lemma join_no_sep_single l d :
  join_with slash l = d -> slash ∉ d -> Forall (fun q => slash ∉ q) l -> l <> [] -> l = [d].
Proof.
  intros Hj Hd Hl Hne. destruct l as [|a [|b l]]; [done|simpl in Hj; by subst|].
  destruct Hd. rewrite <-Hj. simpl. apply elem_of_app. right. by left.
Qed.

(** A valid path directly inside a managed directory is that directory and its name. *)
Lemma managed_shape p :
  path_ok p -> managed p ->
  path_parts p = [path_parent p; path_name p] /\ p = path_parent p ++ slash :: path_name p.
Proof.
  intros Hp Hm. destruct (path_parts_ok p Hp) as [Hparts Hroot].
  destruct (managed_cases _ Hm) as (_ & _ & Hns & Hne & Hnd).
  assert (Hr : removelast (split_on slash p) = [path_parent p]).
  { apply join_no_sep_single; [|done|..].
    - unfold path_parent. rewrite Hroot, Hparts. unfold as_posix.
      destruct (removelast (split_on slash p)) eqn:E; [|done].
      destruct Hnd. unfold path_parent. by rewrite Hroot, Hparts, E.
    - pose proof (split_on_no_sep slash p) as Hall. pose proof (split_on_not_nil slash p) as Hnn.
      rewrite (app_removelast_last [] Hnn) in Hall. by apply Forall_app in Hall as [? _].
    - intros E. destruct Hnd. unfold path_parent. by rewrite Hroot, Hparts, E. }
  pose proof (app_removelast_last [] (split_on_not_nil slash p)) as Hs. rewrite Hr in Hs.
  assert (Hl : (2 <= length (split_on slash p))%nat) by (rewrite Hs; done).
  split; [|by apply path_parent_name]. rewrite Hparts, Hs. simpl.
  do 2 f_equal. unfold path_name. by rewrite Hparts.
Qed.

Lemma path_name_component p :
  path_ok p -> slash ∉ path_name p /\ path_name p <> [] /\ path_name p <> u ".".
Proof.
  intros Hp. destruct (path_parts_ok p Hp) as [Hparts _].
  apply validate_relative_path_ok in Hp as (_ & _ & _ & Hall).
  pose proof (split_on_no_sep slash p) as Hsep. pose proof (split_on_not_nil slash p) as Hnn.
  assert (Hin : path_name p ∈ split_on slash p).
  { unfold path_name. rewrite Hparts. pose proof (app_removelast_last [] Hnn) as E.
    rewrite E at 2. apply elem_of_app. right. by left. }
  rewrite Forall_forall in Hall, Hsep. destruct (Hall _ Hin) as (_ & ? & ? & _).
  split_and!; [by apply Hsep|done..].
Qed.

(** A component inside a managed directory. *)
Lemma managed_child dir name :
  dir ∈ MANAGED_DIRECTORIES -> slash ∉ name -> name <> [] -> name <> u "." ->
  path_parent (dir ++ slash :: name) = dir /\ path_name (dir ++ slash :: name) = name /\
  path_join dir name = dir ++ slash :: name.
Proof.
  intros (Hr & Hp & Hns & Hne & Hnd)%managed_cases Hs Hn Hd.
  assert (Hparts : path_parts name = [name]).
  { unfold path_parts. rewrite split_on_single by done. cbn [List.filter].
    by rewrite !bool_decide_eq_false_2. }
  assert (Hjp : path_parts (dir ++ slash :: name) = [dir; name]).
  { unfold path_parts. rewrite split_on_app_sep, split_on_single by done. cbn [List.filter].
    by rewrite !bool_decide_eq_false_2. }
  assert (Hjr : path_root (dir ++ slash :: name) = []).
  { destruct dir as [|c dir]; [done|]. unfold path_root.
    assert (char_eqb "/" c = false) as Hc.
    { apply char_eqb_neq. intros <-. apply Hns. by left. }
    change (u "//") with ("/"%char :: u "/"). change (u "///") with ("/"%char :: u "//").
    change (u "/") with ["/"%char]. cbn [startswith app]. by rewrite Hc. }
  split_and!; [|unfold path_name; by rewrite Hjp|unfold path_join; by rewrite Hr, Hp, Hparts].
  unfold path_parent. by rewrite Hjp, Hjr.
Qed.

(** The target of a move lands directly inside its directory, under the same name. *)
Lemma path_join_managed dir p :
  dir ∈ MANAGED_DIRECTORIES -> path_ok p ->
  path_parent (path_join dir (path_name p)) = dir /\
  path_name (path_join dir (path_name p)) = path_name p /\
  path_join dir (path_name p) = dir ++ slash :: path_name p.
Proof.
  intros Hd (Hs & Hn & Hne)%path_name_component.
  destruct (managed_child dir (path_name p)) as (H1 & H2 & H3); [done..|]. by rewrite H3.
Qed.
