(* ===== verification/CatalogInv.v ===== *)
(** * The catalog invariant

    Inversion lemmas for the statements of [CatalogDb], the invariant [db_ok] that every
    catalog operation preserves, and the preservation lemmas of the state changes the
    operations are made of. *)

From Stdlib Require Import Ascii String ZArith Lia Strings.Byte.
From stdpp Require Import base list gmap strings sorting.
From S2P Require Import Prelude PyStr Uuid State Naming Intents Models Filesystem CatalogDb Catalog.
From S2P Require Import ManagedPath.

(** ** Successful runs *)

Section inversion.
Context {F : Type}.
Implicit Types w : World F.

Lemma mbind_ok {A B} (m : M F A) (k : A -> M F B) w b w' :
  mbind m k w = (Ok b, w') <-> exists a w1, m w = (Ok a, w1) /\ k a w1 = (Ok b, w').
Proof.
  unfold mbind. destruct (m w) as [[a|e] w1]; split.
  - eauto.
  - by intros (? & ? & [= <- <-] & ?).
  - done.
  - by intros (? & ? & ? & ?).
Qed.

Lemma transaction_ok {A} (m : M F A) w a w' :
  transaction m w = (Ok a, w') <-> m w = (Ok a, w').
Proof. unfold transaction. destruct (m w) as [[?|?] ?]; naive_solver. Qed.

Lemma transaction_err {A} (m : M F A) w e w' :
  transaction m w = (Err e, w') -> w_db w' = w_db w.
Proof. unfold transaction. destruct (m w) as [[?|?] ?]; naive_solver. Qed.

Lemma guard_ok b c s w x w' : guard b c s w = (Ok x, w') <-> b = false /\ w' = w.
Proof. unfold guard. destruct b, x; cbv; naive_solver. Qed.

Lemma lift_ok {A} (r : result A) w a w' : lift r w = (Ok a, w') <-> r = Ok a /\ w' = w.
Proof. unfold lift. naive_solver. Qed.

Lemma query_ok {A} (q : DB -> A) w a w' : query q w = (Ok a, w') <-> a = q (w_db w) /\ w' = w.
Proof. unfold query. naive_solver. Qed.

Lemma mret_ok {A} (x : A) w a w' : mret x w = (Ok a, w') <-> a = x /\ w' = w.
Proof. unfold mret. naive_solver. Qed.

Lemma execute_ok f w x w' : execute f w = (Ok x, w') <-> w' = set_db (f (w_db w)) w.
Proof. unfold execute. destruct x. naive_solver. Qed.

Lemma update_clip_ok id f w n w' :
  update_clip id f w = (Ok n, w') <->
  (clips (w_db w) !! id = None /\ n = 0 /\ w' = w) \/
  (exists c, clips (w_db w) !! id = Some c /\ clip_checks (f c) = true /\ n = 1 /\
     w' = set_db (set_clips (fun m => <[id := f c]> m) (w_db w)) w).
Proof.
  unfold update_clip. rewrite mbind_ok. setoid_rewrite query_ok. split.
  - intros (row & w1 & (-> & ->) & Hk). destruct (clips (w_db w) !! id) as [c|].
    + right. exists c. apply mbind_ok in Hk as (? & ? & (Hg & ->)%guard_ok & Hk).
      apply mbind_ok in Hk as (? & ? & ->%execute_ok & (-> & ->)%mret_ok).
      by apply negb_false_iff in Hg.
    + left. by apply mret_ok in Hk as [-> ->].
  - intros [(-> & -> & ->)|(c & -> & Hc & -> & ->)]; do 2 eexists; (split; [done|]); [done|].
    rewrite mbind_ok. exists tt, w. rewrite guard_ok, Hc. split; [done|].
    rewrite mbind_ok. eexists tt, _. rewrite execute_ok. by split.
Qed.

Lemma new_uuid4_ok `{Environment} w i w' :
  new_uuid4 w = (Ok i, w') ->
  i = uuid4 (w_uuids w) /\ w' = mkWorld (w_db w) (w_fs w) (S (w_uuids w)).
Proof. unfold new_uuid4. naive_solver. Qed.

End inversion.

(** Run a monadic body that is known to have returned [Ok], one statement at a time. *)
Ltac inv_M_step :=
  match goal with
  | H : mbind _ _ _ = (Ok _, _) |- _ =>
      let a := fresh "v" in let w1 := fresh "w1" in let E := fresh "Hm" in
      apply mbind_ok in H as (a & w1 & E & H)
  | H : transaction _ _ = (Ok _, _) |- _ => apply (proj1 (transaction_ok _ _ _ _)) in H
  | H : guard _ _ _ _ = (Ok _, _) |- _ =>
      let E := fresh "Hg" in apply guard_ok in H as [E H]; try subst
  | H : lift _ _ = (Ok _, _) |- _ => let E := fresh "Hl" in apply lift_ok in H as [E H]; try subst
  | H : query _ _ = (Ok _, _) |- _ => apply query_ok in H as [? ?]; try subst
  | H : mret _ _ = (Ok _, _) |- _ => apply mret_ok in H as [? ?]; try subst
  | H : execute _ _ = (Ok _, _) |- _ => apply execute_ok in H; try subst
  | H : mfail _ _ _ = (Ok _, _) |- _ => discriminate H
  | H : mraise _ _ = (Ok _, _) |- _ => discriminate H
  | H : negb _ = false |- _ => apply negb_false_iff in H
  | H : (if ?b then _ else _) _ = (Ok _, _) |- _ => let E := fresh "Hif" in destruct b eqn:E
  | H : match ?o with Some _ => _ | None => _ end _ = (Ok _, _) |- _ =>
      let E := fresh "Ho" in destruct o eqn:E
  | H : (let (_, _) := ?p in _) _ = (Ok _, _) |- _ => destruct p
  | H : match ?l with [] => _ | _ :: _ => _ end _ = (Ok _, _) |- _ =>
      let E := fresh "Ho" in destruct l eqn:E
  end.
Ltac inv_M := repeat (inv_M_step; simpl in * ).

(** ** Pending intents *)

Lemma pending_of_Some d id i r :
  pending_of d id = Some (i, r) ->
  intents d !! i = Some r /\ i_complete r = false /\ clip_id (i_intent r) = id.
Proof.
  unfold pending_of. intros Hh.
  assert (In (i, r) (List.filter (is_pending_of id) (map_to_list (intents d)))) as Hin.
  { destruct (List.filter _ _); simplify_eq/=. by left. }
  apply filter_In in Hin as [Hin Hp]. apply list_elem_of_In, elem_of_map_to_list in Hin.
  unfold is_pending_of in Hp. simpl in Hp. bool_prop. done.
Qed.

Lemma pending_of_None d id :
  pending_of d id = None <->
  forall i r, intents d !! i = Some r -> i_complete r = false -> clip_id (i_intent r) <> id.
Proof.
  unfold pending_of. split.
  - intros Hh i r Hi Hc Hid. destruct (List.filter _ _) as [|x l] eqn:E; [|done].
    assert (In (i, r) (List.filter (is_pending_of id) (map_to_list (intents d)))) as Hin.
    { apply filter_In. split; [by apply list_elem_of_In, elem_of_map_to_list|].
      unfold is_pending_of. simpl. rewrite Hc, Hid. by rewrite bool_decide_true. }
    by rewrite E in Hin.
  - intros Hall. destruct (List.filter _ _) as [|[i r] l] eqn:E; [done|].
    assert (In (i, r) (List.filter (is_pending_of id) (map_to_list (intents d)))) as Hin
      by (rewrite E; by left).
    apply filter_In in Hin as [Hin Hp]. apply list_elem_of_In, elem_of_map_to_list in Hin.
    unfold is_pending_of in Hp. simpl in Hp. bool_prop. by destruct (Hall i r).
Qed.

(** ** The invariant *)

(** An intent the constructors accepted. *)
Definition constructed (i : OperationIntent) : Prop :=
  paths_ok (paths i) /\
  OperationIntent_new (intent_id i) (clip_id i) (kind i) (created_monotonic_ns i) (paths i)
    SCHEMA_VERSION = Ok i.

Definition targets_managed (p : PairPaths) : Prop :=
  forall t, video_target p = Some t \/ sidecar_target p = Some t -> managed t.

Definition stored_ok (i : OperationIntent) : Prop :=
  constructed i /\ targets_managed (paths i).

(** Two distinct valid paths directly inside managed directories. *)
Record placed (v s : str) : Prop := mkPlaced {
  placed_paths : PairPaths_new v s None None = Ok (mkPaths v s None None);
  placed_video : managed v;
  placed_sidecar : managed s
}.

Definition row_ok (c : ClipRow) : Prop :=
  clip_checks c = true /\
  (r_protected c = true <-> is_Some (r_reason c)) /\
  placed (r_video_path c) (r_sidecar_path c).

(** What a pending intent says about its clip: the pair is unreconciled and recorded at the
    intent's sources, and its lifecycle and protection fit the operation. *)
Definition pending_row_ok (r : IntentRow) (c : ClipRow) : Prop :=
  let i := i_intent r in
  r_reconciled c = false /\
  video_source (paths i) = r_video_path c /\ sidecar_source (paths i) = r_sidecar_path c /\
  match kind i with
  | DELETE =>
      r_lifecycle c = DELETING /\ r_protected c = false /\ r_lease c = None /\
      path_parent (r_video_path c) = u "clips" /\ path_parent (r_sidecar_path c) = u "clips"
  | PROTECT => r_lifecycle c = FINALIZED /\ r_protected c = true
  | UNPROTECT =>
      r_lifecycle c = FINALIZED /\
      exists e, i_expected_revision r = Some e /\ e <= r_revision c /\
        (e < r_revision c -> r_protected c = true)
  | RECONCILE_NAME => r_lifecycle c = FINALIZED
  | FINALIZE => r_lifecycle c = FINALIZING \/ r_lifecycle c = FINALIZED
  end.

(** The event tables: keys refer to rows, and the NEXT targets of an event carry exactly the
    ordinals 1 .. requested - remaining, once each. *)
Record events_ok (cs : gmap UUID ClipRow) (es : gmap UUID EventRow)
    (ts : gmap (UUID * UUID) TargetRow) : Prop := mkEventsOk {
  eo_rows : forall e r, es !! e = Some r ->
    event_checks r = true /\ e_remaining_next r <= e_requested_next r /\ is_Some (cs !! e_current r);
  eo_targets : forall e c t, ts !! (e, c) = Some t ->
    is_Some (cs !! c) /\
    exists r, es !! e = Some r /\
      (t_role t = NEXT -> 1 <= t_ordinal t <= e_requested_next r - e_remaining_next r);
  eo_ordinals : forall e r k, es !! e = Some r ->
    1 <= k <= e_requested_next r - e_remaining_next r ->
    exists c, ts !! (e, c) = Some (mkTargetRow NEXT k);
  eo_distinct : forall e c1 c2 k,
    ts !! (e, c1) = Some (mkTargetRow NEXT k) -> ts !! (e, c2) = Some (mkTargetRow NEXT k) -> c1 = c2
}.

Record db_ok (d : DB) : Prop := mkDbOk {
  ok_rows : forall id c, clips d !! id = Some c -> row_ok c;
  ok_orders : forall i j a b,
    clips d !! i = Some a -> clips d !! j = Some b -> r_order a = r_order b -> i = j;
  ok_intents : forall i r, intents d !! i = Some r ->
    intent_id (i_intent r) = i /\ stored_ok (i_intent r) /\
    exists c, clips d !! clip_id (i_intent r) = Some c /\
      (i_complete r = false -> pending_row_ok r c);
  ok_unique : forall i j r s,
    intents d !! i = Some r -> intents d !! j = Some s ->
    i_complete r = false -> i_complete s = false ->
    clip_id (i_intent r) = clip_id (i_intent s) -> i = j;
  ok_events : events_ok (clips d) (events d) (targets d)
}.

Lemma empty_db_ok : db_ok empty_db.
Proof. split; [..|split]; intros *; simpl; rewrite ?lookup_empty; done. Qed.

(** ** State changes that preserve it *)

Lemma events_ok_clips cs cs' es ts :
  events_ok cs es ts -> (forall i, is_Some (cs !! i) -> is_Some (cs' !! i)) -> events_ok cs' es ts.
Proof.
  intros [H1 H2 H3 H4] Hmono. split; [|..|exact H3|exact H4].
  - intros e r He. destruct (H1 e r He) as (? & ? & ?). eauto.
  - intros e c t Ht. destruct (H2 e c t Ht) as (? & ?). eauto.
Qed.

Lemma insert_is_Some {A} (m : gmap UUID A) i a j : is_Some (m !! j) -> is_Some (<[i := a]> m !! j).
Proof. intros. destruct (decide (i = j)) as [->|]; simplify_map_eq; eauto. Qed.

#[export] Hint Resolve insert_is_Some : dashcam.

(** A pending intent is the one [pending_of] finds. *)
Lemma pending_of_unique d i r :
  db_ok d -> intents d !! i = Some r -> i_complete r = false ->
  pending_of d (clip_id (i_intent r)) = Some (i, r).
Proof.
  intros Hok Hi Hc. destruct (pending_of d _) as [[j s]|] eqn:E.
  - apply pending_of_Some in E as (Hj & Hs & Heq).
    assert (j = i) as -> by eauto using ok_unique. by simplify_eq.
  - rewrite pending_of_None in E. by destruct (E i r).
Qed.

Lemma db_ok_update d id c c' :
  db_ok d -> clips d !! id = Some c -> row_ok c' -> r_order c' = r_order c ->
  (forall i r, pending_of d id = Some (i, r) -> pending_row_ok r c -> pending_row_ok r c') ->
  db_ok (set_clips (fun m => <[id := c']> m) d).
Proof.
  intros Hok Hc Hrow Hord Hpend. destruct (Hok) as [H1 H2 H3 H4 H5]. split; simpl.
  - intros j b. destruct (decide (j = id)) as [->|]; intros; simplify_map_eq; eauto.
  - intros i j a b Hi Hj Heq.
    destruct (decide (i = id)) as [->|], (decide (j = id)) as [->|]; simplify_map_eq; [done|..];
      rewrite ?Hord in *; eauto.
  - intros i r Hi. destruct (H3 i r Hi) as (? & ? & b & Hb & Hp). split_and!; [done..|].
    destruct (decide (id = clip_id (i_intent r))) as [->|]; simplify_map_eq; [|eauto].
    eexists. split; [done|]. intros Hinc. eapply Hpend; [|by auto].
    by apply pending_of_unique.
  - exact H4.
  - eapply events_ok_clips; [exact H5|]. eauto with dashcam.
Qed.

Lemma db_ok_insert_clip d id c :
  db_ok d -> clips d !! id = None -> row_ok c -> r_order c ∉ orders d ->
  db_ok (set_clips (fun m => <[id := c]> m) d).
Proof.
  intros [H1 H2 H3 H4 H5] Hnone Hrow Hord.
  assert (Hfresh : forall j b, clips d !! j = Some b -> r_order b <> r_order c).
  { intros j b Hb Heq. apply Hord. unfold orders. rewrite <-Heq.
    apply list_elem_of_fmap. exists (j, b). split; [done|]. by apply elem_of_map_to_list. }
  split; simpl.
  - intros j b. destruct (decide (j = id)) as [->|]; intros; simplify_map_eq; eauto.
  - intros i j a b Hi Hj Heq.
    destruct (decide (i = id)) as [->|], (decide (j = id)) as [->|]; simplify_map_eq; [done|..].
    + by edestruct Hfresh.
    + by edestruct Hfresh.
    + eauto.
  - intros i r Hi. destruct (H3 i r Hi) as (? & ? & b & Hb & Hp). split_and!; [done..|].
    destruct (decide (id = clip_id (i_intent r))) as [->|]; [congruence|].
    simplify_map_eq. eauto.
  - exact H4.
  - eapply events_ok_clips; [exact H5|]. eauto with dashcam.
Qed.

(** Queue an intent for an idle clip and update the clip's row with it. *)
Lemma db_ok_queue d id c c' i r :
  db_ok d -> pending_of d id = None -> clips d !! id = Some c ->
  row_ok c' -> r_order c' = r_order c ->
  intents d !! i = None -> intent_id (i_intent r) = i -> clip_id (i_intent r) = id ->
  stored_ok (i_intent r) -> pending_row_ok r c' ->
  db_ok (set_clips (fun m => <[id := c']> m) (set_intents (fun m => <[i := r]> m) d)).
Proof.
  intros Hok Hnp Hc Hrow Hord Hi Hid Hclip Hst Hp.
  assert (Hok' : db_ok (set_clips (fun m => <[id := c']> m) d))
    by (eapply db_ok_update; eauto; congruence).
  destruct Hok' as [H1 H2 H3 H4 H5]. split; simpl in *; [exact H1|exact H2|..|exact H5].
  - intros j s Hj. destruct (decide (i = j)) as [->|]; simplify_map_eq; [|eauto].
    split_and!; [done..|]. exists c'. by simplify_map_eq.
  - rewrite pending_of_None in Hnp. intros j k s t Hj Hk Hs Ht Heq.
    destruct (decide (j = i)) as [->|], (decide (k = i)) as [->|]; simplify_map_eq; [done|..|eauto].
    + by destruct (Hnp k t).
    + by destruct (Hnp j s).
Qed.

(** Complete the pending intent of a clip. *)
Lemma db_ok_complete d i r c c' now :
  db_ok d -> intents d !! i = Some r -> i_complete r = false ->
  clips d !! clip_id (i_intent r) = Some c -> row_ok c' -> r_order c' = r_order c ->
  db_ok (set_intents (fun m => alter (with_complete now) i m)
           (set_clips (fun m => <[clip_id (i_intent r) := c']> m) d)) /\
  pending_of (set_intents (fun m => alter (with_complete now) i m)
                (set_clips (fun m => <[clip_id (i_intent r) := c']> m) d)) (clip_id (i_intent r)) = None.
Proof.
  intros Hok Hi Hinc Hc Hrow Hord. set (id := clip_id (i_intent r)) in *.
  destruct (Hok) as [H1 H2 H3 H4 H5].
  assert (Hlook : forall j s, alter (with_complete now) i (intents d) !! j = Some s ->
    exists s0, intents d !! j = Some s0 /\ i_intent s = i_intent s0 /\
      (i_complete s = false -> s = s0 /\ i_complete s0 = false /\ i <> j)).
  { intros j s. rewrite lookup_alter. destruct (decide (i = j)) as [->|].
    - rewrite Hi. simpl. intros [= <-]. by exists r.
    - intros Hs. by exists s. }
  split; [split|]; simpl.
  - intros j b. destruct (decide (j = id)) as [->|]; intros; simplify_map_eq; eauto.
  - intros j k a b Hj Hk Heq.
    destruct (decide (j = id)) as [->|], (decide (k = id)) as [->|]; simplify_map_eq; [done|..];
      rewrite ?Hord in *; eauto.
  - intros j s (s0 & Hj & Heq & Hs)%Hlook. destruct (H3 j s0 Hj) as (? & ? & b & Hb & Hp).
    rewrite Heq. split_and!; [done..|].
    destruct (decide (id = clip_id (i_intent s0))) as [Hid|].
    + rewrite <-Hid, lookup_insert_eq. eexists. split; [done|]. intros (-> & Hs0 & Hne)%Hs.
      destruct Hne. eauto using ok_unique.
    + rewrite lookup_insert_ne by done. eexists. split; [done|]. intros (-> & Hs0 & Hne)%Hs. auto.
  - intros j k s t (s0 & Hj & Es & Hs)%Hlook (t0 & Hk & Et & Ht)%Hlook Cs Ct Heq.
    destruct (Hs Cs) as (-> & ? & _), (Ht Ct) as (-> & ? & _). eauto.
  - eapply events_ok_clips; [exact H5|]. eauto with dashcam.
  - apply pending_of_None. simpl. intros j s (s0 & Hj & Es & Hs)%Hlook Cs Heq.
    destruct (Hs Cs) as (-> & ? & Hne). destruct Hne. eauto using ok_unique.
Qed.

(** Recording a problem on an intent. *)
Lemma db_ok_problem d i p :
  db_ok d -> db_ok (set_intents (fun m => alter (with_problem p) i m) d).
Proof.
  intros [H1 H2 H3 H4 H5].
  assert (Hlook : forall j s, alter (with_problem p) i (intents d) !! j = Some s ->
    exists s0, intents d !! j = Some s0 /\ i_intent s = i_intent s0 /\
      i_complete s = i_complete s0 /\ i_expected_revision s = i_expected_revision s0).
  { intros j s. rewrite lookup_alter. destruct (decide (i = j)) as [->|].
    - destruct (intents d !! j) as [s0|]; simpl; [|done]. intros [= <-]. by exists s0.
    - intros Hs. by exists s. }
  split; simpl; [exact H1|exact H2|..|exact H5].
  - intros j s (s0 & Hj & E1 & E2 & E3)%Hlook. destruct (H3 j s0 Hj) as (? & ? & b & Hb & Hp).
    rewrite E1, E2. split_and!; [done..|]. exists b. split; [done|]. intros C.
    specialize (Hp C). unfold pending_row_ok in *. by rewrite E1, E3.
  - intros j k s t (s0 & Hj & E1 & E2 & _)%Hlook (t0 & Hk & E3 & E4 & _)%Hlook Cs Ct Heq.
    apply (H4 j k s0 t0); congruence.
Qed.

Lemma db_ok_latch d l : db_ok d -> db_ok (set_latch l d).
Proof. by intros [H1 H2 H3 H4 H5]. Qed.
