(* ===== verification/CatalogSafe.v ===== *)
(** * Catalog operations preserve the invariant *)

From Stdlib Require Import Ascii String ZArith Lia Strings.Byte.
From stdpp Require Import base list gmap strings sorting.
From S2P Require Import Prelude PyStr Uuid State Naming Intents Models Filesystem.
From S2P Require Import CatalogDb Catalog ManagedPath CatalogInv.

(** ** Operations that never break the invariant *)

Section keeps.
Context {F : Type}.

Definition keeps {A} (m : M F A) : Prop :=
  forall w, db_ok (w_db w) -> db_ok (w_db (snd (m w))).

Lemma keeps_transaction {A} (m : M F A) :
  (forall w a w', db_ok (w_db w) -> m w = (Ok a, w') -> db_ok (w_db w')) -> keeps (transaction m).
Proof.
  intros Hm w Hw. unfold transaction. destruct (m w) as [[a|e] w'] eqn:E; simpl; eauto.
Qed.

Lemma keeps_bind {A B} (m : M F A) (k : A -> M F B) :
  keeps m -> (forall a, keeps (k a)) -> keeps (mbind m k).
Proof.
  intros Hm Hk w Hw. unfold mbind. specialize (Hm w Hw).
  destruct (m w) as [[a|e] w']; simpl in *; [by apply Hk|done].
Qed.

Lemma keeps_lift {A} (r : result A) : keeps (@lift F A r).
Proof. by intros w. Qed.
Lemma keeps_lift_bind {A B} (r : result A) (k : A -> M F B) :
  (forall a, r = Ok a -> keeps (k a)) -> keeps (mbind (lift r) k).
Proof. intros Hk w Hw. unfold mbind, lift. destruct r; [by apply Hk|done]. Qed.
Lemma keeps_guard_bind {B} b c s (k : unit -> M F B) :
  (b = false -> keeps (k tt)) -> keeps (mbind (guard b c s) k).
Proof. intros Hk w Hw. unfold mbind, guard. destruct b; [done|by apply Hk]. Qed.
Lemma keeps_query {A} (q : DB -> A) : keeps (@query F A q).
Proof. by intros w. Qed.
Lemma keeps_mret {A} (a : A) : keeps (@mret F A a).
Proof. by intros w. Qed.
Lemma keeps_mfail {A} c s : keeps (@mfail F A c s).
Proof. by intros w. Qed.
Lemma keeps_mraise {A} e : keeps (@mraise F A e).
Proof. by intros w. Qed.
Lemma keeps_guard b c s : keeps (@guard F b c s).
Proof. intros w. by destruct b. Qed.
Lemma keeps_uuid4 `{Environment} : keeps (@new_uuid4 F _).
Proof. by intros w. Qed.

Lemma keeps_mfold {A B} (f : B -> A -> M F B) b l :
  (forall b x, keeps (f b x)) -> keeps (mfold f b l).
Proof.
  intros Hf. revert b. induction l as [|x l IH]; intros b; simpl; [apply keeps_mret|].
  by apply keeps_bind.
Qed.

Lemma keeps_mtry {A} (m : M F A) h : keeps m -> (forall e, keeps (h e)) -> keeps (mtry m h).
Proof.
  intros Hm Hh w Hw. unfold mtry. specialize (Hm w Hw).
  destruct (m w) as [[a|e] w']; simpl in *; [done|by apply Hh].
Qed.

Lemma keeps_exists `{CatalogFilesystem F} p : keeps (f_exists p).
Proof. by intros w. Qed.
Lemma keeps_read `{CatalogFilesystem F} p m : keeps (f_read_bytes p m).
Proof. by intros w. Qed.
Lemma keeps_size `{CatalogFilesystem F} p : keeps (f_file_size p).
Proof. by intros w. Qed.
Lemma keeps_iter `{CatalogFilesystem F} p n : keeps (f_iter_files p n).
Proof. by intros w. Qed.

End keeps.

#[export] Hint Resolve keeps_lift keeps_query keeps_mret keeps_mfail keeps_mraise keeps_guard
  keeps_uuid4 keeps_exists keeps_read keeps_size keeps_iter : dashcam.
#[export] Hint Resolve db_ok_latch db_ok_problem : dashcam.

Ltac keeps_step :=
  match goal with
  | |- keeps (let x := _ in _) => cbv zeta
  | |- keeps (mbind _ _) => apply keeps_bind; [|intros ?]
  | |- keeps (if ?b then _ else _) => destruct b
  | |- keeps (match ?x with _ => _ end) => destruct x
  | |- keeps (let '_ := ?x in _) => destruct x
  | |- keeps (mtry _ _) => apply keeps_mtry; [|intros ?]
  | |- keeps (mfold _ _ _) => apply keeps_mfold; intros ? ?
  | |- keeps _ => solve [eauto with dashcam]
  end.

(** ** Facts about rows *)

Lemma move_paths_ok v s dir p :
  move_paths v s dir = Ok p -> paths_ok p /\ video_source p = v /\ sidecar_source p = s /\
  video_target p = Some (path_join dir (path_name v)) /\
  sidecar_target p = Some (path_join dir (path_name s)).
Proof.
  unfold move_paths. intros Hp. pose proof Hp as (-> & _)%PairPaths_new_ok. by split_and!.
Qed.

Lemma move_paths_managed v s dir p :
  move_paths v s dir = Ok p -> dir ∈ MANAGED_DIRECTORIES -> targets_managed p.
Proof.
  unfold move_paths. intros (-> & Hv & Hs & _)%PairPaths_new_ok Hd t. simpl.
  intros [[= <-]|[= <-]]; unfold managed.
  - by destruct (path_join_managed dir v Hd Hv) as (-> & _).
  - by destruct (path_join_managed dir s Hd Hs) as (-> & _).
Qed.

Lemma clips_managed : u "clips" ∈ MANAGED_DIRECTORIES.
Proof. by apply (bool_decide_eq_true_1 _). Qed.

Lemma protected_managed : u "protected" ∈ MANAGED_DIRECTORIES.
Proof. by apply (bool_decide_eq_true_1 _). Qed.

#[export] Hint Resolve clips_managed protected_managed : dashcam.

Lemma stored_intro i c k created p it :
  OperationIntent_new i c k created p SCHEMA_VERSION = Ok it -> paths_ok p -> targets_managed p ->
  it = mkIntent i c k created p SCHEMA_VERSION /\ stored_ok it.
Proof.
  intros Hn Hp Ht. pose proof Hn as (-> & _)%OperationIntent_new_ok. by split_and!.
Qed.

Lemma set_protected_row_ok c reason now : row_ok c -> row_ok (set_protected_row reason now c).
Proof.
  intros (Hc & _ & Hp). split_and!; [|split; [done|by eauto]|done].
  unfold clip_checks in *. simpl. bool_prop. rewrite !andb_true_iff. split_and!; try done; by apply Z.leb_le; lia.
Qed.

#[export] Hint Resolve set_protected_row_ok : dashcam.

Section catalog_rows.
Context {F : Type} `{CatalogFilesystem F} `{Environment}.
Implicit Types w : World F.

Lemma required_clip_row_ok id w c w' :
  required_clip_row id w = (Ok c, w') <-> clips (w_db w) !! id = Some c /\ w' = w.
Proof.
  unfold required_clip_row. split.
  - intros Hm. inv_M. done.
  - intros [Hc ->]. rewrite mbind_ok. do 2 eexists. rewrite query_ok. by split.
Qed.

Lemma update_clip_row id f w n w' c :
  update_clip id f w = (Ok n, w') -> clips (w_db w) !! id = Some c ->
  clip_checks (f c) = true /\ w' = set_db (set_clips (fun m => <[id := f c]> m) (w_db w)) w.
Proof. intros [(Hn & _)|(c' & Hc & ? & _ & ->)]%update_clip_ok ?; by simplify_eq. Qed.

Lemma insert_intent_row_ok r w w' x :
  insert_intent_row r w = (Ok x, w') ->
  intents (w_db w) !! intent_id (i_intent r) = None /\
  pending_of (w_db w) (clip_id (i_intent r)) = None /\
  is_Some (clips (w_db w) !! clip_id (i_intent r)) /\
  w' = set_db (set_intents (fun m => <[intent_id (i_intent r) := r]> m) (w_db w)) w.
Proof.
  unfold insert_intent_row. intros Hm. inv_M. bool_prop.
  repeat match goal with H : ~ is_Some _ |- _ => apply eq_None_not_Some in H end. done.
Qed.

Lemma insert_intent_locked_ok id k p now e w it w' :
  insert_intent_locked id k p now e w = (Ok it, w') -> paths_ok p -> targets_managed p ->
  it = mkIntent (uuid4 (w_uuids w)) id k now p SCHEMA_VERSION /\ stored_ok it /\
  intents (w_db w) !! intent_id it = None /\ pending_of (w_db w) id = None /\
  is_Some (clips (w_db w) !! id) /\
  w' = mkWorld (set_intents (fun m => <[intent_id it := mkIntentRow it false None None e None None]> m)
                  (w_db w)) (w_fs w) (S (w_uuids w)).
Proof.
  unfold insert_intent_locked. intros Hm Hp Ht.
  inv_M. apply new_uuid4_ok in Hm0 as [-> ->].
  match goal with Hn : OperationIntent_new _ _ _ _ _ _ = Ok _ |- _ =>
    apply stored_intro in Hn as [-> ?]; [|done..] end.
  apply insert_intent_row_ok in Hm2 as (? & ? & ? & ->). simpl in *. by split_and!.
Qed.

(** A queued move: one pending intent between the row's paths and the target directory. *)
Lemma queue_move_locked_ok id k r dir now e w q w' c :
  dir ∈ MANAGED_DIRECTORIES -> queue_move_locked id k r dir now e w = (Ok q, w') -> clips (w_db w) !! id = Some c ->
  exists p, move_paths (r_video_path r) (r_sidecar_path r) dir = Ok p /\
    let it := mkIntent q id k now p SCHEMA_VERSION in
    stored_ok it /\ intents (w_db w) !! q = None /\ pending_of (w_db w) id = None /\
    w' = mkWorld (set_clips (fun m => <[id := with_updated now (with_reconciled false c)]> m)
                    (set_intents (fun m => <[q := mkIntentRow it false None None e None None]> m)
                       (w_db w))) (w_fs w) (S (w_uuids w)).
Proof.
  unfold queue_move_locked. intros Hdir Hm Hc. inv_M.
  pose proof Hl as (Hp & _)%move_paths_ok.
  apply insert_intent_locked_ok in Hm1 as (-> & ? & ? & ? & _ & ->);
    [|done|by eapply move_paths_managed].
  destruct (update_clip_row _ _ _ _ _ _ Hm2 Hc) as [_ ->]. exists v. by split_and!.
Qed.

Lemma queue_move_db_ok id k r dir now e w q w' c :
  db_ok (w_db w) -> dir ∈ MANAGED_DIRECTORIES ->
  queue_move_locked id k r dir now e w = (Ok q, w') -> clips (w_db w) !! id = Some c ->
  r_video_path r = r_video_path c -> r_sidecar_path r = r_sidecar_path c ->
  r_lifecycle c = FINALIZED ->
  (k = PROTECT /\ r_protected c = true) \/ (k = UNPROTECT /\ e = Some (r_revision c)) ->
  db_ok (w_db w').
Proof.
  intros Hok Hdir Hq Hc Hv Hs Hl Hk.
  eapply queue_move_locked_ok in Hq as (p & (_ & Ev & Es & _)%move_paths_ok & Hst & Hi & Hp & ->);
    [|done|exact Hc].
  simpl. eapply db_ok_queue; eauto; simpl; [exact (ok_rows _ Hok id c Hc)|].
  unfold pending_row_ok. simpl. rewrite Ev, Es. split_and!; [done..|].
  destruct Hk as [[-> ?]|[-> ->]]; [done|]. split; [done|].
  eexists. split_and!; [done|simpl; lia|simpl; lia].
Qed.

(** Nothing but clip rows and intents changes, and no clip disappears. *)
Definition frame (d d' : DB) : Prop :=
  events d' = events d /\ targets d' = targets d /\ latch d' = latch d /\
  forall i, is_Some (clips d !! i) -> is_Some (clips d' !! i).

Lemma queue_move_frame id k r dir now e w q w' :
  dir ∈ MANAGED_DIRECTORIES -> queue_move_locked id k r dir now e w = (Ok q, w') ->
  frame (w_db w) (w_db w').
Proof.
  unfold queue_move_locked. intros Hdir Hm. inv_M.
  pose proof Hl as (Hp & _)%move_paths_ok.
  apply insert_intent_locked_ok in Hm1 as (-> & _ & _ & _ & _ & ->);
    [|done|by eapply move_paths_managed].
  apply update_clip_ok in Hm2 as [(_ & _ & ->)|(c & _ & _ & _ & ->)];
    unfold frame; simpl; split_and!; eauto with dashcam.
Qed.

Lemma protected_update_ok d id c reason now :
  db_ok d -> clips d !! id = Some c ->
  (forall i r, pending_of d id = Some (i, r) -> kind (i_intent r) <> DELETE) ->
  db_ok (set_clips (fun m => <[id := set_protected_row reason now c]> m) d).
Proof.
  intros Hok Hc Hk. eapply db_ok_update; eauto; [eauto using ok_rows with dashcam|].
  intros i r Hp. specialize (Hk i r Hp). unfold pending_row_ok. simpl.
  intros (? & ? & ? & Hm). split_and!; [done..|]. destruct (kind (i_intent r)); try done.
  - by destruct Hm.
  - destruct Hm as (? & e & ? & ? & ?). split; [done|]. exists e. split_and!; [done|lia|done].
Qed.

Lemma frame_trans d1 d2 d3 : frame d1 d2 -> frame d2 d3 -> frame d1 d3.
Proof. intros (? & ? & ? & ?) (? & ? & ? & ?). split_and!; [congruence..|eauto]. Qed.

Lemma frame_refl d : frame d d.
Proof. by split_and!. Qed.

Lemma update_clip_frame id f w n w' : update_clip id f w = (Ok n, w') -> frame (w_db w) (w_db w').
Proof.
  intros [(_ & _ & ->)|(c & _ & _ & _ & ->)]%update_clip_ok; [apply frame_refl|].
  unfold frame. simpl. eauto with dashcam.
Qed.

End catalog_rows.

(** Also step over the row reads of the catalog's helpers. *)
Ltac inv_cat :=
  repeat (first
    [ progress inv_M_step
    | match goal with
      | Hm : required_clip_row _ _ = (Ok _, _) |- _ =>
          let Hc := fresh "Hc" in apply required_clip_row_ok in Hm as [Hc ?]; try subst
      | Hm : pending_intent_row _ _ = (Ok _, _) |- _ => apply query_ok in Hm as [? ?]; try subst
      end ]; simpl in * ).

Ltac use_queue_move :=
  match goal with Hq : queue_move_locked _ _ _ _ _ _ _ = _ |- db_ok _ =>
    eapply queue_move_db_ok; [| |exact Hq |..]; simpl; rewrite ?lookup_insert_eq;
    eauto with dashcam
  end.

Section catalog_safe.
Context {F : Type} `{CatalogFilesystem F} `{Environment}.
Implicit Types w : World F.

(** ** Protection *)

Lemma protect_for_event_locked_safe id reason now w q w' :
  db_ok (w_db w) -> protect_for_event_locked id reason now w = (Ok q, w') ->
  db_ok (w_db w') /\ frame (w_db w) (w_db w').
Proof.
  unfold protect_for_event_locked. intros Hok Hm.
  apply mbind_ok in Hm as (c & w1 & [Hc ->]%required_clip_row_ok & Hm).
  inv_M_step; [inv_cat; by eauto using frame_refl|].
  inv_M_step. apply query_ok in Hm0 as [-> ->].
  inv_M_step; [inv_cat; by eauto using frame_refl|].
  inv_M_step. pose proof Hm0 as Hf%update_clip_frame.
  destruct (update_clip_row _ _ _ _ _ _ Hm0 Hc) as [_ ->].
  assert (Hok1 : db_ok (set_clips (fun m => <[id := set_protected_row reason now c]> m) (w_db w))).
  { apply protected_update_ok; [done..|]. intros i r Hp. rewrite Hp in Hif0. by bool_prop. }
  inv_cat; try done. bool_prop.
  match goal with Hq : queue_move_locked _ _ _ _ _ _ _ = _ |- _ =>
    pose proof Hq as Hf'; apply queue_move_frame in Hf'; [|apply protected_managed];
    split; [|by eapply frame_trans] end.
  use_queue_move.
Qed.


Lemma prepare_protect_locked_safe id reason now allow w q w' :
  db_ok (w_db w) -> prepare_protect_locked id reason now allow w = (Ok q, w') -> db_ok (w_db w').
Proof.
  unfold prepare_protect_locked. intros Hok Hm. inv_cat; try done; bool_prop.
  all: match goal with Hu : update_clip _ _ _ = _, Hc : clips _ !! _ = Some ?c |- _ =>
    destruct (update_clip_row _ _ _ _ _ _ Hu Hc) as [_ ->];
    assert (db_ok (set_clips (fun m => <[id := set_protected_row reason now c]> m) (w_db w)))
      by (apply protected_update_ok; [done..|congruence]) end; try done.
  use_queue_move.
Qed.

Lemma repair_locked_safe id row now w q w' :
  db_ok (w_db w) -> queue_directory_invariant_repair_locked id row now w = (Ok q, w') ->
  clips (w_db w) !! id = Some row -> db_ok (w_db w').
Proof.
  unfold queue_directory_invariant_repair_locked. intros Hok Hm Hc. inv_cat; bool_prop; try done;
    use_queue_move.
Qed.

(** What a successful deletion request says about its clip, and what it writes. *)
Lemma prepare_delete_row_locked_ok id c now boot w q w' :
  prepare_delete_row_locked id c now boot w = (Ok q, w') -> clips (w_db w) !! id = Some c ->
  (exists p, pending_of (w_db w) id = Some (q, p) /\ kind (i_intent p) = DELETE /\ w' = w) \/
  (pending_of (w_db w) id = None /\ r_lifecycle c = FINALIZED /\ r_protected c = false /\
   r_reconciled c = true /\ r_managed c = true /\ row_has_active_lease c now boot = false /\
   path_parent (r_video_path c) = u "clips" /\ path_parent (r_sidecar_path c) = u "clips" /\
   exists it, let c' := with_updated now (with_lease None
                          (with_reconciled false (with_lifecycle DELETING c))) in
     it = mkIntent q id DELETE now (mkPaths (r_video_path c) (r_sidecar_path c) None None)
            SCHEMA_VERSION /\
     stored_ok it /\ intents (w_db w) !! q = None /\
     w' = mkWorld (set_clips (fun m => <[id := c']> m)
                     (set_intents (fun m => <[q := mkIntentRow it false None None None None None]> m)
                        (w_db w))) (w_fs w) (S (w_uuids w))).
Proof.
  unfold prepare_delete_row_locked. intros Hm Hc. inv_cat; bool_prop; [left; eauto|].
  right. pose proof Hl as (-> & _)%PairPaths_new_ok. simpl in *. bool_prop.
  match goal with Hi : insert_intent_locked _ _ _ _ _ _ = _ |- _ =>
    apply insert_intent_locked_ok in Hi as (-> & ? & ? & ? & _ & ->); [|done|by intros ? [|]] end.
  match goal with Hu : update_clip _ _ _ = _ |- _ =>
    destruct (update_clip_row _ _ _ _ _ _ Hu Hc) as [_ ->] end.
  split_and!; try done. eexists. by split_and!.
Qed.

Lemma prepare_delete_row_locked_safe id c now boot w q w' :
  db_ok (w_db w) -> prepare_delete_row_locked id c now boot w = (Ok q, w') ->
  clips (w_db w) !! id = Some c -> db_ok (w_db w').
Proof.
  intros Hok Hm Hc.
  destruct (prepare_delete_row_locked_ok _ _ _ _ _ _ _ Hm Hc)
    as [(p & _ & _ & ->)|(? & ? & ? & ? & ? & ? & ? & ? & it & Hit & Hst & Hi & ->)]; [done|].
  simpl in *. subst it. eapply db_ok_queue; eauto; simpl; [exact (ok_rows _ Hok id c Hc)|].
  by split_and!.
Qed.

Lemma lease_update_ok d id c l now :
  db_ok d -> clips d !! id = Some c -> (l = None \/ pending_of d id = None) ->
  db_ok (set_clips (fun m => <[id := with_updated now (with_lease l c)]> m) d).
Proof.
  intros Hok Hc Hl. eapply db_ok_update; eauto; [exact (ok_rows _ Hok id c Hc)|].
  intros i r Hp. unfold pending_row_ok. simpl.
  destruct Hl as [->|]; [|congruence]. by destruct (kind (i_intent r)); naive_solver.
Qed.

Lemma clear_lease_locked_ok id w x w' c :
  clear_lease_locked id w = (Ok x, w') -> clips (w_db w) !! id = Some c ->
  w' = set_db (set_clips (fun m => <[id := with_lease None c]> m) (w_db w)) w.
Proof.
  unfold clear_lease_locked. intros Hm Hc. inv_cat.
  by destruct (update_clip_row _ _ _ _ _ _ Hm0 Hc) as [_ ->].
Qed.

Lemma clear_lease_db_ok d id c :
  db_ok d -> clips d !! id = Some c -> db_ok (set_clips (fun m => <[id := with_lease None c]> m) d).
Proof.
  intros Hok Hc. pose proof (lease_update_ok d id c None (r_updated_ns c) Hok Hc) as Hu.
  destruct c. by apply Hu; left.
Qed.

(** Clearing a lease queues the directory repair it was blocking. *)
Lemma clear_and_repair_safe id now w x w1 y w2 q w' :
  db_ok (w_db w) -> clear_lease_locked id w = (Ok x, w1) ->
  required_clip_row id w1 = (Ok y, w2) ->
  queue_directory_invariant_repair_locked id y now w2 = (Ok q, w') ->
  is_Some (clips (w_db w) !! id) -> db_ok (w_db w').
Proof.
  intros Hok Hcl Hr Hq [c Hc]. pose proof (clear_lease_locked_ok _ _ _ _ _ Hcl Hc) as ->.
  apply required_clip_row_ok in Hr as [Hy ->].
  eapply repair_locked_safe; [|exact Hq|exact Hy]. by apply clear_lease_db_ok.
Qed.

Lemma insert_clip_row_ok id r w x w' :
  insert_clip_row id r w = (Ok x, w') ->
  clips (w_db w) !! id = None /\ r_order r ∉ orders (w_db w) /\ clip_checks r = true /\
  w' = set_db (set_clips (fun m => <[id := r]> m) (w_db w)) w.
Proof.
  unfold insert_clip_row. intros Hm. inv_M. bool_prop.
  repeat match goal with H : ~ is_Some _ |- _ => apply eq_None_not_Some in H end. done.
Qed.

(** A row that registration inserts. *)
Definition registered (clip : CatalogClip) (r : ClipRow) : Prop :=
  r_lifecycle r = c_lifecycle clip /\ r_video_path r = c_video_path clip /\
  r_sidecar_path r = c_sidecar_path clip /\ r_order r = c_retention_order clip /\
  r_protected r = c_protected clip /\ r_reason r = c_protection_reason clip /\
  r_reconciled r = c_pair_reconciled clip /\ r_managed r = c_managed clip /\ r_revision r = 0 /\
  (c_download_lease clip = None -> r_lease r = None).

Lemma insert_clip_locked_ok clip now w x w' :
  insert_clip_locked clip now w = (Ok x, w') ->
  exists r, registered clip r /\ clips (w_db w) !! c_clip_id clip = None /\
    r_order r ∉ orders (w_db w) /\ clip_checks r = true /\
    w' = set_db (set_clips (fun m => <[c_clip_id clip := r]> m) (w_db w)) w.
Proof.
  unfold insert_clip_locked. intros Hm. inv_M_step. inv_M_step.
  apply insert_clip_row_ok in Hm as (? & ? & ? & ->). eexists. split_and!; eauto.
  unfold registered. simpl. split_and!; try done. by intros ->.
Qed.

Lemma validate_clip_row clip r :
  validate_clip clip = Ok tt -> registered clip r -> clip_checks r = true -> row_ok r.
Proof.
  intros Hv (_ & Ev & Es & _ & Ep & Er & _) Hc. unfold row_ok. rewrite Ev, Es, Ep, Er.
  unfold validate_clip in Hv. split_and!; [done| |].
  - inv_ok. destruct (c_protected clip).
    + split; [intros _|done]. destruct (c_protection_reason clip); [by eauto|done].
    + split; [done|]. intros Hs. inv_ok. bool_prop. done.
  - inv_ok. bool_prop. pose proof Hb as (-> & _)%PairPaths_new_ok.
    split; [done|done|]. unfold managed. congruence.
Qed.

Lemma insert_clip_locked_safe clip now w x w' :
  db_ok (w_db w) -> validate_clip clip = Ok tt ->
  insert_clip_locked clip now w = (Ok x, w') -> db_ok (w_db w').
Proof.
  intros Hok Hv (r & Hr & ? & ? & ? & ->)%insert_clip_locked_ok. simpl.
  apply db_ok_insert_clip; [done..| |done]. by eapply validate_clip_row.
Qed.

(** ** Event windows *)

Lemma mfor_ok {A} (I : list A -> World F -> Prop) (f : A -> M F unit) l w x w' :
  I l w -> (forall y l' w1 v w2, I (y :: l') w1 -> f y w1 = (Ok v, w2) -> I l' w2) ->
  mfor f l w = (Ok x, w') -> I [] w'.
Proof.
  unfold mfor. intros HI Hstep. revert w HI x. induction l as [|y l IH]; intros w HI x Hm; simpl in *.
  - by apply mret_ok in Hm as [_ ->].
  - apply mbind_ok in Hm as (v & w1 & Hf & Hm). destruct v. eapply IH; [|exact Hm]. eauto.
Qed.

Definition window_ok (id : UUID) (d : DB) (e : UUID * EventRow) : Prop :=
  events d !! fst e = Some (snd e) /\ 0 < e_remaining_next (snd e) /\ targets d !! (fst e, id) = None.

Definition windows_ok (id : UUID) (d : DB) (l : list (UUID * EventRow)) : Prop :=
  NoDup (map fst l) /\ Forall (window_ok id d) l /\ is_Some (clips d !! id).

Lemma NoDup_limited {A} n (l : list (UUID * A)) :
  NoDup (map fst l) -> NoDup (map fst (limited n l)).
Proof.
  unfold limited. rewrite <-(take_drop (Z.to_nat n) l) at 1. rewrite map_app.
  by intros [? _]%NoDup_app.
Qed.

Lemma NoDup_filter_keys {A} (p : UUID * A -> bool) (m : gmap UUID A) :
  NoDup (map fst (List.filter p (map_to_list m))).
Proof.
  pose proof (NoDup_fst_map_to_list m) as Hnd. induction (map_to_list m) as [|[k a] l IH]; simpl in *.
  - constructor.
  - apply NoDup_cons in Hnd as [Hk Hnd]. destruct (p (k, a)); simpl; [|by apply IH].
    apply NoDup_cons. split; [|by apply IH]. intros (b & -> & Hb)%list_elem_of_fmap.
    apply Hk, list_elem_of_fmap. exists b. split; [done|].
    apply list_elem_of_In, filter_In in Hb as [Hb _]. by apply list_elem_of_In.
Qed.

Lemma select_pending_windows_ok id row d :
  is_Some (clips d !! id) -> windows_ok id d (select_pending_windows id row d).
Proof.
  intros Hc. unfold select_pending_windows. split_and!; [| |done].
  - apply NoDup_limited. rewrite sort_by_perm. apply NoDup_filter_keys.
  - apply Forall_take. rewrite sort_by_perm. apply Forall_forall. intros [e r] [Hin Hp]%list_elem_of_In%filter_In.
    apply list_elem_of_In, elem_of_map_to_list in Hin. unfold window_pending in Hp. simpl in *.
    destruct (clips d !! e_current r); [|done]. bool_prop.
    split_and!; [done..|by apply eq_None_not_Some].
Qed.

(** Consuming one window records the NEXT target with the next ordinal. *)
Definition consumed (id : UUID) (e : UUID * EventRow) (d : DB) : DB :=
  set_events (fun m => <[fst e := with_remaining (e_remaining_next (snd e) - 1) (snd e)]> m)
    (set_targets (fun m => <[(fst e, id) := next_target (snd e)]> m) d).

Lemma consumed_db_ok id e l d :
  db_ok d -> windows_ok id d (e :: l) ->
  db_ok (consumed id e d) /\ windows_ok id (consumed id e d) l.
Proof.
  intros Hok (Hnd & [(He & Hr & Ht) Hl]%Forall_cons & Hc). apply NoDup_cons in Hnd as [Hn Hnd].
  destruct e as [e er]. cbn [fst snd] in *. destruct (Hok) as [H1 H2 H3 H4 [E1 E2 E3 E4]].
  split; [split; [exact H1|exact H2|exact H3|exact H4|]|]; simpl.
  - split.
    + intros e' r. destruct (decide (e' = e)) as [->|]; intros; simplify_map_eq; [|by eauto].
      destruct (E1 e er He) as (Hchk & ? & ?). simpl. split_and!; [|lia|done].
      unfold event_checks in *. simpl. bool_prop. rewrite !andb_true_iff, !Z.leb_le. lia.
    + intros e' c t. destruct (decide ((e', c) = (e, id))) as [[= -> ->]|].
      * intros Hin. simplify_map_eq. split; [done|]. eexists. split; [done|]. simpl. intros _.
        destruct (E1 e er He) as (? & ? & ?). lia.
      * rewrite lookup_insert_ne by done. intros Hin. destruct (E2 e' c t Hin) as (? & r & Hr' & Ho).
        split; [done|]. destruct (decide (e' = e)) as [->|]; simplify_map_eq; [|by eauto].
        eexists. split; [done|]. simpl. intros Hn'. specialize (Ho Hn'). lia.
    + intros e' r k. destruct (decide (e' = e)) as [->|].
      * intros Hr' Hk. simplify_map_eq. simpl in Hk.
        destruct (decide (k = e_requested_next er - e_remaining_next er + 1)) as [->|].
        -- exists id. by simplify_map_eq.
        -- destruct (E3 e er k He) as [c Hin]; [lia|]. exists c.
           rewrite lookup_insert_ne; [done|]. intros [= ->]. congruence.
      * rewrite lookup_insert_ne by done. intros Hr' Hk. destruct (E3 e' r k Hr' Hk) as [c Hin]. exists c.
        rewrite lookup_insert_ne; [done|congruence].
    + intros e' c1 c2 k.
      destruct (decide (e' = e)) as [->|];
        [|rewrite !lookup_insert_ne by congruence; by eauto].
      destruct (decide (c1 = id)) as [->|], (decide (c2 = id)) as [->|];
        rewrite ?lookup_insert_eq, ?lookup_insert_ne by congruence; [done|..|by eauto];
        intros; unfold next_target in *; simplify_eq;
        match goal with Hin : targets _ !! _ = Some _ |- _ =>
          destruct (E2 _ _ _ Hin) as (_ & r & ? & Ho); simplify_eq; specialize (Ho eq_refl);
          simpl in Ho; lia end.
  - split_and!; [done| |done]. apply Forall_forall. intros [e' r'] Hin.
    rewrite Forall_forall in Hl. destruct (Hl _ Hin) as (? & ? & ?). simpl in *.
    assert (e' <> e). { intros ->. apply Hn, list_elem_of_fmap. by exists (e, r'). }
    unfold window_ok, consumed. simpl. rewrite !lookup_insert_ne by congruence. done.
Qed.

Lemma consume_ok id e or_ignore guarded l w x w1 y w2 :
  windows_ok id (w_db w) (e :: l) ->
  insert_target_row (fst e) id (next_target (snd e)) or_ignore w = (Ok x, w1) ->
  decrement_remaining (fst e) guarded w1 = (Ok y, w2) ->
  w2 = set_db (consumed id e (w_db w)) w.
Proof.
  intros (_ & [(He & Hr & Ht) _]%Forall_cons & Hc) Hi Hd. unfold insert_target_row in Hi.
  inv_M_step. apply query_ok in Hm as [-> ->]. rewrite Ht in Hi. inv_M.
  unfold decrement_remaining in Hd. inv_M_step. apply query_ok in Hm as [-> ->]. simpl in Hd.
  rewrite He in Hd. inv_M; [bool_prop; lia|]. done.
Qed.

Lemma windows_frame id d d' l : windows_ok id d l -> frame d d' -> windows_ok id d' l.
Proof.
  intros (? & Hl & ?) (He & Ht & _ & Hc). split_and!; [done| |by apply Hc].
  eapply Forall_impl; [exact Hl|]. unfold window_ok. by rewrite He, Ht.
Qed.

Lemma consume_closing_windows_safe id now l w x w' :
  db_ok (w_db w) -> windows_ok id (w_db w) l ->
  mfor (consume_closing_window id now) l w = (Ok x, w') ->
  db_ok (w_db w') /\ is_Some (clips (w_db w') !! id).
Proof.
  intros Hok Hw Hm.
  enough (db_ok (w_db w') /\ windows_ok id (w_db w') []) as (? & _ & _ & ?) by done.
  eapply (mfor_ok (fun l w => db_ok (w_db w) /\ windows_ok id (w_db w) l)); [..|exact Hm]; [done|].
  clear. intros [e er] l w v w' [Hok Hw] Hm. unfold consume_closing_window in Hm. inv_cat.
  pose proof (consume_ok _ (e, er) _ _ _ _ _ _ _ _ Hw Hm0 Hm1) as ->.
  destruct (consumed_db_ok _ _ _ _ Hok Hw) as [Hok1 Hw1].
  apply protect_for_event_locked_safe in Hm2 as [? ?]; [|done]. eauto using windows_frame.
Qed.

Lemma consume_windows_safe id l w x w' :
  db_ok (w_db w) -> windows_ok id (w_db w) l -> mfor (consume_window id) l w = (Ok x, w') ->
  db_ok (w_db w') /\ is_Some (clips (w_db w') !! id).
Proof.
  intros Hok Hw Hm.
  enough (db_ok (w_db w') /\ windows_ok id (w_db w') []) as (? & _ & _ & ?) by done.
  eapply (mfor_ok (fun l w => db_ok (w_db w) /\ windows_ok id (w_db w) l)); [..|exact Hm]; [done|].
  clear. intros [e er] l w v w' [Hok Hw] Hm. unfold consume_window in Hm. inv_cat.
  pose proof (consume_ok _ (e, er) _ _ _ _ _ _ _ _ Hw Hm0 Hm) as ->.
  by apply consumed_db_ok.
Qed.

Lemma insert_event_row_ok e r w x w' :
  insert_event_row e r w = (Ok x, w') ->
  events (w_db w) !! e = None /\ event_checks r = true /\ is_Some (clips (w_db w) !! e_current r) /\
  w' = set_db (set_events (fun m => <[e := r]> m) (w_db w)) w.
Proof.
  unfold insert_event_row. intros Hm. inv_M. bool_prop.
  repeat match goal with H : ~ is_Some _ |- _ => apply eq_None_not_Some in H end. done.
Qed.

Lemma insert_event_db_ok d e r :
  db_ok d -> events d !! e = None -> event_checks r = true -> is_Some (clips d !! e_current r) ->
  e_remaining_next r = e_requested_next r -> db_ok (set_events (fun m => <[e := r]> m) d).
Proof.
  intros [H1 H2 H3 H4 [E1 E2 E3 E4]] Hn Hc Hp Hr. split; simpl; [done..|]. split; [| | |exact E4].
  - intros e' r'. destruct (decide (e' = e)) as [->|]; intros; simplify_map_eq; [|by eauto].
    split_and!; [done|lia|done].
  - intros e' c t Ht. destruct (E2 e' c t Ht) as (? & r' & Hr' & ?). split; [done|].
    exists r'. rewrite lookup_insert_ne by congruence. done.
  - intros e' r' k. destruct (decide (e' = e)) as [->|]; intros; simplify_map_eq; [lia|by eauto].
Qed.

Lemma insert_target_db_ok d e c t :
  db_ok d -> is_Some (events d !! e) -> is_Some (clips d !! c) -> targets d !! (e, c) = None ->
  t_role t <> NEXT -> db_ok (set_targets (fun m => <[(e, c) := t]> m) d).
Proof.
  intros [H1 H2 H3 H4 [E1 E2 E3 E4]] [r He] Hc Hn Ht.
  split; simpl; [done..|]. split; [exact E1|..].
  - intros e' c' t'. destruct (decide ((e', c') = (e, c))) as [[= -> ->]|].
    + intros. simplify_map_eq. split; [done|]. by eexists.
    + rewrite lookup_insert_ne by done. eauto.
  - intros e' r' k Hr' Hk. destruct (E3 e' r' k Hr' Hk) as [c' Hc']. exists c'.
    rewrite lookup_insert_ne; [done|congruence].
  - intros e' c1 c2 k.
    destruct (decide (e' = e)) as [->|]; [|rewrite !lookup_insert_ne by congruence; by eauto].
    destruct (decide (c1 = c)) as [->|], (decide (c2 = c)) as [->|];
      rewrite ?lookup_insert_eq, ?lookup_insert_ne by congruence; [done|..|by eauto];
      intros; simplify_eq; done.
Qed.

Lemma insert_target_row_ok e c t w x w' :
  insert_target_row e c t false w = (Ok x, w') ->
  targets (w_db w) !! (e, c) = None /\ is_Some (events (w_db w) !! e) /\
  is_Some (clips (w_db w) !! c) /\
  w' = set_db (set_targets (fun m => <[(e, c) := t]> m) (w_db w)) w.
Proof. unfold insert_target_row. intros Hm. inv_M; bool_prop; done. Qed.

Lemma mfold_ok {A B} (I : B -> World F -> Prop) (f : B -> A -> M F B) (P : A -> Prop) l b w b' w' :
  I b w -> Forall P l ->
  (forall b y w1 b2 w2, P y -> I b w1 -> f b y w1 = (Ok b2, w2) -> I b2 w2) ->
  mfold f b l w = (Ok b', w') -> I b' w'.
Proof.
  intros HI HP Hstep. revert b w HI. induction HP as [|y l Hy HP IH]; intros b w HI Hm; simpl in *.
  - by apply mret_ok in Hm as [-> ->].
  - apply mbind_ok in Hm as (v & w1 & Hf & Hm). eapply IH; [|exact Hm]. eauto.
Qed.

Lemma protect_targets_safe event reason now acc l w r w' :
  db_ok (w_db w) -> Forall (fun t => snd (fst t) <> NEXT) l ->
  mfold (protect_target event reason now) acc l w = (Ok r, w') -> db_ok (w_db w').
Proof.
  intros Hok Hl. apply (mfold_ok (fun _ w => db_ok (w_db w)) _ _ _ _ _ _ _ Hok Hl).
  clear. intros [ps qs] [[id role] ordinal] w b w' Hr Hok Hm. unfold protect_target in Hm. inv_cat.
  apply protect_for_event_locked_safe in Hm0 as [? _]; [|done].
  apply insert_target_row_ok in Hm1 as (? & ? & ? & ->). by apply insert_target_db_ok.
Qed.

Lemma event_targets_roles previous current :
  Forall (fun t => snd (fst t) <> NEXT) (event_targets previous current).
Proof.
  apply Forall_app. split; [|by repeat constructor].
  apply Forall_lookup. intros k [[id role] o]. rewrite list_lookup_imap.
  destruct (rev previous !! k); simpl; [|done]. by intros [= _ <- _].
Qed.

Lemma record_event_safe event current source now p n rq w r w' :
  db_ok (w_db w) -> record_event event current source now p n rq w = (Ok r, w') -> db_ok (w_db w').
Proof.
  unfold record_event. intros Hok Hm. inv_cat.
  match goal with Hi : insert_event_row _ _ _ = _ |- _ =>
    apply insert_event_row_ok in Hi as (? & ? & ? & ->) end.
  match goal with Hl : mfold _ _ _ _ = _ |- _ =>
    eapply protect_targets_safe in Hl; [done| |apply event_targets_roles] end.
  by apply insert_event_db_ok.
Qed.

(** ** Every method *)

Lemma keeps_latch_store l : keeps (store_retention_threshold_latch (F := F) l).
Proof.
  apply keeps_transaction. intros w a w' Hok Hm. inv_cat; eauto with dashcam.
Qed.

Lemma keeps_register_clip clip now : keeps (register_clip (F := F) clip now).
Proof.
  apply keeps_lift_bind. intros [] Hv. repeat keeps_step.
  apply keeps_transaction. eauto using insert_clip_locked_safe.
Qed.

Lemma keeps_register_writing_clip clip now : keeps (register_writing_clip (F := F) clip now).
Proof.
  apply keeps_lift_bind. intros [] Hv. repeat keeps_step.
  apply keeps_transaction. eauto using insert_clip_locked_safe.
Qed.

Lemma keeps_active_closing_protection id now : keeps (active_closing_protection (F := F) id now).
Proof.
  unfold active_closing_protection. repeat keeps_step. apply keeps_transaction.
  intros w x w' Hok Hm. inv_cat.
  match goal with Hl : mfor _ _ _ = _ |- _ =>
    apply consume_closing_windows_safe in Hl as [? _]; [done..|] end.
  by apply select_pending_windows_ok.
Qed.

(** A row that loses no constraint and has no pending intent may be updated freely. *)
Lemma idle_update_ok d id c c' :
  db_ok d -> clips d !! id = Some c -> row_ok c' -> r_order c' = r_order c ->
  pending_of d id = None -> db_ok (set_clips (fun m => <[id := c']> m) d).
Proof. intros. eapply db_ok_update; eauto. congruence. Qed.

(** A clip that is being written or whose members are missing has no pending intent. *)
Lemma lifecycle_idle d id c :
  db_ok d -> clips d !! id = Some c ->
  r_lifecycle c <> FINALIZED -> r_lifecycle c <> FINALIZING -> r_lifecycle c <> DELETING ->
  pending_of d id = None.
Proof.
  intros Hok Hc ???. destruct (pending_of d id) as [[i r]|] eqn:E; [|done].
  apply pending_of_Some in E as (Hi & Hp & <-).
  destruct (ok_intents d Hok i r Hi) as (_ & _ & c' & Hc' & Hrow). simplify_eq.
  destruct (Hrow Hp) as (_ & _ & _ & Hk). destruct (kind (i_intent r)); naive_solver.
Qed.

Lemma keeps_mark_writing_clip_orphaned id now : keeps (mark_writing_clip_orphaned (F := F) id now).
Proof.
  unfold mark_writing_clip_orphaned. repeat keeps_step. apply keeps_transaction.
  intros w x w' Hok Hm. inv_cat; try done.
  match goal with Hu : update_clip _ _ _ = _, Hc : clips _ !! _ = Some ?c |- _ =>
    destruct (update_clip_row _ _ _ _ _ _ Hu Hc) as [_ ->]; simpl;
    eapply idle_update_ok; eauto; [exact (ok_rows _ Hok _ _ Hc)|eapply lifecycle_idle; eauto; congruence]
  end.
Qed.

(** Finishing a clip that is not being deleted keeps what its pending intent relies on. *)
Lemma finalize_row_ok d id c e size now :
  db_ok d -> clips d !! id = Some c -> r_lifecycle c <> DELETING ->
  let c' := with_updated now (with_end_size e size (with_lifecycle FINALIZED c)) in
  clip_checks c' = true -> db_ok (set_clips (fun m => <[id := c']> m) d).
Proof.
  intros Hok Hc Hl c' Hchk. eapply db_ok_update; eauto.
  - destruct (ok_rows d Hok id c Hc) as (_ & ? & ?). by split_and!.
  - intros i r Hp. unfold pending_row_ok. simpl. intros (? & ? & ? & Hk). split_and!; [done..|].
    destruct (kind (i_intent r)); naive_solver.
Qed.

Lemma keeps_finalize_clip id e size now : keeps (finalize_clip (F := F) id e size now).
Proof.
  unfold finalize_clip. repeat keeps_step. apply keeps_transaction. intros w x w' Hok Hm.
  apply mbind_ok in Hm as (c & w1 & [Hc ->]%required_clip_row_ok & Hm).
  apply mbind_ok in Hm as (? & ? & [Hg ->]%guard_ok & Hm).
  apply mbind_ok in Hm as (? & ? & [Hg' ->]%guard_ok & Hm).
  apply mbind_ok in Hm as (? & w1 & Hu & Hm).
  destruct (update_clip_row _ _ _ _ _ _ Hu Hc) as [Hchk ->].
  apply mbind_ok in Hm as (? & ? & [-> ->]%query_ok & Hm).
  apply mbind_ok in Hm as (? & ? & Hw & Hm). apply consume_windows_safe in Hw as [Hok1 _].
  - inv_cat; try done; eauto using prepare_protect_locked_safe;
      match goal with Hp : protect_for_event_locked _ _ _ _ = _ |- _ =>
        by apply protect_for_event_locked_safe in Hp as [? _] end.
  - simpl. apply finalize_row_ok; [done|done| |done]. intros Hl. rewrite Hl in Hg. by vm_compute in Hg.
  - apply select_pending_windows_ok. simpl. rewrite lookup_insert_eq. by eexists.
Qed.

(** Queue an intent for an idle clip whose row already fits it. *)
Lemma db_ok_queue_same d c i r :
  db_ok d -> pending_of d (clip_id (i_intent r)) = None ->
  clips d !! clip_id (i_intent r) = Some c -> intents d !! i = None -> intent_id (i_intent r) = i ->
  stored_ok (i_intent r) -> pending_row_ok r c ->
  db_ok (set_intents (fun m => <[i := r]> m) d).
Proof.
  intros Hok Hp Hc Hi Hid Hst Hrow.
  pose proof (db_ok_queue d _ c c i r Hok Hp Hc (ok_rows _ Hok _ _ Hc) eq_refl Hi Hid eq_refl Hst Hrow)
    as Hq. unfold set_clips, set_intents in *. simpl in *. by rewrite insert_id in Hq.
Qed.

Lemma finalize_intent_safe clip p now w it w' c :
  db_ok (w_db w) -> paths_ok p -> finalization_declared clip p = true ->
  clips (w_db w) !! c_clip_id clip = Some c ->
  r_lifecycle c = FINALIZING -> r_reconciled c = false ->
  r_video_path c = c_video_path clip -> r_sidecar_path c = c_sidecar_path clip ->
  insert_intent_locked (c_clip_id clip) FINALIZE p now None w = (Ok it, w') -> db_ok (w_db w').
Proof.
  intros Hok Hp Hd Hc Hl Hr Ev Es Hi. unfold finalization_declared in Hd. bool_prop.
  destruct (video_target p) as [vt|] eqn:Ev', (sidecar_target p) as [st|] eqn:Es'; try done. bool_prop.
  apply insert_intent_locked_ok in Hi as (-> & ? & ? & ? & _ & ->); [|done|].
  - simpl. eapply db_ok_queue_same; eauto. unfold pending_row_ok. simpl. split_and!; try congruence. auto.
  - intros x Hx. unfold managed. assert (path_parent x = u "clips") as ->; [|apply clips_managed].
    destruct Hx as [Hx|Hx]; congruence.
Qed.

Lemma keeps_register_finalizing_clip clip p now expected :
  paths_ok p -> keeps (register_finalizing_clip (F := F) clip p now expected).
Proof.
  intros Hp. apply keeps_lift_bind. intros [] Hv. apply keeps_bind; [apply keeps_lift|intros _].
  apply keeps_guard_bind. intros Hd%negb_false_iff. repeat keeps_step.
  apply keeps_transaction. intros w x w' Hok Hm.
  pose proof Hd as Hd'. unfold finalization_declared in Hd'. bool_prop.
  apply mbind_ok in Hm as (? & ? & [-> ->]%query_ok & Hm).
  apply mbind_ok in Hm as (? & w1 & Hm0 & Hm).
  apply mbind_ok in Hm as (it & w2 & Hi & [-> ->]%mret_ok).
  destruct (clips (w_db w) !! c_clip_id clip) as [c|] eqn:Hc, expected as [n|]; try discriminate.
  - apply mbind_ok in Hm0 as (? & ? & [_ ->]%guard_ok & Hm0).
    apply mbind_ok in Hm0 as (? & ? & [Hs%negb_false_iff ->]%guard_ok & Hm0).
    apply mbind_ok in Hm0 as (? & ? & Hu & [_ ->]%mret_ok).
    destruct (update_clip_row _ _ _ _ _ _ Hu Hc) as [Hchk ->].
    unfold same_writing_identity in Hs. bool_prop.
    eapply finalize_intent_safe; [|done|exact Hd|..|exact Hi]; simpl;
      [|apply lookup_insert_eq|..]; try done; try (destruct (c_end_monotonic_ns clip); simpl; done).
    eapply idle_update_ok; eauto.
    + destruct (ok_rows _ Hok _ _ Hc) as (_ & ? & ?). split; [done|].
      by destruct (c_end_monotonic_ns clip).
    + by destruct (c_end_monotonic_ns clip).
    + eapply lifecycle_idle; eauto; congruence.
  - pose proof Hm0 as Hm0'.
    apply insert_clip_locked_ok in Hm0' as (r & Hr & _ & _ & _ & ->).
    apply insert_clip_locked_safe in Hm0; [|done..].
    destruct Hr as (? & ? & ? & ? & ? & ? & ? & ? & ?).
    eapply finalize_intent_safe; [exact Hm0|done|exact Hd|..|exact Hi]; simpl;
      [apply lookup_insert_eq|..]; congruence.
Qed.

Lemma one_final_directory_managed p : one_final_directory p = true -> targets_managed p.
Proof.
  unfold one_final_directory. intros Hd. bool_prop. intros t Ht. unfold managed.
  assert (path_parent t = path_parent (video_source p)) as ->.
  { destruct Ht as [Ht|Ht]; rewrite Ht in *; simpl in *; congruence. }
  match goal with Hin : _ ∈ [_; _] |- _ =>
    rewrite !elem_of_cons, elem_of_nil in Hin; destruct Hin as [->|[->|[]]] end;
    [apply clips_managed|apply protected_managed].
Qed.

Lemma keeps_register_name_reconciliation plan source now :
  (forall i, mp_intent plan = Some i -> constructed i) ->
  keeps (register_name_reconciliation (F := F) plan source now).
Proof.
  intros Hst. unfold register_name_reconciliation. destruct (mp_intent plan) as [i|]; [|apply keeps_mfail].
  specialize (Hst i eq_refl). apply keeps_bind; [apply keeps_lift|intros _].
  apply keeps_guard_bind. intros Hn%negb_false_iff. repeat keeps_step.
  apply keeps_transaction. intros w x w' Hok Hm. unfold name_plan_consistent in Hn. bool_prop.
  inv_cat; bool_prop; simplify_eq.
  match goal with Hi : insert_existing_intent_locked _ _ _ _ = _ |- _ =>
    apply insert_intent_row_ok in Hi as (? & Hp & _ & ->) end.
  match goal with Hu : update_clip _ _ _ = _ |- _ =>
    destruct (update_clip_row _ _ _ _ _ _ Hu Hc) as [_ ->] end.
  simpl. eapply db_ok_queue; eauto;
    [exact (ok_rows _ Hok _ _ Hc)|split; [done|by apply one_final_directory_managed]|].
  unfold pending_row_ok. simpl.
  match goal with Hk : kind i = _ |- _ => rewrite Hk end. by split_and!.
Qed.

Lemma keeps_acquire_download_lease id h now d boot n :
  keeps (acquire_download_lease (F := F) id h now d boot n).
Proof.
  unfold acquire_download_lease. repeat keeps_step. apply keeps_transaction.
  intros w x w' Hok Hm. inv_cat. bool_prop.
  destruct (update_clip_row _ _ _ _ _ _ Hm Hc) as [_ ->]. simpl.
  apply lease_update_ok; [done..|]. right. by apply eq_None_not_Some.
Qed.

Lemma keeps_release_download_lease id h now : keeps (release_download_lease (F := F) id h now).
Proof.
  unfold release_download_lease. repeat keeps_step. apply keeps_transaction.
  intros w x w' Hok Hm. apply mbind_ok in Hm as (c & w1 & [Hc ->]%required_clip_row_ok & Hm).
  destruct (r_lease c); [|by inv_cat].
  apply mbind_ok in Hm as (? & ? & [_ ->]%guard_ok & Hm).
  apply mbind_ok in Hm as (? & ? & Hcl & Hm). apply mbind_ok in Hm as (? & ? & Hr & Hm).
  apply mbind_ok in Hm as (? & ? & Hq & [_ ->]%mret_ok).
  eapply clear_and_repair_safe; eauto.
Qed.

Lemma clear_one_expired_safe now row w x w' :
  db_ok (w_db w) -> clear_one_expired now row w = (Ok x, w') -> db_ok (w_db w').
Proof.
  unfold clear_one_expired. intros Hok Hm.
  apply mbind_ok in Hm as (? & w1 & Hcl & Hm). apply mbind_ok in Hm as (? & ? & Hr & Hm).
  apply mbind_ok in Hm as (? & ? & Hq & [_ ->]%mret_ok).
  eapply clear_and_repair_safe; eauto.
  destruct (clips (w_db w) !! fst row) as [c|] eqn:Hc; [done|].
  apply mbind_ok in Hcl as (? & ? & Hu & [_ ->]%mret_ok).
  apply update_clip_ok in Hu as [(_ & _ & ->)|(c & ? & _)]; [|congruence].
  apply required_clip_row_ok in Hr as [? _]. congruence.
Qed.

Lemma keeps_clear_expired_download_leases now boot limit :
  keeps (clear_expired_download_leases (F := F) now boot limit).
Proof.
  unfold clear_expired_download_leases. repeat keeps_step. apply keeps_transaction.
  intros w x w' Hok Hm. inv_cat.
  eapply (mfor_ok (fun _ w => db_ok (w_db w))); [exact Hok| |eassumption].
  intros y l w1 v' w2 Hok1. apply clear_one_expired_safe, Hok1.
Qed.

Lemma keeps_prepare_protect id reason now : keeps (prepare_protect (F := F) id reason now).
Proof.
  unfold prepare_protect. repeat keeps_step. apply keeps_transaction.
  eauto using prepare_protect_locked_safe.
Qed.

Lemma keeps_prepare_unprotect id now : keeps (prepare_unprotect (F := F) id now).
Proof.
  unfold prepare_unprotect. repeat keeps_step. apply keeps_transaction.
  intros w x w' Hok Hm. inv_cat; try done; bool_prop; [|use_queue_move].
  match goal with Hu : update_clip _ _ _ = _ |- _ =>
    destruct (update_clip_row _ _ _ _ _ _ Hu Hc) as [Hchk ->] end.
  simpl. eapply idle_update_ok; eauto.
  destruct (ok_rows _ Hok _ _ Hc) as (_ & _ & ?). split_and!; [done|split; [done|by intros []]|done].
Qed.

Lemma keeps_prepare_delete id now boot : keeps (prepare_delete (F := F) id now boot).
Proof.
  unfold prepare_delete. repeat keeps_step. apply keeps_transaction.
  intros w x w' Hok Hm. apply mbind_ok in Hm as (c & w1 & [Hc ->]%required_clip_row_ok & Hm).
  eauto using prepare_delete_row_locked_safe.
Qed.

(** A selected row is a row of the table, and the list is sorted by the catalog order. *)
Lemma select_clips_elem p d row :
  row ∈ select_clips p d <-> clips d !! fst row = Some (snd row) /\ p row = true.
Proof.
  unfold select_clips. rewrite sort_by_perm, list_elem_of_In, filter_In, <-list_elem_of_In.
  destruct row. by rewrite elem_of_map_to_list.
Qed.

Lemma select_clips_sorted p d :
  StronglySorted (fun a b => row_leb a b = true) (select_clips p d).
Proof.
  apply sort_by_sorted; unfold row_leb; intros; [apply order_key_leb_total|].
  eapply order_key_leb_trans; eauto.
Qed.

Lemma row_leb_refl row : row_leb row row = true.
Proof. unfold row_leb. by destruct (order_key_leb_total (row_key row) (row_key row)). Qed.

Lemma head_select_clips p d row :
  head (select_clips p d) = Some row ->
  clips d !! fst row = Some (snd row) /\ p row = true /\
  forall r, clips d !! fst r = Some (snd r) -> p r = true -> row_leb row r = true.
Proof.
  intros Hh. pose proof (select_clips_sorted p d) as Hs.
  assert (Hall : forall r, r ∈ select_clips p d <-> clips d !! fst r = Some (snd r) /\ p r = true)
    by (intros; apply select_clips_elem).
  destruct (select_clips p d) as [|x l]; simplify_eq/=.
  destruct (proj1 (Hall row)) as [? ?]; [by left|]. split_and!; [done..|].
  intros r Hr Hp. apply StronglySorted_inv in Hs as [_ Hs]. rewrite Forall_forall in Hs.
  destruct (proj1 (elem_of_cons _ _ _) (proj2 (Hall r) (conj Hr Hp))) as [->|Hin];
    [apply row_leb_refl|by apply Hs].
Qed.

Lemma keeps_prepare_oldest_eligible_delete now boot :
  keeps (prepare_oldest_eligible_delete (F := F) now boot).
Proof.
  unfold prepare_oldest_eligible_delete. repeat keeps_step. apply keeps_transaction.
  intros w x w' Hok Hm. apply mbind_ok in Hm as (? & ? & [-> ->]%query_ok & Hm).
  destruct (head _) as [[id c]|] eqn:Hh; [|by inv_cat].
  apply head_select_clips in Hh as (Hc & _).
  apply mbind_ok in Hm as (q & w1 & Hq & [_ ->]%mret_ok).
  eauto using prepare_delete_row_locked_safe.
Qed.

Lemma keeps_trigger_event current source now p n e rq :
  keeps (trigger_event (F := F) current source now p n e rq).
Proof.
  unfold trigger_event. do 3 (apply keeps_bind; [apply keeps_lift|intros _]).
  apply keeps_bind; [destruct e; repeat keeps_step|intros event].
  apply keeps_transaction. intros w x w' Hok Hm.
  apply mbind_ok in Hm as (? & ? & [-> ->]%query_ok & Hm).
  destruct (events (w_db w) !! event) as [er|].
  - unfold replay_event in Hm. by inv_cat.
  - destruct current as [id|]; [|done]. by eapply record_event_safe.
Qed.

End catalog_safe.
