(* ===== verification/Reconcile.v ===== *)
(** * Catalog recovery ([src/dashcam/catalog/database.py])

    [reconcile_intent], which carries out one durable pair operation against the filesystem and
    can be repeated after any interruption, and [reconcile_startup], the bounded recovery pass
    built from it. *)

From Stdlib Require Import Ascii String ZArith Lia Strings.Byte.
From stdpp Require Import base list gmap strings sorting.
From S2P Require Import Prelude PyStr Uuid State Naming Intents Models Filesystem CatalogDb Catalog.

Section reconcile.
Context {F : Type} `{CatalogFilesystem F} `{Environment}.

(** ** Observation and sidecar checks *)

Definition exists_optional (p : option str) : M F bool :=
  match p with None => mret false | Some q => f_exists q end.

Definition observe_plan (intent : OperationIntent) : M F ReconciliationPlan :=
  let p := paths intent in
  video_target_exists <- exists_optional (video_target p) ;;
  sidecar_target_exists <- exists_optional (sidecar_target p) ;;
  video_source_exists <- f_exists (video_source p) ;;
  sidecar_source_exists <- f_exists (sidecar_source p) ;;
  mret (plan_reconciliation intent
          (mkObs video_source_exists video_target_exists)
          (mkObs sidecar_source_exists sidecar_target_exists)).

(** [except (OSError, ValueError, SidecarParseError): return problem]. *)
Definition or_problem (problem : string) (m : M F (option string)) : M F (option string) :=
  mtry m (fun e => if is_OSError e || is_ValueError e then mret (Some problem) else mraise e).

(** [assert path is not None]. *)
Definition the {A} (a : option A) : M F A :=
  match a with Some x => mret x | None => mfail AssertionError "" end.

(** The sidecar names this clip and these two files. *)
Definition sidecar_identifies (s : ClipSidecar) (id : UUID) (video sidecar : str) : bool :=
  bool_decide (sc_clip_id s = id)
  && bool_decide (sc_video_file s = path_name video)
  && bool_decide (sc_metadata_file s = path_name sidecar).

Definition validate_finalize_sidecar (intent : OperationIntent) (sidecar_path : str)
    : M F (option string) :=
  or_problem "INVALID_FINALIZE_SIDECAR" (
    payload <- f_read_bytes sidecar_path MAX_SIDECAR_BYTES ;;
    sidecar <- lift (parse_sidecar_bytes payload) ;;
    video <- the (video_target (paths intent)) ;;
    metadata <- the (sidecar_target (paths intent)) ;;
    if sidecar_identifies sidecar (clip_id intent) video metadata then mret None
    else mret (Some "FINALIZE_SIDECAR_IDENTITY_MISMATCH"%string)).

Definition is_sha256_hex (s : str) : bool := (len s =? 64) && forallb is_lower_hex s.

(** The recovery data of a name reconciliation: the target payload and the source digest. *)
Definition recovery_data (row : IntentRow) : option (bytes * str) :=
  match i_sidecar row, i_source_sha256 row with
  | Some payload, Some hash =>
      if bool_decide (payload = []) || (MAX_SIDECAR_BYTES <? blen payload) || negb (is_sha256_hex hash)
      then None else Some (payload, hash)
  | _, _ => None
  end.

(** Install the target metadata over the unchanged source sidecar, and read it back. *)
Definition install_target_sidecar (intent : OperationIntent) (payload : bytes) (hash : str)
    : M F (option string) :=
  let source := sidecar_source (paths intent) in
  current <- f_read_bytes source MAX_SIDECAR_BYTES ;;
  if bool_decide (current = payload) then mret None
  else if negb (bool_decide (sha256_hexdigest current = hash)) then
    mret (Some "NAME_RECONCILIATION_SOURCE_CHANGED"%string)
  else
    current_sidecar <- lift (parse_sidecar_bytes current) ;;
    if negb (sidecar_identifies current_sidecar (clip_id intent) (video_source (paths intent)) source)
    then mret (Some "NAME_RECONCILIATION_SOURCE_IDENTITY_MISMATCH"%string)
    else
      f_replace_bytes_atomic source payload MAX_SIDECAR_BYTES ;;;
      readback <- f_read_bytes source MAX_SIDECAR_BYTES ;;
      if bool_decide (readback = payload) then mret None
      else mret (Some "NAME_RECONCILIATION_REPLACE_READBACK_MISMATCH"%string).

Definition prepare_name_reconciliation_sidecar (intent : OperationIntent) (row : IntentRow)
    : M F (option string) :=
  match recovery_data row with
  | None => mret (Some "NAME_RECONCILIATION_RECOVERY_DATA_MISSING"%string)
  | Some (payload, hash) =>
      or_problem "INVALID_NAME_RECONCILIATION_SIDECAR" (
        target_sidecar <- lift (parse_sidecar_bytes payload) ;;
        let video := default [] (video_target (paths intent)) in
        let metadata := default [] (sidecar_target (paths intent)) in
        if negb (sidecar_identifies target_sidecar (clip_id intent) video metadata)
        then mret (Some "NAME_RECONCILIATION_TARGET_IDENTITY_MISMATCH"%string)
        else
          source_exists <- f_exists (sidecar_source (paths intent)) ;;
          if source_exists : bool then install_target_sidecar intent payload hash
          else
            target_exists <- f_exists metadata ;;
            if target_exists : bool then
              installed <- f_read_bytes metadata MAX_SIDECAR_BYTES ;;
              if bool_decide (installed = payload) then mret None
              else mret (Some "NAME_RECONCILIATION_TARGET_PAYLOAD_MISMATCH"%string)
            else mret None)
  end.

(** ** Completion *)

Definition mark_intent_complete_locked (intent : OperationIntent) (now : Z) : M F unit :=
  update_intent (intent_id intent) (with_complete now).

(** The compensating PROTECT move queued when an intent completes. *)
Definition queue_protect_after (intent : OperationIntent) (video sidecar : str) (now : Z) : M F unit :=
  p <- lift (move_paths video sidecar (u "protected")) ;;
  insert_intent_locked (clip_id intent) PROTECT p now None ;;;
  mret tt.

Definition complete_delete_locked (intent : OperationIntent) (now : Z) : M F unit :=
  update_clip (clip_id intent)
    (fun c => with_updated now (with_lease None (with_size 0
                (with_reconciled true (with_lifecycle DELETED c))))) ;;;
  mark_intent_complete_locked intent now.

Definition complete_unprotect_locked (intent : OperationIntent) (video sidecar : str) (now : Z)
    : M F unit :=
  intent_row <- query (fun d => intents d !! intent_id intent) ;;
  row <- the intent_row ;;
  clip_row <- required_clip_row (clip_id intent) ;;
  let newer_protection :=
    match i_expected_revision row with
    | None => true
    | Some expected => expected <? r_revision clip_row
    end in
  update_clip (clip_id intent)
    (fun c => with_updated now (with_reconciled (negb newer_protection)
                (with_protection newer_protection (if newer_protection then r_reason c else None)
                   (with_paths video sidecar c)))) ;;;
  mark_intent_complete_locked intent now ;;;
  if newer_protection : bool then queue_protect_after intent video sidecar now else mret tt.

Definition complete_protect_locked (intent : OperationIntent) (video sidecar : str) (now : Z)
    : M F unit :=
  update_clip (clip_id intent)
    (fun c => with_updated now (with_reconciled true
                (with_protection true (r_reason c) (with_paths video sidecar c)))) ;;;
  mark_intent_complete_locked intent now.

(** FINALIZE and RECONCILE_NAME. *)
Definition complete_rename_locked (intent : OperationIntent) (video sidecar : str) (now : Z)
    : M F unit :=
  clip_row <- required_clip_row (clip_id intent) ;;
  let needs_protect_move :=
    r_protected clip_row && negb (bool_decide (path_parent video = u "protected")) in
  update_clip (clip_id intent)
    (fun c => with_updated now (with_lifecycle FINALIZED
                (with_reconciled (negb needs_protect_move) (with_paths video sidecar c)))) ;;;
  mark_intent_complete_locked intent now ;;;
  if needs_protect_move : bool then queue_protect_after intent video sidecar now else mret tt.

Definition complete_intent_locked (intent : OperationIntent) (now : Z) : M F unit :=
  match kind intent with
  | DELETE => complete_delete_locked intent now
  | k =>
      video <- the (video_target (paths intent)) ;;
      sidecar <- the (sidecar_target (paths intent)) ;;
      match k with
      | UNPROTECT => complete_unprotect_locked intent video sidecar now
      | PROTECT => complete_protect_locked intent video sidecar now
      | _ => complete_rename_locked intent video sidecar now
      end
  end.

(** ** One intent *)

Definition run_action (a : ReconciliationAction) : M F unit :=
  match act_kind a with
  | MOVE => t <- the (act_target a) ;; f_move (act_source a) t
  | UNLINK => f_unlink (act_source a)
  end.

(** Sidecar checks that must pass before any member moves. *)
Definition validate_before_actions (intent : OperationIntent) (row : IntentRow) : M F (option string) :=
  match kind intent with
  | RECONCILE_NAME => prepare_name_reconciliation_sidecar intent row
  | FINALIZE =>
      at_source <- f_exists (sidecar_source (paths intent)) ;;
      sidecar_path <- the (if at_source : bool then Some (sidecar_source (paths intent))
                           else sidecar_target (paths intent)) ;;
      validate_finalize_sidecar intent sidecar_path
  | _ => mret None
  end.

(** An absent member of a DELETE is unlinked again, which makes its absence durable. *)
Definition confirm_absent (intent : OperationIntent) (plan : ReconciliationPlan) : M F unit :=
  match kind intent with
  | DELETE =>
      mfor (fun source => if bool_decide (source ∈ map act_source (actions plan)) then mret tt
                          else f_unlink source)
        [video_source (paths intent); sidecar_source (paths intent)]
  | _ => mret tt
  end.

Definition problem_codes (plan : ReconciliationPlan) : list string := map prob_code (problems plan).

Definition joined (codes : list string) : string := String.concat ";" codes.

Definition record_problem (id : UUID) (problem : option string) : M F unit :=
  update_intent id (with_problem problem).

Definition reconcile_intent (id : UUID) (now max_actions : Z) : M F IntentReconciliationResult :=
  lift (non_negative_integer now) ;;;
  lift (positive_integer max_actions) ;;;
  transaction (
    found <- query (fun d => intents d !! id) ;;
    match found with
    | None => mfail CatalogConflictError ("intent not found: " ++ string_of_list_ascii (uuid_str id))
    | Some row =>
        intent <- lift (intent_from_row row) ;;
        if i_complete row then mret (mkReconcileResult intent 0 true [])
        else
          plan <- observe_plan intent ;;
          if negb (bool_decide (problem_codes plan = [])) then
            record_problem id (Some (joined (problem_codes plan))) ;;;
            mret (mkReconcileResult intent 0 false (problem_codes plan))
          else
            validation_problem <- validate_before_actions intent row ;;
            match validation_problem with
            | Some problem =>
                record_problem id (Some problem) ;;;
                mret (mkReconcileResult intent 0 false [problem])
            | None =>
                confirm_absent intent plan ;;;
                let selected := limited max_actions (actions plan) in
                mfor run_action selected ;;;
                final_plan <- observe_plan intent ;;
                (if complete final_plan then complete_intent_locked intent now
                 else record_problem id
                        (if bool_decide (problem_codes final_plan = []) then None
                         else Some (joined (problem_codes final_plan)))) ;;;
                mret (mkReconcileResult intent (Z.of_nat (length selected)) (complete final_plan)
                        (problem_codes final_plan))
            end
    end).

(** ** Startup recovery *)

Definition catalog_rows_for_recovery (limit : Z) : M F (list (UUID * ClipRow)) :=
  query (fun d => limited limit (select_clips not_deleted d)).

Definition queue_directory_invariant_repair (id : UUID) (now : Z) : M F bool :=
  queued <- transaction (
    row <- required_clip_row id ;;
    queue_directory_invariant_repair_locked id row now) ;;
  mret (bool_decide (is_Some queued)).

Definition clip_issue (id : UUID) (code : string) : string :=
  ("clip:" ++ string_of_list_ascii (uuid_str id) ++ ":" ++ code)%string.

Definition record_complete_pair (id : UUID) (now : Z) : M F unit :=
  transaction (
    row <- required_clip_row id ;;
    let repaired :=
      if decide (r_lifecycle row ∈ [MISSING_SIDECAR; MISSING_VIDEO]) then FINALIZED
      else r_lifecycle row in
    update_clip id (fun c => with_updated now (with_reconciled true (with_lifecycle repaired c))) ;;;
    mret tt).

Definition record_pair_observation (id : UUID) (video_exists sidecar_exists : bool) (now : Z)
    : M F (option string) :=
  if video_exists && sidecar_exists then
    record_complete_pair id now ;;; mret None
  else
    let '(observed, code) :=
      if video_exists then (Some MISSING_SIDECAR, "MISSING_SIDECAR"%string)
      else if sidecar_exists then (Some MISSING_VIDEO, "MISSING_VIDEO"%string)
      else (None, "PAIR_MISSING"%string) in
    transaction (
      update_clip id (fun c => with_updated now (with_reconciled false
        (match observed with Some l => with_lifecycle l c | None => c end))) ;;;
      mret tt) ;;;
    mret (Some (clip_issue id code)).

(** Exceptions that make a sidecar an unindexed file rather than a failed pass. *)
Definition import_exception (e : exn) : bool :=
  is_ValueError e || is_OSError e
  || bool_decide (exn_cls e ∈ [TypeError; IntegrityError]).

Definition exn_name (e : exn) : string :=
  match exn_cls e with
  | ClipNameError => "ClipNameError" | TypeError => "TypeError" | OSError => "OSError"
  | FileExistsError => "FileExistsError" | FileNotFoundError => "FileNotFoundError"
  | SidecarParseError => "SidecarParseError" | IntegrityError => "IntegrityError"
  | StateTransitionError => "StateTransitionError" | DownloadLeaseError => "DownloadLeaseError"
  | ProfileValidationError => "ProfileValidationError"
  | _ => "ValueError"
  end%string.

(** The lifecycle and reconciliation flag of a recovered clip, by directory. *)
Definition recovered_state (directory : str) (pair_exists : bool) : ClipLifecycle * bool :=
  if bool_decide (directory = u "pending") then
    (if pair_exists then FINALIZING else MISSING_VIDEO, false)
  else if bool_decide (directory = u "quarantine") then (QUARANTINED, pair_exists)
  else (if pair_exists then FINALIZED else MISSING_VIDEO, pair_exists).

Inductive import_outcome := IMPORTED | NOT_IMPORTED | UNINDEXED (issue : string).

Definition import_sidecar (sidecar_path : str) (maximum_bytes now : Z) : M F import_outcome :=
  payload <- f_read_bytes sidecar_path maximum_bytes ;;
  sidecar <- lift (parse_sidecar_bytes payload) ;;
  let id := sc_clip_id sidecar in
  let metadata_name := sc_metadata_file sidecar in
  lift (ClipFilePair_new (sc_video_file sidecar) metadata_name) ;;;
  guard (negb (bool_decide (metadata_name = path_name sidecar_path))) ValueError
    "sidecar filename disagrees with metadata" ;;;
  let directory := path_parent sidecar_path in
  let protected := sc_protected sidecar || bool_decide (directory = u "protected") in
  let video_path := path_join directory (sc_video_file sidecar) in
  pair_exists <- f_exists video_path ;;
  let '(recovered_lifecycle, pair_reconciled) := recovered_state directory pair_exists in
  known <- mtry (c <- get_clip id ;; mret true)
             (fun e => if decide (exn_cls e = ClipNotFoundError) then mret false else mraise e) ;;
  if known : bool then mret NOT_IMPORTED
  else
    size <- (if pair_exists : bool then f_file_size video_path else mret 0) ;;
    register_clip
      (mkCatalogClip id recovered_lifecycle video_path sidecar_path
         (sc_start_monotonic_ns sidecar) (Some (sc_end_monotonic_ns sidecar))
         (sc_start_monotonic_ns sidecar) size protected
         (if sc_protected sidecar then sc_protection_reason sidecar
          else if protected then Some (u "recovered from protected directory") else None)
         pair_reconciled true None None) now ;;;
    mret IMPORTED.

Definition import_sidecar_if_unindexed (sidecar_path : str) (maximum_bytes now : Z)
    : M F import_outcome :=
  indexed <- query (fun d => existsb (fun row => bool_decide (r_sidecar_path (snd row) = sidecar_path))
                               (map_to_list (clips d))) ;;
  if indexed : bool then mret NOT_IMPORTED
  else
    match parse_clip_filename (path_name sidecar_path) with
    | Err e => if decide (exn_cls e = ClipNameError) then mret NOT_IMPORTED else mraise e
    | Ok parsed =>
        if negb (bool_decide (extension parsed = u "json")) then mret NOT_IMPORTED
        else
          mtry (import_sidecar sidecar_path maximum_bytes now)
            (fun e =>
               if import_exception e then
                 mret (UNINDEXED ("unindexed:" ++ string_of_list_ascii sidecar_path ++ ":"
                                    ++ exn_name e)%string)
               else mraise e)
    end.

(** The running totals of a pass. *)
Record Pass := mkPass {
  p_intents : Z; p_actions : Z; p_entries : Z; p_imported : Z;
  p_remaining : Z; p_issues : list string; p_more : bool
}.

Definition append_issue (maximum : Z) (issue : string) (issues : list string) : list string :=
  if Z.of_nat (length issues) <? maximum then issues ++ [issue] else issues.

Definition add_issue (maximum : Z) (issue : string) (p : Pass) : Pass :=
  mkPass (p_intents p) (p_actions p) (p_entries p) (p_imported p) (p_remaining p)
    (append_issue maximum issue (p_issues p)) (p_more p).

Definition mark_more (b : bool) (p : Pass) : Pass :=
  mkPass (p_intents p) (p_actions p) (p_entries p) (p_imported p) (p_remaining p)
    (p_issues p) (p_more p || b).

Definition intent_issue (id : UUID) (problem : string) : string :=
  ("intent:" ++ string_of_list_ascii (uuid_str id) ++ ":" ++ problem)%string.

(** The intent loop; it stops, with work left, when the action budget is spent. *)
Fixpoint startup_intents (b : ReconciliationBounds) (now : Z) (l : list OperationIntent) (p : Pass)
    : M F Pass :=
  match l with
  | [] => mret p
  | intent :: l' =>
      if max_actions b <=? p_actions p then mret (mark_more true p)
      else
        r <- reconcile_intent (intent_id intent) now (Z.min 2 (max_actions b - p_actions p)) ;;
        let p' := mkPass (p_intents p + 1) (p_actions p + rr_actions_attempted r) (p_entries p)
                    (p_imported p) (p_remaining p)
                    (foldl (fun acc problem =>
                              append_issue (max_issues b) (intent_issue (intent_id intent) problem) acc)
                       (p_issues p) (rr_problems r)) (p_more p) in
        startup_intents b now l' p'
  end.

(** One catalog row of the observation loop. *)
Definition startup_row (b : ReconciliationBounds) (now : Z) (p : Pass) (row : UUID * ClipRow)
    : M F Pass :=
  let '(id, r) := row in
  pending <- pending_intent_row id ;;
  if bool_decide (is_Some pending) then mret p
  else
    video_exists <- f_exists (r_video_path r) ;;
    sidecar_exists <- f_exists (r_sidecar_path r) ;;
    issue <- record_pair_observation id video_exists sidecar_exists now ;;
    match issue with
    | Some i => mret (add_issue (max_issues b) i p)
    | None =>
        queued <- queue_directory_invariant_repair id now ;;
        mret (mark_more queued p)
    end.

Definition startup_sidecar (b : ReconciliationBounds) (now : Z) (p : Pass) (path : str) : M F Pass :=
  outcome <- import_sidecar_if_unindexed path (max_sidecar_bytes b) now ;;
  mret (match outcome with
        | IMPORTED => mkPass (p_intents p) (p_actions p) (p_entries p) (p_imported p + 1)
                        (p_remaining p) (p_issues p) (p_more p)
        | NOT_IMPORTED => p
        | UNINDEXED issue => add_issue (max_issues b) issue p
        end).

(** The directory loop; it stops, with work left, when the entry budget is spent. *)
Fixpoint startup_directories (b : ReconciliationBounds) (now : Z) (directories : list str) (p : Pass)
    : M F Pass :=
  match directories with
  | [] => mret p
  | directory :: rest =>
      if p_remaining p <=? 0 then mret (mark_more true p)
      else
        ' (files, examined, truncated) <- f_iter_files directory (p_remaining p) ;;
        let p' := mkPass (p_intents p) (p_actions p) (p_entries p + examined) (p_imported p)
                    (p_remaining p - examined) (p_issues p) (p_more p || truncated) in
        p'' <- mfold (startup_sidecar b now) p' (List.filter (endswith (u ".json")) files) ;;
        startup_directories b now rest p''
  end.

Definition work_queued : M F bool :=
  l <- list_pending_intents 1 ;; mret (negb (bool_decide (l = []))).

Definition reconcile_startup (now : Z) (boot : str) (b : ReconciliationBounds)
    : M F StartupReconciliationReport :=
  lift (non_negative_integer now) ;;;
  lift (check_boot_id boot) ;;;
  ' (expired, leases_more) <- clear_expired_download_leases now boot (max_expired_leases b) ;;
  listed <- list_pending_intents (max_intents b + 1) ;;
  let pass := mkPass 0 0 0 0 (max_directory_entries b) []
                (leases_more || (max_intents b <? Z.of_nat (length listed))) in
  pass <- startup_intents b now (limited (max_intents b) listed) pass ;;
  queued <- work_queued ;;
  rows <- catalog_rows_for_recovery (max_catalog_clips b + 1) ;;
  let examined_rows := limited (max_catalog_clips b) rows in
  let pass := mark_more (queued || (max_catalog_clips b <? Z.of_nat (length rows))) pass in
  pass <- mfold (startup_row b now) pass examined_rows ;;
  pass <- startup_directories b now MANAGED_DIRECTORIES pass ;;
  queued <- work_queued ;;
  mret (mkStartupReport (p_intents pass) (p_actions pass) (Z.of_nat (length examined_rows))
          (p_entries pass) (p_imported pass) expired (p_issues pass)
          (p_more pass || queued || (Z.of_nat (length (p_issues pass)) =? max_issues b))).

End reconcile.
