(* ===== verification/ReconcileSafe.v ===== *)
(** * Recovery preserves the catalog invariant

    [reconcile_intent] and every phase of [reconcile_startup] keep [db_ok], whatever the
    filesystem does; [catalog_reachable] is the set of worlds the catalog's methods can reach. *)

From Stdlib Require Import Ascii String ZArith Lia Strings.Byte.
From stdpp Require Import base list gmap strings sorting.
From S2P Require Import Prelude PyStr Uuid State Naming Intents Models Filesystem.
From S2P Require Import CatalogDb Catalog Reconcile ManagedPath CatalogInv CatalogSafe.

Section db_same.
Context {F : Type} `{CatalogFilesystem F} `{Environment}.
Implicit Types w : World F.

(** ** Steps that leave the database alone *)

Definition db_same {A} (m : M F A) : Prop := forall w, w_db (snd (m w)) = w_db w.

Lemma db_same_bind {A B} (m : M F A) (k : A -> M F B) :
  db_same m -> (forall a, db_same (k a)) -> db_same (mbind m k).
Proof.
  intros Hm Hk w. unfold mbind. specialize (Hm w). destruct (m w) as [[a|e] w']; simpl in *; [|done].
  by rewrite Hk.
Qed.

Lemma db_same_ok {A} (m : M F A) w a w' : db_same m -> m w = (Ok a, w') -> w_db w' = w_db w.
Proof. intros Hm E. specialize (Hm w). by rewrite E in Hm. Qed.

Lemma db_same_mtry {A} (m : M F A) h : db_same m -> (forall e, db_same (h e)) -> db_same (mtry m h).
Proof.
  intros Hm Hh w. unfold mtry. specialize (Hm w). destruct (m w) as [[a|e] w']; simpl in *; [done|].
  by rewrite Hh.
Qed.

Lemma db_same_mfor {A} (f : A -> M F unit) l : (forall x, db_same (f x)) -> db_same (mfor f l).
Proof.
  intros Hf. unfold mfor. induction l as [|x l IH]; [by intros w|]. simpl.
  apply db_same_bind; [apply Hf|]. by intros [].
Qed.

Lemma db_same_mret {A} (a : A) : db_same (mret a). Proof. by intros w. Qed.
Lemma db_same_mraise {A} e : db_same (@mraise F A e). Proof. by intros w. Qed.
Lemma db_same_lift {A} (r : result A) : db_same (lift r). Proof. by intros w. Qed.
Lemma db_same_the {A} (a : option A) : db_same (the a). Proof. intros w. by destruct a. Qed.
Lemma db_same_exists p : db_same (f_exists p). Proof. by intros w. Qed.
Lemma db_same_read p m : db_same (f_read_bytes p m). Proof. by intros w. Qed.
Lemma db_same_move s t : db_same (f_move s t).
Proof. intros w. unfold f_move. by destruct (fs_move _ _ _). Qed.
Lemma db_same_unlink p : db_same (f_unlink p).
Proof. intros w. unfold f_unlink. by destruct (fs_unlink _ _). Qed.
Lemma db_same_replace p d m : db_same (f_replace_bytes_atomic p d m).
Proof. intros w. unfold f_replace_bytes_atomic. by destruct (fs_replace_bytes_atomic _ _ _ _). Qed.

End db_same.

#[export] Hint Resolve db_same_mret db_same_mraise db_same_lift db_same_the db_same_exists
  db_same_read db_same_move db_same_unlink db_same_replace : dashcam.

Ltac db_same_step :=
  match goal with
  | |- db_same (let x := _ in _) => cbv zeta
  | |- db_same (mbind _ _) => apply db_same_bind; [|intros ?]
  | |- db_same (if ?b then _ else _) => destruct b
  | |- db_same (match ?x with _ => _ end) => destruct x
  | |- db_same (mtry _ _) => apply db_same_mtry; [|intros ?]
  | |- db_same (mfor _ _) => apply db_same_mfor; intros ?
  | |- db_same _ => solve [eauto with dashcam]
  end.

Lemma plan_action_shape i v s a :
  a ∈ actions (plan_reconciliation i v s) ->
  match kind i with
  | DELETE => act_kind a = UNLINK /\ act_source a ∈ [video_source (paths i); sidecar_source (paths i)]
  | _ => act_kind a = MOVE
  end.
Proof.
  unfold plan_reconciliation. destruct v as [[] []], s as [[] []], (kind i); simpl;
    rewrite ?elem_of_cons, ?elem_of_nil; naive_solver.
Qed.

Section reconcile_safe.
Context {F : Type} `{CatalogFilesystem F} `{Environment}.
Implicit Types w : World F.

Lemma validate_before_actions_db i row : db_same (F := F) (validate_before_actions i row).
Proof.
  unfold validate_before_actions, validate_finalize_sidecar, prepare_name_reconciliation_sidecar,
    install_target_sidecar, or_problem.
  repeat db_same_step.
Qed.

Lemma confirm_absent_db i plan : db_same (F := F) (confirm_absent i plan).
Proof. unfold confirm_absent. repeat db_same_step. Qed.

Lemma run_actions_db l : db_same (F := F) (mfor run_action l).
Proof. apply db_same_mfor. intros a. unfold run_action. repeat db_same_step. Qed.

Lemma the_ok {A} (a : option A) w x w' : the a w = (Ok x, w') -> a = Some x /\ w' = w.
Proof. destruct a; simpl; [|done]. by intros [-> ->]%mret_ok. Qed.

Lemma exists_optional_ok p w b w' :
  exists_optional p w = (Ok b, w') ->
  w' = w /\ match p with None => b = false | Some q => fs_exists (w_fs w) q = Ok b end.
Proof. destruct p; simpl; [unfold f_exists; naive_solver|by intros [-> ->]%mret_ok]. Qed.

Lemma observe_plan_ok i w plan w' :
  observe_plan i w = (Ok plan, w') ->
  w' = w /\ exists v s,
    plan = plan_reconciliation i v s /\
    fs_exists (w_fs w) (video_source (paths i)) = Ok (source_exists v) /\
    fs_exists (w_fs w) (sidecar_source (paths i)) = Ok (source_exists s) /\
    match video_target (paths i) with
    | None => target_exists v = false | Some q => fs_exists (w_fs w) q = Ok (target_exists v) end /\
    match sidecar_target (paths i) with
    | None => target_exists s = false | Some q => fs_exists (w_fs w) q = Ok (target_exists s) end.
Proof.
  unfold observe_plan. intros Hm.
  apply mbind_ok in Hm as (vt & ? & [-> Hvt]%exists_optional_ok & Hm).
  apply mbind_ok in Hm as (st & ? & [-> Hst]%exists_optional_ok & Hm).
  apply mbind_ok in Hm as (vs & ? & Hvs & Hm). apply mbind_ok in Hm as (ss & ? & Hss & Hm).
  unfold f_exists in *. simplify_eq. apply mret_ok in Hm as [-> ->]. split; [done|].
  by exists (mkObs vs vt), (mkObs ss st).
Qed.

Lemma intent_from_row_stored row : stored_ok (i_intent row) -> intent_from_row row = Ok (i_intent row).
Proof. intros [[Hp Hn] _]. unfold intent_from_row. rewrite Hp. simpl. exact Hn. Qed.

(** ** Completion *)

Lemma target_paths_ok i v s :
  stored_ok i -> video_target (paths i) = Some v -> sidecar_target (paths i) = Some s -> placed v s.
Proof.
  intros [[Hpo _] Hm] Hv Hs. split; [|apply Hm; by left|apply Hm; by right].
  revert Hpo. intros (_ & _ & _ & _ & Ht & Hne)%PairPaths_new_ok. unfold PairPaths_new. simpl.
  assert (validate_relative_path v = Ok tt) as -> by (apply Ht; auto).
  assert (validate_relative_path s = Ok tt) as -> by (apply Ht; auto).
  simpl. by rewrite bool_decide_false by eauto.
Qed.

(** The compensating move queued once an intent is complete. *)
Lemma queue_protect_after_safe i v s now w x w' c :
  db_ok (w_db w) -> queue_protect_after i v s now w = (Ok x, w') ->
  pending_of (w_db w) (clip_id i) = None ->
  clips (w_db w) !! clip_id i = Some c ->
  r_video_path c = v -> r_sidecar_path c = s -> r_lifecycle c = FINALIZED ->
  r_reconciled c = false -> r_protected c = true -> db_ok (w_db w').
Proof.
  unfold queue_protect_after. intros Hok Hm Hp Hc Ev Es Hl Hr Hpr.
  apply mbind_ok in Hm as (p & ? & [Hmp ->]%lift_ok & Hm).
  apply mbind_ok in Hm as (it & ? & Hi & [_ ->]%mret_ok).
  pose proof Hmp as Hmp'. apply move_paths_ok in Hmp as (Hpo & Evs & Ess & _).
  pose proof Hmp' as Hmg%move_paths_managed; [|apply protected_managed].
  apply insert_intent_locked_ok in Hi as (-> & ? & ? & ? & _ & ->); [|done..].
  simpl in *. eapply db_ok_queue_same; eauto. unfold pending_row_ok. simpl. split_and!; congruence.
Qed.

Lemma mark_complete_ok i now w x w' :
  mark_intent_complete_locked i now w = (Ok x, w') ->
  w' = set_db (set_intents (fun m => alter (with_complete now) (intent_id i) m) (w_db w)) w.
Proof. by intros ->%execute_ok. Qed.

(** Update the clip of a pending intent, then mark the intent complete. *)
Lemma update_and_complete_safe id row now f w x w1 y w2 c :
  db_ok (w_db w) -> intents (w_db w) !! id = Some row -> i_complete row = false ->
  clips (w_db w) !! clip_id (i_intent row) = Some c ->
  (clip_checks (f c) = true -> row_ok (f c)) -> r_order (f c) = r_order c ->
  update_clip (clip_id (i_intent row)) f w = (Ok x, w1) ->
  mark_intent_complete_locked (i_intent row) now w1 = (Ok y, w2) ->
  db_ok (w_db w2) /\ pending_of (w_db w2) (clip_id (i_intent row)) = None /\
  clips (w_db w2) !! clip_id (i_intent row) = Some (f c).
Proof.
  intros Hok Hi Hinc Hc Hrow Hord Hu Hm.
  destruct (ok_intents _ Hok _ _ Hi) as (Hid & _).
  destruct (update_clip_row _ _ _ _ _ _ Hu Hc) as [Hchk ->].
  apply mark_complete_ok in Hm as ->. simpl. rewrite Hid.
  destruct (db_ok_complete _ id row c (f c) now Hok Hi Hinc Hc (Hrow Hchk) Hord) as [? ?].
  split_and!; [done|done|]. simpl. apply lookup_insert_eq.
Qed.

Lemma complete_delete_safe id row now w x w' :
  db_ok (w_db w) -> intents (w_db w) !! id = Some row -> i_complete row = false ->
  complete_delete_locked (i_intent row) now w = (Ok x, w') -> db_ok (w_db w').
Proof.
  intros Hok Hi Hinc Hm. apply mbind_ok in Hm as (? & w1 & Hu & Hm).
  destruct (ok_intents _ Hok _ _ Hi) as (_ & _ & c & Hc & _).
  eapply update_and_complete_safe in Hu as (? & _); eauto.
  intros Hchk. destruct (ok_rows _ Hok _ _ Hc) as (_ & ? & ?). by split_and!.
Qed.

Lemma complete_protect_safe id row v s now w x w' :
  db_ok (w_db w) -> intents (w_db w) !! id = Some row -> i_complete row = false ->
  kind (i_intent row) = PROTECT ->
  video_target (paths (i_intent row)) = Some v -> sidecar_target (paths (i_intent row)) = Some s ->
  complete_protect_locked (i_intent row) v s now w = (Ok x, w') -> db_ok (w_db w').
Proof.
  intros Hok Hi Hinc Hk Hv Hs Hm. apply mbind_ok in Hm as (? & w1 & Hu & Hm).
  destruct (ok_intents _ Hok _ _ Hi) as (_ & Hpo & c & Hc & Hp).
  specialize (Hp Hinc). unfold pending_row_ok in Hp. rewrite Hk in Hp.
  destruct (ok_rows _ Hok _ _ Hc) as (_ & Hr & _).
  eapply update_and_complete_safe in Hu as (? & _); eauto.
  intros Hchk. split_and!; [done| |by eapply target_paths_ok]. simpl. naive_solver.
Qed.

Lemma complete_unprotect_safe id row v s now w x w' :
  db_ok (w_db w) -> intents (w_db w) !! id = Some row -> i_complete row = false ->
  kind (i_intent row) = UNPROTECT ->
  video_target (paths (i_intent row)) = Some v -> sidecar_target (paths (i_intent row)) = Some s ->
  complete_unprotect_locked (i_intent row) v s now w = (Ok x, w') -> db_ok (w_db w').
Proof.
  intros Hok Hi Hinc Hk Hv Hs Hm.
  destruct (ok_intents _ Hok _ _ Hi) as (Hid & Hpo & c & Hc & Hp).
  specialize (Hp Hinc). unfold pending_row_ok in Hp. rewrite Hk in Hp.
  destruct Hp as (_ & _ & _ & Hl & e & He & Hle & Hnew).
  destruct (ok_rows _ Hok _ _ Hc) as (_ & Hr & _).
  apply mbind_ok in Hm as (? & ? & [-> ->]%query_ok & Hm). rewrite Hid, Hi in Hm.
  apply mbind_ok in Hm as (? & ? & [[= <-] ->]%the_ok & Hm).
  apply mbind_ok in Hm as (c' & ? & [Hc' ->]%required_clip_row_ok & Hm).
  assert (c' = c) as -> by congruence. rewrite He in Hm.
  apply mbind_ok in Hm as (? & w1 & Hu & Hm). apply mbind_ok in Hm as (? & w2 & Hmark & Hm).
  unshelve epose proof (update_and_complete_safe _ _ _ _ _ _ _ _ _ _ Hok Hi Hinc Hc _ _ Hu Hmark)
    as (Hok2 & Hp2 & Hc2); [|done|].
  - intros Hchk. split_and!; [done| |by eapply target_paths_ok]. simpl.
    destruct (e <? r_revision c) eqn:E; bool_prop; [naive_solver|]. split; [done|by intros []].
  - destruct (e <? r_revision c) eqn:E; [|by apply mret_ok in Hm as [_ ->]].
    by eapply queue_protect_after_safe; [exact Hok2|exact Hm|exact Hp2|exact Hc2|..].
Qed.

Lemma complete_rename_safe id row v s now w x w' :
  db_ok (w_db w) -> intents (w_db w) !! id = Some row -> i_complete row = false ->
  video_target (paths (i_intent row)) = Some v -> sidecar_target (paths (i_intent row)) = Some s ->
  complete_rename_locked (i_intent row) v s now w = (Ok x, w') -> db_ok (w_db w').
Proof.
  intros Hok Hi Hinc Hv Hs Hm.
  destruct (ok_intents _ Hok _ _ Hi) as (_ & Hpo & c & Hc & _).
  destruct (ok_rows _ Hok _ _ Hc) as (_ & Hr & _).
  apply mbind_ok in Hm as (c' & ? & [Hc' ->]%required_clip_row_ok & Hm).
  assert (c' = c) as -> by congruence.
  apply mbind_ok in Hm as (? & w1 & Hu & Hm). apply mbind_ok in Hm as (? & w2 & Hmark & Hm).
  unshelve epose proof (update_and_complete_safe _ _ _ _ _ _ _ _ _ _ Hok Hi Hinc Hc _ _ Hu Hmark)
    as (Hok2 & Hp2 & Hc2); [|done|].
  - intros Hchk. split_and!; [done|done|by eapply target_paths_ok].
  - destruct (r_protected c && _) eqn:E; [|by apply mret_ok in Hm as [_ ->]]. bool_prop.
    by eapply queue_protect_after_safe; [exact Hok2|exact Hm|exact Hp2|exact Hc2|..].
Qed.

Lemma complete_intent_locked_safe id row now w x w' :
  db_ok (w_db w) -> intents (w_db w) !! id = Some row -> i_complete row = false ->
  complete_intent_locked (i_intent row) now w = (Ok x, w') -> db_ok (w_db w').
Proof.
  unfold complete_intent_locked. intros Hok Hi Hinc Hm.
  destruct (kind (i_intent row)) eqn:Hk; [..|by eapply complete_delete_safe];
    apply mbind_ok in Hm as (v & ? & [Hv ->]%the_ok & Hm);
    apply mbind_ok in Hm as (s & ? & [Hs ->]%the_ok & Hm).
  - by eapply complete_rename_safe.
  - by eapply complete_rename_safe.
  - by eapply complete_protect_safe.
  - by eapply complete_unprotect_safe.
Qed.

(** What a successful [reconcile_intent] does to the database: nothing, record a problem, or
    complete the pending intent. *)
Lemma reconcile_intent_ok id now n w a w' :
  db_ok (w_db w) -> reconcile_intent (F := F) id now n w = (Ok a, w') ->
  w_db w' = w_db w \/
  (exists p, w_db w' = set_intents (fun m => alter (with_problem p) id m) (w_db w)) \/
  exists row w3 x, intents (w_db w) !! id = Some row /\ i_complete row = false /\
    w_db w3 = w_db w /\ complete_intent_locked (i_intent row) now w3 = (Ok x, w').
Proof.
  intros Hok Hm. unfold reconcile_intent in Hm.
  do 2 apply mbind_ok in Hm as (? & ? & [_ ->]%lift_ok & Hm).
  apply (proj1 (transaction_ok _ _ _ _)) in Hm.
  apply mbind_ok in Hm as (? & ? & [-> ->]%query_ok & Hm).
  destruct (intents (w_db w) !! id) as [row|] eqn:Hi; [|done].
  destruct (ok_intents _ Hok _ _ Hi) as (_ & Hst & _).
  apply mbind_ok in Hm as (i & ? & [Hf ->]%lift_ok & Hm).
  rewrite intent_from_row_stored in Hf by done. injection Hf as <-.
  destruct (i_complete row) eqn:Hinc; [apply mret_ok in Hm as [_ ->]; by left|].
  apply mbind_ok in Hm as (plan & ? & [-> _]%observe_plan_ok & Hm).
  destruct (negb _).
  { right; left. unfold record_problem, update_intent in Hm. inv_M. by eexists. }
  apply mbind_ok in Hm as (vp & w1 & Hv & Hm).
  apply db_same_ok in Hv; [|apply validate_before_actions_db].
  destruct vp as [problem|].
  { right; left. unfold record_problem, update_intent in Hm. inv_M. rewrite Hv. by eexists. }
  apply mbind_ok in Hm as (? & w2 & Hca & Hm). apply db_same_ok in Hca; [|apply confirm_absent_db].
  apply mbind_ok in Hm as (? & w3 & Hra & Hm). apply db_same_ok in Hra; [|apply run_actions_db].
  apply mbind_ok in Hm as (final & ? & [-> _]%observe_plan_ok & Hm).
  assert (Hdb : w_db w3 = w_db w) by congruence.
  apply mbind_ok in Hm as (? & w4 & Hc & [-> ->]%mret_ok). right.
  destruct (complete final); [right; by eauto 8|left].
  apply execute_ok in Hc as ->. simpl. rewrite Hdb. by eexists.
Qed.

Lemma keeps_reconcile_intent id now n : keeps (reconcile_intent (F := F) id now n).
Proof.
  intros w Hok. destruct (reconcile_intent id now n w) as [[a|e] w'] eqn:Hm; simpl.
  - apply reconcile_intent_ok in Hm as [->|[[p ->]|(row & w3 & x & Hi & Hinc & Hdb & Hc)]];
      [done|by apply db_ok_problem| |done].
    eapply complete_intent_locked_safe; [..|exact Hc]; rewrite ?Hdb; eauto.
  - revert Hok. unfold reconcile_intent in Hm.
    unfold mbind at 1, lift at 1 in Hm. destruct (non_negative_integer now); [|by simplify_eq].
    unfold mbind at 1, lift at 1 in Hm. destruct (positive_integer n); [|by simplify_eq].
    by apply transaction_err in Hm as ->.
Qed.

(** ** Startup *)

Lemma mbind_exists {B} p (k : bool -> M F B) w :
  mbind (f_exists p) k w
  = match fs_exists (w_fs w) p with Ok b => k b w | Err e => (Err e, w) end.
Proof. unfold mbind, f_exists. by destruct (fs_exists _ _). Qed.

Lemma transaction_keeps_at {A} (m : M F A) w :
  db_ok (w_db w) -> (forall a w', m w = (Ok a, w') -> db_ok (w_db w')) ->
  db_ok (w_db (snd (transaction m w))).
Proof. intros Hok Hm. unfold transaction. destruct (m w) as [[a|e] w'] eqn:E; simpl; eauto. Qed.

Lemma bind_keeps_at {A B} (m : M F A) (k : A -> M F B) w :
  db_ok (w_db (snd (m w))) -> (forall a, keeps (k a)) -> db_ok (w_db (snd (mbind m k w))).
Proof. intros Hm Hk. unfold mbind. destruct (m w) as [[a|e] w']; simpl in *; [by apply Hk|done]. Qed.

(** Observing an idle clip's pair. *)
Lemma record_pair_observation_safe id ve se now w :
  db_ok (w_db w) -> pending_of (w_db w) id = None ->
  db_ok (w_db (snd (record_pair_observation id ve se now w))).
Proof.
  intros Hok Hp. unfold record_pair_observation, record_complete_pair.
  destruct (ve && se).
  - apply bind_keeps_at; [|intros; apply keeps_mret]. apply transaction_keeps_at; [done|].
    intros a w' Hm. inv_cat.
    match goal with Hu : update_clip _ _ _ = _ |- _ =>
      destruct (update_clip_row _ _ _ _ _ _ Hu Hc) as [_ ->] end.
    eapply idle_update_ok; eauto. exact (ok_rows _ Hok _ _ Hc).
  - destruct (if ve then _ else _) as [observed code].
    apply bind_keeps_at; [|intros; apply keeps_mret]. apply transaction_keeps_at; [done|].
    intros a w' Hm. apply mbind_ok in Hm as (? & ? & Hu & [_ ->]%mret_ok).
    apply update_clip_ok in Hu as [(_ & _ & ->)|(c & Hc & _ & _ & ->)]; [done|].
    simpl. eapply idle_update_ok; eauto; destruct observed; try exact (ok_rows _ Hok _ _ Hc); done.
Qed.

Lemma keeps_repair id now : keeps (F := F) (queue_directory_invariant_repair id now).
Proof.
  unfold queue_directory_invariant_repair. apply keeps_bind; [|intros; apply keeps_mret].
  apply keeps_transaction. intros w q w' Hok Hm.
  apply mbind_ok in Hm as (c & w1 & [Hc ->]%required_clip_row_ok & Hm).
  by eapply repair_locked_safe.
Qed.

Lemma keeps_startup_row b now p row : keeps (F := F) (startup_row b now p row).
Proof.
  destruct row as [id r]. intros w Hok. unfold startup_row.
  change (mbind (pending_intent_row id) ?k w) with (k (pending_of (w_db w) id) w).
  cbv beta. destruct (bool_decide _) eqn:Hp; [done|]. bool_prop. apply eq_None_not_Some in Hp.
  rewrite mbind_exists. destruct (fs_exists _ _) as [ve|]; [|done].
  rewrite mbind_exists. destruct (fs_exists _ _) as [se|]; [|done].
  apply bind_keeps_at; [by apply record_pair_observation_safe|].
  intros [i|]; [apply keeps_mret|]. apply keeps_bind; [apply keeps_repair|intros; apply keeps_mret].
Qed.

Lemma keeps_import path n now : keeps (F := F) (import_sidecar_if_unindexed path n now).
Proof.
  unfold import_sidecar_if_unindexed, import_sidecar, get_clip, required_clip_row.
  repeat (keeps_step || apply keeps_register_clip).
Qed.

Lemma keeps_startup_intents b now l p : keeps (F := F) (startup_intents b now l p).
Proof.
  revert p. induction l as [|i l IH]; intros p; simpl; [apply keeps_mret|].
  destruct (_ <=? _); [apply keeps_mret|].
  apply keeps_bind; [apply keeps_reconcile_intent|intros; apply IH].
Qed.

Lemma keeps_startup_directories b now ds p : keeps (F := F) (startup_directories b now ds p).
Proof.
  revert p. induction ds as [|d ds IH]; intros p; simpl; [apply keeps_mret|].
  repeat (keeps_step || apply IH).
  all: unfold startup_sidecar; apply keeps_bind; [apply keeps_import|intros; apply keeps_mret].
Qed.

Lemma keeps_reconcile_startup now boot b : keeps (F := F) (reconcile_startup now boot b).
Proof.
  unfold reconcile_startup, work_queued, list_pending_intents, catalog_rows_for_recovery.
  repeat (keeps_step || apply keeps_clear_expired_download_leases || apply keeps_startup_intents
          || apply keeps_startup_directories || apply keeps_startup_row).
Qed.

(** Everything [reconcile_intent] does once its intent is read and its plan has no problem. *)
Definition carry_out (intent : OperationIntent) (row : IntentRow) (plan : ReconciliationPlan)
    (id : UUID) (now maximum : Z) : M F IntentReconciliationResult :=
  validation_problem <- validate_before_actions intent row ;;
  match validation_problem with
  | Some problem =>
      record_problem id (Some problem) ;;;
      mret (mkReconcileResult intent 0 false [problem])
  | None =>
      confirm_absent intent plan ;;;
      let selected := limited maximum (actions plan) in
      mfor run_action selected ;;;
      final_plan <- observe_plan intent ;;
      (if complete final_plan then complete_intent_locked intent now
       else record_problem id
              (if bool_decide (problem_codes final_plan = []) then None
               else Some (joined (problem_codes final_plan)))) ;;;
      mret (mkReconcileResult intent (Z.of_nat (length selected)) (complete final_plan)
              (problem_codes final_plan))
  end.

End reconcile_safe.
