(* ===== verification/CatalogProperties.v ===== *)
(** * Catalog properties

    The reachable worlds of the catalog and the invariants of the states in them, atomicity of
    failed calls, deletion of the oldest eligible clip, and download leases. *)

From Stdlib Require Import Ascii String ZArith Lia Strings.Byte.
From stdpp Require Import base list gmap strings sorting.
From S2P Require Import Prelude PyStr Uuid Retention State Naming Intents Models Filesystem.
From S2P Require Import CatalogDb Catalog Reconcile CatalogDemo ManagedPath CatalogInv CatalogSafe.
From S2P Require Import ReconcileSafe.

(** ** Reachable worlds *)

Section reachable.
Context {F : Type} `{CatalogFilesystem F} `{Environment}.

(** One call of a method that can change state. *)
Inductive catalog_call :=
  | CStoreLatch (l : RetentionThresholdLatch)
  | CRegister (clip : CatalogClip) (now : Z)
  | CRegisterWriting (clip : CatalogClip) (now : Z)
  | CActiveClosing (id : UUID) (now : Z)
  | CMarkOrphaned (id : UUID) (now : Z)
  | CRegisterFinalizing (clip : CatalogClip) (p : PairPaths) (now : Z) (expected : option Z)
  | CRegisterName (plan : MetadataReconciliationPlan) (source : ClipSidecar) (now : Z)
  | CAcquireLease (id : UUID) (h : str) (now d : Z) (boot : str) (maximum : Z)
  | CReleaseLease (id : UUID) (h : str) (now : Z)
  | CClearLeases (now : Z) (boot : str) (limit : Z)
  | CProtect (id : UUID) (reason : str) (now : Z)
  | CUnprotect (id : UUID) (now : Z)
  | CDelete (id : UUID) (now : Z) (boot : str)
  | CDeleteOldest (now : Z) (boot : str)
  | CTrigger (current : option UUID) (source : EventSource) (now p n : Z) (event : option UUID) (rq : bool)
  | CFinalize (id : UUID) (e size now : Z)
  | CReconcile (id : UUID) (now maximum : Z)
  | CStartup (now : Z) (boot : str) (b : ReconciliationBounds).

Definition void {A} (m : M F A) : M F unit := m ;;; mret tt.

Definition run_call (c : catalog_call) : M F unit :=
  match c with
  | CStoreLatch l => store_retention_threshold_latch l
  | CRegister clip now => register_clip clip now
  | CRegisterWriting clip now => register_writing_clip clip now
  | CActiveClosing id now => void (active_closing_protection id now)
  | CMarkOrphaned id now => void (mark_writing_clip_orphaned id now)
  | CRegisterFinalizing clip p now e => void (register_finalizing_clip clip p now e)
  | CRegisterName plan source now => void (register_name_reconciliation plan source now)
  | CAcquireLease id h now d boot n => void (acquire_download_lease id h now d boot n)
  | CReleaseLease id h now => void (release_download_lease id h now)
  | CClearLeases now boot limit => void (clear_expired_download_leases now boot limit)
  | CProtect id reason now => void (prepare_protect id reason now)
  | CUnprotect id now => void (prepare_unprotect id now)
  | CDelete id now boot => void (prepare_delete id now boot)
  | CDeleteOldest now boot => void (prepare_oldest_eligible_delete now boot)
  | CTrigger current source now p n e rq => void (trigger_event current source now p n e rq)
  | CFinalize id e size now => void (finalize_clip id e size now)
  | CReconcile id now n => void (reconcile_intent id now n)
  | CStartup now boot b => void (reconcile_startup now boot b)
  end.

(** The value types of the arguments: paths and intents went through their constructors. *)
Definition call_typed (c : catalog_call) : Prop :=
  match c with
  | CRegisterFinalizing _ p _ _ => paths_ok p
  | CRegisterName plan _ _ => forall i, mp_intent plan = Some i -> constructed i
  | _ => True
  end.

(** Starting from a fresh database over any volume, any calls (failed ones included), while
    anything else may change the files between two calls. *)
Inductive catalog_reachable : World F -> Prop :=
  | reach_start f n : catalog_reachable (mkWorld empty_db f n)
  | reach_call w c : catalog_reachable w -> call_typed c -> catalog_reachable (snd (run_call c w))
  | reach_files w f : catalog_reachable w -> catalog_reachable (set_fs f w).

Lemma keeps_void {A} (m : M F A) : keeps m -> keeps (void m).
Proof. intros. apply keeps_bind; [done|intros; apply keeps_mret]. Qed.

Lemma keeps_call c : call_typed c -> keeps (run_call c).
Proof.
  destruct c; simpl; intros Hc; try apply keeps_void; eauto using keeps_latch_store,
    keeps_register_clip, keeps_register_writing_clip, keeps_active_closing_protection,
    keeps_mark_writing_clip_orphaned, keeps_register_finalizing_clip,
    keeps_register_name_reconciliation, keeps_acquire_download_lease, keeps_release_download_lease,
    keeps_clear_expired_download_leases, keeps_prepare_protect, keeps_prepare_unprotect,
    keeps_prepare_delete, keeps_prepare_oldest_eligible_delete, keeps_trigger_event,
    keeps_finalize_clip, keeps_reconcile_intent, keeps_reconcile_startup.
Qed.

Lemma reachable_ok w : catalog_reachable w -> db_ok (w_db w).
Proof.
  induction 1 as [f n|w c _ IH Hc|w f _ IH]; [apply empty_db_ok| |exact IH].
  by apply keeps_call.
Qed.

(** A sequence of calls, whether or not each succeeds. *)
Definition run_calls (cs : list catalog_call) (w : World F) : World F :=
  foldl (fun w c => snd (run_call c w)) w cs.

Lemma reachable_run_calls cs w :
  catalog_reachable w -> Forall call_typed cs -> catalog_reachable (run_calls cs w).
Proof.
  intros Hw Hcs. revert w Hw. induction Hcs as [|c cs Hc _ IH]; intros w Hw; [done|].
  by apply IH, reach_call.
Qed.

(** ** Failed calls *)

(** An error leaves the database as it was. *)
Definition atomic {A} (m : M F A) : Prop := forall w e w', m w = (Err e, w') -> w_db w' = w_db w.

Lemma atomic_transaction {A} (m : M F A) : atomic (transaction m).
Proof. intros w e w'. apply transaction_err. Qed.

Lemma atomic_bind_l {A B} (m : M F A) (k : A -> M F B) :
  db_same m -> (forall a, atomic (k a)) -> atomic (mbind m k).
Proof.
  intros Hm Hk w e w' E. unfold mbind in E. specialize (Hm w).
  destruct (m w) as [[a|e'] w1]; simpl in *; [|congruence]. rewrite <-Hm. by eapply Hk.
Qed.

Lemma atomic_bind_r {A B} (m : M F A) (k : A -> M F B) :
  atomic m -> (forall a w, exists b, fst (k a w) = Ok b) -> atomic (mbind m k).
Proof.
  intros Hm Hk w e w' E. unfold mbind in E. destruct (m w) as [[a|e'] w1] eqn:Em.
  - destruct (Hk a w1) as [b Hb]. rewrite E in Hb. done.
  - simplify_eq. eauto.
Qed.

Lemma db_same_guard b c s : db_same (@guard F b c s).
Proof. intros w. by destruct b. Qed.
Lemma db_same_mfail {A} c s : db_same (@mfail F A c s).
Proof. by intros w. Qed.
Lemma db_same_uuid4 : db_same (@new_uuid4 F _).
Proof. by intros w. Qed.

Lemma atomic_same {A} (m : M F A) : db_same m -> atomic m.
Proof. intros Hm w e w' E. specialize (Hm w). by rewrite E in Hm. Qed.

End reachable.

#[export] Hint Resolve db_same_guard db_same_mfail db_same_uuid4 : dashcam.

Ltac atomic_step :=
  match goal with
  | |- atomic (let x := _ in _) => cbv zeta
  | |- atomic (transaction _) => apply atomic_transaction
  | |- atomic (mbind (transaction _) _) =>
      apply atomic_bind_r; [apply atomic_transaction|intros; by eexists]
  | |- atomic (void _) => apply atomic_bind_r; [|intros; by eexists]
  | |- atomic (mbind _ _) => apply atomic_bind_l; [repeat db_same_step|intros ?]
  | |- atomic (match ?x with _ => _ end) => destruct x
  | |- atomic _ => apply atomic_same; solve [eauto with dashcam]
  end.

(** The demo recording with its first clip registered, and reserved for deletion. *)
Definition demo_run : list (@catalog_call demo_env) -> DemoWorld :=
  fun cs => @run_calls RootedFilesystem _ demo_env cs demo_start.

Definition demo_register : @catalog_call demo_env := CRegister (finalized_clip demo_id demo_stem 0) 0.
Definition demo_registered : DemoWorld := demo_run [demo_register].
Definition demo_deleting : DemoWorld := demo_run [demo_register; CDelete demo_id 100 demo_boot].

Lemma demo_reachable cs :
  Forall (@call_typed demo_env) cs -> @catalog_reachable RootedFilesystem _ demo_env (demo_run cs).
Proof. apply reachable_run_calls, reach_start. Qed.

Section claims.
Context {F : Type} `{CatalogFilesystem F} `{Environment}.

(** C1: in every reachable state, an unfinished intent is the only one of its clip, is read
    back from its row unchanged, and its clip is recorded, unreconciled, at exactly the paths
    the intent starts from; a clip waiting for deletion is in DELETING, unprotected, without a
    download lease and directly inside clips/; a clip waiting to move to protected/ is
    protected; and no clip is ever recorded outside the four managed directories, or protected
    without a reason. *)
Theorem catalog_reachable_safe w :
  catalog_reachable w ->
  (forall i r, intents (w_db w) !! i = Some r -> i_complete r = false ->
     pending_of (w_db w) (clip_id (i_intent r)) = Some (i, r) /\
     intent_from_row r = Ok (i_intent r) /\
     exists c, clips (w_db w) !! clip_id (i_intent r) = Some c /\ r_reconciled c = false /\
       video_source (paths (i_intent r)) = r_video_path c /\
       sidecar_source (paths (i_intent r)) = r_sidecar_path c /\
       (kind (i_intent r) = DELETE ->
          r_lifecycle c = DELETING /\ r_protected c = false /\ r_lease c = None /\
          path_parent (r_video_path c) = u "clips" /\ path_parent (r_sidecar_path c) = u "clips") /\
       (kind (i_intent r) = PROTECT -> r_lifecycle c = FINALIZED /\ r_protected c = true)) /\
  (forall id c, clips (w_db w) !! id = Some c ->
     r_video_path c <> r_sidecar_path c /\
     path_parent (r_video_path c) ∈ MANAGED_DIRECTORIES /\
     path_parent (r_sidecar_path c) ∈ MANAGED_DIRECTORIES /\
     (r_protected c = true <-> is_Some (r_reason c))).
Proof.
  intros Hok%reachable_ok. split.
  - intros i r Hi Hc. destruct (ok_intents _ Hok i r Hi) as (_ & Hst & c & Hclip & Hrow).
    destruct (Hrow Hc) as (? & ? & ? & Hk). split_and!;
      [by apply pending_of_unique|by apply intent_from_row_stored|].
    exists c. split_and!; try done; intros E; by rewrite E in Hk.
  - intros id c Hc. destruct (ok_rows _ Hok id c Hc) as (_ & ? & [Hp ? ?]).
    apply PairPaths_new_ok in Hp as (_ & _ & _ & ? & _). done.
Qed.

(** Every catalog call except the multi-transaction startup pass is atomic: when it raises,
    whatever the filesystem did meanwhile, the database is exactly what it was. *)
Theorem failed_call_changes_nothing c w e w' :
  (forall now boot b, c <> CStartup now boot b) ->
  run_call c w = (Err e, w') -> w_db w' = w_db w.
Proof.
  intros Hs. revert w e w'. change (atomic (F := F) (run_call c)).
  destruct c; simpl; try by destruct (Hs _ _ _ eq_refl).
  all: unfold store_retention_threshold_latch, register_clip, register_writing_clip,
    active_closing_protection, mark_writing_clip_orphaned, register_finalizing_clip,
    register_name_reconciliation, acquire_download_lease, release_download_lease,
    clear_expired_download_leases, prepare_protect, prepare_unprotect, prepare_delete,
    prepare_oldest_eligible_delete, trigger_event, finalize_clip, reconcile_intent.
  all: repeat atomic_step.
Qed.

End claims.

Lemma catalog_reachable_safe_witness :
  exists i r, intents (w_db demo_deleting) !! i = Some r /\
    exists c, clips (w_db demo_deleting) !! clip_id (i_intent r) = Some c /\ r_lifecycle c = DELETING.
Proof.
  destruct (@catalog_reachable_safe RootedFilesystem _ demo_env demo_deleting) as [H _].
  { apply demo_reachable. by repeat constructor. }
  exists (mkUUID 1000). eexists. split; [vm_compute; reflexivity|].
  edestruct (H (mkUUID 1000)) as (_ & _ & c & Hc & _ & _ & _ & Hd & _); [vm_compute; reflexivity..|].
  exists c. split; [exact Hc|]. by apply Hd.
Defined.

Lemma failed_call_changes_nothing_witness :
  let c := @CProtect demo_env demo_id (u "keep") 200 in
  exists e, fst (@run_call RootedFilesystem _ demo_env c demo_deleting) = Err e /\
    w_db (snd (@run_call RootedFilesystem _ demo_env c demo_deleting)) = w_db demo_deleting.
Proof.
  intros c. eexists. split; [vm_compute; reflexivity|].
  eapply (@failed_call_changes_nothing RootedFilesystem _ demo_env c);
    [intros; discriminate|apply ran; vm_compute; reflexivity].
Defined.

(** ** Reserving the oldest eligible clip *)

(** [id] is the eligible clip with the smallest catalog order. *)
Definition oldest_deletable (now : Z) (boot : str) (d : DB) (id : UUID) (c : ClipRow) : Prop :=
  clips d !! id = Some c /\ deletable now boot d (id, c) = true /\
  forall id' c', clips d !! id' = Some c' -> deletable now boot d (id', c') = true ->
    id' = id \/ r_order c < r_order c'.

Lemma head_is_oldest now boot d id c :
  db_ok d -> head (select_clips (deletable now boot d) d) = Some (id, c) ->
  oldest_deletable now boot d id c.
Proof.
  intros Hok (Hc & Hd & Hmin)%head_select_clips. split_and!; [done|done|]. intros id' c' Hc' Hd'.
  specialize (Hmin (id', c') Hc' Hd'). apply order_key_leb_order in Hmin. simpl in *.
  destruct (decide (r_order c = r_order c')) as [E|]; [|right; lia].
  left. symmetry. by eapply (ok_orders d Hok).
Qed.

Lemma head_none_select p d :
  head (select_clips p d) = None -> forall id c, clips d !! id = Some c -> p (id, c) = false.
Proof.
  intros Hh id c Hc. destruct (p (id, c)) eqn:E; [|done].
  assert ((id, c) ∈ select_clips p d) as Hin by (by apply select_clips_elem).
  destruct (select_clips p d); [by apply elem_of_nil in Hin|done].
Qed.

Section plan.
Context {F : Type} `{CatalogFilesystem F} `{Environment}.

Lemma candidate_of_row now boot d row v :
  retention_candidate now boot d row = Ok v ->
  Retention.clip_id v = fst row /\ Retention.retention_order v = r_order (snd row) /\
  eligible_now v now = deletable now boot d row.
Proof.
  destruct row as [id r]. unfold retention_candidate, RetentionCandidate_new. intros Hv. inv_ok.
  simpl. split_and!; [done..|]. unfold eligible_now, deletable, has_active_lease, row_has_active_lease.
  simpl. destruct (r_lease r) as [l|]; simpl.
  - destruct (bool_decide (l_boot_id l = boot)), (now <? l_expires_ns l) eqn:E; simpl; rewrite ?E;
      destruct (r_managed r), (bool_decide (r_lifecycle r = FINALIZED)), (r_reconciled r),
        (r_protected r), (bool_decide (is_Some (pending_of d id))); done.
  - destruct (r_managed r), (bool_decide (r_lifecycle r = FINALIZED)), (r_reconciled r),
        (r_protected r), (bool_decide (is_Some (pending_of d id))); done.
Qed.

(** With room for every clip, the planner's candidates are the rows that are not deleted. *)
Lemma retention_candidates_ok now boot limit w cs w' :
  retention_candidates (F := F) now boot limit w = (Ok cs, w') ->
  Z.of_nat (length (select_clips not_deleted (w_db w))) <= limit ->
  Forall2 (fun row v => retention_candidate now boot (w_db w) row = Ok v)
    (select_clips not_deleted (w_db w)) cs.
Proof.
  unfold retention_candidates. intros Hm Hl.
  do 3 (apply mbind_ok in Hm as (? & ? & [_ ->]%lift_ok & Hm)).
  apply mbind_ok in Hm as (? & ? & [-> ->]%query_ok & [Hr _]%lift_ok).
  apply result_map_Forall2. rewrite <-Hr. f_equal. unfold limited. rewrite firstn_all2; [done|lia].
Qed.

Lemma select_loop_head requested c l ids total :
  select_loop requested 0 (c :: l) = (ids, total) -> head ids = Some (Retention.clip_id c).
Proof.
  cbn [select_loop]. destruct (_ <=? _); [by intros [= <- _]|].
  destruct (select_loop _ _ l). by intros [= <- _].
Qed.

Lemma deletable_candidate now boot d id c cs :
  Forall2 (fun row v => retention_candidate now boot d row = Ok v) (select_clips not_deleted d) cs ->
  clips d !! id = Some c -> deletable now boot d (id, c) = true ->
  exists v, v ∈ cs /\ retention_candidate now boot d (id, c) = Ok v.
Proof.
  intros Hcs Hc Hd.
  assert ((id, c) ∈ select_clips not_deleted d) as [k Hk]%list_elem_of_lookup.
  { apply select_clips_elem. split; [done|]. unfold deletable, not_deleted in *. bool_prop.
    simpl. by rewrite bool_decide_false by congruence. }
  destruct (Forall2_lookup_l _ _ _ _ _ Hcs Hk) as (v & Hv & ?). exists v.
  split; [by eapply list_elem_of_lookup_2|done].
Qed.

Lemma planner_head now boot d cs requested plan :
  db_ok d ->
  Forall2 (fun row v => retention_candidate now boot d row = Ok v) (select_clips not_deleted d) cs ->
  0 < requested -> select_oldest_eligible cs requested now = Ok plan ->
  match head (selected_clip_ids plan) with
  | Some id => exists c, oldest_deletable now boot d id c
  | None => forall id c, clips d !! id = Some c -> deletable now boot d (id, c) = false
  end.
Proof.
  intros Hok Hcs Hr Hs. unfold select_oldest_eligible in Hs. inv_ok.
  replace (requested =? 0) with false in Hs by lia.
  pose proof (eligible_sorted_sorted cs now) as Hsort.
  pose proof (fun v => eligible_sorted_elem v cs now) as Helem.
  destruct (eligible_sorted cs now) as [|v l] eqn:El.
  - simpl in Hs. inv_ok. simpl. intros id c Hc. destruct (deletable now boot d (id, c)) eqn:E; [|done].
    destruct (deletable_candidate _ _ _ _ _ _ Hcs Hc E) as (v & Hin & Hv).
    pose proof (candidate_of_row _ _ _ _ _ Hv) as (_ & _ & He). rewrite E in He.
    by pose proof (proj2 (Helem v) (conj Hin He)) as Hn%elem_of_nil.
  - destruct (select_loop requested 0 (v :: l)) as [ids total] eqn:Eloop. inv_ok. simpl.
    rewrite (select_loop_head _ _ _ _ _ Eloop).
    destruct (proj1 (Helem v)) as [Hin He]; [by left|].
    apply list_elem_of_lookup in Hin as [k Hk].
    destruct (Forall2_lookup_r _ _ _ _ _ Hcs Hk) as ([id c] & Hrow & Hv).
    pose proof (candidate_of_row _ _ _ _ _ Hv) as (Eid & Eo & Ee).
    assert (Hd0 : deletable now boot d (id, c) = true) by congruence. simpl in Eid, Eo. subst id.
    apply list_elem_of_lookup_2, select_clips_elem in Hrow as [Hc _]. simpl in Hc.
    exists c. split_and!; [done|done|]. intros id' c' Hc' Hd'.
    destruct (deletable_candidate _ _ _ _ _ _ Hcs Hc' Hd') as (v' & Hin' & Hv').
    pose proof (candidate_of_row _ _ _ _ _ Hv') as (Eid' & Eo' & Ee'). rewrite Hd' in Ee'. simpl in Eid', Eo'.
    destruct (proj1 (elem_of_cons _ _ _) (proj2 (Helem v') (conj Hin' Ee'))) as [->|Hl];
      [left; by rewrite <-Eid'|].
    apply StronglySorted_inv in Hsort as [_ Hall]. rewrite Forall_forall in Hall.
    specialize (Hall _ Hl). apply order_key_leb_order in Hall. simpl in *.
    destruct (decide (r_order c = r_order c')); [|right; lia].
    left. symmetry. by eapply (ok_orders d Hok).
Qed.

(** reserving space deletes exactly the oldest eligible clip: the call returns nothing only
    when no clip is eligible, and then changes nothing; otherwise it reserves the one eligible
    clip that precedes all others in the catalog order, moves it to DELETING with a new pending
    DELETE intent over its two files, touches no other clip, intent or file, and it is the very
    clip the pure planner selects first for any positive request. *)
Theorem reserve_oldest_eligible w now boot r w' :
  catalog_reachable w -> prepare_oldest_eligible_delete now boot w = (Ok r, w') ->
  match r with
  | None =>
      w_db w' = w_db w /\
      forall id c, clips (w_db w) !! id = Some c -> deletable now boot (w_db w) (id, c) = false
  | Some q => exists id c,
      let c' := with_updated now (with_lease None (with_reconciled false (with_lifecycle DELETING c))) in
      let it := mkIntent q id DELETE now (mkPaths (r_video_path c) (r_sidecar_path c) None None)
                  SCHEMA_VERSION in
      oldest_deletable now boot (w_db w) id c /\ intents (w_db w) !! q = None /\
      w_db w' = set_clips (fun m => <[id := c']> m)
        (set_intents (fun m => <[q := mkIntentRow it false None None None None None]> m) (w_db w)) /\
      w_fs w' = w_fs w /\
      forall requested limit plan w2,
        0 < requested -> Z.of_nat (length (select_clips not_deleted (w_db w))) <= limit ->
        plan_retention requested now boot limit w = (Ok plan, w2) ->
        head (selected_clip_ids plan) = Some id
  end.
Proof.
  intros Hok%reachable_ok Hm. unfold prepare_oldest_eligible_delete in Hm.
  do 2 (apply mbind_ok in Hm as (? & ? & [_ ->]%lift_ok & Hm)). apply (proj1 (transaction_ok _ _ _ _)) in Hm.
  apply mbind_ok in Hm as (? & ? & [-> ->]%query_ok & Hm).
  destruct (head _) as [[id c]|] eqn:Hh.
  2: { apply mret_ok in Hm as [-> ->]. split; [done|]. by apply head_none_select. }
  pose proof (head_is_oldest _ _ _ _ _ Hok Hh) as Hold.
  apply mbind_ok in Hm as (q & w1 & Hq & [-> ->]%mret_ok).
  destruct Hold as (Hc & Hd & Hmin).
  destruct (prepare_delete_row_locked_ok _ _ _ _ _ _ _ Hq Hc)
    as [(p & Hp & _)|(_ & _ & _ & _ & _ & _ & _ & _ & it & -> & _ & Hi & ->)].
  { unfold deletable in Hd. rewrite Hp in Hd. bool_prop. naive_solver. }
  exists id, c. simpl. split_and!; try done.
  intros requested limit plan w2 Hr Hl Hplan. unfold plan_retention in Hplan.
  apply mbind_ok in Hplan as (cs & w3 & Hcs & [Hs ->]%lift_ok).
  apply retention_candidates_ok in Hcs; [|done].
  pose proof (planner_head _ _ _ _ _ _ Hok Hcs Hr Hs) as Hhead.
  destruct (head (selected_clip_ids plan)) as [id'|].
  - destruct Hhead as (c' & Hc' & Hd' & Hmin'). destruct (Hmin _ _ Hc' Hd') as [->|]; [done|].
    destruct (Hmin' _ _ Hc Hd) as [->|]; [done|lia].
  - rewrite (Hhead _ _ Hc) in Hd. done.
Qed.

End plan.

Lemma reserve_oldest_eligible_witness :
  exists q, fst (@prepare_oldest_eligible_delete RootedFilesystem demo_env 100 demo_boot demo_registered)
              = Ok (Some q) /\
    exists id c, oldest_deletable 100 demo_boot (w_db demo_registered) id c.
Proof.
  eexists. split; [vm_compute; reflexivity|].
  destruct (@reserve_oldest_eligible RootedFilesystem _ demo_env demo_registered 100 demo_boot
              (Some (mkUUID 1000))
              (snd (@prepare_oldest_eligible_delete RootedFilesystem demo_env 100 demo_boot demo_registered)))
    as (id & c & Hold & _).
  - apply demo_reachable. by repeat constructor.
  - apply ran. vm_compute. reflexivity.
  - by exists id, c.
Defined.


(** ** Download leases *)

Lemma length_filter_perm {A} (f : A -> bool) l l' :
  l ≡ₚ l' -> length (List.filter f l) = length (List.filter f l').
Proof.
  induction 1 as [|x l l' _ IH|x y l|l l' l'' _ IH1 _ IH2]; simpl;
    [done|destruct (f x); simpl; congruence|by destruct (f x), (f y)|congruence].
Qed.

(** Replacing a row the filter rejects by one it accepts adds one to the count. *)
Lemma count_insert {A} (f : UUID * A -> bool) (m : gmap UUID A) i a b :
  m !! i = Some a -> f (i, a) = false -> f (i, b) = true ->
  length (List.filter f (map_to_list (<[i := b]> m)))
  = S (length (List.filter f (map_to_list m))).
Proof.
  intros Hi Ha Hb. rewrite <-(insert_delete_id m i a Hi) at 2. rewrite <-insert_delete_eq.
  rewrite !(length_filter_perm f _ _ (map_to_list_insert _ _ _ (lookup_delete_eq _ _))).
  simpl. by rewrite Ha, Hb.
Qed.

Section leases.
Context {F : Type} `{CatalogFilesystem F} `{Environment}.
Implicit Types w : World F.

Definition fails {A} (m : M F A) w : Prop := exists e, fst (m w) = Err e.

Lemma fails_intro {A} (m : M F A) w : (forall a w', m w = (Ok a, w') -> False) -> fails m w.
Proof.
  unfold fails. intros Hm. destruct (m w) as [[a|e] w'] eqn:E; [by destruct (Hm a w')|by eexists].
Qed.

Lemma leased_clip_frozen w id c l boot t :
  clips (w_db w) !! id = Some c -> r_lease c = Some l -> l_boot_id l = boot ->
  pending_of (w_db w) id = None -> t < l_expires_ns l ->
  fails (prepare_delete id t boot) w /\
  (forall reason, fails (prepare_protect id reason t) w) /\
  fails (prepare_unprotect id t) w /\
  (forall h d n, fails (acquire_download_lease id h t d boot n) w) /\
  deletable t boot (w_db w) (id, c) = false.
Proof.
  intros Hc Hl Hb Hp Ht.
  assert (Ha : row_has_active_lease c t boot = true).
  { unfold row_has_active_lease. rewrite Hl, bool_decide_true by done. simpl. by apply Z.ltb_lt. }
  assert (Hu : row_has_unexpired_lease c t = true).
  { unfold row_has_unexpired_lease. rewrite Hl. by apply Z.ltb_lt. }
  split_and!.
  - apply fails_intro. intros a w' Hm. unfold prepare_delete in Hm. inv_cat.
    match goal with Hd : prepare_delete_row_locked _ ?c' _ _ _ = _ |- _ =>
      assert (c' = c) as -> by congruence;
      destruct (prepare_delete_row_locked_ok _ _ _ _ _ _ _ Hd Hc)
        as [(? & ? & _)|(_ & _ & _ & _ & _ & ? & _)]; congruence end.
  - intros reason. apply fails_intro. intros a w' Hm. unfold prepare_protect, prepare_protect_locked in Hm.
    inv_cat; congruence.
  - apply fails_intro. intros a w' Hm. unfold prepare_unprotect in Hm. inv_cat; congruence.
  - intros h d n. apply fails_intro. intros a w' Hm. unfold acquire_download_lease in Hm.
    inv_cat; congruence.
  - unfold deletable. rewrite Ha. by rewrite andb_false_r.
Qed.

(** The lease cap and the freeze: a granted lease raises the number of active leases of
    this boot by one, to at most the cap; it belongs to the requested holder for exactly the
    requested time; and until it expires the clip cannot be deleted, protected, unprotected or
    leased again, and is not eligible for reclamation. *)
Theorem lease_capped_and_freezes w id h now d boot n lease w' :
  acquire_download_lease id h now d boot n w = (Ok lease, w') ->
  active_lease_count now boot (w_db w') = active_lease_count now boot (w_db w) + 1 /\
  active_lease_count now boot (w_db w') <= n /\
  lease = mkLease h now (now + d) /\ w_fs w' = w_fs w /\
  forall t, now <= t < now + d ->
    fails (prepare_delete id t boot) w' /\
    (forall reason, fails (prepare_protect id reason t) w') /\
    fails (prepare_unprotect id t) w' /\
    (forall h' d' n', fails (acquire_download_lease id h' t d' boot n') w') /\
    exists c, clips (w_db w') !! id = Some c /\ deletable t boot (w_db w') (id, c) = false.
Proof.
  intros Hm. unfold acquire_download_lease in Hm.
  do 2 (apply mbind_ok in Hm as (? & ? & [_ ->]%lift_ok & Hm)).
  apply mbind_ok in Hm as (l & ? & [[-> Hl]%issue_ok ->]%lift_ok & Hm).
  apply mbind_ok in Hm as (? & w1 & Ht & [-> ->]%mret_ok). apply (proj1 (transaction_ok _ _ _ _)) in Ht.
  apply mbind_ok in Ht as (c & ? & [Hc ->]%required_clip_row_ok & Ht).
  do 2 (apply mbind_ok in Ht as (? & ? & [_ ->]%guard_ok & Ht)).
  apply mbind_ok in Ht as (? & ? & [-> ->]%query_ok & Ht).
  apply mbind_ok in Ht as (? & ? & [Hp ->]%guard_ok & Ht).
  apply mbind_ok in Ht as (? & ? & [Hna ->]%guard_ok & Ht).
  apply mbind_ok in Ht as (? & ? & [-> ->]%query_ok & Ht).
  apply mbind_ok in Ht as (? & ? & [Hcap ->]%guard_ok & Ht).
  destruct (update_clip_row _ _ _ _ _ _ Ht Hc) as [_ ->]. bool_prop. apply eq_None_not_Some in Hp.
  destruct Hl as (_ & _ & Hd & _). unfold duration_ns in Hd. simpl in Hd. simpl.
  set (c' := with_updated now (with_lease (Some (mkLeaseRow h now (now + d) boot)) c)).
  assert (Hcount : active_lease_count now boot (set_clips (fun m => <[id := c']> m) (w_db w))
    = active_lease_count now boot (w_db w) + 1).
  { unfold active_lease_count. simpl. rewrite (count_insert _ _ _ c); [lia|done|done|].
    unfold row_has_active_lease. simpl. rewrite bool_decide_true by done. apply Z.ltb_lt. lia. }
  rewrite Hcount. split_and!; [done|lia|done|done|]. intros t Ht'.
  destruct (leased_clip_frozen (set_db (set_clips (fun m => <[id := c']> m) (w_db w)) w) id c'
    (mkLeaseRow h now (now + d) boot) boot t) as (? & ? & ? & ? & ?); try done;
    [apply lookup_insert_eq|simpl; lia|].
  split_and!; try done. exists c'. split; [apply lookup_insert_eq|done].
Qed.

End leases.

Lemma lease_capped_and_freezes_witness :
  fails (@prepare_unprotect RootedFilesystem demo_env demo_id 150)
    (snd (@acquire_download_lease RootedFilesystem demo_id (u "web-1") 100 60 demo_boot 4 demo_registered)).
Proof.
  destruct (@lease_capped_and_freezes RootedFilesystem demo_env
    demo_registered demo_id (u "web-1") 100 60 demo_boot 4
    (mkLease (u "web-1") 100 160) _ ltac:(apply ran; vm_compute; reflexivity)) as (_ & _ & _ & _ & Hf).
  destruct (Hf 150) as (_ & _ & Hu & _); [lia|exact Hu].
Defined.

(** ** Registration *)

Section registration.
Context {F : Type}.
Implicit Types w : World F.

Lemma max_bound l x : x ∈ l -> x <= foldr Z.max (-1) l.
Proof. induction 1; simpl; lia. Qed.

(** Registering a clip and reading it back gives the same clip, every field included, and
    no other clip is affected; its order was not in use, and the order the catalog hands out
    next is above every order in use. *)
Theorem registered_clip_reads_back w clip now w' :
  (forall l, c_download_lease clip = Some l ->
     DownloadLease_new (holder l) (issued_at_monotonic_ns l) (expires_at_monotonic_ns l) = Ok l) ->
  register_clip clip now w = (Ok tt, w') ->
  fst (get_clip (c_clip_id clip) w') = Ok clip /\
  (forall id, id <> c_clip_id clip -> fst (get_clip id w') = fst (get_clip id w)) /\
  c_retention_order clip ∉ orders (w_db w) /\
  forall order w2, next_retention_order w' = (Ok order, w2) ->
    order ∉ orders (w_db w') /\ c_retention_order clip < order <= MAX_RETENTION_ORDER.
Proof.
  intros Hl Hm. unfold register_clip in Hm.
  do 2 (apply mbind_ok in Hm as (? & ? & [_ ->]%lift_ok & Hm)).
  apply (proj1 (transaction_ok _ _ _ _)) in Hm.
  apply mbind_ok in Hm as (? & ? & [Hb%negb_false_iff%bool_decide_eq_true_1 ->]%guard_ok & Hm).
  apply insert_clip_row_ok in Hm as (Hn & Ho & _ & ->). simpl in *. split_and!.
  - unfold get_clip, required_clip_row, mbind, query. simpl. rewrite lookup_insert_eq. unfold lift. simpl.
    destruct clip as [? ? ? ? ? ? ? ? ? ? ? ? [l|] [b|]]; simpl in *; try done.
    + by rewrite Hl.
    + by destruct Hb as [[? ?] _]; eauto.
    + by destruct Hb as [_ [? ?]]; eauto.
  - intros id Hid. unfold get_clip, required_clip_row, mbind, query. simpl.
    rewrite lookup_insert_ne by done. by destruct (clips (w_db w) !! id).
  - done.
  - intros order w2 Hm. unfold next_retention_order in Hm.
    apply mbind_ok in Hm as (? & ? & [-> ->]%query_ok & Hm).
    apply mbind_ok in Hm as (? & ? & [Hr%negb_false_iff ->]%guard_ok & [-> ->]%mret_ok).
    cbn [w_db set_db] in Hr |- *. bool_prop.
    match goal with |- _ ∉ ?used /\ _ => set (l := used) in * end.
    assert (Hin : c_retention_order clip ∈ l).
    { unfold l, orders. apply list_elem_of_fmap. eexists (c_clip_id clip, _).
      split; [|apply elem_of_map_to_list, lookup_insert_eq]. done. }
    apply max_bound in Hin as Hle. split; [|lia]. intros Hin'%max_bound. lia.
Qed.

End registration.

Lemma registered_clip_reads_back_witness :
  let clip := finalized_clip next_id next_stem 7 in
  fst (get_clip next_id (snd (register_clip clip 5 demo_registered))) = Ok clip.
Proof.
  apply (registered_clip_reads_back demo_registered (finalized_clip next_id next_stem 7) 5);
    [discriminate|apply ran; vm_compute; reflexivity].
Defined.
