(* ===== verification/ReconcileProperties.v ===== *)
(** * Recovery properties

    What [reconcile_intent] may do to the files, against any filesystem that satisfies
    [FilesystemLaws] and may fail at any step: no content is lost but that of a reserved clip. *)

From Stdlib Require Import Ascii String ZArith Lia Strings.Byte.
From stdpp Require Import base list gmap strings sorting.
From S2P Require Import Prelude PyStr Uuid State Naming Intents Models Filesystem.
From S2P Require Import CatalogDb Catalog Reconcile CatalogDemo ManagedPath CatalogInv CatalogSafe.
From S2P Require Import ReconcileSafe CatalogProperties.

(** ** Effects of a method on the files *)

Section files.
Context {F : Type} `{FilesystemLaws F}.

Definition files (w : World F) : gmap str bytes := contents (w_fs w).

(** However [m] ends, the files before and after it are related by [R]. *)
Definition affects {A : Type} (R : relation (gmap str bytes)) (m : M F A) : Prop :=
  forall w, R (files w) (files (snd (m w))).

Section combinators.
Context (R : relation (gmap str bytes)) `{!PreOrder R}.

Lemma affects_bind {A B} (m : M F A) (k : A -> M F B) :
  affects R m -> (forall a, affects R (k a)) -> affects R (mbind m k).
Proof.
  intros Hm Hk w. unfold mbind. specialize (Hm w).
  destruct (m w) as [[a|e] w1]; simpl in *; [|done]. etrans; [exact Hm|apply Hk].
Qed.

Lemma affects_nothing {A} (m : M F A) : (forall w, w_fs (snd (m w)) = w_fs w) -> affects R m.
Proof. intros Hm w. unfold files. by rewrite Hm. Qed.

Lemma affects_mtry {A} (m : M F A) h :
  affects R m -> (forall e, affects R (h e)) -> affects R (mtry m h).
Proof.
  intros Hm Hh w. unfold mtry. specialize (Hm w).
  destruct (m w) as [[a|e] w1]; simpl in *; [done|]. etrans; [exact Hm|apply Hh].
Qed.

Lemma affects_mfor {A} (f : A -> M F unit) l :
  (forall x, x ∈ l -> affects R (f x)) -> affects R (mfor f l).
Proof.
  unfold mfor. induction l as [|x l IH]; intros Hf; simpl; [by apply affects_nothing|].
  apply affects_bind; [apply Hf; by left|]. intros []. apply IH. intros y Hy. apply Hf. by right.
Qed.
End combinators.

(** Every content is still somewhere. *)
Definition data_kept : relation (gmap str bytes) := fun fs fs' =>
  forall d, (exists p, fs !! p = Some d) -> exists p, fs' !! p = Some d.

#[export] Instance data_kept_preorder : PreOrder data_kept.
Proof. split; intros ?; unfold data_kept; eauto. Qed.

(** Only the paths of [ps] may change. *)
Definition only_paths (ps : list str) : relation (gmap str bytes) := fun fs fs' =>
  forall p, p ∉ ps -> fs' !! p = fs !! p.

#[export] Instance only_paths_preorder ps : PreOrder (only_paths ps).
Proof. split; intros ?; unfold only_paths; [done|]. intros y z Hxy Hyz p Hp. rewrite Hyz; auto. Qed.

Lemma moved_data_kept fs fs' s t : moved fs fs' s t -> data_kept fs fs'.
Proof.
  intros (d & Hs & Ht & ->) x [p Hp]. destruct (decide (p = s)) as [->|].
  - exists t. rewrite lookup_insert_eq. congruence.
  - exists p. rewrite lookup_insert_ne by congruence. by rewrite lookup_delete_ne.
Qed.

Lemma affects_move s t : affects data_kept (f_move s t).
Proof.
  intros w. unfold f_move, files. destruct (fs_move (w_fs w) s t) as [r f] eqn:E. simpl.
  destruct (move_spec _ _ _ _ _ E) as [[-> _]|Hm]; [done|by eapply moved_data_kept].
Qed.

Lemma affects_unlink ps p : p ∈ ps -> affects (only_paths ps) (f_unlink p).
Proof.
  intros Hp w. unfold f_unlink, files. destruct (fs_unlink (w_fs w) p) as [r f] eqn:E. simpl.
  destruct (unlink_spec _ _ _ _ E) as [[-> _]| ->]; [done|].
  intros q Hq. rewrite lookup_delete_ne; [done|]. by intros ->.
Qed.

End files.

(** ** Files across [reconcile_intent] *)

Section reconcile_files.
Context {F : Type} `{FilesystemLaws F} `{Environment}.
Implicit Types w : World F.

(** Reads and database steps. *)
Definition fs_same {A} (m : M F A) : Prop := forall w, w_fs (snd (m w)) = w_fs w.

Lemma fs_same_bind {A B} (m : M F A) (k : A -> M F B) :
  fs_same m -> (forall a, fs_same (k a)) -> fs_same (mbind m k).
Proof.
  intros Hm Hk w. unfold mbind. specialize (Hm w). destruct (m w) as [[a|e] w']; simpl in *; [|done].
  by rewrite Hk.
Qed.

Lemma fs_same_mtry {A} (m : M F A) h : fs_same m -> (forall e, fs_same (h e)) -> fs_same (mtry m h).
Proof.
  intros Hm Hh w. unfold mtry. specialize (Hm w). destruct (m w) as [[a|e] w']; simpl in *; [done|].
  by rewrite Hh.
Qed.

Lemma fs_same_db {A} (m : M F A) : (forall w, w_fs (snd (m w)) = w_fs w) -> fs_same m.
Proof. done. Qed.

Lemma fs_same_guard b c s : fs_same (@guard F b c s).
Proof. intros w. by destruct b. Qed.

Lemma fs_same_the {A} (a : option A) : fs_same (the a).
Proof. intros w. by destruct a. Qed.

End reconcile_files.

Ltac fs_same_step :=
  match goal with
  | |- fs_same (let x := _ in _) => cbv zeta
  | |- fs_same (mbind _ _) => apply fs_same_bind; [|intros ?]
  | |- fs_same (mtry _ _) => apply fs_same_mtry; [|intros ?]
  | |- fs_same (match ?x with _ => _ end) => destruct x
  | |- fs_same (guard _ _ _) => apply fs_same_guard
  | |- fs_same (the _) => apply fs_same_the
  | |- fs_same _ => solve [intros ?; reflexivity]
  end.

Section reconcile_files.
Context {F : Type} `{FilesystemLaws F} `{Environment}.
Implicit Types w : World F.

Lemma affects_same {A : Type} R `{!PreOrder R} (m : M F A) : fs_same m -> affects R m.
Proof. apply affects_nothing, _. Qed.

Lemma update_clip_fs id f : fs_same (F := F) (update_clip id f).
Proof. unfold update_clip, execute. repeat fs_same_step. Qed.

Lemma insert_intent_fs id k p now e : fs_same (F := F) (insert_intent_locked id k p now e).
Proof.
  unfold insert_intent_locked, insert_intent_row, new_uuid4, execute. repeat fs_same_step.
Qed.

Lemma observe_plan_fs i : fs_same (F := F) (observe_plan i).
Proof. unfold observe_plan, exists_optional. repeat fs_same_step. Qed.

Lemma complete_intent_fs i now : fs_same (F := F) (complete_intent_locked i now).
Proof.
  unfold complete_intent_locked, complete_delete_locked, complete_protect_locked,
    complete_unprotect_locked, complete_rename_locked, queue_protect_after,
    mark_intent_complete_locked, update_intent, required_clip_row, execute.
  repeat (fs_same_step || apply update_clip_fs || apply insert_intent_fs).
Qed.

Lemma validate_finalize_fs i p : fs_same (F := F) (validate_finalize_sidecar i p).
Proof. unfold validate_finalize_sidecar, or_problem. repeat fs_same_step. Qed.

(** The old sidecar may only be replaced by the recovery payload once its digest matched. *)
Definition replaced_only (payload : bytes) (hash : str) : relation (gmap str bytes) := fun fs fs' =>
  forall d, (exists p, fs !! p = Some d) ->
    (exists p, fs' !! p = Some d) \/
    (sha256_hexdigest d = hash /\ exists p, fs' !! p = Some payload).

#[export] Instance replaced_only_preorder payload hash : PreOrder (replaced_only payload hash).
Proof.
  split; unfold replaced_only; [by left|]. intros x y z Hxy Hyz d Hd.
  destruct (Hxy d Hd) as [Hy|[Hs Hp]]; [by apply Hyz|].
  right. split; [done|]. by destruct (Hyz payload Hp) as [|[]].
Qed.

Lemma data_kept_replaced payload hash fs fs' : data_kept fs fs' -> replaced_only payload hash fs fs'.
Proof. intros Hk d Hd. left. by apply Hk. Qed.

Lemma affects_weaken {A : Type} (R S : relation (gmap str bytes)) (m : M F A) :
  (forall a b, R a b -> S a b) -> affects R m -> affects S m.
Proof. intros HRS Hm w. by apply HRS. Qed.

Lemma install_target_affects i payload hash :
  affects (F := F) (replaced_only payload hash) (install_target_sidecar i payload hash).
Proof.
  intros w. unfold install_target_sidecar. unfold mbind at 1, f_read_bytes at 1.
  destruct (fs_read_bytes _ _ _) as [current|e] eqn:Er; [|simpl; reflexivity].
  apply read_spec in Er. destruct (bool_decide _); [simpl; reflexivity|].
  destruct (negb (bool_decide (sha256_hexdigest current = hash))) eqn:Eh; [simpl; reflexivity|].
  bool_prop. unfold mbind at 1, lift. destruct (parse_sidecar_bytes current); [|simpl; reflexivity].
  destruct (negb _); [simpl; reflexivity|].
  unfold mbind at 1, f_replace_bytes_atomic.
  destruct (fs_replace_bytes_atomic _ _ _ _) as [r f] eqn:Ep.
  assert (Hrep : replaced_only payload hash (files w) (files (set_fs f w))).
  { unfold files. simpl. destruct (replace_spec _ _ _ _ _ _ Ep) as [[-> _]|[_ ->]]; [reflexivity|].
    intros d [p Hp]. destruct (decide (p = sidecar_source (paths i))) as [->|].
    - right. split; [congruence|]. eexists. apply lookup_insert_eq.
    - left. exists p. by rewrite lookup_insert_ne. }
  destruct r as [[]|e]; [|exact Hrep]. etrans; [exact Hrep|].
  unfold mbind, f_read_bytes. destruct (fs_read_bytes _ _ _); [|reflexivity].
  destruct (bool_decide _); reflexivity.
Qed.

Lemma prepare_name_affects i row payload hash :
  recovery_data row = Some (payload, hash) ->
  affects (F := F) (replaced_only payload hash) (prepare_name_reconciliation_sidecar i row).
Proof.
  intros Hr. unfold prepare_name_reconciliation_sidecar. rewrite Hr.
  apply affects_mtry; [apply _| |intros e; apply affects_nothing; [apply _|]; intros w; by destruct (_ || _)].
  apply affects_bind; [apply _|by apply affects_nothing; [apply _|]|]. intros t. cbv zeta.
  destruct (negb _); [by apply affects_nothing; [apply _|]|].
  apply affects_bind; [apply _|by apply affects_nothing; [apply _|]|]. intros [].
  - apply install_target_affects.
  - apply affects_same; [apply _|]. repeat fs_same_step.
Qed.

Lemma carry_out_affects R `{!PreOrder R} i row plan id now n :
  affects (F := F) R (validate_before_actions i row) ->
  affects (F := F) R (confirm_absent i plan) ->
  (forall a, a ∈ actions plan -> affects (F := F) R (run_action a)) ->
  affects (F := F) R (carry_out i row plan id now n).
Proof.
  intros Hv Hc Ha. unfold carry_out. apply affects_bind; [done|done|]. intros [problem|].
  { apply affects_same; [done|]. unfold record_problem, update_intent, execute. repeat fs_same_step. }
  apply affects_bind; [done|done|]. intros []. cbv zeta.
  apply affects_bind; [done| |].
  { apply affects_mfor; [done|]. intros a Ha'. apply Ha. unfold limited in Ha'.
    by apply elem_of_take in Ha' as (k & ? & _); eapply list_elem_of_lookup_2. }
  intros []. apply affects_same; [done|]. unfold record_problem, update_intent, execute.
  repeat (fs_same_step || apply observe_plan_fs || apply complete_intent_fs).
Qed.

(** How [reconcile_intent] reaches [carry_out]. *)
Lemma reconcile_intent_files id now n w :
  db_ok (w_db w) ->
  w_fs (snd (reconcile_intent id now n w)) = w_fs w \/
  exists row v s, intents (w_db w) !! id = Some row /\ i_complete row = false /\
    let plan := plan_reconciliation (i_intent row) v s in
    problems plan = [] /\
    w_fs (snd (reconcile_intent id now n w))
      = w_fs (snd (carry_out (i_intent row) row plan id now n w)).
Proof.
  intros Hok. destruct (reconcile_intent id now n w) as [res w'] eqn:Hr. simpl.
  unfold reconcile_intent in Hr.
  unfold mbind at 1, lift at 1 in Hr. destruct (non_negative_integer now); [|left; by simplify_eq].
  unfold mbind at 1, lift at 1 in Hr. destruct (positive_integer n); [|left; by simplify_eq].
  unfold transaction in Hr.
  match type of Hr with match ?m w with _ => _ end = _ => destruct (m w) as [res1 w1] eqn:Hb end.
  assert (w_fs w' = w_fs w1) as -> by (destruct res1; simplify_eq; done). clear Hr.
  unfold mbind at 1, query at 1 in Hb.
  destruct (intents (w_db w) !! id) as [row|] eqn:Hi; [|left; unfold mfail in Hb; by simplify_eq].
  destruct (ok_intents _ Hok _ _ Hi) as (_ & Hst & _).
  unfold mbind at 1, lift at 1 in Hb. rewrite intent_from_row_stored in Hb by done.
  destruct (i_complete row) eqn:Hinc; [left; unfold mret in Hb; by simplify_eq|].
  unfold mbind at 1 in Hb. pose proof (observe_plan_fs (i_intent row) w) as Hfs.
  destruct (observe_plan (i_intent row) w) as [[plan|e] w2] eqn:Ho; [|left; by simplify_eq].
  apply observe_plan_ok in Ho as (-> & v & s & -> & _).
  destruct (negb _) eqn:Hp.
  { left. unfold record_problem, update_intent, execute, mbind, mret in Hb. by simplify_eq. }
  right. exists row, v, s. cbv zeta. split; [done|]. split; [done|].
  split; [bool_prop; by apply map_eq_nil in Hp|].
  change (carry_out (i_intent row) row (plan_reconciliation (i_intent row) v s) id now n w
            = (res1, w1)) in Hb. by rewrite Hb.
Qed.

(** Whatever the call returns, a content that is gone was one of a pending deletion or a
    sidecar with its recorded replacement. *)
Lemma reconcile_keeps_data w id now n p d :
  db_ok (w_db w) -> files w !! p = Some d ->
  let w' := snd (reconcile_intent id now n w) in
  (exists q, files w' !! q = Some d) \/
  exists row c, intents (w_db w) !! id = Some row /\ i_complete row = false /\
    clips (w_db w) !! clip_id (i_intent row) = Some c /\ pending_row_ok row c /\
    ((kind (i_intent row) = DELETE /\ (p = r_video_path c \/ p = r_sidecar_path c)) \/
     (kind (i_intent row) = RECONCILE_NAME /\ exists payload hash,
        recovery_data row = Some (payload, hash) /\ sha256_hexdigest d = hash /\
        exists q, files w' !! q = Some payload)).
Proof.
  intros Hok Hp w'.
  destruct (reconcile_intent_files id now n w Hok) as [Hsame|(row & v & s & Hi & Hinc & Hplan)].
  { left. exists p. unfold w', files. by rewrite Hsame. }
  cbv zeta in Hplan. set (plan := plan_reconciliation (i_intent row) v s) in *.
  destruct Hplan as [_ Hfs]. fold w' in Hfs.
  assert (Hrun : forall R, affects R (carry_out (i_intent row) row plan id now n) ->
                 R (files w) (files w')).
  { intros R Ha. specialize (Ha w). unfold files in *. by rewrite Hfs. }
  destruct (ok_intents _ Hok _ _ Hi) as (_ & _ & c & Hc & Hrow). specialize (Hrow Hinc).
  assert (Hmoves : kind (i_intent row) <> DELETE -> forall a, a ∈ actions plan ->
                   affects data_kept (run_action a)).
  { intros Hk a Ha%plan_action_shape. unfold run_action.
    assert (act_kind a = MOVE) as -> by by destruct (kind (i_intent row)).
    apply affects_bind; [apply _| |intros; apply affects_move].
    apply affects_same, fs_same_the; apply _. }
  destruct (kind (i_intent row)) eqn:Hk.
  - left. apply (Hrun data_kept); [|by exists p]. apply carry_out_affects; [apply _|..|by apply Hmoves].
    + apply affects_same; [apply _|]. unfold validate_before_actions. rewrite Hk.
      repeat (fs_same_step || apply validate_finalize_fs).
    + apply affects_same; [apply _|]. unfold confirm_absent. rewrite Hk. by intros ?.
  - destruct (recovery_data row) as [[payload hash]|] eqn:Hr.
    + destruct (Hrun (replaced_only payload hash)) with d as [|[]]; [|by exists p|by left|].
      * apply carry_out_affects; [apply _|..].
        -- unfold validate_before_actions. rewrite Hk. by apply prepare_name_affects.
        -- apply affects_same; [apply _|]. unfold confirm_absent. rewrite Hk. by intros ?.
        -- intros a Ha. eapply affects_weaken; [apply data_kept_replaced|]. by apply Hmoves.
      * right. exists row, c. do 4 (split; [done|]). right. split; [done|]. by exists payload, hash.
    + left. apply (Hrun data_kept); [|by exists p]. apply carry_out_affects; [apply _|..|by apply Hmoves].
      * apply affects_same; [apply _|]. unfold validate_before_actions. rewrite Hk.
        unfold prepare_name_reconciliation_sidecar. rewrite Hr. by intros ?.
      * apply affects_same; [apply _|]. unfold confirm_absent. rewrite Hk. by intros ?.
  - left. apply (Hrun data_kept); [|by exists p]. apply carry_out_affects; [apply _|..|by apply Hmoves];
      (apply affects_same; [apply _|]; unfold validate_before_actions, confirm_absent; rewrite Hk;
       by intros ?).
  - left. apply (Hrun data_kept); [|by exists p]. apply carry_out_affects; [apply _|..|by apply Hmoves];
      (apply affects_same; [apply _|]; unfold validate_before_actions, confirm_absent; rewrite Hk;
       by intros ?).
  - set (ps := [video_source (paths (i_intent row)); sidecar_source (paths (i_intent row))]).
    assert (Hunlink : forall q, q ∈ ps -> affects (F := F) (only_paths ps) (f_unlink q))
      by (intros; by apply affects_unlink).
    assert (Hfiles : only_paths ps (files w) (files w')).
    { apply Hrun, carry_out_affects; [apply _|..].
      - apply affects_same; [apply _|]. unfold validate_before_actions. rewrite Hk. by intros ?.
      - unfold confirm_absent. rewrite Hk. apply affects_mfor; [apply _|]. intros q Hq.
        destruct (bool_decide _); [by apply affects_same; [apply _|]|by apply Hunlink].
      - intros a Ha%plan_action_shape. rewrite Hk in Ha. destruct Ha as [Hu Hin].
        unfold run_action. rewrite Hu. by apply Hunlink. }
    destruct (decide (p ∈ ps)) as [Hin|Hin]; [|left; exists p; by rewrite Hfiles].
    right. exists row, c. do 4 (split; [done|]). left.
    split; [done|]. destruct Hrow as (_ & Ev & Es & _).
    unfold ps in Hin. rewrite !elem_of_cons, elem_of_nil, Ev, Es in Hin. naive_solver.
Qed.

(** C2: recovery never loses footage: across one call of [reconcile_intent], whatever it returns
    and whichever filesystem step fails, each file content is still on the volume afterwards,
    unless it is the video or sidecar of an unprotected clip in DELETING that has a pending
    DELETE intent, or it is a sidecar whose digest is the one recorded by a pending name
    reconciliation and the recorded replacement is on the volume. *)
Theorem reconcile_never_loses_footage w id now n p d :
  catalog_reachable w -> files w !! p = Some d ->
  let w' := snd (reconcile_intent id now n w) in
  (exists q, files w' !! q = Some d) \/
  exists row c, intents (w_db w) !! id = Some row /\ i_complete row = false /\
    clips (w_db w) !! clip_id (i_intent row) = Some c /\
    ((kind (i_intent row) = DELETE /\ r_lifecycle c = DELETING /\ r_protected c = false /\
      (p = r_video_path c \/ p = r_sidecar_path c)) \/
     (kind (i_intent row) = RECONCILE_NAME /\ exists payload hash,
        recovery_data row = Some (payload, hash) /\ sha256_hexdigest d = hash /\
        exists q, files w' !! q = Some payload)).
Proof.
  intros Hok%reachable_ok Hp w'.
  destruct (reconcile_keeps_data w id now n p d Hok Hp) as [?|(row & c & Hi & Hinc & Hc & Hrow & Hwhy)];
    [by left|right]. exists row, c. do 3 (split; [done|]).
  destruct Hwhy as [[Hk Hpath]|Hname]; [left|by right].
  unfold pending_row_ok in Hrow. rewrite Hk in Hrow. destruct Hrow as (_ & _ & _ & ? & ? & _). done.
Qed.
End reconcile_files.

Lemma reconcile_never_loses_footage_witness :
  let w' := snd (@reconcile_intent RootedFilesystem _ demo_env (mkUUID 1000) 200 2 demo_deleting) in
  (exists q, files w' !! q = Some [x00; x01]) \/
  exists row c, intents (w_db demo_deleting) !! mkUUID 1000 = Some row /\ i_complete row = false /\
    clips (w_db demo_deleting) !! clip_id (i_intent row) = Some c /\
    ((kind (i_intent row) = DELETE /\ r_lifecycle c = DELETING /\ r_protected c = false /\
      (in_dir "clips" demo_stem ".mp4" = r_video_path c \/
       in_dir "clips" demo_stem ".mp4" = r_sidecar_path c)) \/
     (kind (i_intent row) = RECONCILE_NAME /\ exists payload hash,
        recovery_data row = Some (payload, hash) /\
        @sha256_hexdigest demo_env [x00; x01] = hash /\
        exists q, files w' !! q = Some payload)).
Proof.
  apply (@reconcile_never_loses_footage RootedFilesystem _ _ demo_env demo_deleting (mkUUID 1000) 200 2
           (in_dir "clips" demo_stem ".mp4")).
  - apply demo_reachable. by repeat constructor.
  - vm_compute. reflexivity.
Defined.
