(* ===== verification/Convergence.v ===== *)
(** * Convergence of pair operations

    On the rooted filesystem, one call of [reconcile_intent] completes a pending deletion from
    any state of its two files, and a pending protection move from any state an interrupted
    earlier attempt can leave. *)

From Stdlib Require Import Ascii String ZArith Lia Strings.Byte.
From stdpp Require Import base list gmap strings sorting.
From S2P Require Import Prelude PyStr Uuid State Naming Intents Models Filesystem.
From S2P Require Import CatalogDb Catalog Reconcile CatalogDemo ManagedPath CatalogInv CatalogSafe.
From S2P Require Import ReconcileSafe CatalogProperties.

(** ** Running forward *)

Lemma mbind_run {F A B} (m : M F A) (k : A -> M F B) w a w1 :
  m w = (Ok a, w1) -> mbind m k w = k a w1.
Proof. intros E. unfold mbind. by rewrite E. Qed.

Lemma transaction_run {F A} (m : M F A) w a w1 : m w = (Ok a, w1) -> transaction m w = (Ok a, w1).
Proof. intros E. unfold transaction. by rewrite E. Qed.

Lemma update_clip_run {F} id f (w : World F) c :
  clips (w_db w) !! id = Some c -> clip_checks (f c) = true ->
  update_clip id f w = (Ok 1, set_db (set_clips (fun m => <[id := f c]> m) (w_db w)) w).
Proof. intros Hc Hk. apply update_clip_ok. right. by exists c. Qed.

Section rooted.
Context `{Environment}.
Implicit Types (w : World RootedFilesystem) (m : gmap str bytes).

Definition with_files (m : gmap str bytes) w : World RootedFilesystem := set_fs (mkRooted m true) w.

(** A path the rooted filesystem accepts. *)
Definition usable (p : str) : Prop := path_ok p /\ managed p.

Lemma resolve_usable m p : usable p -> resolve_path (mkRooted m true) p = Ok p.
Proof.
  intros [Hp Hm]. destruct (managed_shape p Hp Hm) as [Hparts Hshape]. unfold resolve_path.
  assert (PairPaths_new p (u "__validation__.json") None None
    = Ok (mkPaths p (u "__validation__.json") None None)) as ->.
  { unfold PairPaths_new. simpl. unfold path_ok in Hp. rewrite Hp. simpl.
    rewrite bool_decide_false; [done|]. intros E. rewrite Hshape in E.
    assert (slash ∈ u "__validation__.json") as Hin by (rewrite <-E, elem_of_app; right; by left).
    revert Hin. apply (bool_decide_eq_false_1 _). vm_compute. reflexivity. }
  simpl. unfold resolve_directory, assert_bound. simpl. rewrite Hparts. simpl.
  change DIRECTORIES with MANAGED_DIRECTORIES. by rewrite bool_decide_true by exact Hm.
Qed.

Definition present m (p : str) : bool := bool_decide (is_Some (m !! p)).

Lemma exists_run m w p :
  usable p -> f_exists p (with_files m w) = (Ok (present m p), with_files m w).
Proof.
  intros Hp. unfold f_exists. simpl. unfold rooted_exists. by rewrite resolve_usable.
Qed.

Lemma unlink_run m w p :
  usable p -> f_unlink p (with_files m w) = (Ok tt, with_files (delete p m) w).
Proof. intros Hp. unfold f_unlink. simpl. unfold rooted_unlink. by rewrite resolve_usable. Qed.

Lemma move_run m w s t d :
  usable s -> usable t -> m !! s = Some d -> m !! t = None ->
  f_move s t (with_files m w) = (Ok tt, with_files (<[t := d]> (delete s m)) w).
Proof.
  intros Hs Ht Hd Hn. unfold f_move. simpl. unfold rooted_move. rewrite !resolve_usable by done.
  unfold rename_no_replace. simpl. by rewrite Hd, Hn.
Qed.

(** The observation the planner is given. *)
Definition observed m (source : str) (target : option str) : MemberObservation :=
  mkObs (present m source) (match target with Some t => present m t | None => false end).

Definition paths_usable (p : PairPaths) : Prop :=
  usable (video_source p) /\ usable (sidecar_source p) /\
  forall t, video_target p = Some t \/ sidecar_target p = Some t -> usable t.

Lemma exists_optional_run m w t :
  (forall q, t = Some q -> usable q) ->
  exists_optional t (with_files m w)
  = (Ok (match t with Some q => present m q | None => false end), with_files m w).
Proof. intros Ht. destruct t; simpl; [by apply exists_run, Ht|done]. Qed.

Lemma observe_run i m w :
  paths_usable (paths i) ->
  observe_plan i (with_files m w)
  = (Ok (plan_reconciliation i (observed m (video_source (paths i)) (video_target (paths i)))
           (observed m (sidecar_source (paths i)) (sidecar_target (paths i)))), with_files m w).
Proof.
  intros (Hv & Hs & Ht). unfold observe_plan.
  erewrite mbind_run by (apply exists_optional_run; auto).
  erewrite mbind_run by (apply exists_optional_run; auto).
  erewrite mbind_run by (by apply exists_run). by erewrite mbind_run by (by apply exists_run).
Qed.

(** The paths of a pending intent are all usable. *)
Lemma pending_paths_usable w i row :
  db_ok (w_db w) -> intents (w_db w) !! i = Some row -> i_complete row = false ->
  paths_usable (paths (i_intent row)).
Proof.
  intros Hok Hi Hinc. destruct (ok_intents _ Hok _ _ Hi) as (_ & [[Hp _] Hm] & c & Hc & Hrow).
  destruct (Hrow Hinc) as (_ & Ev & Es & _). destruct (ok_rows _ Hok _ _ Hc) as (_ & _ & [_ Hmv Hms]).
  apply PairPaths_new_ok in Hp as (_ & Hpv & Hps & _ & Hpt & _).
  split_and!; [split; [done|congruence]..|]. intros t Ht. split; [by apply Hpt|by apply Hm].
Qed.

Lemma reconcile_run id now n w row :
  0 <= now -> 0 < n -> db_ok (w_db w) ->
  intents (w_db w) !! id = Some row -> i_complete row = false ->
  forall m plan res w',
  w_fs w = mkRooted m true ->
  plan = plan_reconciliation (i_intent row)
    (observed m (video_source (paths (i_intent row))) (video_target (paths (i_intent row))))
    (observed m (sidecar_source (paths (i_intent row))) (sidecar_target (paths (i_intent row)))) ->
  problems plan = [] ->
  carry_out (i_intent row) row plan id now n w = (Ok res, w') ->
  reconcile_intent id now n w = (Ok res, w').
Proof.
  intros Hnow Hn Hok Hi Hinc m plan res w' Hfs Hplan Hprob Hrun.
  destruct (ok_intents _ Hok _ _ Hi) as (_ & Hst & _). unfold reconcile_intent.
  erewrite mbind_run; [|unfold lift, non_negative_integer; by replace (now <? 0) with false by lia].
  erewrite mbind_run; [|unfold lift, positive_integer; by replace (n <=? 0) with false by lia].
  apply transaction_run. erewrite mbind_run by reflexivity. rewrite Hi.
  erewrite mbind_run by (unfold lift; rewrite intent_from_row_stored by done; reflexivity).
  rewrite Hinc.
  assert (Ew : w = with_files m w) by (unfold with_files, set_fs; destruct w; simpl in *; by subst).
  pose proof (observe_run (i_intent row) m w (pending_paths_usable _ _ _ Hok Hi Hinc)) as Hobs.
  rewrite <-Ew, <-Hplan in Hobs. erewrite mbind_run by exact Hobs.
  assert (Hcodes : problem_codes plan = []) by (unfold problem_codes; by rewrite Hprob).
  rewrite (bool_decide_true _ Hcodes). exact Hrun.
Qed.

(** ** Deletion *)

Lemma present_delete m p q : present (delete p m) q = negb (bool_decide (p = q)) && present m q.
Proof.
  unfold present. destruct (decide (p = q)) as [->|Hne].
  - rewrite lookup_delete_eq, (bool_decide_true (q = q)) by done. done.
  - by rewrite lookup_delete_ne, (bool_decide_false (p = q)) by done.
Qed.

Lemma present_false m p : present m p = false -> delete p m = m.
Proof. unfold present. intros Hp. bool_prop. apply delete_id. by apply eq_None_not_Some. Qed.

Lemma mfor_run {A} (f : A -> M RootedFilesystem unit) (g : gmap str bytes -> A -> gmap str bytes) l m w :
  (forall x m, x ∈ l -> f x (with_files m w) = (Ok tt, with_files (g m x) w)) ->
  mfor f l (with_files m w) = (Ok tt, with_files (foldl g m l) w).
Proof.
  unfold mfor. revert m. induction l as [|x l IH]; intros m Hf; simpl; [done|].
  erewrite mbind_run by (apply Hf; by left). apply IH. intros y m' Hy. apply Hf. by right.
Qed.

(** Both files are gone, in whatever order their removals happened. *)
Lemma delete_actions_run i m w n :
  kind i = DELETE -> video_target (paths i) = None -> sidecar_target (paths i) = None ->
  paths_usable (paths i) -> video_source (paths i) <> sidecar_source (paths i) -> 2 <= n ->
  let v := video_source (paths i) in
  let s := sidecar_source (paths i) in
  let plan := plan_reconciliation i (observed m v None) (observed m s None) in
  exists m1, confirm_absent i plan (with_files m w) = (Ok tt, with_files m1 w) /\
    mfor run_action (limited n (actions plan)) (with_files m1 w)
    = (Ok tt, with_files (delete s (delete v m)) w).
Proof.
  intros Hk Hvt Hst (Huv & Hus & _) Hne Hn v s plan. fold v s in Hne.
  set (srcs := map act_source (actions plan)).
  exists (foldl (fun m p => if bool_decide (p ∈ srcs) then m else delete p m) m [v; s]). split.
  - unfold confirm_absent. rewrite Hk. apply mfor_run. intros p m' Hp. fold srcs.
    destruct (bool_decide (p ∈ srcs)); [done|]. apply unlink_run.
    rewrite !elem_of_cons, elem_of_nil in Hp. by destruct Hp as [->|[->|[]]].
  - rewrite (mfor_run _ (fun m a => delete (act_source a) m)).
    + do 2 f_equal. unfold srcs, plan, plan_reconciliation, observed, limited. rewrite Hk. simpl. fold v s.
      replace (Z.to_nat n) with (S (S (Z.to_nat (n - 2)))) by lia.
      assert (bool_decide (v ∈ [v; s]) = true /\ bool_decide (s ∈ [v; s]) = true /\
              bool_decide (v ∈ [v]) = true /\ bool_decide (s ∈ [s]) = true /\
              bool_decide (s ∈ [v]) = false /\ bool_decide (v ∈ [s]) = false)
        as (E1 & E2 & E3 & E4 & E5 & E6).
      { rewrite !bool_decide_eq_true, !bool_decide_eq_false, !elem_of_cons, !elem_of_nil. naive_solver. }
      destruct (present m v) eqn:Ev, (present m s) eqn:Es; simpl; fold v s; rewrite ?take_nil; simpl;
        rewrite ?E1, ?E2, ?E3, ?E4, ?E5, ?E6; try done.
      by rewrite delete_delete.
    + intros a m' Ha. unfold limited in Ha.
      apply elem_of_take in Ha as (k & Ha%list_elem_of_lookup_2 & _).
      apply plan_action_shape in Ha. rewrite Hk in Ha. destruct Ha as [Ha Hin].
      unfold run_action. rewrite Ha. apply unlink_run.
      rewrite !elem_of_cons, elem_of_nil in Hin. by destruct Hin as [->|[->|[]]].
Qed.

Lemma planned_nothing i m v s vt st :
  video_source (paths i) = v -> sidecar_source (paths i) = s ->
  present m v = false -> present m s = false ->
  (kind i = DELETE /\ vt = None /\ st = None \/
   kind i <> DELETE /\ exists a b, vt = Some a /\ st = Some b /\ present m a = true /\ present m b = true) ->
  let plan := plan_reconciliation i (observed m v vt) (observed m s st) in
  complete plan = true /\ problem_codes plan = [].
Proof.
  intros <- <- Hv Hs Hk. unfold plan_reconciliation, observed, problem_codes, complete. rewrite Hv, Hs.
  destruct Hk as [(-> & -> & ->)|(Hk & a & b & -> & -> & -> & ->)]; simpl;
    [|destruct (kind i); try done; simpl]; (split; [by vm_compute|done]).
Qed.

Lemma deleted_checks now l c :
  clip_checks c = true ->
  clip_checks (with_updated now (with_lease l (with_size 0
    (with_reconciled true (with_lifecycle DELETED c))))) = true.
Proof.
  unfold clip_checks. simpl. rewrite !andb_true_iff. naive_solver.
Qed.

Lemma mark_complete_run i row now w :
  intents (w_db w) !! intent_id i = Some row ->
  exists w1, mark_intent_complete_locked i now w = (Ok tt, w1) /\
    intents (w_db w1) !! intent_id i = Some (with_complete now row) /\
    clips (w_db w1) = clips (w_db w) /\ w_fs w1 = w_fs w.
Proof.
  intros Hi. eexists. split; [reflexivity|]. simpl. rewrite lookup_alter_eq, Hi. done.
Qed.

(** The row of a clip whose deletion is complete. *)
Definition deleted_row (now : Z) (c : ClipRow) : ClipRow :=
  with_updated now (with_lease None (with_size 0 (with_reconciled true (with_lifecycle DELETED c)))).

(** The world after the deletion of the clip of [row] is completed. *)
Definition after_delete (id : UUID) (row : IntentRow) (c : ClipRow) (now : Z) w : World RootedFilesystem :=
  mkWorld
    (set_intents (alter (with_complete now) id)
       (set_clips (fun cs => <[clip_id (i_intent row) := deleted_row now c]> cs) (w_db w)))
    (mkRooted (delete (r_sidecar_path c) (delete (r_video_path c) (rf_files (w_fs w)))) true)
    (w_uuids w).

(** One call that may take two actions completes a pending deletion, whatever is left of it. *)
Lemma delete_intent_run w id row now n :
  db_ok (w_db w) -> rf_bound (w_fs w) = true ->
  intents (w_db w) !! id = Some row -> i_complete row = false -> kind (i_intent row) = DELETE ->
  0 <= now -> 2 <= n ->
  exists c k, clips (w_db w) !! clip_id (i_intent row) = Some c /\ pending_row_ok row c /\
    reconcile_intent id now n w
    = (Ok (mkReconcileResult (i_intent row) k true []), after_delete id row c now w).
Proof.
  intros Hok Hb Hi Hinc Hk Hnow Hn.
  destruct (w_fs w) as [m bound] eqn:Ef. simpl in Hb. subst bound.
  destruct (ok_intents _ Hok _ _ Hi) as (Hid & [[Hp Hnew] _] & c & Hc & Hrow). specialize (Hrow Hinc).
  pose proof Hrow as (_ & Ev & Es & _). destruct (ok_rows _ Hok _ _ Hc) as (Hchk & _ & _).
  pose proof (pending_paths_usable _ _ _ Hok Hi Hinc) as Hus.
  apply OperationIntent_new_ok in Hnew as (_ & _ & _ & Hnone & _). specialize (Hnone Hk) as [Hvt Hst].
  apply PairPaths_new_ok in Hp as (_ & _ & _ & Hne & _).
  assert (Ew : w = with_files m w) by (unfold with_files, set_fs; destruct w; simpl in *; by subst).
  destruct (delete_actions_run _ m w n Hk Hvt Hst Hus Hne Hn) as (m1 & Hca & Hra).
  set (v := video_source _) in *. set (s := sidecar_source _) in *.
  set (w2 := with_files (delete s (delete v m)) w) in *.
  destruct (planned_nothing (i_intent row) (delete s (delete v m)) v s None None) as [Hcomp Hcodes];
    [done|done|rewrite !present_delete..|by left|].
  1, 2: rewrite ?(bool_decide_true _ eq_refl), ?andb_false_r; done.
  eexists c, _. split; [done|]. split; [done|].
  eapply reconcile_run; [done|lia|done|exact Hi|done|exact Ef|reflexivity|..].
  { fold v s. rewrite Hvt, Hst. unfold plan_reconciliation, observed. rewrite Hk. simpl.
    by destruct (present m v), (present m s). }
  fold v s. rewrite Hvt, Hst. unfold carry_out.
  erewrite mbind_run by (unfold validate_before_actions; rewrite Hk; reflexivity). cbv iota beta zeta.
  erewrite mbind_run by (rewrite Ew at 1; exact Hca).
  erewrite mbind_run by exact Hra.
  erewrite mbind_run by (apply observe_run; exact Hus). fold v s w2. rewrite Hvt, Hst, Hcomp, Hcodes.
  erewrite mbind_run; [reflexivity|].
  unfold complete_intent_locked. rewrite Hk. unfold complete_delete_locked.
  erewrite mbind_run; [|exact (update_clip_run _ _ w2 c Hc (deleted_checks now None c Hchk))].
  unfold after_delete. rewrite Ef, <-Ev, <-Es. fold v s. unfold mark_intent_complete_locked. by rewrite Hid.
Qed.

(** C3: deletions converge: whatever is left of the two files of a pending DELETE, for example
    after a crash between the two removals, one call of [reconcile_intent] that may take two
    actions succeeds, reports completion, leaves exactly those two files absent and every other
    file as it was, and records the clip as DELETED with size zero and no lease, the intent as
    complete. *)
Theorem delete_intent_converges w id row now n :
  catalog_reachable w -> rf_bound (w_fs w) = true ->
  intents (w_db w) !! id = Some row -> i_complete row = false -> kind (i_intent row) = DELETE ->
  0 <= now -> 2 <= n ->
  exists c c' res w',
    clips (w_db w) !! clip_id (i_intent row) = Some c /\
    reconcile_intent id now n w = (Ok res, w') /\
    rr_complete res = true /\ rr_problems res = [] /\
    rf_files (w_fs w') = delete (r_sidecar_path c) (delete (r_video_path c) (rf_files (w_fs w))) /\
    clips (w_db w') = <[clip_id (i_intent row) := c']> (clips (w_db w)) /\
    r_lifecycle c' = DELETED /\ r_size c' = 0 /\ r_lease c' = None /\
    intents (w_db w') !! id = Some (with_complete now row).
Proof.
  intros Hok%reachable_ok Hb Hi Hinc Hk Hnow Hn.
  destruct (delete_intent_run w id row now n) as (c & k & Hc & _ & Hrun); [done..|].
  eexists c, _, _, _. split; [done|]. split; [exact Hrun|]. simpl.
  split_and!; try reflexivity. by rewrite lookup_alter_eq, Hi.
Qed.

(** ** Moves *)

(** One member of a pair, at exactly one end of its move. *)
Definition at_one_end (m : gmap str bytes) (s t : str) (d : bytes) : Prop :=
  (m !! s = Some d /\ m !! t = None) \/ (m !! s = None /\ m !! t = Some d).

Definition relocated (m : gmap str bytes) (s t : str) : gmap str bytes :=
  match m !! s with Some d => <[t := d]> (delete s m) | None => m end.

Lemma relocated_lookup m s t d q :
  s <> t -> at_one_end m s t d ->
  relocated m s t !! q = if decide (q = t) then Some d else if decide (q = s) then None else m !! q.
Proof.
  intros Hne [[Hs Ht]|[Hs Ht]]; unfold relocated; rewrite Hs;
    repeat case_decide; by simplify_map_eq.
Qed.

Lemma at_one_end_relocated m s t d s' t' d' :
  NoDup [s; t; s'; t'] -> at_one_end m s t d -> at_one_end m s' t' d' ->
  at_one_end (relocated m s t) s' t' d'.
Proof.
  intros Hnd H1 H2. rewrite !NoDup_cons, !elem_of_cons in Hnd.
  unfold at_one_end. rewrite !(relocated_lookup m s t d) by naive_solver.
  by repeat (case_decide; [naive_solver|]).
Qed.

Lemma present_true m p d : m !! p = Some d -> present m p = true.
Proof. intros E. unfold present. rewrite E. done. Qed.

Lemma absent m p : m !! p = None -> present m p = false.
Proof. intros E. unfold present. rewrite E. done. Qed.

Section one_move.
Context (i : OperationIntent) (w : World RootedFilesystem) (v s v' s' : str) (dv ds : bytes) (n : Z).
Hypothesis Hk : kind i <> DELETE.
Hypothesis Hv : video_source (paths i) = v.
Hypothesis Hs : sidecar_source (paths i) = s.
Hypothesis Hv' : video_target (paths i) = Some v'.
Hypothesis Hs' : sidecar_target (paths i) = Some s'.
Hypothesis Hn : 2 <= n.
Hypothesis Huse : usable v /\ usable s /\ usable v' /\ usable s'.
Hypothesis Hnd : NoDup [v; v'; s; s'].

Definition move_plan m : ReconciliationPlan :=
  plan_reconciliation i (observed m v (Some v')) (observed m s (Some s')).

(** The part of the plan for one member, carried out. *)
Lemma run_member member m p t d :
  usable p -> usable t -> at_one_end m p t d ->
  mfor run_action (if present m p then [mkAction MOVE member p (Some t)] else []) (with_files m w)
  = (Ok tt, with_files (relocated m p t) w).
Proof.
  intros Hp Ht [[Ep Et]|[Ep Et]].
  - rewrite (present_true _ _ _ Ep). unfold mfor. simpl. unfold run_action. simpl.
    erewrite mbind_run; [reflexivity|]. erewrite mbind_run by reflexivity.
    rewrite (move_run m w p t d) by done. unfold relocated. by rewrite Ep.
  - rewrite (absent _ _ Ep). unfold relocated. by rewrite Ep.
Qed.

Lemma mfor_app {A} (f : A -> M RootedFilesystem unit) l1 l2 w0 w1 :
  mfor f l1 w0 = (Ok tt, w1) -> mfor f (l1 ++ l2) w0 = mfor f l2 w1.
Proof.
  unfold mfor. revert w0. induction l1 as [|x l1 IH]; intros w0; simpl; [by intros [= ->]|].
  intros E. apply mbind_ok in E as ([] & w2 & E & Hl). erewrite mbind_run by exact E. by apply IH.
Qed.

(** The plan made from the files moves exactly the members still at their source. *)
Lemma move_actions_run m :
  at_one_end m v v' dv -> at_one_end m s s' ds ->
  problems (move_plan m) = [] /\
  mfor run_action (limited n (actions (move_plan m))) (with_files m w)
  = (Ok tt, with_files (relocated (relocated m v v') s s') w).
Proof.
  intros H1 H2. destruct Huse as (Uv & Us & Uv' & Us').
  pose proof (at_one_end_relocated m v v' dv s s' ds Hnd H1 H2) as H2'.
  assert (Es : present m s = present (relocated m v v') s).
  { unfold present. rewrite (relocated_lookup m v v' dv) by
      (try done; rewrite !NoDup_cons, !elem_of_cons in Hnd; naive_solver).
    rewrite !NoDup_cons, !elem_of_cons in Hnd. by repeat (case_decide; [naive_solver|]). }
  assert (Hpl : actions (move_plan m)
    = (if present m v then [mkAction MOVE VIDEO v (Some v')] else [])
      ++ (if present m s then [mkAction MOVE SIDECAR s (Some s')] else [])
    /\ problems (move_plan m) = []).
  { unfold move_plan, plan_reconciliation, observed. rewrite Hv, Hs, Hv', Hs'.
    destruct H1 as [[E1 E2]|[E1 E2]], H2 as [[E3 E4]|[E3 E4]];
      rewrite ?(absent _ _ E1), ?(absent _ _ E2), ?(absent _ _ E3), ?(absent _ _ E4),
        ?(present_true _ _ _ E1), ?(present_true _ _ _ E2), ?(present_true _ _ _ E3),
        ?(present_true _ _ _ E4); destruct (kind i) eqn:Ek; by try congruence. }
  destruct Hpl as [-> ->]. split; [done|]. unfold limited. rewrite take_ge by
    (destruct (present m v), (present m s); simpl; lia).
  rewrite (mfor_app _ _ _ _ _ (run_member VIDEO m v v' dv Uv Uv' H1)), Es.
  by apply (run_member SIDECAR _ s s' ds).
Qed.

(** Afterwards there is nothing left to do. *)
Lemma moved_plan_complete m :
  at_one_end m v v' dv -> at_one_end m s s' ds ->
  let m' := relocated (relocated m v v') s s' in
  complete (move_plan m') = true /\ problem_codes (move_plan m') = [].
Proof.
  intros H1 H2. pose proof (at_one_end_relocated m v v' dv s s' ds Hnd H1 H2) as H2'.
  pose proof Hnd as Hd. rewrite !NoDup_cons, !elem_of_cons in Hd.
  assert (forall q, relocated (relocated m v v') s s' !! q
    = if decide (q = s') then Some ds else if decide (q = s) then None
      else if decide (q = v') then Some dv else if decide (q = v) then None else m !! q) as Hl.
  { intros q. rewrite (relocated_lookup _ s s' ds) by (try done; naive_solver).
    by rewrite (relocated_lookup _ v v' dv) by (try done; naive_solver). }
  apply planned_nothing; [done|done|..].
  - apply absent. rewrite Hl. by repeat (case_decide; [naive_solver|]).
  - apply absent. rewrite Hl. by repeat (case_decide; [naive_solver|]).
  - right. split; [done|]. exists v', s'. split_and!; [done..| |].
    + apply (present_true _ _ dv). rewrite Hl. repeat (case_decide; [naive_solver|]). naive_solver.
    + apply (present_true _ _ ds). rewrite Hl. case_decide; naive_solver.
Qed.

End one_move.

Lemma protected_checks now v s r c :
  clip_checks c = true ->
  clip_checks (with_updated now (with_reconciled true (with_protection true r (with_paths v s c)))) = true.
Proof. done. Qed.

(** The row of a clip whose move to [protected/] is complete. *)
Definition protected_row (now : Z) (v' s' : str) (c : ClipRow) : ClipRow :=
  with_updated now (with_reconciled true (with_protection true (r_reason c) (with_paths v' s' c))).

(** From a well-formed catalog. *)
Lemma protect_intent_run w id row now n c v' s' dv ds :
  db_ok (w_db w) -> rf_bound (w_fs w) = true ->
  intents (w_db w) !! id = Some row -> i_complete row = false -> kind (i_intent row) = PROTECT ->
  clips (w_db w) !! clip_id (i_intent row) = Some c ->
  video_target (paths (i_intent row)) = Some v' -> sidecar_target (paths (i_intent row)) = Some s' ->
  NoDup [r_video_path c; v'; r_sidecar_path c; s'] ->
  at_one_end (rf_files (w_fs w)) (r_video_path c) v' dv ->
  at_one_end (rf_files (w_fs w)) (r_sidecar_path c) s' ds ->
  0 <= now -> 2 <= n ->
  exists k w',
    reconcile_intent id now n w = (Ok (mkReconcileResult (i_intent row) k true []), w') /\
    rf_bound (w_fs w') = true /\ w_uuids w' = w_uuids w /\
    (forall q, rf_files (w_fs w') !! q =
       if decide (q = s') then Some ds else if decide (q = r_sidecar_path c) then None
       else if decide (q = v') then Some dv else if decide (q = r_video_path c) then None
       else rf_files (w_fs w) !! q) /\
    clips (w_db w') = <[clip_id (i_intent row) := protected_row now v' s' c]> (clips (w_db w)) /\
    intents (w_db w') = alter (with_complete now) id (intents (w_db w)).
Proof.
  intros Hok Hb Hi Hinc Hk Hc Hvt Hst Hnd H1 H2 Hnow Hn.
  destruct (w_fs w) as [m bound] eqn:Ef. simpl in Hb, H1, H2. subst bound.
  destruct (ok_intents _ Hok _ _ Hi) as (Hid & _ & c0 & Hc0 & Hrow). specialize (Hrow Hinc).
  simplify_eq. destruct Hrow as (_ & Ev & Es & _). destruct (ok_rows _ Hok _ _ Hc) as (Hchk & _ & _).
  pose proof (pending_paths_usable _ _ _ Hok Hi Hinc) as Hus. destruct (Hus) as (Uv & Us & Ut).
  assert (Huse : usable (r_video_path c) /\ usable (r_sidecar_path c) /\ usable v' /\ usable s')
    by (split_and!; [by rewrite <-Ev|by rewrite <-Es|by apply Ut; left|by apply Ut; right]).
  assert (Ew : w = with_files m w) by (unfold with_files, set_fs; destruct w; simpl in *; by subst).
  assert (Hk' : kind (i_intent row) <> DELETE) by congruence.
  destruct (move_actions_run _ w _ _ v' s' dv ds n Hk' Ev Es Hvt Hst Hn Huse Hnd m H1 H2) as [Hprob Hrun].
  destruct (moved_plan_complete _ _ _ v' s' dv ds Hk' Ev Es Hvt Hst Huse Hnd m H1 H2) as [Hcomp Hcodes].
  set (m' := relocated (relocated m (r_video_path c) v') (r_sidecar_path c) s') in *.
  set (w2 := with_files m' w) in *.
  set (w3 := set_db (set_clips (fun cs => <[clip_id (i_intent row) := protected_row now v' s' c]> cs) (w_db w)) w2).
  set (w4 := set_db (set_intents (fun x => alter (with_complete now) (intent_id (i_intent row)) x) (w_db w3)) w3).
  eexists _, w4. split.
  - eapply reconcile_run; [done|lia|done|exact Hi|done|exact Ef|reflexivity|..];
      rewrite Ev, Es, Hvt, Hst; [exact Hprob|].
    unfold carry_out. erewrite mbind_run by (unfold validate_before_actions; rewrite Hk; reflexivity).
    cbv iota beta zeta. erewrite mbind_run by (unfold confirm_absent; rewrite Hk; reflexivity).
    erewrite mbind_run by (rewrite Ew at 1; exact Hrun).
    erewrite mbind_run by (apply observe_run; exact Hus).
    rewrite Ev, Es, Hvt, Hst. unfold move_plan in Hcomp, Hcodes. rewrite Hcomp.
    erewrite mbind_run; [unfold mret; do 4 f_equal; exact Hcodes|].
    unfold complete_intent_locked. rewrite Hk, Hvt, Hst.
    erewrite mbind_run by reflexivity. erewrite mbind_run by reflexivity.
    unfold complete_protect_locked. erewrite mbind_run; [reflexivity|].
    exact (update_clip_run _ _ w2 c Hc (protected_checks now v' s' _ c Hchk)).
  - split_and!; [done|done| |done|done].
    intros q. simpl. unfold m'. pose proof Hnd as Hd. rewrite !NoDup_cons, !elem_of_cons in Hd.
    rewrite (relocated_lookup _ _ _ ds); [|naive_solver|].
    + by rewrite (relocated_lookup _ _ _ dv) by (try done; naive_solver).
    + by apply (at_one_end_relocated m _ _ dv).
Qed.

(** C4: protection moves converge: if each file of a pending PROTECT is still at its source or
    already at its target, as an interrupted attempt leaves them, one call of [reconcile_intent]
    that may take two actions succeeds and reports completion; both files are then at their
    targets with their contents, nothing is left at the sources, no other file changed, and the
    clip is recorded at the target paths, protected and reconciled, the intent as complete. *)
Theorem protect_intent_converges w id row now n c v' s' dv ds :
  catalog_reachable w -> rf_bound (w_fs w) = true ->
  intents (w_db w) !! id = Some row -> i_complete row = false -> kind (i_intent row) = PROTECT ->
  clips (w_db w) !! clip_id (i_intent row) = Some c ->
  video_target (paths (i_intent row)) = Some v' -> sidecar_target (paths (i_intent row)) = Some s' ->
  NoDup [r_video_path c; v'; r_sidecar_path c; s'] ->
  at_one_end (rf_files (w_fs w)) (r_video_path c) v' dv ->
  at_one_end (rf_files (w_fs w)) (r_sidecar_path c) s' ds ->
  0 <= now -> 2 <= n ->
  exists c' res w',
    reconcile_intent id now n w = (Ok res, w') /\
    rr_complete res = true /\ rr_problems res = [] /\
    (forall q, rf_files (w_fs w') !! q =
       if decide (q = s') then Some ds else if decide (q = r_sidecar_path c) then None
       else if decide (q = v') then Some dv else if decide (q = r_video_path c) then None
       else rf_files (w_fs w) !! q) /\
    clips (w_db w') = <[clip_id (i_intent row) := c']> (clips (w_db w)) /\
    r_video_path c' = v' /\ r_sidecar_path c' = s' /\
    r_protected c' = true /\ r_reconciled c' = true /\ r_reason c' = r_reason c /\
    intents (w_db w') !! id = Some (with_complete now row).
Proof.
  intros Hok%reachable_ok Hb Hi Hinc Hk Hc Hvt Hst Hnd H1 H2 Hnow Hn.
  destruct (protect_intent_run w id row now n c v' s' dv ds) as (k & w' & Hrun & _ & _ & Hfiles & Hclips & Hints); [done..|].
  eexists _, _, w'. split; [exact Hrun|]. split_and!; [done|done|exact Hfiles|exact Hclips|done..|].
  by rewrite Hints, lookup_alter_eq, Hi.
Qed.

End rooted.

(** ** Interrupted operations on the demo recording *)

(** The deletion was interrupted after the video was removed. *)
Definition half_deleted : DemoWorld :=
  set_fs (mkRooted (delete (in_dir "clips" demo_stem ".mp4") (rf_files demo_fs)) true) demo_deleting.

Lemma delete_intent_converges_witness :
  exists res w', @reconcile_intent RootedFilesystem _ demo_env (mkUUID 1000) 200 2 half_deleted = (Ok res, w') /\
    rr_complete res = true.
Proof.
  destruct (intents (w_db half_deleted) !! mkUUID 1000) as [row|] eqn:E; [|by vm_compute in E].
  edestruct (@delete_intent_converges demo_env half_deleted (mkUUID 1000) row 200 2)
    as (c & c' & res & w' & _ & Hrun & Hc & _);
    [|reflexivity|exact E|..|lia|lia|exists res, w'; exact (conj Hrun Hc)].
  - apply reach_files, demo_reachable. by repeat constructor.
  - revert E. vm_compute. by intros [= <-].
  - revert E. vm_compute. by intros [= <-].
Defined.

(** The protection move was interrupted after the video was moved. *)
Definition half_protected : DemoWorld :=
  set_fs (mkRooted (relocated (rf_files demo_fs) (in_dir "clips" demo_stem ".mp4")
                      (in_dir "protected" demo_stem ".mp4")) true)
    (demo_run [demo_register; @CProtect demo_env demo_id (u "keep") 100]).

Lemma protect_intent_converges_witness :
  exists res w', @reconcile_intent RootedFilesystem _ demo_env (mkUUID 1000) 200 2 half_protected = (Ok res, w') /\
    rr_complete res = true /\
    rf_files (w_fs w') !! in_dir "protected" demo_stem ".json" = Some [x41].
Proof.
  destruct (intents (w_db half_protected) !! mkUUID 1000) as [row|] eqn:E; [|by vm_compute in E].
  assert (i_complete row = false /\ kind (i_intent row) = PROTECT /\ clip_id (i_intent row) = demo_id /\
    video_target (paths (i_intent row)) = Some (in_dir "protected" demo_stem ".mp4") /\
    sidecar_target (paths (i_intent row)) = Some (in_dir "protected" demo_stem ".json"))
    as (H1 & H2 & H3 & H4 & H5) by (revert E; vm_compute; by intros [= <-]).
  destruct (clips (w_db half_protected) !! demo_id) as [c|] eqn:Ec; [|by vm_compute in Ec].
  assert (r_video_path c = in_dir "clips" demo_stem ".mp4" /\
    r_sidecar_path c = in_dir "clips" demo_stem ".json") as [Ev Es]
    by (vm_compute in Ec; injection Ec as <-; split; vm_compute; reflexivity).
  edestruct (@protect_intent_converges demo_env half_protected (mkUUID 1000) row 200 2 c)
    as (c' & res & w' & Hrun & Hcomp & _ & Hfiles & _);
    [|reflexivity|exact E|exact H1|exact H2|by rewrite H3|exact H4|exact H5|..|done|done|].
  - apply reach_files, demo_reachable. by repeat constructor.
  - rewrite Ev, Es. apply (bool_decide_unpack _). vm_compute. exact I.
  - rewrite Ev. right. split; vm_compute; reflexivity.
  - rewrite Es. left. split; vm_compute; reflexivity.
  - exists res, w'. split; [exact Hrun|]. split; [exact Hcomp|]. rewrite Hfiles. by rewrite decide_True.
Defined.
