(* ===== verification/Protection.v ===== *)
(** * Protection outlasts every call but an explicit unprotect

    [held] is the state an event leaves a clip in: protected, at a protection revision newer
    than any pending UNPROTECT expects. Every catalog method keeps it, apart from
    [prepare_unprotect] of that very clip. *)

From Stdlib Require Import Ascii String ZArith Lia Strings.Byte.
From stdpp Require Import base list gmap strings sorting.
From S2P Require Import Prelude PyStr Uuid Retention State Naming Intents Models Filesystem.
From S2P Require Import CatalogDb Catalog Reconcile CatalogDemo CatalogInv CatalogSafe.
From S2P Require Import ReconcileSafe CatalogProperties.

(** No pending operation will end the protection of the clip with this revision. *)
Definition unprotect_outdated (id : UUID) (revision : Z) (m : gmap UUID IntentRow) : Prop :=
  forall i r e, m !! i = Some r -> i_complete r = false -> clip_id (i_intent r) = id ->
    kind (i_intent r) = UNPROTECT -> i_expected_revision r = Some e -> e < revision.

Definition held (id : UUID) (d : DB) : Prop :=
  exists c, clips d !! id = Some c /\ r_protected c = true /\
    unprotect_outdated id (r_revision c) (intents d).

(** ** Statements *)

Lemma held_update id d j c c' :
  held id d -> clips d !! j = Some c ->
  (j = id -> r_protected c = true -> r_protected c' = true /\ r_revision c <= r_revision c') ->
  held id (set_clips (fun m => <[j := c']> m) d).
Proof.
  intros (b & Hb & Hp & Hu) Hc Hf. unfold held. simpl.
  destruct (decide (j = id)) as [->|]; simplify_map_eq; [|by exists b].
  destruct (Hf eq_refl Hp) as [Hp' Hr]. exists c'. split_and!; [done..|].
  intros i r e Hi Hinc Hid Hk He. specialize (Hu i r e Hi Hinc Hid Hk He). lia.
Qed.

Lemma held_insert_intent id d i r :
  held id d ->
  (clip_id (i_intent r) = id -> kind (i_intent r) = UNPROTECT -> i_expected_revision r = None) ->
  held id (set_intents (fun m => <[i := r]> m) d).
Proof.
  intros (b & Hb & Hp & Hu) Hr. exists b. split_and!; [done..|]. simpl.
  intros j s e Hj Hinc Hid Hk He. destruct (decide (i = j)) as [->|]; simplify_map_eq; [|by eauto].
  rewrite Hr in He; done.
Qed.

Lemma held_alter_intent id d i f :
  held id d ->
  (forall r, i_complete (f r) = false ->
     i_complete r = false /\ i_intent (f r) = i_intent r /\
     i_expected_revision (f r) = i_expected_revision r) ->
  held id (set_intents (fun m => alter f i m) d).
Proof.
  intros (b & Hb & Hp & Hu) Hf. exists b. split_and!; [done..|]. simpl.
  intros j s e Hj Hinc Hid Hk He. rewrite lookup_alter in Hj.
  destruct (decide (i = j)) as [->|]; [|by eauto].
  destruct (intents d !! j) as [r|] eqn:Hr; simplify_eq/=.
  destruct (Hf r Hinc) as (? & Ei & Ee). rewrite Ei in *. rewrite Ee in He. eauto.
Qed.

Lemma db_same_query {F A} (q : DB -> A) : db_same (@query F A q).
Proof. by intros w. Qed.
Lemma db_same_size {F} `{CatalogFilesystem F} p : db_same (f_file_size p).
Proof. by intros w. Qed.
Lemma db_same_iter {F} `{CatalogFilesystem F} d n : db_same (f_iter_files d n).
Proof. by intros w. Qed.

#[export] Hint Resolve db_same_query db_same_size db_same_iter : dashcam.
Section holds.
Context {F : Type} (id : UUID).
Implicit Types w : World F.

Definition holds {A} (m : M F A) : Prop := forall w, held id (w_db w) -> held id (w_db (snd (m w))).

Lemma holds_same {A} (m : M F A) : db_same m -> holds m.
Proof. intros Hm w Hw. by rewrite Hm. Qed.

Lemma holds_bind_at {A B} (m : M F A) (k : A -> M F B) w :
  held id (w_db (snd (m w))) -> (forall a, holds (k a)) -> held id (w_db (snd (mbind m k w))).
Proof. intros Hm Hk. unfold mbind. destruct (m w) as [[a|e] w']; simpl in *; [by apply Hk|done]. Qed.

Lemma holds_bind {A B} (m : M F A) (k : A -> M F B) :
  holds m -> (forall a, holds (k a)) -> holds (mbind m k).
Proof. intros Hm Hk w Hw. by apply holds_bind_at; [apply Hm|]. Qed.

(** The rest of a body may use that its row was just read. *)
Lemma holds_required {B} j (k : ClipRow -> M F B) :
  (forall w c, held id (w_db w) -> clips (w_db w) !! j = Some c -> held id (w_db (snd (k c w)))) ->
  holds (mbind (required_clip_row j) k).
Proof.
  intros Hk w Hw. unfold required_clip_row, mbind, query. simpl.
  destruct (clips (w_db w) !! j) eqn:E; simpl; [by apply Hk|done].
Qed.

Lemma holds_lift_bind {A B} (r : result A) (k : A -> M F B) :
  (forall a, r = Ok a -> holds (k a)) -> holds (mbind (lift r) k).
Proof. intros Hk w Hw. unfold mbind, lift. destruct r; [by apply Hk|done]. Qed.

Lemma holds_transaction {A} (m : M F A) : holds m -> holds (transaction m).
Proof.
  intros Hm w Hw. unfold transaction. specialize (Hm w Hw). by destruct (m w) as [[]].
Qed.

Lemma holds_mtry {A} (m : M F A) h : holds m -> (forall e, holds (h e)) -> holds (mtry m h).
Proof.
  intros Hm Hh w Hw. unfold mtry. specialize (Hm w Hw). destruct (m w) as [[]]; simpl in *; [done|].
  by apply Hh.
Qed.

Lemma holds_mfold {A B} (f : B -> A -> M F B) b l :
  (forall b x, holds (f b x)) -> holds (mfold f b l).
Proof.
  intros Hf. revert b. induction l as [|x l IH]; intros b; simpl; [by intros w|].
  by apply holds_bind.
Qed.

Lemma holds_update_clip j f :
  (forall c, j = id -> r_protected c = true ->
     r_protected (f c) = true /\ r_revision c <= r_revision (f c)) ->
  holds (update_clip (F := F) j f).
Proof.
  intros Hf w Hw. unfold update_clip, mbind, query, guard. simpl.
  destruct (clips (w_db w) !! j) as [c|] eqn:Hc; [|done]. destruct (negb _); [done|]. simpl.
  eapply held_update; eauto.
Qed.

Lemma held_other_tables d d' : held id d -> clips d' = clips d -> intents d' = intents d -> held id d'.
Proof. intros (c & Hc & Hp & Hu) Ec Ei. exists c. by rewrite Ec, Ei. Qed.

Lemma holds_execute f :
  (forall d, clips (f d) = clips d /\ intents (f d) = intents d) -> holds (execute (F := F) f).
Proof. intros Hf w Hw. eapply held_other_tables; [exact Hw|apply Hf..]. Qed.

(** A statement that fails changes nothing. *)
Lemma holds_statement {A} (m : M F A) :
  atomic m -> (forall w a w', held id (w_db w) -> m w = (Ok a, w') -> held id (w_db w')) -> holds m.
Proof.
  intros Ha Hm w Hw. destruct (m w) as [[a|e] w'] eqn:E; simpl; [by eapply Hm|].
  by rewrite (Ha _ _ _ E).
Qed.

Lemma atomic_execute f : atomic (F := F) (execute f).
Proof. by intros w e w'. Qed.

Lemma holds_insert_clip_row j r : holds (insert_clip_row (F := F) j r).
Proof.
  apply holds_statement.
  - unfold insert_clip_row. repeat (apply atomic_execute || atomic_step || by intros w).
  - intros w a w' (c & Hc & Hp & Hu) (Hj & _ & _ & ->)%insert_clip_row_ok. exists c. simpl.
    rewrite lookup_insert_ne by congruence. done.
Qed.

Lemma holds_insert_intent_row r :
  (clip_id (i_intent r) = id -> kind (i_intent r) = UNPROTECT -> i_expected_revision r = None) ->
  holds (insert_intent_row (F := F) r).
Proof.
  intros Hr. apply holds_statement.
  - unfold insert_intent_row. repeat (apply atomic_execute || atomic_step || by intros w).
  - intros w a w' Hw (_ & _ & _ & ->)%insert_intent_row_ok. by apply held_insert_intent.
Qed.

Lemma holds_update_intent i f :
  (forall r, i_complete (f r) = false ->
     i_complete r = false /\ i_intent (f r) = i_intent r /\
     i_expected_revision (f r) = i_expected_revision r) ->
  holds (update_intent (F := F) i f).
Proof. intros Hf w Hw. by apply held_alter_intent. Qed.

End holds.

#[export] Hint Resolve holds_insert_clip_row holds_insert_intent_row : dashcam.

Ltac holds_step :=
  match goal with
  | |- holds _ (let x := _ in _) => cbv zeta
  | |- holds _ (transaction _) => apply holds_transaction
  | |- holds _ (mbind _ _) => apply holds_bind; [|intros ?]
  | |- holds _ (if ?b then _ else _) => destruct b eqn:?
  | |- holds _ (match ?x with _ => _ end) => destruct x eqn:?
  | |- holds _ (mtry _ _) => apply holds_mtry; [|intros ?]
  | |- holds _ (mfold _ _ _) => apply holds_mfold; intros ? ?
  | |- holds _ (mfor _ _) => apply holds_mfold; intros ? ?
  | |- holds _ (update_clip _ _) => apply holds_update_clip; intros ? ? ?; simpl; split; [done|done || lia]
  | |- holds _ (update_intent _ _) => apply holds_update_intent; intros ?; simpl; done
  | |- holds _ (execute _) => apply holds_execute; intros ?; done
  | |- holds _ _ => solve [apply holds_same; eauto with dashcam | eauto with dashcam]
  end.

(** Prove a run by showing that its method holds everywhere. *)
Ltac to_holds Hw :=
  match goal with |- held ?i (w_db (snd (?m ?w))) =>
    let Hm := fresh in enough (Hm : holds i m) by exact (Hm w Hw) end.

(** ** Methods *)

Section methods.
Context {F : Type} `{CatalogFilesystem F} `{Environment} (id : UUID).
Implicit Types w : World F.

Lemma holds_insert_intent_locked j k p now e :
  (j = id -> k = UNPROTECT -> e = None) -> holds id (insert_intent_locked (F := F) j k p now e).
Proof.
  intros Hk. unfold insert_intent_locked. apply holds_bind; [holds_step|intros new].
  apply holds_lift_bind. intros it (-> & _)%OperationIntent_new_ok.
  apply holds_bind; [|intros; holds_step]. by apply holds_insert_intent_row.
Qed.

Lemma holds_queue_move j k r dir now e :
  (j = id -> k = UNPROTECT -> e = None) -> holds id (queue_move_locked (F := F) j k r dir now e).
Proof.
  intros Hk. unfold queue_move_locked.
  repeat ((apply holds_insert_intent_locked; done) || holds_step).
Qed.

Lemma holds_prepare_protect_locked j reason now a : holds id (prepare_protect_locked (F := F) j reason now a).
Proof.
  unfold prepare_protect_locked, pending_intent_row, required_clip_row.
  repeat ((apply holds_queue_move; done) || holds_step).
Qed.

Lemma holds_protect_for_event_locked j reason now : holds id (protect_for_event_locked (F := F) j reason now).
Proof.
  unfold protect_for_event_locked, pending_intent_row, required_clip_row.
  repeat ((apply holds_queue_move; done) || holds_step).
Qed.

(** The repair unprotects only a clip whose row is unprotected. *)
Lemma holds_repair_locked j c now :
  (j = id -> r_protected c = true) ->
  holds id (queue_directory_invariant_repair_locked (F := F) j c now).
Proof.
  intros Hc. unfold queue_directory_invariant_repair_locked, pending_intent_row.
  repeat ((apply holds_queue_move; done) || holds_step).
  apply holds_queue_move. intros Hj _.
  match goal with Hb : negb _ && _ = true |- _ => by rewrite (Hc Hj) in Hb end.
Qed.

Lemma held_protected d c : held id d -> clips d !! id = Some c -> r_protected c = true.
Proof. intros (c' & Hc & Hp & _) ?. by simplify_eq. Qed.

Lemma holds_read_and_repair {B} j now (k : option UUID -> M F B) :
  (forall q, holds id (k q)) ->
  holds id (mbind (required_clip_row j)
              (fun c => mbind (queue_directory_invariant_repair_locked j c now) k)).
Proof.
  intros Hk. apply holds_required. intros w c Hw Hc. apply holds_bind; [|done|done].
  apply holds_repair_locked. intros ->. by eapply held_protected.
Qed.

Lemma holds_read_repair j now :
  holds id (mbind (required_clip_row (F := F) j)
              (fun c => queue_directory_invariant_repair_locked j c now)).
Proof.
  apply holds_required. intros w c Hw Hc. apply holds_repair_locked; [|done].
  intros ->. by eapply held_protected.
Qed.

Lemma holds_consume_closing_window j now e : holds id (consume_closing_window (F := F) j now e).
Proof.
  unfold consume_closing_window, insert_target_row, decrement_remaining, integrity.
  repeat (apply holds_protect_for_event_locked || holds_step).
Qed.

Lemma holds_consume_window j e : holds id (consume_window (F := F) j e).
Proof. unfold consume_window, insert_target_row, decrement_remaining, integrity. repeat holds_step. Qed.

Lemma holds_clear_and_repair {B} j now (k : option UUID -> M F B) :
  (forall q, holds id (k q)) ->
  holds id (mbind (clear_lease_locked j) (fun _ => mbind (required_clip_row j)
              (fun c => mbind (queue_directory_invariant_repair_locked j c now) k))).
Proof.
  intros Hk. apply holds_bind; [unfold clear_lease_locked; repeat holds_step|intros _].
  by apply holds_read_and_repair.
Qed.

Lemma holds_clear_one_expired now row : holds id (clear_one_expired (F := F) now row).
Proof. apply holds_clear_and_repair. intros q. holds_step. Qed.

Lemma holds_prepare_delete_row_locked j c now boot : holds id (prepare_delete_row_locked (F := F) j c now boot).
Proof.
  unfold prepare_delete_row_locked, pending_intent_row.
  repeat ((apply holds_insert_intent_locked; done) || holds_step).
Qed.

Lemma holds_insert_clip_locked clip now : holds id (insert_clip_locked (F := F) clip now).
Proof. unfold insert_clip_locked. repeat holds_step. Qed.

Lemma holds_record_event event current source now p n rq :
  holds id (record_event (F := F) event current source now p n rq).
Proof.
  unfold record_event, protect_target, insert_event_row, insert_target_row, required_clip_row, integrity.
  repeat (apply holds_protect_for_event_locked || holds_step).
Qed.

Lemma holds_required_row j : holds id (required_clip_row (F := F) j).
Proof. unfold required_clip_row. repeat holds_step. Qed.

Lemma holds_finalize_clip j e size now : holds id (finalize_clip (F := F) j e size now).
Proof.
  unfold finalize_clip, required_clip_row.
  repeat (apply holds_consume_window || apply holds_protect_for_event_locked
          || apply holds_prepare_protect_locked || holds_step).
Qed.

Lemma holds_active_closing_protection j now : holds id (active_closing_protection (F := F) j now).
Proof.
  unfold active_closing_protection, required_clip_row.
  repeat (apply holds_consume_closing_window || holds_step).
Qed.

Lemma holds_trigger_event current source now p n e rq :
  holds id (trigger_event (F := F) current source now p n e rq).
Proof.
  unfold trigger_event, replay_event. repeat (apply holds_record_event || holds_step).
Qed.

Lemma holds_register_finalizing_clip clip p now e :
  holds id (register_finalizing_clip (F := F) clip p now e).
Proof.
  unfold register_finalizing_clip.
  repeat (apply holds_insert_clip_locked || (apply holds_insert_intent_locked; done) || holds_step).
  apply holds_update_clip. intros. destruct (c_end_monotonic_ns clip); simpl; split; [done|lia|done|lia].
Qed.

Lemma holds_register_name_reconciliation plan source now :
  holds id (register_name_reconciliation (F := F) plan source now).
Proof.
  unfold register_name_reconciliation, insert_existing_intent_locked, pending_intent_row, required_clip_row.
  repeat holds_step.
Qed.

Lemma holds_acquire_download_lease j h now d boot n :
  holds id (acquire_download_lease (F := F) j h now d boot n).
Proof. unfold acquire_download_lease, pending_intent_row, required_clip_row. repeat holds_step. Qed.

Lemma holds_release_download_lease j h now : holds id (release_download_lease (F := F) j h now).
Proof.
  unfold release_download_lease.
  repeat ((apply holds_clear_and_repair; intros ?) || apply holds_required_row || holds_step).
Qed.

Lemma holds_clear_expired_download_leases now boot n :
  holds id (clear_expired_download_leases (F := F) now boot n).
Proof. unfold clear_expired_download_leases. repeat (apply holds_clear_one_expired || holds_step). Qed.

Lemma holds_prepare_unprotect j now : j <> id -> holds id (prepare_unprotect (F := F) j now).
Proof.
  intros Hj. unfold prepare_unprotect, pending_intent_row, required_clip_row.
  repeat ((apply holds_queue_move; done) || holds_step).
Qed.

End methods.

(** ** Recovery *)

Section recovery.
Context {F : Type} `{CatalogFilesystem F} `{Environment} (id : UUID).
Implicit Types w : World F.

Lemma holds_queue_protect_after i v s now : holds id (queue_protect_after (F := F) i v s now).
Proof.
  unfold queue_protect_after. repeat ((apply holds_insert_intent_locked; done) || holds_step).
Qed.

Lemma holds_mark_complete i now : holds id (mark_intent_complete_locked (F := F) i now).
Proof. unfold mark_intent_complete_locked. holds_step. Qed.

(** Completing an outdated UNPROTECT keeps the protection it finds. *)
Lemma complete_unprotect_held w i row v s now :
  db_ok (w_db w) -> intents (w_db w) !! i = Some row -> i_complete row = false ->
  kind (i_intent row) = UNPROTECT -> held id (w_db w) ->
  held id (w_db (snd (complete_unprotect_locked (i_intent row) v s now w))).
Proof.
  intros Hok Hi Hinc Hk Hw. destruct (ok_intents _ Hok _ _ Hi) as (Hid & _ & c & Hc & _).
  unfold complete_unprotect_locked, mbind at 1, query. rewrite Hid, Hi.
  unfold mbind at 1, the. simpl. unfold required_clip_row at 1, mbind at 1 2, query. rewrite Hc. simpl.
  to_holds Hw.
  repeat (apply holds_mark_complete || apply holds_queue_protect_after || holds_step).
  apply holds_update_clip. intros c' Heq Hp. simpl. split; [|lia]. subst id.
  destruct Hw as (b & Hb & _ & Hu). assert (b = c) as -> by congruence.
  destruct (i_expected_revision row) as [e|] eqn:He; [|done]. apply Z.ltb_lt. by eapply Hu.
Qed.

Lemma complete_intent_held w i row now :
  db_ok (w_db w) -> intents (w_db w) !! i = Some row -> i_complete row = false ->
  held id (w_db w) -> held id (w_db (snd (complete_intent_locked (i_intent row) now w))).
Proof.
  intros Hok Hi Hinc Hw. unfold complete_intent_locked.
  destruct (kind (i_intent row)) eqn:Hk.
  4: { destruct (video_target _), (sidecar_target _); unfold mbind, the, mret, mfail; simpl; try done.
       by eapply complete_unprotect_held. }
  all: to_holds Hw.
  all: unfold complete_rename_locked, complete_protect_locked, complete_delete_locked, required_clip_row.
  all: repeat (apply holds_mark_complete || apply holds_queue_protect_after || holds_step).
Qed.

Lemma reconcile_intent_held i now n w :
  db_ok (w_db w) -> held id (w_db w) -> held id (w_db (snd (reconcile_intent (F := F) i now n w))).
Proof.
  intros Hok Hw. destruct (reconcile_intent i now n w) as [[a|e] w'] eqn:Hm; simpl.
  2: { assert (Ha : atomic (reconcile_intent (F := F) i now n)) by (unfold reconcile_intent; repeat atomic_step).
       by rewrite (Ha _ _ _ Hm). }
  apply reconcile_intent_ok in Hm as [->|[[p ->]|(row & w3 & x & Hi & Hinc & Hdb & Hc)]];
    [done|by apply held_alter_intent| |done].
  pose proof (complete_intent_held w3 i row now) as Hh. rewrite Hdb, Hc in Hh. by apply Hh.
Qed.

Lemma holds_startup_row b now p row : holds id (startup_row (F := F) b now p row).
Proof.
  unfold startup_row, record_pair_observation, record_complete_pair, queue_directory_invariant_repair.
  destruct row as [j r]. unfold pending_intent_row.
  repeat (apply holds_read_repair || apply holds_required_row || holds_step).
  all: apply holds_update_clip; intros; simpl; destruct o; simpl; (split; [done|lia]).
Qed.

Lemma holds_startup_sidecar b now p path : holds id (startup_sidecar (F := F) b now p path).
Proof.
  unfold startup_sidecar, import_sidecar_if_unindexed, import_sidecar, get_clip, register_clip.
  repeat (apply holds_insert_clip_locked || apply holds_required_row || holds_step).
Qed.

(** The clip stays held, given the catalog invariant, which is itself kept. *)
Definition stays {A} (m : M F A) : Prop :=
  forall w, db_ok (w_db w) -> held id (w_db w) -> held id (w_db (snd (m w))).

Lemma stays_bind {A B} (m : M F A) (k : A -> M F B) :
  keeps m -> stays m -> (forall a, stays (k a)) -> stays (mbind m k).
Proof.
  intros Hm Hs Hk w Hok Hw. unfold mbind. specialize (Hm w Hok). specialize (Hs w Hok Hw).
  destruct (m w) as [[a|e] w']; simpl in *; [by apply Hk|done].
Qed.

Lemma stays_holds {A} (m : M F A) : holds id m -> stays m.
Proof. intros Hm w _. apply Hm. Qed.

Lemma stays_startup_intents b now l p : stays (startup_intents b now l p).
Proof.
  revert p. induction l as [|i l IH]; intros p; simpl; [apply stays_holds; holds_step|].
  destruct (_ <=? _); [apply stays_holds; holds_step|].
  apply stays_bind; [apply keeps_reconcile_intent| |intros; apply IH].
  intros w Hok. by apply reconcile_intent_held.
Qed.

Lemma holds_startup_directories b now ds p : holds id (startup_directories (F := F) b now ds p).
Proof.
  revert p. induction ds as [|d ds IH]; intros p; simpl; [holds_step|].
  repeat (apply IH || apply holds_startup_sidecar || holds_step).
Qed.

Lemma stays_reconcile_startup now boot b : stays (reconcile_startup now boot b).
Proof.
  unfold reconcile_startup, work_queued, list_pending_intents, catalog_rows_for_recovery.
  do 2 (apply stays_bind; [apply keeps_lift|apply stays_holds; holds_step|intros _]).
  apply stays_bind; [apply keeps_clear_expired_download_leases| |intros [expired more]].
  { apply stays_holds, holds_clear_expired_download_leases. }
  apply stays_bind; [repeat keeps_step|apply stays_holds; repeat holds_step|intros listed].
  apply stays_bind; [apply keeps_startup_intents|apply stays_startup_intents|intros p].
  apply stays_holds.
  repeat (apply holds_startup_row || apply holds_startup_directories || holds_step).
Qed.

Lemma holds_void {A} (m : M F A) : holds id m -> holds id (void m).
Proof. intros Hm. apply holds_bind; [done|intros; holds_step]. Qed.

(** Any call but an unprotect of this clip. *)
Lemma stays_call (c : catalog_call) :
  (forall now, c <> CUnprotect id now) -> stays (run_call c).
Proof.
  intros Hc. destruct c; simpl.
  17: { apply stays_bind; [apply keeps_reconcile_intent|intros w ?; by apply reconcile_intent_held|].
        intros; apply stays_holds; holds_step. }
  17: { apply stays_bind; [apply keeps_reconcile_startup|apply stays_reconcile_startup|].
        intros; apply stays_holds; holds_step. }
  all: apply stays_holds; try apply holds_void.
  12: { apply holds_prepare_unprotect. intros ->. by apply (Hc now). }
  all: try first [ apply holds_active_closing_protection | apply holds_register_finalizing_clip
    | apply holds_register_name_reconciliation | apply holds_trigger_event | apply holds_finalize_clip
    | apply holds_acquire_download_lease | apply holds_release_download_lease
    | apply holds_clear_expired_download_leases ].
  all: unfold store_retention_threshold_latch, register_clip, register_writing_clip,
    mark_writing_clip_orphaned, prepare_protect, prepare_delete, prepare_oldest_eligible_delete.
  all: repeat (apply holds_insert_clip_locked || apply holds_prepare_protect_locked
    || apply holds_required_row || apply holds_prepare_delete_row_locked || holds_step).
Qed.

End recovery.
