(* ===== verification/EventProperties.v ===== *)
(** * What an event promises

    The clips a triggered event names stay protected until an explicit unprotect. *)

From Stdlib Require Import Ascii String ZArith Lia Strings.Byte.
From stdpp Require Import base list gmap strings sorting.
From S2P Require Import Prelude PyStr Uuid Retention State Naming Intents Models Filesystem.
From S2P Require Import CatalogDb Catalog Reconcile CatalogDemo CatalogInv CatalogSafe.
From S2P Require Import ReconcileSafe CatalogProperties Protection.

Section events.
Context {F : Type} `{CatalogFilesystem F} `{Environment}.
Implicit Types w : World F.

(** Any calls except an unprotect of this clip, with files changing in between. *)
Inductive without_unprotect (id : UUID) (w : World F) : World F -> Prop :=
  | wu_start : without_unprotect id w w
  | wu_call w' c : without_unprotect id w w' -> call_typed c -> (forall now, c <> CUnprotect id now) ->
      without_unprotect id w (snd (run_call c w'))
  | wu_files w' f : without_unprotect id w w' -> without_unprotect id w (set_fs f w').

Lemma without_unprotect_held id w w' :
  without_unprotect id w w' -> db_ok (w_db w) -> held id (w_db w) ->
  db_ok (w_db w') /\ held id (w_db w').
Proof.
  induction 1 as [|w' c _ IH Ht Hc|w' f _ IH]; intros Hok Hw; [done| |by apply IH].
  destruct (IH Hok Hw) as [Hok' Hw']. split; [by apply keeps_call|by apply stays_call].
Qed.

(** A clip that exists and is not going away. *)
Definition live (id : UUID) (d : DB) : Prop :=
  exists c, clips d !! id = Some c /\ r_lifecycle c <> DELETING /\ r_lifecycle c <> DELETED.

Lemma live_update id d j c c' :
  live id d -> clips d !! j = Some c -> r_lifecycle c' = r_lifecycle c ->
  live id (set_clips (fun m => <[j := c']> m) d).
Proof.
  intros (b & Hb & Hl) Hc He. unfold live. simpl.
  destruct (decide (j = id)) as [->|]; simplify_map_eq; [|by exists b].
  exists c'. by rewrite He.
Qed.

(** The protection of one target: it leaves a live clip held, and other live clips live. *)
Lemma protect_for_event_live id j reason now w q w' :
  live id (w_db w) -> protect_for_event_locked j reason now w = (Ok q, w') -> live id (w_db w').
Proof.
  unfold protect_for_event_locked. intros Hl Hm.
  apply mbind_ok in Hm as (c & w1 & [Hc ->]%required_clip_row_ok & Hm).
  inv_M_step; [by inv_cat|]. inv_M_step. apply query_ok in Hm0 as [-> ->].
  inv_M_step; [by inv_cat|]. inv_M_step.
  destruct (update_clip_row _ _ _ _ _ _ Hm0 Hc) as [_ ->].
  pose proof (live_update id _ j c (set_protected_row reason now c) Hl Hc eq_refl) as Hl1.
  inv_cat; try done.
  match goal with Hq : queue_move_locked _ _ _ _ _ _ _ = _ |- _ =>
    eapply queue_move_locked_ok in Hq as (p & _ & _ & _ & _ & ->);
      [|apply protected_managed|apply lookup_insert_eq] end.
  simpl. eapply (live_update id (set_intents _ _)); [exact Hl1|apply lookup_insert_eq|done].
Qed.

Lemma protect_for_event_held id reason now w q w' :
  db_ok (w_db w) -> live id (w_db w) -> protect_for_event_locked id reason now w = (Ok q, w') ->
  held id (w_db w').
Proof.
  unfold protect_for_event_locked. intros Hok (c & Hc & Hl1 & Hl2) Hm.
  apply mbind_ok in Hm as (c' & w1 & [Hc' ->]%required_clip_row_ok & Hm). simplify_eq.
  rewrite bool_decide_false in Hm by (rewrite !elem_of_cons, elem_of_nil; naive_solver).
  apply mbind_ok in Hm as (pending & ? & [-> ->]%query_ok & Hm).
  assert (Hnd : forall i r, intents (w_db w) !! i = Some r -> i_complete r = false ->
    clip_id (i_intent r) = id -> pending_row_ok r c).
  { intros i r Hi Hinc Hid. destruct (ok_intents _ Hok _ _ Hi) as (_ & _ & b & Hb & Hr).
    rewrite Hid in Hb. simplify_eq. auto. }
  inv_M_step.
  { destruct (pending_of (w_db w) id) as [[i r]|] eqn:Hp; [|done].
    apply pending_of_Some in Hp as (Hi & Hinc & Hid).
    specialize (Hnd i r Hi Hinc Hid). unfold pending_row_ok in Hnd. bool_prop.
    match goal with Hk : kind _ = DELETE |- _ => rewrite Hk in Hnd end. naive_solver. }
  apply mbind_ok in Hm as (v & w1 & Hu & Hm).
  destruct (update_clip_row _ _ _ _ _ _ Hu Hc) as [_ ->].
  assert (Hh : held id (set_clips (fun m => <[id := set_protected_row reason now c]> m) (w_db w))).
  { eexists. simpl. rewrite lookup_insert_eq. split_and!; [done..|].
    intros i r e Hi Hinc Hid Hk He. specialize (Hnd i r Hi Hinc Hid).
    unfold pending_row_ok in Hnd. rewrite Hk in Hnd. destruct Hnd as (_ & _ & _ & _ & e' & He' & Hle & _).
    simplify_eq. simpl. lia. }
  match type of Hm with ?m ?w1 = _ => enough (Hm' : holds id m) by
    (specialize (Hm' w1 Hh); by rewrite Hm in Hm') end.
  repeat ((apply holds_queue_move; done) || holds_step).
Qed.

(** Every target of the loop ends up held. *)
Lemma protect_targets_held event reason now acc l id w acc' w' :
  db_ok (w_db w) -> Forall (fun t => snd (fst t) <> NEXT) l -> Forall (fun t => live (fst (fst t)) (w_db w)) l ->
  mfold (protect_target event reason now) acc l w = (Ok acc', w') ->
  id ∈ map (fun t => fst (fst t)) l -> held id (w_db w').
Proof.
  intros Hok Hr Hl. revert acc w Hok Hl.
  induction Hr as [|[[j role] o] l Hrole Hr IH]; intros acc w Hok Hl Hm Hin; simpl in *; [by apply elem_of_nil in Hin|].
  apply Forall_cons in Hl as [Hj Hl]. apply mbind_ok in Hm as (acc1 & w1 & Ht & Hm).
  assert (Ht' := Ht). unfold protect_target in Ht. destruct acc as [ps qs].
  apply mbind_ok in Ht as (q & w2 & Hq & Ht). apply mbind_ok in Ht as (x & w3 & Hi & [-> ->]%mret_ok).
  pose proof Hq as [Hok2 _]%protect_for_event_locked_safe; [|done].
  apply insert_target_row_ok in Hi as (? & ? & ? & ->).
  assert (Hok3 : db_ok (set_targets (fun m => <[(event, j) := mkTargetRow role o]> m) (w_db w2)))
    by (by apply insert_target_db_ok).
  apply elem_of_cons in Hin as [->|Hin].
  - assert (Hh : held j (w_db w2)) by (eapply protect_for_event_held; [exact Hok|exact Hj|exact Hq]).
    match type of Hm with ?m ?w1 = _ => enough (Hm' : holds j m) by
      (assert (Hh' : held j (w_db w1)) by exact Hh; specialize (Hm' w1 Hh'); by rewrite Hm in Hm') end.
    apply holds_mfold. intros [ps' qs'] [[j' role'] o']. unfold protect_target, insert_target_row, integrity.
    repeat (apply holds_protect_for_event_locked || holds_step).
  - eapply IH; [..|exact Hm|done]; simpl; [exact Hok3|].
    eapply Forall_impl; [exact Hl|]. intros t Hlt. simpl.
    eapply protect_for_event_live in Hq; [|exact Hlt]. exact Hq.
Qed.

Lemma previous_rows_elem row n d r :
  r ∈ previous_rows row n d ->
  clips d !! fst r = Some (snd r) /\ r_order (snd r) < r_order row /\ r_lifecycle (snd r) = FINALIZED.
Proof.
  unfold previous_rows, limited. intros (k & Hk%list_elem_of_lookup_2 & _)%elem_of_take.
  apply list_elem_of_In, in_rev, list_elem_of_In, select_clips_elem in Hk as [Hc Hp]. by bool_prop.
Qed.

Lemma map_imap {A B C} (f : nat -> A -> B) (g : B -> C) (h : A -> C) l :
  (forall k x, g (f k x) = h x) -> map g (imap f l) = map h l.
Proof.
  revert f. induction l as [|x l IH]; intros f Hf; simpl; [done|].
  rewrite Hf. f_equal. apply IH. intros. apply Hf.
Qed.

Lemma event_targets_ids previous current :
  map (fun t => fst (fst t)) (event_targets previous current) = rev (map fst previous) ++ [current].
Proof.
  unfold event_targets. rewrite map_app, <-map_rev. simpl. f_equal. by apply map_imap.
Qed.

Lemma event_targets_live row current n d :
  clips d !! current = Some row -> r_lifecycle row <> DELETING -> r_lifecycle row <> DELETED ->
  Forall (fun t => live (fst (fst t)) d) (event_targets (previous_rows row n d) current).
Proof.
  intros Hc H1 H2. apply Forall_app. split.
  - apply Forall_lookup. intros k [[id role] o]. rewrite list_lookup_imap.
    destruct (rev (previous_rows row n d) !! k) as [r|] eqn:Hr; simpl; [|done]. intros [= <- _ _].
    apply list_elem_of_lookup_2, list_elem_of_In, in_rev, list_elem_of_In, previous_rows_elem in Hr
      as (Hc' & _ & Hl). exists (snd r). by rewrite Hl.
  - repeat constructor. by exists row.
Qed.

Lemma protect_targets_ids event reason now acc l w acc' w' :
  mfold (protect_target event reason now) acc l w = (Ok acc', w') ->
  fst acc' = fst acc ++ map (fun t => fst (fst t)) l.
Proof.
  revert acc w. induction l as [|[[j role] o] l IH]; intros [ps qs] w Hm; simpl in *.
  - apply mret_ok in Hm as [-> _]. by rewrite app_nil_r.
  - apply mbind_ok in Hm as (acc1 & w1 & Ht & Hm).
    apply mbind_ok in Ht as (q & w2 & _ & Ht). apply mbind_ok in Ht as (x & w3 & _ & [-> ->]%mret_ok).
    rewrite (IH _ _ Hm). simpl. by rewrite <-app_assoc.
Qed.

(** The steps of recording a new event. *)
Lemma record_event_ok event current source now p n rq w res w' :
  record_event event current source now p n rq w = (Ok res, w') ->
  exists row acc w1, clips (w_db w) !! current = Some row /\
    r_lifecycle row <> DELETING /\ r_lifecycle row <> DELETED /\
    let previous := previous_rows row p (w_db w) in
    let er := mkEventRow source now current p n (p - Z.of_nat (length previous)) n in
    events (w_db w) !! event = None /\ event_checks er = true /\
    w1 = set_db (set_events (fun m => <[event := er]> m) (w_db w)) w /\
    mfold (protect_target event (event_reason event source) now) ([], [])
      (event_targets previous current) w1 = (Ok acc, w') /\
    res = mkEventResult event (rev (map fst previous) ++ [current])
            (p - Z.of_nat (length previous)) n (snd acc).
Proof.
  unfold record_event. intros Hm. inv_cat. bool_prop.
  match goal with Hi : insert_event_row _ _ _ = _ |- _ =>
    apply insert_event_row_ok in Hi as (? & ? & _ & ->) end.
  match goal with Hl : mfold _ _ _ _ = _ |- _ =>
    pose proof (protect_targets_ids _ _ _ _ _ _ _ _ Hl) as Hids end.
  rewrite event_targets_ids in Hids. simpl in Hids.
  eexists _, _, _. split_and!; try done; [..|by rewrite Hids].
  all: match goal with Hn : _ ∉ _ |- _ => rewrite !elem_of_cons, elem_of_nil in Hn; naive_solver end.
Qed.

(** C6: footage an event protects stays protected: when [trigger_event] records a new event, the
    result names the current clip after the finalized clips just before it, and however the
    program goes on, short of [prepare_unprotect] of such a clip, that clip remains in the
    catalog, protected, and is never reserved for deletion. *)
Theorem event_protects_its_clips w current source now p n event rq res w1 :
  catalog_reachable w ->
  trigger_event current source now p n event rq w = (Ok res, w1) ->
  events (w_db w) !! er_event_id res = None ->
  exists id row, current = Some id /\ clips (w_db w) !! id = Some row /\
    er_protected_clip_ids res = rev (map fst (previous_rows row p (w_db w))) ++ [id] /\
    forall target w', target ∈ er_protected_clip_ids res -> without_unprotect target w1 w' ->
      exists c, clips (w_db w') !! target = Some c /\ r_protected c = true /\
        forall i r, intents (w_db w') !! i = Some r -> i_complete r = false ->
          clip_id (i_intent r) = target -> kind (i_intent r) <> DELETE.
Proof.
  intros Hok%reachable_ok Hm Hnew. unfold trigger_event in Hm.
  do 3 apply mbind_ok in Hm as (? & ? & [_ ->]%lift_ok & Hm).
  apply mbind_ok in Hm as (e & w0 & He & Hm). apply (proj1 (transaction_ok _ _ _ _)) in Hm.
  assert (Hdb : w_db w0 = w_db w).
  { destruct event; [by apply mret_ok in He as [_ ->]|]. by apply new_uuid4_ok in He as [_ ->]. }
  apply mbind_ok in Hm as (? & ? & [-> ->]%query_ok & Hm).
  destruct (events (w_db w0) !! e) as [er|] eqn:Her.
  { apply mbind_ok in Hm as (? & ? & [_ ->]%guard_ok & Hm).
    do 2 apply mbind_ok in Hm as (? & ? & [-> ->]%query_ok & Hm).
    apply mret_ok in Hm as [-> _]. simpl in Hnew. congruence. }
  destruct current as [id|]; [|done].
  apply record_event_ok in Hm as (row & acc & w2 & Hc & Hl1 & Hl2 & _ & Hchk & -> & Hf & ->).
  rewrite Hdb in *. exists id, row. split_and!; [done..|]. simpl. intros target w' Ht Hw'.
  pose proof (event_targets_live row id p (w_db w) Hc Hl1 Hl2) as Hlive.
  set (er := mkEventRow _ _ _ _ _ _ _) in *.
  assert (Hok2 : db_ok (set_events (fun m => <[e := er]> m) (w_db w))).
  { apply insert_event_db_ok; try done; by exists row. }
  assert (Hheld : held target (w_db w1)).
  { eapply protect_targets_held; [..|exact Hf|]; simpl; [done|apply event_targets_roles|done|].
    by rewrite event_targets_ids. }
  assert (Hok1 : db_ok (w_db w1)).
  { eapply protect_targets_safe; [..|exact Hf]; simpl; [done|apply event_targets_roles]. }
  destruct (without_unprotect_held _ _ _ Hw' Hok1 Hheld) as [Hok' (c & Hc' & Hp & _)].
  exists c. split_and!; [done..|]. intros i r Hi Hinc Hid Hk.
  destruct (ok_intents _ Hok' _ _ Hi) as (_ & _ & b & Hb & Hrow).
  specialize (Hrow Hinc). unfold pending_row_ok in Hrow. rewrite Hk in Hrow. naive_solver congruence.
Qed.

End events.
