(* ===== verification/EventReplay.v ===== *)
(** * Repeating an event

    Triggering an event again under its identifier answers from the catalog: the recorded
    targets come back in their recorded order and nothing changes. *)

From Stdlib Require Import Ascii String ZArith Lia Strings.Byte.
From stdpp Require Import base list gmap strings sorting.
From S2P Require Import Prelude PyStr Uuid Retention State Naming Intents Models Filesystem.
From S2P Require Import CatalogDb Catalog Reconcile CatalogDemo CatalogInv CatalogSafe.
From S2P Require Import ReconcileSafe CatalogProperties Protection EventProperties.

(** ** The recorded order of the targets *)

Definition target_row (t : UUID * EventTargetRole * Z) : UUID * TargetRow :=
  (fst (fst t), mkTargetRow (snd (fst t)) (snd t)).

Lemma role_rank_inj a b : role_rank a = role_rank b -> a = b.
Proof. by destruct a, b. Qed.

Lemma target_key_leb_ranks a b :
  target_key_leb a b = true ->
  role_rank (t_role (snd a)) < role_rank (t_role (snd b)) \/
  (t_role (snd a) = t_role (snd b) /\ t_ordinal (snd a) <= t_ordinal (snd b)).
Proof.
  unfold target_key_leb. rewrite orb_true_iff, andb_true_iff, Z.ltb_lt, Z.eqb_eq.
  intros [?|[Hr%role_rank_inj Ho%order_key_leb_order]]; [by left|right]. by split.
Qed.

Lemma target_key_leb_antisym a b :
  target_key_leb a b = true -> target_key_leb b a = true ->
  t_role (snd a) = t_role (snd b) /\ t_ordinal (snd a) = t_ordinal (snd b).
Proof.
  intros [Ha|[Ha ?]]%target_key_leb_ranks [Hb|[Hb ?]]%target_key_leb_ranks;
    [lia|rewrite Hb in Ha; lia|rewrite Ha in Hb; lia|]. split; [done|lia].
Qed.

Lemma target_key_leb_intro a b :
  role_rank (t_role (snd a)) < role_rank (t_role (snd b)) \/
  (t_role (snd a) = t_role (snd b) /\ t_ordinal (snd a) < t_ordinal (snd b)) ->
  target_key_leb a b = true.
Proof.
  unfold target_key_leb, order_key_leb. simpl.
  rewrite orb_true_iff, andb_true_iff, orb_true_iff, !Z.ltb_lt, Z.eqb_eq.
  intros [?|[-> ?]]; [by left|right]. split; [done|by left].
Qed.

Lemma target_key_leb_total a b : target_key_leb a b = true \/ target_key_leb b a = true.
Proof.
  unfold target_key_leb. rewrite !orb_true_iff, !andb_true_iff, !Z.ltb_lt, !Z.eqb_eq.
  destruct (order_key_leb_total (t_ordinal (snd a), fst a) (t_ordinal (snd b), fst b)),
    (Z.lt_trichotomy (role_rank (t_role (snd a))) (role_rank (t_role (snd b)))) as [|[|]]; auto 6 with lia.
Qed.

Lemma target_key_leb_trans a b c :
  target_key_leb a b = true -> target_key_leb b c = true -> target_key_leb a c = true.
Proof.
  unfold target_key_leb. rewrite !orb_true_iff, !andb_true_iff, !Z.ltb_lt, !Z.eqb_eq.
  intros [?|[? H1]] [?|[? H2]]; try (left; lia). right. split; [lia|].
  eapply order_key_leb_trans; eauto.
Qed.

(** Two targets of one event differ in role or ordinal. *)
Lemma event_targets_distinct previous current s t :
  s ∈ event_targets previous current -> t ∈ event_targets previous current ->
  snd (fst s) = snd (fst t) -> snd s = snd t -> s = t.
Proof.
  assert (Hp : forall x, x ∈ imap (fun k row => (fst row, PREVIOUS, Z.of_nat k + 1)) (rev previous) ->
    snd (fst x) = PREVIOUS /\ exists k r, rev previous !! k = Some r /\ x = (fst r, PREVIOUS, Z.of_nat k + 1)).
  { intros x [k Hk]%list_elem_of_lookup. rewrite list_lookup_imap in Hk.
    destruct (rev previous !! k) as [r|] eqn:Hr; simplify_eq/=. split; [done|]. by exists k, r. }
  unfold event_targets. rewrite !elem_of_app, !list_elem_of_singleton.
  intros [Hs| ->] [Ht| ->] Hr Ho; try done.
  - apply Hp in Hs as (_ & k & r & Hk & ->). apply Hp in Ht as (_ & k' & r' & Hk' & ->). simpl in *.
    assert (k = k') as -> by lia. congruence.
  - apply Hp in Hs as (Hs & _). simpl in *. congruence.
  - apply Hp in Ht as (Ht & _). simpl in *. congruence.
Qed.

Lemma event_targets_sorted previous current :
  StronglySorted (fun a b => target_key_leb a b = true)
    (map target_row (event_targets previous current)).
Proof.
  unfold event_targets. rewrite map_app. simpl.
  assert (Hgen : forall l n,
    StronglySorted (fun a b => target_key_leb a b = true)
      (map target_row (imap (fun k row => (fst row, PREVIOUS, Z.of_nat (n + k) + 1)) l)
         ++ [(current, mkTargetRow CURRENT 0)]) /\
    Forall (fun b => forall a o, o < Z.of_nat n + 1 -> target_key_leb (a, mkTargetRow PREVIOUS o) b = true)
      (map target_row (imap (fun k row => (@fst UUID ClipRow row, PREVIOUS, Z.of_nat (n + k) + 1)) l)
         ++ [(current, mkTargetRow CURRENT 0)])).
  { induction l as [|r l IH]; intros n.
    - split; repeat constructor.
    - destruct (IH (S n)) as [Hs Hf].
      assert (imap (fun k (row : UUID * ClipRow) => (fst row, PREVIOUS, Z.of_nat (n + k) + 1)) (r :: l)
        = (fst r, PREVIOUS, Z.of_nat n + 1)
          :: imap (fun k (row : UUID * ClipRow) => (fst row, PREVIOUS, Z.of_nat (S n + k) + 1)) l) as ->.
      { rewrite imap_cons. rewrite Nat.add_0_r. f_equal. apply imap_ext. intros k x _.
        unfold compose. by rewrite Nat.add_succ_comm. }
      simpl. split; constructor; [done| | |].
      + eapply Forall_impl; [exact Hf|]. intros b Hb. apply Hb. cbn [snd]. lia.
      + intros a o Ho. apply target_key_leb_intro. right. simpl. split; [done|lia].
      + eapply Forall_impl; [exact Hf|]. intros b Hb a o Ho. apply Hb. lia. }
  apply (Hgen (rev previous) 0%nat).
Qed.

(** ** The state a recorded event leaves *)

(** The rows of one event, without repetition. *)
Lemma event_rows_elem e d c t :
  (c, t) ∈ map (fun r : UUID * UUID * TargetRow => (snd (fst r), snd r))
             (List.filter (fun r => bool_decide (fst (fst r) = e)) (map_to_list (targets d)))
  <-> targets d !! (e, c) = Some t.
Proof.
  rewrite list_elem_of_fmap. split.
  - intros ([[e' c'] t'] & [= -> ->] & [Hin Hp]%list_elem_of_In%filter_In). simpl in Hp. bool_prop.
    subst e'. by apply list_elem_of_In, elem_of_map_to_list in Hin.
  - intros Ht. exists (e, c, t). split; [done|]. apply list_elem_of_In, filter_In.
    split; [by apply list_elem_of_In, elem_of_map_to_list|]. by apply bool_decide_eq_true.
Qed.

Lemma event_rows_NoDup e d :
  NoDup (map (fun r : UUID * UUID * TargetRow => (snd (fst r), snd r))
           (List.filter (fun r => bool_decide (fst (fst r) = e)) (map_to_list (targets d)))).
Proof.
  apply NoDup_fmap_2_strong.
  - intros [[e1 c1] t1] [[e2 c2] t2] H1%list_elem_of_In H2%list_elem_of_In [= -> ->].
    apply filter_In in H1 as [_ H1], H2 as [_ H2]. simpl in *. bool_prop. congruence.
  - rewrite NoDup_ListNoDup. apply List.NoDup_filter. rewrite <-NoDup_ListNoDup. apply NoDup_map_to_list.
Qed.

(** The targets of an event, read back in the order they were named in. *)
Lemma select_targets_recorded e d previous current :
  NoDup (map (fun t => fst (fst t)) (event_targets previous current)) ->
  (forall c t, targets d !! (e, c) = Some t <->
     (c, t) ∈ map target_row (event_targets previous current)) ->
  select_targets e d = map target_row (event_targets previous current).
Proof.
  intros Hnd Hin. unfold select_targets.
  eapply (StronglySorted_unique_strong (fun a b => target_key_leb a b = true)).
  - intros x y Hx Hy Hxy Hyx. rewrite sort_by_perm in Hx. destruct x as [cx tx].
    rewrite event_rows_elem, Hin in Hx.
    apply list_elem_of_fmap in Hx as (s & Es & Hs), Hy as (t & -> & Ht). rewrite Es in Hxy, Hyx |- *.
    destruct (target_key_leb_antisym _ _ Hxy Hyx) as [Hr Ho]. f_equal.
    exact (event_targets_distinct _ _ s t Hs Ht Hr Ho).
  - apply sort_by_sorted; [apply target_key_leb_total|apply target_key_leb_trans].
  - apply event_targets_sorted.
  - rewrite sort_by_perm. apply NoDup_Permutation; [apply event_rows_NoDup| |].
    + apply NoDup_fmap_2_strong.
      * intros s t Hs Ht E. apply (f_equal snd) in E. simpl in E. injection E as Hr Ho.
        exact (event_targets_distinct _ _ s t Hs Ht Hr Ho).
      * by eapply NoDup_fmap_1.
    + intros [c t]. by rewrite event_rows_elem.
Qed.

Section replay.
Context {F : Type} `{CatalogFilesystem F} `{Environment}.
Implicit Types w : World F.

(** What the replay reports for one clip. *)
Definition queued_protect (d : DB) (id : UUID) : option UUID :=
  match pending_of d id with
  | Some (pending_id, p) => if decide (kind (i_intent p) = PROTECT) then Some pending_id else None
  | None => None
  end.

Lemma pending_of_ext d d' id :
  db_ok d -> db_ok d' ->
  (forall i r, clip_id (i_intent r) = id -> i_complete r = false ->
     (intents d !! i = Some r <-> intents d' !! i = Some r)) ->
  pending_of d id = pending_of d' id.
Proof.
  intros Hok Hok' Hi.
  destruct (pending_of d id) as [[i r]|] eqn:E1.
  - apply pending_of_Some in E1 as (Hr & Hc & <-). symmetry. apply pending_of_unique; [done| |done].
    by apply Hi.
  - symmetry. apply pending_of_None. intros i r Hr Hc Hid. rewrite pending_of_None in E1.
    apply (E1 i r); [by apply Hi|done|done].
Qed.

(** Protecting one target reports its pending PROTECT, and leaves other clips' operations. *)
Lemma protect_for_event_queued j reason now w q w' :
  db_ok (w_db w) -> live j (w_db w) -> protect_for_event_locked j reason now w = (Ok q, w') ->
  queued_protect (w_db w') j = q /\
  forall id, id <> j -> queued_protect (w_db w') id = queued_protect (w_db w) id.
Proof.
  intros Hok Hlive Hm. pose proof Hm as [Hok' _]%protect_for_event_locked_safe; [|done].
  destruct Hlive as (c & Hc & Hl1 & Hl2).
  unfold protect_for_event_locked in Hm.
  apply mbind_ok in Hm as (c' & w1 & [Hc' ->]%required_clip_row_ok & Hm). simplify_eq.
  rewrite bool_decide_false in Hm by (rewrite !elem_of_cons, elem_of_nil; naive_solver).
  apply mbind_ok in Hm as (pending & ? & [-> ->]%query_ok & Hm).
  destruct (pending_of (w_db w) j) as [[pid p]|] eqn:Hp.
  - inv_M_step.
    + apply mret_ok in Hm as [-> ->]. unfold queued_protect. rewrite Hp. bool_prop.
      match goal with Hk : kind _ = DELETE |- _ => rewrite Hk end. done.
    + apply mbind_ok in Hm as (v & w1 & Hu & Hm).
      destruct (update_clip_row _ _ _ _ _ _ Hu Hc) as [_ ->].
      unfold queued_protect. destruct (bool_decide (kind (i_intent p) = PROTECT)) eqn:Hk; bool_prop;
        apply mret_ok in Hm as [-> ->]; unfold pending_of in *; simpl; rewrite Hp; simpl.
      * by rewrite decide_True.
      * by rewrite decide_False.
  - apply mbind_ok in Hm as (v & w1 & Hu & Hm).
    destruct (update_clip_row _ _ _ _ _ _ Hu Hc) as [_ ->].
    destruct (row_has_unexpired_lease c now).
    { apply mret_ok in Hm as [-> ->]. unfold queued_protect, pending_of in *. simpl. by rewrite Hp. }
    destruct (negb _).
    { apply mret_ok in Hm as [-> ->]. unfold queued_protect, pending_of in *. simpl. by rewrite Hp. }
    destruct (bool_decide _).
    { apply mret_ok in Hm as [-> ->]. unfold queued_protect, pending_of in *. simpl. by rewrite Hp. }
    apply mbind_ok in Hm as (nq & w2 & Hq & [-> ->]%mret_ok).
    eapply queue_move_locked_ok in Hq as (mp & _ & _ & Hn & _ & Ew);
      [|apply protected_managed|apply lookup_insert_eq]. subst w2.
    set (it := mkIntentRow _ _ _ _ _ _ _) in *. simpl in *. unfold queued_protect. split.
    + pose proof (pending_of_unique _ nq it Hok' (lookup_insert_eq _ _ _) eq_refl) as Hpq.
      change (clip_id (i_intent it)) with j in Hpq. by rewrite Hpq.
    + intros id Hid. erewrite (pending_of_ext _ (w_db w)); [done|done|done|].
      intros i r Hr Hinc. simpl. rewrite lookup_insert_Some.
      split; [|intros ?; right; split; [congruence|done]]. intros [[<- <-]|[? ?]]; [by simpl in Hr|done].
Qed.

Definition target_ids (l : list (UUID * EventTargetRole * Z)) : list UUID := map (fun t => fst (fst t)) l.

(** What the loop over the targets has written. *)
Lemma protect_targets_recorded event reason now acc l w acc' w' :
  db_ok (w_db w) -> Forall (fun t => snd (fst t) <> NEXT) l ->
  Forall (fun t => live (fst (fst t)) (w_db w)) l ->
  mfold (protect_target event reason now) acc l w = (Ok acc', w') ->
  NoDup (target_ids l) /\ events (w_db w') = events (w_db w) /\
  (forall e c t, targets (w_db w') !! (e, c) = Some t <->
     targets (w_db w) !! (e, c) = Some t \/ (e = event /\ (c, t) ∈ map target_row l)) /\
  (forall c, c ∈ target_ids l -> targets (w_db w) !! (event, c) = None) /\
  snd acc' = snd acc ++ omap (queued_protect (w_db w')) (target_ids l) /\
  (forall id, id ∉ target_ids l -> queued_protect (w_db w') id = queued_protect (w_db w) id).
Proof.
  intros Hok Hr Hl. revert acc w Hok Hl.
  induction Hr as [|[[j role] o] l Hrole Hr IH]; intros [ps qs] w Hok Hl Hm; simpl in *.
  { apply mret_ok in Hm as [-> ->]. simpl. rewrite app_nil_r. split_and!; try done.
    - constructor.
    - intros e c t. rewrite elem_of_nil. naive_solver.
    - intros c Hc%elem_of_nil. done. }
  apply Forall_cons in Hl as [Hj Hl]. apply mbind_ok in Hm as (acc1 & w1 & Ht & Hm).
  apply mbind_ok in Ht as (q & w2 & Hq & Ht). apply mbind_ok in Ht as (x & w3 & Hi & [-> ->]%mret_ok).
  pose proof Hq as [Hok2 (Hev & Htg & _)]%protect_for_event_locked_safe; [|done].
  destruct (protect_for_event_queued _ _ _ _ _ _ Hok Hj Hq) as [Hq1 Hq2]. simpl in Hq1, Hq2.
  apply insert_target_row_ok in Hi as (Hnone & ? & ? & Ew3).
  pose proof Hnone as Hnone'. rewrite Htg in Hnone'.
  assert (Hok3 : db_ok (w_db w3)) by (subst w3; by apply insert_target_db_ok).
  assert (Hl3 : Forall (fun t => live (fst (fst t)) (w_db w3)) l).
  { subst w3. eapply Forall_impl; [exact Hl|]. intros t Hlt.
    eapply protect_for_event_live in Hq; [|exact Hlt]. exact Hq. }
  assert (Hq3 : forall id, queued_protect (w_db w3) id = queued_protect (w_db w2) id) by by subst w3.
  destruct (IH _ _ Hok3 Hl3 Hm) as (Hnd & Hev' & Htg' & Hfresh & Hacc & Hrest).
  assert (Ht3 : targets (w_db w3) = <[(event, j) := mkTargetRow role o]> (targets (w_db w)))
    by (subst w3; simpl; by rewrite Htg).
  assert (Hjl : j ∉ target_ids l).
  { intros Hin%Hfresh. rewrite Ht3, lookup_insert_eq in Hin. done. }
  split_and!.
  - by constructor.
  - rewrite Hev'. by subst w3.
  - intros e c t. rewrite Htg', Ht3, lookup_insert_Some, elem_of_cons. unfold target_row at 2. simpl.
    split; [naive_solver|]. intros [Hold|[-> [[= -> ->]|Hin]]]; [|by auto|by auto].
    left. right. split; [|done]. intros [= <- <-]. congruence.
  - intros c [->|Hc]%elem_of_cons; [done|]. specialize (Hfresh c Hc).
    rewrite Ht3, lookup_insert_None in Hfresh. by destruct Hfresh.
  - simpl in Hq1. rewrite Hacc. simpl. rewrite Hrest, Hq3, Hq1 by done. destruct q; simpl; by rewrite <-app_assoc.
  - intros id Hid. rewrite not_elem_of_cons in Hid. destruct Hid as [Hne Hid].
    by rewrite Hrest, Hq3, Hq2 by done.
Qed.

Lemma replay_event_run e source p n er w res :
  events (w_db w) !! e = Some er ->
  e_source er = source -> e_requested_previous er = p -> e_requested_next er = n ->
  res = mkEventResult e (map fst (select_targets e (w_db w))) (e_missing_previous er)
          (e_remaining_next er) (queued_protects (map fst (select_targets e (w_db w))) (w_db w)) ->
  replay_event e source p n er w = (Ok res, w).
Proof.
  intros He <- <- <- ->. unfold replay_event. rewrite bool_decide_true, !Z.eqb_refl by done. done.
Qed.


End replay.

(** ** On the demo recording *)

(** The first clip is current when the button is pressed. *)
Definition demo_trigger : M RootedFilesystem EventProtectionResult :=
  @trigger_event RootedFilesystem demo_env (Some demo_id) GPIO 100 2 1 None false.

Definition demo_event_result : EventProtectionResult :=
  mkEventResult (mkUUID 1000) [demo_id] 2 1 [mkUUID 1001].

Lemma event_protects_its_clips_witness :
  exists c, clips (w_db (snd (@run_call RootedFilesystem _ demo_env (CDeleteOldest 300 demo_boot)
                                 (snd (demo_trigger demo_registered))))) !! demo_id = Some c /\
    r_protected c = true.
Proof.
  edestruct (@event_protects_its_clips RootedFilesystem _ demo_env demo_registered (Some demo_id) GPIO
               100 2 1 None false demo_event_result)
    as (id & row & _ & _ & _ & Hsafe);
    [|apply ran; vm_compute; reflexivity|vm_compute; reflexivity|].
  - apply demo_reachable. by repeat constructor.
  - destruct (Hsafe demo_id (snd (@run_call RootedFilesystem _ demo_env (CDeleteOldest 300 demo_boot)
                                    (snd (demo_trigger demo_registered)))))
      as (c & Hc & Hp & _); [left; reflexivity| |exists c; exact (conj Hc Hp)].
    apply wu_call; [apply wu_start|exact I|intros now; discriminate].
Defined.

