(* ===== verification/Reclaimer.v ===== *)
(** * One-pair-at-a-time reclamation ([src/dashcam/storage/reclaimer.py])

    [StorageReclaimer.run_one] over the modelled catalog: replay the oldest pending deletion,
    or reserve and carry out the deletion of the oldest eligible clip. The injected monotonic
    clock is called at most twice; the values it returns are arguments of the call. *)

From Stdlib Require Import Ascii String ZArith Lia Strings.Byte.
From stdpp Require Import base list gmap strings sorting.
From S2P Require Import Prelude PyStr Uuid State Naming Intents Models Filesystem.
From S2P Require Import CatalogDb Catalog Reconcile CatalogDemo ManagedPath CatalogInv CatalogSafe.
From S2P Require Import ReconcileSafe CatalogProperties ReconcileProperties Convergence.

Record ReclamationStep := mkStep {
  step_clip_id : option UUID;
  step_intent_id : option UUID;
  recovered : bool;
  deleted : bool;
  eligible_found : bool;
  actions_attempted : Z;
  pending_delete_remaining : bool
}.

Definition progress (self : ReclamationStep) : bool := deleted self || (0 <? actions_attempted self).

Definition idle_step : ReclamationStep := mkStep None None false false false 0 false.

Section reclaimer.
Context {F : Type} `{CatalogFilesystem F} `{Environment}.

(** [_now]: [value] is what the injected clock returned. *)
Definition now_ns (value : Z) : M F Z :=
  guard (value <? 0) ReclamationError "monotonic clock returned an invalid value" ;;; mret value.

(** The second half of [run_one]: carry the reserved deletion out and check the answer. *)
Definition reconcile_reserved (id : UUID) (was_pending : bool) (clock : Z) : M F ReclamationStep :=
  now <- now_ns clock ;;
  result <- reconcile_intent id now 2 ;;
  guard (negb (bool_decide (kind (rr_intent result) = DELETE))
         || negb (bool_decide (intent_id (rr_intent result) = id)))
    ReclamationError "catalog returned a different deletion intent" ;;;
  guard (negb (bool_decide (rr_problems result = []))) ReclamationError
    ("deletion pair is ambiguous: " ++ String.concat "," (rr_problems result)) ;;;
  guard (negb (rr_complete result)) ReclamationError "bounded two-member deletion did not complete" ;;;
  remaining <- list_pending_delete_intents 1 ;;
  mret (mkStep (Some (clip_id (rr_intent result))) (Some id) was_pending true true
          (rr_actions_attempted result) (negb (bool_decide (remaining = [])))).

Definition run_one (boot_id : str) (allow_new : bool) (clock1 clock2 : Z) : M F ReclamationStep :=
  guard (bool_decide (boot_id = []) || (128 <? len boot_id)) ValueError
    "boot_id must be a bounded non-empty string" ;;;
  pending <- list_pending_delete_intents 1 ;;
  match pending with
  | intent :: _ =>
      guard (negb (bool_decide (kind intent = DELETE))) ReclamationError
        "delete-only catalog scan returned another intent kind" ;;;
      reconcile_reserved (intent_id intent) true clock2
  | [] =>
      if negb allow_new then mret idle_step
      else
        now <- now_ns clock1 ;;
        reserved <- prepare_oldest_eligible_delete now boot_id ;;
        match reserved with
        | None => mret idle_step
        | Some id => reconcile_reserved id false clock2
        end
  end.

(** Repeated replay, one call per pair of clock readings. *)
Fixpoint replay_all (boot_id : str) (clocks : list (Z * Z)) : M F (list ReclamationStep) :=
  match clocks with
  | [] => mret []
  | (c1, c2) :: rest =>
      step <- run_one boot_id false c1 c2 ;;
      steps <- replay_all boot_id rest ;;
      mret (step :: steps)
  end.

(** ** Pending deletions *)

Definition is_delete (r : IntentRow) : bool := bool_decide (kind (i_intent r) = DELETE).

Definition pending_deletes (d : DB) : list (UUID * IntentRow) := select_pending is_delete d.

Lemma select_pending_elem p d x :
  x ∈ select_pending p d <->
  intents d !! fst x = Some (snd x) /\ i_complete (snd x) = false /\ p (snd x) = true.
Proof.
  unfold select_pending. rewrite sort_by_perm, list_elem_of_In, filter_In, <-list_elem_of_In.
  destruct x. rewrite elem_of_map_to_list, andb_true_iff, negb_true_iff. done.
Qed.

Lemma result_map_stored (l : list IntentRow) :
  Forall (fun r => stored_ok (i_intent r)) l -> result_map intent_from_row l = Ok (map i_intent l).
Proof.
  induction 1 as [|r l Hr _ IH]; simpl; [done|]. rewrite intent_from_row_stored by done. simpl.
  by rewrite IH.
Qed.

(** The catalog's answer to the reclaimer's query. *)
Lemma list_pending_delete_run w :
  db_ok (w_db w) ->
  list_pending_delete_intents (F := F) 1 w
  = (Ok (map (fun x => i_intent (snd x)) (take 1 (pending_deletes (w_db w)))), w).
Proof.
  intros Hok. unfold list_pending_delete_intents.
  erewrite mbind_run by reflexivity. erewrite mbind_run by reflexivity.
  unfold limited, lift. change (Z.to_nat 1) with 1%nat. fold (pending_deletes (w_db w)).
  rewrite result_map_stored, map_map; [done|]. apply Forall_map, Forall_forall. simpl.
  intros x Hx. apply elem_of_take in Hx as (k & Hx%list_elem_of_lookup_2 & _).
  apply select_pending_elem in Hx as (Hi & _). by apply (ok_intents _ Hok) in Hi as (_ & ? & _).
Qed.

Lemma keeps_now c : keeps (now_ns c).
Proof. unfold now_ns. repeat keeps_step. Qed.

Lemma keeps_reconcile_reserved id b c : keeps (reconcile_reserved id b c).
Proof.
  unfold reconcile_reserved, list_pending_delete_intents.
  repeat (apply keeps_now || apply keeps_reconcile_intent || keeps_step).
Qed.

Lemma keeps_run_one boot allow c1 c2 : keeps (run_one boot allow c1 c2).
Proof.
  unfold run_one, list_pending_delete_intents.
  repeat (apply keeps_now || apply keeps_reconcile_reserved || apply keeps_prepare_oldest_eligible_delete
          || keeps_step).
Qed.
End reclaimer.

Arguments pending_deletes : simpl never.

(** ** On the rooted filesystem *)

Section rooted.
Context `{Environment}.
Implicit Types (w : World RootedFilesystem) (m : gmap str bytes).

Definition boot_bounded (boot_id : str) : Prop := boot_id <> [] /\ len boot_id <= 128.

Lemma boot_guard_run boot w :
  boot_bounded boot ->
  guard (bool_decide (boot = []) || (128 <? len boot)) ValueError
    "boot_id must be a bounded non-empty string" w = (Ok tt, w).
Proof.
  intros [Hne Hl]. rewrite (bool_decide_false _ Hne). by replace (128 <? len boot) with false by lia.
Qed.

Lemma now_run c w : 0 <= c -> now_ns c w = (Ok c, w).
Proof. intros Hc. unfold now_ns. by replace (c <? 0) with false by lia. Qed.

Lemma pending_deletes_nodup d : NoDup (pending_deletes d).
Proof.
  unfold pending_deletes, select_pending. rewrite sort_by_perm.
  rewrite NoDup_ListNoDup. apply List.NoDup_filter. rewrite <-NoDup_ListNoDup. apply NoDup_map_to_list.
Qed.

(** Completing the head leaves the others. *)
Lemma pending_deletes_after d f id row rest now :
  pending_deletes d = (id, row) :: rest ->
  pending_deletes (set_intents (alter (with_complete now) id) (set_clips f d)) ≡ₚ rest.
Proof.
  intros Hp. pose proof (pending_deletes_nodup d) as Hnd. rewrite Hp in Hnd.
  apply NoDup_cons in Hnd as [Hni Hnd].
  assert (Hall : forall x, x ∈ (id, row) :: rest <->
    intents d !! fst x = Some (snd x) /\ i_complete (snd x) = false /\ is_delete (snd x) = true)
    by (intros x; rewrite <-Hp; apply select_pending_elem).
  destruct (proj1 (Hall (id, row))) as (Hrow & _); [by left|]. simpl in Hrow.
  apply NoDup_Permutation; [apply pending_deletes_nodup|done|]. intros x.
  unfold pending_deletes. rewrite select_pending_elem. simpl. split.
  - destruct (decide (id = fst x)) as [E|Hne].
    + rewrite <-E, lookup_alter_eq, Hrow. simpl. intros ([= <-] & ? & _). done.
    + rewrite lookup_alter_ne by done. intros Hx%Hall. apply elem_of_cons in Hx as [->|]; done.
  - intros Hx. destruct (proj1 (Hall x)) as (Hi & Hx'); [by right|].
    destruct (decide (id = fst x)) as [E|Hne]; [|by rewrite lookup_alter_ne].
    destruct Hni. destruct x as [j s]. simpl in *. subst j. rewrite Hrow in Hi. by injection Hi as ->.
Qed.

(** Carry out a reserved deletion and list what remains. *)
Lemma reconcile_reserved_run id row b now w :
  db_ok (w_db w) -> rf_bound (w_fs w) = true ->
  intents (w_db w) !! id = Some row -> i_complete row = false -> kind (i_intent row) = DELETE ->
  0 <= now ->
  exists c k w', clips (w_db w) !! clip_id (i_intent row) = Some c /\ pending_row_ok row c /\
    w' = after_delete id row c now w /\ db_ok (w_db w') /\
    reconcile_reserved id b now w
    = (Ok (mkStep (Some (clip_id (i_intent row))) (Some id) b true true k
             (negb (bool_decide (pending_deletes (w_db w') = [])))), w').
Proof.
  intros Hok Hb Hi Hinc Hk Hnow.
  destruct (delete_intent_run w id row now 2) as (c & k & Hc & Hrow & Hrun); [done..|].
  set (w' := after_delete id row c now w) in *.
  assert (Hok' : db_ok (w_db w')).
  { pose proof (keeps_reconcile_intent id now 2 w Hok) as Hkeep. by rewrite Hrun in Hkeep. }
  assert (Ew : w' = after_delete id row c now w) by done. clearbody w'.
  exists c, k, w'. do 4 (split; [done|]). unfold reconcile_reserved.
  erewrite mbind_run by (by apply now_run). erewrite mbind_run by exact Hrun. simpl.
  rewrite Hk, (proj1 (ok_intents _ Hok _ _ Hi)), (bool_decide_true (DELETE = DELETE)),
    (bool_decide_true (id = id)) by done. simpl.
  erewrite mbind_run by reflexivity. erewrite mbind_run by reflexivity.
  erewrite mbind_run by reflexivity. erewrite mbind_run by (by apply list_pending_delete_run).
  by destruct (pending_deletes (w_db w')).
Qed.

(** One replay completes the head of the pending deletions. *)
Lemma replay_run w boot allow c1 c2 id row rest :
  db_ok (w_db w) -> rf_bound (w_fs w) = true -> boot_bounded boot -> 0 <= c2 ->
  pending_deletes (w_db w) = (id, row) :: rest ->
  exists c k w', clips (w_db w) !! clip_id (i_intent row) = Some c /\ pending_row_ok row c /\
    w' = after_delete id row c c2 w /\ db_ok (w_db w') /\ pending_deletes (w_db w') ≡ₚ rest /\
    run_one boot allow c1 c2 w
    = (Ok (mkStep (Some (clip_id (i_intent row))) (Some id) true true true k
             (negb (bool_decide (rest = [])))), w').
Proof.
  intros Hok Hb Hboot Hc2 Hp.
  destruct (proj1 (select_pending_elem is_delete (w_db w) (id, row))) as (Hi & Hinc & Hk);
    [unfold pending_deletes in Hp; rewrite Hp; by left|]. simpl in *.
  unfold is_delete in Hk. apply bool_decide_eq_true_1 in Hk.
  destruct (reconcile_reserved_run id row true c2 w) as (c & k & w' & Hc & Hrow & Ew & Hok' & Hrun); [done..|].
  assert (Hperm : pending_deletes (w_db w') ≡ₚ rest).
  { subst w'. by apply (pending_deletes_after _ _ _ _ _ c2 Hp). }
  exists c, k, w'. do 5 (split; [done|]). unfold run_one.
  erewrite mbind_run by (by apply boot_guard_run).
  erewrite mbind_run by (by apply list_pending_delete_run). rewrite Hp. simpl.
  rewrite Hk, (bool_decide_true (DELETE = DELETE)) by done. simpl.
  erewrite mbind_run by reflexivity.
  rewrite (proj1 (ok_intents _ Hok _ _ Hi)), Hrun. do 4 f_equal. apply bool_decide_ext.
  split; intros E; rewrite E in Hperm; [by apply Permutation_nil_l in Hperm|by apply Permutation_nil_r in Hperm].
Qed.

Lemma idle_run w boot c1 c2 :
  db_ok (w_db w) -> boot_bounded boot -> pending_deletes (w_db w) = [] ->
  run_one boot false c1 c2 w = (Ok idle_step, w).
Proof.
  intros Hok Hboot Hp. unfold run_one. erewrite mbind_run by (by apply boot_guard_run).
  erewrite mbind_run by (by apply list_pending_delete_run). by rewrite Hp.
Qed.
End rooted.
