(* ===== verification/ReclaimerProperties.v ===== *)
(** * Reclamation properties

    Replay empties the pending deletions; a new deletion takes the oldest eligible clip and its
    two files, completely; nothing else is ever lost; and the one state that blocks it. *)

From Stdlib Require Import Ascii String ZArith Lia Strings.Byte.
From stdpp Require Import base list gmap strings sorting.
From S2P Require Import Prelude PyStr Uuid State Naming Intents Models Filesystem.
From S2P Require Import CatalogDb Catalog Reconcile CatalogDemo ManagedPath CatalogInv CatalogSafe.
From S2P Require Import ReconcileSafe CatalogProperties ReconcileProperties Convergence Reclaimer.

(** ** Reservation *)

Section reserve.
Context {F : Type} `{CatalogFilesystem F} `{Environment}.
Implicit Types w : World F.

Lemma oldest_deletable_head now boot d id c :
  db_ok d -> oldest_deletable now boot d id c ->
  head (select_clips (deletable now boot d) d) = Some (id, c).
Proof.
  intros Hok (Hc & Hd & Hmin).
  assert (Hin : (id, c) ∈ select_clips (deletable now boot d) d) by by apply select_clips_elem.
  destruct (head (select_clips (deletable now boot d) d)) as [[id' c']|] eqn:Hh;
    [|destruct (select_clips (deletable now boot d) d); [by apply not_elem_of_nil in Hin|done]].
  pose proof (head_is_oldest _ _ _ _ _ Hok Hh) as (Hc' & Hd' & Hmin').
  assert (id' = id) as -> by (destruct (Hmin _ _ Hc' Hd'), (Hmin' _ _ Hc Hd); by lia || done).
  congruence.
Qed.

Lemma nothing_deletable_head now boot d :
  (forall id c, clips d !! id = Some c -> deletable now boot d (id, c) = false) ->
  head (select_clips (deletable now boot d) d) = None.
Proof.
  intros Hnone. destruct (head _) as [[id c]|] eqn:Hh; [|done].
  apply head_select_clips in Hh as (Hc & Hd & _). by rewrite (Hnone id c Hc) in Hd.
Qed.

(** The row of a clip reserved for deletion, and its intent. *)
Definition deleting_row (now : Z) (c : ClipRow) : ClipRow :=
  with_updated now (with_lease None (with_reconciled false (with_lifecycle DELETING c))).

Definition delete_row (q id : UUID) (c : ClipRow) (now : Z) : IntentRow :=
  mkIntentRow (mkIntent q id DELETE now (mkPaths (r_video_path c) (r_sidecar_path c) None None)
                 SCHEMA_VERSION) false None None None None None.

Definition after_reserve (q id : UUID) (c : ClipRow) (now : Z) w : World F :=
  mkWorld (set_clips (fun m => <[id := deleting_row now c]> m)
             (set_intents (fun m => <[q := delete_row q id c now]> m) (w_db w)))
    (w_fs w) (S (w_uuids w)).

Lemma deletable_idle now boot d id c :
  deletable now boot d (id, c) = true ->
  pending_of d id = None /\ r_lifecycle c = FINALIZED /\ r_protected c = false /\
  r_reconciled c = true /\ r_managed c = true /\ row_has_active_lease c now boot = false.
Proof.
  unfold deletable. intros Hd. bool_prop. split_and!; try done. by apply eq_None_not_Some.
Qed.

Lemma prepare_delete_row_run now boot id c w :
  db_ok (w_db w) -> 0 <= now -> clips (w_db w) !! id = Some c ->
  deletable now boot (w_db w) (id, c) = true ->
  path_parent (r_video_path c) = u "clips" -> path_parent (r_sidecar_path c) = u "clips" ->
  intents (w_db w) !! uuid4 (w_uuids w) = None ->
  prepare_delete_row_locked id c now boot w
  = (Ok (uuid4 (w_uuids w)), after_reserve (uuid4 (w_uuids w)) id c now w).
Proof.
  intros Hok Hnow Hc (Hp & Hl & Hpr & Hrec & Hm & Ha)%deletable_idle Hv Hs Hq.
  destruct (ok_rows _ Hok _ _ Hc) as (Hchk & _ & [Hpp _ _]).
  unfold prepare_delete_row_locked, pending_intent_row. erewrite mbind_run by reflexivity. rewrite Hp.
  rewrite Hl, Hpr, Hrec, Hm, Ha, (bool_decide_true (FINALIZED = FINALIZED)) by done. simpl.
  do 4 (erewrite mbind_run by reflexivity).
  erewrite mbind_run by (unfold lift; rewrite Hpp; reflexivity). simpl.
  rewrite Hv, Hs, (bool_decide_true (u "clips" = u "clips")) by done. simpl.
  erewrite mbind_run by reflexivity.
  assert (Hins : insert_intent_locked id DELETE (mkPaths (r_video_path c) (r_sidecar_path c) None None)
      now None w
    = (Ok (i_intent (delete_row (uuid4 (w_uuids w)) id c now)),
       mkWorld (set_intents (fun m => <[uuid4 (w_uuids w) := delete_row (uuid4 (w_uuids w)) id c now]> m)
                  (w_db w)) (w_fs w) (S (w_uuids w)))).
  { unfold insert_intent_locked. erewrite mbind_run by reflexivity.
    erewrite mbind_run by (unfold lift, OperationIntent_new; rewrite Z.eqb_refl; simpl;
      replace (now <? 0) with false by lia; reflexivity).
    erewrite mbind_run; [reflexivity|]. unfold insert_intent_row.
    cbn [w_uuids w_db i_intent intent_id clip_id i_expected_revision].
    erewrite mbind_run by reflexivity. cbn [w_db]. rewrite Hq. erewrite mbind_run by reflexivity.
    erewrite mbind_run by reflexivity. cbn [w_db].
    change (pending_of _ id) with (pending_of (w_db w) id). rewrite Hp. erewrite mbind_run by reflexivity.
    erewrite mbind_run by reflexivity. cbn [w_db]. rewrite Hc. by do 2 (erewrite mbind_run by reflexivity). }
  erewrite mbind_run by exact Hins.
  assert (Hup : forall w1, clips (w_db w1) = clips (w_db w) ->
    update_clip id (deleting_row now) w1
    = (Ok 1, set_db (set_clips (fun m => <[id := deleting_row now c]> m) (w_db w1)) w1)).
  { intros w1 E. apply update_clip_run; [by rewrite E|exact Hchk]. }
  by erewrite mbind_run by (by apply Hup).
Qed.

Lemma prepare_oldest_prefix now boot w :
  0 <= now -> check_boot_id boot = Ok tt ->
  prepare_oldest_eligible_delete (F := F) now boot w
  = transaction (
      match head (select_clips (deletable now boot (w_db w)) (w_db w)) with
      | None => mret None
      | Some (id, r) => queued <- prepare_delete_row_locked id r now boot ;; mret (Some queued)
      end) w.
Proof.
  intros Hnow Hb. unfold prepare_oldest_eligible_delete.
  erewrite mbind_run; [|unfold lift, non_negative_integer; by replace (now <? 0) with false by lia].
  erewrite mbind_run by (unfold lift; by rewrite Hb).
  unfold transaction. by erewrite mbind_run by reflexivity.
Qed.

(** What a successful reservation did. *)
Lemma prepare_oldest_ok now boot w q w' :
  db_ok (w_db w) -> prepare_oldest_eligible_delete now boot w = (Ok (Some q), w') ->
  exists id c, oldest_deletable now boot (w_db w) id c /\ intents (w_db w) !! q = None /\
    path_parent (r_video_path c) = u "clips" /\ path_parent (r_sidecar_path c) = u "clips" /\
    w' = after_reserve q id c now w.
Proof.
  intros Hok Hm. unfold prepare_oldest_eligible_delete in Hm.
  do 2 (apply mbind_ok in Hm as (? & ? & [_ ->]%lift_ok & Hm)). apply (proj1 (transaction_ok _ _ _ _)) in Hm.
  apply mbind_ok in Hm as (? & ? & [-> ->]%query_ok & Hm).
  destruct (head _) as [[id c]|] eqn:Hh; [|by apply mret_ok in Hm as [? _]].
  apply mbind_ok in Hm as (q' & w1 & Hq & [E ->]%mret_ok). injection E as <-.
  pose proof (head_is_oldest _ _ _ _ _ Hok Hh) as Hold. pose proof Hold as (Hc & Hd & _).
  destruct (prepare_delete_row_locked_ok _ _ _ _ _ _ _ Hq Hc)
    as [(p & Hp & _)|(_ & _ & _ & _ & _ & _ & Hv & Hs & it & -> & _ & Hi & ->)].
  - apply deletable_idle in Hd as [Hn _]. congruence.
  - exists id, c. by split_and!.
Qed.

(** ** Any outcome, any filesystem *)

(** A method that leaves a reachable world reachable, whatever it returns. *)
Definition reaches {A} (m : M F A) : Prop := forall w, catalog_reachable w -> catalog_reachable (snd (m w)).

Lemma reaches_bind {A B} (m : M F A) (k : A -> M F B) :
  reaches m -> (forall a, reaches (k a)) -> reaches (mbind m k).
Proof.
  intros Hm Hk w Hw. unfold mbind. specialize (Hm w Hw).
  destruct (m w) as [[a|e] w1]; [by apply Hk|done].
Qed.

Lemma reaches_still {A} (m : M F A) : (forall w, snd (m w) = w) -> reaches m.
Proof. intros Hm w. by rewrite Hm. Qed.

Lemma still_guard b c s w : snd (guard (F := F) b c s w) = w.
Proof. by destruct b. Qed.

Lemma still_bind {A B} (m : M F A) (k : A -> M F B) :
  (forall w, snd (m w) = w) -> (forall a w, snd (k a w) = w) -> forall w, snd (mbind m k w) = w.
Proof.
  intros Hm Hk w. specialize (Hm w). unfold mbind.
  destruct (m w) as [[a|e] w1]; simpl in *; [by rewrite Hk|done].
Qed.

Lemma still_now c w : snd (now_ns (F := F) c w) = w.
Proof. unfold now_ns. apply still_bind; [apply still_guard|done]. Qed.

Lemma still_list w : snd (list_pending_delete_intents (F := F) 1 w) = w.
Proof. by unfold list_pending_delete_intents; repeat (apply still_bind; [done|intros ?]). Qed.

Lemma reaches_reconcile id now n : reaches (reconcile_intent id now n).
Proof.
  intros w Hw. pose proof (reach_call w (CReconcile id now n) Hw I) as Hr. simpl in Hr.
  unfold void, mbind in Hr. by destruct (reconcile_intent id now n w) as [[]].
Qed.

Lemma reaches_prepare_oldest now boot : reaches (prepare_oldest_eligible_delete now boot).
Proof.
  intros w Hw. pose proof (reach_call w (CDeleteOldest now boot) Hw I) as Hr. simpl in Hr.
  unfold void, mbind in Hr. by destruct (prepare_oldest_eligible_delete now boot w) as [[]].
Qed.

Lemma reaches_reconcile_reserved id b c : reaches (reconcile_reserved id b c).
Proof.
  unfold reconcile_reserved. apply reaches_bind; [apply reaches_still, still_now|intros ?].
  apply reaches_bind; [apply reaches_reconcile|intros ?]. apply reaches_still.
  repeat first [apply still_bind; [first [apply still_guard | apply still_list]|intros ?] | done].
Qed.

Lemma reaches_run_one boot allow c1 c2 : reaches (run_one boot allow c1 c2).
Proof.
  unfold run_one. apply reaches_bind; [apply reaches_still, still_guard|intros _].
  apply reaches_bind; [apply reaches_still, still_list|intros [|i l]].
  - destruct (negb allow); [by apply reaches_still|].
    apply reaches_bind; [apply reaches_still, still_now|intros ?].
    apply reaches_bind; [apply reaches_prepare_oldest|intros [id|]];
      [apply reaches_reconcile_reserved|by apply reaches_still].
  - apply reaches_bind; [apply reaches_still, still_guard|intros ?]. apply reaches_reconcile_reserved.
Qed.

(** The only step of a reserved deletion that touches files is [reconcile_intent]. *)
Lemma reconcile_reserved_world id b c w :
  snd (reconcile_reserved id b c w) = w \/
  snd (reconcile_reserved id b c w) = snd (reconcile_intent id c 2 w).
Proof.
  unfold reconcile_reserved, now_ns. destruct (c <? 0); [by left|right].
  unfold mbind at 1. simpl. unfold mbind at 1.
  destruct (reconcile_intent id c 2 w) as [[r|e] w1]; [|done].
  change w1 with (snd (Ok r, w1)) at 2. simpl snd. revert w1.
  repeat first [apply still_bind; [first [apply still_guard | apply still_list]|intros ?] | done].
Qed.

End reserve.

Section spares.
Context {F : Type} `{FilesystemLaws F} `{Environment}.
Implicit Types w : World F.

Lemma fs_same_transaction {A} (m : M F A) : fs_same m -> fs_same (transaction m).
Proof. intros Hm w. specialize (Hm w). unfold transaction. by destruct (m w) as [[]]. Qed.

Lemma prepare_oldest_fs now boot : fs_same (F := F) (prepare_oldest_eligible_delete now boot).
Proof.
  unfold prepare_oldest_eligible_delete, prepare_delete_row_locked.
  repeat (apply fs_same_transaction || apply update_clip_fs || apply insert_intent_fs || fs_same_step).
Qed.

(** What [reconcile_reserved] loses of a pending deletion. *)
Lemma reconcile_reserved_spares id row b c w p d :
  db_ok (w_db w) -> intents (w_db w) !! id = Some row -> kind (i_intent row) = DELETE ->
  files w !! p = Some d ->
  (exists q, files (snd (reconcile_reserved id b c w)) !! q = Some d) \/
  exists cr, clips (w_db w) !! clip_id (i_intent row) = Some cr /\ i_complete row = false /\
    r_lifecycle cr = DELETING /\ r_protected cr = false /\ path_parent p = u "clips" /\
    (p = r_video_path cr \/ p = r_sidecar_path cr).
Proof.
  intros Hok Hi Hk Hp. destruct (reconcile_reserved_world id b c w) as [->| ->]; [left; by exists p|].
  destruct (reconcile_keeps_data w id c 2 p d Hok Hp) as [?|(row' & cr & Hi' & Hinc & Hc & Hrow & Hwhy)];
    [by left|right].
  assert (row' = row) as -> by congruence. exists cr. destruct Hwhy as [[_ Hpath]|[Hname _]]; [|congruence].
  unfold pending_row_ok in Hrow. rewrite Hk in Hrow. destruct Hrow as (_ & _ & _ & ? & ? & _ & Hv & Hs).
  split_and!; try done. by destruct Hpath as [->| ->].
Qed.

End spares.

(** ** Replay *)

Section rooted.
Context `{Environment}.
Implicit Types (w : World RootedFilesystem) (m : gmap str bytes).

(** The two files of every pending deletion. *)
Definition pair_files (x : UUID * IntentRow) : list str :=
  [video_source (paths (i_intent (snd x))); sidecar_source (paths (i_intent (snd x)))].

Definition doomed_files (l : list (UUID * IntentRow)) : list str := flat_map pair_files l.

Lemma doomed_files_elem l q : q ∈ doomed_files l <-> exists x, x ∈ l /\ q ∈ pair_files x.
Proof.
  unfold doomed_files. rewrite list_elem_of_In, in_flat_map. by setoid_rewrite list_elem_of_In.
Qed.

Lemma doomed_files_cons x l q : q ∈ doomed_files (x :: l) <-> q ∈ pair_files x \/ q ∈ doomed_files l.
Proof. unfold doomed_files. simpl flat_map. by rewrite <-elem_of_app. Qed.

Lemma after_delete_files id row c now w q :
  pending_row_ok row c ->
  rf_files (w_fs (after_delete id row c now w)) !! q
  = if decide (q ∈ pair_files (id, row)) then None else rf_files (w_fs w) !! q.
Proof.
  intros (_ & Ev & Es & _). simpl. rewrite <-Ev, <-Es. unfold pair_files. simpl.
  destruct (decide _) as [Hin|Hni]; rewrite !elem_of_cons, elem_of_nil in *.
  - destruct (decide (q = sidecar_source (paths (i_intent row)))) as [->|]; [by rewrite lookup_delete_eq|].
    rewrite lookup_delete_ne by done. destruct Hin as [->|[->|[]]]; [by rewrite lookup_delete_eq|done].
  - rewrite !lookup_delete_ne by naive_solver. done.
Qed.

Lemma replay_all_run w boot clocks :
  db_ok (w_db w) -> rf_bound (w_fs w) = true -> boot_bounded boot ->
  length clocks = length (pending_deletes (w_db w)) -> Forall (fun c => 0 <= snd c) clocks ->
  exists steps w', replay_all boot clocks w = (Ok steps, w') /\
    db_ok (w_db w') /\ pending_deletes (w_db w') = [] /\
    Forall (fun s => recovered s = true /\ deleted s = true) steps /\
    map step_intent_id steps ≡ₚ map (fun x => Some (fst x)) (pending_deletes (w_db w)) /\
    (forall id c, clips (w_db w) !! id = Some c -> exists c', clips (w_db w') !! id = Some c' /\
       (r_lifecycle c = DELETED \/ id ∈ map (fun x => clip_id (i_intent (snd x))) (pending_deletes (w_db w)) ->
        r_lifecycle c' = DELETED)) /\
    forall q, rf_files (w_fs w') !! q
      = if decide (q ∈ doomed_files (pending_deletes (w_db w))) then None else rf_files (w_fs w) !! q.
Proof.
  intros Hok Hb Hboot. revert w Hok Hb. induction clocks as [|[c1 c2] clocks IH]; intros w Hok Hb Hl Hcs.
  - destruct (pending_deletes (w_db w)) eqn:E; [|done]. exists [], w. split_and!; try done.
    intros id c Hc. exists c. split; [done|]. intros [?|Hin]; [done|by apply elem_of_nil in Hin].
  - destruct (pending_deletes (w_db w)) as [|[id row] rest] eqn:E; [done|].
    apply Forall_cons in Hcs as [Hc2 Hcs].
    destruct (replay_run w boot false c1 c2 id row rest) as (c & k & w1 & Hc & Hrow & Ew & Hok1 & Hperm & Hrun);
      [done..|].
    destruct (IH w1) as (steps & w' & Hall & Hok' & Hnil & Hsteps & Hids & Hclips & Hfiles);
      [done|by rewrite Ew|by rewrite Hperm; injection Hl|done|].
    eexists (_ :: steps), w'. split.
    { simpl. erewrite mbind_run by exact Hrun. by erewrite mbind_run by exact Hall. }
    do 2 (split; [done|]). split; [by constructor|]. split; [|split].
    + simpl. by rewrite Hids, Hperm.
    + intros j b Hj. set (done_id := clip_id (i_intent row)) in *.
      assert (Hj1 : exists b1, clips (w_db w1) !! j = Some b1 /\
        (r_lifecycle b = DELETED \/ j = done_id -> r_lifecycle b1 = DELETED)).
      { rewrite Ew. simpl. fold done_id. destruct (decide (j = done_id)) as [->|].
        - rewrite lookup_insert_eq. by eexists.
        - rewrite lookup_insert_ne by done. exists b. naive_solver. }
      destruct Hj1 as (b1 & Hj1 & Hd1). destruct (Hclips j b1 Hj1) as (b2 & Hj2 & Hd2).
      exists b2. split; [done|]. intros Hor. apply Hd2. rewrite Hperm. simpl in Hor.
      rewrite elem_of_cons in Hor. fold done_id in Hor. tauto.
    + intros q. rewrite Hfiles, Ew, after_delete_files by done.
      assert (Hd : q ∈ doomed_files (pending_deletes (w_db w1)) <-> q ∈ doomed_files rest).
      { rewrite !doomed_files_elem. by setoid_rewrite Hperm. }
      rewrite <-Ew. destruct (decide _) as [Hin|Hni], (decide (q ∈ pair_files (id, row))) as [Hp|Hp],
        (decide (q ∈ doomed_files ((id, row) :: rest))) as [Ht|Ht]; try done;
        rewrite doomed_files_cons in Ht; tauto.
Qed.

(** C12: replay drains the pending deletions: from every reachable state on a healthy volume,
    calling [run_one] without permission for new deletions as many times as deletions are
    pending, with any valid clock readings, succeeds every time, completes each pending
    deletion exactly once, and leaves none pending; each clip of one is then DELETED, exactly
    the files of those pairs are gone, and a further call does nothing. *)
Theorem replay_drains_pending_deletes w boot clocks :
  catalog_reachable w -> rf_bound (w_fs w) = true -> boot_bounded boot ->
  length clocks = length (pending_deletes (w_db w)) -> Forall (fun c => 0 <= snd c) clocks ->
  exists steps w', replay_all boot clocks w = (Ok steps, w') /\
    Forall (fun s => recovered s = true /\ deleted s = true) steps /\
    map step_intent_id steps ≡ₚ map (fun x => Some (fst x)) (pending_deletes (w_db w)) /\
    pending_deletes (w_db w') = [] /\
    (forall x, x ∈ pending_deletes (w_db w) ->
       exists c, clips (w_db w') !! clip_id (i_intent (snd x)) = Some c /\ r_lifecycle c = DELETED) /\
    (forall q, rf_files (w_fs w') !! q
       = if decide (q ∈ doomed_files (pending_deletes (w_db w))) then None else rf_files (w_fs w) !! q) /\
    forall c1 c2, run_one boot false c1 c2 w' = (Ok idle_step, w').
Proof.
  intros Hok%reachable_ok Hb Hboot Hl Hcs.
  destruct (replay_all_run w boot clocks) as (steps & w' & Hrun & Hok' & Hnil & Hsteps & Hids & Hclips & Hfiles);
    [done..|].
  exists steps, w'. do 4 (split; [done|]). split; [|split; [done|intros; by apply idle_run]].
  intros x Hx. pose proof Hx as (Hi & Hinc & _)%select_pending_elem.
  destruct (ok_intents _ Hok _ _ Hi) as (_ & _ & c & Hc & _).
  destruct (Hclips _ _ Hc) as (c' & Hc' & Hd). exists c'. split; [done|]. apply Hd. right.
  apply list_elem_of_fmap. by exists x.
Qed.

(** ** New deletions *)

Lemma boot_id_bounded boot : check_boot_id boot = Ok tt -> boot_bounded boot.
Proof.
  unfold check_boot_id. intros Hb. inv_ok. bool_prop. split; [|exact H0].
  intros ->. match goal with Hr : CATALOG_BOOT_ID_RE [] = true |- _ => by vm_compute in Hr end.
Qed.

(** Only the reserved deletion is pending after a reservation. *)
Lemma run_one_new w boot c1 c2 id c :
  db_ok (w_db w) -> rf_bound (w_fs w) = true -> check_boot_id boot = Ok tt -> 0 <= c1 -> 0 <= c2 ->
  pending_deletes (w_db w) = [] -> oldest_deletable c1 boot (w_db w) id c ->
  path_parent (r_video_path c) = u "clips" -> path_parent (r_sidecar_path c) = u "clips" ->
  intents (w_db w) !! uuid4 (w_uuids w) = None ->
  let q := uuid4 (w_uuids w) in
  let row := delete_row q id c c1 in
  let w1 := after_reserve q id c c1 w in
  let w' := after_delete q row (deleting_row c1 c) c2 w1 in
  exists k, run_one boot true c1 c2 w = (Ok (mkStep (Some id) (Some q) false true true k false), w') /\
    pending_deletes (w_db w') = [].
Proof.
  intros Hok Hb Hboot Hc1 Hc2 Hnil Hold Hv Hs Hq q row w1 w'.
  pose proof Hold as (Hc & Hd & _).
  pose proof (oldest_deletable_head _ _ _ _ _ Hok Hold) as Hh.
  assert (Hres : prepare_oldest_eligible_delete c1 boot w = (Ok (Some q), w1)).
  { rewrite prepare_oldest_prefix by done. rewrite Hh. apply transaction_run.
    by erewrite mbind_run by (by apply prepare_delete_row_run). }
  assert (Hok1 : db_ok (w_db w1)).
  { pose proof (keeps_prepare_oldest_eligible_delete c1 boot w Hok) as Hkeep. by rewrite Hres in Hkeep. }
  assert (Hi1 : intents (w_db w1) !! q = Some row) by apply lookup_insert_eq.
  destruct (reconcile_reserved_run q row false c2 w1) as (c' & k & w2 & Hc' & Hrow & Ew & Hok2 & Hrun);
    [done..|].
  assert (c' = deleting_row c1 c) as ->.
  { simpl in Hc'. rewrite lookup_insert_eq in Hc'. congruence. }
  fold w' in Ew. subst w2.
  assert (Hnil' : pending_deletes (w_db w') = []).
  { destruct (pending_deletes (w_db w')) as [|[j s] l] eqn:E; [done|]. exfalso.
    destruct (proj1 (select_pending_elem is_delete (w_db w') (j, s))) as (Hi & Hinc & Hk);
      [unfold pending_deletes in E; rewrite E; by left|].
    simpl in *. destruct (decide (q = j)) as [<-|Hne].
    - rewrite lookup_alter_eq, lookup_insert_eq in Hi. simpl in Hi. injection Hi as <-. done.
    - rewrite lookup_alter_ne, lookup_insert_ne in Hi by done.
      assert (Hin : (j, s) ∈ pending_deletes (w_db w)) by by apply select_pending_elem.
      rewrite Hnil in Hin. by apply elem_of_nil in Hin. }
  exists k. split; [|done]. unfold run_one.
  erewrite mbind_run by (by apply boot_guard_run, boot_id_bounded).
  erewrite mbind_run by (by apply list_pending_delete_run). rewrite Hnil. simpl.
  erewrite mbind_run by (by apply now_run). erewrite mbind_run by exact Hres.
  cbv beta iota. rewrite Hrun, Hnil'. by rewrite (bool_decide_true ([] = [])).
Qed.

End rooted.

(** ** On the demo recording *)

Lemma demo_ok cs : Forall (@call_typed demo_env) cs -> db_ok (w_db (demo_run cs)).
Proof. intros Hcs. exact (@reachable_ok RootedFilesystem _ demo_env _ (demo_reachable cs Hcs)). Qed.

Lemma replay_drains_pending_deletes_witness :
  exists steps w', @replay_all RootedFilesystem _ demo_env demo_boot [(0, 500)] demo_deleting
                   = (Ok steps, w') /\
    pending_deletes (w_db w') = [].
Proof.
  edestruct (@replay_drains_pending_deletes demo_env demo_deleting demo_boot [(0, 500)])
    as (steps & w' & Hrun & _ & _ & Hnil & _);
    [|reflexivity|split; [vm_compute; discriminate|vm_compute; discriminate]|vm_compute; reflexivity
     |repeat constructor; vm_compute; discriminate|exact (ex_intro _ steps (ex_intro _ w' (conj Hrun Hnil)))].
  apply demo_reachable. by repeat constructor.
Defined.



(** A recording clip orphaned in pending/, whose two files startup recovery then finds, and a
    younger finished clip in clips/. *)
Definition stranded_calls : list (@catalog_call demo_env) :=
  [CRegisterWriting (writing_clip next_id next_stem 0) 0; CMarkOrphaned next_id 10;
   CStartup 20 demo_boot DEFAULT_RECONCILIATION_BOUNDS; CRegister (finalized_clip demo_id demo_stem 1) 30].

Definition stranded : DemoWorld := demo_run stranded_calls.

Lemma stranded_reachable : @catalog_reachable RootedFilesystem _ demo_env stranded.
Proof. apply demo_reachable. by repeat constructor. Qed.

