(* ===== verification/Space.v ===== *)
(** * Live free-space monitor ([src/dashcam/storage/space.py])

    Identity-bound space observations drive the hysteresis controller of [Retention]; every mode
    change is stored in a durable latch before it is published. The latch store is an interface
    with laws; the catalog is one. Observer results and clock readings are arguments. *)

From Stdlib Require Import Ascii String ZArith Lia Strings.Byte Floats.SpecFloat.
From stdpp Require Import base list gmap strings.
From S2P Require Import Prelude PyStr Uuid Retention State Naming Intents Models Filesystem.
From S2P Require Import CatalogDb Catalog CatalogInv.

(** ** Data *)

Inductive SpaceObservationFault :=
  | OBSERVATION_FAILED | INVALID_OBSERVATION | OBSERVATION_STALE | IDENTITY_DRIFT | CAPACITY_DRIFT
  | LATCH_LOAD_FAILED | LATCH_BINDING_MISMATCH | LATCH_STORE_FAILED | NO_SPACE_WRITE.

#[export] Instance SpaceObservationFault_eq_dec : EqDecision SpaceObservationFault.
Proof. solve_decision. Defined.

Record FilesystemSpaceObservation := mkObservation {
  o_device_id : str;
  o_capacity_bytes : Z;
  o_free_bytes : Z
}.

Record RetentionDirective := mkDirective {
  d_mode : RetentionMode;
  d_target_free_bytes : Z;
  d_requested_reclaim_bytes : Z;
  d_emergency : bool;
  d_protected_deletion_allowed : bool
}.

Record StorageSpaceSnapshot := mkSnapshot {
  s_sequence : Z;
  s_mode : option RetentionMode;
  s_fault : option SpaceObservationFault;
  s_trigger : option string;
  s_stale : bool;
  s_stop_required : bool;
  s_reclaimer_enabled : bool;
  s_consecutive_observation_failures : Z;
  s_sample_age_ns : option Z;
  s_volume_uuid : str;
  s_device_id : str;
  s_capacity_bytes : Z;
  s_free_bytes : option Z;
  s_free_percent : option spec_float;
  s_start_deletion_below_bytes : Z;
  s_stop_deletion_at_bytes : Z;
  s_emergency_below_bytes : Z;
  s_directive : option RetentionDirective
}.

(** The attributes fixed by [__init__]. *)
Record MonitorConfig := mkConfig {
  cf_volume_uuid : str;
  cf_device_id : str;
  cf_capacity_bytes : Z;
  cf_resolved : ResolvedThresholds;
  cf_maximum_observation_failures : Z;
  cf_reclaimer_available : bool
}.

Record StorageSpaceMonitor := mkMonitor {
  m_config : MonitorConfig;
  m_controller : option StorageThresholdController;
  m_sequence : Z;
  m_observation_failures : Z;
  m_latched_fault : option SpaceObservationFault;
  m_last_success_ns : option Z;
  m_last : StorageSpaceSnapshot
}.

(** ** Validators *)

Definition MAX_BYTES : Z := 9223372036854775807.

Definition space_non_negative (value : Z) : result Z :=
  raise_if negb ((0 <=? value) && (value <=? MAX_BYTES)) as ValueError msg "value is out of range" ;;
  Ok value.

Definition space_positive (value : Z) : result Z :=
  let! r := space_non_negative value in
  raise_if r =? 0 as ValueError msg "value must be positive" ;; Ok r.

Definition bounded_identity (value : str) : result str :=
  raise_if bool_decide (value = []) || (128 <? len value) || negb (isprintable value)
    as ValueError msg "value must be a bounded printable string" ;; Ok value.

Definition validate_device_id (value : str) : result str :=
  let! text := bounded_identity value in
  let '(major, separator, minor) := partition ":"%char text in
  raise_if negb separator || negb (isdecimal major) || negb (isdecimal minor)
    as ValueError msg "device_id must be major:minor" ;;
  raise_if (2 ^ 32 - 1 <? int_of_digits major) || (2 ^ 32 - 1 <? int_of_digits minor)
    as ValueError msg "device_id is out of range" ;;
  Ok text.

(** [_valid]: an exception of a validator is a [False]. *)
Definition valid_observation (value : FilesystemSpaceObservation) : bool :=
  is_ok (validate_device_id (o_device_id value))
  && is_ok (space_positive (o_capacity_bytes value))
  && is_ok (space_non_negative (o_free_bytes value))
  && (o_free_bytes value <=? o_capacity_bytes value).

Definition directive (mode : RetentionMode) (free_bytes : option Z) (target : Z)
    : option RetentionDirective :=
  match mode with
  | NORMAL => None
  | _ => Some (mkDirective mode target
                 (match free_bytes with None => 0 | Some f => Z.max (target - f) 0 end)
                 (bool_decide (mode = EMERGENCY)) false)
  end.

(** ** Exception chains *)

(** An exception object: the [errno] of an [OSError], [__cause__] and [__context__]. *)
Record PyException := mkException {
  ex_errno : option Z;
  ex_cause : option nat;
  ex_context : option nat
}.

Definition ENOSPC : Z := 28.
Definition EDQUOT : Z := 122.

Definition is_no_space (e : PyException) : bool :=
  match ex_errno e with Some n => (n =? ENOSPC) || (n =? EDQUOT) | None => false end.

(** [current.__cause__ or current.__context__]. *)
Definition next_exception (e : PyException) : option nat :=
  match ex_cause e with Some c => Some c | None => ex_context e end.

(** [for _ in range(8)]: the objects seen are told apart by identity. *)
Fixpoint contains_enospc_loop (heap : nat -> PyException) (fuel : nat) (seen : list nat)
    (current : option nat) : bool :=
  match fuel with
  | O => false
  | S fuel' =>
      match current with
      | None => false
      | Some id =>
          if bool_decide (id ∈ seen) then false
          else if is_no_space (heap id) then true
          else contains_enospc_loop heap fuel' (id :: seen) (next_exception (heap id))
      end
  end.

Definition contains_enospc (heap : nat -> PyException) (error : nat) : bool :=
  contains_enospc_loop heap 8 [] (Some error).

(** ** The observer *)

(** What [os.fstat] and [os.fstatvfs] report of the root's descriptor. *)
Record StatVfs := mkStatVfs {
  st_is_directory : bool; st_major : Z; st_minor : Z;
  f_blocks : Z; f_bavail : Z; f_frsize : Z
}.

Definition decimal (n : Z) : str := zpad 0 n.

Definition linux_observation (v : StatVfs) : result FilesystemSpaceObservation :=
  raise_if negb (st_is_directory v)
    as OSError msg "recording root descriptor is not a directory" ;;
  Ok (mkObservation (decimal (st_major v) ++ u ":" ++ decimal (st_minor v))
        (f_blocks v * f_frsize v) (f_bavail v * f_frsize v)).

(** ** The monitor's state *)

Definition float_of_int (z : Z) : spec_float := binary_normalize 53 1024 z 0 false.

(** [free_bytes * 100.0 / capacity], in IEEE double precision. *)
Definition free_percent (free capacity : Z) : spec_float :=
  SFdiv 53 1024 (SFmul 53 1024 (float_of_int free) (float_of_int 100)) (float_of_int capacity).

(** [_snapshot]. *)
Definition snapshot_of (cf : MonitorConfig) (sequence failures : Z) (mode : option RetentionMode)
    (fault : option SpaceObservationFault) (trigger : option string) (stale stop_required : bool)
    (free_bytes : option Z) (d : option RetentionDirective) : StorageSpaceSnapshot :=
  mkSnapshot sequence mode fault trigger stale stop_required (cf_reclaimer_available cf) failures None
    (cf_volume_uuid cf) (cf_device_id cf) (cf_capacity_bytes cf) free_bytes
    (option_map (fun f => free_percent f (cf_capacity_bytes cf)) free_bytes)
    (start_deletion_below_bytes (cf_resolved cf)) (stop_deletion_at_bytes (cf_resolved cf))
    (emergency_below_bytes (cf_resolved cf)) d.

(** [_publish]: the new snapshot is also what the method returns. *)
Definition publish (mode : option RetentionMode) (fault : option SpaceObservationFault)
    (trigger : option string) (stale stop_required : bool) (free_bytes : option Z)
    (d : option RetentionDirective) (m : StorageSpaceMonitor) : StorageSpaceMonitor :=
  let sequence := m_sequence m + 1 in
  mkMonitor (m_config m) (m_controller m) sequence (m_observation_failures m) (m_latched_fault m)
    (m_last_success_ns m)
    (snapshot_of (m_config m) sequence (m_observation_failures m) mode fault trigger stale
       stop_required free_bytes d).

Definition publish_fault (fault : SpaceObservationFault) (immediate_stop : bool)
    (m : StorageSpaceMonitor) : StorageSpaceMonitor :=
  publish (option_map mode (m_controller m)) (Some fault) (s_trigger (m_last m)) true immediate_stop
    (s_free_bytes (m_last m)) None m.

Definition set_latched_fault (f : SpaceObservationFault) (m : StorageSpaceMonitor) : StorageSpaceMonitor :=
  mkMonitor (m_config m) (m_controller m) (m_sequence m) (m_observation_failures m) (Some f)
    (m_last_success_ns m) (m_last m).

Definition set_controller (c : StorageThresholdController) (m : StorageSpaceMonitor) : StorageSpaceMonitor :=
  mkMonitor (m_config m) (Some c) (m_sequence m) (m_observation_failures m) (m_latched_fault m)
    (m_last_success_ns m) (m_last m).

Definition latch_fault (f : SpaceObservationFault) (m : StorageSpaceMonitor) : StorageSpaceMonitor :=
  publish_fault f true (set_latched_fault f m).

Definition observation_failure (fault : SpaceObservationFault) (m : StorageSpaceMonitor)
    : StorageSpaceMonitor :=
  let failures := m_observation_failures m + 1 in
  let m' := mkMonitor (m_config m) (m_controller m) (m_sequence m) failures (m_latched_fault m)
              (m_last_success_ns m) (m_last m) in
  let expired := cf_maximum_observation_failures (m_config m) <=? failures in
  publish_fault (if expired then OBSERVATION_STALE else fault) expired m'.

(** A valid sample: the failures are forgotten and its time is kept. *)
Definition sampled (now : Z) (m : StorageSpaceMonitor) : StorageSpaceMonitor :=
  mkMonitor (m_config m) (m_controller m) (m_sequence m) 0 (m_latched_fault m) (Some now) (m_last m).

(** The [snapshot] property. *)
Definition snapshot (now : Z) (m : StorageSpaceMonitor) : StorageSpaceSnapshot :=
  let s := m_last m in
  match m_last_success_ns m with
  | None => s
  | Some t =>
      mkSnapshot (s_sequence s) (s_mode s) (s_fault s) (s_trigger s) (s_stale s) (s_stop_required s)
        (s_reclaimer_enabled s) (s_consecutive_observation_failures s) (Some (Z.max (now - t) 0))
        (s_volume_uuid s) (s_device_id s) (s_capacity_bytes s) (s_free_bytes s) (s_free_percent s)
        (s_start_deletion_below_bytes s) (s_stop_deletion_at_bytes s) (s_emergency_below_bytes s)
        (s_directive s)
  end.

(** [__init__]. *)
Definition StorageSpaceMonitor_new (volume device : str) (capacity : Z) (th : StorageThresholds)
    (maximum_observation_failures : Z) (reclaimer_available : bool) : result StorageSpaceMonitor :=
  let! _ := bounded_identity volume in
  let! _ := validate_device_id device in
  let! _ := space_positive capacity in
  raise_if negb ((1 <=? maximum_observation_failures) && (maximum_observation_failures <=? 60))
    as ValueError msg "maximum_observation_failures must be between 1 and 60" ;;
  let! resolved := resolve th capacity in
  let cf := mkConfig volume device capacity resolved maximum_observation_failures reclaimer_available in
  Ok (mkMonitor cf None 0 0 None None (snapshot_of cf 0 0 None None None true false None None)).

(** ** The latch store *)

(** [RetentionLatchStore]; a store that has state [S]. *)
Class RetentionLatchStore (S : Type) := {
  latch_load : S -> result (option RetentionThresholdLatch) * S;
  latch_save : RetentionThresholdLatch -> S -> result unit * S
}.

(** What a restarted monitor will find, and what loading and storing do to it. *)
Class LatchStoreLaws (S : Type) `{RetentionLatchStore S} := {
  durable : S -> option RetentionThresholdLatch;
  load_spec s r s' : latch_load s = (r, s') ->
    durable s' = durable s /\ forall l, r = Ok l -> l = durable s;
  save_ok_spec l s s' : latch_save l s = (Ok tt, s') ->
    durable s' = Some l /\
    forall l0, durable s = Some l0 ->
      volume_uuid l0 = volume_uuid l /\ capacity_bytes l0 = capacity_bytes l;
  save_err_spec l s e s' : latch_save l s = (Err e, s') -> durable s' = durable s
}.

#[export] Instance catalog_latch_store {F : Type} : RetentionLatchStore (World F) := {
  latch_load := retention_threshold_latch;
  latch_save := store_retention_threshold_latch
}.

Lemma latch_new_ok v c b l : RetentionThresholdLatch_new v c b = Ok l -> l = mkLatch v c b.
Proof. unfold RetentionThresholdLatch_new. intros H. by inv_ok. Qed.

#[export] Program Instance catalog_latch_laws {F : Type} : LatchStoreLaws (World F) := {
  durable w := latch (w_db w)
}.
Next Obligation.
  intros F w r w' Hl. unfold latch_load in Hl. simpl in Hl. unfold retention_threshold_latch in Hl.
  unfold query, mbind, lift, mret in Hl. destruct (latch (w_db w)) as [[v c b]|] eqn:E; simpl in Hl.
  - destruct (RetentionThresholdLatch_new v c b) as [l|e] eqn:El; injection Hl as <- <-;
      (split; [done|]); intros l' Hl'; [|done]. injection Hl' as <-.
    apply latch_new_ok in El. congruence.
  - injection Hl as <- <-. split; [done|]. intros l' Hl'. by injection Hl' as <-.
Qed.
Next Obligation.
  intros F l w w' Hs. unfold latch_save in Hs. simpl in Hs. unfold store_retention_threshold_latch in Hs.
  inv_M; bool_prop; (split; [done|]); intros l0 E; simplify_eq; by split.
Qed.
Next Obligation.
  intros F l w e w' Hs. unfold latch_save in Hs. simpl in Hs. unfold store_retention_threshold_latch in Hs.
  simpl. f_equal. by eapply transaction_err.
Qed.

(** ** Observation *)

Section observe.
Context {S : Type} `{RetentionLatchStore S}.

(** [_latch]: the latch of this monitor's volume. *)
Definition own_latch (cf : MonitorConfig) (reclaim : bool) : result RetentionThresholdLatch :=
  RetentionThresholdLatch_new (cf_volume_uuid cf) (cf_capacity_bytes cf) reclaim.

Definition matches (cf : MonitorConfig) (l : RetentionThresholdLatch) : result bool :=
  let! own := own_latch cf (reclaim_latched l) in Ok (bool_decide (l = own)).

(** [_store]: [False] on any exception. *)
Definition store_mode (cf : MonitorConfig) (md : RetentionMode) (s : S) : bool * S :=
  match own_latch cf (negb (bool_decide (md = NORMAL))) with
  | Err _ => (false, s)
  | Ok l => let '(r, s') := latch_save l s in (is_ok r, s')
  end.

(** The controller of the first valid sample, restored from the latch, or the fault to latch. *)
Definition attach (m : StorageSpaceMonitor) (s : S)
    : result (SpaceObservationFault + StorageThresholdController) * S :=
  let cf := m_config m in
  match m_controller m with
  | Some c => (Ok (inr c), s)
  | None =>
      let '(loaded, s') := latch_load s in
      (match loaded with
       | Err _ => Ok (inl LATCH_LOAD_FAILED)
       | Ok None => let! c := StorageThresholdController_new (cf_resolved cf) NORMAL in Ok (inr c)
       | Ok (Some l) =>
           let! same := matches cf l in
           if negb same then Ok (inl LATCH_BINDING_MISMATCH)
           else
             let! c := StorageThresholdController_new (cf_resolved cf)
                         (if reclaim_latched l then RECLAIMING else NORMAL) in
             Ok (inr c)
       end, s')
  end.

(** Evaluate the sample and store a changed mode before it is published; when storing fails the
    controller keeps its previous mode. *)
Definition settle (o : FilesystemSpaceObservation) (c : StorageThresholdController)
    (m : StorageSpaceMonitor) (s : S) : result unit * (StorageSpaceMonitor * S) :=
  let cf := m_config m in
  match evaluate c (o_free_bytes o) false with
  | Err e => (Err e, (set_controller c m, s))
  | Ok c' =>
      let '(stored, s') := if bool_decide (mode c' = mode c) then (true, s)
                           else store_mode cf (mode c') s in
      if negb stored then (Ok tt, (latch_fault LATCH_STORE_FAILED (set_controller c m), s'))
      else
        let trigger := if bool_decide (mode c' = NORMAL) then None else s_trigger (m_last m) in
        let stop_required := bool_decide (mode c' = EMERGENCY) && negb (cf_reclaimer_available cf) in
        (Ok tt,
         (publish (Some (mode c')) None trigger false stop_required (Some (o_free_bytes o))
            (directive (mode c') (Some (o_free_bytes o)) (stop_deletion_at_bytes (cf_resolved cf)))
            (set_controller c' m), s'))
  end.

(** [observe]: [observed] is what the observer did, [now] what the clock then returns. *)
Definition observe (observed : result FilesystemSpaceObservation) (now : Z)
    (m : StorageSpaceMonitor) (s : S) : result unit * (StorageSpaceMonitor * S) :=
  let cf := m_config m in
  match m_latched_fault m with
  | Some f => (Ok tt, (publish_fault f true m, s))
  | None =>
      match observed with
      | Err _ => (Ok tt, (observation_failure OBSERVATION_FAILED m, s))
      | Ok o =>
          if negb (valid_observation o) then (Ok tt, (observation_failure INVALID_OBSERVATION m, s))
          else if negb (bool_decide (o_device_id o = cf_device_id cf)) then
            (Ok tt, (latch_fault IDENTITY_DRIFT m, s))
          else if negb (o_capacity_bytes o =? cf_capacity_bytes cf) then
            (Ok tt, (latch_fault CAPACITY_DRIFT m, s))
          else
            let m1 := sampled now m in
            let '(attached, s1) := attach m1 s in
            match attached with
            | Err e => (Err e, (m1, s1))
            | Ok (inl f) => (Ok tt, (latch_fault f m1, s1))
            | Ok (inr c) => settle o c m1 s1
            end
      end
  end.

Definition note_no_space_write (m : StorageSpaceMonitor) (s : S) : result unit * (StorageSpaceMonitor * S) :=
  let cf := m_config m in
  let free := s_free_bytes (m_last m) in
  match (match m_controller m with
         | Some c => Ok c
         | None => StorageThresholdController_new (cf_resolved cf) NORMAL
         end) with
  | Err e => (Err e, (m, s))
  | Ok c =>
      match evaluate c (match free with None => 0 | Some f => f end) true with
      | Err e => (Err e, (m, s))
      | Ok c' =>
          let '(stored, s') := store_mode cf (mode c') s in
          if negb stored then (Ok tt, (latch_fault LATCH_STORE_FAILED m, s'))
          else
            (Ok tt,
             (publish (Some EMERGENCY) (Some NO_SPACE_WRITE) (Some "NO_SPACE_WRITE"%string)
                (bool_decide (free = None)) true free
                (directive EMERGENCY free (stop_deletion_at_bytes (cf_resolved cf)))
                (set_controller c' m), s'))
      end
  end.

Definition note_write_error (heap : nat -> PyException) (error : nat)
    (m : StorageSpaceMonitor) (s : S) : result bool * (StorageSpaceMonitor * S) :=
  if negb (contains_enospc heap error) then (Ok false, (m, s))
  else
    let '(r, ms) := note_no_space_write m s in
    (let! _ := r in Ok true, ms).
End observe.
