(* ===== verification/SpaceProperties.v ===== *)
(** * Free-space monitor properties

    The published mode is durable; a restart continues the hysteresis of the whole history; a
    latched fault is final; missing observations expire; what a sample publishes; the exception
    chain walk; and the text the Linux observer builds. *)

From Stdlib Require Import Ascii String ZArith Lia Strings.Byte Floats.SpecFloat.
From stdpp Require Import base list gmap strings.
From S2P Require Import Prelude PyStr Uuid Retention State Naming Intents Models Filesystem.
From S2P Require Import CatalogDb Catalog CatalogDemo CatalogInv Convergence Space.

(** ** Configuration *)

Definition latch_of (cf : MonitorConfig) (b : bool) : RetentionThresholdLatch :=
  mkLatch (cf_volume_uuid cf) (cf_capacity_bytes cf) b.

Record config_ok (cf : MonitorConfig) : Prop := mkConfigOk {
  co_latch b : own_latch cf b = Ok (latch_of cf b);
  co_thresholds : thresholds_ok (cf_resolved cf);
  co_failures : 1 <= cf_maximum_observation_failures cf;
  co_device : is_ok (validate_device_id (cf_device_id cf)) = true;
  co_capacity : 0 < cf_capacity_bytes cf <= MAX_BYTES
}.

(** The state of a newly built monitor. *)
Definition fresh (cf : MonitorConfig) : StorageSpaceMonitor :=
  mkMonitor cf None 0 0 None None (snapshot_of cf 0 0 None None None true false None None).

Lemma StorageThresholds_new_ok a b c d th :
  StorageThresholds_new a b c d = Ok th -> th = mkThresholds a b c d /\ 0 <= d.
Proof. unfold StorageThresholds_new. intros H. inv_ok. bool_prop. by split. Qed.

Lemma monitor_new_ok volume device capacity low high minimum emergency th n b m :
  StorageThresholds_new low high minimum emergency = Ok th ->
  StorageSpaceMonitor_new volume device capacity th n b = Ok m ->
  m = fresh (m_config m) /\ config_ok (m_config m).
Proof.
  intros [-> He]%StorageThresholds_new_ok Hm. unfold StorageSpaceMonitor_new in Hm. inv_ok.
  match goal with Hr : resolve _ _ = Ok _ |- _ => apply resolve_ok in Hr as (Hcap & -> & Ht & Hs) end.
  simpl. split; [done|].
  match goal with Hi : bounded_identity _ = Ok _ |- _ => unfold bounded_identity in Hi; inv_ok end.
  bool_prop. simpl in *. split; simpl.
  - intros r. unfold own_latch, RetentionThresholdLatch_new, latch_of, non_negative_integer. simpl.
    rewrite bool_decide_false by done. replace (128 <? len x) with false by lia.
    replace (capacity <? 0) with false by lia. simpl. by replace (capacity =? 0) with false by lia.
  - unfold thresholds_ok. simpl in *. lia.
  - done.
  - match goal with Hd : validate_device_id _ = Ok _ |- _ => by rewrite Hd end.
  - unfold space_positive, space_non_negative in *. inv_ok. bool_prop. lia.
Qed.

(** ** One monitor and its store *)

Section monitor.
Context {St : Type} `{LatchStoreLaws St}.

(** A monitor's calls; [Restart] builds a new monitor over the same store. *)
Inductive space_call :=
  | Observe (observed : result FilesystemSpaceObservation) (now : Z)
  | NoSpace
  | Restart.

Definition run_space_call (c : space_call) (m : StorageSpaceMonitor) (s : St)
    : result unit * (StorageSpaceMonitor * St) :=
  match c with
  | Observe o now => observe o now m s
  | NoSpace => note_no_space_write m s
  | Restart => (Ok tt, (fresh (m_config m), s))
  end.

Fixpoint run_space (cs : list space_call) (m : StorageSpaceMonitor) (s : St)
    : StorageSpaceMonitor * St :=
  match cs with
  | [] => (m, s)
  | c :: cs' => let '(m', s') := snd (run_space_call c m s) in run_space cs' m' s'
  end.

Lemma run_space_app cs1 cs2 m s :
  run_space (cs1 ++ cs2) m s = run_space cs2 (fst (run_space cs1 m s)) (snd (run_space cs1 m s)).
Proof.
  revert m s. induction cs1 as [|c cs1 IH]; intros m s; simpl; [done|].
  destruct (snd (run_space_call c m s)) as [m1 s1]. apply IH.
Qed.

(** The mode a controller is in is the mode the durable latch says. *)
Definition mode_stored (cf : MonitorConfig) (md : RetentionMode) (s : St) : Prop :=
  match durable s with
  | None => md = NORMAL
  | Some l => l = latch_of cf (negb (bool_decide (md = NORMAL)))
  end.

Record monitor_inv (m : StorageSpaceMonitor) (s : St) : Prop := mkMonitorInv {
  mi_config : config_ok (m_config m);
  mi_controller : forall c, m_controller m = Some c ->
    thresholds c = cf_resolved (m_config m) /\ mode_stored (m_config m) (mode c) s;
  mi_published : s_mode (m_last m) = option_map mode (m_controller m)
}.

Lemma fresh_inv cf s : config_ok cf -> monitor_inv (fresh cf) s.
Proof. by split. Qed.

Lemma controller_new_ok t md :
  thresholds_ok t -> StorageThresholdController_new t md = Ok (mkController t md).
Proof.
  intros [He Hs]. unfold StorageThresholdController_new.
  replace (emergency_below_bytes t <? 0) with false by lia.
  replace (start_deletion_below_bytes t <? 0) with false by lia.
  replace (stop_deletion_at_bytes t <? 0) with false by lia.
  replace (emergency_below_bytes t <? start_deletion_below_bytes t) with true by lia.
  by replace (start_deletion_below_bytes t <? stop_deletion_at_bytes t) with true by lia.
Qed.

(** Storing a mode: it is durable, or nothing changed. *)
Lemma store_mode_cases cf md s :
  config_ok cf ->
  exists b s', store_mode cf md s = (b, s') /\
    if b then mode_stored cf md s' /\
              (forall l, durable s = Some l -> exists r, l = latch_of cf r)
    else durable s' = durable s.
Proof.
  intros Hcf. unfold store_mode. rewrite (co_latch cf Hcf).
  destruct (latch_save _ s) as [[[]|e] s'] eqn:E; do 2 eexists; (split; [done|]); simpl.
  - apply save_ok_spec in E as [Hd Hb]. split.
    + unfold mode_stored. by rewrite Hd.
    + intros [v c r] Hl. destruct (Hb _ Hl) as [Hv Hc]. simpl in *. subst. by exists r.
  - by eapply save_err_spec.
Qed.

Lemma attach_cases m s :
  monitor_inv m s ->
  exists a s', attach m s = (Ok a, s') /\ durable s' = durable s /\
    match a with
    | inl f => m_controller m = None
    | inr c => thresholds c = cf_resolved (m_config m) /\ mode_stored (m_config m) (mode c) s
    end.
Proof.
  intros [Hcf Hc _]. unfold attach. destruct (m_controller m) as [c|].
  { do 2 eexists. split; [done|]. by split; [|apply Hc]. }
  destruct (latch_load s) as [r s'] eqn:E. apply load_spec in E as [Hd Hr].
  destruct r as [[l|]|e].
  - specialize (Hr _ eq_refl). unfold matches. rewrite (co_latch _ Hcf). simpl.
    destruct (bool_decide (l = _)) eqn:El; simpl; [|by do 2 eexists].
    rewrite controller_new_ok by apply Hcf. do 2 eexists. split; [done|]. split; [done|]. split; [done|].
    unfold mode_stored. rewrite <-Hr. bool_prop. destruct (reclaim_latched l) eqn:Eb; rewrite El, ?Eb; done.
  - specialize (Hr _ eq_refl). simpl. rewrite controller_new_ok by apply Hcf. do 2 eexists.
    split; [done|]. split; [done|]. split; [done|]. unfold mode_stored. by rewrite <-Hr.
  - by do 2 eexists.
Qed.

Lemma mode_stored_durable cf md s s' :
  durable s' = durable s -> mode_stored cf md s -> mode_stored cf md s'.
Proof. unfold mode_stored. by intros ->. Qed.

(** The result of a step: no exception, the invariant, the same configuration. *)
Definition steps_to (x : result unit * (StorageSpaceMonitor * St)) (cf : MonitorConfig) : Prop :=
  exists m' s', x = (Ok tt, (m', s')) /\ monitor_inv m' s' /\ m_config m' = cf.

(** Publishing a fault, over an unchanged durable latch. *)
Lemma fault_inv m m0 s s' f b :
  monitor_inv m s -> m_config m0 = m_config m -> m_controller m0 = m_controller m ->
  durable s' = durable s -> steps_to (Ok tt, (publish_fault f b m0, s')) (m_config m).
Proof.
  intros [Hcf Hc Hp] E1 E2 Hd. do 2 eexists. split; [done|]. split; [|done]. split; simpl; rewrite ?E1, ?E2.
  - done.
  - intros c Hcc. destruct (Hc c Hcc). split; [done|]. by eapply mode_stored_durable.
  - done.
Qed.

Lemma published_inv cf md f tr st stop free d m c s :
  config_ok cf -> m_config m = cf -> thresholds c = cf_resolved cf -> mode c = md ->
  mode_stored cf md s ->
  steps_to (Ok tt, (publish (Some md) f tr st stop free d (set_controller c m), s)) cf.
Proof.
  intros Hcf E Ht Hm Hs. do 2 eexists. split; [done|]. split; [|done].
  split; simpl; rewrite ?E; [done| |by rewrite Hm]. intros c' [= <-]. by rewrite Hm.
Qed.

Lemma settle_inv o c m s :
  config_ok (m_config m) -> 0 <= o_free_bytes o ->
  thresholds c = cf_resolved (m_config m) -> mode_stored (m_config m) (mode c) s ->
  steps_to (settle o c m s) (m_config m).
Proof.
  intros Hcf Ho Ht Hs. unfold settle.
  destruct (evaluate_ok c (o_free_bytes o) Ho) as (md & -> & _). simpl.
  destruct (bool_decide (md = mode c)) eqn:Em.
  - bool_prop. subst md. simpl. by eapply published_inv.
  - destruct (store_mode_cases (m_config m) md s Hcf) as (b & s' & -> & Hb). destruct b; simpl.
    + destruct Hb as [Hb _]. by eapply published_inv.
    + unfold latch_fault. do 2 eexists. split; [done|]. split; [|done]. split; simpl; [done| |done].
      intros c' [= <-]. split; [done|]. by eapply mode_stored_durable.
Qed.

Lemma valid_observation_bounds o :
  valid_observation o = true -> 0 <= o_free_bytes o <= o_capacity_bytes o.
Proof.
  unfold valid_observation, space_non_negative. intros Hv. bool_prop.
  destruct (0 <=? o_free_bytes o) eqn:E; [|done]. bool_prop. lia.
Qed.

Lemma observe_inv o now m s :
  monitor_inv m s -> steps_to (observe o now m s) (m_config m).
Proof.
  intros Hinv. pose proof Hinv as [Hcf _ _]. unfold observe.
  destruct (m_latched_fault m); [by eapply fault_inv|].
  destruct o as [o|e]; [|by eapply fault_inv].
  destruct (valid_observation o) eqn:Hv; simpl; [|by eapply fault_inv].
  destruct (negb _); [by eapply fault_inv|]. destruct (negb _); [by eapply fault_inv|].
  assert (Hs : monitor_inv (sampled now m) s) by (destruct Hinv; by split).
  destruct (attach_cases _ _ Hs) as (a & s' & -> & Hd & Ha). destruct a as [f|c]; [by eapply fault_inv|].
  destruct Ha as [Ht Hm]. apply (settle_inv o c (sampled now m)); [done|..|done|].
  - apply valid_observation_bounds in Hv. lia.
  - by eapply mode_stored_durable.
Qed.

Lemma note_inv m s : monitor_inv m s -> steps_to (note_no_space_write m s) (m_config m).
Proof.
  intros Hinv. pose proof Hinv as [Hcf Hc _]. unfold note_no_space_write.
  assert (exists c, match m_controller m with
                    | Some c => Ok c
                    | None => StorageThresholdController_new (cf_resolved (m_config m)) NORMAL
                    end = Ok c /\ thresholds c = cf_resolved (m_config m)) as (c & -> & Ht).
  { destruct (m_controller m) as [c|]; [exists c; split; [done|by apply Hc]|].
    rewrite controller_new_ok by apply Hcf. by eexists. }
  unfold evaluate. simpl.
  destruct (store_mode_cases (m_config m) EMERGENCY s Hcf) as (b & s' & -> & Hb). destruct b; simpl.
  - destruct Hb as [Hb _]. by eapply published_inv.
  - by eapply fault_inv.
Qed.

Lemma run_space_call_inv c m s :
  monitor_inv m s -> steps_to (run_space_call c m s) (m_config m).
Proof.
  intros Hinv. destruct c; simpl; [by apply observe_inv|by apply note_inv|].
  do 2 eexists. split; [done|]. split; [|done]. apply fresh_inv, Hinv.
Qed.

Lemma run_space_inv cs m s :
  monitor_inv m s ->
  monitor_inv (fst (run_space cs m s)) (snd (run_space cs m s)) /\
  m_config (fst (run_space cs m s)) = m_config m.
Proof.
  revert m s. induction cs as [|c cs IH]; intros m s Hinv; simpl; [done|].
  destruct (run_space_call_inv c m s Hinv) as (m1 & s1 & -> & Hinv1 & Hcf1). simpl.
  destruct (IH m1 s1 Hinv1) as [? E]. by rewrite E.
Qed.

(** C24: the monitor never shows a mode a restart would forget: started from any accepted
    arguments over any store that keeps its laws, after any calls (whatever the observer and the
    store did, restarts included) every further call returns without an exception, and
    whenever the snapshot shows a mode, the durable latch is the one of this volume and
    capacity with the reclaim bit of that mode, or there is none and the mode is NORMAL. *)
Theorem published_mode_is_durable volume device capacity low high minimum emergency th n b m0 s0 cs c :
  StorageThresholds_new low high minimum emergency = Ok th ->
  StorageSpaceMonitor_new volume device capacity th n b = Ok m0 ->
  let '(m, s) := run_space cs m0 s0 in
  fst (run_space_call c m s) = Ok tt /\
  forall md, s_mode (m_last m) = Some md ->
    match durable s with
    | None => md = NORMAL
    | Some l => volume_uuid l = volume /\ capacity_bytes l = capacity /\
                (reclaim_latched l = true <-> md <> NORMAL)
    end.
Proof.
  intros Hth Hm. destruct (monitor_new_ok _ _ _ _ _ _ _ _ _ _ _ Hth Hm) as [Hfresh Hcf].
  assert (Hv : cf_volume_uuid (m_config m0) = volume /\ cf_capacity_bytes (m_config m0) = capacity).
  { unfold StorageSpaceMonitor_new in Hm. by inv_ok. }
  pose proof (fresh_inv (m_config m0) s0 Hcf) as Hinv. rewrite <-Hfresh in Hinv.
  destruct (run_space_inv cs m0 s0 Hinv) as [Hi Ecf].
  destruct (run_space cs m0 s0) as [m s]. simpl in *. split.
  { by destruct (run_space_call_inv c m s Hi) as (? & ? & -> & _). }
  destruct Hi as [_ Hc Hp]. intros md Hmd. rewrite Hp in Hmd.
  destruct (m_controller m) as [ct|]; [|done]. injection Hmd as <-.
  destruct (Hc ct eq_refl) as [_ Hs]. unfold mode_stored in Hs.
  destruct (durable s) as [l|]; [|done]. rewrite Hs, Ecf. simpl. split_and!; [tauto|tauto|].
  rewrite negb_true_iff, bool_decide_eq_false. done.
Qed.

(** ** Healthy histories *)

(** The volume's own latch, or none yet. *)
Definition own (cf : MonitorConfig) (s : St) : Prop :=
  durable s = None \/ exists r, durable s = Some (latch_of cf r).

(** Loading and storing succeed while the latch is this volume's. *)
Definition store_healthy (cf : MonitorConfig) : Prop := forall s, own cf s ->
  (exists l s', latch_load s = (Ok l, s')) /\
  forall r, exists s', latch_save (latch_of cf r) s = (Ok tt, s').

Inductive healthy_call := Sample (free now : Z) | WriteFailed | Reboot.

Definition sample_of (cf : MonitorConfig) (free : Z) : FilesystemSpaceObservation :=
  mkObservation (cf_device_id cf) (cf_capacity_bytes cf) free.

Definition concrete (cf : MonitorConfig) (h : healthy_call) : space_call :=
  match h with
  | Sample f now => Observe (Ok (sample_of cf f)) now
  | WriteFailed => NoSpace
  | Reboot => Restart
  end.

Definition call_events (h : healthy_call) : list space_event :=
  match h with Sample f _ => [Observed f] | WriteFailed => [NoSpaceWrite] | Reboot => [] end.

Definition call_in_range (cf : MonitorConfig) (h : healthy_call) : Prop :=
  match h with Sample f _ => 0 <= f <= cf_capacity_bytes cf | _ => True end.

(** The durable reclaim bit. *)
Definition reclaim_bit (s : St) : bool :=
  match durable s with Some l => reclaim_latched l | None => false end.

Lemma mode_stored_bit cf md s : mode_stored cf md s -> reclaim_bit s = was_reclaiming_mode md.
Proof.
  unfold mode_stored, reclaim_bit. destruct (durable s) as [l|]; [|by intros ->]. intros ->. simpl.
  by destruct md.
Qed.

Lemma mode_stored_own cf md s : mode_stored cf md s -> own cf s.
Proof. unfold mode_stored, own. destruct (durable s) as [l|]; [|by left]. intros ->. right. eauto. Qed.

Lemma sample_valid cf f :
  config_ok cf -> 0 <= f <= cf_capacity_bytes cf -> valid_observation (sample_of cf f) = true.
Proof.
  intros [_ _ _ Hd Hc] Hf. unfold valid_observation, space_positive, space_non_negative. simpl.
  rewrite Hd. replace (0 <=? cf_capacity_bytes cf) with true by lia.
  replace (cf_capacity_bytes cf <=? MAX_BYTES) with true by lia. simpl.
  replace (cf_capacity_bytes cf =? 0) with false by lia. replace (0 <=? f) with true by lia.
  replace (f <=? MAX_BYTES) with true by lia. simpl. lia.
Qed.

Lemma store_mode_run cf md s :
  config_ok cf -> store_healthy cf -> own cf s ->
  exists s', store_mode cf md s = (true, s') /\ mode_stored cf md s'.
Proof.
  intros Hcf Hst Hs. destruct (Hst s Hs) as [_ Hsave].
  destruct (store_mode_cases cf md s Hcf) as (b & s' & E & Hb).
  destruct (Hsave (negb (bool_decide (md = NORMAL)))) as (s2 & E2).
  unfold store_mode in E. rewrite (co_latch _ Hcf), E2 in E. simpl in E. injection E as <- <-.
  exists s2. unfold store_mode. rewrite (co_latch _ Hcf), E2. by destruct Hb.
Qed.

Lemma attach_run m s :
  monitor_inv m s -> store_healthy (m_config m) -> own (m_config m) s ->
  exists c s', attach m s = (Ok (inr c), s') /\ durable s' = durable s /\
    thresholds c = cf_resolved (m_config m) /\ mode_stored (m_config m) (mode c) s'.
Proof.
  intros Hinv Hst Hown. destruct (attach_cases m s Hinv) as (a & s' & E & Hd & Ha).
  destruct a as [f|c]; [exfalso|].
  - destruct (Hst s Hown) as [(l & s2 & El) _]. unfold attach in E. rewrite Ha, El in E.
    destruct (load_spec _ _ _ El) as [_ Hl]. specialize (Hl _ eq_refl). subst l.
    destruct Hinv as [Hcf _ _]. destruct Hown as [Hn|[r Hr]].
    + rewrite Hn in E. simpl in E. by rewrite controller_new_ok in E by apply Hcf.
    + rewrite Hr in E. unfold matches in E. rewrite (co_latch _ Hcf) in E. simpl in E.
      rewrite bool_decide_true in E by done. simpl in E. by rewrite controller_new_ok in E by apply Hcf.
  - destruct Ha as [Ht Hm]. exists c, s'. split_and!; try done. by eapply mode_stored_durable.
Qed.

(** A sample published without a fault, the policy's mode stored. *)
Lemma sample_run f now m s :
  monitor_inv m s -> m_latched_fault m = None -> store_healthy (m_config m) -> own (m_config m) s ->
  0 <= f <= cf_capacity_bytes (m_config m) ->
  exists c c' s', thresholds c = cf_resolved (m_config m) /\ reclaim_bit s = was_reclaiming_mode (mode c) /\
    evaluate c f false = Ok c' /\ mode_stored (m_config m) (mode c') s' /\
    run_space_call (concrete (m_config m) (Sample f now)) m s
    = (Ok tt,
       (publish (Some (mode c')) None (if bool_decide (mode c' = NORMAL) then None else s_trigger (m_last m))
          false (bool_decide (mode c' = EMERGENCY) && negb (cf_reclaimer_available (m_config m))) (Some f)
          (directive (mode c') (Some f) (stop_deletion_at_bytes (cf_resolved (m_config m))))
          (set_controller c' (sampled now m)), s')).
Proof.
  intros Hinv Hf Hst Hown Hr. pose proof Hinv as [Hcf _ _]. set (cf := m_config m) in *.
  destruct (attach_run (sampled now m) s) as (c & s1 & Ea & Hd & Ht & Hm);
    [by destruct Hinv; split|done|done|]. change (m_config (sampled now m)) with cf in *.
  destruct (evaluate_ok c f) as (md & Ev & _); [lia|].
  assert (exists s2, (if bool_decide (md = mode c) then (true, s1) else store_mode cf md s1) = (true, s2) /\
            mode_stored cf md s2) as (s2 & Es & Hs2).
  { destruct (bool_decide (md = mode c)) eqn:E; [bool_prop; subst md; by exists s1|].
    apply store_mode_run; [done|done|]. by eapply mode_stored_own. }
  exists c, (mkController (thresholds c) md), s2. split; [done|].
  split; [unfold reclaim_bit; rewrite <-Hd; by eapply mode_stored_bit|]. split; [done|]. split; [done|].
  simpl. unfold observe. rewrite Hf, sample_valid by done. simpl. fold cf.
  rewrite bool_decide_true, Z.eqb_refl by done. simpl. rewrite Ea. unfold settle.
  change (m_config (sampled now m)) with cf. change (o_free_bytes (sample_of cf f)) with f. rewrite Ev. simpl. by rewrite Es.
Qed.

Lemma no_space_run m s :
  monitor_inv m s -> store_healthy (m_config m) -> own (m_config m) s ->
  exists m' s', note_no_space_write m s = (Ok tt, (m', s')) /\ m_latched_fault m' = m_latched_fault m /\
    mode_stored (m_config m) EMERGENCY s'.
Proof.
  intros [Hcf _ _] Hst Hown. unfold note_no_space_write.
  destruct (store_mode_run _ EMERGENCY s Hcf Hst Hown) as (s' & Es & Hs').
  destruct (m_controller m) as [c|]; [|rewrite controller_new_ok by apply Hcf];
    unfold evaluate; cbn [mode]; rewrite Es; simpl; by do 2 eexists.
Qed.

(** One healthy call moves the durable bit as the abstract latch moves. *)
Lemma healthy_step h m s :
  monitor_inv m s -> m_latched_fault m = None -> store_healthy (m_config m) -> own (m_config m) s ->
  call_in_range (m_config m) h ->
  let '(m', s') := snd (run_space_call (concrete (m_config m) h) m s) in
  monitor_inv m' s' /\ m_config m' = m_config m /\ m_latched_fault m' = None /\ own (m_config m) s' /\
  (reclaim_bit s' = true <->
     match call_events h with
     | [] => reclaim_bit s = true
     | e :: _ => sets_latch (cf_resolved (m_config m)) e \/
                 (reclaim_bit s = true /\ ~ clears_latch (cf_resolved (m_config m)) e)
     end).
Proof.
  intros Hinv Hf Hst Hown Hr.
  destruct (run_space_call_inv (concrete (m_config m) h) m s Hinv) as (m1 & s1 & E & Hinv1 & Hcf1).
  pose proof Hinv as [Hcf _ _]. rewrite E. simpl. split; [done|]. split; [done|].
  destruct h as [f now| |]; simpl in Hr.
  - destruct (sample_run f now m s Hinv Hf Hst Hown Hr) as (c & c' & s' & Ht & Hbit & Hev & Hs' & Hrun).
    rewrite Hrun in E. injection E as <- <-. split; [done|]. split; [by eapply mode_stored_own|].
    rewrite (mode_stored_bit _ _ _ Hs'), Hbit. simpl. rewrite <-Ht.
    apply (run_event_latch c (Observed f) c'); [|done]. rewrite Ht. apply Hcf.
  - destruct (no_space_run m s Hinv Hst Hown) as (m' & s' & Hrun & Hf' & Hs').
    simpl in E. rewrite Hrun in E. injection E as <- <-. split; [congruence|].
    split; [by eapply mode_stored_own|]. rewrite (mode_stored_bit _ _ _ Hs'). simpl. tauto.
  - injection E as <- <-. by split.
Qed.

Lemma healthy_history hs m s :
  monitor_inv m s -> m_latched_fault m = None -> store_healthy (m_config m) -> durable s = None ->
  Forall (call_in_range (m_config m)) hs ->
  let '(m', s') := run_space (map (concrete (m_config m)) hs) m s in
  monitor_inv m' s' /\ m_config m' = m_config m /\ m_latched_fault m' = None /\ own (m_config m) s' /\
  (reclaim_bit s' = true <-> latched (cf_resolved (m_config m)) false (flat_map call_events hs)).
Proof.
  intros Hinv Hf Hst Hd. induction hs as [|h hs IH] using rev_ind; intros Hr.
  - simpl. do 3 (split; [done|]). split; [by left|]. unfold reclaim_bit. rewrite Hd. split; [done|].
    intros [(l1 & x & l2 & E & _)|[? _]]; [by destruct l1|done].
  - apply Forall_app in Hr as [Hr Hh%Forall_one]. specialize (IH Hr).
    rewrite map_app, run_space_app. destruct (run_space _ m s) as [m1 s1]. simpl.
    destruct IH as (Hinv1 & Ecf & Hf1 & Hown1 & Hbit1).
    pose proof (healthy_step h m1 s1) as Hstep. rewrite Ecf in Hstep.
    specialize (Hstep Hinv1 Hf1 Hst Hown1 Hh).
    destruct (snd (run_space_call (concrete (m_config m) h) m1 s1)) as [m2 s2]. simpl.
    destruct Hstep as (Hinv2 & Ecf2 & Hf2 & Hown2 & Hbit2). do 4 (split; [done|]).
    rewrite Hbit2, flat_map_app. simpl. rewrite app_nil_r.
    destruct (call_events h) as [|e [|]] eqn:Ee; [by rewrite app_nil_r| |by destruct h].
    by rewrite latched_snoc, Hbit1.
Qed.

(** C25: the hysteresis survives restarts: over a healthy store that holds no latch at first,
    after any sequence of samples of the right volume, failed writes and restarts, the durable
    reclaim bit, and every mode the monitor shows, are those of the abstract latch over the
    whole history, as if the process had never stopped. *)
Theorem hysteresis_survives_restarts volume device capacity low high minimum emergency th n b m0 s0 hs :
  StorageThresholds_new low high minimum emergency = Ok th ->
  StorageSpaceMonitor_new volume device capacity th n b = Ok m0 ->
  store_healthy (m_config m0) -> durable s0 = None -> Forall (call_in_range (m_config m0)) hs ->
  let '(m, s) := run_space (map (concrete (m_config m0)) hs) m0 s0 in
  let reclaiming := latched (cf_resolved (m_config m0)) false (flat_map call_events hs) in
  m_latched_fault m = None /\ (reclaim_bit s = true <-> reclaiming) /\
  forall md, s_mode (m_last m) = Some md -> (md <> NORMAL <-> reclaiming).
Proof.
  intros Hth Hm Hst Hd Hr. destruct (monitor_new_ok _ _ _ _ _ _ _ _ _ _ _ Hth Hm) as [Hfresh Hcf].
  pose proof (healthy_history hs m0 s0) as Hh. rewrite Hfresh in Hh at 1 2.
  specialize (Hh (fresh_inv _ _ Hcf) eq_refl Hst Hd Hr).
  destruct (run_space _ m0 s0) as [m s]. destruct Hh as ([_ Hc Hp] & Ecf & Hf & _ & Hbit). simpl.
  split; [done|]. split; [done|]. intros md Hmd. rewrite Hp in Hmd.
  destruct (m_controller m) as [c|]; [|done]. injection Hmd as <-. destruct (Hc c eq_refl) as [_ Hs].
  rewrite <-Hbit, (mode_stored_bit _ _ _ Hs). by destruct (mode c).
Qed.

(** What a sample publishes: after any healthy history, a sample of the right volume is
    published without a fault and not stale, with the failures forgotten; the mode is EMERGENCY
    exactly below the emergency threshold; there is a directive exactly when the mode is not
    NORMAL, it asks for exactly the bytes missing to the stop threshold and never allows
    protected clips to be deleted; a stop is required exactly in an EMERGENCY without a
    reclaimer. *)
Theorem sample_publishes_policy volume device capacity low high minimum emergency th n b m0 s0 hs f now :
  StorageThresholds_new low high minimum emergency = Ok th ->
  StorageSpaceMonitor_new volume device capacity th n b = Ok m0 ->
  store_healthy (m_config m0) -> durable s0 = None -> Forall (call_in_range (m_config m0)) hs ->
  0 <= f <= capacity ->
  let '(m, s) := run_space (map (concrete (m_config m0)) hs) m0 s0 in
  let t := cf_resolved (m_config m0) in
  let sn := m_last (fst (snd (run_space_call (concrete (m_config m0) (Sample f now)) m s))) in
  s_fault sn = None /\ s_stale sn = false /\ s_free_bytes sn = Some f /\
  s_consecutive_observation_failures sn = 0 /\ s_sequence sn = m_sequence m + 1 /\
  exists md, s_mode sn = Some md /\ (md = EMERGENCY <-> f < emergency_below_bytes t) /\
    (md = NORMAL -> s_directive sn = None /\ start_deletion_below_bytes t <= f) /\
    (md <> NORMAL -> f < stop_deletion_at_bytes t /\
       s_directive sn = Some (mkDirective md (stop_deletion_at_bytes t) (stop_deletion_at_bytes t - f)
                                (bool_decide (md = EMERGENCY)) false)) /\
    (s_stop_required sn = true <-> md = EMERGENCY /\ b = false).
Proof.
  intros Hth Hm Hst Hd Hr Hf. destruct (monitor_new_ok _ _ _ _ _ _ _ _ _ _ _ Hth Hm) as [Hfresh Hcf].
  assert (Hcap : cf_capacity_bytes (m_config m0) = capacity /\ cf_reclaimer_available (m_config m0) = b)
    by (unfold StorageSpaceMonitor_new in Hm; by inv_ok).
  pose proof (healthy_history hs m0 s0) as Hh. rewrite Hfresh in Hh at 1 2.
  specialize (Hh (fresh_inv _ _ Hcf) eq_refl Hst Hd Hr).
  destruct (run_space _ m0 s0) as [m s]. destruct Hh as (Hinv & Ecf & Hnf & Hown & _).
  rewrite <-Ecf in *. destruct Hcap as [Hcap Hb]. rewrite <-Hcap in Hf.
  destruct (sample_run f now m s Hinv Hnf Hst Hown Hf) as (c & c' & s' & Ht & _ & Hev & _ & Hrun).
  cbv zeta. rewrite Hrun. simpl. do 5 (split; [done|]). exists (mode c'). split; [done|].
  pose proof (evaluate_emergency _ _ _ Hev) as Hem. rewrite Ht in Hem. split; [done|].
  destruct (co_thresholds _ Hcf) as [He Hs].
  unfold evaluate in Hev. rewrite Ht in Hev. unfold retention_mode in Hev.
  destruct (f <? 0) eqn:Hneg; [done|]. injection Hev as <-. simpl. rewrite Hb.
  set (t := cf_resolved (m_config m)) in *.
  destruct (f <? emergency_below_bytes t) eqn:E1, (was_reclaiming_mode (mode c)) eqn:E0,
    (f <? stop_deletion_at_bytes t) eqn:E2, (f <? start_deletion_below_bytes t) eqn:E3; bool_prop;
    try (exfalso; lia); simpl; (split; [|split]); try done; try (intros _; split; [lia|]);
    rewrite ?Z.max_l by lia; try done; destruct b; simpl; intuition congruence.
Qed.

(** ** Faults *)

Lemma note_cases m s :
  monitor_inv m s -> exists m' s', note_no_space_write m s = (Ok tt, (m', s')) /\
    (m' = latch_fault LATCH_STORE_FAILED m \/
     exists c d tr st free,
       m' = publish (Some EMERGENCY) (Some NO_SPACE_WRITE) tr st true free d (set_controller c m)).
Proof.
  intros [Hcf _ _]. unfold note_no_space_write.
  destruct (m_controller m) as [c|]; [|rewrite controller_new_ok by apply Hcf]; unfold evaluate; cbn [mode];
    destruct (store_mode (m_config m) EMERGENCY s) as [[] s']; simpl; do 2 eexists; (split; [done|]);
    eauto 10.
Qed.

Lemma latched_call c f m s :
  monitor_inv m s -> m_latched_fault m = Some f -> c <> Restart ->
  let '(m', s') := snd (run_space_call c m s) in
  is_Some (m_latched_fault m') /\ s_stop_required (m_last m') = true /\
  (c <> NoSpace -> s' = s /\ m_latched_fault m' = Some f /\ s_fault (m_last m') = Some f /\
     s_stale (m_last m') = true /\ s_directive (m_last m') = None).
Proof.
  intros Hinv Hf Hc. destruct c as [o now| |]; [| |done]; simpl.
  - unfold observe. rewrite Hf. simpl. rewrite Hf. by split; [eexists|].
  - destruct (note_cases m s Hinv) as (m' & s' & -> & [-> |(c & d & tr & st & free & ->)]); simpl;
      (split; [|by split]); [by eexists|by rewrite Hf; eexists].
Qed.

(** a latched fault is final: whatever was called before, once a fault is latched (identity
    or capacity drift, a latch that cannot be loaded, stored or does not match) every later
    call without a restart ends with a fault latched and a stop required, and an observation
    reports that same stale fault without a directive and does not touch the store. *)
Theorem latched_fault_is_final volume device capacity low high minimum emergency th n b m0 s0 cs0 cs c f :
  StorageThresholds_new low high minimum emergency = Ok th ->
  StorageSpaceMonitor_new volume device capacity th n b = Ok m0 ->
  m_latched_fault (fst (run_space cs0 m0 s0)) = Some f ->
  Forall (fun c => c <> Restart) (cs ++ [c]) ->
  let '(m, s) := run_space cs0 m0 s0 in
  let '(m', s') := run_space (cs ++ [c]) m s in
  is_Some (m_latched_fault m') /\ s_stop_required (m_last m') = true /\
  (Forall (fun c => c <> NoSpace) (cs ++ [c]) ->
     s' = s /\ s_fault (m_last m') = Some f /\ s_stale (m_last m') = true /\ s_directive (m_last m') = None).
Proof.
  intros Hth Hm Hf Hcs. destruct (monitor_new_ok _ _ _ _ _ _ _ _ _ _ _ Hth Hm) as [Hfresh Hcf].
  pose proof (fresh_inv (m_config m0) s0 Hcf) as Hinv. rewrite <-Hfresh in Hinv.
  destruct (run_space_inv cs0 m0 s0 Hinv) as [Hi _].
  destruct (run_space cs0 m0 s0) as [m s]. simpl in *. clear Hm Hfresh Hcf Hinv.
  revert f m s Hi Hf. induction cs as [|x cs IH]; intros f m s Hi Hf;
    apply Forall_cons in Hcs as [Hx Hcs]; simpl.
  - pose proof (latched_call c f m s Hi Hf Hx) as Hl.
    destruct (snd (run_space_call c m s)) as [m1 s1]. destruct Hl as (? & ? & Hns).
    split_and!; try done. intros Hall%Forall_one. destruct (Hns Hall) as (? & ? & ? & ? & ?). done.
  - pose proof (latched_call x f m s Hi Hf Hx) as Hl. destruct (run_space_call_inv x m s Hi) as (m1 & s1 & E & Hi1 & _).
    rewrite E in *. simpl in *. destruct Hl as ([f1 Hf1] & _ & Hns). specialize (IH Hcs f1 m1 s1 Hi1 Hf1).
    destruct (run_space (cs ++ [c]) m1 s1) as [m2 s2]. destruct IH as (? & ? & Hrest). split_and!; try done.
    intros [Hxn Hall]%Forall_cons. destruct (Hns Hxn) as (-> & E1 & _). rewrite Hf1 in E1. injection E1 as ->.
    by apply Hrest.
Qed.

(** An observation that yields no usable sample. *)
Definition unusable (o : result FilesystemSpaceObservation) : Prop :=
  match o with Err _ => True | Ok x => valid_observation x = false end.

Definition failure_fault (o : result FilesystemSpaceObservation) : SpaceObservationFault :=
  match o with Err _ => OBSERVATION_FAILED | Ok _ => INVALID_OBSERVATION end.

(** missing observations expire: from a state without a latched fault and without recent
    failures, a run of unusable observations (the observer raised, or its values are invalid)
    changes neither the store nor the mode; the snapshot is stale, carries no directive, counts
    the failures exactly, and requires a stop, with OBSERVATION_STALE, from the configured
    number of consecutive failures on and not before. *)
Theorem missing_observations_expire m (s : St) os o now :
  m_latched_fault m = None -> m_observation_failures m = 0 -> Forall unusable (os ++ [o]) ->
  let k := Z.of_nat (length (os ++ [o])) in
  let '(m', s') := run_space (map (fun o => Observe o now) (os ++ [o])) m s in
  let sn := m_last m' in
  s' = s /\ m_controller m' = m_controller m /\ m_latched_fault m' = None /\
  s_mode sn = option_map mode (m_controller m) /\ s_stale sn = true /\ s_directive sn = None /\
  s_consecutive_observation_failures sn = k /\
  (if cf_maximum_observation_failures (m_config m) <=? k
   then s_fault sn = Some OBSERVATION_STALE /\ s_stop_required sn = true
   else s_fault sn = Some (failure_fault o) /\ s_stop_required sn = false).
Proof.
  intros Hf Hz Hos.
  assert (Hstep : forall m s o, m_latched_fault m = None -> unusable o ->
    snd (observe (S := St) o now m s) = (observation_failure (failure_fault o) m, s)).
  { clear. intros m s o Hf Ho. unfold observe. rewrite Hf. destruct o as [o|e]; simpl in *; [by rewrite Ho|done]. }
  enough (Hgen : forall z, m_observation_failures m = z ->
    let k := z + Z.of_nat (length (os ++ [o])) in
    let '(m', s') := run_space (map (fun o => Observe o now) (os ++ [o])) m s in
    let sn := m_last m' in
    s' = s /\ m_controller m' = m_controller m /\ m_latched_fault m' = None /\
    s_mode sn = option_map mode (m_controller m) /\ s_stale sn = true /\ s_directive sn = None /\
    s_consecutive_observation_failures sn = k /\
    (if cf_maximum_observation_failures (m_config m) <=? k
     then s_fault sn = Some OBSERVATION_STALE /\ s_stop_required sn = true
     else s_fault sn = Some (failure_fault o) /\ s_stop_required sn = false)) by exact (Hgen 0 Hz).
  clear Hz. revert m Hf. induction os as [|x os IH]; intros m Hf z Hz; apply Forall_cons in Hos as [Hx Hos].
  - simpl. rewrite (Hstep m s o Hf Hx). unfold observation_failure, publish_fault, publish, snapshot_of.
    simpl. rewrite Hz. split_and!; try done. by destruct (_ <=? _).
  - cbn [app map run_space run_space_call]. rewrite (Hstep m s x Hf Hx).
    specialize (IH Hos (observation_failure (failure_fault x) m) Hf (z + 1)). simpl in IH.
    rewrite Hz in IH. specialize (IH eq_refl).
    destruct (run_space _ _ s) as [m2 s2]. simpl length. rewrite Nat2Z.inj_succ.
    replace (z + Z.succ (Z.of_nat (length (os ++ [o])))) with (z + 1 + Z.of_nat (length (os ++ [o]))) by lia.
    exact IH.
Qed.

End monitor.

(** ** Exception chains *)

(** The exception [k] links down the chain. *)
Fixpoint chain (heap : nat -> PyException) (current : option nat) (k : nat) : option nat :=
  match k, current with
  | O, _ => current
  | S k', Some i => chain heap (next_exception (heap i)) k'
  | S _, None => None
  end.

Lemma chain_none heap k : chain heap None k = None.
Proof. by destruct k. Qed.

(** The objects seen carry no space error and lead to each other or to the current one. *)
Definition visited (heap : nat -> PyException) (seen : list nat) (current : option nat) : Prop :=
  forall x, x ∈ seen -> is_no_space (heap x) = false /\
    (next_exception (heap x) = current \/ exists y, y ∈ seen /\ next_exception (heap x) = Some y).

Lemma visited_chain heap seen i k j :
  visited heap seen (Some i) -> i ∈ seen -> chain heap (Some i) k = Some j -> j ∈ seen.
Proof.
  intros Hv Hi. assert (Hall : forall k x, x ∈ seen -> chain heap (Some x) k = Some j -> j ∈ seen); [|by eauto].
  clear k. induction k as [|k IH]; intros x Hx; simpl; [by intros [= <-]|].
  destruct (Hv x Hx) as [_ [->|(y & Hy & ->)]]; by apply IH.
Qed.

Lemma contains_enospc_loop_spec heap fuel seen current :
  visited heap seen current ->
  contains_enospc_loop heap fuel seen current = true <->
  exists k i, (k < fuel)%nat /\ chain heap current k = Some i /\ is_no_space (heap i) = true.
Proof.
  revert seen current. induction fuel as [|fuel IH]; intros seen current Hv; simpl.
  { split; [done|]. intros (k & i & Hk & _). lia. }
  destruct current as [id|].
  2: { split; [done|]. intros (k & i & _ & Hc & _). by rewrite chain_none in Hc. }
  destruct (bool_decide (id ∈ seen)) eqn:Hs; bool_prop.
  { split; [done|]. intros (k & i & _ & Hc & Hn). pose proof (visited_chain _ _ _ _ _ Hv Hs Hc) as Hi.
    destruct (Hv i Hi). congruence. }
  destruct (is_no_space (heap id)) eqn:Hn.
  { split; [|done]. intros _. exists 0%nat, id. split_and!; [lia|done|done]. }
  rewrite IH.
  - split; intros (k & i & Hk & Hc & Hi).
    + exists (S k), i. split_and!; [lia|done|done].
    + destruct k as [|k]; simpl in Hc; [congruence|]. exists k, i. split_and!; [lia|done|done].
  - intros x [->|Hx]%elem_of_cons; [by split; [|left]|]. destruct (Hv x Hx) as [? [E|(y & Hy & E)]].
    + split; [done|]. right. exists id. split; [by left|done].
    + split; [done|]. right. exists y. split; [by right|done].
Qed.

(** A write error counts as out of space exactly when one of the first eight exceptions of
    its cause or context chain is an OSError with ENOSPC or EDQUOT: the identity check only cuts
    cycles, it never hides an error. *)
Theorem contains_enospc_spec heap error :
  contains_enospc heap error = true <->
  exists k i, (k < 8)%nat /\ chain heap (Some error) k = Some i /\ is_no_space (heap i) = true.
Proof. apply contains_enospc_loop_spec. intros x Hx. by apply elem_of_nil in Hx. Qed.

(** ** Device identities *)

Lemma decimal_int n : 0 <= n -> int_of_digits (decimal n) = n.
Proof. apply zpad_0_int. Qed.

Lemma decimal_digits n : Forall (fun c => is_digit c = true) (decimal n).
Proof. apply digits_fixed_digits. Qed.

Lemma decimal_not_nil n : decimal n <> [].
Proof. apply zpad_0_not_nil. Qed.

Lemma decimal_isdecimal n : isdecimal (decimal n) = true.
Proof.
  unfold isdecimal. rewrite bool_decide_false by apply decimal_not_nil. simpl.
  apply forallb_Forall, decimal_digits.
Qed.

Lemma digits_no_char c s : is_digit c = false -> Forall (fun c => is_digit c = true) s -> c ∉ s.
Proof. intros Hc Hs Hin. rewrite Forall_forall in Hs. specialize (Hs c Hin). congruence. Qed.

Lemma decimal_length_32 n : 0 <= n < 2 ^ 32 -> (length (decimal n) <= 10)%nat.
Proof.
  intros Hn. unfold decimal, zpad, ndigits. rewrite digits_fixed_length, Nat.max_0_l.
  apply ndigits_fuel_le; [lia|]. cbn. lia.
Qed.

Lemma digit_printable c : is_digit c = true -> printable c = true.
Proof. rewrite is_digit_iff. intros Hc. unfold printable. apply orb_true_iff. left. apply in_range_iff. lia. Qed.

(** The observer's device text is accepted and faithful: for device numbers that fit 32
    bits, the text [LinuxSpaceObserver] builds passes the monitor's validator and splits back
    into the same two numbers, so two devices have one text only when they are the same. *)
Theorem device_id_roundtrip major minor :
  0 <= major < 2 ^ 32 -> 0 <= minor < 2 ^ 32 ->
  let text := decimal major ++ u ":" ++ decimal minor in
  validate_device_id text = Ok text /\
  exists a b, partition ":"%char text = (a, true, b) /\
    int_of_digits a = major /\ int_of_digits b = minor.
Proof.
  intros Ha Hb text.
  assert (Hp : partition ":"%char text = (decimal major, true, decimal minor)).
  { apply partition_app. apply digits_no_char; [by vm_compute|apply decimal_digits]. }
  split; [|do 2 eexists; split; [exact Hp|]; rewrite !decimal_int by lia; done].
  unfold validate_device_id. assert (bounded_identity text = Ok text) as ->.
  { unfold bounded_identity. rewrite bool_decide_false by (unfold text; by destruct (decimal major)).
    assert (len text <= 128).
    { unfold len, text. rewrite !length_app. pose proof (decimal_length_32 major Ha).
      pose proof (decimal_length_32 minor Hb). change (length (u ":")) with 1%nat. lia. }
    replace (128 <? len text) with false by lia.
    assert (isprintable text = true) as ->; [|done]. apply forallb_Forall. unfold text.
    rewrite !Forall_app. split_and!; [| by repeat constructor |];
      (eapply Forall_impl; [apply decimal_digits|apply digit_printable]). }
  simpl. rewrite Hp, !decimal_isdecimal. simpl. rewrite !decimal_int by lia.
  replace (2 ^ 32 - 1 <? major) with false by lia. by replace (2 ^ 32 - 1 <? minor) with false by lia.
Qed.

(** ** The catalog as the latch store, on the demo recording *)

Lemma catalog_store_healthy {F : Type} cf :
  config_ok cf -> store_healthy (St := World F) cf.
Proof.
  intros Hcf w Hown. split.
  - destruct Hown as [Hn|[r Hr]]; simpl in *; unfold retention_threshold_latch, query, mbind, lift, mret.
    + rewrite Hn. by do 2 eexists.
    + rewrite Hr. simpl. pose proof (co_latch cf Hcf r) as El. unfold own_latch in El. rewrite El.
      by do 2 eexists.
  - intros r. simpl. unfold store_retention_threshold_latch, transaction.
    destruct Hown as [Hn|[r' Hr]]; simpl in *; unfold query, mbind, execute.
    + rewrite Hn. by eexists.
    + rewrite Hr. simpl. rewrite bool_decide_true, Z.eqb_refl by done. simpl. by eexists.
Qed.

Definition demo_thresholds : StorageThresholds := mkThresholds 10 20 5 1.

Definition demo_config : MonitorConfig :=
  mkConfig (u "ABCD-1234") (u "179:1") 1000 (mkResolved 100 200 1) 3 true.

Lemma demo_monitor_new :
  StorageThresholds_new 10 20 5 1 = Ok demo_thresholds /\
  StorageSpaceMonitor_new (u "ABCD-1234") (u "179:1") 1000 demo_thresholds 3 true = Ok (fresh demo_config).
Proof. split; vm_compute; reflexivity. Qed.

Lemma demo_config_ok : config_ok demo_config.
Proof. destruct demo_monitor_new as [Ht Hm]. exact (proj2 (monitor_new_ok _ _ _ _ _ _ _ _ _ _ _ Ht Hm)). Qed.

(** Low, still low, a restart, still below the stop threshold. *)
Definition demo_history : list healthy_call := [Sample 50 1; Sample 120 2; Reboot; Sample 150 3].

Lemma demo_history_in_range : Forall (call_in_range demo_config) demo_history.
Proof. repeat constructor; vm_compute; discriminate. Qed.

(** The demo history ends in RECLAIMING, with the reclaim bit stored. *)
Lemma demo_history_end :
  let r := run_space (map (concrete demo_config) demo_history) (fresh demo_config) demo_start in
  s_mode (m_last (fst r)) = Some RECLAIMING /\ reclaim_bit (snd r) = true.
Proof. split; vm_compute; reflexivity. Qed.

Lemma published_mode_is_durable_witness :
  reclaim_bit (snd (run_space (map (concrete demo_config) demo_history) (fresh demo_config) demo_start)) = true.
Proof.
  destruct demo_monitor_new as [Ht Hm]. pose proof (proj1 demo_history_end) as Hmode.
  pose proof (published_mode_is_durable (St := DemoWorld) _ _ _ _ _ _ _ _ _ _ _ demo_start
                (map (concrete demo_config) demo_history) NoSpace Ht Hm) as Hd.
  cbv zeta in Hmode. destruct (run_space _ _ demo_start) as [m s]. destruct Hd as [_ Hd].
  specialize (Hd RECLAIMING Hmode). unfold reclaim_bit. cbn [snd].
  destruct (durable s) as [l|]; [|discriminate Hd]. apply Hd. discriminate.
Defined.

Lemma hysteresis_survives_restarts_witness :
  latched (mkResolved 100 200 1) false (flat_map call_events demo_history).
Proof.
  destruct demo_monitor_new as [Ht Hm]. pose proof (proj2 demo_history_end) as Hend.
  pose proof (hysteresis_survives_restarts (St := DemoWorld) _ _ _ _ _ _ _ _ _ _ _ demo_start demo_history
                Ht Hm (catalog_store_healthy demo_config demo_config_ok) eq_refl demo_history_in_range) as Hh.
  cbv zeta in Hend. change (m_config (fresh demo_config)) with demo_config in Hh.
  destruct (run_space _ _ demo_start) as [m s]. destruct Hh as (_ & Hbit & _). exact (proj1 Hbit Hend).
Defined.

Lemma sample_publishes_policy_witness :
  let r := run_space (map (concrete demo_config) demo_history) (fresh demo_config) demo_start in
  s_consecutive_observation_failures
    (m_last (fst (snd (run_space_call (concrete demo_config (Sample 160 4)) (fst r) (snd r))))) = 0.
Proof.
  destruct demo_monitor_new as [Ht Hm].
  assert (Hf : 0 <= 160 <= 1000) by lia.
  pose proof (sample_publishes_policy (St := DemoWorld) _ _ _ _ _ _ _ _ _ _ _ demo_start demo_history 160 4
                Ht Hm (catalog_store_healthy demo_config demo_config_ok) eq_refl demo_history_in_range Hf) as Hp.
  cbv zeta in *. change (m_config (fresh demo_config)) with demo_config in Hp.
  destruct (run_space _ _ demo_start) as [m s]. destruct Hp as (_ & _ & _ & Hk & _). exact Hk.
Defined.

(** The card was exchanged for one of another size. *)
Definition exchanged : list space_call :=
  [Observe (Ok (sample_of demo_config 50)) 1; Observe (Ok (mkObservation (u "179:1") 2000 900)) 2].

Lemma latched_fault_is_final_witness :
  s_fault (m_last (fst (run_space ([Observe (Ok (sample_of demo_config 900)) 3] ++
     [Observe (Ok (sample_of demo_config 900)) 4])
     (fst (run_space exchanged (fresh demo_config) demo_start))
     (snd (run_space exchanged (fresh demo_config) demo_start))))) = Some CAPACITY_DRIFT.
Proof.
  destruct demo_monitor_new as [Ht Hm].
  assert (Hf : m_latched_fault (fst (run_space exchanged (fresh demo_config) demo_start))
               = Some CAPACITY_DRIFT) by (vm_compute; reflexivity).
  pose proof (latched_fault_is_final (St := DemoWorld) _ _ _ _ _ _ _ _ _ _ _ demo_start exchanged
    [Observe (Ok (sample_of demo_config 900)) 3] (Observe (Ok (sample_of demo_config 900)) 4) _ Ht Hm Hf) as Hl.
  destruct (run_space exchanged (fresh demo_config) demo_start) as [m s]. cbn [fst snd].
  destruct (run_space _ m s) as [m' s']. cbn [fst snd].
  destruct Hl as (_ & _ & Hns); [repeat constructor; discriminate|].
  destruct Hns as (_ & Hfault & _); [repeat constructor; discriminate|exact Hfault].
Defined.

Lemma missing_observations_expire_witness :
  let sn := m_last (fst (run_space (map (fun o => Observe o 5) [Err (Exn OSError "stat"); Err (Exn OSError "stat");
                                       Ok (mkObservation (u "x") 1 1)]) (fresh demo_config) demo_start)) in
  s_fault sn = Some OBSERVATION_STALE /\ s_stop_required sn = true.
Proof.
  pose proof (missing_observations_expire (St := DemoWorld) (fresh demo_config) demo_start
    [Err (Exn OSError "stat"); Err (Exn OSError "stat")] (Ok (mkObservation (u "x") 1 1)) 5 eq_refl eq_refl) as Hm.
  cbn [app] in Hm. cbv zeta in *. destruct (run_space _ _ demo_start) as [m s]. cbn [fst].
  destruct Hm as (_ & _ & _ & _ & _ & _ & _ & Hend); [|exact Hend].
  repeat constructor.
Defined.

Lemma device_id_roundtrip_witness :
  validate_device_id (decimal 179 ++ u ":" ++ decimal 1) = Ok (u "179:1").
Proof. refine (proj1 (device_id_roundtrip 179 1 _ _)); vm_compute; split; congruence. Defined.
