(* ===== verification/Segmenter.v ===== *)
(** * Segmentation and bounded finalization ([src/dashcam/recorder/segmenter.py])

    The boundary policy, the bounded finalization queue with its worker task, and the segmenter
    that rotates outputs. A coroutine is cut at its awaits: the part before is one step, the
    part after another, so that the worker, the closing of the queue and the segmenter
    interleave. What an awaited backend or finalizer answers is an argument of the later step. *)

From Stdlib Require Import Ascii String ZArith Lia Floats.SpecFloat.
From stdpp Require Import base list strings.
From S2P Require Import Prelude PyStr.

(** ** Boundary policy *)

Record AccessUnit := mkUnit {
  timestamp_ns : Z;
  is_idr : bool;
  closed_gop : bool;
  has_decoder_config : bool
}.

Definition AccessUnit_new (x : AccessUnit) : result AccessUnit :=
  raise_if timestamp_ns x <? 0
    as ValueError msg "timestamp_ns must be a non-negative monotonic timestamp" ;; Ok x.

Definition independently_decodable (x : AccessUnit) : bool :=
  is_idr x && closed_gop x && has_decoder_config x.

Inductive ClipPosition := FIRST | MIDDLE | FINAL.

Inductive BoundaryDecision := WAIT | REQUEST_IDR | SPLIT | FAULT.

#[export] Instance BoundaryDecision_eq_dec : EqDecision BoundaryDecision.
Proof. solve_decision. Defined.

Record SegmentBoundaryPolicy := mkPolicy {
  target_duration_ns : Z;
  minimum_normal_duration_ns : Z;
  maximum_normal_duration_ns : Z;
  request_lead_ns : Z
}.

Definition SegmentBoundaryPolicy_new (p : SegmentBoundaryPolicy) : result SegmentBoundaryPolicy :=
  raise_if negb ((0 <? minimum_normal_duration_ns p)
                 && (minimum_normal_duration_ns p <=? target_duration_ns p)
                 && (target_duration_ns p <=? maximum_normal_duration_ns p))
    as ValueError msg "normal segment bounds must contain the target duration" ;;
  raise_if negb ((0 <=? request_lead_ns p) && (request_lead_ns p <=? target_duration_ns p))
    as ValueError msg "request_lead_ns must be between zero and the target duration" ;;
  Ok p.

Definition default_policy : SegmentBoundaryPolicy :=
  mkPolicy 60000000000 59000000000 61000000000 1000000000.

Definition duration_allowed (self : SegmentBoundaryPolicy) (duration_ns : Z) (position : ClipPosition)
    : result bool :=
  raise_if duration_ns <? 0 as ValueError msg "duration_ns must be a non-negative integer" ;;
  Ok (match position with
      | MIDDLE => (minimum_normal_duration_ns self <=? duration_ns)
                  && (duration_ns <=? maximum_normal_duration_ns self)
      | _ => duration_ns <=? maximum_normal_duration_ns self
      end).

Definition decide (self : SegmentBoundaryPolicy) (segment_start_ns : Z) (x : AccessUnit)
    : result BoundaryDecision :=
  raise_if segment_start_ns <? 0 as ValueError msg "segment_start_ns must be a non-negative integer" ;;
  raise_if timestamp_ns x <? segment_start_ns
    as SegmentContractError msg "access-unit timestamp regressed before segment start" ;;
  let duration_ns := timestamp_ns x - segment_start_ns in
  Ok (if duration_ns <? minimum_normal_duration_ns self then WAIT
      else if maximum_normal_duration_ns self <? duration_ns then FAULT
      else if independently_decodable x then SPLIT
      else if maximum_normal_duration_ns self <=? duration_ns then FAULT
      else if target_duration_ns self - request_lead_ns self <=? duration_ns then REQUEST_IDR
      else WAIT).

Record SegmentArtifact := mkArtifact {
  a_clip_id : str;
  a_start_timestamp_ns : Z;
  a_end_timestamp_ns : Z;
  a_token : str
}.

Definition SegmentArtifact_new (a : SegmentArtifact) : result SegmentArtifact :=
  raise_if bool_decide (a_clip_id a = []) || (128 <? len (a_clip_id a)) || negb (isprintable (a_clip_id a))
    as ValueError msg "clip_id must be 1 to 128 printable characters" ;;
  raise_if bool_decide (a_token a = []) || (512 <? len (a_token a)) || negb (isprintable (a_token a))
    as ValueError msg "token must be 1 to 512 printable characters" ;;
  raise_if (a_start_timestamp_ns a <? 0) || (a_end_timestamp_ns a <=? a_start_timestamp_ns a)
    as ValueError msg "artifact end timestamp must be after its non-negative start" ;;
  Ok a.

(** ** The finalization queue *)

Inductive FinalizationState := QNEW | QRUNNING | QDEGRADED | QCLOSED.

#[export] Instance FinalizationState_eq_dec : EqDecision FinalizationState.
Proof. solve_decision. Defined.

Record FinalizationCloseResult := mkCloseResult {
  drained : bool;
  cr_outstanding : Z;
  cr_failed_count : Z
}.

(** [q_busy] is the artifact the worker task is finalizing, [q_worker] whether the task runs;
    the unfinished tasks of the [asyncio.Queue] are its items and the busy one. *)
Record FinalizationQueue := mkQueue {
  q_capacity : Z;
  q_items : list SegmentArtifact;
  q_busy : option SegmentArtifact;
  q_worker : bool;
  q_outstanding : Z;
  q_failed_count : Z;
  q_last_failure : option str;
  q_accepting : bool;
  q_state : FinalizationState
}.

Definition FinalizationQueue_new (capacity : Z) : result FinalizationQueue :=
  raise_if negb ((1 <=? capacity) && (capacity <=? 64))
    as ValueError msg "capacity must be an integer between 1 and 64" ;;
  Ok (mkQueue capacity [] None false 0 0 None false QNEW).

Definition with_outstanding (n : Z) (q : FinalizationQueue) : FinalizationQueue :=
  mkQueue (q_capacity q) (q_items q) (q_busy q) (q_worker q) n (q_failed_count q) (q_last_failure q)
    (q_accepting q) (q_state q).

Definition start (q : FinalizationQueue) : result unit * FinalizationQueue :=
  if negb (bool_decide (q_state q = QNEW)) then
    (Err (Exn RuntimeError "finalization queue is single-use"), q)
  else
    (Ok tt, mkQueue (q_capacity q) (q_items q) (q_busy q) true (q_outstanding q) (q_failed_count q)
              (q_last_failure q) true QRUNNING).

Definition reserve (q : FinalizationQueue) : bool * FinalizationQueue :=
  if negb (q_accepting q) || (q_capacity q <=? q_outstanding q) then (false, q)
  else (true, with_outstanding (q_outstanding q + 1) q).

Definition cancel_reservation (q : FinalizationQueue) : result unit * FinalizationQueue :=
  if q_outstanding q <=? 0 then
    (Err (Exn SegmentContractError "no finalization reservation exists"), q)
  else (Ok tt, with_outstanding (q_outstanding q - 1) q).

(** Give the reservation back and raise. *)
Definition cancel_and_raise (m : string) (q : FinalizationQueue) : result unit * FinalizationQueue :=
  let '(r, q') := cancel_reservation q in
  ((let! _ := r in Err (Exn SegmentContractError m)), q').

Definition submit_reserved (a : SegmentArtifact) (q : FinalizationQueue) : result unit * FinalizationQueue :=
  if negb (q_accepting q) then cancel_and_raise "finalization queue is not accepting work" q
  else if q_capacity q <=? Z.of_nat (length (q_items q)) then
    cancel_and_raise "reserved finalization queue unexpectedly filled" q
  else
    (Ok tt, mkQueue (q_capacity q) (q_items q ++ [a]) (q_busy q) (q_worker q) (q_outstanding q)
              (q_failed_count q) (q_last_failure q) (q_accepting q) (q_state q)).

Definition try_submit (a : SegmentArtifact) (q : FinalizationQueue) : result bool * FinalizationQueue :=
  let '(ok, q1) := reserve q in
  if negb ok then (Ok false, q1)
  else let '(r, q2) := submit_reserved a q1 in ((let! _ := r in Ok true), q2).

(** [_run]: [await self._queue.get()] returned the head item. *)
Definition worker_take (q : FinalizationQueue) : option (SegmentArtifact * FinalizationQueue) :=
  match q_worker q, q_busy q, q_items q with
  | true, None, a :: rest =>
      Some (a, mkQueue (q_capacity q) rest (Some a) true (q_outstanding q) (q_failed_count q)
                 (q_last_failure q) (q_accepting q) (q_state q))
  | _, _, _ => None
  end.

(** [str.splitlines], without the line ends. *)
Definition line_end (c : ascii) : bool :=
  in_range 10 13 c || in_range 28 30 c || (ord c =? 133).

Fixpoint splitlines (s : str) : list str :=
  match s with
  | [] => []
  | c :: rest =>
      if line_end c then
        [] :: match rest with
              | d :: rest' => if (ord c =? 13) && (ord d =? 10) then splitlines rest' else splitlines rest
              | [] => []
              end
      else match splitlines rest with
           | [] => [[c]]
           | l :: ls => (c :: l) :: ls
           end
  end.

(** An exception of the finalizer: its class name and its text. *)
Record Failure := mkFailure { f_type : str; f_text : str }.

Definition failure_detail (e : Failure) : str :=
  let raw := f_type e ++ u ": " ++ f_text e in
  let cleaned := map (fun c => if ord c =? 0 then " "%char else c) raw in
  let detail := take 512 (join_with " "%char (splitlines cleaned)) in
  if bool_decide (detail = []) then f_type e else detail.

(** [_run]: the finalizer returned, or raised an exception the worker contains. *)
Definition worker_finish (outcome : option Failure) (q : FinalizationQueue) : option FinalizationQueue :=
  match q_worker q, q_busy q with
  | true, Some _ =>
      Some (match outcome with
            | None => mkQueue (q_capacity q) (q_items q) None true (q_outstanding q - 1)
                        (q_failed_count q) (q_last_failure q) (q_accepting q) (q_state q)
            | Some e => mkQueue (q_capacity q) (q_items q) None true (q_outstanding q - 1)
                          (q_failed_count q + 1) (Some (failure_detail e)) (q_accepting q) QDEGRADED
            end)
  | _, _ => None
  end.

Definition float_of_Z (z : Z) : spec_float := binary_normalize 53 1024 z 0 false.

(** [close], up to the wait for the queue. *)
Definition close_begin (drain_timeout_s : spec_float) (q : FinalizationQueue)
    : result unit * FinalizationQueue :=
  if negb (SFltb (float_of_Z 0) drain_timeout_s && SFleb drain_timeout_s (float_of_Z 300)) then
    (Err (Exn ValueError "drain_timeout_s must be greater than zero and at most 300"), q)
  else if bool_decide (q_state q = QNEW) then
    (Err (Exn RuntimeError "finalization queue was not started"), q)
  else if bool_decide (q_state q = QCLOSED) then
    (Err (Exn RuntimeError "finalization queue is already closed"), q)
  else
    (Ok tt, mkQueue (q_capacity q) (q_items q) (q_busy q) (q_worker q) (q_outstanding q)
              (q_failed_count q) (q_last_failure q) false (q_state q)).

(** [join()] is done when no task is unfinished. *)
Definition joined (q : FinalizationQueue) : bool :=
  bool_decide (q_items q = []) && bool_decide (q_busy q = None).

(** [close], from the end of the wait: the worker is cancelled, and its [finally] gives the slot
    of an interrupted finalization back. *)
Definition close_end (was_drained : bool) (q : FinalizationQueue) : FinalizationCloseResult * FinalizationQueue :=
  let outstanding := match q_busy q with Some _ => q_outstanding q - 1 | None => q_outstanding q end in
  (mkCloseResult was_drained outstanding (q_failed_count q),
   mkQueue (q_capacity q) (q_items q) None false outstanding (q_failed_count q) (q_last_failure q)
     (q_accepting q) QCLOSED).

(** ** The segmenter *)

Inductive SegmentAction :=
  | ANONE | IDR_REQUESTED | ROTATED | FINALIZED_ACTIVE | FINALIZER_OVERLOAD | BOUNDARY_FAULT | OUTPUT_FAULT.

Record SegmentOutcome := mkOutcome {
  action : SegmentAction;
  artifact : option SegmentArtifact;
  detail : option str
}.

(** What a suspended call of the segmenter waits for. *)
Inductive Waiting := WaitIdr | WaitRotate (x : AccessUnit) | WaitClose.

Record ContinuousSegmenter := mkSegmenter {
  segment_start_ns : Z;
  policy : SegmentBoundaryPolicy;
  idr_requested : bool;
  faulted : bool;
  closed : bool
}.

Definition ContinuousSegmenter_new (start_ns : Z) (p : option SegmentBoundaryPolicy)
    : result ContinuousSegmenter :=
  raise_if start_ns <? 0 as ValueError msg "segment_start_ns must be a non-negative integer" ;;
  Ok (mkSegmenter start_ns (match p with Some p => p | None => default_policy end) false false false).

Definition set_faulted (g : ContinuousSegmenter) : ContinuousSegmenter :=
  mkSegmenter (segment_start_ns g) (policy g) (idr_requested g) true (closed g).

Definition outcome (a : SegmentAction) : SegmentOutcome := mkOutcome a None None.
Definition fault_outcome (a : SegmentAction) (m : string) : SegmentOutcome := mkOutcome a None (Some (u m)).

(** The result of the first part of a call: an exception, an outcome, or a wait. *)
Inductive Reply := Raised (e : exn) | Returned (o : SegmentOutcome) | Suspended (w : Waiting).

Definition usable (g : ContinuousSegmenter) (already : string) : result unit :=
  raise_if closed g as SegmentContractError msg already ;;
  raise_if faulted g as SegmentContractError msg "segmenter is faulted" ;; Ok tt.

(** Take a slot before the output is rotated or closed. *)
Definition reserve_slot (w : Waiting) (g : ContinuousSegmenter) (q : FinalizationQueue)
    : Reply * (ContinuousSegmenter * FinalizationQueue) :=
  let '(ok, q') := reserve q in
  if negb ok then
    (Returned (fault_outcome FINALIZER_OVERLOAD "bounded finalization capacity is exhausted"),
     (set_faulted g, q'))
  else (Suspended w, (g, q')).

Definition observe_begin (x : AccessUnit) (g : ContinuousSegmenter) (q : FinalizationQueue)
    : Reply * (ContinuousSegmenter * FinalizationQueue) :=
  match (let! _ := usable g "segmenter is closed" in decide (policy g) (segment_start_ns g) x) with
  | Err e => (Raised e, (g, q))
  | Ok WAIT => (Returned (outcome ANONE), (g, q))
  | Ok REQUEST_IDR =>
      if idr_requested g then (Returned (outcome ANONE), (g, q)) else (Suspended WaitIdr, (g, q))
  | Ok FAULT =>
      (Returned (fault_outcome BOUNDARY_FAULT
                   "no closed-GOP IDR with decoder configuration arrived within the bound"),
       (set_faulted g, q))
  | Ok SPLIT => reserve_slot (WaitRotate x) g q
  end.

Definition close_segmenter_begin (final_timestamp_ns : Z) (g : ContinuousSegmenter) (q : FinalizationQueue)
    : Reply * (ContinuousSegmenter * FinalizationQueue) :=
  match (let! _ := usable g "segmenter is already closed" in
         raise_if final_timestamp_ns <? segment_start_ns g
           as ValueError msg "final_timestamp_ns must not precede the active segment" ;;
         duration_allowed (policy g) (final_timestamp_ns - segment_start_ns g) FINAL) with
  | Err e => (Raised e, (g, q))
  | Ok false =>
      (Returned (fault_outcome BOUNDARY_FAULT "final clip exceeds the maximum segment-duration bound"),
       (set_faulted g, q))
  | Ok true => reserve_slot WaitClose g q
  end.

(** The output backend raised: the reservation, if one was taken, is given back. *)
Definition output_fault (reserved : bool) (text : str) (g : ContinuousSegmenter) (q : FinalizationQueue)
    : Reply * (ContinuousSegmenter * FinalizationQueue) :=
  let '(r, q') := if reserved then cancel_reservation q else (Ok tt, q) in
  match r with
  | Err e => (Raised e, (g, q'))
  | Ok _ => (Returned (mkOutcome OUTPUT_FAULT None (Some (take 512 text))), (set_faulted g, q'))
  end.

(** The answer of the output backend: the new artifact, or the text of an exception. *)
Definition backend_returned (w : Waiting) (answer : SegmentArtifact + str) (g : ContinuousSegmenter)
    (q : FinalizationQueue) : Reply * (ContinuousSegmenter * FinalizationQueue) :=
  match w, answer with
  | WaitIdr, inr text => output_fault false text g q
  | WaitIdr, inl _ =>
      (Returned (outcome IDR_REQUESTED),
       (mkSegmenter (segment_start_ns g) (policy g) true (faulted g) (closed g), q))
  | WaitRotate _, inr text | WaitClose, inr text => output_fault true text g q
  | WaitRotate x, inl a =>
      let '(r, q') := submit_reserved a q in
      match r with
      | Err e => (Raised e, (g, q'))
      | Ok _ => (Returned (mkOutcome ROTATED (Some a) None),
                 (mkSegmenter (timestamp_ns x) (policy g) false (faulted g) (closed g), q'))
      end
  | WaitClose, inl a =>
      let '(r, q') := submit_reserved a q in
      match r with
      | Err e => (Raised e, (g, q'))
      | Ok _ => (Returned (mkOutcome FINALIZED_ACTIVE (Some a) None),
                 (mkSegmenter (segment_start_ns g) (policy g) (idr_requested g) (faulted g) true, q'))
      end
  end.
