(* ===== verification/SegmenterProperties.v ===== *)
(** * Segmentation properties

    The segmenter, the queue, its worker and its closing as one interleaved system: slots are
    accounted for exactly, segments are finalized once and in order, boundaries keep to the
    policy, and a healthy worker drains the queue. *)

From Stdlib Require Import Ascii String ZArith Lia Floats.SpecFloat.
From stdpp Require Import base list strings.
From S2P Require Import Prelude PyStr Segmenter.

(** ** The system *)

(** The callers of the segmenter await each call before the next. [y_submitted] and [y_taken]
    record the artifacts put in the queue and those the finalizer was called with, [y_segments]
    the start and boundary of each rotated segment. *)
Record System := mkSystem {
  y_segmenter : ContinuousSegmenter;
  y_queue : FinalizationQueue;
  y_waiting : option Waiting;
  y_draining : bool;
  y_submitted : list SegmentArtifact;
  y_taken : list SegmentArtifact;
  y_segments : list (Z * AccessUnit)
}.

Definition initial (g : ContinuousSegmenter) (q : FinalizationQueue) : System :=
  mkSystem g q None false [] [] [].

Inductive system_event :=
  | Start
  | Take
  | Finish (o : option Failure)
  | Observe (x : AccessUnit)
  | CloseSegmenter (final_timestamp_ns : Z)
  | Backend (answer : SegmentArtifact + str)
  | CloseQueue (drain_timeout_s : spec_float)
  | QueueClosed (was_drained : bool).

Definition with_queue (q : FinalizationQueue) (y : System) : System :=
  mkSystem (y_segmenter y) q (y_waiting y) (y_draining y) (y_submitted y) (y_taken y) (y_segments y).

(** The segmenter's step: its new state, and whether it now waits. *)
Definition after_reply (r : Reply) (gq : ContinuousSegmenter * FinalizationQueue) (y : System) : System :=
  mkSystem (fst gq) (snd gq) (match r with Suspended w => Some w | _ => None end) (y_draining y)
    (y_submitted y) (y_taken y) (y_segments y).

(** A submitted artifact, and the segment it closes when the output was rotated. *)
Definition record_artifact (r : Reply) (w : Waiting) (start_ns : Z) (y : System) : System :=
  match r with
  | Returned (mkOutcome _ (Some a) _) =>
      mkSystem (y_segmenter y) (y_queue y) (y_waiting y) (y_draining y) (y_submitted y ++ [a]) (y_taken y)
        (match w with WaitRotate x => y_segments y ++ [(start_ns, x)] | _ => y_segments y end)
  | _ => y
  end.

(** [None]: the event cannot happen in this state. *)
Definition step (e : system_event) (y : System) : option (System * option Reply) :=
  match e with
  | Start => let '(_, q) := start (y_queue y) in Some (with_queue q y, None)
  | Take =>
      match worker_take (y_queue y) with
      | Some (a, q) =>
          Some (mkSystem (y_segmenter y) q (y_waiting y) (y_draining y) (y_submitted y) (y_taken y ++ [a])
                  (y_segments y), None)
      | None => None
      end
  | Finish o =>
      match worker_finish o (y_queue y) with Some q => Some (with_queue q y, None) | None => None end
  | Observe x =>
      match y_waiting y with
      | Some _ => None
      | None => let '(r, gq) := observe_begin x (y_segmenter y) (y_queue y) in
                Some (after_reply r gq y, Some r)
      end
  | CloseSegmenter t =>
      match y_waiting y with
      | Some _ => None
      | None => let '(r, gq) := close_segmenter_begin t (y_segmenter y) (y_queue y) in
                Some (after_reply r gq y, Some r)
      end
  | Backend answer =>
      match y_waiting y with
      | None => None
      | Some w =>
          let '(r, gq) := backend_returned w answer (y_segmenter y) (y_queue y) in
          Some (record_artifact r w (segment_start_ns (y_segmenter y)) (after_reply r gq y), Some r)
      end
  | CloseQueue t =>
      let '(r, q) := close_begin t (y_queue y) in
      Some (mkSystem (y_segmenter y) q (y_waiting y) (y_draining y || is_ok r) (y_submitted y) (y_taken y)
              (y_segments y), None)
  | QueueClosed d =>
      if y_draining y && implb d (joined (y_queue y)) then
        let '(_, q) := close_end d (y_queue y) in
        Some (mkSystem (y_segmenter y) q (y_waiting y) false (y_submitted y) (y_taken y) (y_segments y), None)
      else None
  end.

(** A policy and a queue the constructors accepted, and everything that can happen to them. *)
Inductive reachable : System -> Prop :=
  | reach_initial g q start_ns p capacity :
      ContinuousSegmenter_new start_ns p = Ok g -> FinalizationQueue_new capacity = Ok q ->
      reachable (initial g q)
  | reach_step y e y' r : reachable y -> step e y = Some (y', r) -> reachable y'.

(** ** The invariant *)

Definition busy_count (q : FinalizationQueue) : Z := match q_busy q with Some _ => 1 | None => 0 end.

(** Reservations taken and not yet submitted. *)
Definition held_count (w : option Waiting) : Z :=
  match w with Some (WaitRotate _) | Some WaitClose => 1 | _ => 0 end.

Record queue_inv (q : FinalizationQueue) (w : option Waiting) : Prop := mkQueueInv {
  qi_slots : q_outstanding q = Z.of_nat (length (q_items q)) + busy_count q + held_count w;
  qi_bound : q_outstanding q <= q_capacity q;
  qi_worker : q_accepting q = true -> q_worker q = true /\ q_state q <> QCLOSED /\ q_state q <> QNEW;
  qi_new : q_state q = QNEW -> q_outstanding q = 0 /\ q_busy q = None;
  qi_closed : q_state q = QCLOSED -> q_worker q = false /\ q_busy q = None
}.

(** Consecutive segments within the policy, ending at the active segment's start. *)
Fixpoint segments_ok (p : SegmentBoundaryPolicy) (l : list (Z * AccessUnit)) (last : Z) : Prop :=
  match l with
  | [] => True
  | (s, x) :: rest =>
      independently_decodable x = true /\
      minimum_normal_duration_ns p <= timestamp_ns x - s <= maximum_normal_duration_ns p /\
      (match rest with [] => last = timestamp_ns x | (s', _) :: _ => s' = timestamp_ns x end) /\
      segments_ok p rest last
  end.

Definition waiting_ok (g : ContinuousSegmenter) (w : option Waiting) : Prop :=
  match w with
  | Some (WaitRotate x) =>
      independently_decodable x = true /\
      minimum_normal_duration_ns (policy g) <= timestamp_ns x - segment_start_ns g
        <= maximum_normal_duration_ns (policy g)
  | _ => True
  end.

Record system_inv (y : System) : Prop := mkSystemInv {
  si_queue : queue_inv (y_queue y) (y_waiting y);
  si_order : y_submitted y = y_taken y ++ q_items (y_queue y);
  si_waiting : waiting_ok (y_segmenter y) (y_waiting y);
  si_segments : segments_ok (policy (y_segmenter y)) (y_segments y) (segment_start_ns (y_segmenter y));
  si_draining : y_draining y = true -> q_accepting (y_queue y) = false /\ q_state (y_queue y) <> QNEW
}.

(** Slots come and go without a change of mode. *)
Definition same_mode (q q' : FinalizationQueue) : Prop :=
  q_accepting q' = q_accepting q /\ q_state q' = q_state q.

Lemma reserve_inv q w ok q' :
  queue_inv q w -> held_count w = 0 -> reserve q = (ok, q') ->
  q_items q' = q_items q /\ same_mode q q' /\
  if ok then forall w', held_count (Some w') = 1 -> queue_inv q' (Some w') else q' = q.
Proof.
  intros [Hs Hb Hw Hn Hc] Hh. unfold reserve. destruct (q_accepting q) eqn:Ha; simpl; [|by intros [= <- <-]].
  destruct (q_capacity q <=? q_outstanding q) eqn:E; bool_prop; intros [= <- <-]; [done|].
  split; [done|]. split; [done|]. intros w' Hw'. destruct (Hw eq_refl) as (? & ? & ?).
  split; simpl; [unfold busy_count in *; simpl in *; lia|lia|by auto|by intros ?|done].
Qed.

Lemma cancel_inv q w q' r :
  queue_inv q w -> held_count w = 1 -> cancel_reservation q = (r, q') ->
  r = Ok tt /\ queue_inv q' None /\ q_items q' = q_items q /\ same_mode q q'.
Proof.
  intros [Hs Hb Hw Hn Hc] Hh. unfold cancel_reservation.
  assert (1 <= q_outstanding q) by (rewrite Hs, Hh; unfold busy_count; destruct (q_busy q); lia).
  replace (q_outstanding q <=? 0) with false by lia. intros [= <- <-].
  split; [done|]. split; [|done]. unfold busy_count in *.
  split; simpl; [unfold busy_count; simpl; lia|lia|by auto| |done]. intros Hnew. apply Hn in Hnew as [? _]. lia.
Qed.

Lemma submit_inv q w a q' r :
  queue_inv q w -> held_count w = 1 -> submit_reserved a q = (r, q') ->
  queue_inv q' None /\ same_mode q q' /\
  match r with
  | Ok _ => q_items q' = q_items q ++ [a]
  | Err e => q_items q' = q_items q /\ q_accepting q = false /\
             e = Exn SegmentContractError "finalization queue is not accepting work"
  end.
Proof.
  intros Hq Hh. unfold submit_reserved. destruct (q_accepting q) eqn:Ha; simpl.
  - destruct Hq as [Hs Hb Hw Hn Hc].
    assert (Z.of_nat (length (q_items q)) < q_capacity q).
    { unfold busy_count in Hs. destruct (q_busy q); lia. }
    replace (q_capacity q <=? Z.of_nat (length (q_items q))) with false by lia.
    intros [= <- <-]. split; [|by split]. unfold busy_count in Hs.
    split; simpl; [unfold busy_count; simpl; rewrite length_app; simpl; lia|done|by auto| |done].
    intros Hnew. by destruct (Hw Ha) as (_ & _ & ?).
  - unfold cancel_and_raise. destruct (cancel_reservation q) as [rc qc] eqn:E.
    destruct (cancel_inv _ _ _ _ Hq Hh E) as (-> & Hq' & Hi & Hsm). intros [= <- <-]. by split_and!.
Qed.

Lemma decide_split p s x :
  decide p s x = Ok SPLIT ->
  independently_decodable x = true /\
  minimum_normal_duration_ns p <= timestamp_ns x - s <= maximum_normal_duration_ns p.
Proof.
  unfold decide. intros H. inv_ok. bool_prop.
  destruct (_ <? minimum_normal_duration_ns p) eqn:E1; [done|].
  destruct (maximum_normal_duration_ns p <? _) eqn:E2; [done|].
  destruct (independently_decodable x); [bool_prop; by split; [|lia]|].
  by repeat (destruct (_ <=? _); try discriminate).
Qed.

Lemma segments_ok_snoc p l last s x :
  segments_ok p l s -> s = last -> independently_decodable x = true ->
  minimum_normal_duration_ns p <= timestamp_ns x - s <= maximum_normal_duration_ns p ->
  segments_ok p (l ++ [(s, x)]) (timestamp_ns x).
Proof.
  intros Hl <- Hd Hm. induction l as [|[s0 x0] l IH]; simpl; [done|].
  destruct Hl as (? & ? & Hnext & Hrest). specialize (IH Hrest). destruct l as [|[s1 x1] l]; simpl in *; done.
Qed.

(** ** Every step keeps it *)

Lemma observe_begin_cases x g q r gq :
  observe_begin x g q = (r, gq) ->
  (gq = (g, q) /\ match r with Suspended w => w = WaitIdr | _ => True end) \/
  (gq = (set_faulted g, q) /\ exists o, r = Returned o /\ artifact o = None) \/
  (decide (policy g) (segment_start_ns g) x = Ok SPLIT /\ reserve_slot (WaitRotate x) g q = (r, gq)).
Proof.
  unfold observe_begin. destruct (usable g "segmenter is closed") as [[]|e]; simpl;
    [|intros [= <- <-]; by left].
  destruct (decide (policy g) (segment_start_ns g) x) as [[| | |]|e] eqn:E; try (intros [= <- <-]; by left).
  - destruct (idr_requested g); intros [= <- <-]; by left.
  - intros Hr. right. right. done.
  - intros [= <- <-]. right. left. split; [done|]. by eexists.
Qed.

Lemma reserve_slot_inv w0 w g q r g' q' :
  queue_inv q w0 -> held_count w0 = 0 -> held_count (Some w) = 1 -> reserve_slot w g q = (r, (g', q')) ->
  q_items q' = q_items q /\ same_mode q q' /\
  ((r = Suspended w /\ g' = g /\ queue_inv q' (Some w)) \/
   (exists o, r = Returned o /\ artifact o = None /\ g' = set_faulted g /\ q' = q)).
Proof.
  intros Hq Hh Hw. unfold reserve_slot. destruct (reserve q) as [ok q1] eqn:E.
  destruct (reserve_inv _ _ _ _ Hq Hh E) as (Hi & Hsm & Hok). destruct ok; simpl; intros [= <- <- <-].
  - do 2 (split; [done|]). left. auto.
  - do 2 (split; [done|]). right. subst q1. by eexists.
Qed.

Lemma queue_inv_held q w w' : queue_inv q w -> held_count w' = held_count w -> queue_inv q w'.
Proof. intros [Hs Hb Hw Hn Hc] E. split; [by rewrite E|done..]. Qed.

Lemma draining_same q q' (P : Prop) :
  same_mode q q' -> (P -> q_accepting q = false /\ q_state q <> QNEW) ->
  P -> q_accepting q' = false /\ q_state q' <> QNEW.
Proof. intros [-> ->]. done. Qed.

(** The first part of a call keeps the invariant. *)
Lemma begin_inv y w r g' q' :
  system_inv y -> y_waiting y = None ->
  ((g' = y_segmenter y /\ q' = y_queue y /\ match r with Suspended w => w = WaitIdr | _ => True end) \/
   (g' = set_faulted (y_segmenter y) /\ q' = y_queue y /\ exists o, r = Returned o /\ artifact o = None) \/
   (held_count (Some w) = 1 /\ waiting_ok (y_segmenter y) (Some w) /\
    reserve_slot w (y_segmenter y) (y_queue y) = (r, (g', q')))) ->
  system_inv (after_reply r (g', q') y).
Proof.
  intros [Hq Ho Hw Hs Hd] Hn. rewrite Hn in Hq.
  intros [(-> & -> & Hr)|[(-> & -> & o & -> & _)|(Hh & Hwo & Hr)]].
  - destruct r; split; simpl; try done; subst; try done. by eapply queue_inv_held.
  - by split.
  - destruct (reserve_slot_inv _ _ _ _ _ _ _ Hq eq_refl Hh Hr)
      as (Hi & Hsm & [(-> & -> & Hq')|(o & -> & _ & -> & ->)]); split; simpl; try done;
      [by rewrite Hi|by eapply draining_same].
Qed.

Lemma backend_inv y w answer r g' q' :
  system_inv y -> y_waiting y = Some w ->
  backend_returned w answer (y_segmenter y) (y_queue y) = (r, (g', q')) ->
  system_inv (record_artifact r w (segment_start_ns (y_segmenter y)) (after_reply r (g', q') y)) /\
  forall e, r = Raised e -> q_accepting (y_queue y) = false /\
    e = Exn SegmentContractError "finalization queue is not accepting work".
Proof.
  intros [Hq Ho Hw Hs Hd] Hwait. rewrite Hwait in Hq, Hw. unfold backend_returned, output_fault.
  destruct w as [|x|], answer as [a|text].
  1: { intros [= <- <- <-]. split; [|done]. split; simpl; try done. by eapply queue_inv_held. }
  1: { intros [= <- <- <-]. split; [|done]. split; simpl; try done. by eapply queue_inv_held. }
  2, 4: destruct (cancel_reservation (y_queue y)) as [rc qc] eqn:E;
    destruct (cancel_inv _ _ _ _ Hq eq_refl E) as (-> & Hq' & Hi & Hsm); intros [= <- <- <-];
    (split; [|done]); split; simpl; rewrite ?Hi; try done; by eapply draining_same.
  all: destruct (submit_reserved a (y_queue y)) as [rs qs] eqn:E;
    destruct (submit_inv _ _ _ _ _ Hq eq_refl E) as (Hq' & Hsm & Hr); destruct rs as [[]|e]; intros [= <- <- <-];
    (split; [|try done; intros e' [= <-]; by destruct Hr as (_ & ? & ?)]); split; simpl;
    try (by eapply draining_same);
    rewrite ?Hr; try done; try (by destruct Hr as (-> & _)); try (by rewrite Ho, app_assoc).
  destruct Hw as [Hdec Hm]. by eapply segments_ok_snoc.
Qed.

Lemma take_inv q w a q' :
  queue_inv q w -> worker_take q = Some (a, q') ->
  queue_inv q' w /\ q_items q = a :: q_items q' /\ same_mode q q'.
Proof.
  intros [Hs Hb Hw Hn Hc]. unfold worker_take. unfold busy_count in Hs.
  destruct (q_worker q) eqn:E1; [|done]. destruct (q_busy q) eqn:E2; [done|].
  destruct (q_items q) as [|b rest] eqn:E3; [done|]. intros [= <- <-]. split; [|by split].
  simpl in Hs. split; simpl; [unfold busy_count; simpl; lia|done| | |].
  - intros Ha. by destruct (Hw Ha) as (_ & ? & ?).
  - intros Hnew. destruct (Hn Hnew) as [Hz _]. destruct w as [[]|]; simpl in Hs; lia.
  - intros Hcl. by destruct (Hc Hcl) as [? _].
Qed.

Lemma finish_inv q w o q' :
  queue_inv q w -> worker_finish o q = Some q' ->
  queue_inv q' w /\ q_items q' = q_items q /\ q_accepting q' = q_accepting q /\
  q_state q' <> QNEW /\ q_failed_count q' = q_failed_count q + match o with Some _ => 1 | None => 0 end /\
  q_outstanding q' = q_outstanding q - 1 /\ q_busy q' = None.
Proof.
  intros [Hs Hb Hw Hn Hc]. unfold worker_finish. unfold busy_count in Hs.
  destruct (q_worker q) eqn:E1; [|done]. destruct (q_busy q) eqn:E2; [|done].
  assert (Hst : q_state q <> QNEW) by (intros Hnew; by destruct (Hn Hnew)).
  assert (Hcl : q_state q <> QCLOSED) by (intros Hcl; by destruct (Hc Hcl)).
  intros [= <-]. destruct o; simpl; (split; [|split_and!; try done; lia]); split; simpl;
    unfold busy_count; simpl; try lia; try done; intros Ha; by destruct (Hw Ha) as (_ & ? & ?).
Qed.

Lemma start_inv q w :
  queue_inv q w -> let '(_, q') := start q in
  queue_inv q' w /\ q_items q' = q_items q /\
  (q_accepting q = false /\ q_state q <> QNEW -> q_accepting q' = false /\ q_state q' <> QNEW).
Proof.
  intros [Hs Hb Hw Hn Hc]. unfold start. destruct (bool_decide (q_state q = QNEW)) eqn:E; simpl; [|by split_and!].
  bool_prop. split; [|split; [done|by intros []]].
  split; simpl; try done.
Qed.

Lemma close_begin_inv t q w :
  queue_inv q w -> let '(r, q') := close_begin t q in
  queue_inv q' w /\ q_items q' = q_items q /\
  (is_ok r = true \/ (q_accepting q = false /\ q_state q <> QNEW) ->
   q_accepting q' = false /\ q_state q' <> QNEW).
Proof.
  intros Hq. pose proof Hq as [Hs Hb Hw Hn Hc]. unfold close_begin.
  destruct (negb (SFltb _ t && _)); [by split_and!; [..|intros [|]]|].
  destruct (bool_decide (q_state q = QNEW)) eqn:E; [by split_and!; [..|intros [|]]|].
  destruct (bool_decide (q_state q = QCLOSED)) eqn:E2; [by split_and!; [..|intros [|]]|].
  bool_prop. by split_and!.
Qed.

Lemma close_end_inv d q w :
  queue_inv q w -> q_accepting q = false -> q_state q <> QNEW ->
  let '(res, q') := close_end d q in
  queue_inv q' w /\ q_items q' = q_items q /\
  cr_outstanding res = Z.of_nat (length (q_items q)) + held_count w.
Proof.
  intros [Hs Hb Hw Hn Hc] Ha Hst. unfold close_end. unfold busy_count in Hs.
  split; [split; simpl; unfold busy_count; simpl|split]; simpl; try done;
    try (destruct (q_busy q); lia). intros ?. congruence.
Qed.

Lemma step_inv e y y' r : system_inv y -> step e y = Some (y', r) -> system_inv y'.
Proof.
  intros Hinv Hstep. pose proof Hinv as [Hq Ho Hw Hs Hd].
  destruct e as [| |o|x|t|answer|t|d]; cbn [step] in Hstep.
  - pose proof (start_inv _ _ Hq) as Hst. destruct (start (y_queue y)) as [r' q].
    injection Hstep as <- <-. destruct Hst as (Hq' & Hi & Hdr). split; simpl; try done; [by rewrite Hi|auto].
  - destruct (worker_take (y_queue y)) as [[a q]|] eqn:E; [|done]. injection Hstep as <- <-.
    destruct (take_inv _ _ _ _ Hq E) as (Hq' & Hi & Hsm).
    split; simpl; try done; [by rewrite Ho, Hi, <-app_assoc|by eapply draining_same].
  - destruct (worker_finish o (y_queue y)) as [q|] eqn:E; [|done]. injection Hstep as <- <-.
    destruct (finish_inv _ _ _ _ Hq E) as (Hq' & Hi & Ha & Hst & _).
    split; simpl; try done; [by rewrite Hi|]. intros Hdr. by rewrite Ha; destruct (Hd Hdr).
  - destruct (y_waiting y) eqn:Hwait; [done|].
    destruct (observe_begin x (y_segmenter y) (y_queue y)) as [r' [g' q']] eqn:E. injection Hstep as <- <-.
    apply (begin_inv y (WaitRotate x)); [done|done|].
    apply observe_begin_cases in E as [[[= -> ->] Hr]|[([= -> ->] & Ho')|[Hsp Hr]]]; [by left|by right; left|].
    right; right. split; [done|]. split; [by apply decide_split in Hsp|done].
  - destruct (y_waiting y) eqn:Hwait; [done|].
    destruct (close_segmenter_begin t (y_segmenter y) (y_queue y)) as [r' [g' q']] eqn:E.
    injection Hstep as <- <-. apply (begin_inv y WaitClose); [done|done|].
    unfold close_segmenter_begin in E.
    destruct (result_bind _ _) as [[|]|ex]; [by right; right| |].
    + injection E as <- <- <-. right; left. split_and!; try done. by eexists.
    + injection E as <- <- <-. by left.
  - destruct (y_waiting y) as [w|] eqn:Hwait; [|done].
    destruct (backend_returned w answer (y_segmenter y) (y_queue y)) as [r' [g' q']] eqn:E.
    injection Hstep as <- <-. by apply (backend_inv y w answer r' g' q').
  - pose proof (close_begin_inv t _ _ Hq) as Hcl. destruct (close_begin t (y_queue y)) as [r' q].
    injection Hstep as <- <-. destruct Hcl as (Hq' & Hi & Hdr). split; simpl; try done; [by rewrite Hi|].
    intros [Hy|Hok]%orb_true_iff; apply Hdr; auto.
  - destruct (y_draining y) eqn:Hdr; [|done]. destruct (implb d _); [|done]. cbn [andb] in Hstep.
    destruct (Hd eq_refl) as [Ha Hst]. pose proof (close_end_inv d _ _ Hq Ha Hst) as Hcl.
    destruct (close_end d (y_queue y)) as [res q]. injection Hstep as <- <-.
    destruct Hcl as (Hq' & Hi & _). split; simpl; try done. by rewrite Hi.
Qed.

Lemma reachable_inv y : reachable y -> system_inv y.
Proof.
  induction 1 as [g q start_ns p capacity Hg Hq|y e y' r _ IH Hstep]; [|by eapply step_inv].
  unfold FinalizationQueue_new in Hq. unfold ContinuousSegmenter_new in Hg. inv_ok. bool_prop.
  split; simpl; try done. split; simpl; try done; lia.
Qed.

(** ** Properties *)

(** The boundary decision is total and exact: for a policy the constructor accepts and a
    unit at or after a valid segment start, the decision is to split exactly for an
    independently decodable unit whose distance from the start is within the normal bounds, to
    fault exactly when that distance exceeds the maximum, or equals it without such a unit, and
    to ask for a key frame only before the maximum and not earlier than the lead allows. *)
Theorem decide_spec p s x :
  SegmentBoundaryPolicy_new p = Ok p -> 0 <= s <= timestamp_ns x ->
  let d := timestamp_ns x - s in
  exists r, decide p s x = Ok r /\
    (r = SPLIT <-> independently_decodable x = true /\
                   minimum_normal_duration_ns p <= d <= maximum_normal_duration_ns p) /\
    (r = FAULT <-> maximum_normal_duration_ns p < d \/
                   (d = maximum_normal_duration_ns p /\ independently_decodable x = false)) /\
    (r = REQUEST_IDR <-> independently_decodable x = false /\
       Z.max (minimum_normal_duration_ns p) (target_duration_ns p - request_lead_ns p)
         <= d < maximum_normal_duration_ns p).
Proof.
  intros Hp Hs d. unfold SegmentBoundaryPolicy_new in Hp. inv_ok. bool_prop. unfold decide.
  replace (s <? 0) with false by lia. replace (timestamp_ns x <? s) with false by lia.
  eexists. split; [reflexivity|]. fold d.
  destruct (d <? minimum_normal_duration_ns p) eqn:E1; [bool_prop; intuition (try discriminate; lia)|].
  destruct (maximum_normal_duration_ns p <? d) eqn:E2; [bool_prop; intuition (try discriminate; lia)|].
  destruct (independently_decodable x); [bool_prop; intuition (try discriminate; lia)|].
  destruct (maximum_normal_duration_ns p <=? d) eqn:E3; [bool_prop; intuition (try discriminate; lia)|].
  destruct (target_duration_ns p - request_lead_ns p <=? d) eqn:E4; bool_prop;
    intuition (try discriminate; lia).
Qed.

Lemma decide_spec_witness : decide default_policy 0 (mkUnit 60000000000 true true true) = Ok SPLIT.
Proof.
  destruct (decide_spec default_policy 0 (mkUnit 60000000000 true true true)) as (r & Hr & Hsplit & _);
    [vm_compute; reflexivity|simpl; lia|].
  rewrite Hr. f_equal. apply Hsplit. split; [reflexivity|]. simpl. lia.
Defined.


(** C27: every rotated segment is finalized at most once and in order: at any moment the
    artifacts handed to the finalizer are, in order, exactly the first of those submitted and
    the rest are still queued; once a close reports the queue drained, every submitted
    artifact was handed over. *)
Theorem segments_finalized_in_order y :
  reachable y ->
  y_submitted y = y_taken y ++ q_items (y_queue y) /\
  forall y' r, step (QueueClosed true) y = Some (y', r) ->
    y_taken y' = y_submitted y' /\ y_submitted y' = y_submitted y /\ q_items (y_queue y') = [].
Proof.
  intros Hy%reachable_inv. pose proof Hy as [_ Ho _ _ _]. split; [done|]. intros y' r. simpl.
  destruct (y_draining y); [|done]. simpl.
  destruct (joined (y_queue y)) eqn:Hj; [|done]. unfold joined in Hj. bool_prop. intros [= <- <-].
  simpl. rewrite Ho, H. by rewrite app_nil_r.
Qed.

(** C28: the recording is cut without gaps at decodable boundaries: along every run, each rotated
    segment ends at an independently decodable unit, its duration is within the normal bounds
    of the policy, the next one starts exactly where it ended, and the active segment starts at
    the last boundary. *)
Theorem segments_contiguous_and_bounded y :
  reachable y ->
  segments_ok (policy (y_segmenter y)) (y_segments y) (segment_start_ns (y_segmenter y)).
Proof. by intros [_ _ _ Hs _]%reachable_inv. Qed.

(** ** Draining *)

(** The worker's steps, one finalization at a time; [os] says how each ends. *)
Fixpoint drain (os : list (option Failure)) (y : System) : option System :=
  match os with
  | [] => Some y
  | o :: os' =>
      match (match q_busy (y_queue y) with Some _ => Some (y, None) | None => step Take y end) with
      | Some (y1, _) =>
          match step (Finish o) y1 with Some (y2, _) => drain os' y2 | None => None end
      | None => None
      end
  end.

Definition failures (os : list (option Failure)) : Z :=
  foldr (fun o n => match o with Some _ => n + 1 | None => n end) 0 os.

(** One finalization. *)
Lemma drain_one o y :
  system_inv y -> q_worker (y_queue y) = true ->
  0 < Z.of_nat (length (q_items (y_queue y))) + busy_count (y_queue y) ->
  exists y1 y2 r, (match q_busy (y_queue y) with Some _ => Some (y, None) | None => step Take y end) = Some (y1, r) /\
    step (Finish o) y1 = Some (y2, None) /\ system_inv y2 /\
    q_worker (y_queue y2) = true /\ y_waiting y2 = y_waiting y /\ y_submitted y2 = y_submitted y /\
    Z.of_nat (length (q_items (y_queue y2))) + busy_count (y_queue y2)
    = Z.of_nat (length (q_items (y_queue y))) + busy_count (y_queue y) - 1 /\
    q_failed_count (y_queue y2) = q_failed_count (y_queue y) + match o with Some _ => 1 | None => 0 end.
Proof.
  intros Hinv Hw Hpos.
  assert (exists y1 r, (match q_busy (y_queue y) with Some _ => Some (y, None) | None => step Take y end) = Some (y1, r) /\
    system_inv y1 /\ q_worker (y_queue y1) = true /\ (exists a, q_busy (y_queue y1) = Some a) /\
    y_waiting y1 = y_waiting y /\ y_submitted y1 = y_submitted y /\
    q_failed_count (y_queue y1) = q_failed_count (y_queue y) /\
    Z.of_nat (length (q_items (y_queue y1))) + 1
    = Z.of_nat (length (q_items (y_queue y))) + busy_count (y_queue y))
    as (y1 & r & E1 & Hinv1 & Hw1 & (a & Hb1) & Hwait1 & Hsub1 & Hf1 & Hn1).
  { unfold busy_count in *. destruct (q_busy (y_queue y)) as [a|] eqn:Hb.
    - exists y, None. split_and!; try done; eauto.
    - destruct (q_items (y_queue y)) as [|a rest] eqn:Hi; [simpl in Hpos; lia|].
      destruct (step Take y) as [[y1 r]|] eqn:E.
      + exists y1, r. split; [done|]. split; [by eapply step_inv|]. cbn [step] in E. unfold worker_take in E.
        rewrite Hw, Hb, Hi in E. injection E as <- <-. simpl. split_and!; try done; [by exists a|lia].
      + cbn [step] in E. unfold worker_take in E. by rewrite Hw, Hb, Hi in E. }
  destruct (step (Finish o) y1) as [[y2 r2]|] eqn:E2.
  - pose proof (step_inv _ _ _ _ Hinv1 E2) as Hinv2. cbn [step] in E2.
    destruct (worker_finish o (y_queue y1)) as [q|] eqn:Eq; [|done]. injection E2 as <- <-.
    destruct (finish_inv _ _ _ _ (si_queue _ Hinv1) Eq) as (_ & Hi & _ & _ & Hfc & _ & Hbusy).
    exists y1, (with_queue q y1), r. split; [done|]. split; [cbn [step]; by rewrite Eq|]. split; [done|].
    simpl. unfold busy_count at 1. rewrite Hbusy, Hi.
    split_and!; try done; [|lia|by rewrite Hfc, Hf1].
    unfold worker_finish in Eq. rewrite Hw1, Hb1 in Eq. injection Eq as <-. by destruct o.
  - cbn [step] in E2. unfold worker_finish in E2. by rewrite Hw1, Hb1 in E2.
Qed.

(** A running worker drains the queue however its finalizations end: from any reachable
    state, as many finalizations as there are unfinished artifacts, each returning or raising,
    can all be carried out; then nothing is unfinished, every submitted artifact was handed to
    the finalizer, the failures were counted exactly, and only a reservation in flight still
    holds a slot. *)
Theorem running_worker_drains y os :
  reachable y -> q_worker (y_queue y) = true ->
  Z.of_nat (length os) = Z.of_nat (length (q_items (y_queue y))) + busy_count (y_queue y) ->
  exists y', drain os y = Some y' /\ joined (y_queue y') = true /\ y_taken y' = y_submitted y /\
    q_outstanding (y_queue y') = held_count (y_waiting y) /\
    q_failed_count (y_queue y') = q_failed_count (y_queue y) + failures os.
Proof.
  intros Hy%reachable_inv. revert y Hy. induction os as [|o os IH]; intros y Hinv Hw Hn.
  - simpl in Hn. exists y. split; [done|]. pose proof Hinv as [[Hs _ _ _ _] Ho _ _ _].
    unfold busy_count in *. destruct (q_busy (y_queue y)) eqn:Hb; [lia|].
    destruct (q_items (y_queue y)) eqn:Hi; [|simpl in Hn; lia]. rewrite app_nil_r in Ho. simpl in *.
    split_and!; try done; [|lia]. unfold joined. rewrite Hi, Hb. by vm_compute.
  - simpl in Hn. destruct (drain_one o y Hinv Hw) as (y1 & y2 & r & E1 & E2 & Hinv2 & Hw2 & Hwait & Hsub & Hcnt & Hf);
      [lia|].
    destruct (IH y2 Hinv2 Hw2) as (y' & Hd & Hj & Ht & Hout & Hfail); [lia|].
    exists y'. cbn [drain]. rewrite E1, E2. split_and!; [done|done|congruence|congruence|].
    rewrite Hfail, Hf. simpl. destruct o; lia.
Qed.

(** ** A short recording *)

Definition demo_unit (t : Z) (idr : bool) : AccessUnit := mkUnit t idr true true.
Definition demo_artifact : SegmentArtifact := mkArtifact (u "clip-1") 0 60000000000 (u "tok").

Definition demo_start : System :=
  initial (mkSegmenter 0 default_policy false false false) (mkQueue 2 [] None false 0 0 None false QNEW).

(** The first segment is rotated, its finalization fails, then the queue is closed. *)
Definition demo_events : list system_event :=
  [Start; Observe (demo_unit 59500000000 false); Backend (inl demo_artifact);
   Observe (demo_unit 60000000000 true); Backend (inl demo_artifact); CloseQueue (float_of_Z 5)].

Definition run_events (es : list system_event) (y : System) : option System :=
  foldl (fun acc e => match acc with Some y => option_map fst (step e y) | None => None end) (Some y) es.

Lemma run_events_reachable es y y' : reachable y -> run_events es y = Some y' -> reachable y'.
Proof.
  revert y. induction es as [|e es IH]; intros y Hy; unfold run_events; simpl; [by intros [= <-]|].
  destruct (step e y) as [[y1 r]|] eqn:E; simpl.
  - intros Hr. eapply (IH y1); [by eapply reach_step|exact Hr].
  - clear. by induction es.
Qed.

Definition demo_rotated : System :=
  match run_events demo_events demo_start with Some y => y | None => demo_start end.

Lemma demo_rotated_reachable : reachable demo_rotated.
Proof.
  apply (run_events_reachable demo_events demo_start).
  - apply (reach_initial _ _ 0 None 2); vm_compute; reflexivity.
  - vm_compute. reflexivity.
Qed.


Lemma segments_finalized_in_order_witness :
  y_submitted demo_rotated = y_taken demo_rotated ++ q_items (y_queue demo_rotated).
Proof. exact (proj1 (segments_finalized_in_order demo_rotated demo_rotated_reachable)). Defined.

Lemma segments_contiguous_and_bounded_witness :
  segments_ok (policy (y_segmenter demo_rotated)) (y_segments demo_rotated)
    (segment_start_ns (y_segmenter demo_rotated)) /\ length (y_segments demo_rotated) = 1%nat.
Proof.
  split; [exact (segments_contiguous_and_bounded demo_rotated demo_rotated_reachable)|vm_compute; reflexivity].
Defined.

Lemma running_worker_drains_witness :
  exists y', drain [Some (mkFailure (u "OSError") (u "disk"))] demo_rotated = Some y' /\
    joined (y_queue y') = true.
Proof.
  destruct (running_worker_drains demo_rotated [Some (mkFailure (u "OSError") (u "disk"))] demo_rotated_reachable)
    as (y' & Hd & Hj & _); [vm_compute; reflexivity|vm_compute; reflexivity|].
  exists y'. exact (conj Hd Hj).
Defined.
