(* ===== verification/PyFloat.v ===== *)
(** * Python floats

    A Python [float] is an IEEE 754 binary64 value; arithmetic and decimal literals round to
    nearest, ties to even. Values are [spec_float]s of the Standard Library, whose quotient of two
    integers is rounded once, so that the quotient of a decimal's digits by a power of ten is the
    correctly rounded conversion [float(text)] performs. *)

From Stdlib Require Import Ascii String ZArith SpecFloat Lia.
From stdpp Require Import base list strings.
From S2P Require Import Prelude PyStr.

Abbreviation float := spec_float.

Definition float_prec : Z := 53.
Definition float_emax : Z := 1024.

#[export] Instance float_eq_dec : EqDecision float. Proof. solve_decision. Defined.

(** An integer operand of a float operation. *)
Definition float_of_int (n : Z) : float := binary_normalize float_prec float_emax n 0 false.

Definition fadd (a b : float) : float := SFadd float_prec float_emax a b.
Definition fsub (a b : float) : float := SFsub float_prec float_emax a b.
Definition fdiv (a b : float) : float := SFdiv float_prec float_emax a b.
Definition fneg (a : float) : float := SFopp a.
Definition fle (a b : float) : bool := SFleb a b.
Definition flt (a b : float) : bool := SFltb a b.
Definition feq (a b : float) : bool := SFeqb a b.

(** [math.isfinite] *)
Definition isfinite (a : float) : bool :=
  match a with S754_nan | S754_infinity _ => false | _ => true end.

(** [n / 10 ** k], rounded once; the exact integers are the operands. *)
Definition decimal (n : Z) (k : nat) : float :=
  match n with
  | Zpos m => SFdiv float_prec float_emax (S754_finite false m 0)
                (S754_finite false (Z.to_pos (10 ^ Z.of_nat k)) 0)
  | _ => S754_zero false
  end.

(** The decimal expression, matched in full: an optional sign, then digits with an optional point
    and further digits, or a point and at least one digit; the sign, the integer digits and the
    fraction digits. *)
Definition DECIMAL_RE (s : str) : option (bool * str * str) :=
  let '(negative, r) :=
    match s with
    | c :: r => if char_eqb c "-" then (true, r) else if char_eqb c "+" then (false, r) else (false, s)
    | [] => (false, s)
    end in
  let '(whole, rest) := span is_digit r in
  match rest with
  | [] => if bool_decide (whole = []) then None else Some (negative, whole, [])
  | c :: f =>
      if char_eqb c "." && forallb is_digit f && negb (bool_decide (whole = []) && bool_decide (f = []))
      then Some (negative, whole, f) else None
  end.

(** [float(text)] of a text the expression matches. *)
Definition float_of_text (s : str) : option float :=
  match DECIMAL_RE s with
  | None => None
  | Some (negative, whole, f) =>
      let v := decimal (int_of_digits (whole ++ f)) (length f) in
      Some (if (negative : bool) then fneg v else v)
  end.

(** A literal of the source. *)
Definition literal (s : string) : float := default S754_nan (float_of_text (u s)).

Example literal_rounds : literal "0.1" = S754_finite false 7205759403792794 (-56).
Proof. reflexivity. Qed.

Example literal_sign : literal "-2.5" = S754_finite true 5629499534213120 (-51).
Proof. reflexivity. Qed.

Lemma span_all f s : forallb f s = true -> span f s = (s, []).
Proof.
  induction s as [|c s IH]; simpl; [done|]. intros [-> Hs]%andb_true_iff. by rewrite (IH Hs).
Qed.
