(* ===== verification/Pipeline.v ===== *)
(** * Pipeline supervision ([src/dashcam/recorder/pipeline.py])

    The profile and restart policies, the camera ownership guard, the media clock, and the bounded
    supervision loop of [ContinuousPipeline.run]. What an awaited backend, waiter or branch answers,
    and what [stop_requested.is_set()] says where the code asks it, are arguments; the calls the loop
    makes are its log. Powers of a float are the C library's, a parameter. *)

From Stdlib Require Import Ascii String ZArith Lia.
From stdpp Require Import base list strings.
From S2P Require Import Prelude PyStr PyFloat.

(** ** Profile *)

Record VideoProfile := mkProfile {
  width : Z;
  height : Z;
  frames_per_second : Z;
  codec : str;
  hardware_encoded : bool;
  production : bool
}.

#[export] Instance VideoProfile_eq_dec : EqDecision VideoProfile. Proof. solve_decision. Defined.

Definition VideoProfile_new (p : VideoProfile) : result VideoProfile :=
  raise_if negb ((1 <=? width p) && (width p <=? 16384))
    as ProfileValidationError msg "width must be an integer between 1 and 16384" ;;
  raise_if negb ((1 <=? height p) && (height p <=? 16384))
    as ProfileValidationError msg "height must be an integer between 1 and 16384" ;;
  raise_if negb ((1 <=? frames_per_second p) && (frames_per_second p <=? 240))
    as ProfileValidationError msg "frames_per_second must be an integer between 1 and 240" ;;
  raise_if bool_decide (codec p = []) || (32 <? len (codec p))
    as ProfileValidationError msg "codec must be a non-empty string of at most 32 characters" ;;
  raise_if production p &&
      (negb (width p =? 1920) || negb (height p =? 1080) || negb (frames_per_second p =? 30)
       || negb (bool_decide (casefold (codec p) = u "h264")) || negb (hardware_encoded p))
    as ProfileValidationError msg "production requires exactly 1920x1080 at 30 fps with hardware H.264" ;;
  Ok p.

(** ** Restart policy *)

Record RestartPolicy := mkRestartPolicy {
  max_restarts : Z;
  initial_backoff_s : float;
  maximum_backoff_s : float;
  multiplier : float;
  stop_timeout_s : float
}.

(** [0 < value <= maximum] *)
Definition positive_upto (value maximum : float) : bool :=
  SpecFloat.SFltb (literal "0") value && fle value maximum.

Definition RestartPolicy_new (p : RestartPolicy) : result RestartPolicy :=
  raise_if negb ((0 <=? max_restarts p) && (max_restarts p <=? 100))
    as ValueError msg "max_restarts must be an integer between 0 and 100" ;;
  raise_if negb (positive_upto (initial_backoff_s p) (literal "300.0"))
    as ValueError msg "initial_backoff_s must be greater than zero and at most 300.0" ;;
  raise_if negb (positive_upto (maximum_backoff_s p) (literal "300.0"))
    as ValueError msg "maximum_backoff_s must be greater than zero and at most 300.0" ;;
  raise_if negb (positive_upto (stop_timeout_s p) (literal "300.0"))
    as ValueError msg "stop_timeout_s must be greater than zero and at most 300.0" ;;
  raise_if SpecFloat.SFltb (maximum_backoff_s p) (initial_backoff_s p)
    as ValueError msg "initial_backoff_s cannot exceed maximum_backoff_s" ;;
  raise_if negb (fle (literal "1") (multiplier p) && fle (multiplier p) (literal "16"))
    as ValueError msg "multiplier must be between 1 and 16" ;;
  Ok p.

(** Python's [min(a, b)]. *)
Definition fmin (a b : float) : float := if SpecFloat.SFltb b a then b else a.

Definition fmul (a b : float) : float := SpecFloat.SFmul float_prec float_emax a b.

(** ** Ownership *)

(** The owner of the process's camera. *)
Abbreviation CameraOwnership := (option str).

Definition claim (self : CameraOwnership) (owner : str) : result CameraOwnership :=
  raise_if bool_decide (owner = []) || (128 <? len owner) || negb (isprintable owner)
    as CameraOwnershipError msg "owner must be 1 to 128 printable characters" ;;
  match self with
  | Some _ => Err (Exn CameraOwnershipError "camera is already owned")
  | None => Ok (Some owner)
  end.

Definition release (self : CameraOwnership) (owner : str) : result CameraOwnership :=
  raise_if negb (bool_decide (self = Some owner))
    as CameraOwnershipError msg "camera ownership can only be released by its owner" ;;
  Ok None.

(** ** Media clock *)

(** [now_ns] on the value the source returns: the last value and the answer. *)
Definition media_now (last : option Z) (value : Z) : option Z * result Z :=
  if value <? 0 then (last, Err (Exn PipelineContractError "monotonic source returned an invalid timestamp"))
  else if match last with Some l => value <? l | None => false end then
    (last, Err (Exn PipelineContractError "monotonic media clock regressed"))
  else (Some value, Ok value).

(** ** Diagnostics *)

(** The line boundaries of [str.splitlines]. *)
Definition is_line_break (c : ascii) : bool :=
  in_range 10 13 c || in_range 28 30 c || (ord c =? 133).

(** [splitlines], with the reversed beginning of the current line; a carriage return takes a line
    feed after it along. *)
Fixpoint splitlines_from (current : str) (s : str) : list str :=
  match s with
  | [] => match current with [] => [] | _ => [rev current] end
  | c :: r =>
      if is_line_break c then
        rev current ::
          match r with
          | c' :: r' => if (ord c =? 13) && (ord c' =? 10) then splitlines_from [] r' else splitlines_from [] r
          | [] => []
          end
      else splitlines_from (c :: current) r
  end.

Definition splitlines (s : str) : list str := splitlines_from [] s.

Definition bounded_detail (cls text : str) : str :=
  let printed := map (fun c => if ord c =? 0 then " "%char else c) (cls ++ u ": " ++ text) in
  let detail := join_with " "%char (splitlines printed) in
  match take 512 detail with [] => cls | d => d end.

(** ** Optional branches *)

Record OptionalBranchFailure := mkBranchFailure { f_name : str; f_detail : str }.

(** How a branch's task ended: its coroutine returned (with the event set or not), raised an
    [Exception] of a class with a text, or was cancelled. *)
Inductive BranchEnd := BReturned (stop_set : bool) | BRaised (cls text : str) | BCancelled.

Definition run_optional (name : str) (e : BranchEnd) : list OptionalBranchFailure :=
  match e with
  | BReturned true => []
  | BReturned false =>
      [mkBranchFailure name (bounded_detail (u "RuntimeError") (u "optional branch exited unexpectedly"))]
  | BRaised cls text => [mkBranchFailure name (bounded_detail cls text)]
  | BCancelled => []
  end.

(** The failures recorded by the tasks that ended, in the order they ended, then by the shutdown
    deadline, in the order of the branches. *)
Definition optional_failures (names : list str) (ended : list (nat * BranchEnd))
    : list OptionalBranchFailure :=
  concat (map (fun '(i, e) => match names !! i with Some n => run_optional n e | None => [] end) ended) ++
  concat (imap (fun i n =>
    if bool_decide (i ∈ map fst ended) then []
    else [mkBranchFailure n (u "optional branch exceeded shutdown deadline")]) names).

Definition validate_branches (names : list str) : result unit :=
  raise_if (16 <? Z.of_nat (length names))
    as ValueError msg "optional_branches must be a tuple of at most 16 branches" ;;
  raise_if existsb (fun n => bool_decide (n = []) || (64 <? len n) || negb (isprintable n)) names
    as ValueError msg "optional branch names must be 1 to 64 printable characters" ;;
  raise_if negb (bool_decide (NoDup names)) as ValueError msg "optional branch names must be unique" ;;
  Ok tt.

(** ** Supervision *)

(** What [_stop_backend] comes to: a clean stop, an error it returns, or an exception that is
    neither an [Exception] nor a cancellation and escapes it. *)
Inductive Cleanup := CleanStop | StopError (e : exn) | StopEscapes (e : exn).

(** What the backend of one attempt and the waiter after it answer. *)
Record Attempt := mkAttempt {
  a_factory : option exn;
  a_start : result VideoProfile;
  a_run : option exn;
  a_stop_after_run : bool;
  a_cleanup : Cleanup;
  a_stop_after_cleanup : bool;
  a_backoff : result bool;
  a_stop_after_backoff : bool
}.

(** The calls of the loop. *)
Inductive Call := CBuild | CStart | CRun | CStop | CWait (delay_s : float).

#[export] Instance Call_eq_dec : EqDecision Call. Proof. solve_decision. Defined.

Inductive Next := Continue (restart_count : Z) | Break (restart_count : Z) | Raise (e : exn).

Definition is_recoverable (e : exn) : bool := bool_decide (exn_cls e = RecoverablePipelineError).

Definition fault (m : string) : Next := Raise (Exn PipelineFault m).

Section Supervision.
Context (pow : float -> Z -> float).

Definition delay_for (p : RestartPolicy) (restart_number : Z) : result float :=
  raise_if negb ((1 <=? restart_number) && (restart_number <=? max_restarts p))
    as ValueError msg "restart_number is outside the configured restart bound" ;;
  Ok (fmin (maximum_backoff_s p) (fmul (initial_backoff_s p) (pow (multiplier p) (restart_number - 1)))).

(** The [try] body of one attempt: the calls and the recoverable error, or what it raises. *)
Definition attempt_body (profile : VideoProfile) (a : Attempt) : list Call * result (option exn) :=
  match a_start a with
  | Err e => ([CStart], Err e)
  | Ok effective =>
      if negb (bool_decide (effective = profile)) then
        ([CStart], Err (Exn ProfileValidationError "backend effective profile differs from the requested profile"))
      else
        ([CStart; CRun],
         match a_run a with
         | Some e => Err e
         | None =>
             if a_stop_after_run a then Ok None
             else Ok (Some (Exn RecoverablePipelineError "critical pipeline exited unexpectedly"))
         end)
  end.

(** [except RecoverablePipelineError] *)
Definition recovered (r : result (option exn)) : result (option exn) :=
  match r with
  | Err e => if is_recoverable e then Ok (Some e) else Err e
  | Ok o => Ok o
  end.

(** After a clean stop. *)
Definition after_cleanup (p : RestartPolicy) (restart_count : Z) (a : Attempt) (recoverable : option exn)
    : list Call * Next :=
  if a_stop_after_cleanup a then ([], Break restart_count)
  else
    match recoverable with
    | None => ([], fault "pipeline stopped without a declared outcome")
    | Some _ =>
        if max_restarts p <=? restart_count then
          ([], fault "critical pipeline exhausted its bounded restart policy")
        else
          match delay_for p (restart_count + 1) with
          | Err e => ([], Raise e)
          | Ok d =>
              ([CWait d],
               match a_backoff a with
               | Err e => Raise e
               | Ok cancelled =>
                   if cancelled || a_stop_after_backoff a then Break (restart_count + 1)
                   else Continue (restart_count + 1)
               end)
          end
    end.

(** One iteration of the loop. *)
Definition iteration (p : RestartPolicy) (profile : VideoProfile) (restart_count : Z) (a : Attempt)
    : list Call * Next :=
  match a_factory a with
  | Some e => ([CBuild], Raise e)
  | None =>
      let '(calls, body) := attempt_body profile a in
      let calls := CBuild :: calls ++ [CStop] in
      match a_cleanup a with
      | StopEscapes e => (calls, Raise e)
      | cleanup =>
          match recovered body with
          | Err e => (calls, Raise e)
          | Ok recoverable =>
              match cleanup with
              | CleanStop =>
                  let '(more, next) := after_cleanup p restart_count a recoverable in
                  (calls ++ more, next)
              | _ => (calls, fault "pipeline cleanup failed")
              end
          end
      end
  end.

(** The loop from one restart count on; [env] answers each attempt. The check at the head follows the
    one after the backoff without an await, so that after the first it does not change. *)
Fixpoint supervise (fuel : nat) (p : RestartPolicy) (profile : VideoProfile) (restart_count : Z)
    (env : nat -> Attempt) : option (list Call * result Z) :=
  match fuel with
  | O => None
  | S fuel' =>
      match iteration p profile restart_count (env O) with
      | (calls, Raise e) => Some (calls, Err e)
      | (calls, Break r) => Some (calls, Ok r)
      | (calls, Continue r) =>
          match supervise fuel' p profile r (fun n => env (S n)) with
          | None => None
          | Some (more, out) => Some (calls ++ more, out)
          end
      end
  end.

(** Enough for every attempt the policy allows. *)
Definition supervise_fuel (p : RestartPolicy) : nat := S (Z.to_nat (max_restarts p)).

(** ** The pipeline *)

Record ContinuousPipeline := mkPipeline {
  p_owner : str;
  p_profile : VideoProfile;
  p_policy : RestartPolicy;
  p_branches : list str;
  p_used : bool
}.

Record PipelineResult := mkPipelineResult {
  r_restart_count : Z;
  r_optional_failures : list OptionalBranchFailure
}.

Definition degraded (r : PipelineResult) : bool := negb (bool_decide (r_optional_failures r = [])).

Definition used (self : ContinuousPipeline) : ContinuousPipeline :=
  mkPipeline (p_owner self) (p_profile self) (p_policy self) (p_branches self) true.

(** [run] up to the loop. *)
Definition run_begin (self : ContinuousPipeline) (own : CameraOwnership)
    : ContinuousPipeline * result CameraOwnership :=
  if p_used self then (self, Err (Exn RuntimeError "ContinuousPipeline is single-use"))
  else (used self, claim own (p_owner self)).

(** The loop, when the event is not set at its head the first time. *)
Definition run_loop (self : ContinuousPipeline) (stopped : bool) (env : nat -> Attempt)
    : option (list Call * result Z) :=
  if stopped then Some ([], Ok 0)
  else supervise (supervise_fuel (p_policy self)) (p_policy self) (p_profile self) 0 env.

(** [run] from the end of the loop: release the camera, whatever the loop came to. *)
Definition run_end (self : ContinuousPipeline) (own : CameraOwnership) (out : result Z)
    (ended : list (nat * BranchEnd)) : CameraOwnership * result PipelineResult :=
  match release own (p_owner self) with
  | Err e => (own, Err e)
  | Ok own' =>
      (own', match out with
             | Err e => Err e
             | Ok n => Ok (mkPipelineResult n (optional_failures (p_branches self) ended))
             end)
  end.

(** The whole of [run] on one event loop turn sequence that no other owner interrupts. *)
Definition run (self : ContinuousPipeline) (own : CameraOwnership) (stopped : bool) (env : nat -> Attempt)
    (ended : list (nat * BranchEnd))
    : option (ContinuousPipeline * CameraOwnership * list Call * result PipelineResult) :=
  let '(self', begun) := run_begin self own in
  match begun with
  | Err e => Some (self', own, [], Err e)
  | Ok own1 =>
      match run_loop self' stopped env with
      | None => None
      | Some (calls, out) =>
          let '(own2, r) := run_end self' own1 out ended in Some (self', own2, calls, r)
      end
  end.

End Supervision.
