(* ===== verification/PipelineProperties.v ===== *)
(** * Supervision properties

    The supervision loop is bounded, starts and stops backends in turn and never runs a downgraded
    profile; a failure that persists exhausts the policy exactly; and pipelines that share the camera
    boundary never own it together. *)

From Stdlib Require Import Ascii String ZArith Lia.
From stdpp Require Import base list gmap strings.
From S2P Require Import Prelude PyStr PyFloat Pipeline.

(** ** What the loop may call *)

(** One attempt whose backend was built, up to its cleanup. *)
Definition attempt_calls (ran : bool) : list Call :=
  CBuild :: CStart :: (if ran then [CRun] else []) ++ [CStop].

(** The backend of this attempt is run only under the requested profile. *)
Definition runs_requested (profile : VideoProfile) (a : Attempt) (ran : bool) : Prop :=
  ran = true -> a_start a = Ok profile.

Section Supervision.
Context (pow : float -> Z -> float) (p : RestartPolicy) (profile : VideoProfile).

(** The calls of the loop from a restart count on: attempts one after the other, each backend
    stopped before the next is built, the delay of the policy between them. *)
Inductive supervised : Z -> (nat -> Attempt) -> list Call -> Prop :=
  | supervised_unbuilt n env : supervised n env [CBuild]
  | supervised_last n env ran :
      runs_requested profile (env O) ran -> supervised n env (attempt_calls ran)
  | supervised_wait n env ran d :
      runs_requested profile (env O) ran -> n < max_restarts p -> delay_for pow p (n + 1) = Ok d ->
      supervised n env (attempt_calls ran ++ [CWait d])
  | supervised_next n env ran d rest :
      runs_requested profile (env O) ran -> n < max_restarts p -> delay_for pow p (n + 1) = Ok d ->
      supervised (n + 1) (fun i => env (S i)) rest ->
      supervised n env (attempt_calls ran ++ CWait d :: rest).

Definition builds (calls : list Call) : Z :=
  Z.of_nat (length (filter (fun c => c = CBuild) calls)).

Definition is_wait (c : Call) : bool := match c with CWait _ => true | _ => false end.

Definition waits (calls : list Call) : Z := Z.of_nat (length (List.filter is_wait calls)).

Lemma builds_app a b : builds (a ++ b) = builds a + builds b.
Proof. unfold builds. rewrite filter_app, length_app. lia. Qed.

Lemma waits_app a b : waits (a ++ b) = waits a + waits b.
Proof. unfold waits. rewrite List.filter_app, length_app. lia. Qed.

Lemma builds_attempt ran : builds (attempt_calls ran) = 1.
Proof. by destruct ran. Qed.

Lemma waits_attempt ran : waits (attempt_calls ran) = 0.
Proof. by destruct ran. Qed.

Lemma supervised_builds n env calls :
  supervised n env calls -> n <= max_restarts p -> builds calls <= max_restarts p - n + 1.
Proof.
  induction 1 as [n env|n env ran _|n env ran d _ Hn _|n env ran d rest _ Hn _ _ IH]; intros Hle.
  - change (builds [CBuild]) with 1. lia.
  - rewrite builds_attempt. lia.
  - rewrite builds_app, builds_attempt. change (builds [CWait d]) with 0. lia.
  - change (CWait d :: rest) with ([CWait d] ++ rest). rewrite !builds_app, builds_attempt.
    change (builds [CWait d]) with 0. lia.
Qed.

(** ** One iteration *)

(** The event was found set in this attempt. *)
Definition stop_found (a : Attempt) : Prop :=
  a_stop_after_cleanup a = true \/ a_backoff a = Ok true \/ a_stop_after_backoff a = true.

Lemma attempt_body_calls a calls r :
  attempt_body profile a = (calls, r) ->
  exists ran, CBuild :: calls ++ [CStop] = attempt_calls ran /\ runs_requested profile a ran.
Proof.
  unfold attempt_body, runs_requested. destruct (a_start a) as [eff|e]; [|intros [= <- _]; by exists false].
  destruct (negb _) eqn:E; [intros [= <- _]; by exists false|]. bool_prop. subst.
  intros [= <- _]. by exists true.
Qed.

Lemma after_cleanup_cases n a o calls next :
  after_cleanup pow p n a o = (calls, next) ->
  (calls = [] /\ ((exists e, next = Raise e) \/ next = Break n /\ stop_found a)) \/
  (n < max_restarts p /\ exists d, delay_for pow p (n + 1) = Ok d /\ calls = [CWait d] /\
     ((exists e, next = Raise e) \/ next = Break (n + 1) /\ stop_found a \/ next = Continue (n + 1))).
Proof.
  unfold after_cleanup, stop_found, fault.
  destruct (a_stop_after_cleanup a) eqn:Ea; [intros [= <- <-]; left; eauto 6|].
  destruct o as [e|]; [|intros [= <- <-]; left; eauto 6].
  destruct (max_restarts p <=? n) eqn:En; [intros [= <- <-]; left; eauto 6|]. bool_prop.
  destruct (delay_for pow p (n + 1)) as [d|e'] eqn:Ed; [|intros [= <- <-]; left; eauto 6].
  intros [= <- <-]. right. split; [lia|]. exists d. do 2 (split; [done|]).
  destruct (a_backoff a) as [[]|e'] eqn:Eb; simpl; [|destruct (a_stop_after_backoff a) eqn:Es|]; eauto 8.
Qed.

(** The shape of one iteration. *)
Lemma iteration_cases n a calls next :
  iteration pow p profile n a = (calls, next) ->
  (calls = [CBuild] /\ exists e, next = Raise e) \/
  exists ran, runs_requested profile a ran /\
    ((calls = attempt_calls ran /\ ((exists e, next = Raise e) \/ next = Break n /\ stop_found a)) \/
     (n < max_restarts p /\ exists d, delay_for pow p (n + 1) = Ok d /\ calls = attempt_calls ran ++ [CWait d] /\
        ((exists e, next = Raise e) \/ next = Break (n + 1) /\ stop_found a \/ next = Continue (n + 1)))).
Proof.
  unfold iteration. destruct (a_factory a) as [e|]; [intros [= <- <-]; left; eauto|].
  destruct (attempt_body profile a) as [c body] eqn:Ebody.
  apply attempt_body_calls in Ebody as (ran & Hc & Hran). intros H. right. exists ran. split; [done|].
  rewrite Hc in H. unfold fault in H.
  destruct (a_cleanup a) as [|e|e]; [|destruct (recovered body)|]; try (injection H as <- <-; left; eauto).
  destruct (recovered body) as [o|e]; [|injection H as <- <-; left; eauto].
  destruct (after_cleanup pow p n a o) as [more next'] eqn:Ea. injection H as <- <-.
  apply after_cleanup_cases in Ea as [[-> Hn]|(Hlt & d & Hd & -> & Hn)].
  - left. by rewrite app_nil_r.
  - right. eauto 6.
Qed.

(** ** The loop *)

Lemma supervise_spec fuel n env :
  n <= max_restarts p -> max_restarts p - n < Z.of_nat fuel ->
  exists calls out, supervise pow fuel p profile n env = Some (calls, out) /\ supervised n env calls /\
    forall r, out = Ok r ->
      r = n + waits calls /\ r <= max_restarts p /\ exists i, stop_found (env i).
Proof.
  revert n env. induction fuel as [|fuel IH]; intros n env Hn Hf; [lia|]. cbn [supervise].
  destruct (iteration pow p profile n (env O)) as [calls next] eqn:Ei.
  apply iteration_cases in Ei as [[-> [e ->]]|(ran & Hran & Hcase)].
  { eexists _, _. split; [done|]. split; [constructor|done]. }
  destruct Hcase as [(-> & [[e ->]|[-> Hs]])|(Hlt & d & Hd & -> & Hcase)].
  - eexists _, _. split; [done|]. split; [by constructor|done].
  - eexists _, _. split; [done|]. split; [by constructor|]. intros r [= <-]. rewrite waits_attempt.
    split; [lia|]. split; [lia|]. eauto.
  - destruct Hcase as [[e ->]|[[-> Hs]| ->]].
    + eexists _, _. split; [done|]. split; [by constructor|done].
    + eexists _, _. split; [done|]. split; [by constructor|]. intros r [= <-].
      rewrite waits_app, waits_attempt. change (waits [CWait d]) with 1. split; [lia|]. split; [lia|]. eauto.
    + destruct (IH (n + 1) (fun i => env (S i))) as (rest & out & -> & Hsup & Hout); [lia|lia|].
      eexists _, _. split; [done|]. rewrite <-app_assoc. split; [by apply supervised_next|].
      intros r Hr. destruct (Hout r Hr) as (-> & Hle & i & Hi).
      rewrite !waits_app, waits_attempt. change (waits [CWait d]) with 1. split; [lia|]. split; [lia|]. eauto.
Qed.

End Supervision.

(** ** Delays *)

Lemma fle_of_lt a b : SpecFloat.SFltb a b = true -> fle a b = true.
Proof. unfold fle, SpecFloat.SFltb, SpecFloat.SFleb. by destruct (SpecFloat.SFcompare a b) as [[]|]. Qed.

Lemma fle_refl a : a <> SpecFloat.S754_nan -> fle a a = true.
Proof.
  unfold fle, SpecFloat.SFleb. destruct a as [s|s| |s m e]; try done; simpl; [by destruct s|].
  rewrite Z.compare_refl. intros _. assert (Pos.compare_cont Eq m m = Eq) as -> by apply Pos.compare_refl.
  by destruct s.
Qed.

Lemma fle_not_nan a b : fle a b = true -> a <> SpecFloat.S754_nan.
Proof. unfold fle. by destruct a. Qed.

Lemma policy_new_ok p p' :
  RestartPolicy_new p = Ok p' ->
  0 <= max_restarts p <= 100 /\ maximum_backoff_s p <> SpecFloat.S754_nan.
Proof.
  unfold RestartPolicy_new. intros H. inv_ok. unfold positive_upto in *. bool_prop. split; [lia|].
  by eapply fle_not_nan.
Qed.

Lemma delay_bounded pow p n d :
  maximum_backoff_s p <> SpecFloat.S754_nan -> delay_for pow p n = Ok d -> fle d (maximum_backoff_s p) = true.
Proof.
  unfold delay_for, fmin. intros Hm H. inv_ok. destruct (SpecFloat.SFltb _ _) eqn:E; [by apply fle_of_lt|by apply fle_refl].
Qed.

Lemma supervised_delays pow p profile n env calls :
  maximum_backoff_s p <> SpecFloat.S754_nan -> supervised pow p profile n env calls ->
  forall d, CWait d ∈ calls -> fle d (maximum_backoff_s p) = true.
Proof.
  intros Hm.
  assert (forall ran d, CWait d ∈ attempt_calls ran -> False) as Ha.
  { intros ran d. unfold attempt_calls. destruct ran; simpl; rewrite !elem_of_cons, elem_of_nil; naive_solver. }
  induction 1 as [n env|n env ran _|n env ran d _ _ Hd|n env ran d rest _ _ Hd _ IH]; intros d'.
  - rewrite list_elem_of_singleton. done.
  - intros []%Ha.
  - rewrite elem_of_app, list_elem_of_singleton. intros [[]%Ha|[= ->]]. by eapply delay_bounded.
  - rewrite elem_of_app, elem_of_cons. intros [[]%Ha|[[= ->]|Hin]]; [by eapply delay_bounded|auto].
Qed.

(** ** Properties *)

Lemma run_free pow self stopped env ended calls out :
  p_used self = false -> claim None (p_owner self) = Ok (Some (p_owner self)) ->
  run_loop pow (used self) stopped env = Some (calls, out) ->
  exists r, run pow self None stopped env ended = Some (used self, None, calls, r) /\
    r = match out with
        | Err e => Err e
        | Ok n => Ok (mkPipelineResult n (optional_failures (p_branches self) ended))
        end.
Proof.
  intros Hu Hc Hl. unfold run, run_begin. rewrite Hu, Hc, Hl. unfold run_end, release.
  cbn [p_owner used p_branches]. rewrite bool_decide_true by done. cbn [negb]. by eexists.
Qed.

(** C29: supervision is bounded and orderly: for a policy the constructor accepts, whatever the
    backends, the waiter and the branches answer, a run of a fresh pipeline on a free camera returns;
    it builds at most one backend more than the policy's restarts and stops each one it starts before
    it builds the next; it runs a backend only if that backend started with exactly the requested
    profile; it waits only the policy's delays, none above the maximum; the camera is free again
    afterwards; and it returns without raising only when it was asked to stop, with the number of
    restarts it made. *)
Theorem supervision_bounded pow self stopped env ended :
  RestartPolicy_new (p_policy self) = Ok (p_policy self) -> p_used self = false ->
  claim None (p_owner self) = Ok (Some (p_owner self)) ->
  exists calls r, run pow self None stopped env ended = Some (used self, None, calls, r) /\
    (calls = [] /\ stopped = true \/ supervised pow (p_policy self) (p_profile self) 0 env calls) /\
    builds calls <= max_restarts (p_policy self) + 1 /\
    (forall d, CWait d ∈ calls -> fle d (maximum_backoff_s (p_policy self)) = true) /\
    forall res, r = Ok res ->
      (stopped = true \/ exists i, stop_found (env i)) /\
      r_restart_count res = waits calls /\ r_restart_count res <= max_restarts (p_policy self).
Proof.
  intros [Hmax Hnan]%policy_new_ok Hu Hc.
  destruct stopped.
  - destruct (run_free pow self true env ended [] (Ok 0) Hu Hc eq_refl) as (r & Hr & ->).
    eexists _, _. split; [exact Hr|]. split; [auto|]. change (builds []) with 0. split; [lia|].
    split; [intros d Hd; by apply elem_of_nil in Hd|]. intros res [= <-]. split; [auto|]. simpl. split; [done|lia].
  - destruct (supervise_spec pow (p_policy self) (p_profile self) (supervise_fuel (p_policy self)) 0 env)
      as (calls & out & Hs & Hsup & Hout); [lia|unfold supervise_fuel; lia|].
    destruct (run_free pow self false env ended calls out Hu Hc) as (r & Hr & ->).
    { exact Hs. }
    eexists _, _. split; [exact Hr|]. split; [auto|]. split; [|split].
    + pose proof (supervised_builds _ _ _ _ _ _ Hsup). lia.
    + by eapply supervised_delays.
    + intros res Hres. destruct out as [n|e]; [|done]. injection Hres as <-.
      destruct (Hout n eq_refl) as (-> & Hle & Hi). simpl. split; [auto|]. split; lia.
Qed.

(** ** A persistent failure *)

(** A backend that starts as requested, fails recoverably, stops cleanly, and nobody asks to stop. *)
Definition failing (profile : VideoProfile) (a : Attempt) : Prop :=
  a_factory a = None /\ a_start a = Ok profile /\
  (exists m, a_run a = Some (Exn RecoverablePipelineError m)) /\ a_cleanup a = CleanStop /\
  a_stop_after_cleanup a = false /\ a_backoff a = Ok false /\ a_stop_after_backoff a = false.

(** The calls of the attempts from a restart count on, until the policy is exhausted. *)
Fixpoint exhausting (pow : float -> Z -> float) (p : RestartPolicy) (left : nat) (n : Z) : list Call :=
  match left with
  | O => attempt_calls true
  | S left' =>
      attempt_calls true ++
      CWait (fmin (maximum_backoff_s p) (fmul (initial_backoff_s p) (pow (multiplier p) n))) ::
      exhausting pow p left' (n + 1)
  end.

Lemma failing_iteration pow p profile n a :
  failing profile a -> 0 <= n <= max_restarts p ->
  iteration pow p profile n a =
    if n =? max_restarts p then
      (attempt_calls true, fault "critical pipeline exhausted its bounded restart policy")
    else
      (attempt_calls true ++
         [CWait (fmin (maximum_backoff_s p) (fmul (initial_backoff_s p) (pow (multiplier p) n)))],
       Continue (n + 1)).
Proof.
  intros (Hf & Hs & (m & Hr) & Hc & Hsc & Hb & Hsb) Hn. unfold iteration, attempt_body.
  rewrite Hf, Hs, Hr, Hc. rewrite bool_decide_true by done. cbn [negb recovered is_recoverable exn_cls].
  change (is_recoverable (Exn RecoverablePipelineError m)) with true. cbv iota.
  unfold after_cleanup, delay_for. rewrite Hsc, Hb, Hsb.
  destruct (Z.eqb_spec n (max_restarts p)) as [->|Hne].
  - rewrite Z.leb_refl. by rewrite app_nil_r.
  - replace (max_restarts p <=? n) with false by lia.
    replace (negb ((1 <=? n + 1) && (n + 1 <=? max_restarts p))) with false by lia.
    by rewrite Z.add_simpl_r.
Qed.

Lemma failing_supervise pow p profile left n env :
  (forall i, failing profile (env i)) -> 0 <= n -> n + Z.of_nat left = max_restarts p ->
  supervise pow (S left) p profile n env =
    Some (exhausting pow p left n, Err (Exn PipelineFault "critical pipeline exhausted its bounded restart policy")).
Proof.
  assert (forall fuel n env, supervise pow (S fuel) p profile n env =
    match iteration pow p profile n (env O) with
    | (calls, Raise e) => Some (calls, Err e)
    | (calls, Break r) => Some (calls, Ok r)
    | (calls, Continue r) =>
        match supervise pow fuel p profile r (fun n => env (S n)) with
        | None => None | Some (more, out) => Some (calls ++ more, out) end
    end) as Hstep by done.
  revert n env. induction left as [|left IH]; intros n env Hf Hn Hsum;
    rewrite Hstep, failing_iteration by (auto; lia).
  - replace (n =? max_restarts p) with true by lia. done.
  - replace (n =? max_restarts p) with false by lia.
    rewrite IH by (auto; lia). by rewrite <-app_assoc.
Qed.

(** A failure that persists exhausts the policy exactly: when every backend starts as requested
    but fails recoverably, and nobody asks to stop, the run builds exactly one backend more than the
    policy's restarts, waits the policy's delay before each restart, and then raises the pipeline
    fault with the camera free again. *)
Theorem persistent_failure_exhausts pow self env ended :
  RestartPolicy_new (p_policy self) = Ok (p_policy self) -> p_used self = false ->
  claim None (p_owner self) = Ok (Some (p_owner self)) ->
  (forall i, failing (p_profile self) (env i)) ->
  let p := p_policy self in
  let calls := exhausting pow p (Z.to_nat (max_restarts p)) 0 in
  run pow self None false env ended =
    Some (used self, None, calls,
          Err (Exn PipelineFault "critical pipeline exhausted its bounded restart policy")) /\
  builds calls = max_restarts p + 1 /\ waits calls = max_restarts p.
Proof.
  intros [Hmax _]%policy_new_ok Hu Hc Hf p calls. subst p.
  assert (forall left n, builds (exhausting pow (p_policy self) left n) = Z.of_nat left + 1 /\
                         waits (exhausting pow (p_policy self) left n) = Z.of_nat left) as Hcount.
  { induction left as [|left IH]; intros n; cbn [exhausting]; [done|].
    rewrite builds_app, waits_app, builds_attempt, waits_attempt.
    match goal with |- context [CWait ?d :: ?l] => change (CWait d :: l) with ([CWait d] ++ l) end.
    rewrite builds_app, waits_app. destruct (IH (n + 1)) as [-> ->].
    change (builds [CWait _]) with 0. change (waits [CWait _]) with 1. lia. }
  split; [|subst calls; destruct (Hcount (Z.to_nat (max_restarts (p_policy self))) 0); lia].
  destruct (run_free pow self false env ended calls
    (Err (Exn PipelineFault "critical pipeline exhausted its bounded restart policy")) Hu Hc) as (r & Hr & ->); [|done].
  unfold run_loop, supervise_fuel. apply failing_supervise; [done|lia|]. cbn [used p_policy]. lia.
Qed.

(** ** The camera boundary *)

(** Any number of pipelines on one ownership guard: each with whether its [run] is between its claim
    and its release. *)
Record Process := mkProcess {
  pr_camera : CameraOwnership;
  pr_pipelines : gmap nat (ContinuousPipeline * bool)
}.

(** A [run] begins or ends; the loops in between interleave freely and never touch the guard. *)
Inductive process_step : Process -> Process -> Prop :=
  | step_begin s i self self' own :
      pr_pipelines s !! i = Some (self, false) ->
      run_begin self (pr_camera s) = (self', Ok own) ->
      process_step s (mkProcess own (<[i := (self', true)]> (pr_pipelines s)))
  | step_refused s i self running self' e :
      pr_pipelines s !! i = Some (self, running) ->
      run_begin self (pr_camera s) = (self', Err e) ->
      process_step s (mkProcess (pr_camera s) (<[i := (self', running)]> (pr_pipelines s)))
  | step_end s i self own out ended r :
      pr_pipelines s !! i = Some (self, true) ->
      run_end self (pr_camera s) out ended = (own, r) ->
      process_step s (mkProcess own (<[i := (self, false)]> (pr_pipelines s))).

(** From fresh pipelines on a free camera. *)
Inductive process_reachable (pipelines : gmap nat ContinuousPipeline) : Process -> Prop :=
  | process_start :
      process_reachable pipelines (mkProcess None ((fun c => (c, false)) <$> pipelines))
  | process_next s s' :
      process_reachable pipelines s -> process_step s s' -> process_reachable pipelines s'.

(** The guard names the one running pipeline. *)
Definition camera_ok (s : Process) : Prop :=
  (forall i self, pr_pipelines s !! i = Some (self, true) ->
     p_used self = true /\ pr_camera s = Some (p_owner self)) /\
  (forall i j self self', pr_pipelines s !! i = Some (self, true) ->
     pr_pipelines s !! j = Some (self', true) -> i = j) /\
  (pr_camera s <> None -> exists i self, pr_pipelines s !! i = Some (self, true)).

Lemma run_begin_ok self own self' own' :
  run_begin self own = (self', Ok own') ->
  own = None /\ own' = Some (p_owner self) /\ self' = used self /\ p_used self = false.
Proof.
  unfold run_begin, claim. destruct (p_used self); [done|]. intros [= <- H].
  destruct (_ || _); [done|]. destruct own; [done|]. by injection H as <-.
Qed.

Lemma run_begin_err self own self' e :
  run_begin self own = (self', Err e) -> p_owner self' = p_owner self /\ (p_used self = true -> self' = self).
Proof. unfold run_begin. destruct (p_used self); intros [= <- _]; auto. split; done. Qed.

Lemma run_end_owner self own out ended :
  own = Some (p_owner self) ->
  run_end self own out ended =
    (None, match out with
           | Err e => Err e
           | Ok n => Ok (mkPipelineResult n (optional_failures (p_branches self) ended))
           end).
Proof. intros ->. unfold run_end, release. by rewrite bool_decide_true. Qed.

Lemma camera_step s s' : camera_ok s -> process_step s s' -> camera_ok s'.
Proof.
  intros (Hrun & Huniq & Hsome) Hstep. unfold camera_ok.
  destruct Hstep as [s i self self' own Hi Hb|s i self running self' e Hi Hb|s i self own out ended r Hi He]; cbn.
  - apply run_begin_ok in Hb as (Hfree & -> & -> & Hu).
    assert (forall j x, j <> i -> pr_pipelines s !! j = Some (x, true) -> False) as Hno.
    { intros j x _ Hj. apply Hrun in Hj as [_ Hj]. congruence. }
    split_and!.
    + intros j x. destruct (decide (i = j)) as [->|Hne].
      * rewrite lookup_insert_eq. by intros [= <-].
      * rewrite lookup_insert_ne by done. intros Hj. by destruct (Hno j x).
    + intros j k x y. destruct (decide (i = j)) as [->|Hj], (decide (j = k)) as [->|Hk]; try done.
      * intros _. rewrite lookup_insert_ne by done. intros H. by destruct (Hno k y).
      * rewrite lookup_insert_ne by done. intros H. by destruct (Hno j x).
    + intros _. exists i, (used self). by rewrite lookup_insert_eq.
  - apply run_begin_err in Hb as [Ho Hu].
    assert (forall j x, <[i:=(self', running)]> (pr_pipelines s) !! j = Some (x, true) ->
      exists y, pr_pipelines s !! j = Some (y, true) /\ p_owner x = p_owner y /\ (p_used y = true -> x = y)) as Hback.
    { intros j x. destruct (decide (i = j)) as [->|Hne].
      - rewrite lookup_insert_eq. intros [= <- ->]. eauto.
      - rewrite lookup_insert_ne by done. eauto. }
    split_and!.
    + intros j x (y & Hy & Hxy & Hyx)%Hback. apply Hrun in Hy as [Hused Hown].
      rewrite (Hyx Hused). done.
    + intros j k x y (x' & Hx & _)%Hback (y' & Hy & _)%Hback. by eapply Huniq.
    + intros (j & x & Hj)%Hsome. destruct (decide (i = j)) as [->|Hne].
      * exists j, self'. rewrite lookup_insert_eq. congruence.
      * exists j, x. by rewrite lookup_insert_ne.
  - destruct (Hrun i self Hi) as [_ Hown]. rewrite run_end_owner in He by done. injection He as <- <-.
    assert (forall j x, <[i:=(self, false)]> (pr_pipelines s) !! j = Some (x, true) -> False) as Hno.
    { intros j x. destruct (decide (i = j)) as [->|Hne]; [by rewrite lookup_insert_eq|].
      rewrite lookup_insert_ne by done. intros Hj. by apply Hne, (Huniq i j self x). }
    split_and!; [by intros j x []%Hno|by intros j k x y []%Hno|done].
Qed.

Lemma camera_reachable ps s : process_reachable ps s -> camera_ok s.
Proof.
  induction 1 as [|s s' _ IH Hs]; [|by eapply camera_step].
  split_and!; cbn; [| |done].
  - intros i self. rewrite lookup_fmap. by destruct (ps !! i).
  - intros i j self self'. rewrite !lookup_fmap. by destruct (ps !! i).
Qed.

(** the camera has one owner: in every state that pipelines sharing the guard can reach, by any
    interleaving of their runs and whatever their owner names, at most one of them is between its
    claim and its release, the guard holds exactly its name, a second claim is refused, and
    ending its run always frees the camera and delivers the outcome of the loop. *)
Theorem camera_exclusive ps s i self :
  process_reachable ps s -> pr_pipelines s !! i = Some (self, true) ->
  pr_camera s = Some (p_owner self) /\
  (forall j other running, pr_pipelines s !! j = Some (other, running) -> j <> i -> running = false /\
     exists other' e, run_begin other (pr_camera s) = (other', Err e)) /\
  (forall out ended, run_end self (pr_camera s) out ended =
     (None, match out with
            | Err e => Err e
            | Ok n => Ok (mkPipelineResult n (optional_failures (p_branches self) ended))
            end)).
Proof.
  intros (Hrun & Huniq & _)%camera_reachable Hi. destruct (Hrun i self Hi) as [_ Hown].
  split; [done|]. split; [|intros out ended; by apply run_end_owner].
  intros j other running Hj Hne. destruct running; [by destruct Hne; apply (Huniq j i other self)|].
  split; [done|]. unfold run_begin, claim. rewrite Hown.
  destruct (p_used other); [by eexists _, _|]. destruct (_ || _); by eexists _, _.
Qed.

(** ** A recorder whose camera fails once *)

(** Repeated multiplication, for the powers of two of the default policy. *)
Fixpoint power_nat (x : float) (n : nat) : float :=
  match n with O => literal "1" | S n' => fmul (power_nat x n') x end.

Definition demo_pow (x : float) (n : Z) : float := power_nat x (Z.to_nat n).

Definition demo_restart_policy : RestartPolicy :=
  mkRestartPolicy 3 (literal "1.0") (literal "60.0") (literal "2.0") (literal "20.0").

Definition demo_profile : VideoProfile := mkProfile 1920 1080 30 (u "h264") true true.

Definition demo_pipeline : ContinuousPipeline :=
  mkPipeline (u "recorder") demo_profile demo_restart_policy [u "audio"] false.

Definition failing_attempt : Attempt :=
  mkAttempt None (Ok demo_profile) (Some (Exn RecoverablePipelineError "camera lost")) false CleanStop false
    (Ok false) false.

(** The second attempt runs until it is asked to stop. *)
Definition demo_env (i : nat) : Attempt :=
  match i with
  | O => failing_attempt
  | _ => mkAttempt None (Ok demo_profile) None true CleanStop true (Ok false) false
  end.

Example demo_run :
  run demo_pow demo_pipeline None false demo_env [(0%nat, BReturned true)] =
    Some (used demo_pipeline, None,
          [CBuild; CStart; CRun; CStop; CWait (literal "1"); CBuild; CStart; CRun; CStop],
          Ok (mkPipelineResult 1 [])).
Proof. vm_compute. reflexivity. Qed.

Lemma supervision_bounded_witness :
  exists calls r, run demo_pow demo_pipeline None false demo_env [] = Some (used demo_pipeline, None, calls, r) /\
    builds calls <= 4.
Proof.
  destruct (supervision_bounded demo_pow demo_pipeline false demo_env []) as (calls & r & Hr & _ & Hb & _);
    [vm_compute; reflexivity|reflexivity|vm_compute; reflexivity|].
  exists calls, r. split; [exact Hr|exact Hb].
Defined.

Lemma persistent_failure_exhausts_witness :
  exists calls e, run demo_pow demo_pipeline None false (fun _ => failing_attempt) [] =
    Some (used demo_pipeline, None, calls, Err e) /\ builds calls = 4 /\ waits calls = 3.
Proof.
  destruct (persistent_failure_exhausts demo_pow demo_pipeline (fun _ => failing_attempt) [])
    as (Hr & Hb & Hw);
    [vm_compute; reflexivity|reflexivity|vm_compute; reflexivity
    |intros i; repeat split; exists "camera lost"%string; reflexivity|].
  eexists. eexists. split; [exact Hr|split; [exact Hb|exact Hw]].
Defined.

Definition demo_process : Process :=
  mkProcess (Some (u "recorder"))
    (<[0%nat := (used demo_pipeline, true)]> ((fun c => (c, false)) <$> {[0%nat := demo_pipeline]})).

Lemma demo_process_reachable : process_reachable {[0%nat := demo_pipeline]} demo_process.
Proof.
  eapply process_next; [apply process_start|]. unfold demo_process. eapply step_begin; vm_compute; reflexivity.
Qed.

Lemma camera_exclusive_witness :
  pr_camera demo_process = Some (u "recorder") /\
  run_end (used demo_pipeline) (pr_camera demo_process) (Ok 0) [] = (None, Ok (mkPipelineResult 0 
    (optional_failures [u "audio"] []))).
Proof.
  destruct (camera_exclusive {[0%nat := demo_pipeline]} demo_process 0%nat (used demo_pipeline)
    demo_process_reachable) as (Hc & _ & He); [vm_compute; reflexivity|].
  split; [exact Hc|exact (He (Ok 0) [])].
Defined.
