(* ===== verification/PyRepr.v ===== *)
(** * The decimal text of a float

    [repr] of a binary64 value: the shortest decimal that reads back to it, the closest one of that
    length when there are two, in positional or exponent form. Seventeen digits are always enough for
    a binary64 value, and are the last length tried. *)

From Stdlib Require Import Ascii String ZArith SpecFloat Lia.
From stdpp Require Import base list strings.
From S2P Require Import Prelude PyStr PyFloat.

(** [float] of the exact value [n * 10 ^ e], rounded once; an overflow is infinite. *)
Definition decimal_exp (n e : Z) : float :=
  if 0 <=? e then binary_normalize float_prec float_emax (n * 10 ^ e) 0 false
  else decimal n (Z.to_nat (- e)).

(** The exact ratio of a positive finite value. *)
Definition float_ratio (m : positive) (e : Z) : Z * Z :=
  if 0 <=? e then (Zpos m * 2 ^ e, 1) else (Zpos m, 2 ^ (- e)).

(** The [d] with [10 ^ (d - 1) <= num / den < 10 ^ d]. *)
Definition decimal_point (num den : Z) : Z :=
  if den <=? num then Z.of_nat (ndigits (num / den)) else 1 - Z.of_nat (ndigits ((den - 1) / num)).

(** The integers next to [num / den * 10 ^ a]. *)
Definition scaled (num den a : Z) : Z * Z :=
  if 0 <=? a then (num * 10 ^ a, den) else (num, den * 10 ^ (- a)).

Definition nearest (f r sd : Z) : Z :=
  if 2 * r <? sd then f else if sd <? 2 * r then f + 1 else if Z.even f then f else f + 1.

(** The decimal of [k] digits that reads back to [x], if there is one. *)
Definition digits_for (x : float) (num den point k : Z) : option Z :=
  let a := k - point in
  let '(sn, sd) := scaled num den a in
  let f := sn / sd in
  let r := sn mod sd in
  let low := bool_decide (decimal_exp f (- a) = x) in
  let high := bool_decide (decimal_exp (f + 1) (- a) = x) in
  if low && high then Some (nearest f r sd)
  else if low then Some f
  else if high then Some (f + 1)
  else None.

(** The digits and their power of ten, trying [k] digits and more. *)
Fixpoint shortest (fuel : nat) (x : float) (num den point k : Z) : Z * Z :=
  match digits_for x num den point k, fuel with
  | Some n, _ => (n, point - k)
  | None, S fuel' => shortest fuel' x num den point (k + 1)
  | None, O => let '(sn, sd) := scaled num den (k - point) in (nearest (sn / sd) (sn mod sd) sd, point - k)
  end.

(** Without the zeros at the end. *)
Definition strip_zeros (s : str) : str := rstrip_by (char_eqb "0") s.

Definition zeros (n : Z) : str := repeat "0"%char (Z.to_nat n).

(** A value [0.d1d2... * 10 ^ point] in the form [repr] gives it. *)
Definition format_digits (ds : str) (point : Z) : str :=
  let n := len ds in
  if (-4 <? point) && (point <=? 16) then
    if point <=? 0 then u "0." ++ zeros (- point) ++ ds
    else if n <=? point then ds ++ zeros (point - n) ++ u ".0"
    else take (Z.to_nat point) ds ++ u "." ++ drop (Z.to_nat point) ds
  else
    let e := point - 1 in
    take 1 ds ++ (if n <=? 1 then [] else u "." ++ drop 1 ds) ++
    u "e" ++ (if e <? 0 then u "-" else u "+") ++ zpad 2 (Z.abs e).

Definition repr_positive (m : positive) (e : Z) : str :=
  let '(num, den) := float_ratio m e in
  let '(n, e10) := shortest 16 (S754_finite false m e) num den (decimal_point num den) 1 in
  let ds := zpad 0 n in
  format_digits (strip_zeros ds) (len ds + e10).

Definition float_repr (x : float) : str :=
  match x with
  | S754_zero s => (if s then u "-" else []) ++ u "0.0"
  | S754_finite s m e => (if s then u "-" else []) ++ repr_positive m e
  | S754_infinity s => (if s then u "-" else []) ++ u "inf"
  | S754_nan => u "nan"
  end.

Example repr_tenth : float_repr (literal "0.1") = u "0.1".
Proof. vm_compute. reflexivity. Qed.

Example repr_thirty : float_repr (literal "30.0") = u "30.0".
Proof. vm_compute. reflexivity. Qed.

Example repr_small : float_repr (literal "0.00001") = u "1e-05".
Proof. vm_compute. reflexivity. Qed.

Example repr_power : float_repr (S754_finite false 4503599627370496 (-96)) = u "5.684341886080802e-14".
Proof. vm_compute. reflexivity. Qed.

Example repr_large : float_repr (float_of_int 123456789012345680) = u "1.2345678901234568e+17".
Proof. vm_compute. reflexivity. Qed.
