(* ===== verification/Json.v ===== *)
(** * JSON text

    [json.dumps] with ASCII output, no insignificant whitespace and sorted keys, and [json.loads] with
    its object and constant hooks: the sidecar codec's refuse duplicate keys, NaN and the infinities,
    the defaults keep the last of two members and read the constants as floats. *)

From Stdlib Require Import Ascii String ZArith SpecFloat Lia Strings.Byte.
From stdpp Require Import base list strings.
From S2P Require Import Prelude PyStr PyFloat PyRepr Uuid.

Inductive value :=
  | VNull
  | VBool (b : bool)
  | VInt (z : Z)
  | VFloat (x : float)
  | VStr (s : str)
  | VList (l : list value)
  | VObj (fields : list (str * value)).

(** ** Printing *)

Definition quote_char : ascii := chr 34.
Definition backslash : ascii := chr 92.

(** One character of a string, escaped outside printable ASCII. *)
Definition escape_char (c : ascii) : str :=
  if char_eqb c quote_char then [backslash; quote_char]
  else if char_eqb c backslash then [backslash; backslash]
  else if in_range 32 126 c then [c]
  else
    match ord c with
    | 8 => [backslash; "b"%char]
    | 12 => [backslash; "f"%char]
    | 10 => [backslash; "n"%char]
    | 13 => [backslash; "r"%char]
    | 9 => [backslash; "t"%char]
    | n => backslash :: "u"%char :: hex_fixed 4 n
    end.

Definition quote (s : str) : str := quote_char :: concat (map escape_char s) ++ [quote_char].

Definition int_text (z : Z) : str := (if z <? 0 then u "-" else []) ++ zpad 0 (Z.abs z).

Fixpoint dumps (v : value) : str :=
  match v with
  | VNull => u "null"
  | VBool b => if b then u "true" else u "false"
  | VInt z => int_text z
  | VFloat x => float_repr x
  | VStr s => quote s
  | VList l => u "[" ++ join_with "," (map dumps l) ++ u "]"
  | VObj fields =>
      u "{" ++ join_with "," (map (fun '(k, v) => quote k ++ u ":" ++ dumps v) fields) ++ u "}"
  end.

(** The order of keys, by code points. *)
Definition key_leb (a b : str) : bool := String.leb (string_of_list_ascii a) (string_of_list_ascii b).

Fixpoint sorted_keys (v : value) : value :=
  match v with
  | VList l => VList (map sorted_keys l)
  | VObj fields =>
      VObj (sort_by (fun a b => key_leb (fst a) (fst b)) (map (fun '(k, v) => (k, sorted_keys v)) fields))
  | v => v
  end.

(** ** Reading *)

Definition json_error {A} : result A := Err (Exn JSONDecodeError "malformed JSON").

Definition is_ws (c : ascii) : bool := one_of " " c || in_range 9 10 c || (ord c =? 13).

Definition skip_ws (s : str) : str := lstrip_by is_ws s.

(** Code points above Latin-1 are outside the texts modelled ([PyStr]). *)
Definition outside_text {A} : result A := Err (Exn OtherException "a character outside Latin-1").

(** The rest of a string after its opening quote. *)
Fixpoint scan_string (fuel : nat) (s : str) : result (str * str) :=
  match fuel with
  | O => json_error
  | S fuel' =>
      match s with
      | [] => json_error
      | c :: r =>
          if char_eqb c quote_char then Ok ([], r)
          else if char_eqb c backslash then
            match r with
            | [] => json_error
            | x :: r' =>
                if char_eqb x "u" then
                  match eat_n is_hex 4 r' with
                  | None => json_error
                  | Some (h, r'') =>
                      let n := foldl (fun acc c => acc * 16 + hex_value c) 0 h in
                      if 255 <? n then outside_text
                      else let! (t, rest) := scan_string fuel' r'' in Ok (chr n :: t, rest)
                  end
                else
                  match (if char_eqb x quote_char then Some x
                         else if char_eqb x backslash then Some x
                         else if char_eqb x "/" then Some x
                         else if char_eqb x "b" then Some (chr 8)
                         else if char_eqb x "f" then Some (chr 12)
                         else if char_eqb x "n" then Some (chr 10)
                         else if char_eqb x "r" then Some (chr 13)
                         else if char_eqb x "t" then Some (chr 9)
                         else None) with
                  | None => json_error
                  | Some y => let! (t, rest) := scan_string fuel' r' in Ok (y :: t, rest)
                  end
            end
          else if ord c <? 32 then json_error
          else let! (t, rest) := scan_string fuel' r in Ok (c :: t, rest)
      end
  end.

(** The integer digits of a number: a zero, or digits that do not start with one. *)
Definition lex_integer (s : str) : option (str * str) :=
  match s with
  | c :: r => if char_eqb c "0" then Some ([c], r)
              else if is_digit c then let '(d, r') := span is_digit r in Some (c :: d, r') else None
  | [] => None
  end.

(** A point and its digits, when both are there. *)
Definition lex_fraction (s : str) : option (str * str) :=
  match s with
  | c :: r =>
      if char_eqb c "." then
        let '(d, r') := span is_digit r in if bool_decide (d = []) then None else Some (d, r')
      else None
  | [] => None
  end.

(** An exponent mark, a sign and digits, when the digits are there. *)
Definition lex_exponent (s : str) : option (Z * str) :=
  match s with
  | c :: r =>
      if char_eqb c "e" || char_eqb c "E" then
        let '(negative, r1) :=
          match r with
          | x :: r' => if char_eqb x "-" then (true, r') else if char_eqb x "+" then (false, r') else (false, r)
          | [] => (false, r)
          end in
        let '(d, r2) := span is_digit r1 in
        if bool_decide (d = []) then None
        else Some (if (negative : bool) then - int_of_digits d else int_of_digits d, r2)
      else None
  | [] => None
  end.

(** [int] refuses more digits than this. *)
Definition max_str_digits : Z := 4300.

Definition lex_number (s : str) : result (value * str) :=
  let '(negative, r) :=
    match s with
    | c :: r => if char_eqb c "-" then (true, r) else (false, s)
    | [] => (false, s)
    end in
  match lex_integer r with
  | None => json_error
  | Some (whole, r1) =>
      let fraction := lex_fraction r1 in
      let r2 := match fraction with Some (_, r') => r' | None => r1 end in
      let exponent := lex_exponent r2 in
      let r3 := match exponent with Some (_, r') => r' | None => r2 end in
      match fraction, exponent with
      | None, None =>
          raise_if max_str_digits <? len whole
            as ValueError msg "Exceeds the limit (4300 digits) for integer string conversion" ;;
          let n := int_of_digits whole in
          Ok (VInt (if (negative : bool) then - n else n), r3)
      | _, _ =>
          let f := match fraction with Some (f, _) => f | None => [] end in
          let e := match exponent with Some (e, _) => e | None => 0 end in
          let x := decimal_exp (int_of_digits (whole ++ f)) (e - len f) in
          Ok (VFloat (if (negative : bool) then fneg x else x), r3)
      end
  end.

(** The [object_pairs_hook] and [parse_constant] arguments. *)
Class JsonHooks := {
  object_pairs_hook : list (str * value) -> result value;
  parse_constant : str -> result value
}.

Section Scan.
Context {hooks : JsonHooks}.

(** A value at the beginning of a text, and what follows it. *)
Fixpoint scan_value (fuel : nat) (s : str) : result (value * str) :=
  match fuel with
  | O => json_error
  | S fuel' =>
      match s with
      | [] => json_error
      | c :: r =>
          if char_eqb c quote_char then let! (t, rest) := scan_string (length s) r in Ok (VStr t, rest)
          else if char_eqb c "{" then
            match skip_ws r with
            | x :: r' => if char_eqb x "}" then let! v := object_pairs_hook [] in Ok (v, r')
                         else let! (fields, rest) := scan_members fuel' (x :: r') in
                              let! v := object_pairs_hook fields in Ok (v, rest)
            | [] => json_error
            end
          else if char_eqb c "[" then
            match skip_ws r with
            | x :: r' => if char_eqb x "]" then Ok (VList [], r')
                         else let! (l, rest) := scan_elements fuel' (x :: r') in Ok (VList l, rest)
            | [] => json_error
            end
          else
            match eat (u "null") s, eat (u "true") s, eat (u "false") s with
            | Some rest, _, _ => Ok (VNull, rest)
            | _, Some rest, _ => Ok (VBool true, rest)
            | _, _, Some rest => Ok (VBool false, rest)
            | _, _, _ =>
                match eat (u "NaN") s, eat (u "Infinity") s, eat (u "-Infinity") s with
                | Some rest, _, _ => let! v := parse_constant (u "NaN") in Ok (v, rest)
                | _, Some rest, _ => let! v := parse_constant (u "Infinity") in Ok (v, rest)
                | _, _, Some rest => let! v := parse_constant (u "-Infinity") in Ok (v, rest)
                | _, _, _ => lex_number s
                end
            end
      end
  end

(** Elements after the opening bracket, and what follows the closing one. *)
with scan_elements (fuel : nat) (s : str) : result (list value * str) :=
  match fuel with
  | O => json_error
  | S fuel' =>
      let! (v, r) := scan_value fuel' s in
      match skip_ws r with
      | c :: r' =>
          if char_eqb c "]" then Ok ([v], r')
          else if char_eqb c "," then let! (l, rest) := scan_elements fuel' (skip_ws r') in Ok (v :: l, rest)
          else json_error
      | [] => json_error
      end
  end

(** Members after the opening brace, and what follows the closing one. *)
with scan_members (fuel : nat) (s : str) : result (list (str * value) * str) :=
  match fuel with
  | O => json_error
  | S fuel' =>
      match s with
      | [] => json_error
      | q :: r =>
          if negb (char_eqb q quote_char) then json_error
          else
            let! (k, r1) := scan_string (length s) r in
            match skip_ws r1 with
            | c :: r2 =>
                if negb (char_eqb c ":") then json_error
                else
                  let! (v, r3) := scan_value fuel' (skip_ws r2) in
                  match skip_ws r3 with
                  | d :: r4 =>
                      if char_eqb d "}" then Ok ([(k, v)], r4)
                      else if char_eqb d "," then
                        let! (l, rest) := scan_members fuel' (skip_ws r4) in Ok ((k, v) :: l, rest)
                      else json_error
                  | [] => json_error
                  end
            | [] => json_error
            end
      end
  end.

(** The whole text. Every call of the scanners consumes a character, or is the first of an element or
    member, so that twice the length is enough fuel. *)
Definition loads (s : str) : result value :=
  let! (v, rest) := scan_value (2 * length s + 2) (skip_ws s) in
  match skip_ws rest with
  | [] => Ok v
  | _ => json_error
  end.
End Scan.

(** ** The hooks of the sidecar codec *)

Definition without_duplicates (fields : list (str * value)) : result value :=
  raise_if negb (bool_decide (NoDup (map fst fields))) as SidecarParseError msg "duplicate JSON key" ;;
  Ok (VObj fields).

Definition strict_hooks : JsonHooks := {|
  object_pairs_hook := without_duplicates;
  parse_constant := fun _ => Err (Exn SidecarParseError "non-JSON numeric constant")
|}.

(** ** The default hooks *)

(** [d[k] = v] keeps the place of a key it already holds. *)
Fixpoint set_item (k : str) (v : value) (d : list (str * value)) : list (str * value) :=
  match d with
  | [] => [(k, v)]
  | (k', v') :: d' => if bool_decide (k = k') then (k, v) :: d' else (k', v') :: set_item k v d'
  end.

Definition default_hooks : JsonHooks := {|
  object_pairs_hook fields := Ok (VObj (foldl (fun d '(k, v) => set_item k v d) [] fields));
  parse_constant name :=
    Ok (VFloat (if bool_decide (name = u "NaN") then S754_nan
                else S754_infinity (bool_decide (name = u "-Infinity"))))
|}.
