(* ===== verification/JsonProperties.v ===== *)
(** * JSON round trip

    [loads] reads back what [dumps] prints, for values whose numbers have a text that reads back and
    whose objects have distinct keys. *)

From Stdlib Require Import Ascii String ZArith Lia.
From stdpp Require Import base list strings.
From S2P Require Import Prelude PyStr PyFloat PyRepr Uuid Json.

(** Induction through the nested lists. *)
Section Induction.
Context (P : value -> Prop).
Context (Hnull : P VNull) (Hbool : forall b, P (VBool b)) (Hint : forall z, P (VInt z))
  (Hfloat : forall x, P (VFloat x)) (Hstr : forall s, P (VStr s))
  (Hlist : forall l, Forall P l -> P (VList l))
  (Hobj : forall fields, Forall (fun kv => P (snd kv)) fields -> P (VObj fields)).

Fixpoint value_nested_ind (v : value) : P v :=
  match v with
  | VNull => Hnull
  | VBool b => Hbool b
  | VInt z => Hint z
  | VFloat x => Hfloat x
  | VStr s => Hstr s
  | VList l =>
      Hlist l ((fix go l : Forall P l :=
        match l with [] => Forall_nil_2 _ | v :: l' => Forall_cons_2 _ _ _ (value_nested_ind v) (go l') end) l)
  | VObj fields =>
      Hobj fields ((fix go l : Forall (fun kv => P (snd kv)) l :=
        match l with
        | [] => Forall_nil_2 _
        | kv :: l' => Forall_cons_2 _ _ _ (value_nested_ind (snd kv)) (go l')
        end) fields)
  end.
End Induction.

(** ** Strings *)

Lemma scan_escaped c fuel r :
  scan_string (S fuel) (escape_char c ++ r) = let! (t, rest) := scan_string fuel r in Ok (c :: t, rest).
Proof. destruct c as [[] [] [] [] [] [] [] []]; reflexivity. Qed.

Lemma scan_quoted s fuel rest :
  (length s < fuel)%nat -> scan_string fuel (concat (map escape_char s) ++ quote_char :: rest) = Ok (s, rest).
Proof.
  revert fuel. induction s as [|c s IH]; intros [|fuel] Hf; simpl in Hf; try lia; [reflexivity|].
  cbn [map concat]. rewrite <-app_assoc, scan_escaped, IH by lia. reflexivity.
Qed.

Lemma escape_length c : (1 <= length (escape_char c))%nat.
Proof. destruct c as [[] [] [] [] [] [] [] []]; vm_compute; lia. Qed.

Lemma quoted_length s : (length s <= length (concat (map escape_char s)))%nat.
Proof.
  induction s as [|c s IH]; cbn [map concat length]; [lia|]. rewrite length_app. pose proof (escape_length c). lia.
Qed.

(** ** Numbers *)

(** No character of the text that follows continues a number. *)
Definition number_char (c : ascii) : bool := is_digit c || one_of ".eE" c.

Definition number_ends (rest : str) : Prop := forall c r, rest = c :: r -> number_char c = false.

Lemma number_char_facts c :
  number_char c = false ->
  is_digit c = false /\ char_eqb c "." = false /\ (char_eqb c "e" || char_eqb c "E") = false.
Proof. destruct c as [[] [] [] [] [] [] [] []]; vm_compute; try discriminate; done. Qed.

Lemma number_ends_digit rest : number_ends rest -> forall c r, rest = c :: r -> is_digit c = false.
Proof. intros H c r Hr. apply (number_char_facts c), (H c r Hr). Qed.

Lemma number_ends_fraction rest : number_ends rest -> lex_fraction rest = None.
Proof.
  intros H. destruct rest as [|c r]; [done|]. simpl. destruct (number_char_facts c (H c r eq_refl)) as (_ & -> & _). done.
Qed.

Lemma number_ends_exponent rest : number_ends rest -> lex_exponent rest = None.
Proof.
  intros H. destruct rest as [|c r]; [done|]. unfold lex_exponent.
  destruct (number_char_facts c (H c r eq_refl)) as (_ & _ & ->). done.
Qed.

Lemma span_app_more f s rest a b :
  span f s = (a, b) -> (forall c r, rest = c :: r -> f c = false) -> span f (s ++ rest) = (a, b ++ rest).
Proof.
  intros Hs Hr. revert a b Hs. induction s as [|c s IH]; intros a b; simpl.
  - intros [= <- <-]. rewrite <-(app_nil_l rest) at 1. by rewrite (span_app_end f []).
  - destruct (f c); [|by intros [= <- <-]]. destruct (span f s) as [a' b']. intros [= <- <-]. by rewrite (IH a' b').
Qed.

Lemma lex_integer_app s rest a b :
  number_ends rest -> lex_integer s = Some (a, b) -> lex_integer (s ++ rest) = Some (a, b ++ rest).
Proof.
  intros Hr. destruct s as [|c s]; [done|]. simpl. destruct (char_eqb c "0"); [by intros [= <- <-]|].
  destruct (is_digit c); [|done]. destruct (span is_digit s) as [d r'] eqn:E. intros [= <- <-].
  by rewrite (span_app_more _ _ _ _ _ E (number_ends_digit rest Hr)).
Qed.

Lemma lex_fraction_app s rest :
  number_ends rest ->
  lex_fraction (s ++ rest) = match lex_fraction s with Some (f, r) => Some (f, r ++ rest) | None => None end.
Proof.
  intros Hr. destruct s as [|c s]; [by apply number_ends_fraction|]. simpl. destruct (char_eqb c "."); [|done].
  destruct (span is_digit s) as [d r'] eqn:E.
  rewrite (span_app_more _ _ _ _ _ E (number_ends_digit rest Hr)). by destruct (bool_decide _).
Qed.

Lemma lex_exponent_app s rest :
  number_ends rest -> lex_exponent s <> None \/ s = [] ->
  lex_exponent (s ++ rest) = match lex_exponent s with Some (e, r) => Some (e, r ++ rest) | None => None end.
Proof.
  intros Hr [Hs| ->]; [|by apply number_ends_exponent]. destruct s as [|c s]; [done|].
  unfold lex_exponent in *. cbn [app]. destruct (char_eqb c "e" || char_eqb c "E"); [|done].
  destruct s as [|x s]; [done|]. cbn [app].
  destruct (char_eqb x "-"); [|destruct (char_eqb x "+")].
  - destruct (span is_digit s) as [d r'] eqn:E.
    rewrite (span_app_more _ _ _ _ _ E (number_ends_digit rest Hr)). by destruct (bool_decide _).
  - destruct (span is_digit s) as [d r'] eqn:E.
    rewrite (span_app_more _ _ _ _ _ E (number_ends_digit rest Hr)). by destruct (bool_decide _).
  - destruct (span is_digit (x :: s)) as [d r'] eqn:E.
    change (x :: s ++ rest) with ((x :: s) ++ rest).
    rewrite (span_app_more _ _ _ _ _ E (number_ends_digit rest Hr)). by destruct (bool_decide _).
Qed.

(** A complete number reads the same before a text that does not continue it. *)
Lemma lex_number_app t v rest :
  lex_number t = Ok (v, []) -> number_ends rest -> lex_number (t ++ rest) = Ok (v, rest).
Proof.
  intros Ht Hr. destruct t as [|c t]; [done|]. unfold lex_number in *. cbn [app].
  assert (exists negative r, (if char_eqb c "-" then (true, t) else (false, c :: t)) = (negative, r) /\
    (if char_eqb c "-" then (true, t ++ rest) else (false, c :: t ++ rest)) = (negative, r ++ rest))
    as (negative & r & E & ->) by (destruct (char_eqb c "-"); eexists _, _; split; reflexivity).
  rewrite E in Ht. clear E.
  destruct (lex_integer r) as [[whole r1]|] eqn:Ei; [|done]. rewrite (lex_integer_app _ rest _ _ Hr Ei).
  rewrite (lex_fraction_app _ rest Hr).
  destruct (lex_fraction r1) as [[f r2]|] eqn:Ef.
  - assert (lex_exponent r2 <> None \/ r2 = []) as He.
    { destruct (lex_exponent r2) as [[e r3]|] eqn:Ee; [left; congruence|right].
      injection Ht as _ <-. done. }
    rewrite (lex_exponent_app _ rest Hr He). destruct (lex_exponent r2) as [[e r3]|]; by injection Ht as <- ->.
  - assert (lex_exponent r1 <> None \/ r1 = []) as He.
    { destruct (lex_exponent r1) as [[e r3]|] eqn:Ee; [left; congruence|right].
      destruct (_ <? _) in Ht; [done|]. injection Ht as _ <-. done. }
    rewrite (lex_exponent_app _ rest Hr He). destruct (lex_exponent r1) as [[e r3]|]; [by injection Ht as <- ->|].
    destruct (_ <? _); [done|]. by injection Ht as <- ->.
Qed.

(** A float whose text reads back. *)
Definition float_reads_back (x : float) : bool :=
  match lex_number (float_repr x) with
  | Ok (VFloat y, []) => bool_decide (y = x)
  | _ => false
  end.

(** An integer the limit on digits lets through. *)
Definition int_reads_back (z : Z) : bool := Z.abs z <? 10 ^ 4300.

Lemma len_zpad_0 n w : (1 <= w)%nat -> 0 <= n < 10 ^ Z.of_nat w -> len (zpad 0 n) <= Z.of_nat w.
Proof.
  intros Hw Hn. unfold len, zpad, ndigits. rewrite digits_fixed_length, Nat.max_0_l.
  pose proof (ndigits_fuel_le (Z.to_nat (Z.log2 n)) n w Hw Hn). lia.
Qed.

Lemma lex_digits n : 0 <= n -> lex_integer (zpad 0 n) = Some (zpad 0 n, []).
Proof.
  intros Hn. destruct (decide (n = 0)) as [->|Hz]; [reflexivity|].
  destruct (zpad_0_head n ltac:(lia)) as (c & r & E & Hc & H0).
  assert (Forall (fun c => is_digit c = true) (zpad 0 n)) as Hd by apply digits_fixed_digits.
  rewrite E in *. apply Forall_cons in Hd as [_ Hr]. simpl.
  rewrite (proj2 (char_eqb_neq c "0") H0), Hc.
  rewrite <-(app_nil_r r) at 1. by rewrite span_app_end.
Qed.

Lemma lex_int_text z : int_reads_back z = true -> lex_number (int_text z) = Ok (VInt z, []).
Proof.
  unfold int_reads_back, int_text. intros Hz. bool_prop.
  assert (len (zpad 0 (Z.abs z)) <= 4300) as Hl.
  { change 4300 with (Z.of_nat 4300). apply len_zpad_0; [lia|]. split; [lia|]. 
    replace (Z.of_nat 4300) with 4300 by lia. done. }
  pose proof (lex_digits (Z.abs z) ltac:(lia)) as Hd. pose proof (zpad_0_int (Z.abs z) ltac:(lia)) as Hi.
  assert (forall c r, zpad 0 (Z.abs z) = c :: r -> char_eqb c "-" = false) as Hminus.
  { intros c r E. pose proof (digits_fixed_digits (Nat.max 0 (ndigits (Z.abs z))) (Z.abs z)) as Hf.
    fold (zpad 0 (Z.abs z)) in Hf. rewrite E in Hf. apply Forall_cons in Hf as [Hc _].
    apply char_eqb_neq. intros ->. done. }
  unfold lex_number, max_str_digits. destruct (z <? 0) eqn:E; bool_prop.
  - change (u "-" ++ zpad 0 (Z.abs z)) with ("-"%char :: zpad 0 (Z.abs z)). cbn [char_eqb Ascii.eqb Bool.eqb].
    change (char_eqb "-" "-") with true. cbv iota. rewrite Hd. cbn [lex_fraction lex_exponent].
    replace (4300 <? len (zpad 0 (Z.abs z))) with false by lia. rewrite Hi. f_equal. f_equal. f_equal. lia.
  - cbn [app]. destruct (zpad 0 (Z.abs z)) as [|c r] eqn:Ez; [by apply zpad_0_not_nil in Ez|].
    rewrite (Hminus c r eq_refl). rewrite Hd. cbn [lex_fraction lex_exponent].
    replace (4300 <? len (c :: r)) with false by lia. rewrite Hi. f_equal. f_equal. f_equal. lia.
Qed.

Lemma number_head t v r :
  lex_number t = Ok (v, r) ->
  exists c t', t = c :: t' /\ (is_digit c = true \/ c = "-"%char /\ exists d t'', t' = d :: t'' /\ is_digit d = true).
Proof.
  assert (forall s whole rest, lex_integer s = Some (whole, rest) -> exists c s', s = c :: s' /\ is_digit c = true)
    as Hint.
  { intros s whole rest. destruct s as [|c s]; [done|]. cbn [lex_integer]. intros H. eexists _, _. split; [done|].
    destruct (char_eqb c "0") eqn:E; [apply char_eqb_eq in E; subst; done|]. by destruct (is_digit c). }
  intros H. destruct t as [|c t]; [done|]. eexists _, _. split; [done|]. unfold lex_number in H.
  destruct (char_eqb c "-") eqn:E.
  - right. apply char_eqb_eq in E as ->. split; [done|].
    destruct (lex_integer t) as [[whole rest]|] eqn:Ei; [by apply Hint in Ei|done].
  - left. destruct (lex_integer (c :: t)) as [[whole rest]|] eqn:Ei; [|done].
    apply Hint in Ei as (? & ? & [= <- <-] & ?). done.
Qed.

(** ** Values *)

(** A value whose text reads back. *)
Fixpoint readable (v : value) : bool :=
  match v with
  | VInt z => int_reads_back z
  | VFloat x => float_reads_back x
  | VList l => forallb readable l
  | VObj fields => bool_decide (NoDup (map fst fields)) && forallb (fun '(_, v) => readable v) fields
  | _ => true
  end.

(** The first character of a text is not whitespace, a separator or a closing bracket. *)
Definition value_start (c : ascii) : bool := negb (is_ws c || one_of ",]}:" c).

Lemma digit_start c : is_digit c = true -> value_start c = true.
Proof. destruct c as [[] [] [] [] [] [] [] []]; vm_compute; auto. Qed.

Lemma start_facts c : value_start c = true -> is_ws c = false /\ char_eqb c "]" = false /\ char_eqb c "}" = false.
Proof. destruct c as [[] [] [] [] [] [] [] []]; vm_compute; auto. Qed.

Lemma skip_ws_not_ws c s : is_ws c = false -> skip_ws (c :: s) = c :: s.
Proof. intros H. unfold skip_ws, lstrip_by. cbn [span]. by rewrite H. Qed.

Lemma skip_ws_start c s : value_start c = true -> skip_ws (c :: s) = c :: s.
Proof. intros H. apply skip_ws_not_ws, (start_facts c H). Qed.

Lemma float_text x : float_reads_back x = true -> lex_number (float_repr x) = Ok (VFloat x, []).
Proof.
  unfold float_reads_back. destruct (lex_number (float_repr x)) as [[[] []]|]; try done.
  intros ->%bool_decide_eq_true. done.
Qed.

Lemma number_start t v r : lex_number t = Ok (v, r) -> exists c t', t = c :: t' /\ value_start c = true.
Proof.
  intros (c & t' & -> & Hc)%number_head. eexists _, _. split; [done|].
  destruct Hc as [Hc|[-> _]]; [by apply digit_start|done].
Qed.

Lemma dumps_start v : readable v = true -> exists c t, dumps v = c :: t /\ value_start c = true.
Proof.
  destruct v as [|[]|z|x|s|l|l]; intros H; try (eexists _, _; split; [reflexivity|done]).
  - by eapply number_start, lex_int_text.
  - by eapply number_start, float_text.
Qed.

(** Hooks that take the members of an object with distinct keys as they are. *)
Class PlainObjects (hooks : JsonHooks) : Prop :=
  plain_object fields : NoDup (map fst fields) -> object_pairs_hook fields = Ok (VObj fields).

#[export] Instance strict_plain : PlainObjects strict_hooks.
Proof. intros fields Hd. simpl. unfold without_duplicates. by rewrite bool_decide_true. Qed.

Lemma set_item_new k v d : k ∉ map fst d -> set_item k v d = d ++ [(k, v)].
Proof.
  induction d as [|[k' v'] d IH]; cbn [map set_item fst]; [done|]. intros [Hk Hd]%not_elem_of_cons.
  rewrite bool_decide_false by done. by rewrite IH.
Qed.

#[export] Instance default_plain : PlainObjects default_hooks.
Proof.
  intros fields Hd. simpl. do 2 f_equal.
  enough (forall d, NoDup (map fst (d ++ fields)) ->
    foldl (fun d '(k, v) => set_item k v d) d fields = d ++ fields) as H by by apply (H []).
  clear Hd. induction fields as [|[k v] fields IH]; intros d Hd; cbn [foldl]; [by rewrite app_nil_r|].
  rewrite set_item_new, IH, <-app_assoc; [done|by rewrite <-app_assoc|].
  rewrite map_app in Hd. cbn [map fst] in Hd. apply NoDup_app in Hd as (_ & Hd & _).
  intros Hin. eapply Hd; [exact Hin|]. by left.
Qed.

Section Reading.
Context {hooks : JsonHooks} `{!PlainObjects hooks}.

(** The scanner takes a number for what it is. *)
Lemma scan_number t v rest fuel :
  lex_number t = Ok (v, []) -> number_ends rest -> scan_value (S fuel) (t ++ rest) = Ok (v, rest).
Proof.
  intros Ht Hr. pose proof (lex_number_app t v rest Ht Hr) as Happ.
  apply number_head in Ht as (c & t' & -> & Hc). cbn [app] in *. cbn [scan_value].
  assert (char_eqb c quote_char = false /\ char_eqb c "{" = false /\ char_eqb c "[" = false) as (-> & -> & ->).
  { destruct Hc as [Hc|[-> _]]; [|done]. revert Hc. destruct c as [[] [] [] [] [] [] [] []]; vm_compute; auto; discriminate. }
  assert (eat (u "null") (c :: t' ++ rest) = None /\ eat (u "true") (c :: t' ++ rest) = None /\
    eat (u "false") (c :: t' ++ rest) = None /\ eat (u "NaN") (c :: t' ++ rest) = None /\
    eat (u "Infinity") (c :: t' ++ rest) = None) as (-> & -> & -> & -> & ->).
  { change (u "null") with ("n" :: u "ull")%char; change (u "true") with ("t" :: u "rue")%char;
    change (u "false") with ("f" :: u "alse")%char; change (u "NaN") with ("N" :: u "aN")%char;
    change (u "Infinity") with ("I" :: u "nfinity")%char. cbn [eat].
    assert (char_eqb "n" c = false /\ char_eqb "t" c = false /\ char_eqb "f" c = false /\ char_eqb "N" c = false /\
      char_eqb "I" c = false) as (-> & -> & -> & -> & ->); [|done].
    destruct Hc as [Hc|[-> _]]; [|done]. revert Hc. destruct c as [[] [] [] [] [] [] [] []]; vm_compute; auto; discriminate. }
  assert (eat (u "-Infinity") (c :: t' ++ rest) = None) as ->; [|done].
  change (u "-Infinity") with ("-" :: "I" :: u "nfinity")%char. cbn [eat]. destruct Hc as [Hc|(-> & d & t'' & -> & Hd)].
  - replace (char_eqb "-" c) with false; [done|]. symmetry. apply char_eqb_neq. intros <-. done.
  - cbn [app]. replace (char_eqb "I" d) with false; [by destruct (char_eqb "-" "-")|].
    symmetry. apply char_eqb_neq. intros <-. done.
Qed.

(** The nesting of calls that reads a value. *)
Fixpoint depth (v : value) : nat :=
  match v with
  | VList l => S (foldr (fun v n => S (Nat.max (depth v) n)) 0%nat l)
  | VObj fields => S (foldr (fun '(_, v) n => S (Nat.max (depth v) n)) 0%nat fields)
  | _ => 1%nat
  end.

Definition reads (v : value) : Prop :=
  forall fuel rest, (depth v <= fuel)%nat -> number_ends rest -> scan_value fuel (dumps v ++ rest) = Ok (v, rest).

Lemma ends_at c s : number_char c = false -> number_ends (c :: s).
Proof. intros H ? ? [= <- <-]. done. Qed.

Lemma join_with_cons c p q ps : join_with c (p :: q :: ps) = p ++ c :: join_with c (q :: ps).
Proof. reflexivity. Qed.

(** What follows a separator begins a value. *)
Lemma join_with_start c p ps d t : p = d :: t -> exists t', join_with c (p :: ps) = d :: t'.
Proof. intros ->. destruct ps; eexists; reflexivity. Qed.

Lemma scan_elements_join l fuel rest :
  l <> [] -> Forall (fun v => readable v = true) l -> Forall reads l ->
  (foldr (fun v n => S (Nat.max (depth v) n)) 0%nat l <= fuel)%nat ->
  scan_elements fuel (join_with "," (map dumps l) ++ u "]" ++ rest) = Ok (l, rest).
Proof.
  revert fuel. induction l as [|v l IH]; intros fuel Hn Hok Hr Hf; [done|]. cbn [foldr] in Hf.
  destruct fuel as [|fuel]; [lia|]. apply Forall_cons in Hr as [Hv Hr]. apply Forall_cons in Hok as [_ Hok].
  destruct l as [|v' l].
  - cbn [map join_with scan_elements]. cbn [u list_ascii_of_string app].
    rewrite (Hv fuel); [reflexivity|lia|by apply ends_at].
  - cbn [map]. rewrite join_with_cons, <-app_assoc. cbn [app scan_elements].
    rewrite (Hv fuel) by first [lia | by apply ends_at]. cbn [result_bind].
    rewrite (skip_ws_not_ws ",") by done. change (char_eqb "," "]") with false. change (char_eqb "," ",") with true. cbv iota.
    specialize (IH fuel ltac:(done) Hok Hr). cbn [map] in IH.
    apply Forall_cons in Hok as [Hok _]. destruct (dumps_start v' Hok) as (c & t & E & Hc).
    destruct (join_with_start "," _ (map dumps l) _ _ E) as [t' E']. rewrite E' in IH |- *. cbn [app] in IH |- *.
    rewrite skip_ws_start by done. rewrite IH; [done|]. cbn [foldr] in *. lia.
Qed.

Lemma scan_members_join l fuel rest :
  l <> [] -> Forall (fun kv => readable (snd kv) = true) l -> Forall (fun kv => reads (snd kv)) l ->
  (foldr (fun '(_, v) n => S (Nat.max (depth v) n)) 0%nat l <= fuel)%nat ->
  scan_members fuel (join_with "," (map (fun '(k, v) => quote k ++ u ":" ++ dumps v) l) ++ u "}" ++ rest)
  = Ok (l, rest).
Proof.
  revert fuel. induction l as [|[k v] l IH]; intros fuel Hn Hok Hr Hf; [done|]. cbn [foldr] in Hf.
  destruct fuel as [|fuel]; [lia|]. apply Forall_cons in Hr as [Hv Hr]. apply Forall_cons in Hok as [Hkv Hok].
  cbn [snd] in Hv, Hkv. destruct (dumps_start v Hkv) as (c & t & E & Hc).
  assert (forall tail, number_ends tail ->
    scan_members (S fuel) (quote k ++ u ":" ++ dumps v ++ tail) =
    match skip_ws tail with
    | d :: r4 =>
        if char_eqb d "}" then Ok ([(k, v)], r4)
        else if char_eqb d "," then
          let! (l, rest) := scan_members fuel (skip_ws r4) in Ok ((k, v) :: l, rest)
        else json_error
    | [] => json_error
    end) as Hstep.
  { intros tail Ht. unfold quote. cbn [app scan_members]. change (char_eqb quote_char quote_char) with true.
    cbn [negb]. rewrite <-app_assoc. cbn [app]. rewrite scan_quoted
      by (cbn [length]; rewrite length_app; pose proof (quoted_length k); lia).
    cbn [result_bind]. change (u ":" ++ dumps v ++ tail) with (":"%char :: dumps v ++ tail).
    rewrite skip_ws_not_ws by done. change (negb (char_eqb ":" ":")) with false. cbv iota.
    replace (skip_ws (dumps v ++ tail)) with (dumps v ++ tail)
      by (rewrite E; cbn [app]; by rewrite skip_ws_start).
    rewrite Hv by first [lia | done]. reflexivity. }
  destruct l as [|[k' v'] l].
  - cbn [map join_with]. rewrite <-!app_assoc. rewrite Hstep by by apply ends_at. reflexivity.
  - cbn [map]. rewrite join_with_cons, <-!app_assoc. cbn [app]. rewrite Hstep by by apply ends_at.
    rewrite (skip_ws_not_ws ",") by done. change (char_eqb "," "}") with false. change (char_eqb "," ",") with true.
    cbv iota. specialize (IH fuel ltac:(done) Hok Hr). cbn [map] in IH.
    match goal with |- context [join_with "," (?p :: ?ps)] =>
      destruct (join_with_start "," p ps quote_char _ eq_refl) as [t' E'] end.
    rewrite E' in IH |- *. cbn [app] in IH |- *. rewrite skip_ws_not_ws by done. rewrite IH; [done|].
    cbn [foldr] in *. lia.
Qed.

Lemma scan_list fuel c r :
  value_start c = true ->
  scan_value (S fuel) (u "[" ++ c :: r) = let! (l, rest) := scan_elements fuel (c :: r) in Ok (VList l, rest).
Proof.
  intros Hc. change (u "[" ++ c :: r) with ("["%char :: c :: r). cbn [scan_value].
  rewrite skip_ws_start by done. destruct (start_facts c Hc) as (_ & -> & _). reflexivity.
Qed.

Lemma scan_object fuel r :
  scan_value (S fuel) (u "{" ++ quote_char :: r) =
  let! (fields, rest) := scan_members fuel (quote_char :: r) in
  let! v := object_pairs_hook fields in Ok (v, rest).
Proof. reflexivity. Qed.

Lemma scan_dumps v : readable v = true -> reads v.
Proof.
  induction v as [|b|z|x|s|l IH|l IH] using value_nested_ind; intros Hv fuel rest Hf Hr;
    (destruct fuel as [|fuel]; [cbn [depth] in Hf; lia|]).
  - reflexivity.
  - destruct b; reflexivity.
  - apply scan_number; [by apply lex_int_text|done].
  - apply scan_number; [by apply float_text|done].
  - cbn [dumps quote app scan_value]. unfold quote. cbn [app].
    change (char_eqb quote_char quote_char) with true. cbv iota. rewrite <-app_assoc. cbn [app].
    rewrite scan_quoted by (cbn [length]; rewrite length_app; pose proof (quoted_length s); lia). reflexivity.
  - cbn [readable] in Hv. rewrite forallb_Forall in Hv. cbn [dumps depth] in *. rewrite <-!app_assoc.
    destruct l as [|v l]; [reflexivity|].
    pose proof (scan_elements_join (v :: l) fuel rest ltac:(done) Hv) as Hs.
    specialize (Hs ltac:(rewrite !Forall_forall in *; naive_solver) ltac:(lia)). cbn [map] in *.
    apply Forall_cons in Hv as [Hv _]. destruct (dumps_start v Hv) as (c & t & E & Hc).
    destruct (join_with_start "," _ (map dumps l) _ _ E) as [t' E']. rewrite E' in Hs |- *. cbn [app] in Hs |- *.
    rewrite scan_list by done. by rewrite Hs.
  - cbn [readable] in Hv. apply andb_true_iff in Hv as [Hd Hv]. apply bool_decide_eq_true in Hd.
    assert (Forall (fun kv => readable (snd kv) = true) l) as Hv'.
    { rewrite forallb_Forall in Hv. eapply Forall_impl; [exact Hv|]. by intros [k v]. }
    cbn [dumps depth] in *. rewrite <-!app_assoc.
    destruct l as [|[k v] l]; [cbn; by rewrite plain_object by constructor|].
    pose proof (scan_members_join ((k, v) :: l) fuel rest ltac:(done) Hv') as Hs.
    specialize (Hs ltac:(rewrite !Forall_forall in *; naive_solver) ltac:(lia)). cbn [map] in *.
    match goal with |- context [join_with "," (?p :: ?ps)] =>
      destruct (join_with_start "," p ps quote_char _ eq_refl) as [t' E'] end.
    rewrite E' in Hs |- *. cbn [app] in Hs |- *. rewrite scan_object, Hs. cbn [result_bind].
    by rewrite plain_object.
Qed.

(** ** Whole texts *)

Lemma dumps_length v : readable v = true -> (1 <= length (dumps v))%nat.
Proof. intros (c & t & -> & _)%dumps_start. simpl. lia. Qed.

Lemma join_depth {A} (text : A -> str) (cost : A -> nat) l :
  Forall (fun x => (cost x <= length (text x) /\ 1 <= length (text x))%nat) l ->
  (foldr (fun x n => S (Nat.max (cost x) n)) 0 l <= S (length (join_with "," (map text l))))%nat.
Proof.
  induction l as [|x [|y l] IH]; intros H; [cbn; lia|apply Forall_singleton in H as [? ?]; cbn [foldr map join_with]; lia|].
  apply Forall_cons in H as [Hx H]. specialize (IH H). cbn [map] in *. rewrite join_with_cons, length_app.
  cbn [foldr length] in *. lia.
Qed.

Lemma depth_length v : readable v = true -> (depth v <= length (dumps v))%nat.
Proof.
  induction v as [|b|z|x|s|l IH|l IH] using value_nested_ind; intros Hv; try by apply dumps_length.
  - cbn [readable] in Hv. rewrite forallb_Forall in Hv. cbn [depth dumps].
    pose proof (join_depth dumps depth l) as H. rewrite !length_app.
    assert (Forall (fun x => (depth x <= length (dumps x) /\ 1 <= length (dumps x))%nat) l) as Hl.
    { rewrite Forall_forall in *. intros v Hin. split; [by apply IH, Hv|by apply dumps_length, Hv]. }
    specialize (H Hl). change (length (u "[")) with 1%nat. change (length (u "]")) with 1%nat. lia.
  - cbn [readable] in Hv. apply andb_true_iff in Hv as [_ Hv]. rewrite forallb_Forall in Hv. cbn [depth dumps].
    pose proof (join_depth (fun '(k, v) => quote k ++ u ":" ++ dumps v) (fun '(_, v) => depth v) l) as H.
    rewrite !length_app.
    assert (foldr (fun '(_, v) n => S (Nat.max (depth v) n)) 0%nat l =
      foldr (fun x n => S (Nat.max (let '(_, v) := x in depth v) n)) 0%nat l) as ->.
    { clear. induction l as [|[k v] l IH]; [done|]. cbn [foldr]. by rewrite IH. }
    enough (length (u "{") = 1%nat /\ length (u "}") = 1%nat) by (specialize (H ltac:(
      rewrite Forall_forall in *; intros [k v] Hin; specialize (IH _ Hin); specialize (Hv _ Hin); cbn [snd] in *;
      rewrite !length_app; specialize (IH Hv); pose proof (dumps_length v Hv); lia)); lia).
    done.
Qed.

Lemma skip_ws_nil : skip_ws [] = [].
Proof. reflexivity. Qed.

Theorem loads_dumps v : readable v = true -> loads (dumps v) = Ok v.
Proof.
  intros Hv. unfold loads. destruct (dumps_start v Hv) as (c & t & E & Hc). pose proof (depth_length v Hv).
  assert (skip_ws (dumps v) = dumps v ++ []) as ->.
  { rewrite app_nil_r, E. by apply skip_ws_start. }
  by rewrite (scan_dumps v Hv) by first [lia | by intros ? ? ?].
Qed.
End Reading.
