(* ===== verification/LocalTime.v ===== *)
(** * Local times and the zone database ([src/dashcam/gps/clock.py])

    Datetimes whose zone is a fixed offset or an IANA key, with Python's equality between zones, the
    ISO 8601 texts with milliseconds, and [to_local_time]. The zone database is a parameter. *)

From Stdlib Require Import Ascii String ZArith Lia.
From stdpp Require Import base list strings.
From S2P Require Import Prelude PyStr DateTime Naming.

(** ** The zone database *)

(** What [zoneinfo] answers for a key: whether it loads, the offset (in microseconds), daylight
    saving and abbreviation of a wall-clock reading with its fold, and the offset and fold in force
    at an instant, counted as [utc_us]. *)
Class ZoneDatabase := {
  ZoneInfo : str -> result unit;
  zone_utcoffset : str -> date -> time -> bool -> Z;
  zone_dst : str -> date -> time -> bool -> option Z;
  zone_tzname : str -> date -> time -> bool -> option str;
  zone_at : str -> Z -> Z * bool
}.

Inductive tzinfo := FixedOffset (us : Z) | ZoneKey (key : str).

#[export] Instance tzinfo_eq_dec : EqDecision tzinfo. Proof. solve_decision. Defined.

Record local_datetime := mkLocal {
  ld_date : date;
  ld_time : time;
  ld_fold : bool;
  ld_tz : option tzinfo
}.

#[export] Instance local_datetime_eq_dec : EqDecision local_datetime. Proof. solve_decision. Defined.

(** The documented behaviour of [ZoneInfo.fromutc]: the offset in force at an instant is the offset
    of the wall-clock reading it gives, and offsets are under a day. *)
Class ZoneLaws `{ZoneDatabase} := {
  zone_consistent key n off fold dt :
    zone_at key n = (off, fold) -> dt_of_us (n + off) None = Ok dt ->
    zone_utcoffset key (dt_date dt) (dt_time dt) fold = off;
  zone_bounded key n : - day_us < fst (zone_at key n) < day_us
}.

Section Local.
Context `{ZoneDatabase}.

(** [value.utcoffset()] *)
Definition utcoffset (x : local_datetime) : option Z :=
  match ld_tz x with
  | None => None
  | Some (FixedOffset us) => Some us
  | Some (ZoneKey k) => Some (zone_utcoffset k (ld_date x) (ld_time x) (ld_fold x))
  end.

Definition fields_us (x : local_datetime) : Z := local_us (mkDT (ld_date x) (ld_time x) None).

Definition flip_fold (x : local_datetime) : local_datetime :=
  mkLocal (ld_date x) (ld_time x) (negb (ld_fold x)) (ld_tz x).

(** [==]: with one zone the readings are compared; otherwise a reading whose offset depends on its
    fold equals nothing, and the instants are compared. *)
Definition local_eqb (x y : local_datetime) : bool :=
  if bool_decide (ld_tz x = ld_tz y) then fields_us x =? fields_us y
  else if negb (bool_decide (utcoffset x = utcoffset (flip_fold x)))
       || negb (bool_decide (utcoffset y = utcoffset (flip_fold y))) then false
  else
    match utcoffset x, utcoffset y with
    | Some a, Some b => fields_us x - a =? fields_us y - b
    | _, _ => false
    end.

(** [value.astimezone(ZoneInfo(key))] of an aware value. *)
Definition astimezone_zone (value : datetime) (key : str) : result local_datetime :=
  let n := utc_us value in
  let '(off, fold) := zone_at key n in
  let! dt := dt_of_us (n + off) None in
  Ok (mkLocal (dt_date dt) (dt_time dt) fold (Some (ZoneKey key))).
End Local.

(** ** ISO texts *)

(** [isoformat(timespec="milliseconds")] without its offset. *)
Definition isoformat_ms (d : date) (t : time) : str :=
  zpad 4 (d_year d) ++ u "-" ++ zpad 2 (d_month d) ++ u "-" ++ zpad 2 (d_day d) ++ u "T" ++
  zpad 2 (t_hour t) ++ u ":" ++ zpad 2 (t_minute t) ++ u ":" ++ zpad 2 (t_second t) ++ u "." ++
  zpad 3 (t_us t / 1000).

(** The offset's text: seconds and microseconds only when there are any. *)
Definition format_offset (off : Z) : str :=
  let a := Z.abs off in
  let us := a mod 1000000 in
  let ss := a / 1000000 mod 60 in
  (if off <? 0 then u "-" else u "+") ++ zpad 2 (a / 3600000000) ++ u ":" ++ zpad 2 (a / 60000000 mod 60) ++
  (if negb (ss =? 0) || negb (us =? 0) then u ":" ++ zpad 2 ss else []) ++
  (if us =? 0 then [] else u "." ++ zpad 6 us).

(** [\d{4}-\d{2}-\d{2}T\d{2}:\d{2}:\d{2}\.\d{3}] and what follows it. *)
Definition iso_ms_groups (s : str) : option (list str * str) :=
  let? (y, r) := eat_n is_digit 4 s in
  let? r := eat (u "-") r in
  let? (m, r) := eat_n is_digit 2 r in
  let? r := eat (u "-") r in
  let? (d, r) := eat_n is_digit 2 r in
  let? r := eat (u "T") r in
  let? (h, r) := eat_n is_digit 2 r in
  let? r := eat (u ":") r in
  let? (mi, r) := eat_n is_digit 2 r in
  let? r := eat (u ":") r in
  let? (sec, r) := eat_n is_digit 2 r in
  let? r := eat (u ".") r in
  let? (f, r) := eat_n is_digit 3 r in
  Some ([y; m; d; h; mi; sec; f], r).

(** The constructors of the date and the time on the matched groups. *)
Definition groups_datetime (groups : list str) : result (date * time) :=
  match map int_of_digits groups with
  | [y; m; d; h; mi; sec; f] =>
      let! on := date_new y m d in
      let! at_ := time_new h mi sec (f * 1000) in
      Ok (on, at_)
  | _ => Err (Exn ValueError "does not match format")
  end.

(** ** [to_local_time] *)

Inductive LocalTimeError :=
  | LT_UTC_NOT_AWARE | LT_UTC_NOT_CANONICAL | LT_INVALID_ZONE_NAME | LT_UNKNOWN_ZONE.

Record LocalTimeView := mkView {
  lv_datetime : local_datetime;
  lv_zone_name : str;
  lv_utc_offset_seconds : Z;
  lv_abbreviation : str;
  lv_is_dst : bool
}.

Record LocalTimeOutcome := mkOutcome { lo_local : option LocalTimeView; lo_error : option LocalTimeError }.

Definition lo_ok (o : LocalTimeOutcome) : bool :=
  bool_decide (is_Some (lo_local o)) && match lo_error o with None => true | Some _ => false end.

Section ToLocal.
Context `{ZoneDatabase}.

Definition local_error (e : LocalTimeError) : result LocalTimeOutcome := Ok (mkOutcome None (Some e)).

Definition to_local_time (utc : datetime) (zone_name : str) : result LocalTimeOutcome :=
  match dt_off utc with
  | None => local_error LT_UTC_NOT_AWARE
  | Some off =>
      if negb (off =? 0) then local_error LT_UTC_NOT_CANONICAL
      else if bool_decide (zone_name = []) || (128 <? len zone_name) || negb (isascii zone_name) then
        local_error LT_INVALID_ZONE_NAME
      else
        match ZoneInfo zone_name with
        | Err e =>
            if is_ValueError e || bool_decide (exn_cls e = ZoneInfoNotFoundError)
            then local_error LT_UNKNOWN_ZONE else Err e
        | Ok _ =>
            let! local := astimezone_zone utc zone_name in
            let dst := zone_dst zone_name (ld_date local) (ld_time local) (ld_fold local) in
            match utcoffset local with
            | None => local_error LT_UNKNOWN_ZONE
            | Some offset =>
                Ok (mkOutcome
                  (Some (mkView local zone_name (Z.quot offset 1000000)
                    (default [] (zone_tzname zone_name (ld_date local) (ld_time local) (ld_fold local)))
                    (match dst with None => false | Some d => negb (d =? 0) end)))
                  None)
            end
        end
  end.
End ToLocal.

(** ** Lemmas *)

(** A time truncated to its millisecond. *)
Definition time_ms (t : time) : time := mkTime (t_hour t) (t_minute t) (t_second t) (t_us t / 1000 * 1000).

Definition iso_groups (d : date) (t : time) : list str :=
  [digits_fixed 4 (d_year d); digits_fixed 2 (d_month d); digits_fixed 2 (d_day d);
   digits_fixed 2 (t_hour t); digits_fixed 2 (t_minute t); digits_fixed 2 (t_second t);
   digits_fixed 3 (t_us t / 1000)].

Lemma day_range d : date_ok d -> 1 <= d_year d <= 9999 /\ 1 <= d_month d <= 12 /\ 1 <= d_day d <= 31.
Proof.
  unfold date_ok. rewrite date_valid_iff. intros (Hy & Hm & Hd). split_and!; try lia.
  unfold days_in_month in Hd. repeat case_match; lia.
Qed.

Lemma ms_range t : time_ok t -> 0 <= t_us t / 1000 < 1000.
Proof.
  unfold time_ok. rewrite time_valid_iff. intros. split; [apply Z.div_pos; lia|apply Z.div_lt_upper_bound; lia].
Qed.

Lemma time_ms_ok t : time_ok t -> time_ok (time_ms t).
Proof.
  intros Ht. pose proof (ms_range t Ht). pose proof (Z.mul_div_le (t_us t) 1000 ltac:(lia)).
  unfold time_ok, time_ms in *. rewrite time_valid_iff in *. cbn. lia.
Qed.

Lemma time_ms_idem t : time_ms (time_ms t) = time_ms t.
Proof. unfold time_ms. cbn. by rewrite Z.div_mul. Qed.

Lemma isoformat_groups d t rest :
  date_ok d -> time_ok t -> iso_ms_groups (isoformat_ms d t ++ rest) = Some (iso_groups d t, rest).
Proof.
  intros Hd Ht. pose proof (day_range d Hd). pose proof (ms_range t Ht). pose proof Ht as Ht'.
  unfold time_ok in Ht'. rewrite time_valid_iff in Ht'. unfold isoformat_ms, iso_groups.
  rewrite !zpad_fixed by lia. rewrite <-!app_assoc. unfold iso_ms_groups.
  repeat first [rewrite eat_n_app by auto using digits_fixed_length, digits_fixed_digits | rewrite eat_app].
  reflexivity.
Qed.

Lemma groups_read d t : date_ok d -> time_ok t -> groups_datetime (iso_groups d t) = Ok (d, time_ms t).
Proof.
  intros Hd Ht. pose proof (day_range d Hd). pose proof (ms_range t Ht). pose proof (time_ms_ok t Ht) as Hms.
  pose proof Ht as Ht'. unfold time_ok in Ht'. rewrite time_valid_iff in Ht'.
  unfold groups_datetime, iso_groups. cbn [map]. rewrite !int_of_digits_fixed_small by lia.
  unfold date_new. unfold date_ok in Hd. rewrite Hd. cbn [result_bind]. unfold time_new.
  unfold time_ok, time_ms in Hms. cbn in Hms. rewrite Hms. cbn [result_bind]. by destruct d.
Qed.

Lemma groups_datetime_ok g d t : groups_datetime g = Ok (d, t) -> date_ok d /\ time_ok t /\ time_ms t = t.
Proof.
  unfold groups_datetime. destruct (map int_of_digits g) as [|y [|m [|k [|h [|mi [|s [|f [|]]]]]]]]; try done.
  unfold date_new, time_new. destruct (date_valid y m k) eqn:Ed; [|done]. cbn [result_bind].
  destruct (time_valid _ _ _ _) eqn:Et; [|done]. cbn [result_bind]. intros [= <- <-].
  unfold date_ok, time_ok, time_ms. cbn. by rewrite Z.div_mul.
Qed.

Lemma astimezone_zone_ok `{ZoneLaws} v k x :
  astimezone_zone v k = Ok x ->
  date_ok (ld_date x) /\ time_ok (ld_time x) /\ ld_tz x = Some (ZoneKey k) /\
  exists off, utcoffset x = Some off /\ fields_us x = utc_us v + off /\ - day_us < off < day_us.
Proof.
  unfold astimezone_zone. pose proof (zone_bounded k (utc_us v)) as Hb.
  destruct (zone_at k (utc_us v)) as [off fold] eqn:E. destruct (dt_of_us (utc_us v + off) None) as [dt|] eqn:Ed; [|done].
  cbn [result_bind]. intros [= <-]. pose proof (zone_consistent _ _ _ _ _ E Ed) as Hc.
  apply dt_of_us_ok in Ed as ([Hd Ht] & Hl & Ho & _). cbn. split_and!; try done. exists off.
  unfold fields_us. cbn. rewrite Hc. split_and!; [done|by rewrite <-Hl|apply Hb..].
Qed.
