(* ===== verification/Metadata.v ===== *)
(** * Clip metadata ([src/dashcam/metadata/schema.py])

    The immutable records of a sidecar, each built by a constructor that checks its fields in the
    order of the source's [__post_init__]. A field the type annotation fixes is of that type; a
    number field is a float. *)

From Stdlib Require Import Ascii String ZArith SpecFloat Lia.
From stdpp Require Import base list strings.
From S2P Require Import Prelude PyStr PyFloat Uuid DateTime State Naming LocalTime.

Definition SCHEMA_VERSION : Z := 1.
Definition MAX_GPS_SAMPLES : Z := 600.
Definition MAX_WARNINGS : Z := 32.
Definition MAX_WARNING_LENGTH : Z := 256.
Definition MAX_PROVENANCE_LENGTH : Z := 256.
Definition MAX_SOFTWARE_VERSION_LENGTH : Z := 128.
Definition MAX_PROTECTION_REASON_LENGTH : Z := 128.
Definition MAX_UNCERTAINTY_NS : Z := 86400000000000.
Definition MAX_MONOTONIC_NS : Z := 9223372036854775807.
Definition MAX_DURATION_ROUNDING_ERROR_NS : Z := 1000000.

Inductive TimeAnchorSource := SOURCE_GPS | SOURCE_SYSTEM_CLOCK.

#[export] Instance TimeAnchorSource_eq_dec : EqDecision TimeAnchorSource. Proof. solve_decision. Defined.

(** ** Checks of one field *)

Definition invalid {A} (m : string) : result A := Err (Exn MetadataValidationError m).

Definition check_integer (field : string) (minimum maximum value : Z) : result unit :=
  raise_if negb ((minimum <=? value) && (value <=? maximum))
    as MetadataValidationError msg (field ++ " is outside its allowed range")%string ;;
  Ok tt.

Definition check_optional_integer (field : string) (minimum maximum : Z) (value : option Z) : result unit :=
  match value with
  | None => invalid (field ++ " must be an integer")
  | Some value => check_integer field minimum maximum value
  end.

Definition check_finite (field : string) (minimum maximum : float) (exclusive : bool) (number : float) : result unit :=
  raise_if negb (isfinite number)
           || negb (fle minimum number && (if exclusive then SFltb number maximum else fle number maximum))
    as MetadataValidationError msg (field ++ " is outside its allowed range")%string ;;
  Ok tt.

Definition check_text (field : string) (maximum : Z) (value : str) : result unit :=
  raise_if bool_decide (value = []) || (maximum <? len value)
    as MetadataValidationError msg (field ++ " must be a bounded string")%string ;;
  raise_if existsb (fun c => ord c <? 32) value
    as MetadataValidationError msg (field ++ " cannot contain control characters")%string ;;
  Ok tt.

(** [_utc] *)
Definition check_utc (field : string) (value : datetime) : result datetime :=
  match dt_off value with
  | None => invalid (field ++ " must be timezone-aware UTC")
  | Some off =>
      raise_if negb (off =? 0) as MetadataValidationError msg (field ++ " must use a UTC offset")%string ;;
      astimezone_utc value
  end.

(** A check of an optional field that may be absent. *)
Definition when_present {A} (check : A -> result unit) (value : option A) : result unit :=
  match value with None => Ok tt | Some v => check v end.

(** ** Records *)

Record TimeAnchor := mkAnchor {
  ta_source : TimeAnchorSource;
  ta_monotonic_ns : Z;
  ta_utc : datetime;
  ta_uncertainty_ns : Z;
  ta_provenance : str
}.

#[export] Instance TimeAnchor_eq_dec : EqDecision TimeAnchor. Proof. solve_decision. Defined.

Definition TimeAnchor_new (self : TimeAnchor) : result TimeAnchor :=
  let! _ := check_integer "time_anchor.monotonic_ns" 0 MAX_MONOTONIC_NS (ta_monotonic_ns self) in
  let! _ := check_utc "time_anchor.utc" (ta_utc self) in
  let! _ := check_integer "time_anchor.uncertainty_ns" 0 MAX_UNCERTAINTY_NS (ta_uncertainty_ns self) in
  let! _ := check_text "time_anchor.provenance" MAX_PROVENANCE_LENGTH (ta_provenance self) in
  Ok self.

Record VideoSummary := mkVideo {
  v_codec : str;
  v_width : Z;
  v_height : Z;
  v_fps_nominal : float;
  v_target_bitrate_bps : Z;
  v_measured_bitrate_bps : Z;
  v_frames_written : Z;
  v_dropped_frames : Z
}.

#[export] Instance VideoSummary_eq_dec : EqDecision VideoSummary. Proof. solve_decision. Defined.

Definition VideoSummary_new (self : VideoSummary) : result VideoSummary :=
  let! _ := check_text "video.codec" 32 (v_codec self) in
  let! _ := check_integer "video.width" 1 16384 (v_width self) in
  let! _ := check_integer "video.height" 1 16384 (v_height self) in
  let! _ := check_finite "video.fps_nominal" (literal "0.1") (literal "1000.0") false (v_fps_nominal self) in
  let! _ := check_integer "video.target_bitrate_bps" 1 1000000000 (v_target_bitrate_bps self) in
  let! _ := check_integer "video.measured_bitrate_bps" 0 1000000000 (v_measured_bitrate_bps self) in
  let! _ := check_integer "video.frames_written" 0 MAX_MONOTONIC_NS (v_frames_written self) in
  let! _ := check_integer "video.dropped_frames" 0 MAX_MONOTONIC_NS (v_dropped_frames self) in
  Ok self.

Record AudioSummary := mkAudio {
  a_available : bool;
  a_codec : option str;
  a_sample_rate_hz : option Z;
  a_channels : option Z;
  a_target_bitrate_bps : option Z
}.

#[export] Instance AudioSummary_eq_dec : EqDecision AudioSummary. Proof. solve_decision. Defined.

Definition AudioSummary_new (self : AudioSummary) : result AudioSummary :=
  if negb (a_available self) then
    raise_if bool_decide (is_Some (a_codec self)) || bool_decide (is_Some (a_sample_rate_hz self))
             || bool_decide (is_Some (a_channels self)) || bool_decide (is_Some (a_target_bitrate_bps self))
      as MetadataValidationError msg "unavailable audio must not claim stream settings" ;;
    Ok self
  else
    match a_codec self with
    | None => invalid "available audio requires a codec"
    | Some codec =>
        let! _ := check_text "audio.codec" 32 codec in
        let! _ := check_optional_integer "audio.sample_rate_hz" 1 768000 (a_sample_rate_hz self) in
        let! _ := check_optional_integer "audio.channels" 1 32 (a_channels self) in
        let! _ := check_optional_integer "audio.target_bitrate_bps" 1 100000000 (a_target_bitrate_bps self) in
        Ok self
    end.

Record GpsSample := mkSample {
  s_monotonic_ns : Z;
  s_utc : option datetime;
  s_timestamp_quality : TimestampQuality;
  s_lat_deg : option float;
  s_lon_deg : option float;
  s_speed_mps : option float;
  s_course_deg : option float;
  s_altitude_m : option float;
  s_fix_quality : option Z;
  s_satellites : option Z;
  s_hdop : option float
}.

#[export] Instance GpsSample_eq_dec : EqDecision GpsSample. Proof. solve_decision. Defined.

Definition GpsSample_new (self : GpsSample) : result GpsSample :=
  let! _ := check_integer "gps.samples[].monotonic_ns" 0 MAX_MONOTONIC_NS (s_monotonic_ns self) in
  let! _ :=
    match s_timestamp_quality self, s_utc self with
    | MONOTONIC_ONLY, Some _ => invalid "monotonic-only GPS sample UTC must be null"
    | MONOTONIC_ONLY, None => Ok tt
    | _, None => invalid "derived GPS sample requires UTC"
    | _, Some utc => let! _ := check_utc "gps.samples[].utc" utc in Ok tt
    end in
  let! _ :=
    validate_all (fun '(name, value, minimum, maximum, exclusive) =>
        when_present (check_finite ("gps.samples[]." ++ name) (literal minimum) (literal maximum) exclusive) value)
      [ ("lat_deg"%string, s_lat_deg self, "-90.0"%string, "90.0"%string, false);
        ("lon_deg"%string, s_lon_deg self, "-180.0"%string, "180.0"%string, false);
        ("speed_mps"%string, s_speed_mps self, "0.0"%string, "1000.0"%string, false);
        ("course_deg"%string, s_course_deg self, "0.0"%string, "360.0"%string, true);
        ("altitude_m"%string, s_altitude_m self, "-2000.0"%string, "100000.0"%string, false);
        ("hdop"%string, s_hdop self, "0.0"%string, "1000.0"%string, false) ] in
  let! _ := when_present (check_integer "gps.samples[].fix_quality" 0 8) (s_fix_quality self) in
  let! _ := when_present (check_integer "gps.samples[].satellites" 0 255) (s_satellites self) in
  raise_if negb (Bool.eqb (bool_decide (s_lat_deg self = None)) (bool_decide (s_lon_deg self = None)))
    as MetadataValidationError msg "GPS latitude and longitude must be present together" ;;
  Ok self.

Record GpsSummary := mkGps {
  g_available : bool;
  g_first_fix_utc : option datetime;
  g_samples : list GpsSample
}.

#[export] Instance GpsSummary_eq_dec : EqDecision GpsSummary. Proof. solve_decision. Defined.

Definition GpsSummary_new (self : GpsSummary) : result GpsSummary :=
  let! _ := when_present (fun utc => let! _ := check_utc "gps.first_fix_utc" utc in Ok tt) (g_first_fix_utc self) in
  raise_if MAX_GPS_SAMPLES <? Z.of_nat (length (g_samples self))
    as MetadataValidationError msg "gps.samples exceeds its per-clip bound" ;;
  raise_if negb (g_available self)
           && (bool_decide (is_Some (g_first_fix_utc self)) || negb (bool_decide (g_samples self = [])))
    as MetadataValidationError msg "unavailable GPS must not contain fixes or samples" ;;
  Ok self.

Record ClipSidecar := mkSidecar {
  sd_schema_version : Z;
  sd_clip_id : UUID;
  sd_boot_id : UUID;
  sd_sequence : Z;
  sd_video_file : str;
  sd_metadata_file : str;
  sd_start_utc : option datetime;
  sd_end_utc : option datetime;
  sd_start_monotonic_ns : Z;
  sd_end_monotonic_ns : Z;
  sd_gps_time_state : GpsTimeState;
  sd_system_clock_state : SystemClockState;
  sd_timestamp_quality : TimestampQuality;
  sd_time_anchor : option TimeAnchor;
  sd_timezone : str;
  sd_start_local : option local_datetime;
  sd_video : VideoSummary;
  sd_audio : AudioSummary;
  sd_gps : GpsSummary;
  sd_protected : bool;
  sd_protection_reason : option str;
  sd_software_version : str;
  sd_warnings : list str
}.

#[export] Instance ClipSidecar_eq_dec : EqDecision ClipSidecar. Proof. solve_decision. Defined.

(** [value.replace(microsecond=(value.microsecond // 1_000) * 1_000)] *)
Definition canonical_millisecond (value : datetime) : datetime :=
  mkDT (dt_date value) (time_ms (dt_time value)) (dt_off value).

(** [_timedelta_ns] of the difference of two aware values. *)
Definition timedelta_ns (a b : datetime) : Z := (utc_us a - utc_us b) * 1000.

Definition before (a b : datetime) : bool := utc_us a <=? utc_us b.

Section Sidecar.
Context `{ZoneDatabase}.

(** The civil times of a derived sidecar. *)
Definition validate_derived_times (self : ClipSidecar) (start_utc end_utc : datetime) (start_local : local_datetime)
    (anchor : TimeAnchor) : result unit :=
  let! start_utc := check_utc "start_utc" start_utc in
  let! end_utc := check_utc "end_utc" end_utc in
  raise_if before end_utc start_utc as MetadataValidationError msg "end_utc must be after start_utc" ;;
  let monotonic_duration_ns := sd_end_monotonic_ns self - sd_start_monotonic_ns self in
  let civil_duration_ns := timedelta_ns end_utc start_utc in
  raise_if MAX_DURATION_ROUNDING_ERROR_NS <? Z.abs (civil_duration_ns - monotonic_duration_ns)
    as MetadataValidationError msg "civil and monotonic clip durations do not agree" ;;
  raise_if bool_decide (utcoffset start_local = None)
    as MetadataValidationError msg "start_local must be timezone-aware" ;;
  let! expected_local := astimezone_zone start_utc (sd_timezone self) in
  raise_if negb (local_eqb start_local expected_local)
           || negb (bool_decide (utcoffset start_local = utcoffset expected_local))
    as MetadataValidationError msg "start_local does not match start_utc and timezone" ;;
  match sd_timestamp_quality self with
  | GPS_ANCHORED =>
      raise_if negb (bool_decide (ta_source anchor = SOURCE_GPS))
        as MetadataValidationError msg "GPS_ANCHORED requires a GPS time anchor" ;;
      raise_if bool_decide (sd_gps_time_state self = UNSYNCED)
        as MetadataValidationError msg "GPS_ANCHORED cannot use UNSYNCED GPS time" ;;
      Ok tt
  | SYSTEM_DERIVED =>
      raise_if negb (bool_decide (ta_source anchor = SOURCE_SYSTEM_CLOCK))
        as MetadataValidationError msg "SYSTEM_DERIVED requires a system-clock anchor" ;;
      raise_if negb (bool_decide (sd_system_clock_state self = SYNCHRONIZED))
        as MetadataValidationError msg "SYSTEM_DERIVED requires a synchronized system clock" ;;
      Ok tt
  | MONOTONIC_ONLY => Ok tt
  end.

Definition validate_time_fields (self : ClipSidecar) : result unit :=
  if bool_decide (sd_timestamp_quality self = MONOTONIC_ONLY) then
    raise_if bool_decide (is_Some (sd_start_utc self)) || bool_decide (is_Some (sd_end_utc self))
             || bool_decide (is_Some (sd_start_local self)) || bool_decide (is_Some (sd_time_anchor self))
      as MetadataValidationError msg "monotonic-only metadata must have null civil time" ;;
    raise_if negb (bool_decide (sd_gps_time_state self = UNSYNCED))
      as MetadataValidationError msg "monotonic-only metadata requires UNSYNCED GPS time" ;;
    raise_if bool_decide (is_Some (g_first_fix_utc (sd_gps self)))
      as MetadataValidationError msg "monotonic-only metadata cannot claim first_fix_utc" ;;
    Ok tt
  else
    match sd_start_utc self, sd_end_utc self, sd_start_local self, sd_time_anchor self with
    | Some start_utc, Some end_utc, Some start_local, Some anchor =>
        validate_derived_times self start_utc end_utc start_local anchor
    | _, _, _, _ => invalid "derived timestamps require civil time and a time anchor"
    end.

(** One sample of the loop, carrying the previous sample's monotonic time. *)
Definition validate_sample (self : ClipSidecar) (previous_monotonic_ns : Z) (sample : GpsSample) : result Z :=
  raise_if negb ((sd_start_monotonic_ns self <=? s_monotonic_ns sample)
                 && (s_monotonic_ns sample <? sd_end_monotonic_ns self))
    as MetadataValidationError msg "GPS sample falls outside the clip interval" ;;
  raise_if s_monotonic_ns sample <? previous_monotonic_ns
    as MetadataValidationError msg "GPS samples must be ordered by monotonic time" ;;
  match s_utc sample, sd_start_utc self, sd_end_utc self with
  | Some utc, Some start_utc, Some end_utc =>
      let! sample_utc := check_utc "gps.samples[].utc" utc in
      raise_if negb (before start_utc sample_utc && before sample_utc end_utc)
        as MetadataValidationError msg "GPS sample UTC falls outside the clip interval" ;;
      Ok (s_monotonic_ns sample)
  | _, _, _ => Ok (s_monotonic_ns sample)
  end.

Definition validate_sample_window (self : ClipSidecar) : result unit :=
  let! _ := result_fold (validate_sample self) (sd_start_monotonic_ns self) (g_samples (sd_gps self)) in
  match g_first_fix_utc (sd_gps self), sd_start_utc self, sd_end_utc self with
  | Some fix_utc, Some start_utc, Some end_utc =>
      raise_if negb (before start_utc fix_utc && before fix_utc end_utc)
        as MetadataValidationError msg "GPS first fix falls outside the clip interval" ;;
      Ok tt
  | _, _, _ => Ok tt
  end.

(** The names as a pair, and what the video's name says. *)
Definition parsed_name (self : ClipSidecar) : result ParsedClipName :=
  match (let! _ := ClipFilePair_new (sd_video_file self) (sd_metadata_file self) in
         parse_clip_filename (sd_video_file self)) with
  | Ok p => Ok p
  | Err e =>
      if bool_decide (exn_cls e = ClipNameError)
      then invalid "video_file and metadata_file must be a safe pair" else Err e
  end.

(** [ZoneInfo(self.timezone)]; a [ValueError] of a malformed key is not translated. *)
Definition load_timezone (self : ClipSidecar) : result unit :=
  match ZoneInfo (sd_timezone self) with
  | Ok _ => Ok tt
  | Err e =>
      if bool_decide (exn_cls e = TypeError) || bool_decide (exn_cls e = ZoneInfoNotFoundError)
      then invalid "timezone must be a valid IANA zone" else Err e
  end.

Definition validate_protection (self : ClipSidecar) : result unit :=
  match sd_protected self, sd_protection_reason self with
  | true, None => invalid "protected clips require a protection_reason"
  | true, Some reason => check_text "protection_reason" MAX_PROTECTION_REASON_LENGTH reason
  | false, Some _ => invalid "unprotected clips cannot have a protection_reason"
  | false, None => Ok tt
  end.

(** The name's quality, and its time against [start_utc]. *)
Definition validate_name (self : ClipSidecar) (name : ParsedClipName) : result unit :=
  raise_if bool_decide (sd_timestamp_quality self = MONOTONIC_ONLY) && negb (provisional name)
    as MetadataValidationError msg "unsynced sidecar requires a provisional filename" ;;
  raise_if negb (bool_decide (sd_timestamp_quality self = MONOTONIC_ONLY)) && provisional name
    as MetadataValidationError msg "derived sidecar requires a finalized UTC filename" ;;
  match sd_start_utc self, utc_started_at name with
  | Some start_utc, Some named =>
      let! canonical_start_utc := check_utc "start_utc" start_utc in
      raise_if negb (bool_decide (named = canonical_millisecond canonical_start_utc))
        as MetadataValidationError msg "filename UTC does not match sidecar start_utc" ;;
      Ok tt
  | _, _ => Ok tt
  end.

Definition ClipSidecar_new (self : ClipSidecar) : result ClipSidecar :=
  raise_if negb (sd_schema_version self =? SCHEMA_VERSION)
    as MetadataValidationError msg "schema_version must be 1" ;;
  let! _ := check_integer "sequence" 0 999999 (sd_sequence self) in
  let! name := parsed_name self in
  raise_if negb (sequence name =? sd_sequence self)
    as MetadataValidationError msg "filename sequence does not match sidecar sequence" ;;
  let! _ := check_integer "start_monotonic_ns" 0 MAX_MONOTONIC_NS (sd_start_monotonic_ns self) in
  let! _ := check_integer "end_monotonic_ns" 0 MAX_MONOTONIC_NS (sd_end_monotonic_ns self) in
  raise_if sd_end_monotonic_ns self <=? sd_start_monotonic_ns self
    as MetadataValidationError msg "end_monotonic_ns must be after start_monotonic_ns" ;;
  let! _ := validate_name self name in
  let! _ := check_text "timezone" 128 (sd_timezone self) in
  let! _ := load_timezone self in
  let! _ := validate_time_fields self in
  let! _ := validate_sample_window self in
  let! _ := validate_protection self in
  let! _ := check_text "software_version" MAX_SOFTWARE_VERSION_LENGTH (sd_software_version self) in
  raise_if MAX_WARNINGS <? Z.of_nat (length (sd_warnings self))
    as MetadataValidationError msg "warnings exceeds its per-clip bound" ;;
  let! _ := validate_all (check_text "warnings[]" MAX_WARNING_LENGTH) (sd_warnings self) in
  Ok self.
End Sidecar.
