(* ===== verification/Sidecar.v ===== *)
(** * Sidecar files ([src/dashcam/metadata/schema.py], [src/dashcam/metadata/reconcile.py])

    The canonical JSON of a sidecar and its strict parser: UTF-8, JSON with exact key sets, typed
    fields, the constructors of [Metadata], and a comparison of the canonical text with the input. *)

From Stdlib Require Import Ascii String ZArith SpecFloat Lia Strings.Byte.
From stdpp Require Import base list strings.
From S2P Require Import Prelude PyStr PyFloat PyRepr Uuid DateTime State Naming Models Json LocalTime Metadata.

(** ** Enumeration values *)

Definition GpsTimeState_value (x : GpsTimeState) : string :=
  match x with UNSYNCED => "UNSYNCED" | GPS_TIME_VALID => "GPS_TIME_VALID" | GPS_TIME_STALE => "GPS_TIME_STALE" end.

Definition SystemClockState_value (x : SystemClockState) : string :=
  match x with UNSET => "UNSET" | SYNCING => "SYNCING" | SYNCHRONIZED => "SYNCHRONIZED" | SYSTEM_ERROR => "ERROR" end.

Definition TimestampQuality_value (x : TimestampQuality) : string :=
  match x with
  | MONOTONIC_ONLY => "MONOTONIC_ONLY" | GPS_ANCHORED => "GPS_ANCHORED" | SYSTEM_DERIVED => "SYSTEM_DERIVED"
  end.

Definition TimeAnchorSource_value (x : TimeAnchorSource) : string :=
  match x with SOURCE_GPS => "GPS" | SOURCE_SYSTEM_CLOCK => "SYSTEM_CLOCK" end.

(** [Enum(text)] *)
Definition enum_of {A} (value : A -> string) (members : list A) (s : str) : result A :=
  match List.find (fun x => bool_decide (u (value x) = s)) members with
  | Some x => Ok x
  | None => Err (Exn ValueError "not a valid member")
  end.

Definition GpsTimeState_of : str -> result GpsTimeState :=
  enum_of GpsTimeState_value [UNSYNCED; GPS_TIME_VALID; GPS_TIME_STALE].
Definition SystemClockState_of : str -> result SystemClockState :=
  enum_of SystemClockState_value [UNSET; SYNCING; SYNCHRONIZED; SYSTEM_ERROR].
Definition TimestampQuality_of : str -> result TimestampQuality :=
  enum_of TimestampQuality_value [MONOTONIC_ONLY; GPS_ANCHORED; SYSTEM_DERIVED].
Definition TimeAnchorSource_of : str -> result TimeAnchorSource :=
  enum_of TimeAnchorSource_value [SOURCE_GPS; SOURCE_SYSTEM_CLOCK].

(** ** Mappings *)

(** The schema's times have a zero offset, so that [astimezone(UTC)] keeps the fields and the text
    [+00:00] at the end is the one replaced. *)
Definition iso_utc (value : datetime) : str := isoformat_ms (dt_date value) (dt_time value) ++ u "Z".

Definition iso_local `{ZoneDatabase} (value : local_datetime) : str :=
  isoformat_ms (ld_date value) (ld_time value) ++
  match utcoffset value with Some off => format_offset off | None => [] end.

Definition or_null {A} (f : A -> value) (x : option A) : value := match x with Some a => f a | None => VNull end.

Definition VText (s : string) : value := VStr (u s).

Definition keyed (l : list (string * value)) : value := VObj (map (fun '(k, v) => (u k, v)) l).

Definition TimeAnchor_to_mapping (self : TimeAnchor) : value :=
  keyed
    [ ("source", VText (TimeAnchorSource_value (ta_source self)));
      ("monotonic_ns", VInt (ta_monotonic_ns self));
      ("utc", VStr (iso_utc (ta_utc self)));
      ("uncertainty_ns", VInt (ta_uncertainty_ns self));
      ("provenance", VStr (ta_provenance self)) ]%string.

Definition VideoSummary_to_mapping (self : VideoSummary) : value :=
  keyed
    [ ("codec", VStr (v_codec self));
      ("width", VInt (v_width self));
      ("height", VInt (v_height self));
      ("fps_nominal", VFloat (v_fps_nominal self));
      ("target_bitrate_bps", VInt (v_target_bitrate_bps self));
      ("measured_bitrate_bps", VInt (v_measured_bitrate_bps self));
      ("frames_written", VInt (v_frames_written self));
      ("dropped_frames", VInt (v_dropped_frames self)) ]%string.

Definition AudioSummary_to_mapping (self : AudioSummary) : value :=
  keyed
    [ ("available", VBool (a_available self));
      ("codec", or_null VStr (a_codec self));
      ("sample_rate_hz", or_null VInt (a_sample_rate_hz self));
      ("channels", or_null VInt (a_channels self));
      ("target_bitrate_bps", or_null VInt (a_target_bitrate_bps self)) ]%string.

Definition GpsSample_to_mapping (self : GpsSample) : value :=
  keyed
    [ ("monotonic_ns", VInt (s_monotonic_ns self));
      ("utc", or_null (fun t => VStr (iso_utc t)) (s_utc self));
      ("timestamp_quality", VText (TimestampQuality_value (s_timestamp_quality self)));
      ("lat_deg", or_null VFloat (s_lat_deg self));
      ("lon_deg", or_null VFloat (s_lon_deg self));
      ("speed_mps", or_null VFloat (s_speed_mps self));
      ("course_deg", or_null VFloat (s_course_deg self));
      ("altitude_m", or_null VFloat (s_altitude_m self));
      ("fix_quality", or_null VInt (s_fix_quality self));
      ("satellites", or_null VInt (s_satellites self));
      ("hdop", or_null VFloat (s_hdop self)) ]%string.

Definition GpsSummary_to_mapping (self : GpsSummary) : value :=
  keyed
    [ ("available", VBool (g_available self));
      ("first_fix_utc", or_null (fun t => VStr (iso_utc t)) (g_first_fix_utc self));
      ("samples", VList (map GpsSample_to_mapping (g_samples self))) ]%string.

Definition to_mapping `{ZoneDatabase} (self : ClipSidecar) : value :=
  keyed
    [ ("schema_version", VInt (sd_schema_version self));
      ("clip_id", VStr (uuid_str (sd_clip_id self)));
      ("boot_id", VStr (uuid_str (sd_boot_id self)));
      ("sequence", VInt (sd_sequence self));
      ("video_file", VStr (sd_video_file self));
      ("metadata_file", VStr (sd_metadata_file self));
      ("start_utc", or_null (fun t => VStr (iso_utc t)) (sd_start_utc self));
      ("end_utc", or_null (fun t => VStr (iso_utc t)) (sd_end_utc self));
      ("start_monotonic_ns", VInt (sd_start_monotonic_ns self));
      ("end_monotonic_ns", VInt (sd_end_monotonic_ns self));
      ("gps_time_state", VText (GpsTimeState_value (sd_gps_time_state self)));
      ("system_clock_state", VText (SystemClockState_value (sd_system_clock_state self)));
      ("timestamp_quality", VText (TimestampQuality_value (sd_timestamp_quality self)));
      ("time_anchor", or_null TimeAnchor_to_mapping (sd_time_anchor self));
      ("timezone", VStr (sd_timezone self));
      ("start_local", or_null (fun t => VStr (iso_local t)) (sd_start_local self));
      ("video", VideoSummary_to_mapping (sd_video self));
      ("audio", AudioSummary_to_mapping (sd_audio self));
      ("gps", GpsSummary_to_mapping (sd_gps self));
      ("protected", VBool (sd_protected self));
      ("protection_reason", or_null VStr (sd_protection_reason self));
      ("software_version", VStr (sd_software_version self));
      ("warnings", VList (map VStr (sd_warnings self))) ]%string.

Definition byte_of_ascii (c : ascii) : byte := Ascii.byte_of_ascii c.

(** The text is ASCII, so that its UTF-8 encoding is one byte a character. *)
Definition to_canonical_json `{ZoneDatabase} (self : ClipSidecar) : bytes :=
  map byte_of_ascii (dumps (sorted_keys (to_mapping self))).

(** ** Parsing *)

Definition parse_error {A} (m : string) : result A := Err (Exn SidecarParseError m).

(** [_closed_mapping]: exactly the expected keys; a mapping's keys are distinct. *)
Definition closed_mapping (v : value) (expected : list string) : result (list (str * value)) :=
  match v with
  | VObj fields =>
      raise_if negb (forallb (fun k => bool_decide (k ∈ map u expected)) (map fst fields)
                     && forallb (fun k => bool_decide (k ∈ map fst fields)) (map u expected))
        as SidecarParseError msg "keys differ" ;;
      Ok fields
  | _ => parse_error "must be an object"
  end.

(** [raw[key]]; the key set has been checked. *)
Definition get (raw : list (str * value)) (key : string) : value :=
  match List.find (fun kv => bool_decide (fst kv = u key)) raw with
  | Some kv => snd kv
  | None => VNull
  end.

Definition strict_str (v : value) : result str :=
  match v with VStr s => Ok s | _ => parse_error "must be a string" end.

Definition strict_bool (v : value) : result bool :=
  match v with VBool b => Ok b | _ => parse_error "must be boolean" end.

Definition strict_int (v : value) : result Z :=
  match v with VInt z => Ok z | _ => parse_error "must be an integer" end.

(** [float(value)]: an integer too large for a float raises [OverflowError]. *)
Definition strict_number (v : value) : result float :=
  match v with
  | VFloat x => Ok x
  | VInt z =>
      raise_if negb (isfinite (float_of_int z)) as OverflowError msg "int too large to convert to float" ;;
      Ok (float_of_int z)
  | _ => parse_error "must be numeric"
  end.

Definition optional {A} (f : value -> result A) (v : value) : result (option A) :=
  match v with VNull => Ok None | _ => let! a := f v in Ok (Some a) end.

Definition canonical_uuid (v : value) : result UUID :=
  let! text := strict_str v in
  match UUID_of_str text with
  | Err e => if is_ValueError e then parse_error "must be a canonical UUID" else Err e
  | Ok parsed =>
      raise_if negb (bool_decide (uuid_str parsed = text)) as SidecarParseError msg "must be a canonical UUID" ;;
      Ok parsed
  end.

(** [_UTC_RE] *)
Definition UTC_RE (s : str) : option (list str) :=
  let? (groups, r) := iso_ms_groups s in
  if bool_decide (r = u "Z") then Some groups else None.

Definition required_utc (v : value) : result datetime :=
  let! text := strict_str v in
  match UTC_RE text with
  | None => parse_error "must use canonical UTC milliseconds"
  | Some groups =>
      match groups_datetime groups with
      | Ok (d, t) => Ok (mkDT d t (Some 0))
      | Err e => if is_ValueError e then parse_error "is not a valid UTC timestamp" else Err e
      end
  end.

Definition optional_utc : value -> result (option datetime) := optional required_utc.

(** [_LOCAL_RE]: the groups, the sign of the offset and its hours and minutes. *)
Definition LOCAL_RE (s : str) : option (list str * bool * str * str) :=
  let? (groups, r) := iso_ms_groups s in
  match r with
  | sign :: r =>
      if one_of "+-" sign then
        let? (h, r) := eat_n is_digit 2 r in
        let? r := eat (u ":") r in
        let? (m, r) := eat_n is_digit 2 r in
        if bool_decide (r = []) then Some (groups, char_eqb sign "-", h, m) else None
      else None
  | [] => None
  end.

(** [datetime.fromisoformat] on the matched groups; an offset is under a day. *)
Definition fromisoformat (groups : list str) (negative : bool) (h m : str) : result local_datetime :=
  let! (d, t) := groups_datetime groups in
  let a := (int_of_digits h * 3600 + int_of_digits m * 60) * 1000000 in
  raise_if day_us <=? a as ValueError msg "offset must be strictly between -24 and 24 hours" ;;
  Ok (mkLocal d t false (Some (FixedOffset (if negative then - a else a)))).

Definition required_local (v : value) : result local_datetime :=
  let! text := strict_str v in
  match LOCAL_RE text with
  | None => parse_error "must use canonical local milliseconds and offset"
  | Some (groups, negative, h, m) =>
      match fromisoformat groups negative h m with
      | Ok parsed => Ok parsed
      | Err e => if is_ValueError e then parse_error "is not a valid local timestamp" else Err e
      end
  end.

Definition optional_local : value -> result (option local_datetime) := optional required_local.

Definition TIME_ANCHOR_KEYS : list string :=
  ["source"; "monotonic_ns"; "utc"; "uncertainty_ns"; "provenance"]%string.
Definition VIDEO_KEYS : list string :=
  ["codec"; "width"; "height"; "fps_nominal"; "target_bitrate_bps"; "measured_bitrate_bps"; "frames_written";
   "dropped_frames"]%string.
Definition AUDIO_KEYS : list string :=
  ["available"; "codec"; "sample_rate_hz"; "channels"; "target_bitrate_bps"]%string.
Definition GPS_KEYS : list string := ["available"; "first_fix_utc"; "samples"]%string.
Definition GPS_SAMPLE_KEYS : list string :=
  ["monotonic_ns"; "utc"; "timestamp_quality"; "lat_deg"; "lon_deg"; "speed_mps"; "course_deg"; "altitude_m";
   "fix_quality"; "satellites"; "hdop"]%string.
Definition TOP_LEVEL_KEYS : list string :=
  ["schema_version"; "clip_id"; "boot_id"; "sequence"; "video_file"; "metadata_file"; "start_utc"; "end_utc";
   "start_monotonic_ns"; "end_monotonic_ns"; "gps_time_state"; "system_clock_state"; "timestamp_quality";
   "time_anchor"; "timezone"; "start_local"; "video"; "audio"; "gps"; "protected"; "protection_reason";
   "software_version"; "warnings"]%string.

Definition parse_anchor (v : value) : result (option TimeAnchor) :=
  match v with
  | VNull => Ok None
  | _ =>
      let! raw := closed_mapping v TIME_ANCHOR_KEYS in
      let! source_text := strict_str (get raw "source") in
      let! source := TimeAnchorSource_of source_text in
      let! monotonic_ns := strict_int (get raw "monotonic_ns") in
      let! utc := required_utc (get raw "utc") in
      let! uncertainty_ns := strict_int (get raw "uncertainty_ns") in
      let! provenance := strict_str (get raw "provenance") in
      let! anchor := TimeAnchor_new (mkAnchor source monotonic_ns utc uncertainty_ns provenance) in
      Ok (Some anchor)
  end.

Definition parse_video (v : value) : result VideoSummary :=
  let! raw := closed_mapping v VIDEO_KEYS in
  let! codec := strict_str (get raw "codec") in
  let! width := strict_int (get raw "width") in
  let! height := strict_int (get raw "height") in
  let! fps_nominal := strict_number (get raw "fps_nominal") in
  let! target_bitrate_bps := strict_int (get raw "target_bitrate_bps") in
  let! measured_bitrate_bps := strict_int (get raw "measured_bitrate_bps") in
  let! frames_written := strict_int (get raw "frames_written") in
  let! dropped_frames := strict_int (get raw "dropped_frames") in
  VideoSummary_new (mkVideo codec width height fps_nominal target_bitrate_bps measured_bitrate_bps
    frames_written dropped_frames).

Definition parse_audio (v : value) : result AudioSummary :=
  let! raw := closed_mapping v AUDIO_KEYS in
  let! available := strict_bool (get raw "available") in
  let! codec := optional strict_str (get raw "codec") in
  let! sample_rate_hz := optional strict_int (get raw "sample_rate_hz") in
  let! channels := optional strict_int (get raw "channels") in
  let! target_bitrate_bps := optional strict_int (get raw "target_bitrate_bps") in
  AudioSummary_new (mkAudio available codec sample_rate_hz channels target_bitrate_bps).

Definition parse_gps_sample (v : value) : result GpsSample :=
  let! raw := closed_mapping v GPS_SAMPLE_KEYS in
  let! monotonic_ns := strict_int (get raw "monotonic_ns") in
  let! utc := optional_utc (get raw "utc") in
  let! quality_text := strict_str (get raw "timestamp_quality") in
  let! timestamp_quality := TimestampQuality_of quality_text in
  let! lat_deg := optional strict_number (get raw "lat_deg") in
  let! lon_deg := optional strict_number (get raw "lon_deg") in
  let! speed_mps := optional strict_number (get raw "speed_mps") in
  let! course_deg := optional strict_number (get raw "course_deg") in
  let! altitude_m := optional strict_number (get raw "altitude_m") in
  let! fix_quality := optional strict_int (get raw "fix_quality") in
  let! satellites := optional strict_int (get raw "satellites") in
  let! hdop := optional strict_number (get raw "hdop") in
  GpsSample_new (mkSample monotonic_ns utc timestamp_quality lat_deg lon_deg speed_mps course_deg altitude_m
    fix_quality satellites hdop).

Definition parse_gps (v : value) : result GpsSummary :=
  let! raw := closed_mapping v GPS_KEYS in
  match get raw "samples" with
  | VList raw_samples =>
      raise_if MAX_GPS_SAMPLES <? Z.of_nat (length raw_samples)
        as SidecarParseError msg "gps.samples exceeds its per-clip bound" ;;
      let! available := strict_bool (get raw "available") in
      let! first_fix_utc := optional_utc (get raw "first_fix_utc") in
      let! samples := result_map parse_gps_sample raw_samples in
      GpsSummary_new (mkGps available first_fix_utc samples)
  | _ => parse_error "gps.samples must be an array"
  end.

Section Parse.
Context `{ZoneDatabase}.

(** The body of the [try] of [parse_sidecar_mapping]. *)
Definition parse_mapping_body (raw : value) : result ClipSidecar :=
  let! top := closed_mapping raw TOP_LEVEL_KEYS in
  let! anchor := parse_anchor (get top "time_anchor") in
  let! video := parse_video (get top "video") in
  let! audio := parse_audio (get top "audio") in
  let! gps := parse_gps (get top "gps") in
  let! warnings :=
    match get top "warnings" with
    | VList l =>
        raise_if MAX_WARNINGS <? Z.of_nat (length l) as SidecarParseError msg "warnings exceeds its per-clip bound" ;;
        result_map strict_str l
    | _ => parse_error "warnings must be an array"
    end in
  let! schema_version := strict_int (get top "schema_version") in
  let! clip_id := canonical_uuid (get top "clip_id") in
  let! boot_id := canonical_uuid (get top "boot_id") in
  let! sequence := strict_int (get top "sequence") in
  let! video_file := strict_str (get top "video_file") in
  let! metadata_file := strict_str (get top "metadata_file") in
  let! start_utc := optional_utc (get top "start_utc") in
  let! end_utc := optional_utc (get top "end_utc") in
  let! start_monotonic_ns := strict_int (get top "start_monotonic_ns") in
  let! end_monotonic_ns := strict_int (get top "end_monotonic_ns") in
  let! gps_text := strict_str (get top "gps_time_state") in
  let! gps_time_state := GpsTimeState_of gps_text in
  let! system_text := strict_str (get top "system_clock_state") in
  let! system_clock_state := SystemClockState_of system_text in
  let! quality_text := strict_str (get top "timestamp_quality") in
  let! timestamp_quality := TimestampQuality_of quality_text in
  let! timezone := strict_str (get top "timezone") in
  let! start_local := optional_local (get top "start_local") in
  let! protected := strict_bool (get top "protected") in
  let! protection_reason := optional strict_str (get top "protection_reason") in
  let! software_version := strict_str (get top "software_version") in
  ClipSidecar_new (mkSidecar schema_version clip_id boot_id sequence video_file metadata_file start_utc end_utc
    start_monotonic_ns end_monotonic_ns gps_time_state system_clock_state timestamp_quality anchor timezone
    start_local video audio gps protected protection_reason software_version warnings).

Definition parse_sidecar_mapping (raw : value) : result ClipSidecar :=
  match parse_mapping_body raw with
  | Ok sidecar => Ok sidecar
  | Err e =>
      if bool_decide (exn_cls e = SidecarParseError) then Err e
      else if is_ValueError e || bool_decide (exn_cls e = TypeError) then parse_error "invalid sidecar"
      else Err e
  end.

(** [payload.decode("utf-8")]: texts of one-byte and two-byte characters up to U+00FF; a longer
    character is outside the texts modelled, and anything else is malformed. *)
Fixpoint decode_utf8 (payload : list Z) : result str :=
  match payload with
  | [] => Ok []
  | b :: rest =>
      if b <? 128 then let! s := decode_utf8 rest in Ok (chr b :: s)
      else
        let continuation (x : Z) : bool := (128 <=? x) && (x <? 192) in
        match rest with
        | x :: rest' =>
            if (194 <=? b) && (b <? 224) && continuation x then
              if b <? 196 then let! s := decode_utf8 rest' in Ok (chr ((b - 192) * 64 + (x - 128)) :: s)
              else outside_text
            else
              match rest' with
              | y :: rest'' =>
                  if (224 <=? b) && (b <? 240) && continuation x && continuation y
                     && negb ((b =? 224) && (x <? 160)) && negb ((b =? 237) && (160 <=? x)) then outside_text
                  else
                    match rest'' with
                    | z :: _ =>
                        if (240 <=? b) && (b <? 245) && continuation x && continuation y && continuation z
                           && negb ((b =? 240) && (x <? 144)) && negb ((b =? 244) && (144 <=? x)) then outside_text
                        else Err (Exn UnicodeDecodeError "invalid continuation byte")
                    | [] => Err (Exn UnicodeDecodeError "unexpected end of data")
                    end
              | [] => Err (Exn UnicodeDecodeError "unexpected end of data")
              end
        | [] => Err (Exn UnicodeDecodeError "unexpected end of data")
        end
  end.

Definition MAX_SIDECAR_BYTES : Z := 512 * 1024.

Definition byte_value (b : byte) : Z := Z.of_N (Byte.to_N b).

Definition parse_sidecar_bytes (payload : bytes) : result ClipSidecar :=
  raise_if bool_decide (payload = []) as SidecarParseError msg "sidecar payload cannot be empty" ;;
  raise_if MAX_SIDECAR_BYTES <? Z.of_nat (length payload)
    as SidecarParseError msg "sidecar payload exceeds the byte bound" ;;
  match decode_utf8 (map byte_value payload) with
  | Err e =>
      if bool_decide (exn_cls e = UnicodeDecodeError) then parse_error "sidecar payload is not valid UTF-8" else Err e
  | Ok text =>
      match loads (hooks := strict_hooks) text with
      | Err e =>
          if bool_decide (exn_cls e = JSONDecodeError) || bool_decide (exn_cls e = SidecarParseError)
          then parse_error "malformed sidecar JSON" else Err e
      | Ok (VObj fields) =>
          let! sidecar := parse_sidecar_mapping (VObj fields) in
          raise_if negb (bool_decide (to_canonical_json sidecar = payload))
            as SidecarParseError msg "sidecar JSON is valid but not in canonical byte form" ;;
          Ok sidecar
      | Ok _ => parse_error "sidecar JSON root must be an object"
      end
  end.
End Parse.
