(* ===== verification/MetadataDemo.v ===== *)
(** * A small zone database and sidecar

    Two zones, one with the end of a summer time, and a sidecar before and after its anchor, on which
    the metadata theorems are instantiated. *)

From Stdlib Require Import Ascii String ZArith SpecFloat Lia Strings.Byte.
From stdpp Require Import base list strings.
From S2P Require Import Prelude PyStr PyFloat Uuid DateTime State Naming LocalTime Metadata Sidecar.

Definition hour_us : Z := 3600 * 1000000.

(** 2026-10-24T23:00:00Z, when the summer time of [Asia/Jerusalem] ends. *)
Definition summer_end : Z := utc_us (mkDT (mkDate 2026 10 24) (mkTime 23 0 0 0) (Some 0)).

Definition jerusalem : str := u "Asia/Jerusalem".

Definition demo_zone_at (k : str) (n : Z) : Z * bool :=
  if bool_decide (k = jerusalem) then
    if n <? summer_end then (3 * hour_us, false) else (2 * hour_us, n <? summer_end + hour_us)
  else (0, false).

Definition demo_utcoffset (k : str) (d : date) (t : time) (fold : bool) : Z :=
  let w := local_us (mkDT d t None) in
  if bool_decide (k = jerusalem) then
    if w <? summer_end + 2 * hour_us then 3 * hour_us
    else if w <? summer_end + 3 * hour_us then if fold then 2 * hour_us else 3 * hour_us
    else 2 * hour_us
  else 0.

#[local] Instance demo_zones : ZoneDatabase := {|
  ZoneInfo k := if bool_decide (k = jerusalem) || bool_decide (k = u "Etc/UTC") then Ok tt
                else Err (Exn ZoneInfoNotFoundError "No time zone found");
  zone_utcoffset := demo_utcoffset;
  zone_dst k d t fold := Some (if demo_utcoffset k d t fold =? 3 * hour_us then hour_us else 0);
  zone_tzname k d t fold :=
    Some (if demo_utcoffset k d t fold =? 3 * hour_us then u "IDT"
          else if demo_utcoffset k d t fold =? 2 * hour_us then u "IST" else u "UTC");
  zone_at := demo_zone_at
|}.

#[local] Instance demo_zone_laws : ZoneLaws.
Proof.
  split.
  - intros k n off fold dt Ha (_ & Hl & Ho & _)%dt_of_us_ok. cbn in *.
    assert (local_us (mkDT (dt_date dt) (dt_time dt) None) = n + off) as Hw by exact Hl.
    unfold demo_utcoffset, demo_zone_at, hour_us in *. rewrite Hw. clear Hw Hl.
    set (T := summer_end) in *. clearbody T. destruct (bool_decide (k = jerusalem)); [|by injection Ha as <- _].
    destruct (n <? T) eqn:E; injection Ha as <- <-; bool_prop.
    + destruct (n + 3 * (3600 * 1000000) <? T + 2 * (3600 * 1000000)); [done|]. by replace (_ <? _) with true by lia.
    + replace (n + 2 * (3600 * 1000000) <? T + 2 * (3600 * 1000000)) with false by lia.
      destruct (n <? T + 3600 * 1000000) eqn:E2; bool_prop.
      * by replace (_ <? _) with true by lia.
      * by replace (_ <? _) with false by lia.
  - intros k n. cbn. unfold demo_zone_at, hour_us, day_us. repeat case_match; cbn; lia.
Qed.

Definition md_clip : UUID := mkUUID 0x6f1d2c3b4a5948678796a5b4c3d2e1f0.
Definition md_boot : UUID := mkUUID 0x0123456789ab4cdeb0f1a2b3c4d5e6f7.

Definition md_video : VideoSummary := mkVideo (u "h264") 1920 1080 (literal "30.0") 8000000 7912345 1800 2.
Definition md_audio : AudioSummary := mkAudio false None None None None.

Definition md_sample : GpsSample :=
  mkSample 100500000000 None MONOTONIC_ONLY (Some (literal "32.0853")) (Some (literal "34.7818"))
    (Some (literal "12.5")) (Some (literal "271.3")) (Some (literal "-0.5")) (Some 1) (Some 9) (Some (literal "0.9")).

(** Recorded before any anchor. *)
Definition md_provisional : ClipSidecar :=
  mkSidecar 1 md_clip md_boot 7 (u "boot-0123456789ab-000007.mp4") (u "boot-0123456789ab-000007.json")
    None None 100000000000 160000000000 UNSYNCED UNSET MONOTONIC_ONLY None jerusalem None
    md_video md_audio (mkGps true None [md_sample]) true (Some (u "button " ++ [chr 233])) (u "1.0.0") [u "late gps"].

Definition md_anchor : TimeAnchor :=
  mkAnchor SOURCE_GPS 130000000000 (mkDT (mkDate 2026 7 1) (mkTime 9 30 15 250999) (Some 0)) 50000000 (u "RMC").

(** The same clip once an anchor named it: [start] is its start, [local] its local reading. *)
Definition md_derived (start end_ sample : datetime) (anchor : TimeAnchor) (stem : string) (local : local_datetime) : ClipSidecar :=
  mkSidecar 1 md_clip md_boot 7 (u stem ++ u ".mp4") (u stem ++ u ".json")
    (Some start) (Some end_) 100000000000 160000000000 GPS_TIME_VALID UNSET GPS_ANCHORED (Some anchor) jerusalem (Some local)
    md_video md_audio
    (mkGps true (Some sample)
       [mkSample 100500000000 (Some sample) GPS_ANCHORED (Some (literal "32.0853")) (Some (literal "34.7818"))
          (Some (literal "12.5")) (Some (literal "271.3")) (Some (literal "-0.5")) (Some 1) (Some 9) (Some (literal "0.9"))])
    true (Some (u "button " ++ [chr 233])) (u "1.0.0") [u "late gps"].

Definition utc_at (y m d h mi s ms : Z) : datetime := mkDT (mkDate y m d) (mkTime h mi s (ms * 1000)) (Some 0).

Definition md_summer : ClipSidecar :=
  md_derived (utc_at 2026 7 1 9 29 45 250) (utc_at 2026 7 1 9 30 45 250) (utc_at 2026 7 1 9 29 45 750)
    (mkAnchor SOURCE_GPS 130000000000 (utc_at 2026 7 1 9 30 15 250) 50000000 (u "RMC"))
    "20260701T092945.250Z_0123456789ab_s000007"
    (mkLocal (mkDate 2026 7 1) (mkTime 12 29 45 250000) false (Some (ZoneKey jerusalem))).

(** Half an hour after the summer time ended: the local reading 01:29:45 comes a second time. *)
Definition md_repeated : ClipSidecar :=
  md_derived (utc_at 2026 10 24 23 29 45 250) (utc_at 2026 10 24 23 30 45 250) (utc_at 2026 10 24 23 29 45 750)
    (mkAnchor SOURCE_GPS 130000000000 (utc_at 2026 10 24 23 30 15 250) 50000000 (u "RMC"))
    "20261024T232945.250Z_0123456789ab_s000007"
    (mkLocal (mkDate 2026 10 25) (mkTime 1 29 45 250000) true (Some (ZoneKey jerusalem))).
