(* ===== verification/SidecarMapping.v ===== *)
(** * Reading a sidecar's mapping back

    Each parser of [Sidecar] gives back the record whose mapping it is given: the layer between JSON
    values and the metadata records. *)

From Stdlib Require Import Ascii String ZArith SpecFloat Lia.
From stdpp Require Import base list strings.
From S2P Require Import Prelude PyStr PyFloat PyRepr Uuid DateTime State Naming Models Json JsonProperties LocalTime Metadata Sidecar.

(** ** Keyed objects *)

(** The members of an object, with the members of their values, in key order. *)
Definition sorted_fields (l : list (string * value)) : list (str * value) :=
  sort_by (fun a b => key_leb (fst a) (fst b)) (map (fun '(k, v) => (k, sorted_keys v)) (map (fun '(k, v) => (u k, v)) l)).

Lemma sorted_keyed l : sorted_keys (keyed l) = VObj (sorted_fields l).
Proof. reflexivity. Qed.

Lemma u_inj a b : u a = u b -> a = b.
Proof. intros H. apply (f_equal string_of_list_ascii) in H. unfold u in H. by rewrite !string_of_list_ascii_of_string in H. Qed.

Lemma sorted_fields_perm l : sorted_fields l ≡ₚ map (fun '(k, v) => (u k, sorted_keys v)) l.
Proof.
  unfold sorted_fields. rewrite sort_by_perm, map_map. apply Permutation_refl'. apply map_ext. by intros [k v].
Qed.

Lemma sorted_fields_keys l : map fst (sorted_fields l) ≡ₚ map u (map fst l).
Proof.
  rewrite sorted_fields_perm, !map_map. apply Permutation_refl'. apply map_ext. by intros [k v].
Qed.

Lemma closed_keyed l ks : ks = map fst l -> closed_mapping (sorted_keys (keyed l)) ks = Ok (sorted_fields l).
Proof.
  intros ->. rewrite sorted_keyed. unfold closed_mapping.
  assert (forall k, k ∈ map fst (sorted_fields l) <-> k ∈ map u (map fst l)) as Hk
    by (intros k; by rewrite sorted_fields_keys).
  replace (forallb _ (map fst (sorted_fields l))) with true; [|symmetry; apply forallb_Forall, Forall_forall;
    intros k Hin; apply bool_decide_eq_true; by apply Hk].
  replace (forallb _ (map u (map fst l))) with true; [done|].
  symmetry. apply forallb_Forall, Forall_forall. intros k Hin. apply bool_decide_eq_true. by apply Hk.
Qed.

(** The value of a key among distinct keys does not depend on their order. *)
Lemma get_in raw k v : NoDup (map fst raw) -> (u k, v) ∈ raw -> get raw k = v.
Proof.
  unfold get. induction raw as [|[k' v'] raw IH]; intros Hd Hin; [by apply not_elem_of_nil in Hin|].
  apply NoDup_cons in Hd as [Hn Hd]. cbn [List.find fst]. destruct (bool_decide (k' = u k)) eqn:E; bool_prop.
  - subst. apply elem_of_cons in Hin as [[= ->]|Hin]; [done|]. destruct Hn. cbn.
    change (u k) with (fst (u k, v)). by apply list_elem_of_fmap_2.
  - apply elem_of_cons in Hin as [[= <- <-]|Hin]; [done|]. auto.
Qed.

Fixpoint assoc (l : list (string * value)) (k : string) : option value :=
  match l with
  | [] => None
  | (k', v) :: l' => if String.eqb k' k then Some v else assoc l' k
  end.

Lemma assoc_in l k v : assoc l k = Some v -> (k, v) ∈ l.
Proof.
  induction l as [|[k' v'] l IH]; cbn [assoc]; [done|]. destruct (String.eqb k' k) eqn:E.
  - apply String.eqb_eq in E as ->. intros [= ->]. by left.
  - intros H. right. auto.
Qed.

Lemma get_keyed l k v : NoDup (map fst l) -> assoc l k = Some v -> get (sorted_fields l) k = sorted_keys v.
Proof.
  intros Hd Hv. apply get_in.
  - rewrite sorted_fields_keys. by apply NoDup_fmap_2; [intros ? ?; apply u_inj|].
  - rewrite sorted_fields_perm. change (u k, sorted_keys v) with ((fun '(k, v) => (u k, sorted_keys v)) (k, v)).
    apply list_elem_of_fmap_2. by apply assoc_in.
Qed.

(** Read every field of a keyed object with concrete keys. *)
Ltac read_fields :=
  match goal with |- context [closed_mapping (sorted_keys (keyed ?l)) _] =>
    let Hd := fresh "Hd" in
    let ks := eval cbn [map fst] in (map fst l) in
    assert (NoDup (map fst l)) as Hd by (change (NoDup ks); refine (bool_decide_eq_true_1 _ _); vm_compute; reflexivity);
    rewrite (closed_keyed l) by reflexivity; cbn [result_bind];
    repeat match goal with |- context [get (sorted_fields l) ?k] =>
      rewrite (get_keyed l k _ Hd eq_refl) end;
    clear Hd
  end.

(** ** Scalars *)

Lemma optional_or_null {A B} (parse : value -> result B) (f : A -> value) (x : option A) (g : A -> B) :
  (forall a, x = Some a -> sorted_keys (f a) <> VNull /\ parse (sorted_keys (f a)) = Ok (g a)) ->
  optional parse (sorted_keys (or_null f x)) = Ok (option_map g x).
Proof.
  intros Hp. destruct x as [a|]; [|done]. cbn [or_null option_map]. destruct (Hp a eq_refl) as [Hn Ha].
  unfold optional. rewrite Ha. by destruct (sorted_keys (f a)).
Qed.

Lemma optional_plain {A} (parse : value -> result A) (f : A -> value) (x : option A) :
  (forall a, sorted_keys (f a) <> VNull /\ parse (sorted_keys (f a)) = Ok a) ->
  optional parse (sorted_keys (or_null f x)) = Ok x.
Proof. intros Hp. rewrite (optional_or_null parse f x id) by auto. by destruct x. Qed.

Lemma optional_str (x : option str) : optional strict_str (sorted_keys (or_null VStr x)) = Ok x.
Proof. by apply optional_plain. Qed.

Lemma optional_int (x : option Z) : optional strict_int (sorted_keys (or_null VInt x)) = Ok x.
Proof. by apply optional_plain. Qed.

Lemma optional_number (x : option float) : optional strict_number (sorted_keys (or_null VFloat x)) = Ok x.
Proof. by apply optional_plain. Qed.

(** A UTC value the millisecond text carries. *)
Definition ms_utc (t : datetime) : Prop := dt_ok t /\ dt_off t = Some 0 /\ time_ms (dt_time t) = dt_time t.

#[export] Instance dt_ok_decision t : Decision (dt_ok t).
Proof. unfold dt_ok, date_ok, time_ok. apply _. Defined.

#[export] Instance ms_utc_decision t : Decision (ms_utc t).
Proof. unfold ms_utc. apply _. Defined.

Lemma read_iso_utc t : ms_utc t -> required_utc (VStr (iso_utc t)) = Ok t.
Proof.
  intros ((Hd & Ht) & Ho & Hms). unfold required_utc, iso_utc. cbn [strict_str result_bind]. unfold UTC_RE.
  rewrite isoformat_groups by done. rewrite bool_decide_true by done. rewrite groups_read by done.
  rewrite Hms, <-Ho. by destruct t.
Qed.

Lemma optional_iso_utc (x : option datetime) :
  (forall t, x = Some t -> ms_utc t) ->
  optional_utc (sorted_keys (or_null (fun t => VStr (iso_utc t)) x)) = Ok x.
Proof.
  intros Hx. unfold optional_utc. rewrite (optional_or_null _ _ _ id); [by destruct x|].
  intros t Ht. split; [done|]. by apply read_iso_utc, Hx.
Qed.

Lemma enum_of_value {A} (value : A -> string) members x :
  (forall a b, value a = value b -> a = b) -> x ∈ members -> enum_of value members (u (value x)) = Ok x.
Proof.
  intros Hinj Hin. unfold enum_of. induction members as [|y l IH]; [by apply not_elem_of_nil in Hin|].
  cbn [List.find]. destruct (bool_decide (u (value y) = u (value x))) eqn:E; bool_prop.
  - by apply u_inj, Hinj in E as ->.
  - apply elem_of_cons in Hin as [->|Hin]; [done|]. auto.
Qed.

Lemma GpsTimeState_read x : GpsTimeState_of (u (GpsTimeState_value x)) = Ok x.
Proof. by destruct x. Qed.
Lemma SystemClockState_read x : SystemClockState_of (u (SystemClockState_value x)) = Ok x.
Proof. by destruct x. Qed.
Lemma TimestampQuality_read x : TimestampQuality_of (u (TimestampQuality_value x)) = Ok x.
Proof. by destruct x. Qed.
Lemma TimeAnchorSource_read x : TimeAnchorSource_of (u (TimeAnchorSource_value x)) = Ok x.
Proof. by destruct x. Qed.

Lemma read_uuid i : uuid_ok i -> canonical_uuid (VStr (uuid_str i)) = Ok i.
Proof.
  intros Hi. unfold canonical_uuid. cbn [strict_str result_bind]. rewrite UUID_of_str_uuid_str by done.
  by rewrite bool_decide_true.
Qed.

(** ** Records *)

Lemma read_anchor a :
  TimeAnchor_new a = Ok a -> ms_utc (ta_utc a) -> parse_anchor (sorted_keys (TimeAnchor_to_mapping a)) = Ok (Some a).
Proof.
  intros Ha Hu. unfold parse_anchor.
  destruct (sorted_keys (TimeAnchor_to_mapping a)) eqn:E; try discriminate E. rewrite <-E. clear E.
  unfold TimeAnchor_to_mapping. read_fields. cbn [sorted_keys VText strict_str strict_int result_bind].
  rewrite TimeAnchorSource_read. cbn [result_bind]. rewrite read_iso_utc by done. cbn [result_bind].
  destruct a; cbn in *. by rewrite Ha.
Qed.

Lemma read_video v : VideoSummary_new v = Ok v -> parse_video (sorted_keys (VideoSummary_to_mapping v)) = Ok v.
Proof.
  intros Hv. unfold parse_video, VideoSummary_to_mapping. read_fields.
  cbn [sorted_keys strict_str strict_int strict_number result_bind]. by destruct v.
Qed.

Lemma read_audio a : AudioSummary_new a = Ok a -> parse_audio (sorted_keys (AudioSummary_to_mapping a)) = Ok a.
Proof.
  intros Ha. unfold parse_audio, AudioSummary_to_mapping. read_fields.
  rewrite !optional_str, !optional_int. cbn [sorted_keys strict_bool result_bind]. by destruct a.
Qed.

Lemma read_sample g :
  GpsSample_new g = Ok g -> (forall t, s_utc g = Some t -> ms_utc t) ->
  parse_gps_sample (sorted_keys (GpsSample_to_mapping g)) = Ok g.
Proof.
  intros Hg Hu. unfold parse_gps_sample, GpsSample_to_mapping. read_fields.
  rewrite !optional_number, !optional_int, optional_iso_utc by done.
  cbn [sorted_keys VText strict_int strict_str result_bind]. rewrite TimestampQuality_read. cbn [result_bind].
  by destruct g.
Qed.

Lemma result_map_ok {A B} (f : A -> B) (g : B -> result A) l :
  Forall (fun x => g (f x) = Ok x) l -> result_map g (map f l) = Ok l.
Proof.
  induction 1 as [|x l Hx _ IH]; cbn [map result_map]; [done|]. rewrite Hx. cbn [result_bind]. by rewrite IH.
Qed.

Lemma read_gps g :
  GpsSummary_new g = Ok g -> Forall (fun s => GpsSample_new s = Ok s) (g_samples g) ->
  (forall t, g_first_fix_utc g = Some t -> ms_utc t) ->
  Forall (fun s => forall t, s_utc s = Some t -> ms_utc t) (g_samples g) ->
  parse_gps (sorted_keys (GpsSummary_to_mapping g)) = Ok g.
Proof.
  intros Hg Hs Hu Hsu. unfold parse_gps, GpsSummary_to_mapping. read_fields. cbn [sorted_keys].
  rewrite map_map, length_map. assert (Z.of_nat (length (g_samples g)) <= MAX_GPS_SAMPLES) as Hl.
  { unfold GpsSummary_new in Hg. inv_ok. bool_prop. lia. }
  replace (MAX_GPS_SAMPLES <? _) with false by lia. cbn [strict_bool result_bind].
  rewrite optional_iso_utc by done. cbn [result_bind].
  rewrite result_map_ok; [by destruct g|]. rewrite Forall_forall in *. intros s Hin. apply read_sample; auto.
  by apply Hsu.
Qed.

(** ** Local times *)

Definition minute_us : Z := 60 * 1000000.

(** The text of the offset has hours and minutes only. *)
Definition minute_offset (off : Z) : bool := (off mod minute_us =? 0) && (Z.abs off <? day_us).

Definition at_offset (x : local_datetime) (off : Z) : local_datetime :=
  mkLocal (ld_date x) (ld_time x) false (Some (FixedOffset off)).

Lemma minute_offset_text off :
  minute_offset off = true ->
  let a := Z.abs off in
  format_offset off = (if off <? 0 then u "-" else u "+") ++ digits_fixed 2 (a / 3600000000) ++ u ":" ++
    digits_fixed 2 (a / 60000000 mod 60) /\
  a = (a / 3600000000 * 3600 + a / 60000000 mod 60 * 60) * 1000000 /\ a < day_us /\
  0 <= a / 3600000000 < 24 /\ 0 <= a / 60000000 mod 60 < 60.
Proof.
  intros Hm a. unfold minute_offset, minute_us, day_us in *. bool_prop.
  assert (a mod 60000000 = 0) as Hz.
  { unfold a. destruct (Z.abs_eq_or_opp off) as [->| ->]; [done|]. by apply Z.mod_opp_l_z. }
  assert (0 <= a < 86400 * 1000000) as Hb by lia.
  assert (a mod 1000000 = 0 /\ a / 1000000 mod 60 = 0 /\
    a = (a / 3600000000 * 3600 + a / 60000000 mod 60 * 60) * 1000000 /\
    0 <= a / 3600000000 < 24 /\ 0 <= a / 60000000 mod 60 < 60) as (Hus & Hss & Habs & Hhh & Hmm).
  { clear - Hz Hb. clearbody a. Z.to_euclidean_division_equations. lia. }
  split_and!; try done; try lia. unfold format_offset. cbv zeta. fold a. rewrite Hus, Hss. cbn [Z.eqb negb orb].
  rewrite !app_nil_r, !zpad_fixed by lia. done.
Qed.

Lemma read_iso_local `{ZoneDatabase} x off :
  date_ok (ld_date x) -> time_ok (ld_time x) -> time_ms (ld_time x) = ld_time x ->
  utcoffset x = Some off -> minute_offset off = true ->
  required_local (VStr (iso_local x)) = Ok (at_offset x off).
Proof.
  intros Hd Ht Hms Ho Hm. destruct (minute_offset_text off Hm) as (Htext & Habs & Hday & Hhh & Hmm).
  unfold required_local, iso_local. cbn [strict_str result_bind]. rewrite Ho, Htext.
  unfold LOCAL_RE. rewrite isoformat_groups by done.
  assert (exists sign, (if off <? 0 then u "-" else u "+") = [sign] /\ one_of "+-" sign = true /\
    char_eqb sign "-" = (off <? 0)) as (sign & -> & Hs & Hneg)
    by (destruct (off <? 0); eexists _; split_and!; reflexivity).
  cbn [app]. rewrite Hs. rewrite eat_n_app, eat_app by auto using digits_fixed_length, digits_fixed_digits.
  rewrite <-(app_nil_r (digits_fixed 2 (Z.abs off / 60000000 mod 60))).
  rewrite eat_n_app by auto using digits_fixed_length, digits_fixed_digits.
  rewrite bool_decide_true by done. unfold fromisoformat. rewrite groups_read by done. cbn [result_bind].
  rewrite !int_of_digits_fixed_small by lia. rewrite <-Habs.
  replace (day_us <=? Z.abs off) with false by lia. rewrite Hneg, Hms. unfold at_offset.
  do 4 f_equal. destruct (off <? 0) eqn:E; bool_prop; lia.
Qed.
