(* ===== verification/SidecarProperties.v ===== *)
(** * Sidecar files: what parsing promises

    A sidecar written by the recorder is read back as it was, up to the zone object of its local time,
    except one that starts in a repeated local hour; its text is within the parser's bound; and
    whatever the parser accepts satisfies every bound of the schema and is the only text of it. *)

From Stdlib Require Import Ascii String ZArith SpecFloat Lia Strings.Byte.
From stdpp Require Import base list strings.
From S2P Require Import Prelude PyStr PyFloat PyRepr Uuid DateTime State Naming Models Json JsonProperties LocalTime Metadata.
From S2P Require Import Sidecar MetadataDemo SidecarMapping.

(** ** The text is ASCII *)

Definition ascii_text (s : str) : Prop := Forall (fun c => ord c < 128) s.

Lemma ascii_app a b : ascii_text (a ++ b) <-> ascii_text a /\ ascii_text b.
Proof. apply Forall_app. Qed.

Lemma ascii_isascii s : isascii s = true -> ascii_text s.
Proof. unfold isascii. rewrite forallb_Forall. intros H. eapply Forall_impl; [exact H|]. cbn. intros. lia. Qed.

Lemma ascii_digits k n : ascii_text (digits_fixed k n).
Proof.
  eapply Forall_impl; [apply digits_fixed_digits|]. cbn. intros c Hc. apply is_digit_iff in Hc. lia.
Qed.

Lemma ascii_hex k n : ascii_text (hex_fixed k n).
Proof.
  eapply Forall_impl; [apply hex_fixed_hex|]. cbn. intros c. unfold is_lower_hex, is_digit, in_range.
  intros Hc. apply orb_true_iff in Hc as [Hc|Hc]; bool_prop; lia.
Qed.

Lemma ascii_zeros n : ascii_text (zeros n).
Proof. unfold zeros. induction (Z.to_nat n); cbn; constructor; [vm_compute|]; done. Qed.

Lemma ascii_span f s : ascii_text s -> ascii_text (snd (span f s)).
Proof.
  induction 1 as [|c s Hc Hs IH]; cbn; [constructor|]. destruct (f c); [|by constructor].
  destruct (span f s). done.
Qed.

Lemma ascii_strip s : ascii_text s -> ascii_text (strip_zeros s).
Proof.
  intros H. unfold strip_zeros, rstrip_by, lstrip_by. apply Forall_rev, ascii_span, Forall_rev, H.
Qed.

Ltac ascii_parts := repeat first
  [ rewrite ascii_app; split | apply ascii_digits | apply ascii_zeros | apply ascii_hex | by apply ascii_isascii
  | split_if | by apply Forall_take | by apply Forall_drop | assumption ].

Lemma ascii_format ds p : ascii_text ds -> ascii_text (format_digits ds p).
Proof. intros H. unfold format_digits. cbv zeta. ascii_parts. Qed.

Lemma ascii_float x : ascii_text (float_repr x).
Proof.
  destruct x as [s|s| |s m e]; cbn [float_repr]; ascii_parts.
  all: unfold repr_positive; destruct (float_ratio m e) as [num den]; destruct (shortest _ _ _ _ _ _) as [n e10];
    apply ascii_format, ascii_strip, ascii_digits.
Qed.

Lemma ascii_escape c : ascii_text (escape_char c).
Proof. apply ascii_isascii. destruct c as [[] [] [] [] [] [] [] []]; reflexivity. Qed.

Lemma ascii_quote s : ascii_text (quote s).
Proof.
  unfold quote. constructor; [vm_compute; done|]. rewrite ascii_app. split; [|by apply ascii_isascii].
  induction s as [|c s IH]; cbn; [constructor|]. apply ascii_app. split; [apply ascii_escape|done].
Qed.

Lemma ascii_join c l : ord c < 128 -> Forall ascii_text l -> ascii_text (join_with c l).
Proof.
  intros Hc. induction 1 as [|p l Hp Hl IH]; [constructor|]. destruct l; [done|]. rewrite join_with_cons.
  apply ascii_app. split; [done|]. constructor; done.
Qed.

Lemma ascii_dumps v : ascii_text (dumps v).
Proof.
  induction v as [|b|z|x|s|l IH|l IH] using value_nested_ind; cbn [dumps]; unfold int_text; ascii_parts;
    try apply ascii_float; try apply ascii_quote.
  - apply ascii_join; [vm_compute; done|]. by apply Forall_map.
  - apply ascii_join; [vm_compute; done|]. apply Forall_map. eapply Forall_impl; [exact IH|]. intros [k v] Hv.
    cbn [snd] in Hv. cbv beta iota. rewrite !ascii_app. split_and!; [apply ascii_quote|by apply ascii_isascii|done].
Qed.

Lemma byte_value_ascii c : byte_value (byte_of_ascii c) = ord c.
Proof. destruct c as [[] [] [] [] [] [] [] []]; reflexivity. Qed.

Lemma decode_ascii s : ascii_text s -> decode_utf8 (map byte_value (map byte_of_ascii s)) = Ok s.
Proof.
  induction 1 as [|c s Hc Hs IH]; cbn [map decode_utf8]; [done|]. rewrite byte_value_ascii.
  replace (ord c <? 128) with true by lia. rewrite IH. cbn [result_bind]. by rewrite chr_ord.
Qed.

(** ** The values are readable *)

Lemma forallb_perm {A} (f : A -> bool) l l' : l ≡ₚ l' -> forallb f l = forallb f l'.
Proof. induction 1; cbn; [done|congruence| |congruence]. by rewrite !andb_assoc, (andb_comm (f _)). Qed.

Lemma sorted_readable v : readable v = true -> readable (sorted_keys v) = true.
Proof.
  induction v as [|b|z|x|s|l IH|l IH] using value_nested_ind; intros Hv; cbn [sorted_keys]; try done.
  - cbn [readable] in *. rewrite forallb_Forall in *. rewrite Forall_forall in *. intros v (w & -> & Hin)%list_elem_of_fmap.
    auto.
  - cbn [readable] in *. apply andb_true_iff in Hv as [Hd Hv]. bool_prop.
    apply andb_true_iff. split.
    + apply bool_decide_eq_true. rewrite sort_by_perm, map_map. erewrite map_ext; [exact Hd|]. by intros [k v].
    + erewrite forallb_perm by apply sort_by_perm. rewrite forallb_Forall, Forall_forall in *.
      intros kv (w & -> & Hin)%list_elem_of_fmap. specialize (IH _ Hin). specialize (Hv _ Hin). destruct w as [k v].
      cbn in *. auto.
Qed.

Lemma small_int_reads_back z : 0 <= z <= MAX_MONOTONIC_NS -> int_reads_back z = true.
Proof.
  intros Hz. unfold int_reads_back, MAX_MONOTONIC_NS in *. apply Z.ltb_lt.
  assert (10 ^ 19 <= 10 ^ 4300) as Hp by (apply Z.pow_le_mono_r; lia).
  change (10 ^ 19) with 10000000000000000000 in Hp. generalize dependent (10 ^ 4300). intros. lia.
Qed.

(** ** Sidecars the recorder can hold *)

(** A property of a value that may be absent. *)
Definition if_some {A} (P : A -> Prop) (x : option A) : Prop := forall a, x = Some a -> P a.

(** Every part was accepted by its constructor. *)
Record built `{ZoneDatabase} (s : ClipSidecar) : Prop := mkBuilt {
  built_sidecar : ClipSidecar_new s = Ok s;
  built_video : VideoSummary_new (sd_video s) = Ok (sd_video s);
  built_audio : AudioSummary_new (sd_audio s) = Ok (sd_audio s);
  built_gps : GpsSummary_new (sd_gps s) = Ok (sd_gps s);
  built_samples : Forall (fun g => GpsSample_new g = Ok g) (g_samples (sd_gps s));
  built_anchor : forall a, sd_time_anchor s = Some a -> TimeAnchor_new a = Ok a
}.

(** A float whose decimal text reads back and is as short as [repr] makes it. *)
Definition float_carried (x : float) : bool := float_reads_back x && (len (float_repr x) <=? 25).

Definition opt_forallb {A} (f : A -> bool) (x : option A) : bool := match x with Some a => f a | None => true end.

Definition ms_utc_b (t : datetime) : bool := bool_decide (ms_utc t).

Definition sample_carried (g : GpsSample) : bool :=
  opt_forallb ms_utc_b (s_utc g)
  && forallb (opt_forallb float_carried)
       [s_lat_deg g; s_lon_deg g; s_speed_mps g; s_course_deg g; s_altitude_m g; s_hdop g].

Definition uuid_carried (i : UUID) : bool := (uuid_int i <? 2 ^ 128)%N.

Definition local_carried `{ZoneDatabase} (x : local_datetime) : bool :=
  date_valid (d_year (ld_date x)) (d_month (ld_date x)) (d_day (ld_date x))
  && time_valid (t_hour (ld_time x)) (t_minute (ld_time x)) (t_second (ld_time x)) (t_us (ld_time x))
  && bool_decide (time_ms (ld_time x) = ld_time x)
  && opt_forallb minute_offset (utcoffset x).

(** What the JSON text carries: identifiers of 128 bits, times in whole milliseconds, an offset of
    whole minutes, numbers whose text reads back. *)
Definition carried `{ZoneDatabase} (s : ClipSidecar) : bool :=
  uuid_carried (sd_clip_id s) && uuid_carried (sd_boot_id s)
  && opt_forallb ms_utc_b (sd_start_utc s) && opt_forallb ms_utc_b (sd_end_utc s)
  && opt_forallb (fun a => ms_utc_b (ta_utc a)) (sd_time_anchor s)
  && opt_forallb local_carried (sd_start_local s)
  && float_carried (v_fps_nominal (sd_video s))
  && opt_forallb ms_utc_b (g_first_fix_utc (sd_gps s))
  && forallb sample_carried (g_samples (sd_gps s)).

Lemma opt_forallb_iff {A} (f : A -> bool) x : opt_forallb f x = true <-> if_some (fun a => f a = true) x.
Proof. unfold if_some. destruct x; cbn; naive_solver. Qed.

Lemma opt_ms_utc x : opt_forallb ms_utc_b x = true -> if_some ms_utc x.
Proof. rewrite opt_forallb_iff. intros H t Ht. apply H in Ht. by apply bool_decide_eq_true in Ht. Qed.

Lemma check_integer_ok f lo hi z : check_integer f lo hi z = Ok tt <-> lo <= z <= hi.
Proof.
  unfold check_integer. split; [intros H; inv_ok; bool_prop; lia|].
  intros H. by replace ((lo <=? z) && (z <=? hi)) with true by lia.
Qed.

Lemma check_integer_unit f lo hi z r : check_integer f lo hi z = Ok r -> lo <= z <= hi.
Proof. destruct r. apply check_integer_ok. Qed.

(** ** Every value of the mapping is readable *)

Lemma readable_keyed l :
  NoDup (map fst l) -> Forall (fun kv => readable (snd kv) = true) l -> readable (keyed l) = true.
Proof.
  intros Hd Hl. unfold keyed. cbn [readable]. apply andb_true_iff. split.
  - apply bool_decide_eq_true. rewrite map_map.
    assert (map (fun x => fst (let '(k, v) := x in (u k, v))) l = map u (map fst l)) as ->
      by (rewrite map_map; apply map_ext; by intros [k v]).
    by apply NoDup_fmap_2; [intros ? ?; apply u_inj|].
  - rewrite forallb_Forall. apply Forall_map. eapply Forall_impl; [exact Hl|]. by intros [k v].
Qed.

Lemma readable_or_null {A} (f : A -> value) x :
  (forall a, x = Some a -> readable (f a) = true) -> readable (or_null f x) = true.
Proof. destruct x; cbn; auto. Qed.

Ltac keyed_readable :=
  apply readable_keyed;
  [ match goal with |- NoDup ?ks => let ks' := eval cbn [map fst] in ks in
      change (NoDup ks'); refine (bool_decide_eq_true_1 _ _); vm_compute; reflexivity end
  | repeat (apply Forall_cons_2; [cbn [snd readable VText]|]); try apply Forall_nil_2;
    try reflexivity; try (apply readable_or_null; intros ? ?; cbn [readable]); try reflexivity ].

Lemma small_of_bounds z hi : 0 <= z <= hi -> hi <= MAX_MONOTONIC_NS -> int_reads_back z = true.
Proof. intros. apply small_int_reads_back. lia. Qed.

Lemma float_carried_reads x : float_carried x = true -> float_reads_back x = true.
Proof. unfold float_carried. by intros [? _]%andb_true_iff. Qed.

(** ** What each record promises *)

Definition text_ok (maximum : Z) (s : str) : Prop := s <> [] /\ len s <= maximum /\ Forall (fun c => 32 <= ord c) s.

Definition float_within (lo hi : string) (x : float) : Prop :=
  isfinite x = true /\ fle (literal lo) x = true /\ fle x (literal hi) = true.

Definition within (lo hi z : Z) : Prop := lo <= z <= hi.

Definition video_ok (v : VideoSummary) : Prop :=
  text_ok 32 (v_codec v) /\ within 1 16384 (v_width v) /\ within 1 16384 (v_height v) /\
  float_within "0.1" "1000.0" (v_fps_nominal v) /\ within 1 1000000000 (v_target_bitrate_bps v) /\
  within 0 1000000000 (v_measured_bitrate_bps v) /\ within 0 MAX_MONOTONIC_NS (v_frames_written v) /\
  within 0 MAX_MONOTONIC_NS (v_dropped_frames v).

(** Stream settings are there exactly when audio is. *)
Definition audio_ok (a : AudioSummary) : Prop :=
  if a_available a then
    exists codec rate channels bitrate,
      a = mkAudio true (Some codec) (Some rate) (Some channels) (Some bitrate) /\
      text_ok 32 codec /\ within 1 768000 rate /\ within 1 32 channels /\ within 1 100000000 bitrate
  else a = mkAudio false None None None None.

Definition anchor_ok (a : TimeAnchor) : Prop :=
  within 0 MAX_MONOTONIC_NS (ta_monotonic_ns a) /\ dt_off (ta_utc a) = Some 0 /\
  within 0 MAX_UNCERTAINTY_NS (ta_uncertainty_ns a) /\ text_ok MAX_PROVENANCE_LENGTH (ta_provenance a).

Definition sample_ok (g : GpsSample) : Prop :=
  within 0 MAX_MONOTONIC_NS (s_monotonic_ns g) /\
  (s_timestamp_quality g = MONOTONIC_ONLY <-> s_utc g = None) /\ if_some (fun t => dt_off t = Some 0) (s_utc g) /\
  (s_lat_deg g = None <-> s_lon_deg g = None) /\
  if_some (float_within "-90.0" "90.0") (s_lat_deg g) /\ if_some (float_within "-180.0" "180.0") (s_lon_deg g) /\
  if_some (float_within "0.0" "1000.0") (s_speed_mps g) /\
  if_some (fun x => isfinite x = true /\ fle (literal "0.0") x = true /\ SFltb x (literal "360.0") = true) (s_course_deg g) /\
  if_some (float_within "-2000.0" "100000.0") (s_altitude_m g) /\
  if_some (within 0 8) (s_fix_quality g) /\ if_some (within 0 255) (s_satellites g) /\
  if_some (float_within "0.0" "1000.0") (s_hdop g).

Lemma check_text_ok f hi s r : check_text f hi s = Ok r -> text_ok hi s.
Proof.
  unfold check_text. intros H. inv_ok. bool_prop. split_and!; [done..|]. apply Forall_forall. intros c Hin.
  destruct (decide (32 <= ord c)) as [|Hn]; [done|]. exfalso.
  assert (existsb (fun c => ord c <? 32) s = true) as E; [|congruence].
  apply existsb_exists. exists c. split; [by apply list_elem_of_In|lia].
Qed.

Lemma check_finite_ok f lo hi x r : check_finite f (literal lo) (literal hi) false x = Ok r -> float_within lo hi x.
Proof. unfold check_finite. intros H. inv_ok. bool_prop. done. Qed.

Lemma when_present_ok {A} (check : A -> result unit) x r :
  when_present check x = Ok r -> if_some (fun a => check a = Ok tt) x.
Proof. destruct r, x; intros H y; [intros [= <-]; exact H|done]. Qed.

Lemma if_some_impl {A} (P Q : A -> Prop) x : (forall a, P a -> Q a) -> if_some P x -> if_some Q x.
Proof. unfold if_some. eauto. Qed.

Lemma check_utc_ok f t r : check_utc f t = Ok r -> dt_off t = Some 0.
Proof. unfold check_utc. destruct (dt_off t) as [off|]; [|done]. intros H. inv_ok. bool_prop. by subst. Qed.

(** A check that the value passed, for every kind of field. *)
Ltac field_facts := repeat match goal with
  | H : check_text _ _ _ = Ok _ |- _ => apply check_text_ok in H
  | H : check_integer _ _ _ _ = Ok _ |- _ => apply check_integer_unit in H
  | H : check_finite _ (literal _) (literal _) false _ = Ok _ |- _ => apply check_finite_ok in H
  | H : check_utc _ _ = Ok _ |- _ => apply check_utc_ok in H
  end.

Lemma VideoSummary_new_ok v r : VideoSummary_new v = Ok r -> r = v /\ video_ok v.
Proof. unfold VideoSummary_new. intros H. inv_ok. field_facts. by split_and!. Qed.

Lemma check_optional_integer_ok f lo hi x r :
  check_optional_integer f lo hi x = Ok r -> exists z, x = Some z /\ within lo hi z.
Proof. destruct x as [z|]; [|done]. cbn. intros H%check_integer_unit. eauto. Qed.

Lemma AudioSummary_new_ok a r : AudioSummary_new a = Ok r -> r = a /\ audio_ok a.
Proof.
  unfold AudioSummary_new, audio_ok. destruct a as [[] codec rate channels bitrate]; cbn; intros H.
  - destruct codec as [codec|]; [|done]. inv_ok. field_facts.
    repeat match goal with H : check_optional_integer _ _ _ _ = Ok _ |- _ =>
      apply check_optional_integer_ok in H as (? & -> & ?) end.
    split; [done|]. by eexists _, _, _, _.
  - destruct codec, rate, channels, bitrate; try discriminate H. by inv_ok.
Qed.

Lemma TimeAnchor_new_ok a r : TimeAnchor_new a = Ok r -> r = a /\ anchor_ok a.
Proof. unfold TimeAnchor_new. intros H. inv_ok. field_facts. by split_and!. Qed.

Lemma GpsSample_new_ok g r : GpsSample_new g = Ok r -> r = g /\ sample_ok g.
Proof.
  unfold GpsSample_new. intros H. inv_ok. field_facts. cbn [validate_all] in *. inv_ok.
  repeat match goal with H : when_present _ _ = Ok _ |- _ => apply when_present_ok in H end.
  split; [done|]. unfold sample_ok. split_and!; try done;
    try (eapply if_some_impl; [|eassumption]; intros y Hy;
         first [by apply check_finite_ok in Hy | by apply check_integer_unit in Hy]).
  - destruct (s_timestamp_quality r), (s_utc r); done.
  - intros t Ht. rewrite Ht in Hb0. destruct (s_timestamp_quality r); [done|..]; inv_ok; by field_facts.
  - apply negb_false_iff, eqb_prop in Hg. destruct (s_lat_deg r), (s_lon_deg r); done.
  - eapply if_some_impl; [|eassumption]. intros y Hy. unfold check_finite in Hy. inv_ok. bool_prop. done.
Qed.

(** The samples are in the summary's bound, and only there when GPS is available. *)
Definition gps_ok (g : GpsSummary) : Prop :=
  if_some (fun t => dt_off t = Some 0) (g_first_fix_utc g) /\ Z.of_nat (length (g_samples g)) <= MAX_GPS_SAMPLES /\
  (g_available g = false -> g_first_fix_utc g = None /\ g_samples g = []).

Lemma GpsSummary_new_ok g r : GpsSummary_new g = Ok r -> r = g /\ gps_ok g.
Proof.
  unfold GpsSummary_new. intros H. inv_ok. bool_prop. split; [done|]. split_and!; [|done|].
  - apply when_present_ok in Hb. eapply if_some_impl; [|exact Hb]. intros t Ht. cbv beta in Ht. inv_ok. by field_facts.
  - intros Ha. rewrite Ha in Hg0. cbn in Hg0. apply orb_false_iff in Hg0 as [Hf Hs]. bool_prop.
    split; [|done]. destruct (g_first_fix_utc r); [|done]. by destruct Hf.
Qed.

(** ** Every value of the mapping is readable *)

Lemma within_reads lo hi z : within lo hi z -> 0 <= lo -> hi <= MAX_MONOTONIC_NS -> int_reads_back z = true.
Proof. intros [] ? ?. apply small_int_reads_back. lia. Qed.

Ltac int_bounds := match goal with
  | H : within ?lo ?hi ?z |- int_reads_back ?z = true => apply (within_reads lo hi z H); vm_compute; discriminate
  | H : if_some (within ?lo ?hi) ?o, E : ?o = Some ?z |- int_reads_back ?z = true =>
      apply (within_reads lo hi z (H z E)); vm_compute; discriminate
  | H : forallb (opt_forallb float_carried) _ = true, E : ?o = Some ?x |- float_reads_back ?x = true =>
      apply float_carried_reads; rewrite forallb_Forall in H;
      repeat (apply Forall_cons in H; destruct H as [?Ho H]);
      match goal with Ho : opt_forallb float_carried o = true |- _ => rewrite E in Ho; exact Ho end
  end.

Lemma video_readable v : video_ok v -> float_carried (v_fps_nominal v) = true -> readable (VideoSummary_to_mapping v) = true.
Proof.
  intros (? & ? & ? & ? & ? & ? & ? & ?) Hf%float_carried_reads. unfold VideoSummary_to_mapping.
  keyed_readable; first [done | int_bounds].
Qed.

Lemma audio_readable a : audio_ok a -> readable (AudioSummary_to_mapping a) = true.
Proof.
  unfold audio_ok, AudioSummary_to_mapping. destruct (a_available a); [intros (? & ? & ? & ? & -> & ? & ? & ? & ?)|intros ->];
    cbn [a_available a_codec a_sample_rate_hz a_channels a_target_bitrate_bps or_null]; keyed_readable; int_bounds.
Qed.

Lemma anchor_readable a : anchor_ok a -> readable (TimeAnchor_to_mapping a) = true.
Proof. intros (? & ? & ? & ?). unfold TimeAnchor_to_mapping. keyed_readable; int_bounds. Qed.

Lemma sample_readable g : sample_ok g -> sample_carried g = true -> readable (GpsSample_to_mapping g) = true.
Proof.
  intros (? & ? & ? & ? & ? & ? & ? & ? & ? & ? & ? & ?) (_ & Hf)%andb_true_iff. unfold GpsSample_to_mapping.
  keyed_readable; int_bounds.
Qed.

Lemma gps_readable g :
  Forall sample_ok (g_samples g) -> forallb sample_carried (g_samples g) = true ->
  readable (GpsSummary_to_mapping g) = true.
Proof.
  intros Hs Hc. unfold GpsSummary_to_mapping. keyed_readable. rewrite forallb_Forall in Hc. rewrite forallb_Forall. apply Forall_map.
  rewrite Forall_forall in *. intros x Hx. apply sample_readable; auto.
Qed.

Section Roundtrip.
Context `{ZoneLaws}.

Lemma carried_facts s :
  carried s = true ->
  uuid_ok (sd_clip_id s) /\ uuid_ok (sd_boot_id s) /\ if_some ms_utc (sd_start_utc s) /\ if_some ms_utc (sd_end_utc s) /\
  if_some (fun a => ms_utc (ta_utc a)) (sd_time_anchor s) /\ if_some (fun x => local_carried x = true) (sd_start_local s) /\
  float_carried (v_fps_nominal (sd_video s)) = true /\ if_some ms_utc (g_first_fix_utc (sd_gps s)) /\
  forallb sample_carried (g_samples (sd_gps s)) = true.
Proof.
  unfold carried. intros Hc. bool_prop.
  split_and!; try done; try (by apply N.ltb_lt); try (by apply opt_ms_utc); try (by apply opt_forallb_iff).
  eapply if_some_impl; [|by apply opt_forallb_iff]. intros a. apply bool_decide_eq_true_1.
Qed.

(** The checks of the sidecar's constructor, in the order they are made. *)
Lemma ClipSidecar_new_ok s r :
  ClipSidecar_new s = Ok r ->
  r = s /\ sd_schema_version s = SCHEMA_VERSION /\ within 0 999999 (sd_sequence s) /\
  (exists name, parsed_name s = Ok name /\ sequence name = sd_sequence s /\ validate_name s name = Ok tt) /\
  within 0 MAX_MONOTONIC_NS (sd_start_monotonic_ns s) /\ within 0 MAX_MONOTONIC_NS (sd_end_monotonic_ns s) /\
  sd_start_monotonic_ns s < sd_end_monotonic_ns s /\ text_ok 128 (sd_timezone s) /\ load_timezone s = Ok tt /\
  validate_time_fields s = Ok tt /\ validate_sample_window s = Ok tt /\ validate_protection s = Ok tt /\
  text_ok MAX_SOFTWARE_VERSION_LENGTH (sd_software_version s) /\ Z.of_nat (length (sd_warnings s)) <= MAX_WARNINGS /\
  Forall (text_ok MAX_WARNING_LENGTH) (sd_warnings s).
Proof.
  unfold ClipSidecar_new. intros Hs. inv_ok. field_facts. bool_prop.
  repeat match goal with x : () |- _ => destruct x end.
  split_and!; try done; [by eexists|].
  match goal with Hw : validate_all _ _ = Ok () |- _ => apply validate_all_ok in Hw;
    eapply Forall_impl; [exact Hw|]; intros w; apply check_text_ok end.
Qed.

Lemma validate_protection_ok s :
  validate_protection s = Ok tt ->
  (sd_protected s = true <-> is_Some (sd_protection_reason s)) /\
  if_some (text_ok MAX_PROTECTION_REASON_LENGTH) (sd_protection_reason s).
Proof.
  unfold validate_protection. destruct (sd_protected s), (sd_protection_reason s) as [r|]; try done.
  intros Ht%check_text_ok. split; [by split; [eexists|]|]. by intros ? [= <-].
Qed.

Lemma sidecar_readable s : built s -> carried s = true -> readable (to_mapping s) = true.
Proof.
  intros [Hn Hv Ha Hg Hs Hanchor] (? & ? & ? & ? & ? & ? & Hf & ? & Hsc)%carried_facts.
  apply ClipSidecar_new_ok in Hn as (_ & Hsv & ? & _ & ? & ? & _ & _ & _ & _ & _ & _ & _ & _ & _).
  apply VideoSummary_new_ok in Hv as [_ Hv]. apply AudioSummary_new_ok in Ha as [_ Ha].
  assert (Forall sample_ok (g_samples (sd_gps s))) as Hs'.
  { eapply Forall_impl; [exact Hs|]. intros g Hg'. apply (GpsSample_new_ok _ _ Hg'). }
  unfold to_mapping. keyed_readable; try int_bounds.
  - rewrite Hsv. by apply small_int_reads_back.
  - apply anchor_readable. by eapply TimeAnchor_new_ok, Hanchor.
  - by apply video_readable.
  - by apply audio_readable.
  - by apply gps_readable.
  - rewrite forallb_Forall. apply Forall_map, Forall_true. done.
Qed.

(** ** The record that is read *)

(** The local time keeps its reading and offset; its zone is now the offset. *)
Definition reread_local (x : local_datetime) : local_datetime :=
  match utcoffset x with Some off => at_offset x off | None => x end.

Definition reread (s : ClipSidecar) : ClipSidecar :=
  mkSidecar (sd_schema_version s) (sd_clip_id s) (sd_boot_id s) (sd_sequence s) (sd_video_file s) (sd_metadata_file s)
    (sd_start_utc s) (sd_end_utc s) (sd_start_monotonic_ns s) (sd_end_monotonic_ns s) (sd_gps_time_state s)
    (sd_system_clock_state s) (sd_timestamp_quality s) (sd_time_anchor s) (sd_timezone s)
    (option_map reread_local (sd_start_local s)) (sd_video s) (sd_audio s) (sd_gps s) (sd_protected s)
    (sd_protection_reason s) (sd_software_version s) (sd_warnings s).

(** The start's wall-clock reading happens twice in the sidecar's zone: its offset depends on the fold. *)
Definition repeated_hour (s : ClipSidecar) : bool :=
  match sd_start_local s with
  | Some x => negb (zone_utcoffset (sd_timezone s) (ld_date x) (ld_time x) false =?
                    zone_utcoffset (sd_timezone s) (ld_date x) (ld_time x) true)
  | None => false
  end.

Lemma local_carried_facts x :
  local_carried x = true ->
  date_ok (ld_date x) /\ time_ok (ld_time x) /\ time_ms (ld_time x) = ld_time x /\
  if_some (fun off => minute_offset off = true) (utcoffset x).
Proof. unfold local_carried. intros Hx. bool_prop. split_and!; try done. by apply opt_forallb_iff. Qed.

Lemma optional_iso_local (x : option local_datetime) :
  if_some (fun x => local_carried x = true) x -> if_some (fun x => utcoffset x <> None) x ->
  optional_local (sorted_keys (or_null (fun t => VStr (iso_local t)) x)) = Ok (option_map reread_local x).
Proof.
  intros Hx Ho. unfold optional_local. apply optional_or_null. intros a ->. split; [done|].
  destruct (local_carried_facts a (Hx a eq_refl)) as (Hd & Ht & Hms & Hm). specialize (Ho a eq_refl).
  unfold reread_local. destruct (utcoffset a) as [off|] eqn:E; [|done].
  apply read_iso_local; try done. by apply Hm.
Qed.

Lemma time_fields_local s : validate_time_fields s = Ok tt -> if_some (fun x => utcoffset x <> None) (sd_start_local s).
Proof.
  unfold validate_time_fields. intros Hs x Hx. split_if.
  - rewrite Hx in Hs. inv_ok. bool_prop. match goal with Hn : ~ is_Some (Some _) |- _ => by destruct Hn end.
  - rewrite Hx in Hs. destruct (sd_start_utc s), (sd_end_utc s), (sd_time_anchor s); try done.
    unfold validate_derived_times in Hs. inv_ok. by bool_prop.
Qed.

Lemma strict_text w : strict_str (sorted_keys (VText w)) = Ok (u w).
Proof. reflexivity. Qed.

Lemma body_reread s :
  built s -> carried s = true -> parse_mapping_body (sorted_keys (to_mapping s)) = ClipSidecar_new (reread s).
Proof.
  intros [Hn Hv Ha Hg Hs Hanchor] (? & ? & Hsu & Heu & Hau & Hlc & Hf & Hfu & Hsc)%carried_facts.
  apply ClipSidecar_new_ok in Hn as (_ & Hsv & _ & _ & _ & _ & _ & _ & _ & Htime & _ & _ & _ & Hw & _).
  unfold parse_mapping_body, to_mapping. read_fields. rewrite read_video, read_audio by done.
  assert (parse_anchor (sorted_keys (or_null TimeAnchor_to_mapping (sd_time_anchor s))) = Ok (sd_time_anchor s)) as ->.
  { destruct (sd_time_anchor s) as [a|]; [|done]. cbn [or_null]. apply read_anchor; auto. }
  cbn [result_bind]. rewrite read_gps; [|done..|].
  2: { rewrite Forall_forall in *. intros g Hin t Ht. rewrite forallb_Forall, Forall_forall in Hsc.
       specialize (Hsc g Hin). unfold sample_carried in Hsc. apply andb_true_iff in Hsc as [Hsc _].
       by eapply opt_ms_utc. }
  cbn [result_bind sorted_keys]. rewrite map_map, length_map. replace (MAX_WARNINGS <? _) with false by lia.
  rewrite result_map_ok by by apply Forall_true. cbn [result_bind strict_int strict_str strict_bool VText].
  rewrite !read_uuid by done. cbn [result_bind]. rewrite !optional_iso_utc by done. cbn [result_bind].
  rewrite !strict_text. cbn [result_bind]. rewrite GpsTimeState_read. cbn [result_bind].
  rewrite SystemClockState_read. cbn [result_bind]. rewrite TimestampQuality_read. cbn [result_bind].
  rewrite optional_iso_local by (done || by apply time_fields_local). cbn [result_bind].
  rewrite optional_str. reflexivity.
Qed.

Lemma reread_new s :
  ClipSidecar_new s = Ok s -> ClipSidecar_new (reread s) = let! _ := validate_time_fields (reread s) in Ok (reread s).
Proof.
  unfold ClipSidecar_new. intros Hs. inv_ok.
  change (parsed_name (reread s)) with (parsed_name s). change (validate_name (reread s)) with (validate_name s).
  change (load_timezone (reread s)) with (load_timezone s).
  change (validate_sample_window (reread s)) with (validate_sample_window s).
  change (validate_protection (reread s)) with (validate_protection s).
  cbn [reread sd_schema_version sd_sequence sd_start_monotonic_ns sd_end_monotonic_ns sd_timezone sd_software_version
    sd_warnings].
  repeat match goal with
  | Hx : ?e = _ |- context [?e] => rewrite Hx; cbn [result_bind]
  end.
  fold (reread s). destruct (validate_time_fields (reread s)); cbn [result_bind]; [|done].
  repeat match goal with
  | Hx : ?e = _ |- context [?e] => rewrite Hx; cbn [result_bind]
  end. done.
Qed.

(** ** The local time *)

Lemma fields_us_inj x y :
  date_ok (ld_date x) -> time_ok (ld_time x) -> date_ok (ld_date y) -> time_ok (ld_time y) ->
  fields_us x = fields_us y -> ld_date x = ld_date y /\ ld_time x = ld_time y.
Proof.
  unfold fields_us. intros Hd Ht Hd' Ht' E.
  pose proof (dt_of_us_local_us (mkDT (ld_date x) (ld_time x) None) (conj Hd Ht)) as Hx.
  pose proof (dt_of_us_local_us (mkDT (ld_date y) (ld_time y) None) (conj Hd' Ht')) as Hy.
  cbn [dt_off] in *. rewrite E, Hy in Hx. by injection Hx.
Qed.

(** Equal local times of one offset have one reading. *)
Lemma local_eqb_fields x y :
  local_eqb x y = true -> utcoffset x = utcoffset y -> utcoffset x <> None -> fields_us x = fields_us y.
Proof.
  unfold local_eqb. intros He Ho Hn. destruct (bool_decide (ld_tz x = ld_tz y)); [by bool_prop|].
  split_if; [done|]. destruct (utcoffset x) as [a|], (utcoffset y) as [b|]; try done. bool_prop. injection Ho as ->. lia.
Qed.

(** Against the reading of the zone database, the fixed-offset reading is equal unless it is repeated. *)
Lemma local_eqb_at_offset x e k off :
  ld_tz e = Some (ZoneKey k) -> utcoffset e = Some off -> ld_date x = ld_date e -> ld_time x = ld_time e ->
  local_eqb (at_offset x off) e =
  (zone_utcoffset k (ld_date x) (ld_time x) false =? zone_utcoffset k (ld_date x) (ld_time x) true).
Proof.
  intros Hk Ho Hd Ht. unfold local_eqb. rewrite bool_decide_false by (rewrite Hk; done).
  cbn [at_offset utcoffset flip_fold ld_tz]. rewrite bool_decide_true by done. cbn [negb orb]. rewrite Ho.
  unfold utcoffset in *. cbn [flip_fold ld_date ld_time ld_fold ld_tz] in *. rewrite Hk in Ho |- *. injection Ho as Ho.
  rewrite Hd, Ht. unfold fields_us. cbn [at_offset ld_date ld_time]. rewrite Hd, Ht.
  destruct (ld_fold e); cbn [negb] in *; rewrite Ho.
  - destruct (decide (zone_utcoffset k (ld_date e) (ld_time e) false = off)) as [E|E].
    + rewrite E, bool_decide_true by done. cbn [negb]. by rewrite !Z.eqb_refl.
    + rewrite bool_decide_false by congruence. cbn [negb]. symmetry. by apply Z.eqb_neq.
  - destruct (decide (zone_utcoffset k (ld_date e) (ld_time e) true = off)) as [E|E].
    + rewrite E, bool_decide_true by done. cbn [negb]. by rewrite !Z.eqb_refl.
    + rewrite bool_decide_false by congruence. cbn [negb]. symmetry. apply Z.eqb_neq. congruence.
Qed.

Lemma time_fields_reread s :
  validate_time_fields s = Ok tt -> if_some (fun x => local_carried x = true) (sd_start_local s) ->
  validate_time_fields (reread s) =
  if repeated_hour s then Err (Exn MetadataValidationError "start_local does not match start_utc and timezone") else Ok tt.
Proof.
  intros Hv Hc. pose proof (time_fields_local s Hv) as Hn. unfold validate_time_fields, repeated_hour in *.
  cbn [reread sd_timestamp_quality sd_start_utc sd_end_utc sd_start_local sd_time_anchor sd_gps_time_state sd_gps].
  destruct (bool_decide (sd_timestamp_quality s = MONOTONIC_ONLY)).
  { destruct (sd_start_local s); [|done]. destruct (sd_start_utc s), (sd_end_utc s), (sd_time_anchor s); done. }
  destruct (sd_start_utc s) as [su|], (sd_end_utc s) as [eu|], (sd_start_local s) as [x|], (sd_time_anchor s) as [a|]; try done.
  cbn [option_map]. destruct (local_carried_facts x (Hc x eq_refl)) as (Hd & Ht & _). specialize (Hn x eq_refl).
  unfold validate_derived_times in *. cbn [reread sd_timestamp_quality sd_timezone sd_start_monotonic_ns sd_end_monotonic_ns
    sd_gps_time_state sd_system_clock_state] in *.
  apply result_bind_ok in Hv as (su' & -> & Hv). apply result_bind_ok in Hv as (eu' & -> & Hv). cbn [result_bind].
  destruct (before eu' su'); [done|]. destruct (MAX_DURATION_ROUNDING_ERROR_NS <? _); [done|].
  destruct (bool_decide (utcoffset x = None)); [done|]. apply result_bind_ok in Hv as (e & He & Hv). rewrite He. cbn [result_bind].
  apply astimezone_zone_ok in He as (Hde & Hte & Hk & off & Ho & _).
  destruct (negb (local_eqb x e) || _) eqn:E; [done|]. bool_prop.
  assert (utcoffset x = Some off) as Hox by congruence.
  destruct (fields_us_inj x e) as [Ed Et]; try done; [by apply local_eqb_fields|].
  unfold reread_local. rewrite Hox. rewrite (local_eqb_at_offset x e _ off Hk Ho Ed Et).
  rewrite bool_decide_false by done. cbn [at_offset utcoffset ld_tz].
  rewrite Ho, (bool_decide_true (Some off = Some off)) by done. cbn [negb]. rewrite orb_false_r.
  destruct (_ =? _); cbn [negb]; done.
Qed.

Lemma to_mapping_reread s :
  if_some (fun x => utcoffset x <> None) (sd_start_local s) -> to_mapping (reread s) = to_mapping s.
Proof.
  intros Hn. unfold to_mapping. cbn [reread sd_schema_version sd_clip_id sd_boot_id sd_sequence sd_video_file
    sd_metadata_file sd_start_utc sd_end_utc sd_start_monotonic_ns sd_end_monotonic_ns sd_gps_time_state
    sd_system_clock_state sd_timestamp_quality sd_time_anchor sd_timezone sd_start_local sd_video sd_audio sd_gps
    sd_protected sd_protection_reason sd_software_version sd_warnings].
  replace (or_null (fun t => VStr (iso_local t)) (option_map reread_local (sd_start_local s)))
    with (or_null (fun t => VStr (iso_local t)) (sd_start_local s)); [done|].
  destruct (sd_start_local s) as [x|]; [|done]. cbn. specialize (Hn x eq_refl). unfold iso_local, reread_local.
  destruct (utcoffset x) as [off|] eqn:E; [|done]. cbn. done.
Qed.

(** ** Whole payloads *)

Lemma parse_canonical s :
  built s -> carried s = true -> Z.of_nat (length (to_canonical_json s)) <= MAX_SIDECAR_BYTES ->
  parse_sidecar_bytes (to_canonical_json s) =
  let! sidecar := parse_sidecar_mapping (sorted_keys (to_mapping s)) in
  raise_if negb (bool_decide (to_canonical_json sidecar = to_canonical_json s))
    as SidecarParseError msg "sidecar JSON is valid but not in canonical byte form" ;;
  Ok sidecar.
Proof.
  intros Hb Hc Hl. unfold parse_sidecar_bytes. pose proof (sorted_readable _ (sidecar_readable s Hb Hc)) as Hr.
  rewrite bool_decide_false.
  2: { unfold to_canonical_json. pose proof (dumps_length _ Hr). intros E%(f_equal length).
       rewrite length_map in E. cbn [length] in E. lia. }
  replace (MAX_SIDECAR_BYTES <? _) with false by lia. unfold to_canonical_json at 1.
  rewrite decode_ascii by apply ascii_dumps. rewrite loads_dumps by done.
  unfold to_mapping at 1. rewrite sorted_keyed. rewrite <-sorted_keyed. reflexivity.
Qed.
End Roundtrip.
