(* ===== verification/SidecarSize.v ===== *)
(** * The size of a sidecar's text

    The canonical JSON of any sidecar the constructors accept fits in the parser's byte bound. *)

From Stdlib Require Import Ascii String ZArith SpecFloat Lia Strings.Byte.
From stdpp Require Import base list strings.
From S2P Require Import Prelude PyStr PyFloat PyRepr Uuid DateTime State Naming Models Json JsonProperties LocalTime Metadata.
From S2P Require Import Sidecar SidecarMapping SidecarProperties.

(** An upper bound of a text's length that does not depend on the order of keys. *)
Fixpoint size (v : value) : Z :=
  match v with
  | VList l => 2 + foldr (fun v n => 1 + size v + n) 0 l
  | VObj fields => 2 + foldr (fun '(k, v) n => len (quote k) + 2 + size v + n) 0 fields
  | v => len (dumps v)
  end.

Lemma len_app' (a b : str) : len (a ++ b) = len a + len b.
Proof. unfold len. rewrite length_app. lia. Qed.

Lemma len_join c l : len (join_with c l) <= foldr (fun p n => 1 + len p + n) 0 l.
Proof.
  induction l as [|p [|q l] IH]; [vm_compute; discriminate|cbn; lia|]. rewrite join_with_cons, len_app'.
  unfold len in *. cbn [length foldr] in *. lia.
Qed.

Lemma foldr_mono {A} (f g : A -> Z) l :
  Forall (fun x => f x <= g x) l -> foldr (fun x n => f x + n) 0 l <= foldr (fun x n => g x + n) 0 l.
Proof. induction 1; cbn; lia. Qed.

Lemma foldr_ext_sum {A} (f g : A -> Z) l :
  (forall x, f x = g x) -> foldr (fun x n => f x + n) 0 l = foldr (fun x n => g x + n) 0 l.
Proof. intros H. induction l as [|x l IH]; cbn; [done|]. by rewrite H, IH. Qed.

Lemma foldr_bound {A} (f : A -> Z) (m : Z) (k : nat) l :
  0 <= m -> Forall (fun x => f x <= m) l -> (length l <= k)%nat -> foldr (fun x n => f x + n) 0 l <= m * Z.of_nat k.
Proof.
  intros Hm Hl. revert k. induction Hl as [|x l Hx _ IH]; intros k Hk; cbn [foldr length] in *; [lia|].
  destruct k as [|k]; [lia|]. specialize (IH k ltac:(lia)). lia.
Qed.

Lemma foldr_map_sum {A B} (g : A -> B) (f : B -> Z) l :
  foldr (fun x n => f x + n) 0 (map g l) = foldr (fun x n => f (g x) + n) 0 l.
Proof. induction l as [|x l IH]; cbn; [done|]. by rewrite IH. Qed.

Lemma foldr_perm_sum {A} (f : A -> Z) l l' :
  l ≡ₚ l' -> foldr (fun x n => f x + n) 0 l = foldr (fun x n => f x + n) 0 l'.
Proof. induction 1; cbn; lia. Qed.

(** A member of an object, in this order. *)
Definition member_size (kv : str * value) : Z := len (quote (fst kv)) + 2 + size (snd kv).

Lemma size_obj fields : size (VObj fields) = 2 + foldr (fun kv n => member_size kv + n) 0 fields.
Proof. cbn [size]. f_equal. induction fields as [|[k v] l IH]; cbn [foldr]; [done|]. by rewrite IH. Qed.

Lemma dumps_size v : len (dumps v) <= size v.
Proof.
  induction v as [|b|z|x|s|l IH|l IH] using value_nested_ind; try (cbn [size]; lia).
  - cbn [size dumps]. rewrite !len_app'. change (len (u "[")) with 1. change (len (u "]")) with 1.
    pose proof (len_join "," (map dumps l)) as Hj. rewrite foldr_map_sum in Hj.
    pose proof (foldr_mono (fun v => 1 + len (dumps v)) (fun v => 1 + size v) l) as Hm. cbn in Hm.
    specialize (Hm ltac:(eapply Forall_impl; [exact IH|]; cbn; lia)). lia.
  - rewrite size_obj. cbn [dumps]. rewrite !len_app'. change (len (u "{")) with 1. change (len (u "}")) with 1.
    pose proof (len_join "," (map (fun '(k, v) => quote k ++ u ":" ++ dumps v) l)) as Hj. rewrite foldr_map_sum in Hj.
    pose proof (foldr_mono (fun x => 1 + len (let '(k, v) := x in quote k ++ u ":" ++ dumps v)) member_size l) as Hm.
    specialize (Hm ltac:(eapply Forall_impl; [exact IH|]; intros [k v] Hv; cbn [snd] in Hv; unfold member_size;
      rewrite !len_app'; change (len (u ":")) with 1; cbn [fst snd]; lia)). cbv beta in Hj, Hm. lia.
Qed.

Lemma size_sorted v : size (sorted_keys v) = size v.
Proof.
  induction v as [|b|z|x|s|l IH|l IH] using value_nested_ind; try done.
  - cbn [sorted_keys size]. f_equal. induction IH as [|v l Hv _ IH]; cbn [map foldr]; [done|]. by rewrite Hv, IH.
  - cbn [sorted_keys]. rewrite !size_obj. f_equal. rewrite (foldr_perm_sum _ _ _ (sort_by_perm _ _)).
    induction IH as [|[k v] l Hv _ IH]; cbn [map foldr]; [done|]. rewrite IH. unfold member_size. cbn [fst snd] in *.
    by rewrite Hv.
Qed.

(** ** Scalars *)

Lemma quote_len s : len (quote s) <= 2 + 6 * len s.
Proof.
  assert (forall c, len (escape_char c) <= 6) as He by (destruct c as [[] [] [] [] [] [] [] []]; vm_compute; discriminate).
  unfold quote. assert (len (concat (map escape_char s)) <= 6 * len s) as Hc.
  { induction s as [|c s IH]; [vm_compute; discriminate|]. cbn [map concat]. rewrite len_app'. specialize (He c).
    unfold len in *. cbn [length]. lia. }
  change (quote_char :: concat (map escape_char s) ++ [quote_char])
    with ([quote_char] ++ concat (map escape_char s) ++ [quote_char]).
  rewrite !len_app'. change (len [quote_char]) with 1. lia.
Qed.

Lemma size_str s n : len s <= n -> size (VStr s) <= 2 + 6 * n.
Proof. intros. cbn [size dumps]. pose proof (quote_len s). lia. Qed.

Lemma size_int z : 0 <= z <= MAX_MONOTONIC_NS -> size (VInt z) <= 19.
Proof.
  intros Hz. unfold MAX_MONOTONIC_NS in Hz. cbn [size dumps]. unfold int_text.
  replace (z <? 0) with false by lia. cbn [app]. rewrite Z.abs_eq by lia. apply (len_zpad_0 z 19); [lia|].
  change (10 ^ Z.of_nat 19) with 10000000000000000000. lia.
Qed.

Lemma size_or_null {A} (f : A -> value) x n :
  4 <= n -> if_some (fun a => size (f a) <= n) x -> size (or_null f x) <= n.
Proof. intros Hn Hx. destruct x as [a|]; [by apply Hx|exact Hn]. Qed.

Lemma size_float x : float_carried x = true -> size (VFloat x) <= 25.
Proof. unfold float_carried. intros [_ H]%andb_true_iff. cbn [size dumps]. lia. Qed.

Lemma len_digits_fixed k n : len (digits_fixed k n) = Z.of_nat k.
Proof. unfold len. by rewrite digits_fixed_length. Qed.

Lemma isoformat_len d t : date_ok d -> time_ok t -> len (isoformat_ms d t) = 23.
Proof.
  intros Hd Ht. pose proof (day_range d Hd). pose proof (ms_range t Ht). pose proof Ht as Ht'.
  unfold time_ok in Ht'. rewrite time_valid_iff in Ht'. unfold isoformat_ms. rewrite !zpad_fixed by lia.
  rewrite !len_app', !len_digits_fixed. reflexivity.
Qed.

Lemma size_iso_utc t : ms_utc t -> size (VStr (iso_utc t)) <= 146.
Proof.
  intros ([Hd Ht] & _). eapply Z.le_trans; [apply (size_str _ 24)|lia]. unfold iso_utc.
  rewrite len_app', isoformat_len by done. change (len (u "Z")) with 1. lia.
Qed.

Lemma size_bool b : size (VBool b) <= 5.
Proof. destruct b; vm_compute; discriminate. Qed.

(** ** Records *)

Lemma size_keyed l : size (keyed l) = 2 + foldr (fun kv n => len (quote (u (fst kv))) + 2 + size (snd kv) + n) 0 l.
Proof.
  unfold keyed. rewrite size_obj. f_equal. rewrite foldr_map_sum. apply foldr_ext_sum. by intros [k v].
Qed.

(** The bound of a keyed object from the bounds of its values in the context. *)
Ltac sum_members :=
  rewrite size_keyed; cbn [foldr fst snd];
  repeat match goal with |- context [len (quote (u ?k))] =>
    let n := eval vm_compute in (len (quote (u k))) in change (len (quote (u k))) with n end.

Lemma size_within lo hi z : within lo hi z -> 0 <= lo -> hi <= MAX_MONOTONIC_NS -> size (VInt z) <= 19.
Proof. intros [] ? ?. apply size_int. lia. Qed.

Lemma size_opt_int lo hi x :
  if_some (within lo hi) x -> 0 <= lo -> hi <= MAX_MONOTONIC_NS -> size (or_null VInt x) <= 19.
Proof. intros Hx ? ?. apply size_or_null; [lia|]. intros z Hz. by eapply size_within; [apply Hx|..]. Qed.

Lemma size_opt_float x : opt_forallb float_carried x = true -> size (or_null VFloat x) <= 25.
Proof. rewrite opt_forallb_iff. intros Hx. apply size_or_null; [lia|]. intros f Hf. by apply size_float, Hx. Qed.

Lemma size_opt_utc x : if_some ms_utc x -> size (or_null (fun t => VStr (iso_utc t)) x) <= 146.
Proof. intros Hx. apply size_or_null; [lia|]. intros t Ht. by apply size_iso_utc, Hx. Qed.

Lemma size_text_ok hi s : text_ok hi s -> size (VStr s) <= 2 + 6 * hi.
Proof. intros (_ & Hl & _). by apply size_str. Qed.

Ltac pose_sizes := repeat match goal with
  | H : text_ok _ ?s |- _ => apply size_text_ok in H
  | H : within _ _ ?z |- _ => apply size_within in H; [|vm_compute; discriminate..]
  end.

Lemma video_size v : video_ok v -> float_carried (v_fps_nominal v) = true -> size (VideoSummary_to_mapping v) <= 600.
Proof.
  intros (? & ? & ? & _ & ? & ? & ? & ?) Hf%size_float. pose_sizes. unfold VideoSummary_to_mapping. sum_members. lia.
Qed.

Lemma audio_size a : audio_ok a -> size (AudioSummary_to_mapping a) <= 400.
Proof.
  unfold audio_ok, AudioSummary_to_mapping. destruct (a_available a); [intros (? & ? & ? & ? & -> & ? & ? & ? & ?)|intros ->].
  - pose_sizes. cbn [a_available a_codec a_sample_rate_hz a_channels a_target_bitrate_bps or_null].
    change (size (VBool true)) with 4 in *. sum_members. change (size (VBool true)) with 4. lia.
  - vm_compute. discriminate.
Qed.

Lemma anchor_size a : anchor_ok a -> ms_utc (ta_utc a) -> size (TimeAnchor_to_mapping a) <= 2000.
Proof.
  intros (? & _ & ? & ?) Hu%size_iso_utc. pose_sizes. unfold MAX_PROVENANCE_LENGTH in *. unfold TimeAnchor_to_mapping.
  assert (size (VText (TimeAnchorSource_value (ta_source a))) <= 14) by (destruct (ta_source a); vm_compute; discriminate).
  sum_members. lia.
Qed.

Lemma sample_size g : sample_ok g -> sample_carried g = true -> size (GpsSample_to_mapping g) <= 560.
Proof.
  intros (? & _ & _ & _ & _ & _ & _ & _ & _ & Hq & Hs & _) Hc. unfold sample_carried in Hc.
  apply andb_true_iff in Hc as [Hu%opt_ms_utc%size_opt_utc Hf]. rewrite forallb_Forall in Hf.
  repeat (apply Forall_cons in Hf as [?%size_opt_float Hf]). pose_sizes.
  apply size_opt_int in Hq; [|vm_compute; discriminate..]. apply size_opt_int in Hs; [|vm_compute; discriminate..].
  assert (size (VText (TimestampQuality_value (s_timestamp_quality g))) <= 16)
    by (destruct (s_timestamp_quality g); vm_compute; discriminate).
  unfold GpsSample_to_mapping. sum_members. lia.
Qed.

Lemma size_list {A} (f : A -> value) (m k : Z) l :
  0 <= m -> Forall (fun x => size (f x) <= m) l -> Z.of_nat (length l) <= k -> size (VList (map f l)) <= 2 + (1 + m) * k.
Proof.
  intros Hm Hl Hk. cbn [size]. rewrite foldr_map_sum.
  pose proof (foldr_bound (fun x => 1 + size (f x)) (1 + m) (Z.to_nat k) l) as Hb. cbv beta in Hb.
  specialize (Hb ltac:(lia) ltac:(eapply Forall_impl; [exact Hl|]; cbn; lia) ltac:(lia)).
  rewrite Z2Nat.id in Hb by lia. lia.
Qed.

Lemma gps_size g :
  gps_ok g -> Forall sample_ok (g_samples g) -> if_some ms_utc (g_first_fix_utc g) ->
  forallb sample_carried (g_samples g) = true -> size (GpsSummary_to_mapping g) <= 340000.
Proof.
  intros (_ & Hl & _) Hs Hu%size_opt_utc Hc.
  assert (size (VList (map GpsSample_to_mapping (g_samples g))) <= 2 + 561 * 600).
  { apply (size_list _ 560 600); [lia| |done]. rewrite forallb_Forall in Hc. rewrite Forall_forall in *.
    intros x Hx. apply sample_size; auto. }
  pose proof (size_bool (g_available g)). unfold GpsSummary_to_mapping. sum_members. lia.
Qed.

Lemma uuid_len i : len (uuid_str i) = 36.
Proof.
  unfold uuid_str, hyphenate. set (h := hex_fixed 32 _). assert (length h = 32%nat) as Hh by apply hex_fixed_length.
  unfold len. rewrite !length_app. cbn [length]. rewrite !length_app. cbn [length]. rewrite !length_app. cbn [length].
  rewrite !length_app. cbn [length]. rewrite !length_take, !length_drop, Hh. reflexivity.
Qed.

Lemma format_offset_len off : minute_offset off = true -> len (format_offset off) = 6.
Proof.
  intros (-> & _)%minute_offset_text. rewrite !len_app', !len_digits_fixed. by destruct (off <? 0).
Qed.

Lemma component_len s r : validate_filename_component s = Ok r -> len s <= 255.
Proof. unfold validate_filename_component, MAX_COMPONENT_LENGTH. intros H. inv_ok. bool_prop. lia. Qed.

Lemma parsed_name_len `{ZoneDatabase} s n :
  parsed_name s = Ok n -> len (sd_video_file s) <= 255 /\ len (sd_metadata_file s) <= 255.
Proof.
  unfold parsed_name. destruct (let! _ := _ in _) as [p|e] eqn:E; [|by split_if]. intros _.
  apply result_bind_ok in E as (pair & E & _). unfold ClipFilePair_new in E. inv_ok.
  split; eapply component_len; eassumption.
Qed.

Lemma local_size `{ZoneDatabase} x : local_carried x = true -> size (VStr (iso_local x)) <= 176.
Proof.
  intros (Hd & Ht & _ & Hm)%local_carried_facts. eapply Z.le_trans; [apply (size_str _ 29)|lia]. unfold iso_local.
  rewrite len_app', isoformat_len by done. destruct (utcoffset x) as [off|] eqn:E; [|vm_compute; discriminate].
  rewrite format_offset_len by by apply Hm. lia.
Qed.

(** The canonical text of every sidecar the constructors accept, with representable times and floats,
    is within the bound the parser enforces. *)
Theorem canonical_text_bounded `{ZoneLaws} s :
  built s -> carried s = true -> Z.of_nat (length (to_canonical_json s)) <= MAX_SIDECAR_BYTES.
Proof.
  intros [Hn Hv Ha Hg Hs Hanchor] (_ & _ & Hsu & Heu & Hau & Hlc & Hf & Hfu & Hsc)%carried_facts.
  apply ClipSidecar_new_ok in Hn as (_ & Hsv & ? & (name & [Hvf Hmf]%parsed_name_len & _) & ? & ? & _ & ? & _ & _ & _ & Hp & ? & Hw & Hwt).
  apply VideoSummary_new_ok in Hv as [_ Hv]. apply AudioSummary_new_ok in Ha as [_ Ha]. apply GpsSummary_new_ok in Hg as [_ Hg].
  assert (Forall sample_ok (g_samples (sd_gps s))) as Hs'.
  { eapply Forall_impl; [exact Hs|]. intros g Hg'. apply (GpsSample_new_ok _ _ Hg'). }
  apply video_size in Hv; [|done]. apply audio_size in Ha. apply gps_size in Hg; [|done..]. pose_sizes.
  unfold to_canonical_json. rewrite length_map. change (len (dumps (sorted_keys (to_mapping s))) <= MAX_SIDECAR_BYTES).
  eapply Z.le_trans; [apply dumps_size|]. rewrite size_sorted. unfold to_mapping.
  pose proof (size_str (uuid_str (sd_clip_id s)) 36 ltac:(by rewrite uuid_len)).
  pose proof (size_str (uuid_str (sd_boot_id s)) 36 ltac:(by rewrite uuid_len)).
  pose proof (size_opt_utc _ Hsu). pose proof (size_opt_utc _ Heu). pose proof (size_str _ 255 Hvf). pose proof (size_str _ 255 Hmf).
  assert (size (or_null TimeAnchor_to_mapping (sd_time_anchor s)) <= 2000).
  { apply size_or_null; [lia|]. intros a E. apply anchor_size; [|by apply Hau]. by eapply TimeAnchor_new_ok, Hanchor. }
  assert (size (or_null (fun t => VStr (iso_local t)) (sd_start_local s)) <= 176).
  { apply size_or_null; [lia|]. intros x E. by apply local_size, Hlc. }
  assert (size (or_null VStr (sd_protection_reason s)) <= 2 + 6 * 128).
  { apply size_or_null; [lia|]. intros x E. apply size_text_ok. by apply (proj2 (validate_protection_ok s Hp)). }
  assert (size (VList (map VStr (sd_warnings s))) <= 2 + (1 + (2 + 6 * 256)) * 32).
  { apply size_list; [lia| |done]. eapply Forall_impl; [exact Hwt|]. intros w. apply size_text_ok. }
  pose proof (size_int (sd_schema_version s) ltac:(rewrite Hsv; vm_compute; split; discriminate)).
  pose proof (size_bool (sd_protected s)).
  assert (size (VText (GpsTimeState_value (sd_gps_time_state s))) <= 16) by (destruct (sd_gps_time_state s); vm_compute; discriminate).
  assert (size (VText (SystemClockState_value (sd_system_clock_state s))) <= 16) by (destruct (sd_system_clock_state s); vm_compute; discriminate).
  assert (size (VText (TimestampQuality_value (sd_timestamp_quality s))) <= 16) by (destruct (sd_timestamp_quality s); vm_compute; discriminate).
  sum_members. unfold MAX_SIDECAR_BYTES, MAX_SOFTWARE_VERSION_LENGTH in *. lia.
Qed.
