(* ===== verification/SidecarClaims.v ===== *)
(** * Sidecar files: theorems

    The round trip of a sidecar through its file, the one kind of sidecar that does not survive it,
    what every accepted file satisfies, and the size of the text. *)

From Stdlib Require Import Ascii String ZArith SpecFloat Lia Strings.Byte.
From stdpp Require Import base list strings sorting.
From S2P Require Import Prelude PyStr PyFloat PyRepr Uuid DateTime State Naming Models Json JsonProperties LocalTime Metadata.
From S2P Require Import Reconcile Sidecar MetadataDemo SidecarMapping SidecarProperties SidecarSize.

(** ** Well-formed sidecars *)

(** The GPS samples lie in the clip's interval, in order, with their UTC times in its civil interval. *)
Definition samples_in_window (s : ClipSidecar) : Prop :=
  StronglySorted Z.le (sd_start_monotonic_ns s :: map s_monotonic_ns (g_samples (sd_gps s))) /\
  Forall (fun g => s_monotonic_ns g < sd_end_monotonic_ns s /\
    forall t su eu, s_utc g = Some t -> sd_start_utc s = Some su -> sd_end_utc s = Some eu ->
      utc_us su <= utc_us t <= utc_us eu) (g_samples (sd_gps s)).

(** Civil time is absent, or agrees with the monotonic interval, the zone and the anchor. *)
Definition civil_time_ok `{ZoneDatabase} (s : ClipSidecar) : Prop :=
  if bool_decide (sd_timestamp_quality s = MONOTONIC_ONLY) then
    sd_start_utc s = None /\ sd_end_utc s = None /\ sd_start_local s = None /\ sd_time_anchor s = None /\
    sd_gps_time_state s = UNSYNCED /\ g_first_fix_utc (sd_gps s) = None
  else
    exists su eu x a off,
      sd_start_utc s = Some su /\ sd_end_utc s = Some eu /\ sd_start_local s = Some x /\ sd_time_anchor s = Some a /\
      dt_off su = Some 0 /\ dt_off eu = Some 0 /\ utc_us su < utc_us eu /\
      Z.abs ((utc_us eu - utc_us su) * 1000 - (sd_end_monotonic_ns s - sd_start_monotonic_ns s)) <= 1000000 /\
      utcoffset x = Some off /\ fields_us x = utc_us su + off /\
      (sd_timestamp_quality s = GPS_ANCHORED -> ta_source a = SOURCE_GPS /\ sd_gps_time_state s <> UNSYNCED) /\
      (sd_timestamp_quality s = SYSTEM_DERIVED ->
         ta_source a = SOURCE_SYSTEM_CLOCK /\ sd_system_clock_state s = SYNCHRONIZED).

Record sidecar_ok `{ZoneDatabase} (s : ClipSidecar) : Prop := mkSidecarOk {
  ok_sequence : within 0 999999 (sd_sequence s);
  ok_monotonic : 0 <= sd_start_monotonic_ns s < sd_end_monotonic_ns s /\ sd_end_monotonic_ns s <= MAX_MONOTONIC_NS;
  ok_pair : is_ok (ClipFilePair_new (sd_video_file s) (sd_metadata_file s)) = true;
  ok_name : exists name, parse_clip_filename (sd_video_file s) = Ok name /\ sequence name = sd_sequence s /\
    provisional name = bool_decide (sd_timestamp_quality s = MONOTONIC_ONLY);
  ok_civil : civil_time_ok s;
  ok_window : samples_in_window s;
  ok_video : video_ok (sd_video s);
  ok_audio : audio_ok (sd_audio s);
  ok_gps : gps_ok (sd_gps s) /\ Forall sample_ok (g_samples (sd_gps s));
  ok_anchor : if_some anchor_ok (sd_time_anchor s);
  ok_protection : (sd_protected s = true <-> is_Some (sd_protection_reason s)) /\
    if_some (text_ok MAX_PROTECTION_REASON_LENGTH) (sd_protection_reason s);
  ok_texts : text_ok 128 (sd_timezone s) /\ text_ok MAX_SOFTWARE_VERSION_LENGTH (sd_software_version s);
  ok_warnings : Z.of_nat (length (sd_warnings s)) <= MAX_WARNINGS /\ Forall (text_ok MAX_WARNING_LENGTH) (sd_warnings s)
}.

Section WellFormed.
Context `{ZoneLaws}.

Lemma sample_window_ok s previous samples r :
  result_fold (validate_sample s) previous samples = Ok r ->
  StronglySorted Z.le (previous :: map s_monotonic_ns samples) /\
  Forall (fun g => sd_start_monotonic_ns s <= s_monotonic_ns g < sd_end_monotonic_ns s /\
    forall t su eu, s_utc g = Some t -> sd_start_utc s = Some su -> sd_end_utc s = Some eu ->
      utc_us su <= utc_us t <= utc_us eu) samples.
Proof.
  revert previous. induction samples as [|g l IH]; intros previous Hr; cbn [result_fold map] in *.
  { split; [repeat constructor|constructor]. }
  apply result_bind_ok in Hr as (m & Hg & Hr). apply IH in Hr as [Hsort Hall]. unfold validate_sample in Hg.
  destruct (negb _) eqn:Hin; [done|]. destruct (_ <? previous) eqn:Hprev; [done|]. bool_prop.
  assert (m = s_monotonic_ns g /\ forall t su eu, s_utc g = Some t -> sd_start_utc s = Some su -> sd_end_utc s = Some eu ->
    utc_us su <= utc_us t <= utc_us eu) as [-> Hutc].
  { destruct (s_utc g) as [t|]; [|by inv_ok]. destruct (sd_start_utc s) as [su|]; [|by inv_ok].
    destruct (sd_end_utc s) as [eu|]; [|by inv_ok]. inv_ok. split; [done|]. intros ? ? ? [= <-] [= <-] [= <-].
    unfold check_utc, astimezone_utc in Hb. destruct (dt_off t) as [off|]; [|done]. inv_ok.
    apply dt_of_us_ok in Hb as (_ & Hl & Ho & _). bool_prop. unfold before in *. bool_prop.
    assert (utc_us x = utc_us t) as <- by (unfold utc_us at 1; rewrite Ho, Hl; cbn; lia). lia. }
  split; [|constructor; [done|exact Hall]].
  constructor; [exact Hsort|]. constructor; [lia|]. apply StronglySorted_inv in Hsort as [_ Hge].
  eapply Forall_impl; [exact Hge|]. intros z ?. lia.
Qed.

Lemma check_utc_same f t r : check_utc f t = Ok r -> utc_us r = utc_us t /\ dt_off r = Some 0 /\ dt_off t = Some 0.
Proof.
  unfold check_utc, astimezone_utc. destruct (dt_off t) as [off|] eqn:E; [|done]. intros Hr. inv_ok.
  apply dt_of_us_ok in Hr as (_ & Hl & Ho & _). bool_prop. subst off. split_and!; try done.
  unfold utc_us at 1. rewrite Ho, Hl. cbn. lia.
Qed.

Lemma civil_ok s : validate_time_fields s = Ok tt -> civil_time_ok s.
Proof.
  unfold validate_time_fields, civil_time_ok. destruct (bool_decide (sd_timestamp_quality s = MONOTONIC_ONLY)) eqn:Eq; intros Hv.
  { destruct (sd_start_utc s), (sd_end_utc s), (sd_start_local s), (sd_time_anchor s); try discriminate Hv.
    destruct (sd_gps_time_state s); try discriminate Hv. destruct (g_first_fix_utc (sd_gps s)); done. }
  destruct (sd_start_utc s) as [su|], (sd_end_utc s) as [eu|], (sd_start_local s) as [x|], (sd_time_anchor s) as [a|]; try done.
  unfold validate_derived_times, timedelta_ns, before in Hv. apply result_bind_ok in Hv as (su' & Hsu & Hv).
  apply result_bind_ok in Hv as (eu' & Heu & Hv). apply check_utc_same in Hsu as (Esu & _ & Hsu).
  apply check_utc_same in Heu as (Eeu & _ & Heu). rewrite Esu, Eeu in Hv.
  destruct (_ <=? _) eqn:Hlt; [done|]. destruct (MAX_DURATION_ROUNDING_ERROR_NS <? _) eqn:Hdur; [done|].
  destruct (bool_decide (utcoffset x = None)) eqn:Hx; [done|]. apply result_bind_ok in Hv as (e & He & Hv).
  apply astimezone_zone_ok in He as (_ & _ & _ & off & Ho & Hf & _).
  destruct (negb (local_eqb x e) || _) eqn:E; [done|]. bool_prop. rewrite Esu in Hf.
  exists su, eu, x, a, off. split_and!; try done; try congruence.
  - rewrite <-Hf. apply local_eqb_fields; congruence.
  - intros E'. rewrite E' in Hv. inv_ok. by bool_prop.
  - intros E'. rewrite E' in Hv. inv_ok. by bool_prop.
Qed.

(** Every check of the constructors, read as a property of the record. *)
Lemma built_ok s : built s -> sidecar_ok s.
Proof.
  intros [Hn Hv Ha Hg Hs Hanchor].
  apply ClipSidecar_new_ok in Hn as (_ & _ & Hseq & (name & Hname & Hns & Hnv) & Hm1 & Hm2 & Hm & Htz & _ & Ht & Hw & Hp & Hsoft & Hwarn & Hwt).
  unfold parsed_name in Hname. destruct (let! _ := _ in _) as [p|e] eqn:E; [|by split_if]. injection Hname as ->.
  apply result_bind_ok in E as (pair & Hpair & Hparse).
  unfold validate_sample_window in Hw. apply result_bind_ok in Hw as (last & Hw & _). apply sample_window_ok in Hw as [Hsort Hwin].
  constructor; try done.
  - split; [destruct Hm1; lia|apply Hm2].
  - by rewrite Hpair.
  - exists name. split_and!; try done. unfold validate_name in Hnv.
    destruct (bool_decide (sd_timestamp_quality s = MONOTONIC_ONLY)), (provisional name); done.
  - by apply civil_ok.
  - split; [exact Hsort|]. eapply Forall_impl; [exact Hwin|]. intros g [? ?]. split; [lia|done].
  - apply (VideoSummary_new_ok _ _ Hv).
  - apply (AudioSummary_new_ok _ _ Ha).
  - split; [apply (GpsSummary_new_ok _ _ Hg)|]. eapply Forall_impl; [exact Hs|]. intros g Hg'. apply (GpsSample_new_ok _ _ Hg').
  - intros a Ea. apply (TimeAnchor_new_ok a a), Hanchor, Ea.
  - by apply validate_protection_ok.
Qed.

Lemma result_map_Forall {A B} (f : A -> result B) (P : B -> Prop) l l' :
  (forall a b, f a = Ok b -> P b) -> result_map f l = Ok l' -> Forall P l'.
Proof.
  intros Hf. revert l'. induction l as [|x l IH]; intros l' Hl; cbn in Hl; inv_ok; [constructor|].
  constructor; [by eapply Hf|auto].
Qed.

(** A parser ends in the record's constructor. *)
Ltac by_constructor lemma := intros Hp; inv_ok;
  match goal with Hx : _ = Ok ?r |- _ => let E := fresh in destruct (lemma _ _ Hx) as [E _]; rewrite <-E in Hx; exact Hx end.

Lemma parse_video_built v r : parse_video v = Ok r -> VideoSummary_new r = Ok r.
Proof. unfold parse_video. by_constructor VideoSummary_new_ok. Qed.

Lemma parse_audio_built v r : parse_audio v = Ok r -> AudioSummary_new r = Ok r.
Proof. unfold parse_audio. by_constructor AudioSummary_new_ok. Qed.

Lemma parse_sample_built v r : parse_gps_sample v = Ok r -> GpsSample_new r = Ok r.
Proof. unfold parse_gps_sample. by_constructor GpsSample_new_ok. Qed.

Lemma parse_gps_built v r :
  parse_gps v = Ok r -> GpsSummary_new r = Ok r /\ Forall (fun g => GpsSample_new g = Ok g) (g_samples r).
Proof.
  unfold parse_gps. intros Hp. apply result_bind_ok in Hp as (raw & _ & Hp). destruct (get raw "samples"); try done. inv_ok.
  match goal with Hx : GpsSummary_new _ = Ok r |- _ => pose proof Hx as Hx'; apply GpsSummary_new_ok in Hx' as [-> _] end.
  split; [done|]. cbn. by eapply result_map_Forall; [apply parse_sample_built|].
Qed.

Lemma parse_anchor_built v r : parse_anchor v = Ok r -> if_some (fun a => TimeAnchor_new a = Ok a) r.
Proof.
  unfold parse_anchor. intros Hp. destruct v; inv_ok; try done.
  all: intros a [= <-]; match goal with Hx : TimeAnchor_new _ = Ok ?a |- _ => pose proof Hx as Hx'; apply TimeAnchor_new_ok in Hx' as [-> _]; exact Hx end.
Qed.

Lemma parse_mapping_built raw s : parse_sidecar_mapping raw = Ok s -> built s.
Proof.
  unfold parse_sidecar_mapping. destruct (parse_mapping_body raw) as [s'|e] eqn:E; [|by repeat split_if]. intros [= ->].
  unfold parse_mapping_body in E. inv_ok.
  match goal with Hx : ClipSidecar_new _ = Ok s |- _ => pose proof Hx as Hx'; apply ClipSidecar_new_ok in Hx' as [-> _] end.
  constructor; cbn; try done.
  - by eapply parse_video_built.
  - by eapply parse_audio_built.
  - by eapply parse_gps_built.
  - by eapply parse_gps_built.
  - by eapply parse_anchor_built.
Qed.
End WellFormed.

(** ** Reading back *)

Lemma read_back_or_refused `{ZoneLaws} s :
  built s -> carried s = true ->
  parse_sidecar_bytes (to_canonical_json s) = if repeated_hour s then parse_error "invalid sidecar" else Ok (reread s).
Proof.
  intros Hb Hc. pose proof (canonical_text_bounded s Hb Hc) as Hl.
  rewrite parse_canonical by done. unfold parse_sidecar_mapping. rewrite body_reread by done.
  pose proof (built_sidecar s Hb) as Hn. rewrite reread_new by done.
  apply ClipSidecar_new_ok in Hn as (_ & _ & _ & _ & _ & _ & _ & _ & _ & Ht & _).
  rewrite time_fields_reread by first [done | by apply carried_facts]. destruct (repeated_hour s); [done|]. cbn [result_bind].
  assert (to_canonical_json (reread s) = to_canonical_json s) as ->.
  { unfold to_canonical_json. rewrite to_mapping_reread; [done|by apply time_fields_local]. }
  by rewrite bool_decide_true.
Qed.

(** What an accepted payload is. *)
Lemma parsed_built `{ZoneLaws} payload s :
  parse_sidecar_bytes payload = Ok s ->
  built s /\ to_canonical_json s = payload /\ 0 < Z.of_nat (length payload) <= MAX_SIDECAR_BYTES.
Proof.
  unfold parse_sidecar_bytes. intros Hp. destruct (bool_decide (payload = [])) eqn:E0; [done|].
  destruct (MAX_SIDECAR_BYTES <? _) eqn:El; [done|]. destruct (decode_utf8 _) as [text|e]; [|by split_if].
  destruct (loads text) as [[]|e]; try done; [|by split_if]. inv_ok. bool_prop. subst.
  split; [by eapply parse_mapping_built|]. split; [done|]. split; [|done].
  destruct (to_canonical_json s); [done|]. cbn. lia.
Qed.

(** ** Properties *)

(** C15: every file the parser accepts is within the byte bound, holds exactly the canonical text of
    the sidecar it yields, and that sidecar satisfies every rule of the schema: field types and
    ranges, its names, the agreement of its civil and monotonic times with its zone and anchor, its
    samples inside the clip and in order, its protection and its texts. *)
Theorem accepted_sidecar_well_formed `{ZoneLaws} payload s :
  parse_sidecar_bytes payload = Ok s ->
  sidecar_ok s /\ to_canonical_json s = payload /\ 0 < Z.of_nat (length payload) <= MAX_SIDECAR_BYTES.
Proof. intros (Hb & Hc & Hl)%parsed_built. split; [by apply built_ok|done]. Qed.

(** C16: a sidecar the constructors accepted, whose times are whole milliseconds and whose floats print
    as decimals that read back, is written within the parser's byte bound and read back as it was, its
    local time now carrying its offset for its zone, unless it starts in a repeated local hour. *)
Theorem sidecar_roundtrip `{ZoneLaws} s :
  built s -> carried s = true -> repeated_hour s = false ->
  Z.of_nat (length (to_canonical_json s)) <= MAX_SIDECAR_BYTES /\
  parse_sidecar_bytes (to_canonical_json s) = Ok (reread s).
Proof.
  intros Hb Hc Hr. split; [by apply canonical_text_bounded|]. by rewrite read_back_or_refused, Hr.
Qed.

(** a sidecar that starts in a local hour its zone repeats is never read back: the file the
    recorder wrote for it is refused, since the parsed time's fixed offset makes it unequal to the
    zone's time there. *)
Theorem repeated_hour_refused `{ZoneLaws} s :
  built s -> carried s = true -> repeated_hour s = true ->
  exists message, parse_sidecar_bytes (to_canonical_json s) = Err (Exn SidecarParseError message).
Proof. intros Hb Hc Hr. rewrite read_back_or_refused, Hr by done. by eexists. Qed.

(** The text of a sidecar with one member of its video summary replaced. *)
Definition with_video_member (key : string) (v : value) (mapping : value) : value :=
  match mapping with
  | VObj fields =>
      VObj (map (fun '(k, x) =>
        (k, if bool_decide (k = u "video") then
              match x with
              | VObj video => VObj (map (fun '(k', y) => (k', if bool_decide (k' = u key) then v else y)) video)
              | _ => x
              end
            else x)) fields)
  | _ => mapping
  end.

(** C21: an integer beyond the range of floats where a number is expected leaves the parser, although
    the payload is within its byte bound, as [OverflowError], which neither the parser nor the
    catalog's import of unindexed files turns into a refusal. *)
Theorem huge_integer_escapes `{ZoneDatabase} :
  exists payload e,
    Z.of_nat (length payload) <= MAX_SIDECAR_BYTES /\ parse_sidecar_bytes payload = Err e /\
    exn_cls e = OverflowError /\ import_exception e = false.
Proof.
  exists (map byte_of_ascii (dumps (sorted_keys (with_video_member "fps_nominal" (VInt (2 ^ 1024)) (to_mapping md_provisional))))).
  eexists. split; [vm_compute; discriminate|]. split; [vm_compute; reflexivity|]. done.
Qed.

(** ** Witnesses *)

#[local] Existing Instances demo_zones demo_zone_laws.

Ltac decide_built :=
  constructor;
  [ vm_compute; reflexivity | vm_compute; reflexivity | vm_compute; reflexivity | vm_compute; reflexivity
  | repeat constructor; vm_compute; reflexivity | intros ? [= <-]; vm_compute; reflexivity ].

Lemma accepted_sidecar_well_formed_witness :
  sidecar_ok (reread md_summer) /\ to_canonical_json (reread md_summer) = to_canonical_json md_summer /\
  0 < Z.of_nat (length (to_canonical_json md_summer)) <= MAX_SIDECAR_BYTES.
Proof.
  apply (accepted_sidecar_well_formed (to_canonical_json md_summer)).
  vm_compute. reflexivity.
Defined.

Lemma sidecar_roundtrip_witness :
  built md_summer /\ parse_sidecar_bytes (to_canonical_json md_summer) = Ok (reread md_summer).
Proof.
  assert (built md_summer) as Hb by decide_built. split; [exact Hb|].
  apply (sidecar_roundtrip md_summer Hb); vm_compute; reflexivity.
Defined.

Lemma repeated_hour_refused_witness :
  built md_repeated /\ exists message, parse_sidecar_bytes (to_canonical_json md_repeated) = Err (Exn SidecarParseError message).
Proof.
  assert (built md_repeated) as Hb by decide_built. split; [exact Hb|].
  apply (repeated_hour_refused md_repeated Hb); vm_compute; reflexivity.
Defined.
