(* ===== verification/Projection.v ===== *)
(** * Projection of an anchor onto a sidecar ([src/dashcam/metadata/reconcile.py])

    The conversion of a provisional sidecar once a time anchor is known, and the plan that pairs the
    new sidecar with its rename intent. *)

From Stdlib Require Import Ascii String ZArith SpecFloat Lia.
From stdpp Require Import base list strings.
From S2P Require Import Prelude PyStr PyFloat Uuid DateTime State Naming Intents Models LocalTime Metadata.

Definition refuse {A} (m : string) : result A := Err (Exn MetadataReconciliationError m).

Definition quality_for_anchor (anchor : TimeAnchor) : TimestampQuality :=
  match ta_source anchor with SOURCE_GPS => GPS_ANCHORED | SOURCE_SYSTEM_CLOCK => SYSTEM_DERIVED end.

Definition resolved_clock_states (sidecar : ClipSidecar) (anchor : TimeAnchor)
    (gps_time_state : option GpsTimeState) (system_clock_state : option SystemClockState)
    : result (GpsTimeState * SystemClockState) :=
  let gps_state := default (sd_gps_time_state sidecar) gps_time_state in
  let system_state := default (sd_system_clock_state sidecar) system_clock_state in
  match ta_source anchor with
  | SOURCE_GPS =>
      let gps_state := match gps_time_state with None => GPS_TIME_VALID | Some _ => gps_state end in
      raise_if bool_decide (gps_state = UNSYNCED)
        as MetadataReconciliationError msg "GPS anchor cannot retain UNSYNCED GPS time" ;;
      Ok (gps_state, system_state)
  | SOURCE_SYSTEM_CLOCK =>
      let system_state := match system_clock_state with None => SYNCHRONIZED | Some _ => system_state end in
      raise_if negb (bool_decide (system_state = SYNCHRONIZED))
        as MetadataReconciliationError msg "system-clock anchor requires SYNCHRONIZED system clock" ;;
      Ok (gps_state, system_state)
  end.

Definition project_utc (anchor : TimeAnchor) (monotonic_ns : Z) : result datetime :=
  let delta_ns := monotonic_ns - ta_monotonic_ns anchor in
  let seconds := delta_ns / NANOSECONDS_PER_SECOND in
  let nanoseconds := delta_ns mod NANOSECONDS_PER_SECOND in
  match dt_add (ta_utc anchor) (seconds * 1000000 + nanoseconds / 1000) with
  | Ok value => Ok value
  | Err e =>
      if bool_decide (exn_cls e = OverflowError) then refuse "anchor projection exceeds datetime range" else Err e
  end.

(** [_canonical_millisecond(_project_utc(anchor, monotonic_ns))] *)
Definition projected (anchor : TimeAnchor) (monotonic_ns : Z) : result datetime :=
  let! value := project_utc anchor monotonic_ns in Ok (canonical_millisecond value).

(** [replace(anchor, utc=...)] runs the constructor again. *)
Definition with_anchor_utc (anchor : TimeAnchor) (utc : datetime) : result TimeAnchor :=
  TimeAnchor_new (mkAnchor (ta_source anchor) (ta_monotonic_ns anchor) utc (ta_uncertainty_ns anchor) (ta_provenance anchor)).

Definition project_sample (anchor : TimeAnchor) (quality : TimestampQuality) (sample : GpsSample) : result GpsSample :=
  let! utc := projected anchor (s_monotonic_ns sample) in
  GpsSample_new (mkSample (s_monotonic_ns sample) (Some utc) quality (s_lat_deg sample) (s_lon_deg sample)
    (s_speed_mps sample) (s_course_deg sample) (s_altitude_m sample) (s_fix_quality sample) (s_satellites sample)
    (s_hdop sample)).

(** The first sample with a position. *)
Definition first_fix (samples : list GpsSample) : option datetime :=
  match List.find (fun s => negb (bool_decide (s_lat_deg s = None)) && negb (bool_decide (s_lon_deg s = None))) samples with
  | Some s => s_utc s
  | None => None
  end.

(** [boot_id.hex[:12]] *)
Definition boot_token (boot_id : UUID) : str := take 12 (hex_fixed 32 (Z.of_N (uuid_int boot_id))).

(** The new values [replace(sidecar, ...)] is given. *)
Definition with_projection (sidecar : ClipSidecar) (pair : ClipFilePair) (start_utc end_utc : datetime)
    (gps_time_state : GpsTimeState) (system_clock_state : SystemClockState) (quality : TimestampQuality)
    (anchor : TimeAnchor) (start_local : local_datetime) (gps : GpsSummary) : ClipSidecar :=
  mkSidecar (sd_schema_version sidecar) (sd_clip_id sidecar) (sd_boot_id sidecar) (sd_sequence sidecar)
    (video_name pair) (metadata_name pair) (Some start_utc) (Some end_utc)
    (sd_start_monotonic_ns sidecar) (sd_end_monotonic_ns sidecar) gps_time_state system_clock_state quality
    (Some anchor) (sd_timezone sidecar) (Some start_local) (sd_video sidecar) (sd_audio sidecar) gps
    (sd_protected sidecar) (sd_protection_reason sidecar) (sd_software_version sidecar) (sd_warnings sidecar).

(** Only a [ClipNameError] is translated. *)
Definition or_refuse {A} (r : result A) (m : string) : result A :=
  match r with
  | Ok a => Ok a
  | Err e => if bool_decide (exn_cls e = ClipNameError) then refuse m else Err e
  end.

Section Projection.
Context `{ZoneDatabase}.

(** [None] is the argument itself, returned unchanged; the code tells by identity. *)
Definition project_anchored (sidecar : ClipSidecar) (anchor : TimeAnchor) (existing_names : list str)
    (gps_time_state : option GpsTimeState) (system_clock_state : option SystemClockState)
    : result (option ClipSidecar) :=
  let! parsed_source := or_refuse (parse_clip_filename (sd_video_file sidecar)) "clip filename identity is invalid" in
  raise_if negb (bool_decide (boot_id parsed_source = boot_token (sd_boot_id sidecar)))
    as MetadataReconciliationError msg "filename boot token does not match the sidecar boot UUID" ;;
  if negb (provisional parsed_source) then Ok None
  else
    let quality := quality_for_anchor anchor in
    let! (gps_state, system_state) := resolved_clock_states sidecar anchor gps_time_state system_clock_state in
    let! canonical_anchor := with_anchor_utc anchor (canonical_millisecond (ta_utc anchor)) in
    let! start_utc := projected anchor (sd_start_monotonic_ns sidecar) in
    let! end_utc := projected anchor (sd_end_monotonic_ns sidecar) in
    let! local_outcome := to_local_time start_utc (sd_timezone sidecar) in
    match lo_local local_outcome, lo_error local_outcome with
    | Some view, None =>
        let! target_pair := or_refuse (finalized_clip_pair start_utc (boot_id parsed_source) (sd_sequence sidecar) existing_names)
                              "cannot name the finalized pair" in
        let! samples := result_map (project_sample anchor quality) (g_samples (sd_gps sidecar)) in
        let! gps := GpsSummary_new (mkGps (g_available (sd_gps sidecar)) (first_fix samples) samples) in
        let! reconciled := ClipSidecar_new (with_projection sidecar target_pair start_utc end_utc gps_state system_state
                             quality canonical_anchor (lv_datetime view) gps) in
        raise_if negb (bool_decide (sd_clip_id reconciled = sd_clip_id sidecar))
          as MetadataReconciliationError msg "anchor projection changed the stable clip UUID" ;;
        Ok (Some reconciled)
    | _, _ => refuse "cannot derive local time"
    end.

Definition project_anchored_sidecar (sidecar : ClipSidecar) (anchor : TimeAnchor) (existing_names : list str)
    (gps_time_state : option GpsTimeState) (system_clock_state : option SystemClockState) : result ClipSidecar :=
  let! r := project_anchored sidecar anchor existing_names gps_time_state system_clock_state in Ok (default sidecar r).

(** ** The plan *)

Record ReconciliationPlanOf := mkPlanOf {
  pl_sidecar : ClipSidecar;
  pl_intent : option OperationIntent;
  pl_already_reconciled : bool
}.

(** [MetadataReconciliationPlan.__post_init__] *)
Definition plan_new (self : ReconciliationPlanOf) : result ReconciliationPlanOf :=
  raise_if negb (Bool.eqb (pl_already_reconciled self) (bool_decide (pl_intent self = None)))
    as ValueError msg "only an already-reconciled plan may omit its intent" ;;
  match pl_intent self with
  | None => Ok self
  | Some intent =>
      raise_if negb (bool_decide (kind intent = RECONCILE_NAME))
        as ValueError msg "metadata reconciliation requires a RECONCILE_NAME intent" ;;
      raise_if negb (bool_decide (clip_id intent = sd_clip_id (pl_sidecar self)))
        as ValueError msg "intent and sidecar clip IDs must remain identical" ;;
      Ok self
  end.

(** [f"{directory}/{name}"] *)
Definition in_directory (directory name : str) : str := directory ++ u "/" ++ name.

Definition reconciliation_intent (sidecar reconciled : ClipSidecar) (intent_id : UUID) (created_monotonic_ns : Z)
    (directory : str) : result OperationIntent :=
  let! paths := PairPaths_new (in_directory directory (sd_video_file sidecar)) (in_directory directory (sd_metadata_file sidecar))
                  (Some (in_directory directory (sd_video_file reconciled)))
                  (Some (in_directory directory (sd_metadata_file reconciled))) in
  OperationIntent_new intent_id (sd_clip_id sidecar) RECONCILE_NAME created_monotonic_ns paths Intents.SCHEMA_VERSION.

Definition plan_post_anchor_reconciliation (sidecar : ClipSidecar) (anchor : TimeAnchor) (intent_id : UUID)
    (created_monotonic_ns : Z) (existing_names : list str) (directory : str)
    (gps_time_state : option GpsTimeState) (system_clock_state : option SystemClockState)
    : result ReconciliationPlanOf :=
  raise_if negb (bool_decide (directory ∈ [u "clips"; u "protected"]))
    as MetadataReconciliationError msg "reconciliation directory must be clips or protected" ;;
  raise_if created_monotonic_ns <? 0
    as MetadataReconciliationError msg "created_monotonic_ns must be a non-negative integer" ;;
  let! reconciled := project_anchored sidecar anchor existing_names gps_time_state system_clock_state in
  match reconciled with
  | None => plan_new (mkPlanOf sidecar None true)
  | Some reconciled =>
      match reconciliation_intent sidecar reconciled intent_id created_monotonic_ns directory with
      | Ok intent => plan_new (mkPlanOf reconciled (Some intent) false)
      | Err e =>
          if is_ValueError e || bool_decide (exn_cls e = TypeError) then refuse "invalid reconciliation intent" else Err e
      end
  end.
End Projection.
