(* ===== verification/ProjectionProperties.v ===== *)
(** * Anchor projection: theorems

    The projected sidecar is well formed, keeps the recording's identity, carries the anchor's time
    floored to milliseconds, and is projected once: later anchors leave it alone. The projection
    succeeds whenever the times are representable, the zone loads and the new names are free. *)

From Stdlib Require Import Ascii String ZArith SpecFloat Lia.
From stdpp Require Import base list strings sorting.
From S2P Require Import Prelude PyStr PyFloat Uuid DateTime State Naming Intents Models Json JsonProperties LocalTime Metadata.
From S2P Require Import Sidecar MetadataDemo SidecarMapping SidecarProperties SidecarSize SidecarClaims Projection.

(** ** Projected instants *)

(** The anchor's time moved by the monotonic distance, floored to the millisecond; microseconds. *)
Definition instant (a : TimeAnchor) (m : Z) : Z := (utc_us (ta_utc a) + (m - ta_monotonic_ns a) / 1000) / 1000 * 1000.

Lemma instant_floor a m :
  instant a m * 1000 = (utc_us (ta_utc a) * 1000 + (m - ta_monotonic_ns a)) / 1000000 * 1000000.
Proof.
  unfold instant. set (U := utc_us (ta_utc a)). set (d := m - ta_monotonic_ns a). clearbody U d.
  Z.to_euclidean_division_equations. lia.
Qed.

Lemma instant_mono a m m' : m <= m' -> instant a m <= instant a m'.
Proof.
  intros Hm. unfold instant. apply Z.mul_le_mono_nonneg_r; [lia|]. apply Z.div_le_mono; [lia|].
  apply Z.add_le_mono_l, Z.div_le_mono; lia.
Qed.

(** Flooring both ends changes a duration by less than a millisecond. *)
Lemma instant_difference a m m' :
  Z.abs ((instant a m' - instant a m) * 1000 - (m' - m)) < 1000000.
Proof.
  pose proof (instant_floor a m). pose proof (instant_floor a m').
  set (x := instant a m) in *. set (y := instant a m') in *. clearbody x y. Z.to_euclidean_division_equations. lia.
Qed.

Lemma canonical_us t : dt_ok t -> local_us (canonical_millisecond t) = local_us t / 1000 * 1000.
Proof.
  intros [_ Ht]. unfold time_ok in Ht. rewrite time_valid_iff in Ht. unfold canonical_millisecond, local_us, time_us, day_us.
  cbn [dt_date dt_time time_ms t_hour t_minute t_second t_us]. set (o := toordinal _ _ _). clearbody o.
  Z.to_euclidean_division_equations. lia.
Qed.

Lemma canonical_ms_utc t : dt_ok t -> dt_off t = Some 0 -> ms_utc (canonical_millisecond t).
Proof.
  intros [Hd Ht] Ho. split; [split; [done|by apply time_ms_ok]|]. split; [done|]. cbn. apply time_ms_idem.
Qed.

Lemma ms_utc_canonical t : ms_utc t -> canonical_millisecond t = t.
Proof. intros (_ & _ & Hms). unfold canonical_millisecond. rewrite Hms. by destruct t. Qed.

Lemma ms_utc_truncate t : ms_utc t -> truncate_ms t = t.
Proof. intros (_ & Ho & Hms). unfold truncate_ms. unfold time_ms in Hms. rewrite Hms, <-Ho. by destruct t. Qed.

Lemma utc_us_zero t : dt_off t = Some 0 -> utc_us t = local_us t.
Proof. intros Ho. unfold utc_us. rewrite Ho. cbn. lia. Qed.

Lemma check_utc_id f t : dt_ok t -> dt_off t = Some 0 -> check_utc f t = Ok t.
Proof.
  intros Hok Ho. unfold check_utc, astimezone_utc. rewrite Ho. cbn [Z.eqb negb]. rewrite utc_us_zero, <-Ho by done.
  by apply dt_of_us_local_us.
Qed.

Lemma nanos_split d : d / NANOSECONDS_PER_SECOND * 1000000 + d mod NANOSECONDS_PER_SECOND / 1000 = d / 1000.
Proof. unfold NANOSECONDS_PER_SECOND. Z.to_euclidean_division_equations. lia. Qed.

Lemma projected_spec a m t :
  dt_off (ta_utc a) = Some 0 -> projected a m = Ok t -> ms_utc t /\ utc_us t = instant a m.
Proof.
  intros Ho. unfold projected, project_utc. cbv zeta. rewrite nanos_split. unfold dt_add. rewrite Ho.
  destruct (dt_of_us _ _) as [v|e] eqn:E; [|by split_if]. cbn [result_bind]. intros [= <-].
  apply dt_of_us_ok in E as (Hok & Hl & Hov & _). split; [by apply canonical_ms_utc|].
  rewrite utc_us_zero, canonical_us, Hl by done. unfold instant. by rewrite utc_us_zero.
Qed.

Lemma projected_between a m m1 m2 t1 t2 :
  dt_off (ta_utc a) = Some 0 -> m1 <= m <= m2 -> projected a m1 = Ok t1 -> projected a m2 = Ok t2 ->
  exists t, projected a m = Ok t.
Proof.
  intros Ho Hm. unfold projected, project_utc. cbv zeta. rewrite !nanos_split. unfold dt_add. rewrite Ho.
  destruct (dt_of_us (_ + (m1 - _) / 1000) _) as [v1|e] eqn:E1; [|by split_if].
  destruct (dt_of_us (_ + (m2 - _) / 1000) _) as [v2|e] eqn:E2; [|by split_if]. intros _ _.
  apply dt_of_us_ok in E1 as (_ & _ & _ & H1). apply dt_of_us_ok in E2 as (_ & _ & _ & H2).
  destruct (dt_of_us_in_range (local_us (ta_utc a) + (m - ta_monotonic_ns a) / 1000) (Some 0)) as [v ->]; [|by eexists].
  assert ((m1 - ta_monotonic_ns a) / 1000 <= (m - ta_monotonic_ns a) / 1000 <= (m2 - ta_monotonic_ns a) / 1000)
    by (split; apply Z.div_le_mono; lia). lia.
Qed.

(** ** Parts of the projected sidecar *)

Definition project_sample_to (t : datetime) (q : TimestampQuality) (g : GpsSample) : GpsSample :=
  mkSample (s_monotonic_ns g) (Some t) q (s_lat_deg g) (s_lon_deg g) (s_speed_mps g) (s_course_deg g) (s_altitude_m g)
    (s_fix_quality g) (s_satellites g) (s_hdop g).

Lemma sample_new_projected g t q :
  GpsSample_new g = Ok g -> ms_utc t -> q <> MONOTONIC_ONLY ->
  GpsSample_new (project_sample_to t q g) = Ok (project_sample_to t q g).
Proof.
  intros Hg (Hok & Ho & _) Hq. unfold GpsSample_new in *. apply result_bind_ok in Hg as (? & Hm & Hg).
  apply result_bind_ok in Hg as (? & _ & Hg). apply result_bind_ok in Hg as (? & Hf & Hg).
  apply result_bind_ok in Hg as (? & Hfix & Hg). apply result_bind_ok in Hg as (? & Hsat & Hg).
  cbn [project_sample_to s_monotonic_ns s_utc s_timestamp_quality s_lat_deg s_lon_deg s_speed_mps s_course_deg s_altitude_m
    s_fix_quality s_satellites s_hdop].
  rewrite Hm, Hf, Hfix, Hsat. destruct q; [done|..]; rewrite check_utc_id by done; cbn [result_bind];
    (destruct (negb _); [done|reflexivity]).
Qed.

Lemma project_sample_spec a q g r :
  dt_off (ta_utc a) = Some 0 -> project_sample a q g = Ok r ->
  exists t, ms_utc t /\ utc_us t = instant a (s_monotonic_ns g) /\ r = project_sample_to t q g /\ GpsSample_new r = Ok r.
Proof.
  intros Ho. unfold project_sample. intros H. apply result_bind_ok in H as (t & Ht & Hr).
  destruct (projected_spec _ _ _ Ho Ht) as [Hms Hus]. destruct (GpsSample_new_ok _ _ Hr) as [-> _]. by exists t.
Qed.

Lemma result_map_relates {A B} (f : A -> result B) (P : A -> B -> Prop) l l' :
  (forall x y, f x = Ok y -> P x y) -> result_map f l = Ok l' -> Forall2 P l l'.
Proof.
  intros Hf Hl%result_map_Forall2. eapply Forall2_impl; eauto.
Qed.

(** What becomes of a sample. *)
Definition sample_projected (a : TimeAnchor) (g r : GpsSample) : Prop :=
  exists t, ms_utc t /\ utc_us t = instant a (s_monotonic_ns g) /\ r = project_sample_to t (quality_for_anchor a) g.

(** ** Correctness *)

(** Everything about the recording that an anchor does not change. *)
Definition same_recording (s r : ClipSidecar) : Prop :=
  sd_clip_id r = sd_clip_id s /\ sd_boot_id r = sd_boot_id s /\ sd_sequence r = sd_sequence s /\
  sd_start_monotonic_ns r = sd_start_monotonic_ns s /\ sd_end_monotonic_ns r = sd_end_monotonic_ns s /\
  sd_timezone r = sd_timezone s /\ sd_video r = sd_video s /\ sd_audio r = sd_audio s /\
  g_available (sd_gps r) = g_available (sd_gps s) /\
  sd_protected r = sd_protected s /\ sd_protection_reason r = sd_protection_reason s /\
  sd_software_version r = sd_software_version s /\ sd_warnings r = sd_warnings s.

Section Correct.
Context `{ZoneLaws}.

(** The steps of a successful projection. *)
Lemma project_anchored_inv s a existing gps sys r :
  project_anchored s a existing gps sys = Ok (Some r) ->
  exists name gs ss anchor su eu view pair samples summary,
    parse_clip_filename (sd_video_file s) = Ok name /\ boot_id name = boot_token (sd_boot_id s) /\
    provisional name = true /\ resolved_clock_states s a gps sys = Ok (gs, ss) /\
    with_anchor_utc a (canonical_millisecond (ta_utc a)) = Ok anchor /\
    projected a (sd_start_monotonic_ns s) = Ok su /\ projected a (sd_end_monotonic_ns s) = Ok eu /\
    to_local_time su (sd_timezone s) = Ok (mkOutcome (Some view) None) /\
    finalized_clip_pair su (boot_id name) (sd_sequence s) existing = Ok pair /\
    result_map (project_sample a (quality_for_anchor a)) (g_samples (sd_gps s)) = Ok samples /\
    GpsSummary_new (mkGps (g_available (sd_gps s)) (first_fix samples) samples) = Ok summary /\
    r = with_projection s pair su eu gs ss (quality_for_anchor a) anchor (lv_datetime view) summary /\
    ClipSidecar_new r = Ok r.
Proof.
  unfold project_anchored, or_refuse. intros Hp.
  destruct (parse_clip_filename (sd_video_file s)) as [name|e] eqn:Hname; [|by split_if]. cbn [result_bind] in Hp.
  destruct (negb (bool_decide (boot_id name = _))) eqn:Hboot; [done|].
  destruct (negb (provisional name)) eqn:Hprov; [done|].
  apply result_bind_ok in Hp as ([gs ss] & Hstates & Hp). apply result_bind_ok in Hp as (anchor & Hanchor & Hp).
  apply result_bind_ok in Hp as (su & Hsu & Hp). apply result_bind_ok in Hp as (eu & Heu & Hp).
  apply result_bind_ok in Hp as ([[view|] [err|]] & Hlocal & Hp); try done. cbn [lo_local lo_error] in Hp.
  destruct (finalized_clip_pair su (boot_id name) (sd_sequence s) existing) as [pair|e] eqn:Hpair; [|by split_if].
  cbn [result_bind] in Hp. apply result_bind_ok in Hp as (samples & Hsamples & Hp).
  apply result_bind_ok in Hp as (summary & Hsummary & Hp). apply result_bind_ok in Hp as (r' & Hnew & Hp).
  destruct (negb _) in Hp; [done|]. injection Hp as ->. bool_prop. pose proof Hnew as Hnew'.
  apply ClipSidecar_new_ok in Hnew' as [-> _].
  by exists name, gs, ss, anchor, su, eu, view, pair, samples, summary.
Qed.

Lemma projection_built s a existing gps sys r :
  built s -> TimeAnchor_new a = Ok a -> project_anchored s a existing gps sys = Ok (Some r) -> built r.
Proof.
  intros Hb Ha Hp. apply project_anchored_inv in Hp as
    (name & gs & ss & anchor & su & eu & view & pair & samples & summary & _ & _ & _ & _ & Hanchor & _ & _ &
     _ & _ & Hsamples & Hsummary & Hr & Hnew).
  destruct (TimeAnchor_new_ok _ _ Ha) as [_ (_ & Ho & _)].
  pose proof Hsummary as Hsummary'. apply GpsSummary_new_ok in Hsummary' as [-> _].
  destruct Hb as [_ Hv Hau _ _ _]. constructor; subst r; cbn; try done.
  - eapply result_map_Forall; [|exact Hsamples]. intros g g' (t & _ & _ & _ & Hg)%project_sample_spec; done.
  - intros x [= <-]. pose proof Hanchor as Hx. apply TimeAnchor_new_ok in Hx as [-> _]. exact Hanchor.
Qed.

(** C14: a projection that succeeds keeps everything about the recording except its names and its
    times: the new sidecar satisfies every rule of the schema, starts and ends and samples at the
    anchor's time moved by the monotonic distance and floored to the millisecond, takes its quality
    from the anchor, and its name carries its start; any later anchor leaves it as it is. *)
Theorem projection_correct s a existing gps sys r :
  built s -> TimeAnchor_new a = Ok a -> project_anchored s a existing gps sys = Ok (Some r) ->
  same_recording s r /\ sidecar_ok r /\ sd_timestamp_quality r = quality_for_anchor a /\
  Forall2 (sample_projected a) (g_samples (sd_gps s)) (g_samples (sd_gps r)) /\
  exists su eu, sd_start_utc r = Some su /\ sd_end_utc r = Some eu /\
    utc_us su = instant a (sd_start_monotonic_ns s) /\ utc_us eu = instant a (sd_end_monotonic_ns s) /\
    (1000 <= d_year (dt_date su) ->
       parse_clip_filename (sd_video_file r)
         = Ok (mkParsed (boot_token (sd_boot_id s)) (sd_sequence s) (Some su) (u "mp4") false false) /\
       forall a' existing' gps' sys', project_anchored r a' existing' gps' sys' = Ok None).
Proof.
  intros Hb Ha Hp. pose proof (projection_built _ _ _ _ _ _ Hb Ha Hp) as Hbr. apply project_anchored_inv in Hp as
    (name & gs & ss & anchor & su & eu & view & pair & samples & summary & Hname & Hboot & Hprov & _ & Hanchor & Hsu & Heu &
     _ & Hpair & Hsamples & Hsummary & Hr & Hnew).
  destruct (TimeAnchor_new_ok _ _ Ha) as [_ (_ & Ho & _)].
  destruct (projected_spec _ _ _ Ho Hsu) as [Hmsu Hisu]. destruct (projected_spec _ _ _ Ho Heu) as [Hmeu Hieu].
  apply GpsSummary_new_ok in Hsummary as [-> _].
  split_and!.
  - subst r. by split_and!.
  - by apply built_ok.
  - by subst r.
  - subst r. cbn. eapply result_map_relates; [|exact Hsamples].
    intros g g' (t & Ht & Hi & -> & _)%project_sample_spec; [|done]. by exists t.
  - exists su, eu. split_and!; try (by subst r). intros Hy. destruct Hmsu as (Hsok & Hso & Hsms).
    assert (astimezone_utc su = Ok su) as Hz.
    { unfold astimezone_utc. rewrite utc_us_zero, <-Hso by done. by apply dt_of_us_local_us. }
    apply (finalized_clip_pair_iff _ _ _ _ _ _ Hz Hy) in Hpair as (_ & Hbre & Hn & _ & ->).
    destruct (final_names_parse su (boot_id name) (sd_sequence s) Hsok Hso Hbre Hn) as [Hparse _].
    rewrite ms_utc_truncate, Hboot in Hparse by done.
    assert (parse_clip_filename (sd_video_file r)
      = Ok (mkParsed (boot_token (sd_boot_id s)) (sd_sequence s) (Some su) (u "mp4") false false)) as Hrp
      by (subst r; cbn; by rewrite Hboot).
    split; [exact Hrp|]. intros a' existing' gps' sys'. unfold project_anchored. rewrite Hrp. cbn [or_refuse result_bind boot_id].
    rewrite bool_decide_true by by subst r. reflexivity.
Qed.
End Correct.

(** ** Success *)

Section Success.
Context `{ZoneLaws}.

Lemma to_local_ok t k x :
  dt_off t = Some 0 -> text_ok 128 k -> isascii k = true -> ZoneInfo k = Ok tt -> astimezone_zone t k = Ok x ->
  exists view, to_local_time t k = Ok (mkOutcome (Some view) None) /\ lv_datetime view = x.
Proof.
  intros Ho (Hne & Hlen & _) Hascii Hz Hx. unfold to_local_time. rewrite Ho. cbn [Z.eqb negb].
  rewrite bool_decide_false by done. replace (128 <? len k) with false by lia. rewrite Hascii. cbn [negb orb].
  rewrite Hz, Hx. cbn [result_bind]. apply astimezone_zone_ok in Hx as (_ & _ & _ & off & -> & _). by eexists.
Qed.

Lemma local_eqb_refl x : local_eqb x x = true.
Proof. unfold local_eqb. rewrite bool_decide_true by done. apply Z.eqb_refl. Qed.

Lemma anchor_new_canonical a :
  TimeAnchor_new a = Ok a -> dt_ok (ta_utc a) ->
  with_anchor_utc a (canonical_millisecond (ta_utc a)) =
    Ok (mkAnchor (ta_source a) (ta_monotonic_ns a) (canonical_millisecond (ta_utc a)) (ta_uncertainty_ns a) (ta_provenance a)).
Proof.
  intros Ha Hok. destruct (TimeAnchor_new_ok _ _ Ha) as [_ (_ & Ho & _)]. destruct (canonical_ms_utc _ Hok Ho) as (Hok' & Ho' & _).
  unfold with_anchor_utc, TimeAnchor_new in *. cbn [ta_monotonic_ns ta_utc ta_uncertainty_ns ta_provenance].
  apply result_bind_ok in Ha as (? & -> & Ha). apply result_bind_ok in Ha as (? & _ & Ha).
  apply result_bind_ok in Ha as (? & -> & Ha). apply result_bind_ok in Ha as (? & -> & Ha).
  cbn [result_bind]. by rewrite check_utc_id.
Qed.

(** Every sample in the clip is projected, in order, inside the projected interval. *)
Lemma project_samples_total a q samples lo hi su eu :
  dt_off (ta_utc a) = Some 0 -> q <> MONOTONIC_ONLY -> projected a lo = Ok su -> projected a hi = Ok eu ->
  Forall (fun g => GpsSample_new g = Ok g) samples -> Forall (fun g => lo <= s_monotonic_ns g < hi) samples ->
  exists samples', result_map (project_sample a q) samples = Ok samples' /\
    map s_monotonic_ns samples' = map s_monotonic_ns samples /\
    Forall (fun g => exists t, s_utc g = Some t /\ ms_utc t /\ utc_us su <= utc_us t <= utc_us eu) samples'.
Proof.
  intros Ho Hq Hsu Heu Hb Hw. destruct (projected_spec _ _ _ Ho Hsu) as [_ Esu]. destruct (projected_spec _ _ _ Ho Heu) as [_ Eeu].
  induction samples as [|g l IH]; [by exists []|]. apply Forall_cons in Hb as [Hg Hb]. apply Forall_cons in Hw as [Hin Hw].
  destruct (IH Hb Hw) as (l' & Hl & Hm & Hf).
  destruct (projected_between a (s_monotonic_ns g) lo hi su eu) as [t Ht]; try done; [lia|].
  destruct (projected_spec _ _ _ Ho Ht) as [Hms Et]. exists (project_sample_to t q g :: l'). cbn [result_map map].
  split_and!.
  - unfold project_sample at 1. rewrite Ht. cbn [result_bind].
    pose proof (sample_new_projected g t q Hg Hms Hq) as Hn. unfold project_sample_to in Hn. rewrite Hn. cbn [result_bind].
    by rewrite Hl.
  - by rewrite Hm.
  - constructor; [|done]. exists t. split_and!; try done.
    + rewrite Esu, Et. apply instant_mono. lia.
    + rewrite Eeu, Et. apply instant_mono. lia.
Qed.

Lemma first_fix_in samples t : first_fix samples = Some t -> exists g, g ∈ samples /\ s_utc g = Some t.
Proof.
  unfold first_fix. destruct (List.find _ samples) as [g|] eqn:E; [|done]. intros Ht. apply find_some in E as [Hin _].
  exists g. split; [by apply list_elem_of_In|done].
Qed.

Lemma window_projected s m samples su eu :
  sd_start_utc s = Some su -> sd_end_utc s = Some eu ->
  StronglySorted Z.le (m :: map s_monotonic_ns samples) ->
  Forall (fun g => sd_start_monotonic_ns s <= s_monotonic_ns g < sd_end_monotonic_ns s) samples ->
  Forall (fun g => exists t, s_utc g = Some t /\ ms_utc t /\ utc_us su <= utc_us t <= utc_us eu) samples ->
  exists last, result_fold (validate_sample s) m samples = Ok last.
Proof.
  intros Hs He. revert m. induction samples as [|g l IH]; intros m Hsort Hin Hutc; [by eexists|].
  cbn [map] in Hsort. apply StronglySorted_inv in Hsort as [Hsort Hle]. apply Forall_cons in Hle as [Hle _].
  apply Forall_cons in Hin as [Hg Hin]. apply Forall_cons in Hutc as [(t & Ht & (Hok & Ho & _) & Hr) Hutc].
  cbn [result_fold]. unfold validate_sample at 1.
  replace ((sd_start_monotonic_ns s <=? s_monotonic_ns g) && (s_monotonic_ns g <? sd_end_monotonic_ns s)) with true by lia.
  replace (s_monotonic_ns g <? m) with false by lia. cbn [negb]. rewrite Ht, Hs, He, check_utc_id by done. cbn [result_bind].
  unfold before. replace ((utc_us su <=? utc_us t) && (utc_us t <=? utc_us eu)) with true by lia. cbn [negb result_bind].
  by apply IH.
Qed.

Lemma quality_derived a : quality_for_anchor a <> MONOTONIC_ONLY.
Proof. unfold quality_for_anchor. by destruct (ta_source a). Qed.

(** The civil times of a projection pass the schema's checks. *)
Lemma projected_times_valid r a su eu x :
  sd_start_utc r = Some su -> sd_end_utc r = Some eu -> sd_start_local r = Some x ->
  (exists anchor, sd_time_anchor r = Some anchor /\ ta_source anchor = ta_source a) ->
  sd_timestamp_quality r = quality_for_anchor a ->
  (ta_source a = SOURCE_GPS -> sd_gps_time_state r <> UNSYNCED) ->
  (ta_source a = SOURCE_SYSTEM_CLOCK -> sd_system_clock_state r = SYNCHRONIZED) ->
  ms_utc su -> ms_utc eu -> utc_us su = instant a (sd_start_monotonic_ns r) -> utc_us eu = instant a (sd_end_monotonic_ns r) ->
  astimezone_zone su (sd_timezone r) = Ok x -> 1000000 <= sd_end_monotonic_ns r - sd_start_monotonic_ns r ->
  validate_time_fields r = Ok tt.
Proof.
  intros Hs He Hx (anchor & Ha & Hsrc) Hq Hg Hy (Hsok & Hso & _) (Heok & Heo & _) Esu Eeu Hz Hd. unfold validate_time_fields.
  rewrite bool_decide_false by (rewrite Hq; apply quality_derived). rewrite Hs, He, Hx, Ha. unfold validate_derived_times.
  rewrite !check_utc_id by done. cbn [result_bind]. unfold before, timedelta_ns, MAX_DURATION_ROUNDING_ERROR_NS.
  pose proof (instant_difference a (sd_start_monotonic_ns r) (sd_end_monotonic_ns r)) as Hi. rewrite <-Esu, <-Eeu in Hi.
  replace (utc_us eu <=? utc_us su) with false by lia. replace (1000000 <? _) with false by lia. rewrite Hz.
  apply astimezone_zone_ok in Hz as (_ & _ & _ & off & Ho & _). rewrite Ho. rewrite bool_decide_false by done. cbn [result_bind].
  rewrite local_eqb_refl, bool_decide_true by done. cbn [negb orb]. rewrite Hq. unfold quality_for_anchor.
  destruct (ta_source a); rewrite Hsrc, bool_decide_true by done; cbn [negb].
  - by rewrite bool_decide_false by auto.
  - by rewrite bool_decide_true by auto.
Qed.

Lemma resolved_states_ok s a gps sys gs ss :
  resolved_clock_states s a gps sys = Ok (gs, ss) ->
  (ta_source a = SOURCE_GPS -> gs <> UNSYNCED) /\ (ta_source a = SOURCE_SYSTEM_CLOCK -> ss = SYNCHRONIZED).
Proof. unfold resolved_clock_states. destruct (ta_source a); intros Hr; inv_ok; bool_prop; done. Qed.

Lemma boot_token_valid i : BOOT_ID_RE (boot_token i) = true.
Proof.
  apply boot_id_facts. unfold boot_token. split.
  - apply Forall_take. eapply Forall_impl; [apply hex_fixed_hex|]. intros c. unfold is_lower_hex, is_lower_alnum, is_lower, in_range.
    intros Hc. apply orb_true_iff in Hc as [Hc|Hc]; [by rewrite Hc, orb_true_r|]. bool_prop.
    apply orb_true_iff. left. lia.
  - unfold len. rewrite length_take, hex_fixed_length. lia.
Qed.

Lemma gps_projected g samples su eu :
  GpsSummary_new g = Ok g -> map s_monotonic_ns samples = map s_monotonic_ns (g_samples g) ->
  Forall (fun s => exists t, s_utc s = Some t /\ ms_utc t /\ utc_us su <= utc_us t <= utc_us eu) samples ->
  GpsSummary_new (mkGps (g_available g) (first_fix samples) samples) = Ok (mkGps (g_available g) (first_fix samples) samples).
Proof.
  intros Hg Hm Hs. apply GpsSummary_new_ok in Hg as [_ (_ & Hl & Ha)]. unfold GpsSummary_new.
  cbn [g_first_fix_utc g_samples g_available].
  assert (when_present (fun utc => let! _ := check_utc "gps.first_fix_utc" utc in Ok tt) (first_fix samples) = Ok tt) as ->.
  { destruct (first_fix samples) as [t|] eqn:E; [|done]. apply first_fix_in in E as (s & Hin & E).
    rewrite Forall_forall in Hs. destruct (Hs s Hin) as (t' & Et & (Hok & Ho & _) & _). rewrite E in Et. injection Et as <-.
    cbn [when_present]. by rewrite check_utc_id. }
  cbn [result_bind]. apply (f_equal length) in Hm as Hlen. rewrite !length_map in Hlen. rewrite Hlen.
  replace (MAX_GPS_SAMPLES <? _) with false by lia. destruct (g_available g); [done|].
  destruct (Ha eq_refl) as [_ Hnil]. rewrite Hnil in Hlen. by destruct samples.
Qed.

(** The constructor's checks on the projected sidecar. *)
Lemma projected_new s pair a su eu x gs ss anchor samples b :
  ClipSidecar_new s = Ok s -> ClipFilePair_new (video_name pair) (metadata_name pair) = Ok pair ->
  parse_clip_filename (video_name pair) = Ok (mkParsed b (sd_sequence s) (Some su) (u "mp4") false false) ->
  ms_utc su -> ms_utc eu -> utc_us su = instant a (sd_start_monotonic_ns s) -> utc_us eu = instant a (sd_end_monotonic_ns s) ->
  astimezone_zone su (sd_timezone s) = Ok x -> 1000000 <= sd_end_monotonic_ns s - sd_start_monotonic_ns s ->
  (ta_source a = SOURCE_GPS -> gs <> UNSYNCED) /\ (ta_source a = SOURCE_SYSTEM_CLOCK -> ss = SYNCHRONIZED) ->
  ta_source anchor = ta_source a ->
  StronglySorted Z.le (sd_start_monotonic_ns s :: map s_monotonic_ns samples) ->
  Forall (fun g => sd_start_monotonic_ns s <= s_monotonic_ns g < sd_end_monotonic_ns s) samples ->
  Forall (fun g => exists t, s_utc g = Some t /\ ms_utc t /\ utc_us su <= utc_us t <= utc_us eu) samples ->
  let r := with_projection s pair su eu gs ss (quality_for_anchor a) anchor x (mkGps (g_available (sd_gps s)) (first_fix samples) samples) in
  ClipSidecar_new r = Ok r.
Proof.
  intros Hs Hpair Hparse Hmsu Hmeu Esu Eeu Hx Hlong [Hgs Hss] Hsrc Hsort Hin Hutc r. pose proof Hmsu as (Hsok & Hso & _).
  assert (parsed_name r = Ok (mkParsed b (sd_sequence s) (Some su) (u "mp4") false false)) as Hname.
  { unfold parsed_name, r. cbn [with_projection sd_video_file sd_metadata_file]. by rewrite Hpair, Hparse. }
  assert (validate_name r (mkParsed b (sd_sequence s) (Some su) (u "mp4") false false) = Ok tt) as Hvalid.
  { unfold validate_name, r. cbn [with_projection sd_timestamp_quality sd_start_utc provisional utc_started_at].
    rewrite bool_decide_false by apply quality_derived. cbn [negb andb]. rewrite check_utc_id by done. cbn [result_bind].
    by rewrite ms_utc_canonical, bool_decide_true. }
  assert (validate_time_fields r = Ok tt) as Htimes.
  { apply (projected_times_valid r a su eu x); try done. by exists anchor. }
  assert (validate_sample_window r = Ok tt) as Hwindow.
  { unfold validate_sample_window.
    destruct (window_projected r (sd_start_monotonic_ns s) samples su eu) as [last Hlast]; try done.
    cbn [r with_projection sd_gps g_samples g_first_fix_utc sd_start_monotonic_ns sd_start_utc sd_end_utc] in *.
    fold r. rewrite Hlast. cbn [result_bind]. destruct (first_fix samples) as [t|] eqn:E; [|done].
    apply first_fix_in in E as (g & Hg & Et). rewrite Forall_forall in Hutc. destruct (Hutc g Hg) as (t' & Et' & _ & Hr).
    rewrite Et in Et'. injection Et' as <-. unfold before.
    by replace ((utc_us su <=? utc_us t) && (utc_us t <=? utc_us eu)) with true by lia. }
  unfold ClipSidecar_new in *. inv_ok. change (load_timezone r) with (load_timezone s).
  change (validate_protection r) with (validate_protection s).
  change (sd_schema_version r) with (sd_schema_version s). change (sd_sequence r) with (sd_sequence s).
  change (sd_start_monotonic_ns r) with (sd_start_monotonic_ns s). change (sd_end_monotonic_ns r) with (sd_end_monotonic_ns s).
  change (sd_timezone r) with (sd_timezone s). change (sd_software_version r) with (sd_software_version s).
  change (sd_warnings r) with (sd_warnings s). rewrite Hname.
  repeat match goal with Hq : ?e = _ |- context [?e] => rewrite Hq; cbn [result_bind sequence] end.
  rewrite Z.eqb_refl. cbn [negb]. 
  repeat match goal with Hq : ?e = _ |- context [?e] => rewrite Hq; cbn [result_bind] end. done.
Qed.

(** An anchor is projected onto every provisional clip of at least a millisecond whose name
    carries its boot token, provided the clock states fit the anchor, the clip's ends are
    representable, the zone loads and the new names are free; the result starts and ends at the
    projected times. *)
Theorem projection_succeeds s a existing gps sys gs ss name su eu x :
  built s -> TimeAnchor_new a = Ok a -> dt_ok (ta_utc a) ->
  parse_clip_filename (sd_video_file s) = Ok name -> provisional name = true ->
  boot_id name = boot_token (sd_boot_id s) -> resolved_clock_states s a gps sys = Ok (gs, ss) ->
  1000000 <= sd_end_monotonic_ns s - sd_start_monotonic_ns s ->
  projected a (sd_start_monotonic_ns s) = Ok su -> projected a (sd_end_monotonic_ns s) = Ok eu ->
  1000 <= d_year (dt_date su) ->
  ZoneInfo (sd_timezone s) = Ok tt -> isascii (sd_timezone s) = true -> astimezone_zone su (sd_timezone s) = Ok x ->
  collision_free (final_stem su (boot_id name) (sd_sequence s)) existing ->
  exists r, project_anchored s a existing gps sys = Ok (Some r) /\
    sd_start_utc r = Some su /\ sd_end_utc r = Some eu /\ sd_start_local r = Some x.
Proof.
  intros Hb Ha Haok Hname Hprov Hboot Hstates Hlong Hsu Heu Hyear Hzone Hascii Hx Hfree.
  destruct (TimeAnchor_new_ok _ _ Ha) as [_ (_ & Ho & _)]. pose proof (anchor_new_canonical a Ha Haok) as Hanchor.
  destruct (projected_spec _ _ _ Ho Hsu) as [Hmsu Esu]. destruct (projected_spec _ _ _ Ho Heu) as [Hmeu Eeu].
  pose proof (built_ok s Hb) as Hok. destruct Hb as [Hnew Hv Hau Hg Hsamples _].
  pose proof (ok_texts s Hok) as [Htz _]. destruct (to_local_ok su _ x (proj1 (proj2 Hmsu)) Htz Hascii Hzone Hx) as (view & Hlocal & Hview).
  pose proof Hmsu as (Hsok & Hso & _). pose proof (ok_window s Hok) as [Hsort Hwin].
  assert (Forall (fun g => sd_start_monotonic_ns s <= s_monotonic_ns g < sd_end_monotonic_ns s) (g_samples (sd_gps s))) as Hin.
  { apply StronglySorted_inv in Hsort as [_ Hge]. rewrite Forall_map in Hge. rewrite Forall_forall in *.
    intros g Hgin. split; [by apply Hge|by apply Hwin]. }
  destruct (project_samples_total a (quality_for_anchor a) _ _ _ su eu Ho (quality_derived a) Hsu Heu Hsamples Hin)
    as (samples & Hsam & Hmono & Hutc).
  pose proof (gps_projected _ samples su eu Hg Hmono Hutc) as Hgps.
  assert (astimezone_utc su = Ok su) as Hz.
  { unfold astimezone_utc. rewrite utc_us_zero, <-Hso by done. by apply dt_of_us_local_us. }
  pose proof (boot_token_valid (sd_boot_id s)) as Hbre. rewrite <-Hboot in Hbre.
  destruct (final_stem_ok su (boot_id name) (sd_sequence s) Hbre) as [Hvn Hmn].
  set (stem := final_stem su (boot_id name) (sd_sequence s)) in *.
  pose proof (ok_sequence s Hok) as Hseq.
  assert (finalized_clip_pair su (boot_id name) (sd_sequence s) existing = Ok (mkPair (stem ++ u ".mp4") (stem ++ u ".json"))) as Hpair.
  { apply (finalized_clip_pair_iff _ _ _ _ _ _ Hz Hyear). split; [unfold is_aware; by rewrite Hso|done]. }
  destruct (final_names_parse su (boot_id name) (sd_sequence s) Hsok Hso Hbre Hseq) as [Hparse _]. fold stem in Hparse.
  rewrite ms_utc_truncate in Hparse by done.
  set (r := with_projection s (mkPair (stem ++ u ".mp4") (stem ++ u ".json")) su eu gs ss (quality_for_anchor a)
    (mkAnchor (ta_source a) (ta_monotonic_ns a) (canonical_millisecond (ta_utc a)) (ta_uncertainty_ns a) (ta_provenance a)) x
    (mkGps (g_available (sd_gps s)) (first_fix samples) samples)).
  assert (ClipSidecar_new r = Ok r) as Hr.
  { apply (projected_new s (mkPair (stem ++ u ".mp4") (stem ++ u ".json")) a su eu x gs ss _ _ (boot_id name)); try done.
    - by apply ClipFilePair_new_stem.
    - by apply (resolved_states_ok s a gps sys gs ss).
    - by rewrite Hmono.
    - apply (Forall_map s_monotonic_ns (fun m => sd_start_monotonic_ns s <= m < sd_end_monotonic_ns s)).
      rewrite Hmono. by apply Forall_map. }
  exists r. split; [|by split_and!]. unfold project_anchored, or_refuse. rewrite Hname. cbn [result_bind].
  rewrite bool_decide_true, Hprov by done. cbn [negb]. rewrite Hstates. cbn [result_bind]. rewrite Hanchor, Hsu, Heu. cbn [result_bind].
  rewrite Hlocal. cbn [result_bind lo_local lo_error]. rewrite Hpair. cbn [result_bind]. rewrite Hsam. cbn [result_bind].
  rewrite Hgps. cbn [result_bind]. rewrite Hview. fold r. rewrite Hr. cbn [result_bind]. by rewrite bool_decide_true.
Qed.
End Success.

(** ** The projected sidecar's file *)

Section File.
Context `{ZoneLaws}.

Lemma whole_milliseconds t d : time_ok t -> local_us (mkDT d t None) mod 1000 = 0 -> time_ms t = t.
Proof.
  intros Ht. unfold time_ok in Ht. rewrite time_valid_iff in Ht. unfold local_us, time_us, day_us, time_ms.
  cbn [dt_date dt_time]. set (o := toordinal _ _ _). clearbody o. destruct t as [h m s us]. cbn in *. intros Hz.
  f_equal. Z.to_euclidean_division_equations. lia.
Qed.

Lemma local_projected su k x :
  ms_utc su -> (forall n, minute_offset (fst (zone_at k n)) = true) -> astimezone_zone su k = Ok x -> local_carried x = true.
Proof.
  intros Hsu Hm Hx. pose proof Hx as Hx'. unfold astimezone_zone in Hx'. specialize (Hm (utc_us su)).
  apply astimezone_zone_ok in Hx as (Hd & Ht & Hk & off & Ho & Hf & _).
  assert (minute_offset off = true) as Hmo.
  { destruct (zone_at k (utc_us su)) as [off' fold] eqn:E. destruct (dt_of_us _ _) as [dt|] eqn:Ed; [|done].
    cbn [result_bind] in Hx'. injection Hx' as <-. cbn in *. rewrite (zone_consistent _ _ _ _ _ E Ed) in Ho. congruence. }
  unfold local_carried. unfold date_ok, time_ok in Hd, Ht. rewrite Hd, Ht, Ho. cbn [andb opt_forallb]. rewrite Hmo, andb_true_r.
  apply bool_decide_eq_true. apply (whole_milliseconds _ (ld_date x)); [done|].
  change (local_us (mkDT (ld_date x) (ld_time x) None)) with (fields_us x). rewrite Hf.
  destruct Hsu as (Hok & Hso & Hms). rewrite utc_us_zero by done.
  pose proof (canonical_us su Hok) as Hc. rewrite ms_utc_canonical in Hc by done.
  unfold minute_offset, minute_us in Hmo. bool_prop. Z.to_euclidean_division_equations. lia.
Qed.

Lemma ms_utc_b_true t : ms_utc t -> ms_utc_b t = true.
Proof. apply bool_decide_eq_true_2. Qed.

Lemma sample_projected_carried g t q :
  sample_carried g = true -> ms_utc t -> sample_carried (project_sample_to t q g) = true.
Proof.
  unfold sample_carried. intros [_ Hf]%andb_true_iff Ht. apply andb_true_iff. split; [by apply ms_utc_b_true|exact Hf].
Qed.

Lemma samples_carried a q l samples :
  dt_off (ta_utc a) = Some 0 -> forallb sample_carried l = true -> result_map (project_sample a q) l = Ok samples ->
  forallb sample_carried samples = true.
Proof.
  intros Ho Hc Hs. revert Hc. rewrite !forallb_Forall. 
  assert (Forall2 (fun g r => exists t, ms_utc t /\ r = project_sample_to t q g) l samples) as Hf.
  { eapply result_map_relates; [|exact Hs]. intros g r (t & ? & _ & ? & _)%project_sample_spec; [|done]. by exists t. }
  clear Hs. induction Hf as [|g r l' samples' (t & Ht & ->) _ IH]; [done|]. intros [Hg Hl]%Forall_cons.
  constructor; [|auto]. by apply sample_projected_carried.
Qed.

Lemma projection_carried s a existing gps sys r :
  built s -> carried s = true -> TimeAnchor_new a = Ok a -> dt_ok (ta_utc a) ->
  (forall n, minute_offset (fst (zone_at (sd_timezone s) n)) = true) ->
  project_anchored s a existing gps sys = Ok (Some r) -> built r /\ carried r = true.
Proof.
  intros Hb Hc Ha Haok Hm Hp. pose proof Hp as Hp'. apply project_anchored_inv in Hp as
    (name & gs & ss & anchor & su & eu & view & pair & samples & summary & Hname & Hboot & Hprov & _ & Hanchor & Hsu & Heu &
     Hlocal & Hpair & Hsamples & Hsummary & Hr & Hnew).
  destruct (TimeAnchor_new_ok _ _ Ha) as [_ (_ & Ho & _)].
  split; [by eapply projection_built|].
  destruct (projected_spec _ _ _ Ho Hsu) as [Hmsu _]. destruct (projected_spec _ _ _ Ho Heu) as [Hmeu _].
  apply GpsSummary_new_ok in Hsummary as [-> _].
  rewrite anchor_new_canonical in Hanchor by done. injection Hanchor as <-.
  assert (exists x, lv_datetime view = x /\ astimezone_zone su (sd_timezone s) = Ok x) as (x & Hx & Hz).
  { unfold to_local_time in Hlocal. rewrite (proj1 (proj2 Hmsu)) in Hlocal. cbn [Z.eqb negb] in Hlocal.
    destruct (_ || _) in Hlocal; [done|]. destruct (ZoneInfo _); [|by split_if].
    destruct (astimezone_zone su (sd_timezone s)) as [x|]; [|done]. exists x. cbn [result_bind] in Hlocal.
    destruct (utcoffset x); [|done]. by injection Hlocal as <-. }
  pose proof (local_projected su _ x Hmsu Hm Hz) as Hlc.
  assert (forallb sample_carried samples = true) as Hsc.
  { eapply samples_carried; [done| |exact Hsamples]. by apply carried_facts. }
  unfold carried in *. subst r. cbn [with_projection sd_clip_id sd_boot_id sd_start_utc sd_end_utc sd_time_anchor sd_start_local
    sd_video sd_gps g_first_fix_utc g_samples opt_forallb ta_utc]. bool_prop.
  rewrite !andb_true_iff. split_and!; try done; try (by apply ms_utc_b_true).
  - apply ms_utc_b_true. by apply canonical_ms_utc.
  - by rewrite Hx.
  - destruct (first_fix samples) as [t|] eqn:E; [|done]. apply first_fix_in in E as (g & Hin & Et).
    rewrite forallb_Forall, Forall_forall in Hsc. specialize (Hsc g Hin). unfold sample_carried in Hsc. rewrite Et in Hsc.
    by apply andb_true_iff in Hsc as [? _].
Qed.

(** The replacement sidecar of a readable provisional one, written to its file, is read back as it
    was projected unless it starts in a repeated local hour, and then it is refused; in a zone with
    offsets of whole minutes. *)
Theorem projected_sidecar_reads_back s a existing gps sys r :
  built s -> carried s = true -> TimeAnchor_new a = Ok a -> dt_ok (ta_utc a) ->
  (forall n, minute_offset (fst (zone_at (sd_timezone s) n)) = true) ->
  project_anchored s a existing gps sys = Ok (Some r) ->
  parse_sidecar_bytes (to_canonical_json r) = if repeated_hour r then parse_error "invalid sidecar" else Ok (reread r).
Proof. intros Hb Hc Ha Haok Hm Hp. apply read_back_or_refused; by eapply projection_carried. Qed.
End File.

(** ** Witnesses *)

#[local] Existing Instances demo_zones demo_zone_laws.

Lemma demo_built : built md_provisional.
Proof. decide_built. Qed.

Lemma projection_correct_witness :
  project_anchored md_provisional md_anchor [] None None = Ok (Some md_summer) /\
  same_recording md_provisional md_summer /\ sidecar_ok md_summer.
Proof.
  assert (project_anchored md_provisional md_anchor [] None None = Ok (Some md_summer)) as Hp by (vm_compute; reflexivity).
  split; [exact Hp|].
  destruct (projection_correct md_provisional md_anchor [] None None md_summer demo_built ltac:(vm_compute; reflexivity) Hp)
    as (Hs & Hok & _). split; [exact Hs|exact Hok].
Defined.

Lemma projection_succeeds_witness :
  exists r, project_anchored md_provisional md_anchor [] None None = Ok (Some r) /\
    sd_start_utc r = Some (utc_at 2026 7 1 9 29 45 250).
Proof.
  destruct (projection_succeeds md_provisional md_anchor [] None None GPS_TIME_VALID UNSET
    (mkParsed (u "0123456789ab") 7 None (u "mp4") true false) (utc_at 2026 7 1 9 29 45 250) (utc_at 2026 7 1 9 30 45 250)
    (mkLocal (mkDate 2026 7 1) (mkTime 12 29 45 250000) false (Some (ZoneKey jerusalem)))) as (r & Hr & Hs & _);
    [exact demo_built | vm_compute; reflexivity | split; reflexivity | vm_compute; reflexivity | reflexivity
    | vm_compute; reflexivity | vm_compute; reflexivity | vm_compute; discriminate | vm_compute; reflexivity
    | vm_compute; reflexivity | vm_compute; discriminate | vm_compute; reflexivity | vm_compute; reflexivity
    | vm_compute; reflexivity | split; apply not_elem_of_nil | ].
  exists r. split; [exact Hr|exact Hs].
Defined.

Lemma projected_sidecar_reads_back_witness :
  parse_sidecar_bytes (to_canonical_json md_summer) = Ok (reread md_summer).
Proof.
  rewrite (projected_sidecar_reads_back md_provisional md_anchor [] None None md_summer demo_built);
    [vm_compute; reflexivity | vm_compute; reflexivity | vm_compute; reflexivity | split; reflexivity
    | | vm_compute; reflexivity].
  intros n. cbn. unfold demo_zone_at. destruct (bool_decide _); [destruct (n <? summer_end)|]; reflexivity.
Defined.
