(* ===== verification/Coordinator.v ===== *)
(** * The metadata coordinator ([src/dashcam/metadata/coordinator.py])

    [ClipMetadataCoordinator.reconcile_clip] over the modelled catalog and filesystem, with the real
    sidecar codec as the catalog's environment. The injected monotonic clock is called at most twice
    and the UUID factory at most once; the readings are arguments of the call, the identifier comes
    from the world's supply. *)

From Stdlib Require Import Ascii String ZArith Lia Strings.Byte.
From stdpp Require Import base list gmap strings.
From S2P Require Import Prelude PyStr Uuid State Naming Intents Models Filesystem.
From S2P Require Import CatalogDb Catalog Reconcile.
From S2P Require Import LocalTime Metadata Sidecar Projection.

(** ** The codec as the catalog's environment *)

Definition metadata_environment `{ZoneDatabase} (uuids : nat -> UUID) (sha256 : bytes -> str) : Environment := {|
  CatalogDb.uuid4 := uuids;
  CatalogDb.ClipSidecar := Metadata.ClipSidecar;
  sc_clip_id := sd_clip_id;
  sc_video_file := sd_video_file;
  sc_metadata_file := sd_metadata_file;
  sc_start_monotonic_ns := sd_start_monotonic_ns;
  sc_end_monotonic_ns := sd_end_monotonic_ns;
  sc_protected := sd_protected;
  sc_protection_reason := sd_protection_reason;
  CatalogDb.parse_sidecar_bytes := Sidecar.parse_sidecar_bytes;
  CatalogDb.to_canonical_json := Sidecar.to_canonical_json;
  sha256_hexdigest := sha256
|}.

Record MetadataCoordinatorLimits := mkLimits {
  lim_max_directory_entries : Z;
  lim_max_pending_intents : Z;
  lim_max_sidecar_bytes : Z
}.

(** The constructor's checks, in the order of its loop. *)
Definition MetadataCoordinatorLimits_new (self : MetadataCoordinatorLimits) : result MetadataCoordinatorLimits :=
  let! _ :=
    validate_all (fun '(name, value, maximum) =>
        raise_if (value <=? 0) || (maximum <? value) as ValueError msg (name ++ " must be between 1 and its maximum")%string ;;
        Ok tt)
      [ ("max_directory_entries"%string, lim_max_directory_entries self, 100000);
        ("max_pending_intents"%string, lim_max_pending_intents self, 1024);
        ("max_sidecar_bytes"%string, lim_max_sidecar_bytes self, MAX_SIDECAR_BYTES) ] in
  Ok self.

Definition DEFAULT_LIMITS : MetadataCoordinatorLimits := mkLimits 4096 64 MAX_SIDECAR_BYTES.

Record MetadataCoordinatorOutcome := mkCoordinatorOutcome {
  co_clip_id : UUID;
  co_intent_id : option UUID;
  co_already_reconciled : bool;
  co_actions_attempted : Z;
  co_video_path : str;
  co_sidecar_path : str
}.

Section coordinator.
Context {F : Type} `{CatalogFilesystem F} `{ZoneDatabase} (uuids : nat -> UUID) (sha256 : bytes -> str).
#[local] Instance coordinator_environment : Environment := metadata_environment uuids sha256.

Definition refused {A} (retryable : bool) (m : string) : M F A := mfail (MetadataReconciliationRefused retryable) m.

Definition refuse_if (b retryable : bool) (m : string) : M F unit := guard b (MetadataReconciliationRefused retryable) m.

(** [_now]: [value] is what the injected clock returned. *)
Definition coordinator_now (value : Z) : M F Z :=
  refuse_if (negb ((0 <=? value) && (value <=? 9223372036854775807))) false "monotonic clock returned an invalid value" ;;;
  mret value.

Definition matching_pending (limits : MetadataCoordinatorLimits) (id : UUID) : M F (option OperationIntent) :=
  let limit := lim_max_pending_intents limits in
  values <- list_pending_intents (limit + 1) ;;
  refuse_if (limit <? Z.of_nat (length values)) true "pending-intent scan cannot prove unique ownership" ;;;
  let matches := List.filter (fun intent => bool_decide (clip_id intent = id)) values in
  refuse_if (1 <? Z.of_nat (length matches)) false "multiple pending intents exist for one clip" ;;;
  mret (head matches).

Definition apply_intent (intent : OperationIntent) (already_reconciled : bool) (clock : Z) : M F MetadataCoordinatorOutcome :=
  now <- coordinator_now clock ;;
  result <- reconcile_intent (intent_id intent) now 2 ;;
  refuse_if (negb (bool_decide (rr_intent result = intent))) false "catalog returned another intent" ;;;
  refuse_if (negb (bool_decide (rr_problems result = [])) || negb (rr_complete result)) (bool_decide (rr_problems result = []))
    ("name reconciliation did not complete: " ++
     (if bool_decide (rr_problems result = []) then "incomplete" else String.concat "," (rr_problems result))) ;;;
  clip <- get_clip (clip_id intent) ;;
  refuse_if (negb (bool_decide (c_clip_id clip = clip_id intent))
             || negb (bool_decide (Some (c_video_path clip) = video_target (paths intent)))
             || negb (bool_decide (Some (c_sidecar_path clip) = sidecar_target (paths intent)))
             || negb (c_pair_reconciled clip))
    false "completed catalog state differs from its intent" ;;;
  mret (mkCoordinatorOutcome (c_clip_id clip) (Some (intent_id intent)) already_reconciled (rr_actions_attempted result)
          (c_video_path clip) (c_sidecar_path clip)).

(** [_catalog.get_clip], an absent clip refused. *)
Definition required_clip (id : UUID) : M F CatalogClip :=
  mtry (get_clip id)
    (fun e => if bool_decide (exn_cls e = ClipNotFoundError) then refused false "clip is absent from the catalog" else mraise e).

(** The source sidecar: a read failure may pass, malformed metadata does not. *)
Definition read_source_sidecar (limits : MetadataCoordinatorLimits) (path : str) : M F Metadata.ClipSidecar :=
  mtry (payload <- f_read_bytes path (lim_max_sidecar_bytes limits) ;; lift (Sidecar.parse_sidecar_bytes payload))
    (fun e => if is_OSError e then refused true "source sidecar could not be read"
              else if is_ValueError e then refused false "source sidecar is not canonical bounded metadata"
              else mraise e).

(** The part of [reconcile_clip] after the identity checks: scan, plan, register, carry out. *)
Definition plan_and_apply (limits : MetadataCoordinatorLimits) (id : UUID) (clip : CatalogClip) (source : Metadata.ClipSidecar)
    (anchor : TimeAnchor) (gps : GpsTimeState) (system : SystemClockState) (clock1 clock2 : Z)
    : M F MetadataCoordinatorOutcome :=
  let directory := path_parent (c_video_path clip) in
  '(listed, _, truncated) <- f_iter_files directory (lim_max_directory_entries limits) ;;
  refuse_if truncated false "directory collision scan exceeded its hard bound" ;;;
  now <- coordinator_now clock1 ;;
  fresh <- new_uuid4 ;;
  plan <- mtry (lift (plan_post_anchor_reconciliation source anchor fresh now (map path_name listed) directory
                        (Some gps) (Some system)))
            (fun e => if bool_decide (exn_cls e = MetadataReconciliationError) then refused false (exn_msg e) else mraise e) ;;
  if pl_already_reconciled plan then
    mret (mkCoordinatorOutcome id None true 0 (c_video_path clip) (c_sidecar_path clip))
  else
    match pl_intent plan with
    | None => mfail AssertionError "plan.intent is not None"
    | Some intent =>
        registered <- mtry (register_name_reconciliation (mkMetadataPlan (pl_sidecar plan) (Some intent)) source now)
          (fun e => if bool_decide (exn_cls e = CatalogConflictError) then refused true (exn_msg e) else mraise e) ;;
        refuse_if (negb (bool_decide (registered = intent_id intent))) false "catalog changed reconciliation intent identity" ;;;
        apply_intent intent false clock2
    end.

Definition reconcile_clip (limits : MetadataCoordinatorLimits) (id : UUID) (anchor : TimeAnchor) (expected_boot_id : UUID)
    (gps : GpsTimeState) (system : SystemClockState) (clock1 clock2 : Z) : M F MetadataCoordinatorOutcome :=
  pending <- matching_pending limits id ;;
  match pending with
  | Some intent =>
      refuse_if (negb (bool_decide (kind intent = RECONCILE_NAME))) true "another clip mutation is already in progress" ;;;
      apply_intent intent false clock2
  | None =>
      clip <- required_clip id ;;
      refuse_if (bool_decide (is_Some (c_download_lease clip))) true "clip has an active download lease" ;;;
      refuse_if (negb (bool_decide (c_lifecycle clip = FINALIZED)) || negb (c_pair_reconciled clip) || negb (c_managed clip))
        (bool_decide (c_lifecycle clip = FINALIZED) && c_managed clip && negb (c_pair_reconciled clip))
        "clip is not a reconciled finalized managed pair" ;;;
      source <- read_source_sidecar limits (c_sidecar_path clip) ;;
      refuse_if (negb (bool_decide (sd_clip_id source = id))
                 || negb (bool_decide (sd_boot_id source = expected_boot_id))
                 || negb (bool_decide (sd_video_file source = path_name (c_video_path clip)))
                 || negb (bool_decide (sd_metadata_file source = path_name (c_sidecar_path clip))))
        false "catalog, boot epoch, and sidecar identity do not agree" ;;;
      plan_and_apply limits id clip source anchor gps system clock1 clock2
  end.
End coordinator.
