(* ===== verification/CoordinatorDemo.v ===== *)
(** * A recording waiting for its name

    One finalized, protected clip of the demo boot with its provisional sidecar on a rooted volume,
    in a catalog whose codec is the modelled one: the instance on which the coordinator's theorems
    are applied. *)

From Stdlib Require Import Ascii String ZArith Lia Strings.Byte.
From stdpp Require Import base list gmap strings.
From S2P Require Import Prelude PyStr DateTime Uuid State Naming Intents Models Filesystem.
From S2P Require Import CatalogDb Catalog Reconcile CatalogProperties.
From S2P Require Import LocalTime Metadata Sidecar MetadataDemo Projection Coordinator.

#[local] Existing Instances demo_zones.

Definition cd_uuids (n : nat) : UUID := mkUUID (N.of_nat n + 1000).

(** A constant digest, of the right form. *)
Definition cd_sha256 (_ : bytes) : str := repeat "a"%char 64.

Definition cd_environment : Environment := metadata_environment cd_uuids cd_sha256.
#[local] Existing Instance cd_environment.

Definition cd_video : str := u "protected/boot-0123456789ab-000007.mp4".
Definition cd_sidecar : str := u "protected/boot-0123456789ab-000007.json".

Definition cd_clip : CatalogClip :=
  mkCatalogClip md_clip FINALIZED cd_video cd_sidecar 100000000000 (Some 160000000000) 100000000000 10
    true (Some (u "button")) true true None None.

Definition cd_files : RootedFilesystem :=
  mkRooted (list_to_map [(cd_video, [x00; x01]); (cd_sidecar, Sidecar.to_canonical_json md_provisional)]) true.

Definition cd_world : World RootedFilesystem := snd (register_clip cd_clip 5 (mkWorld empty_db cd_files 0)).

(** Its row. *)
Definition cd_row : ClipRow :=
  mkClipRow FINALIZED cd_video cd_sidecar 100000000000 (Some 160000000000) 100000000000 10
    true (Some (u "button")) true true None 5 5 0.

Lemma cd_reachable : @catalog_reachable RootedFilesystem _ cd_environment cd_world.
Proof. exact (reach_call _ (CRegister cd_clip 5) (reach_start cd_files 0) I). Qed.

(** What the coordinator plans for it. *)
Definition cd_plan : result ReconciliationPlanOf :=
  plan_post_anchor_reconciliation md_provisional md_anchor (cd_uuids 0) 6 (map path_name [cd_sidecar; cd_video])
    (u "protected") (Some GPS_TIME_VALID) (Some UNSET).

Definition cd_target : Metadata.ClipSidecar := match cd_plan with Ok p => pl_sidecar p | Err _ => md_provisional end.

Definition cd_intent : OperationIntent :=
  mkIntent (cd_uuids 0) md_clip RECONCILE_NAME 6
    (mkPaths cd_video cd_sidecar (Some (in_directory (u "protected") (sd_video_file cd_target)))
       (Some (in_directory (u "protected") (sd_metadata_file cd_target)))) Intents.SCHEMA_VERSION.

Lemma cd_planned : cd_plan = Ok (mkPlanOf cd_target (Some cd_intent) false).
Proof. vm_compute. reflexivity. Qed.

(** The rename was registered, and interrupted after the video was moved. *)
Definition cd_registered : World RootedFilesystem :=
  snd (register_name_reconciliation (mkMetadataPlan cd_target (Some cd_intent)) md_provisional 6 cd_world).

Definition cd_interrupted : World RootedFilesystem :=
  set_fs (mkRooted (list_to_map
    [ (in_directory (u "protected") (sd_video_file cd_target), [x00; x01]);
      (cd_sidecar, Sidecar.to_canonical_json md_provisional) ]) true) cd_registered.

Lemma cd_interrupted_reachable : @catalog_reachable RootedFilesystem _ cd_environment cd_interrupted.
Proof.
  apply reach_files.
  refine (@reach_call RootedFilesystem _ cd_environment cd_world (CRegisterName (H0 := cd_environment) (mkMetadataPlan cd_target (Some cd_intent)) md_provisional 6) cd_reachable _).
  intros i [= <-]. split; vm_compute; reflexivity.
Qed.
