(* ===== verification/NameConvergence.v ===== *)
(** * Convergence of name reconciliation

    On the rooted filesystem, one call of [reconcile_intent] completes a pending name
    reconciliation from any state an interrupted earlier attempt can leave: the new sidecar text
    not yet installed, installed but nothing moved, or either file already at its target. *)

From Stdlib Require Import Ascii String ZArith Lia Strings.Byte.
From stdpp Require Import base list gmap strings sorting.
From S2P Require Import Prelude PyStr Uuid State Naming Intents Models Filesystem.
From S2P Require Import LocalTime Metadata Sidecar SidecarProperties MetadataDemo Projection Coordinator.
From S2P Require Import CatalogDb Catalog Reconcile ManagedPath CatalogInv CatalogSafe.
From S2P Require Import ReconcileSafe CatalogProperties Convergence.
From S2P Require Import CoordinatorDemo.

Section rooted.
Context `{Environment}.
Implicit Types (w : World RootedFilesystem) (m : gmap str bytes).

Lemma read_run m w p n d :
  usable p -> m !! p = Some d -> 0 < n -> blen d <= n ->
  f_read_bytes p n (with_files m w) = (Ok d, with_files m w).
Proof.
  intros Hp Hd Hn Hl. unfold f_read_bytes. simpl. unfold rooted_read_bytes, positive_bound.
  replace (n <=? 0) with false by lia. cbn [result_bind].
  rewrite resolve_usable by done. simpl. rewrite Hd.
  by replace (n <? blen d) with false by lia.
Qed.

Lemma replace_run m w p d payload n :
  usable p -> m !! p = Some d -> payload <> [] -> blen payload <= n ->
  f_replace_bytes_atomic p payload n (with_files m w) = (Ok tt, with_files (<[p := payload]> m) w).
Proof.
  intros Hp Hd Hne Hl. unfold f_replace_bytes_atomic. simpl. unfold rooted_replace_bytes_atomic, positive_bound.
  assert (0 < blen payload) by (unfold blen; destruct payload; cbn [length]; [done|lia]).
  replace (n <=? 0) with false by lia. cbn [result_bind].
  rewrite resolve_usable by done. rewrite (bool_decide_false (payload = [])) by done.
  replace (n <? blen payload) with false by lia. simpl. by rewrite Hd.
Qed.

(** The text at the source that the intent may replace: its own new text, or the registered one. *)
Definition replaceable (i : OperationIntent) (payload : bytes) (hash : str) (d : bytes) : Prop :=
  blen d <= Catalog.MAX_SIDECAR_BYTES /\
  (d = payload \/
   sha256_hexdigest d = hash /\
   exists s, parse_sidecar_bytes d = Ok s /\
     sidecar_identifies s (clip_id i) (video_source (paths i)) (sidecar_source (paths i)) = true).

(** The sidecar of an interrupted reconciliation. *)
Definition resumable (i : OperationIntent) (m : gmap str bytes) (payload : bytes) (hash : str) (s s' : str) : Prop :=
  (exists d, m !! s = Some d /\ m !! s' = None /\ replaceable i payload hash d) \/
  (m !! s = None /\ m !! s' = Some payload).

(** The new text in place of the sidecar at the source, if it is still there. *)
Definition installed (m : gmap str bytes) (s : str) (payload : bytes) : gmap str bytes :=
  match m !! s with Some _ => <[s := payload]> m | None => m end.

Section one_reconciliation.
Context (i : OperationIntent) (row : IntentRow) (w : World RootedFilesystem).
Context (payload : bytes) (hash : str) (target : ClipSidecar) (v s v' s' : str).
Hypothesis Hdata : recovery_data row = Some (payload, hash).
Hypothesis Htarget : parse_sidecar_bytes payload = Ok target.
Hypothesis Hv : video_source (paths i) = v.
Hypothesis Hs : sidecar_source (paths i) = s.
Hypothesis Hv' : video_target (paths i) = Some v'.
Hypothesis Hs' : sidecar_target (paths i) = Some s'.
Hypothesis Hident : sidecar_identifies target (clip_id i) v' s' = true.
Hypothesis Huse : usable v /\ usable s /\ usable v' /\ usable s'.

Lemma payload_bounds : payload <> [] /\ blen payload <= Catalog.MAX_SIDECAR_BYTES.
Proof.
  revert Hdata. unfold recovery_data. destruct (i_sidecar row) as [p|], (i_source_sha256 row) as [h|]; try done.
  case_match eqn:E; [done|]. intros [= -> ->]. bool_prop. split; [done|lia].
Qed.

Lemma installed_same m : m !! s = Some payload -> installed m s payload = m.
Proof. intros E. unfold installed. rewrite E. by apply insert_id. Qed.

(** The sidecar at the source becomes the new text, whatever of the two it was. *)
Lemma install_run m d :
  m !! s = Some d -> replaceable i payload hash d ->
  install_target_sidecar i payload hash (with_files m w) = (Ok None, with_files (installed m s payload) w).
Proof.
  intros Hd (Hlen & Hcase). destruct Huse as (_ & Us & _). destruct payload_bounds as [Hne Hp].
  unfold install_target_sidecar. rewrite Hs.
  erewrite mbind_run by (by apply read_run).
  case_bool_decide as E.
  { subst d. by rewrite installed_same. }
  destruct Hcase as [?|(Hh & sc & Hparse & Hid)]; [done|]. rewrite Hv, Hs in Hid. rewrite Hv.
  rewrite bool_decide_true by done. simpl.
  erewrite mbind_run by (unfold lift; rewrite Hparse; reflexivity). rewrite Hid. simpl.
  erewrite mbind_run by (by eapply replace_run).
  erewrite mbind_run by (apply read_run; [done|apply lookup_insert_eq|done|done]).
  rewrite bool_decide_true by done. unfold installed. by rewrite Hd.
Qed.

Lemma prepare_run m :
  resumable i m payload hash s s' ->
  prepare_name_reconciliation_sidecar i row (with_files m w)
  = (Ok None, with_files (installed m s payload) w).
Proof.
  intros Hres. destruct Huse as (_ & Us & _ & Us'). destruct payload_bounds as [Hne Hp].
  unfold prepare_name_reconciliation_sidecar. rewrite Hdata. unfold or_problem, mtry.
  match goal with |- match ?x with _ => _ end = _ =>
    assert (x = (Ok None, with_files (installed m s payload) w)) as -> end; [|done].
  erewrite mbind_run by (unfold lift; rewrite Htarget; reflexivity).
  rewrite Hv', Hs', Hs. simpl. rewrite Hident. simpl.
  erewrite mbind_run by (by apply exists_run).
  destruct Hres as [(d & Hd & _ & Hrep)|[Hd Hd']].
  - rewrite (present_true _ _ _ Hd). by eapply install_run.
  - rewrite (absent _ _ Hd). erewrite mbind_run by (by apply exists_run).
    rewrite (present_true _ _ _ Hd'). erewrite mbind_run by (by apply read_run).
    rewrite bool_decide_true by done. unfold installed. by rewrite Hd.
Qed.

Lemma present_installed m q : present (installed m s payload) q = present m q.
Proof.
  unfold installed, present. destruct (m !! s) eqn:E; [|done]. apply bool_decide_ext.
  destruct (decide (q = s)) as [->|]; [rewrite lookup_insert_eq, E; split; by eexists|by rewrite lookup_insert_ne].
Qed.

Lemma at_one_end_installed m a b d :
  a <> s -> b <> s -> at_one_end m a b d -> at_one_end (installed m s payload) a b d.
Proof.
  intros Ha Hb Hm. unfold installed. destruct (m !! s); [|done].
  unfold at_one_end. by rewrite !lookup_insert_ne by done.
Qed.

Lemma resumable_installed m :
  s <> s' -> resumable i m payload hash s s' -> at_one_end (installed m s payload) s s' payload.
Proof.
  intros Hne [(d & Hd & Hd' & _)|[Hd Hd']]; unfold installed; rewrite Hd.
  - left. by rewrite lookup_insert_eq, lookup_insert_ne.
  - by right.
Qed.

Lemma move_plan_installed m : move_plan i v s v' s' (installed m s payload) = move_plan i v s v' s' m.
Proof. unfold move_plan, observed. by rewrite !present_installed. Qed.
End one_reconciliation.

(** The row of a clip whose rename is complete. *)
Definition renamed_row (now : Z) (v' s' : str) (c : ClipRow) : ClipRow :=
  with_updated now (with_lifecycle FINALIZED (with_reconciled true (with_paths v' s' c))).

Lemma renamed_checks now v' s' c :
  clip_checks c = true -> clip_checks (renamed_row now v' s' c) = true.
Proof. done. Qed.

(** The rename is recorded, and no compensating move is queued. *)
Lemma complete_rename_run i row v' s' now w c :
  kind i ∈ [FINALIZE; RECONCILE_NAME] -> video_target (paths i) = Some v' -> sidecar_target (paths i) = Some s' ->
  intents (w_db w) !! intent_id i = Some row -> clips (w_db w) !! clip_id i = Some c ->
  clip_checks c = true ->
  (r_protected c = true -> path_parent v' = u "protected") ->
  exists w1, complete_intent_locked i now w = (Ok tt, w1) /\ w_fs w1 = w_fs w /\
    clips (w_db w1) = <[clip_id i := renamed_row now v' s' c]> (clips (w_db w)) /\
    intents (w_db w1) !! intent_id i = Some (with_complete now row).
Proof.
  intros Hk Hvt Hst Hi Hc Hchk Hprot. unfold complete_intent_locked. rewrite Hvt, Hst.
  set (w2 := set_db (set_clips (fun cs => <[clip_id i := renamed_row now v' s' c]> cs) (w_db w)) w).
  destruct (mark_complete_run i row now w2 Hi) as (w1 & Hm & Hi1 & Hc1 & Hf1).
  exists w1. split; [|by rewrite Hf1, Hc1].
  transitivity ((video <- the (Some v') ;; sidecar <- the (Some s') ;; complete_rename_locked i video sidecar now) w).
  { rewrite !elem_of_cons, elem_of_nil in Hk. by destruct Hk as [->|[->|[]]]. }
  erewrite mbind_run by reflexivity. erewrite mbind_run by reflexivity. unfold complete_rename_locked.
  erewrite mbind_run by (unfold required_clip_row, mbind, query; rewrite Hc; reflexivity). cbv zeta.
  assert (r_protected c && negb (bool_decide (path_parent v' = u "protected")) = false) as ->.
  { destruct (r_protected c); [|done]. by rewrite bool_decide_true by auto. }
  erewrite mbind_run by exact (update_clip_run _ _ w c Hc (renamed_checks now v' s' c Hchk)).
  erewrite mbind_run by exact Hm. done.
Qed.

(** From a well-formed catalog. *)
Lemma name_reconciliation_run w id row now n c v' s' payload hash target dv :
  db_ok (w_db w) -> rf_bound (w_fs w) = true ->
  intents (w_db w) !! id = Some row -> i_complete row = false -> kind (i_intent row) = RECONCILE_NAME ->
  clips (w_db w) !! clip_id (i_intent row) = Some c ->
  (r_protected c = true -> path_parent v' = u "protected") ->
  video_target (paths (i_intent row)) = Some v' -> sidecar_target (paths (i_intent row)) = Some s' ->
  recovery_data row = Some (payload, hash) ->
  parse_sidecar_bytes payload = Ok target ->
  sidecar_identifies target (clip_id (i_intent row)) v' s' = true ->
  NoDup [r_video_path c; v'; r_sidecar_path c; s'] ->
  at_one_end (rf_files (w_fs w)) (r_video_path c) v' dv ->
  resumable (i_intent row) (rf_files (w_fs w)) payload hash (r_sidecar_path c) s' ->
  0 <= now -> 2 <= n ->
  exists res w',
    reconcile_intent id now n w = (Ok res, w') /\
    rr_intent res = i_intent row /\ rr_complete res = true /\ rr_problems res = [] /\
    (forall q, rf_files (w_fs w') !! q =
       if decide (q = s') then Some payload else if decide (q = r_sidecar_path c) then None
       else if decide (q = v') then Some dv else if decide (q = r_video_path c) then None
       else rf_files (w_fs w) !! q) /\
    clips (w_db w') = <[clip_id (i_intent row) := renamed_row now v' s' c]> (clips (w_db w)) /\
    intents (w_db w') !! id = Some (with_complete now row).
Proof.
  intros Hok Hb Hi Hinc Hk Hc Hprot Hvt Hst Hdata Htarget Hident Hnd H1 Hres Hnow Hn.
  destruct (w_fs w) as [m bound] eqn:Ef. simpl in Hb, H1, Hres. subst bound.
  destruct (ok_intents _ Hok _ _ Hi) as (Hid & _ & c0 & Hc0 & Hrow). specialize (Hrow Hinc).
  simplify_eq. pose proof Hrow as (_ & Ev & Es & Hkind). destruct (ok_rows _ Hok _ _ Hc) as (Hchk & _ & _).
  pose proof (pending_paths_usable _ _ _ Hok Hi Hinc) as Hus. destruct (Hus) as (Uv & Us & Ut).
  assert (Huse : usable (r_video_path c) /\ usable (r_sidecar_path c) /\ usable v' /\ usable s')
    by (split_and!; [by rewrite <-Ev|by rewrite <-Es|by apply Ut; left|by apply Ut; right]).
  assert (Ew : w = with_files m w) by (unfold with_files, set_fs; destruct w; simpl in *; by subst).
  assert (Hk' : kind (i_intent row) <> DELETE) by congruence.
  set (v := r_video_path c) in *. set (s := r_sidecar_path c) in *. set (i := i_intent row) in *.
  set (m1 := installed m s payload).
  pose proof Hnd as Hd. rewrite !NoDup_cons, !elem_of_cons in Hd.
  assert (H2 : at_one_end m1 s s' payload) by (eapply resumable_installed; [naive_solver|exact Hres]).
  assert (H1' : at_one_end m1 v v' dv) by (apply at_one_end_installed; naive_solver).
  destruct (move_actions_run i w v s v' s' dv payload n Hk' Ev Es Hvt Hst Hn Huse Hnd m1 H1' H2) as [Hprob Hrun].
  destruct (moved_plan_complete i v s v' s' dv payload Hk' Ev Es Hvt Hst Huse Hnd m1 H1' H2) as [Hcomp Hcodes].
  unfold m1 in Hprob, Hrun. rewrite move_plan_installed in Hprob, Hrun. fold m1 in Hrun.
  set (m2 := relocated (relocated m1 v v') s s') in *.
  destruct (complete_rename_run i row v' s' now (with_files m2 w) c)
    as (w4 & Hw4 & Hf4 & Hc4 & Hi4); [rewrite Hk; by right; left|exact Hvt|exact Hst|exact Hi|exact Hc|exact Hchk|exact Hprot|].
  assert (Hval : validate_before_actions i row w = (Ok None, with_files m1 w)).
  { unfold validate_before_actions. rewrite Hk. etransitivity; [exact (f_equal _ Ew)|]. by eapply prepare_run. }
  eexists _, w4. split.
  - eapply reconcile_run; [done|lia|done|exact Hi|done|exact Ef|reflexivity|..];
      fold i; rewrite Ev, Es, Hvt, Hst; [exact Hprob|].
    unfold carry_out. erewrite mbind_run by exact Hval.
    cbv iota beta zeta. erewrite mbind_run by (unfold confirm_absent; rewrite Hk; reflexivity).
    erewrite mbind_run by exact Hrun. erewrite mbind_run by (apply observe_run; exact Hus).
    rewrite Ev, Es, Hvt, Hst. unfold move_plan in Hcomp. rewrite Hcomp.
    erewrite mbind_run by exact Hw4. reflexivity.
  - split_and!; [done|done|exact Hcodes| |exact Hc4|exact Hi4].
    intros q. rewrite Hf4. simpl. unfold m2.
    rewrite (relocated_lookup _ _ _ payload); [|naive_solver|by eapply at_one_end_relocated].
    rewrite (relocated_lookup _ _ _ dv) by (try done; naive_solver).
    repeat (case_decide; [done|]). unfold m1, installed. destruct (m !! s); [|done].
    by rewrite lookup_insert_ne.
Qed.

End rooted.

(** ** An interrupted rename of the demo recording *)

#[local] Existing Instances demo_zones cd_environment.

