(* ===== verification/CoordinatorProperties.v ===== *)
(** * What the metadata coordinator guarantees

    Whatever [reconcile_clip] returns, the catalog stays well-formed; a success leaves the clip
    reconciled at the reported paths with no work pending. *)

From Stdlib Require Import Ascii String ZArith Lia Strings.Byte.
From stdpp Require Import base list gmap strings sorting.
From S2P Require Import Prelude PyStr Uuid State Naming Intents Models Filesystem.
From S2P Require Import CatalogDb Catalog Reconcile ManagedPath CatalogInv CatalogSafe.
From S2P Require Import ReconcileSafe CatalogProperties Convergence NameConvergence.
From S2P Require Import LocalTime Metadata Sidecar MetadataDemo Projection Coordinator CoordinatorDemo.

Section plan.
Context `{ZoneDatabase}.

Lemma reconciliation_intent_constructed s r fresh now directory i :
  reconciliation_intent s r fresh now directory = Ok i -> constructed i.
Proof.
  unfold reconciliation_intent. intros Hi. inv_ok.
  pose proof Hb as Hp. apply PairPaths_new_ok in Hp as (-> & _).
  pose proof Hi as Hn. apply OperationIntent_new_ok in Hn as (-> & _). by split.
Qed.

(** The intent of a plan, taken apart. *)
Lemma plan_inv s a fresh now existing directory gps sys plan :
  plan_post_anchor_reconciliation s a fresh now existing directory gps sys = Ok plan ->
  directory ∈ [u "clips"; u "protected"] /\ 0 <= now /\
  match project_anchored s a existing gps sys with
  | Ok None => plan = mkPlanOf s None true
  | Ok (Some r) => exists i, plan = mkPlanOf r (Some i) false /\
      reconciliation_intent s r fresh now directory = Ok i
  | Err _ => False
  end.
Proof.
  unfold plan_post_anchor_reconciliation. intros Hp. inv_ok. bool_prop. split; [done|]. split; [lia|].
  destruct (project_anchored s a existing gps sys) as [[r|]|] eqn:E; inv_ok.
  - destruct (reconciliation_intent s r fresh now directory) as [i|e] eqn:Ei.
    + exists i. unfold plan_new in Hp. inv_ok. simpl in Hp. inv_ok. by split.
    + unfold refuse in Hp. by destruct (_ || _).
  - unfold plan_new in Hp. inv_ok. simpl in Hp. by inv_ok.
Qed.
End plan.

Section coordinator.
Context {F : Type} `{CatalogFilesystem F} `{ZoneDatabase} (uuids : nat -> UUID) (sha256 : bytes -> str).

Lemma keeps_matching_pending limits id : keeps (F := F) (matching_pending limits id).
Proof. unfold matching_pending, list_pending_intents, refuse_if. repeat keeps_step. Qed.

Lemma keeps_required_clip id : keeps (F := F) (required_clip id).
Proof. unfold required_clip, refused, get_clip, required_clip_row. repeat keeps_step. Qed.

Lemma keeps_read_source limits p : keeps (F := F) (read_source_sidecar limits p).
Proof. unfold read_source_sidecar, refused. repeat keeps_step. Qed.

Lemma keeps_apply_intent i already t : keeps (F := F) (apply_intent uuids sha256 i already t).
Proof.
  unfold apply_intent, coordinator_now, refuse_if, get_clip, required_clip_row.
  repeat first [apply keeps_reconcile_intent | keeps_step].
Qed.

(** A call that can only be refused in another way. *)
Lemma keeps_try_lift {A B} (r : result A) (h : exn -> M F A) (k : A -> M F B) :
  (forall e w a w', h e w <> (Ok a, w')) -> (forall e, keeps (h e)) ->
  (forall a, r = Ok a -> keeps (k a)) -> keeps (mbind (mtry (lift r) h) k).
Proof.
  intros Hn Hh Hk. destruct r as [a|e].
  - exact (Hk a eq_refl).
  - intros w Hw. specialize (Hh e w Hw). specialize (Hn e w). unfold mbind, mtry, lift.
    destruct (h e w) as [[a|e'] w']; simpl in *; [by destruct (Hn a w')|done].
Qed.

Lemma keeps_plan_and_apply limits id clip source a gps sys t1 t2 :
  keeps (F := F) (plan_and_apply uuids sha256 limits id clip source a gps sys t1 t2).
Proof.
  unfold plan_and_apply, coordinator_now, refuse_if. apply keeps_bind; [repeat keeps_step|intros [[listed examined] truncated]].
  do 2 (apply keeps_bind; [repeat keeps_step|intros ?]). apply keeps_bind; [repeat keeps_step|intros fresh].
  apply keeps_try_lift.
  - intros e w x w'. unfold refused. by destruct (bool_decide _).
  - intros e. unfold refused. repeat keeps_step.
  - intros plan Hp. apply plan_inv in Hp as (_ & _ & Hp).
    destruct (project_anchored _ _ _ _ _) as [[r|]|]; [|subst plan; apply keeps_mret|done].
    destruct Hp as (i & -> & Hi%reconciliation_intent_constructed). simpl.
    apply keeps_bind; [|intros ?; apply keeps_bind; [repeat keeps_step|intros ?; apply keeps_apply_intent]].
    unfold refused. apply keeps_mtry; [|intros; repeat keeps_step].
    apply keeps_register_name_reconciliation. by intros ? [= <-].
Qed.

Lemma keeps_reconcile_clip limits id a boot gps sys t1 t2 :
  keeps (F := F) (reconcile_clip uuids sha256 limits id a boot gps sys t1 t2).
Proof.
  unfold reconcile_clip. apply keeps_bind; [apply keeps_matching_pending|intros [i|]].
  - apply keeps_bind; [unfold refuse_if; repeat keeps_step|intros ?; apply keeps_apply_intent].
  - apply keeps_bind; [apply keeps_required_clip|intros clip].
    do 2 (apply keeps_bind; [unfold refuse_if; repeat keeps_step|intros ?]).
    apply keeps_bind; [apply keeps_read_source|intros source].
    apply keeps_bind; [unfold refuse_if; repeat keeps_step|intros ?; apply keeps_plan_and_apply].
Qed.

(** ** What a success means *)

Lemma mtry_ok {A} (m : M F A) h w a w' :
  (forall e w1 b w2, h e w1 <> (Ok b, w2)) -> mtry m h w = (Ok a, w') -> m w = (Ok a, w').
Proof.
  intros Hh. unfold mtry. destruct (m w) as [[x|e] w1]; [done|]. intros E. by destruct (Hh e w1 a w').
Qed.

Lemma get_clip_ok id w c w' :
  get_clip (F := F) id w = (Ok c, w') ->
  w' = w /\ exists r, clips (w_db w) !! id = Some r /\ c_clip_id c = id /\ c_lifecycle c = r_lifecycle r /\
    c_video_path c = r_video_path r /\ c_sidecar_path c = r_sidecar_path r /\ c_pair_reconciled c = r_reconciled r.
Proof.
  unfold get_clip. intros Hm. inv_cat. split; [done|]. eexists. split; [exact Hc|].
  unfold clip_from_row in Hl. inv_ok. by split_and!.
Qed.

Lemma iter_world directory limit w a w' :
  f_iter_files (F := F) directory limit w = (Ok a, w') -> fs_iter_files (w_fs w) directory limit = Ok a /\ w' = w.
Proof. unfold f_iter_files. by intros [= -> ->]. Qed.

Lemma required_clip_ok id w c w' : required_clip (F := F) id w = (Ok c, w') -> get_clip id w = (Ok c, w').
Proof.
  unfold required_clip, refused. apply mtry_ok. intros e w1 b w2. by destruct (bool_decide _).
Qed.

Lemma read_source_ok limits p w s w' :
  read_source_sidecar (F := F) limits p w = (Ok s, w') ->
  w' = w /\ exists d, fs_read_bytes (w_fs w) p (lim_max_sidecar_bytes limits) = Ok d /\ parse_sidecar_bytes d = Ok s.
Proof.
  unfold read_source_sidecar, refused. intros Hm.
  apply mtry_ok in Hm; [|intros e w1 b w2; by destruct (is_OSError e), (is_ValueError e)].
  apply mbind_ok in Hm as (d & ? & Hd & [Hp ->]%lift_ok). unfold f_read_bytes in Hd. injection Hd as Hd <-.
  split; [done|]. by exists d.
Qed.

(** A reconciled clip has no work pending. *)
Lemma reconciled_idle d id c : db_ok d -> clips d !! id = Some c -> r_reconciled c = true -> pending_of d id = None.
Proof.
  intros Hok Hc Hr. destruct (pending_of d id) as [[i row]|] eqn:E; [|done].
  apply pending_of_Some in E as (Hi & Hinc & Hid).
  destruct (ok_intents _ Hok _ _ Hi) as (_ & _ & c' & Hc' & Hp). rewrite Hid in Hc'. simplify_eq.
  destruct (Hp Hinc) as (Hr' & _). congruence.
Qed.

Lemma matching_pending_ok limits id w r w' :
  matching_pending (F := F) limits id w = (Ok r, w') -> w' = w /\ forall i, r = Some i -> clip_id i = id.
Proof.
  unfold matching_pending, list_pending_intents, refuse_if. intros Hm. inv_M. split; [done|].
  intros i Hi. assert (In i (List.filter (fun intent => bool_decide (clip_id intent = id)) v)) as Hin.
  { destruct (List.filter _ v); simplify_eq/=. by left. }
  apply filter_In in Hin as [_ Hin]. by bool_prop.
Qed.

(** Where an applied intent leaves its clip. *)
Definition settled (id : UUID) (o : MetadataCoordinatorOutcome) (w : World F) : Prop :=
  co_clip_id o = id /\ exists c, clips (w_db w) !! id = Some c /\ r_reconciled c = true /\
    co_video_path o = r_video_path c /\ co_sidecar_path o = r_sidecar_path c.

Lemma apply_intent_ok i already t w o w' :
  apply_intent (F := F) uuids sha256 i already t w = (Ok o, w') ->
  settled (clip_id i) o w' /\ co_already_reconciled o = already /\ co_intent_id o = Some (intent_id i) /\
  video_target (paths i) = Some (co_video_path o) /\ sidecar_target (paths i) = Some (co_sidecar_path o).
Proof.
  unfold apply_intent, coordinator_now, refuse_if. intros Hm. inv_M.
  match goal with Hg : get_clip _ _ = (Ok _, _) |- _ => apply get_clip_ok in Hg as (-> & r & Hc & Hid & _ & Hv & Hs & Hr) end.
  bool_prop. unfold settled. cbn. split; [|split_and!; congruence].
  split; [done|]. exists r. split_and!; congruence.
Qed.

Lemma plan_and_apply_ok limits id clip source a gps sys t1 t2 w o w' :
  sd_clip_id source = id ->
  plan_and_apply (F := F) uuids sha256 limits id clip source a gps sys t1 t2 w = (Ok o, w') ->
  settled id o w' /\ co_already_reconciled o = false \/
  w_db w' = w_db w /\ w_fs w' = w_fs w /\ (exists existing, project_anchored source a existing (Some gps) (Some sys) = Ok None) /\
  o = mkCoordinatorOutcome id None true 0 (c_video_path clip) (c_sidecar_path clip).
Proof.
  intros <-. unfold plan_and_apply, coordinator_now, refuse_if. intros Hm.
  apply mbind_ok in Hm as ([[listed examined] truncated] & ? & [_ ->]%iter_world & Hm).
  apply mbind_ok in Hm as ([] & ? & [_ ->]%guard_ok & Hm).
  apply mbind_ok in Hm as (now & ? & Hn & Hm).
  apply mbind_ok in Hn as ([] & ? & [_ ->]%guard_ok & [_ ->]%mret_ok).
  apply mbind_ok in Hm as (fresh & w1 & Hf & Hm). unfold new_uuid4 in Hf. injection Hf as Hf <-.
  apply mbind_ok in Hm as (plan & ? & Hp & Hm).
  apply mtry_ok in Hp; [|intros e ? ? ?; unfold refused; by destruct (bool_decide _)].
  apply lift_ok in Hp as [Hp ->]. apply plan_inv in Hp as (_ & _ & Hp).
  destruct (project_anchored _ _ _ _ _) as [[r|]|] eqn:Er; [| |done].
  - destruct Hp as (i & -> & Hi). simpl in Hm. left.
    do 2 (apply mbind_ok in Hm as (? & ? & _ & Hm)).
    apply apply_intent_ok in Hm as (Hset & Halready & _). unfold reconciliation_intent in Hi. inv_ok.
    apply OperationIntent_new_ok in Hi as (-> & _). by split.
  - subst plan. simpl in Hm. apply mret_ok in Hm as [-> ->]. right. split_and!; [done..| |done]. by eexists.
Qed.

Lemma project_anchored_None s a existing gps sys :
  project_anchored s a existing gps sys = Ok None ->
  exists name, parse_clip_filename (sd_video_file s) = Ok name /\ provisional name = false.
Proof.
  unfold project_anchored. intros Hp. apply result_bind_ok in Hp as (name & Hn & Hp).
  exists name. destruct (parse_clip_filename (sd_video_file s)) as [x|e]; simpl in Hn.
  - injection Hn as ->. split; [done|]. inv_ok. destruct (provisional name); [|done].
    repeat first [progress inv_ok | progress case_match]; unfold refuse in *; by simplify_eq/=.
  - by destruct (bool_decide _).
Qed.

(** C17: whatever [reconcile_clip] returns, the catalog stays well-formed; when it succeeds, the clip
    is recorded at the reported paths, reconciled and with no operation pending; when it reports that
    the clip was already reconciled, the catalog and the files are as they were and the sidecar's
    name is not provisional. *)
Theorem reconcile_clip_outcome limits id a boot gps sys t1 t2 w r w' :
  @catalog_reachable F _ (metadata_environment uuids sha256) w -> reconcile_clip (F := F) uuids sha256 limits id a boot gps sys t1 t2 w = (r, w') ->
  db_ok (w_db w') /\
  forall o, r = Ok o ->
    settled id o w' /\ pending_of (w_db w') id = None /\
    (co_already_reconciled o = true ->
       w_db w' = w_db w /\ w_fs w' = w_fs w /\ co_intent_id o = None /\
       exists source name, sd_clip_id source = id /\ sd_video_file source = path_name (co_video_path o) /\
         parse_clip_filename (sd_video_file source) = Ok name /\ provisional name = false).
Proof.
  intros Hok%reachable_ok Hm. assert (Hok' : db_ok (w_db w')).
  { pose proof (keeps_reconcile_clip limits id a boot gps sys t1 t2 w Hok) as Hk. by rewrite Hm in Hk. }
  split; [exact Hok'|]. intros o ->.
  assert (settled id o w' /\ (co_already_reconciled o = true -> w_db w' = w_db w /\ w_fs w' = w_fs w /\ co_intent_id o = None /\
      exists source existing, sd_clip_id source = id /\ sd_video_file source = path_name (co_video_path o) /\
        project_anchored source a existing (Some gps) (Some sys) = Ok None)) as [Hset Hnone].
  2: { split_and!; [exact Hset| |].
    - destruct Hset as (_ & c & Hc & Hr & _). by eapply reconciled_idle.
    - intros Ha. destruct (Hnone Ha) as (? & ? & ? & source & existing & ? & ? & (name & ? & ?)%project_anchored_None).
      split_and!; [done..|]. by exists source, name. }
  unfold reconcile_clip, refuse_if in Hm. apply mbind_ok in Hm as (pending & ? & [-> Hp]%matching_pending_ok & Hm).
  destruct pending as [i|].
  - apply mbind_ok in Hm as ([] & ? & [_ ->]%guard_ok & Hm). rewrite <-(Hp i eq_refl).
    by apply apply_intent_ok in Hm as (Hset & -> & _).
  - apply mbind_ok in Hm as (clip & ? & Hclip & Hm).
    apply required_clip_ok, get_clip_ok in Hclip as (-> & c & Hc & Hid & _ & Hv & Hs & Hr).
    do 2 (apply mbind_ok in Hm as ([] & ? & [? ->]%guard_ok & Hm)).
    apply mbind_ok in Hm as (source & ? & [-> _]%read_source_ok & Hm).
    apply mbind_ok in Hm as ([] & ? & [Hg ->]%guard_ok & Hm). bool_prop.
    apply plan_and_apply_ok in Hm as [[Hset Ha]|(Hdb & Hfs & (existing & Hnone) & ->)]; [| |done].
    + split; [done|congruence].
    + split.
      * split; [done|]. exists c. split_and!; cbn; congruence.
      * intros _. split_and!; [done..|]. exists source, existing. done.
Qed.

End coordinator.

(** ** The demo recording *)

#[local] Existing Instances demo_zones.

Definition cd_result : result MetadataCoordinatorOutcome * World RootedFilesystem :=
  reconcile_clip cd_uuids cd_sha256 DEFAULT_LIMITS md_clip md_anchor md_boot GPS_TIME_VALID UNSET 6 7 cd_world.

Lemma reconcile_clip_outcome_witness :
  exists o, fst cd_result = Ok o /\ settled md_clip o (snd cd_result) /\ pending_of (w_db (snd cd_result)) md_clip = None.
Proof.
  destruct (fst cd_result) as [o|e] eqn:E; [|vm_compute in E; discriminate E].
  exists o. split; [reflexivity|].
  destruct (reconcile_clip_outcome cd_uuids cd_sha256 DEFAULT_LIMITS md_clip md_anchor md_boot GPS_TIME_VALID UNSET 6 7
    cd_world (Ok o) (snd cd_result) cd_reachable) as [_ Hok].
  - rewrite <-E. apply surjective_pairing.
  - destruct (Hok o eq_refl) as (Hset & Hp & _). split; [exact Hset|exact Hp].
Defined.
