(* ===== verification/CoordinatorRename.v ===== *)
(** * A provisional clip gets its name

    [reconcile_clip] from start to end on the rooted filesystem: the sidecar is read and projected,
    the plan registered, the new text installed and both files renamed. *)

From Stdlib Require Import Ascii String ZArith Lia Strings.Byte.
From stdpp Require Import base list gmap strings sorting.
From S2P Require Import Prelude PyStr DateTime Uuid State Naming Intents Models Filesystem.
From S2P Require Import CatalogDb Catalog Reconcile ManagedPath CatalogInv CatalogSafe.
From S2P Require Import ReconcileSafe CatalogProperties Convergence NameConvergence Reclaimer.
From S2P Require Import LocalTime Metadata Sidecar SidecarProperties SidecarClaims Projection ProjectionProperties.
From S2P Require Import MetadataDemo Coordinator CoordinatorDemo CoordinatorProperties.

(** ** The names of a projection *)

Section names.
Context `{ZoneLaws}.

(** Both new names share one stem, valid and free, and keep the clip's boot and sequence. *)
Record renames (s r : ClipSidecar) (existing : list str) (sn tn : ParsedClipName) (stem : str) : Prop := mkRenames {
  rn_video : sd_video_file r = stem ++ u ".mp4";
  rn_metadata : sd_metadata_file r = stem ++ u ".json";
  rn_video_valid : validate_filename_component (stem ++ u ".mp4") = Ok (stem ++ u ".mp4");
  rn_metadata_valid : validate_filename_component (stem ++ u ".json") = Ok (stem ++ u ".json");
  rn_free : collision_free stem existing;
  rn_source : parse_clip_filename (sd_video_file s) = Ok sn;
  rn_target : parse_clip_filename (sd_video_file r) = Ok tn;
  rn_provisional : provisional sn = true /\ provisional tn = false /\ partial tn = false;
  rn_same : boot_id sn = boot_id tn /\ sequence sn = sequence tn
}.

Lemma projection_renames s a existing gps sys r su :
  built s -> TimeAnchor_new a = Ok a -> project_anchored s a existing gps sys = Ok (Some r) ->
  sd_start_utc r = Some su -> 1000 <= d_year (dt_date su) ->
  exists sn tn stem, renames s r existing sn tn stem.
Proof.
  intros Hb Ha Hp Hsu Hy. pose proof (built_ok s Hb) as Hok. apply project_anchored_inv in Hp as
    (name & gs & ss & anchor & su' & eu & view & pair & samples & summary & Hname & Hboot & Hprov & _ & Hanchor & Hsu' & Heu &
     _ & Hpair & _ & _ & Hr & _).
  assert (su' = su) as -> by (subst r; cbn in Hsu; by injection Hsu).
  destruct (TimeAnchor_new_ok _ _ Ha) as [_ (_ & Ho & _)].
  destruct (projected_spec _ _ _ Ho Hsu') as [(Hsok & Hso & _) _].
  assert (astimezone_utc su = Ok su) as Hz.
  { unfold astimezone_utc. rewrite utc_us_zero, <-Hso by done. by apply dt_of_us_local_us. }
  apply (finalized_clip_pair_iff _ _ _ _ _ _ Hz Hy) in Hpair as (_ & Hbre & Hn & Hfree & ->).
  destruct (final_names_parse su (boot_id name) (sd_sequence s) Hsok Hso Hbre Hn) as [Hparse _].
  destruct (final_stem_ok su (boot_id name) (sd_sequence s) Hbre) as [Hvv Hmv].
  destruct (ok_name s Hok) as (name' & Hname' & Hseq & _). rewrite Hname in Hname'. simplify_eq.
  eexists name', _, (final_stem su (boot_id name') (sd_sequence s)).
  constructor; [done|done|exact Hvv|exact Hmv|exact Hfree|exact Hname|exact Hparse|done|by split].
Qed.

Lemma projection_identity s a existing gps sys r :
  project_anchored s a existing gps sys = Ok (Some r) ->
  sd_clip_id r = sd_clip_id s /\ sd_start_monotonic_ns r = sd_start_monotonic_ns s /\
  sd_end_monotonic_ns r = sd_end_monotonic_ns s.
Proof.
  intros Hp. apply project_anchored_inv in Hp as
    (name & gs & ss & anchor & su & eu & view & pair & samples & summary & _ & _ & _ & _ & _ & _ & _ & _ & _ & _ & _ & -> & _). done.
Qed.
End names.

(** ** Running the steps *)

Lemma guard_run {F B} b c s (k : unit -> M F B) w : b = false -> mbind (guard b c s) k w = k tt w.
Proof. by intros ->. Qed.

Lemma mtry_run {F A} (m : M F A) h w a w1 : m w = (Ok a, w1) -> mtry m h w = (Ok a, w1).
Proof. intros E. unfold mtry. by rewrite E. Qed.

Lemma filter_none {A} (f : A -> bool) l : (forall x, In x l -> f x = false) -> List.filter f l = [].
Proof.
  induction l as [|x l IH]; intros Hf; [done|]. cbn [List.filter]. rewrite Hf by by left. apply IH. intros. apply Hf. by right.
Qed.

Lemma NoDup_four {A} (a b c d : A) :
  a <> b -> a <> c -> a <> d -> b <> c -> b <> d -> c <> d -> NoDup [a; b; c; d].
Proof. intros. rewrite !NoDup_cons, !elem_of_cons, !elem_of_nil. split_and!; [naive_solver..|by intros []|by apply NoDup_nil]. Qed.

Ltac rewrite_same := repeat match goal with |- context [bool_decide (?x = ?x)] => rewrite (bool_decide_true (x = x) eq_refl) end.

(** The clip of a row without a lease. *)
Definition row_clip (id : UUID) (r : ClipRow) : CatalogClip :=
  mkCatalogClip id (r_lifecycle r) (r_video_path r) (r_sidecar_path r) (r_start_ns r) (r_end_ns r) (r_order r)
    (r_size r) (r_protected r) (r_reason r) (r_reconciled r) (r_managed r) None None.

Section runs.
Context `{CatalogFilesystem F} `{Environment}.
Implicit Types w : World F.

Lemma get_clip_run id w r :
  clips (w_db w) !! id = Some r -> r_lease r = None -> get_clip id w = (Ok (row_clip id r), w).
Proof.
  intros Hc Hl. unfold get_clip. erewrite mbind_run by (by apply required_clip_row_ok).
  unfold lift, clip_from_row. by rewrite Hl.
Qed.

(** No intent of the clip among all the pending ones. *)
Lemma matching_pending_run limits id w :
  db_ok (w_db w) -> pending_of (w_db w) id = None -> MetadataCoordinatorLimits_new limits = Ok limits ->
  Z.of_nat (length (select_pending (fun _ => true) (w_db w))) <= lim_max_pending_intents limits ->
  matching_pending limits id w = (Ok None, w).
Proof.
  intros Hok Hp Hlim Hn. unfold MetadataCoordinatorLimits_new in Hlim. apply result_bind_ok in Hlim as ([] & Hlim & _).
  apply validate_all_ok in Hlim. rewrite !Forall_cons in Hlim. destruct Hlim as (_ & Hlim & _). inv_ok. bool_prop.
  unfold matching_pending, list_pending_intents, refuse_if.
  set (rows := select_pending (fun _ => true) (w_db w)) in *.
  assert (Hrows : limited (lim_max_pending_intents limits + 1) rows = rows) by (unfold limited; apply take_ge; lia).
  assert (Hst : Forall (fun x : UUID * IntentRow => stored_ok (i_intent (snd x))) rows).
  { apply Forall_forall. intros x (Hi & _)%select_pending_elem. by apply (ok_intents _ Hok) in Hi as (_ & ? & _). }
  assert (Hlist : forall k : list OperationIntent -> M F (option OperationIntent),
    mbind (lift (row_limit (lim_max_pending_intents limits + 1)) ;;;
      x <- query (fun d => limited (lim_max_pending_intents limits + 1) (select_pending (fun _ => true) d)) ;;
      lift (result_map intent_from_row (map snd x))) k w = k (map (fun x => i_intent (snd x)) rows) w).
  { intros k. apply mbind_run. erewrite mbind_run.
    2: { unfold lift, row_limit, positive_integer. replace (lim_max_pending_intents limits + 1 <=? 0) with false by lia.
         cbn [result_bind]. unfold MAX_QUERY_ROWS. by replace (10000 <? lim_max_pending_intents limits + 1) with false by lia. }
    erewrite mbind_run by reflexivity. fold rows. rewrite Hrows. unfold lift.
    rewrite result_map_stored by by apply Forall_map. by rewrite map_map. }
  rewrite Hlist. rewrite guard_run by (rewrite length_map; lia).
  assert (List.filter (fun intent => bool_decide (clip_id intent = id)) (map (fun x => i_intent (snd x)) rows) = []) as ->; [|done].
  apply filter_none. intros i Hi. apply in_map_iff in Hi as ([j row] & <- & Hin%list_elem_of_In).
  apply select_pending_elem in Hin as (Hi & Hinc & _). apply bool_decide_false. rewrite pending_of_None in Hp. by eapply Hp.
Qed.

(** The row of a registered name reconciliation. *)
Definition name_row (i : OperationIntent) (target : CatalogDb.ClipSidecar) (source : CatalogDb.ClipSidecar) : IntentRow :=
  mkIntentRow i false None None None (Some (CatalogDb.to_canonical_json target))
    (Some (sha256_hexdigest (CatalogDb.to_canonical_json source))).

Definition registered (i : OperationIntent) (target source : CatalogDb.ClipSidecar) (c : ClipRow) (now : Z) (d : DB) : DB :=
  set_clips (fun m => <[clip_id i := with_updated now (with_reconciled false c)]> m)
    (set_intents (fun m => <[intent_id i := name_row i target source]> m) d).

Lemma registered_lookup i target source c now d :
  intents (registered i target source c now d) !! intent_id i = Some (name_row i target source) /\
  clips (registered i target source c now d) !! clip_id i = Some (with_updated now (with_reconciled false c)).
Proof. split; apply lookup_insert_eq. Qed.

Lemma insert_intent_run (row : IntentRow) w c :
  intents (w_db w) !! intent_id (i_intent row) = None -> pending_of (w_db w) (clip_id (i_intent row)) = None ->
  clips (w_db w) !! clip_id (i_intent row) = Some c -> i_expected_revision row = None ->
  insert_intent_row row w = (Ok tt, set_db (set_intents (fun m => <[intent_id (i_intent row) := row]> m) (w_db w)) w).
Proof.
  intros Hi Hp Hc He. unfold insert_intent_row. erewrite mbind_run by reflexivity. rewrite Hi, guard_run by done.
  erewrite mbind_run by reflexivity. rewrite Hp, guard_run by done.
  erewrite mbind_run by reflexivity. rewrite Hc, guard_run by done. by rewrite He, guard_run.
Qed.

Lemma register_run i target source now w c sn tn :
  0 <= now -> name_plan_consistent i target source now = true ->
  blen (CatalogDb.to_canonical_json source) <= Catalog.MAX_SIDECAR_BYTES ->
  blen (CatalogDb.to_canonical_json target) <= Catalog.MAX_SIDECAR_BYTES ->
  parse_clip_filename (sc_video_file source) = Ok sn -> parse_clip_filename (sc_video_file target) = Ok tn ->
  preserves_name_identity sn tn = true ->
  clips (w_db w) !! clip_id i = Some c -> clip_checks c = true ->
  r_lifecycle c = FINALIZED -> r_reconciled c = true -> r_managed c = true -> r_lease c = None ->
  r_video_path c = video_source (paths i) -> r_sidecar_path c = sidecar_source (paths i) ->
  pending_of (w_db w) (clip_id i) = None -> one_final_directory (paths i) = true ->
  intents (w_db w) !! intent_id i = None ->
  register_name_reconciliation (mkMetadataPlan target (Some i)) source now w
  = (Ok (intent_id i), set_db (registered i target source c now (w_db w)) w).
Proof.
  intros Hnow Hcons Hls Hlt Hsn Htn Hid Hc Hchk Hlife Hrec Hman Hlease Hv Hs Hp Hdir Hi.
  unfold register_name_reconciliation. cbn [mp_intent mp_sidecar].
  erewrite mbind_run by (unfold lift, non_negative_integer; by replace (now <? 0) with false by lia).
  rewrite guard_run by (by rewrite Hcons). cbv zeta.
  rewrite guard_run by (apply orb_false_iff; split; lia).
  erewrite mbind_run by (unfold lift; rewrite Hsn, Htn; reflexivity). cbn [fst snd].
  rewrite guard_run by (by rewrite Hid).
  apply transaction_run. erewrite mbind_run by (by apply required_clip_row_ok).
  erewrite mbind_run by reflexivity. rewrite Hp.
  rewrite guard_run by (rewrite Hlife, Hrec, Hman, Hlease, Hv, Hs; rewrite_same; reflexivity).
  rewrite guard_run by (by rewrite Hdir). unfold insert_existing_intent_locked.
  erewrite mbind_run by (exact (insert_intent_run (name_row i target source) w c Hi Hp Hc eq_refl)).
  erewrite mbind_run by (eapply (update_clip_run _ _ _ c); [exact Hc|exact Hchk]). done.
Qed.
End runs.

(** ** The directory and its names *)

Lemma component_facts n : validate_filename_component n = Ok n -> slash ∉ n /\ n <> [] /\ n <> u ".".
Proof.
  unfold validate_filename_component. intros Hn. inv_ok. bool_prop.
  split_and!; [by apply contains_false_iff|done|by intros ->].
Qed.

Lemma final_managed d : d ∈ [u "clips"; u "protected"] -> d ∈ MANAGED_DIRECTORIES.
Proof. rewrite !elem_of_cons, elem_of_nil. intros [->|[->|[]]]; [apply clips_managed|apply protected_managed]. Qed.

Lemma in_directory_facts d n :
  d ∈ [u "clips"; u "protected"] -> validate_filename_component n = Ok n ->
  path_parent (in_directory d n) = d /\ path_name (in_directory d n) = n.
Proof.
  intros Hd%final_managed (Hs & Hne & Hdot)%component_facts.
  destruct (managed_child d n) as (H1 & H2 & _); [done..|]. by split.
Qed.

Section listing.
Context `{Environment}.
Implicit Types (w : World RootedFilesystem) (m : gmap str bytes).

(** The files directly inside a directory, and the order in which they are listed. *)
Definition directory_files (m : gmap str bytes) (d : str) : list str :=
  List.filter (fun p => bool_decide (path_parent p = d)) (map fst (map_to_list m)).

Definition listing (m : gmap str bytes) (d : str) : list str :=
  sort_by (fun a b => String.leb (string_of_list_ascii (casefold a)) (string_of_list_ascii (casefold b))) (directory_files m d).

Lemma listing_run m w d n :
  d ∈ MANAGED_DIRECTORIES -> 0 < n -> Z.of_nat (length (directory_files m d)) <= n ->
  f_iter_files d n (with_files m w) = (Ok (listing m d, Z.of_nat (length (directory_files m d)), false), with_files m w).
Proof.
  intros Hd Hn Hl. unfold f_iter_files. assert (d ∈ DIRECTORIES) as Hd' by exact Hd.
  change (fs_iter_files (w_fs (with_files m w)) d n) with (rooted_iter_files (mkRooted m true) d n). unfold rooted_iter_files.
  rewrite (bool_decide_true _ Hd'). cbn [negb]. unfold positive_bound. replace (n <=? 0) with false by lia.
  cbn [result_bind]. unfold resolve_directory, assert_bound. cbn [rf_bound negb result_bind rf_files].
  rewrite (bool_decide_true _ Hd'). cbn [negb result_bind]. fold (directory_files m d).
  rewrite take_ge by lia. replace (n <? _) with false by lia. done.
Qed.

(** A name that collides with no listed one is free. *)
Lemma free_name m d n :
  path_parent (in_directory d n) = d -> path_name (in_directory d n) = n ->
  casefold n ∉ map casefold (map path_name (listing m d)) -> m !! in_directory d n = None.
Proof.
  intros Hp Hn Hfree. apply eq_None_not_Some. intros [b Hb]. apply Hfree. rewrite map_map.
  apply list_elem_of_In, in_map_iff. exists (in_directory d n). split; [by rewrite Hn|].
  apply list_elem_of_In. unfold listing. rewrite sort_by_perm. apply list_elem_of_In. unfold directory_files.
  apply filter_In. split; [|by apply bool_decide_true]. apply in_map_iff. exists (in_directory d n, b). split; [done|].
  by apply list_elem_of_In, elem_of_map_to_list.
Qed.
End listing.

(** ** The whole reconciliation *)

Section rename.
Context `{ZoneLaws} (uuids : nat -> UUID) (sha256 : bytes -> str).
(** [hexdigest()] of a SHA-256 is 64 lowercase hexadecimal digits. *)
Hypothesis sha256_hex : forall d, is_sha256_hex (sha256 d) = true.
#[local] Instance rename_environment : Environment := metadata_environment uuids sha256.
Implicit Types w : World RootedFilesystem.

(** An idle managed pair, both files in one final directory of a bound volume. *)
Record idle_pair (w : World RootedFilesystem) (id : UUID) (c : ClipRow) (dv ds : bytes) : Prop := mkIdle {
  ip_row : clips (w_db w) !! id = Some c;
  ip_state : r_lifecycle c = FINALIZED /\ r_reconciled c = true /\ r_managed c = true /\ r_lease c = None;
  ip_directory : path_parent (r_video_path c) ∈ [u "clips"; u "protected"];
  ip_together : path_parent (r_sidecar_path c) = path_parent (r_video_path c);
  ip_protected : r_protected c = true -> path_parent (r_video_path c) = u "protected";
  ip_video : rf_files (w_fs w) !! r_video_path c = Some dv;
  ip_sidecar : rf_files (w_fs w) !! r_sidecar_path c = Some ds;
  ip_bound : rf_bound (w_fs w) = true
}.

(** The scans and reads of the coordinator stay within its limits. *)
Record within_limits (limits : MetadataCoordinatorLimits) (w : World RootedFilesystem) (c : ClipRow) (ds : bytes) : Prop := mkWithin {
  wl_new : MetadataCoordinatorLimits_new limits = Ok limits;
  wl_pending : Z.of_nat (length (select_pending (fun _ => true) (w_db w))) <= lim_max_pending_intents limits;
  wl_directory : Z.of_nat (length (directory_files (rf_files (w_fs w)) (path_parent (r_video_path c))))
    <= lim_max_directory_entries limits;
  wl_sidecar : blen ds <= lim_max_sidecar_bytes limits
}.

(** The sidecar's identity agrees with the catalog row and the boot. *)
Definition names_agree (s : Metadata.ClipSidecar) (id boot : UUID) (c : ClipRow) : Prop :=
  sd_clip_id s = id /\ sd_boot_id s = boot /\
  sd_video_file s = path_name (r_video_path c) /\ sd_metadata_file s = path_name (r_sidecar_path c).

Lemma limits_positive limits :
  MetadataCoordinatorLimits_new limits = Ok limits ->
  0 < lim_max_directory_entries limits /\ 0 < lim_max_sidecar_bytes limits.
Proof.
  unfold MetadataCoordinatorLimits_new. intros Hlim. apply result_bind_ok in Hlim as ([] & Hlim & _).
  apply validate_all_ok in Hlim. rewrite !Forall_cons in Hlim. destruct Hlim as (H1 & _ & H2 & _). inv_ok. bool_prop. lia.
Qed.

Lemma read_source_run limits m w p ds s :
  usable p -> m !! p = Some ds -> 0 < lim_max_sidecar_bytes limits -> blen ds <= lim_max_sidecar_bytes limits ->
  Sidecar.parse_sidecar_bytes ds = Ok s ->
  read_source_sidecar limits p (with_files m w) = (Ok s, with_files m w).
Proof.
  intros Hp Hd Hn Hl Hs. unfold read_source_sidecar. apply mtry_run.
  erewrite mbind_run by (by apply read_run). unfold lift. by rewrite Hs.
Qed.

(** What is left after the rename: the two new files in place of the two old ones. *)
Definition after_rename (m : gmap str bytes) (v s v' s' : str) (dv payload : bytes) (q : str) : option bytes :=
  if decide (q = s') then Some payload else if decide (q = s) then None
  else if decide (q = v') then Some dv else if decide (q = v) then None else m !! q.

(** A registered reconciliation, nothing of it carried out yet, is carried out. *)
Lemma apply_intent_run w i row c v' s' payload hash target dv ds already t :
  db_ok (w_db w) -> rf_bound (w_fs w) = true ->
  intents (w_db w) !! intent_id i = Some row -> i_intent row = i -> i_complete row = false -> kind i = RECONCILE_NAME ->
  clips (w_db w) !! clip_id i = Some c -> r_lease c = None ->
  (r_protected c = true -> path_parent v' = u "protected") ->
  video_target (paths i) = Some v' -> sidecar_target (paths i) = Some s' ->
  recovery_data row = Some (payload, hash) -> Sidecar.parse_sidecar_bytes payload = Ok target ->
  sidecar_identifies target (clip_id i) v' s' = true ->
  rf_files (w_fs w) !! r_video_path c = Some dv -> rf_files (w_fs w) !! r_sidecar_path c = Some ds ->
  rf_files (w_fs w) !! v' = None -> rf_files (w_fs w) !! s' = None ->
  r_video_path c <> r_sidecar_path c -> v' <> s' -> replaceable i payload hash ds ->
  0 <= t <= 9223372036854775807 ->
  exists k w', apply_intent uuids sha256 i already t w
      = (Ok (mkCoordinatorOutcome (clip_id i) (Some (intent_id i)) already k v' s'), w') /\
    (forall q, rf_files (w_fs w') !! q = after_rename (rf_files (w_fs w)) (r_video_path c) (r_sidecar_path c) v' s' dv payload q) /\
    clips (w_db w') = <[clip_id i := renamed_row t v' s' c]> (clips (w_db w)).
Proof.
  intros Hok Hb Hi Hrow Hinc Hk Hc Hlease Hprot Hvt Hst Hdata Hparse Hid Hv Hs Hv' Hs' Hne Hne' Hrep Ht. rewrite <-Hrow in *.
  edestruct (@name_reconciliation_run rename_environment w (intent_id (i_intent row)) row t 2 c v' s' payload hash target dv)
    as (res & w' & Hrun & Hri & Hrc & Hrp & Hfiles & Hclips & _); try done; try lia.
  - apply NoDup_four; congruence.
  - by left.
  - left. by exists ds.
  - exists (rr_actions_attempted res), w'. split; [|by split]. unfold apply_intent, coordinator_now, refuse_if.
    erewrite mbind_run. 2: { rewrite guard_run by (rewrite negb_false_iff, andb_true_iff; lia). reflexivity. }
    erewrite mbind_run by exact Hrun. rewrite guard_run by (by rewrite Hri, bool_decide_true).
    rewrite Hrp, Hrc, guard_run by done.
    erewrite mbind_run by (apply (get_clip_run _ _ (renamed_row t v' s' c)); [by rewrite Hclips, lookup_insert_eq|exact Hlease]).
    rewrite guard_run by (cbn; rewrite Hvt, Hst; rewrite_same; reflexivity). reflexivity.
Qed.

(** The intent of a plan, in full. *)
Lemma planned_intent s r fresh now d i :
  reconciliation_intent s r fresh now d = Ok i ->
  i = mkIntent fresh (sd_clip_id s) RECONCILE_NAME now
        (mkPaths (in_directory d (sd_video_file s)) (in_directory d (sd_metadata_file s))
           (Some (in_directory d (sd_video_file r))) (Some (in_directory d (sd_metadata_file r)))) Intents.SCHEMA_VERSION /\
  in_directory d (sd_video_file r) <> in_directory d (sd_metadata_file r).
Proof.
  unfold reconciliation_intent. intros Hi. inv_ok. apply PairPaths_new_ok in Hb as (-> & _ & _ & _ & _ & Hne).
  apply OperationIntent_new_ok in Hi as (-> & _). split; [done|by apply Hne].
Qed.

(** The recorded paths are the sidecar's names in their directory. *)
Lemma agreed_paths w id boot s c dv ds :
  db_ok (w_db w) -> idle_pair w id c dv ds -> names_agree s id boot c ->
  r_video_path c = in_directory (path_parent (r_video_path c)) (sd_video_file s) /\
  r_sidecar_path c = in_directory (path_parent (r_video_path c)) (sd_metadata_file s).
Proof.
  intros Hok [Hc _ _ Htog _ _ _ _] (_ & _ & -> & ->). destruct (ok_rows _ Hok _ _ Hc) as (_ & _ & [Hpl Hmv Hms]).
  apply PairPaths_new_ok in Hpl as (_ & Hpv & Hps & _). rewrite <-Htog at 2.
  split; [exact (proj2 (managed_shape _ Hpv Hmv))|exact (proj2 (managed_shape _ Hps Hms))].
Qed.

(** The registration of a planned rename succeeds. *)
Lemma register_planned w s r c i t fresh existing sn tn stem dv ds :
  idle_pair w (sd_clip_id s) c dv ds -> db_ok (w_db w) -> names_agree s (sd_clip_id s) (sd_boot_id s) c ->
  renames s r existing sn tn stem -> partial sn = false ->
  sd_clip_id r = sd_clip_id s -> sd_start_monotonic_ns r = sd_start_monotonic_ns s ->
  sd_end_monotonic_ns r = sd_end_monotonic_ns s ->
  reconciliation_intent s r fresh t (path_parent (r_video_path c)) = Ok i ->
  intents (w_db w) !! intent_id i = None -> 0 <= t ->
  blen (Sidecar.to_canonical_json s) <= Catalog.MAX_SIDECAR_BYTES ->
  blen (Sidecar.to_canonical_json r) <= Catalog.MAX_SIDECAR_BYTES ->
  register_name_reconciliation (mkMetadataPlan r (Some i)) s t w = (Ok (intent_id i), set_db (registered i r s c t (w_db w)) w).
Proof.
  intros Hidle Hok Hag Hren Hpart Hrid Hrs Hre Hi Hfresh Ht Hls Hlr.
  destruct (agreed_paths _ _ _ _ _ _ _ Hok Hidle Hag) as [Ev' Es']. destruct Hag as (_ & _ & Hsv & Hsm).
  destruct Hidle as [Hc (Hlife & Hrec & Hman & Hlease) Hd Htog _ _ _ _]. set (d := path_parent (r_video_path c)) in *.
  destruct Hren as [Hrv Hrm Hvv Hmv _ Hsn Htn (Hp1 & Hp2 & Hp3) (Hb & Hq)].
  apply planned_intent in Hi as [-> Hne]. destruct (ok_rows _ Hok _ _ Hc) as (Hchk & _).
  rewrite <-Hrv in Hvv. rewrite <-Hrm in Hmv.
  destruct (in_directory_facts d _ Hd Hvv) as [Ptv Ntv]. destruct (in_directory_facts d _ Hd Hmv) as [Ptm Ntm].
  eapply (register_run (H0 := rename_environment)); cbn [paths video_source sidecar_source video_target sidecar_target clip_id intent_id];
    try done.
  - unfold name_plan_consistent. cbn -[path_name path_parent in_directory bool_decide]. rewrite <-Ev', <-Es', Ntv, Ntm. rewrite Hrid, Hrs, Hre, Hsv, Hsm. rewrite_same.
    by rewrite !Z.eqb_refl.
  - unfold preserves_name_identity. rewrite Hpart, Hp1, Hp2, Hp3, Hb, Hq. rewrite_same. by rewrite Z.eqb_refl.
  - by eapply reconciled_idle.
  - unfold one_final_directory. cbn -[path_name path_parent in_directory bool_decide]. rewrite <-Ev', <-Es', Ptv, Ptm, Htog. fold d. rewrite_same.
    by rewrite bool_decide_true.
Qed.

(** The registered row carries what recovery needs. *)
Lemma name_row_recovery i target source :
  0 < Z.of_nat (length (Sidecar.to_canonical_json target)) <= Sidecar.MAX_SIDECAR_BYTES ->
  recovery_data (name_row (H0 := rename_environment) i target source)
  = Some (Sidecar.to_canonical_json target, sha256 (Sidecar.to_canonical_json source)).
Proof.
  intros [Hpos Hle]. unfold recovery_data, name_row. cbn [i_sidecar i_source_sha256 CatalogDb.to_canonical_json
    rename_environment metadata_environment sha256_hexdigest]. rewrite sha256_hex. unfold blen.
  set (text := Sidecar.to_canonical_json target) in *. clearbody text.
  replace (Catalog.MAX_SIDECAR_BYTES <? Z.of_nat (length text)) with false by (unfold Catalog.MAX_SIDECAR_BYTES, Sidecar.MAX_SIDECAR_BYTES in *; lia).
  by destruct text.
Qed.

(** A sidecar identifies the files it names. *)
Lemma names_identify (s : Metadata.ClipSidecar) id v m :
  sd_clip_id s = id -> path_name v = sd_video_file s -> path_name m = sd_metadata_file s ->
  sidecar_identifies (H0 := rename_environment) s id v m = true.
Proof.
  intros <- Hv Hm. unfold sidecar_identifies. rewrite Hv, Hm. cbn -[bool_decide]. by rewrite_same.
Qed.

(** The file the sidecar was read from may be replaced. *)
Lemma source_replaceable i payload s ds :
  Sidecar.parse_sidecar_bytes ds = Ok s -> sd_clip_id s = clip_id i ->
  path_name (video_source (paths i)) = sd_video_file s -> path_name (sidecar_source (paths i)) = sd_metadata_file s ->
  replaceable (H := rename_environment) i payload (sha256 (Sidecar.to_canonical_json s)) ds.
Proof.
  intros Hs Hid Hv Hm. destruct (parsed_built _ _ Hs) as (_ & Hcanon & Hl). split; [exact (proj2 Hl)|].
  right. rewrite Hcanon. split; [done|]. exists s. split; [exact Hs|by apply names_identify].
Qed.

(** The registered rename, carried out. *)
Lemma apply_registered w s r c i t1 t2 fresh sn tn stem dv ds :
  let d := path_parent (r_video_path c) in
  let w1 := set_db (registered (H0 := rename_environment) i r s c t1 (w_db w)) w in
  let v' := in_directory d (sd_video_file r) in
  let s' := in_directory d (sd_metadata_file r) in
  db_ok (w_db w) -> db_ok (w_db w1) ->
  idle_pair w (sd_clip_id s) c dv ds -> names_agree s (sd_clip_id s) (sd_boot_id s) c ->
  Sidecar.parse_sidecar_bytes ds = Ok s -> Sidecar.parse_sidecar_bytes (Sidecar.to_canonical_json r) = Ok (reread r) ->
  sd_clip_id r = sd_clip_id s -> renames s r (map path_name (listing (rf_files (w_fs w)) d)) sn tn stem ->
  reconciliation_intent s r fresh t1 d = Ok i -> 0 <= t2 <= 9223372036854775807 ->
  exists k w', apply_intent uuids sha256 i false t2 w1
      = (Ok (mkCoordinatorOutcome (sd_clip_id s) (Some fresh) false k v' s'), w') /\
    (forall q, rf_files (w_fs w') !! q
       = after_rename (rf_files (w_fs w)) (r_video_path c) (r_sidecar_path c) v' s' dv (Sidecar.to_canonical_json r) q) /\
    clips (w_db w') = <[sd_clip_id s := renamed_row t2 v' s' c]> (clips (w_db w)).
Proof.
  intros d w1 v' s' Hok Hok1 Hidle Hag Hs Hr Hrid Hren Hi Ht2.
  destruct (agreed_paths _ _ _ _ _ _ _ Hok Hidle Hag) as [Ev' Es']. fold d in Ev', Es'. pose proof Hag as (_ & _ & Hsv & Hsm).
  destruct Hidle as [Hc (Hlife & Hrec & Hman & Hlease) Hd Htog Hprot Hv Hsc Hb]. fold d in Hd, Hprot.
  destruct (parsed_built _ _ Hr) as (_ & _ & Hlr). apply planned_intent in Hi as [Ei Hne].
  destruct Hren as [Hrv Hrm Hvv Hmv [Fv Fm] _ _ _ _]. rewrite <-Hrv in Hvv, Fv. rewrite <-Hrm in Hmv, Fm.
  destruct (in_directory_facts d _ Hd Hvv) as [Ptv Ntv]. destruct (in_directory_facts d _ Hd Hmv) as [Ptm Ntm].
  destruct (ok_rows _ Hok _ _ Hc) as (_ & _ & [Hpl _ _]). apply PairPaths_new_ok in Hpl as (_ & _ & _ & Hvs & _).
  destruct (apply_intent_run w1 i (name_row (H0 := rename_environment) i r s) (with_updated t1 (with_reconciled false c))
    v' s' (Sidecar.to_canonical_json r) (sha256 (Sidecar.to_canonical_json s)) (reread r) dv ds false t2)
    as (k & w' & Hrun & Hfiles & Hclips); try done.
  - apply registered_lookup.
  - by rewrite Ei.
  - apply registered_lookup.
  - intros Hp. unfold v'. rewrite Ptv. by apply Hprot.
  - by rewrite Ei.
  - by rewrite Ei.
  - by apply name_row_recovery.
  - apply names_identify; [by rewrite Ei|exact Ntv|exact Ntm].
  - by apply (free_name _ d).
  - by apply (free_name _ d).
  - apply source_replaceable; [done|by rewrite Ei|..]; rewrite Ei; cbn [paths video_source sidecar_source];
      [by rewrite <-Ev', Hsv|by rewrite <-Es', Hsm].
  - exists k, w'. split; [by rewrite Hrun, Ei|]. split; [exact Hfiles|].
    rewrite Hclips. unfold w1, registered. cbn [set_db w_db set_clips set_intents clips]. rewrite insert_insert_eq. by rewrite Ei.
Qed.

(** From the plan on. *)
Lemma plan_and_apply_run limits a gps sys t1 t2 w clip c s r i su dv ds :
  db_ok (w_db w) -> idle_pair w (sd_clip_id s) c dv ds -> within_limits limits w c ds ->
  Sidecar.parse_sidecar_bytes ds = Ok s -> names_agree s (sd_clip_id s) (sd_boot_id s) c -> TimeAnchor_new a = Ok a ->
  c_video_path clip = r_video_path c ->
  plan_post_anchor_reconciliation s a (uuids (w_uuids w)) t1
    (map path_name (listing (rf_files (w_fs w)) (path_parent (r_video_path c)))) (path_parent (r_video_path c))
    (Some gps) (Some sys) = Ok (mkPlanOf r (Some i) false) ->
  (forall sn, parse_clip_filename (sd_video_file s) = Ok sn -> partial sn = false) ->
  sd_start_utc r = Some su -> 1000 <= d_year (dt_date su) ->
  Sidecar.parse_sidecar_bytes (Sidecar.to_canonical_json r) = Ok (reread r) ->
  intents (w_db w) !! uuids (w_uuids w) = None ->
  0 <= t1 <= 9223372036854775807 -> 0 <= t2 <= 9223372036854775807 ->
  let v' := in_directory (path_parent (r_video_path c)) (sd_video_file r) in
  let s' := in_directory (path_parent (r_video_path c)) (sd_metadata_file r) in
  exists k w', plan_and_apply uuids sha256 limits (sd_clip_id s) clip s a gps sys t1 t2 w
      = (Ok (mkCoordinatorOutcome (sd_clip_id s) (Some (uuids (w_uuids w))) false k v' s'), w') /\
    (forall q, rf_files (w_fs w') !! q
       = after_rename (rf_files (w_fs w)) (r_video_path c) (r_sidecar_path c) v' s' dv (Sidecar.to_canonical_json r) q) /\
    clips (w_db w') = <[sd_clip_id s := renamed_row t2 v' s' c]> (clips (w_db w)).
Proof.
  intros Hok Hidle [Hlim _ Hdir Hlen] Hs Hag Ha Hclip Hplan Hpart Hsu Hy Hr Hfresh Ht1 Ht2 v' s'.
  pose proof Hidle as [Hc (Hlife & Hrec & Hman & Hlease) Hd Htog Hprot Hv Hsc Hb]. set (d := path_parent (r_video_path c)) in *.
  destruct (w_fs w) as [m bound] eqn:Ef. cbn [rf_files rf_bound] in *. subst bound.
  assert (Ew : w = with_files m w) by (unfold with_files, set_fs; destruct w; simpl in *; by subst).
  destruct (limits_positive _ Hlim) as [Hle _].
  pose proof Hplan as (_ & _ & Hproj)%plan_inv.
  destruct (project_anchored _ _ _ _ _) as [[r0|]|] eqn:Ep; [|done|done]. destruct Hproj as (i0 & [= <- <-] & Hi).
  destruct (parsed_built _ _ Hs) as (Hbuilt & Hcanon & Hls). destruct (parsed_built _ _ Hr) as (_ & _ & Hlr).
  destruct (projection_renames s a _ _ _ r su Hbuilt Ha Ep Hsu Hy) as (sn & tn & stem & Hren).
  destruct (projection_identity _ _ _ _ _ _ Ep) as (Hrid & Hrs & Hre).
  set (w2 := mkWorld (w_db w) (w_fs w) (S (w_uuids w))).
  assert (Hidle2 : idle_pair w2 (sd_clip_id s) c dv ds) by (destruct Hidle; constructor; assumption).
  pose proof (planned_intent _ _ _ _ _ _ Hi) as [Ei Hne].
  assert (Hreg : register_name_reconciliation (mkMetadataPlan r (Some i)) s t1 w2
    = (Ok (intent_id i), set_db (registered i r s c t1 (w_db w2)) w2)).
  { apply (register_planned w2 s r c i t1 (uuids (w_uuids w)) (map path_name (listing m d)) sn tn stem dv ds); try done.
    - exact (Hpart _ (rn_source _ _ _ _ _ _ Hren)).
    - rewrite Ei. exact Hfresh.
    - exact (proj1 Ht1).
    - rewrite Hcanon. exact (proj2 Hls).
    - exact (proj2 Hlr). }
  match type of Hreg with _ = (_, ?x) => set (w1 := x) in * end.
  assert (Hok1 : db_ok (w_db w1)).
  { pose proof (keeps_register_name_reconciliation (F := RootedFilesystem) (H0 := rename_environment)
      (mkMetadataPlan (H0 := rename_environment) r (Some i)) s t1) as Hk. cbn [mp_intent] in Hk.
    specialize (Hk ltac:(intros ? [= <-]; by eapply reconciliation_intent_constructed) w2 Hok). by rewrite Hreg in Hk. }
  unfold plan_and_apply, coordinator_now, refuse_if. rewrite Hclip. fold d.
  assert (Hlist : f_iter_files d (lim_max_directory_entries limits) w
    = (Ok (listing m d, Z.of_nat (length (directory_files m d)), false), w)).
  { pose proof (listing_run m w d _ (final_managed d Hd) Hle Hdir) as Hl. by rewrite <-Ew in Hl. }
  erewrite mbind_run by exact Hlist. cbv beta iota. rewrite guard_run by done.
  erewrite mbind_run. 2: { rewrite guard_run by (rewrite negb_false_iff, andb_true_iff; lia). reflexivity. }
  erewrite mbind_run by reflexivity. fold w2.
  erewrite mbind_run by (apply mtry_run; exact (f_equal (fun x => (x, w2)) Hplan)). cbn [pl_already_reconciled pl_intent pl_sidecar].
  erewrite mbind_run by (apply mtry_run; exact Hreg). rewrite guard_run by (by rewrite bool_decide_true).
  destruct (apply_registered w2 s r c i t1 t2 (uuids (w_uuids w)) sn tn stem dv ds)
    as (k & w' & Hrun & Hfiles & Hclips); try done; cbn [w2 w_fs] in *; rewrite ?Ef in *; [done|].
  exists k, w'. split; [exact Hrun|]. by split.
Qed.

End rename.

(** ** The demo recording *)

#[local] Existing Instances demo_zones demo_zone_laws.

