(* ===== verification/FinalizeConvergence.v ===== *)
(** * Convergence of promotions

    On the rooted filesystem, one call of [reconcile_intent] completes a pending FINALIZE from any state
    an interrupted earlier attempt can leave its two files in; the promotion of a protected clip queues
    the move that takes it on to [protected/]. *)

From Stdlib Require Import Ascii String ZArith Lia Strings.Byte.
From stdpp Require Import base list gmap strings sorting.
From S2P Require Import Prelude PyStr Uuid State Naming Intents Models Filesystem.
From S2P Require Import CatalogDb Catalog Reconcile ManagedPath CatalogInv CatalogSafe.
From S2P Require Import ReconcileSafe CatalogProperties Convergence NameConvergence CoordinatorRename.

Section rooted.
Context `{Environment}.
Implicit Types (w : World RootedFilesystem) (m : gmap str bytes).

(** The sidecar is at the end of its move where the check looks for it. *)
Lemma validate_finalize_run i m w s s' payload sc v' :
  sidecar_source (paths i) = s -> sidecar_target (paths i) = Some s' -> video_target (paths i) = Some v' ->
  usable s -> usable s' -> at_one_end m s s' payload -> blen payload <= Catalog.MAX_SIDECAR_BYTES ->
  CatalogDb.parse_sidecar_bytes payload = Ok sc -> sidecar_identifies sc (clip_id i) v' s' = true ->
  forall row, kind i = FINALIZE -> validate_before_actions i row (with_files m w) = (Ok None, with_files m w).
Proof.
  intros Hs Hst Hvt Us Us' Hend Hl Hparse Hid row Hk. unfold validate_before_actions. rewrite Hk, Hs, Hst.
  erewrite mbind_run by (by apply exists_run).
  set (p := if present m s then s else s').
  assert (Hp : usable p /\ m !! p = Some payload).
  { unfold p. destruct Hend as [[E _]|[E E']]; [by rewrite (present_true _ _ _ E)|by rewrite (absent _ _ E)]. }
  erewrite mbind_run.
  2: { instantiate (2 := p). unfold p. by destruct (present m s). }
  unfold validate_finalize_sidecar, or_problem, mtry. destruct Hp as [Up Hp].
  match goal with |- match ?x with _ => _ end = _ => assert (x = (Ok None, with_files m w)) as -> end; [|done].
  erewrite mbind_run by (apply read_run; [done|exact Hp|done|done]).
  erewrite mbind_run by (unfold lift; rewrite Hparse; reflexivity). rewrite Hvt, Hst.
  do 2 erewrite mbind_run by reflexivity. by rewrite Hid.
Qed.

(** Where a promotion takes the files. *)
Definition after_move (m : gmap str bytes) (v s v' s' : str) (dv ds : bytes) (q : str) : option bytes :=
  if decide (q = s') then Some ds else if decide (q = s) then None
  else if decide (q = v') then Some dv else if decide (q = v) then None else m !! q.

Lemma after_move_ends m v s v' s' dv ds :
  NoDup [v; v'; s; s'] ->
  after_move m v s v' s' dv ds v' = Some dv /\ after_move m v s v' s' dv ds s' = Some ds /\
  after_move m v s v' s' dv ds v = None /\ after_move m v s v' s' dv ds s = None.
Proof.
  rewrite !NoDup_cons, !not_elem_of_cons. intros ((? & ? & ? & _) & (? & ? & _) & (? & _) & _). unfold after_move.
  split_and!; repeat case_decide; congruence.
Qed.

Section one_promotion.
Context (w : World RootedFilesystem) (id : UUID) (row : IntentRow) (now n : Z) (c : ClipRow).
Context (v' s' : str) (payload : bytes) (sc : CatalogDb.ClipSidecar) (dv : bytes).
Let i := i_intent row.
Hypothesis Hok : db_ok (w_db w).
Hypothesis Hb : rf_bound (w_fs w) = true.
Hypothesis Hi : intents (w_db w) !! id = Some row.
Hypothesis Hinc : i_complete row = false.
Hypothesis Hk : kind i = FINALIZE.
Hypothesis Hc : clips (w_db w) !! clip_id i = Some c.
Hypothesis Hvt : video_target (paths i) = Some v'.
Hypothesis Hst : sidecar_target (paths i) = Some s'.
Hypothesis Hparse : CatalogDb.parse_sidecar_bytes payload = Ok sc.
Hypothesis Hlen : blen payload <= Catalog.MAX_SIDECAR_BYTES.
Hypothesis Hid : sidecar_identifies sc (clip_id i) v' s' = true.
Hypothesis Hnd : NoDup [r_video_path c; v'; r_sidecar_path c; s'].
Hypothesis H1 : at_one_end (rf_files (w_fs w)) (r_video_path c) v' dv.
Hypothesis H2 : at_one_end (rf_files (w_fs w)) (r_sidecar_path c) s' payload.
Hypothesis Hnow : 0 <= now.
Hypothesis Hn : 2 <= n.

(** Up to the completion of the intent in the database. *)
Lemma promotion_run x w4 m2 :
  (forall q, m2 !! q = after_move (rf_files (w_fs w)) (r_video_path c) (r_sidecar_path c) v' s' dv payload q) ->
  complete_intent_locked i now (with_files m2 w) = (Ok x, w4) ->
  exists k, reconcile_intent id now n w = (Ok (mkReconcileResult i k true []), w4).
Proof.
  intros Hm2 Hcomplete. destruct (w_fs w) as [m bound] eqn:Ef. simpl in Hb, H1, H2, Hm2. subst bound.
  destruct (ok_intents _ Hok _ _ Hi) as (_ & _ & c0 & Hc0 & Hrow). specialize (Hrow Hinc). fold i in Hc0. simplify_eq.
  pose proof Hrow as (_ & Ev & Es & _). fold i in Ev, Es.
  pose proof (pending_paths_usable _ _ _ Hok Hi Hinc) as Hus. fold i in Hus. destruct Hus as (Uv & Us & Ut). pose proof (conj Uv (conj Us Ut)) as Hus.
  assert (Huse : usable (r_video_path c) /\ usable (r_sidecar_path c) /\ usable v' /\ usable s')
    by (split_and!; [by rewrite <-Ev|by rewrite <-Es|by apply Ut; left|by apply Ut; right]).
  assert (Ew : w = with_files m w) by (unfold with_files, set_fs; destruct w; simpl in *; by subst).
  assert (Hk' : kind i <> DELETE) by congruence.
  set (v := r_video_path c) in *. set (s := r_sidecar_path c) in *.
  destruct (move_actions_run i w v s v' s' dv payload n Hk' Ev Es Hvt Hst Hn Huse Hnd m H1 H2) as [Hprob Hrun].
  destruct (moved_plan_complete i v s v' s' dv payload Hk' Ev Es Hvt Hst Huse Hnd m H1 H2) as [Hcomp Hcodes].
  set (m3 := relocated (relocated m v v') s s') in *.
  assert (m3 = m2) as <-.
  { apply map_eq. intros q. rewrite Hm2. pose proof Hnd as Hd. rewrite !NoDup_cons, !elem_of_cons in Hd. unfold m3.
    rewrite (relocated_lookup _ s s' payload); [|naive_solver|by eapply at_one_end_relocated].
    by rewrite (relocated_lookup _ v v' dv) by (try done; naive_solver). }
  assert (Hval : validate_before_actions i row w = (Ok None, w)).
  { rewrite Ew at 1 2. eapply validate_finalize_run; try done; apply Huse. }
  eexists. eapply reconcile_run; [done|lia|done|exact Hi|done|exact Ef|reflexivity|..]; fold i; rewrite Ev, Es, Hvt, Hst; [exact Hprob|].
  unfold carry_out. erewrite mbind_run by exact Hval. cbv iota beta zeta.
  erewrite mbind_run by (unfold confirm_absent; rewrite Hk; reflexivity).
  erewrite mbind_run by (rewrite Ew at 1; exact Hrun). erewrite mbind_run by (apply observe_run; exact Hus).
  rewrite Ev, Es, Hvt, Hst. unfold move_plan in Hcomp. rewrite Hcomp. erewrite mbind_run by exact Hcomplete.
  unfold mret. do 4 f_equal. exact Hcodes.
Qed.

(** The files the moves leave. *)
Lemma moved_files : exists m2, forall q, m2 !! q = after_move (rf_files (w_fs w)) (r_video_path c) (r_sidecar_path c) v' s' dv payload q.
Proof.
  set (v := r_video_path c) in *. set (s := r_sidecar_path c) in *. set (m := rf_files (w_fs w)) in *.
  exists (relocated (relocated m v v') s s'). intros q. pose proof Hnd as Hd. rewrite !NoDup_cons, !elem_of_cons in Hd.
  rewrite (relocated_lookup _ s s' payload); [|naive_solver|by eapply at_one_end_relocated].
  by rewrite (relocated_lookup _ v v' dv) by (try done; naive_solver).
Qed.

Lemma promotion_row_checks : clip_checks c = true.
Proof. by destruct (ok_rows _ Hok _ _ Hc). Qed.

Lemma promotion_intent_id : intent_id i = id.
Proof. by destruct (ok_intents _ Hok _ _ Hi). Qed.

(** An unprotected clip is finalized in [clips/]. *)
Lemma finalize_intent_run :
  r_protected c = false ->
  exists k w', reconcile_intent id now n w = (Ok (mkReconcileResult i k true []), w') /\
    rf_bound (w_fs w') = true /\ w_uuids w' = w_uuids w /\
    (forall q, rf_files (w_fs w') !! q = after_move (rf_files (w_fs w)) (r_video_path c) (r_sidecar_path c) v' s' dv payload q) /\
    clips (w_db w') = <[clip_id i := renamed_row now v' s' c]> (clips (w_db w)) /\
    intents (w_db w') = alter (with_complete now) id (intents (w_db w)).
Proof.
  intros Hprot. destruct moved_files as [m2 Hm2].
  set (w3 := set_db (set_clips (fun cs => <[clip_id i := renamed_row now v' s' c]> cs) (w_db w)) (with_files m2 w)).
  set (w4 := set_db (set_intents (fun x => alter (with_complete now) (intent_id i) x) (w_db w3)) w3).
  destruct (promotion_run tt w4 m2 Hm2) as [k Hrun].
  { unfold complete_intent_locked. rewrite Hk, Hvt, Hst. do 2 erewrite mbind_run by reflexivity. unfold complete_rename_locked.
    erewrite mbind_run by (unfold required_clip_row, mbind, query; cbn [w_db with_files set_fs]; rewrite Hc; reflexivity). cbv zeta.
    rewrite Hprot. cbn [andb negb].
    erewrite mbind_run by exact (update_clip_run _ _ (with_files m2 w) c Hc (renamed_checks now v' s' c promotion_row_checks)).
    reflexivity. }
  exists k, w4. split; [exact Hrun|]. split_and!; [done|done| |done|by cbn; rewrite promotion_intent_id].
  intros q. exact (Hm2 q).
Qed.

(** The row and the intent of a promoted clip on its way to [protected/]. *)
Definition promoted_row : ClipRow :=
  with_updated now (with_lifecycle FINALIZED (with_reconciled false (with_paths v' s' c))).

Definition onward_paths (p : PairPaths) : Prop := move_paths v' s' (u "protected") = Ok p.

Definition onward_row (p : PairPaths) : IntentRow :=
  mkIntentRow (mkIntent (uuid4 (w_uuids w)) (clip_id i) PROTECT now p Intents.SCHEMA_VERSION) false None None None None None.

(** A protected clip is finalized in [clips/] with its move to [protected/] pending. *)
Lemma finalize_protected_run p :
  r_protected c = true -> path_parent v' = u "clips" -> onward_paths p -> intents (w_db w) !! uuid4 (w_uuids w) = None ->
  exists k w', reconcile_intent id now n w = (Ok (mkReconcileResult i k true []), w') /\
    rf_bound (w_fs w') = true /\ w_uuids w' = S (w_uuids w) /\
    (forall q, rf_files (w_fs w') !! q = after_move (rf_files (w_fs w)) (r_video_path c) (r_sidecar_path c) v' s' dv payload q) /\
    clips (w_db w') = <[clip_id i := promoted_row]> (clips (w_db w)) /\
    intents (w_db w') = <[uuid4 (w_uuids w) := onward_row p]> (alter (with_complete now) id (intents (w_db w))).
Proof.
  intros Hprot Hdir Hp Hfresh. destruct moved_files as [m2 Hm2].
  set (w3 := set_db (set_clips (fun cs => <[clip_id i := promoted_row]> cs) (w_db w)) (with_files m2 w)).
  set (w4 := set_db (set_intents (fun x => alter (with_complete now) (intent_id i) x) (w_db w3)) w3).
  set (w5 := mkWorld (set_intents (fun x => <[uuid4 (w_uuids w) := onward_row p]> x) (w_db w4)) (w_fs w4) (S (w_uuids w))).
  destruct (promotion_run tt w5 m2 Hm2) as [k Hrun].
  { unfold complete_intent_locked. rewrite Hk, Hvt, Hst. do 2 erewrite mbind_run by reflexivity. unfold complete_rename_locked.
    erewrite mbind_run by (unfold required_clip_row, mbind, query; cbn [w_db with_files set_fs]; rewrite Hc; reflexivity). cbv zeta.
    rewrite Hprot, Hdir, (bool_decide_false (u "clips" = u "protected")) by done. cbn [andb negb].
    erewrite mbind_run by exact (update_clip_run _ (fun c => with_updated now (with_lifecycle FINALIZED (with_reconciled false (with_paths v' s' c))))
      (with_files m2 w) c Hc promotion_row_checks).
    erewrite mbind_run by reflexivity. unfold queue_protect_after.
    erewrite mbind_run by (unfold lift; rewrite Hp; reflexivity).
    assert (Hit : OperationIntent_new (uuid4 (w_uuids w)) (clip_id i) PROTECT now p Intents.SCHEMA_VERSION = Ok (i_intent (onward_row p))).
    { unfold OperationIntent_new. rewrite Z.eqb_refl. cbn [negb]. replace (now <? 0) with false by lia.
      unfold onward_paths in Hp. apply move_paths_ok in Hp as (_ & _ & _ & -> & ->). done. }
    unfold insert_intent_locked. erewrite mbind_run; [reflexivity|]. erewrite mbind_run by reflexivity.
    erewrite mbind_run by (unfold lift; cbn [w_uuids w4 w3 set_db with_files set_fs]; rewrite Hit; reflexivity).
    erewrite mbind_run; [reflexivity|].
    eapply (insert_intent_run (onward_row p) (mkWorld (w_db w4) (w_fs w4) (S (w_uuids w))) promoted_row); cbn -[alter insert lookup].
    - rewrite lookup_alter_ne; [done|]. rewrite promotion_intent_id. congruence.
    - apply pending_of_None. cbn -[alter insert lookup]. intros j r Hj Hr Hclip. rewrite promotion_intent_id in Hj.
      destruct (decide (j = id)) as [->|Hne].
      + rewrite lookup_alter_eq, Hi in Hj. simpl in Hj. by simplify_eq.
      + rewrite lookup_alter_ne in Hj by done. destruct Hne. by eapply (ok_unique _ Hok).
    - apply lookup_insert_eq.
    - done. }
  exists k, w5. split; [exact Hrun|]. split_and!; [done|done| |done|by cbn -[alter insert]; rewrite promotion_intent_id].
  intros q. exact (Hm2 q).
Qed.
End one_promotion.
End rooted.
