(* ===== verification/FinalizerFilesystem.v ===== *)
(** * The finalizer's filesystem ([src/dashcam/recorder/finalizer.py])

    [FinalizationFilesystem] is the protocol the finalizer adds to the catalog's, as a class with its
    law. The durable adapter is modelled over the regular files of the volume, and agrees with the
    catalog's rooted adapter on every managed path; its two new operations extend that adapter. *)

From Stdlib Require Import Ascii String ZArith Lia Strings.Byte.
From stdpp Require Import base list sets gmap strings.
From S2P Require Import Prelude PyStr Uuid Intents Models Filesystem ManagedPath.
From S2P Require Import LocalTime Metadata Sidecar.

Class FinalizationFilesystem (F : Type) := {
  fs_sync_file : F -> str -> result unit;
  fs_write_staged_sidecar : F -> str -> ClipSidecar -> result unit * F
}.

(** Staging writes the canonical text under a free name, or nothing. *)
Class FinalizationLaws (F : Type) `{FilesystemLaws F} `{FinalizationFilesystem F} `{ZoneDatabase} := {
  write_staged_spec f p s r f' : fs_write_staged_sidecar f p s = (r, f') ->
    (contents f' = contents f /\ is_ok r = false) \/
    (contents f !! p = None /\ contents f' = <[p := to_canonical_json s]> (contents f))
}.

(** ** The durable adapter *)

(** [_safe_directory]; the managed directories are real directories of the bound root. *)
Definition safe_directory (self : RootedFilesystem) (name : str) : result str :=
  let! _ := assert_bound self in Ok name.

(** [_safe_path]; the volume holds regular files only, so that no member is a link or on another device. *)
Definition safe_path (self : RootedFilesystem) (relative_path : str) : result str :=
  let! _ := PairPaths_new relative_path (u "__validation__.json") None None in
  let parts := path_parts relative_path in
  raise_if negb (Z.of_nat (length parts) =? 2) || negb (bool_decide (hd [] parts ∈ DIRECTORIES))
    as FinalizationRefused msg "path is outside a managed leaf directory" ;;
  let! _ := safe_directory self (hd [] parts) in
  Ok relative_path.

Definition durable_exists (self : RootedFilesystem) (p : str) : result bool :=
  let! path := safe_path self p in Ok (bool_decide (is_Some (rf_files self !! path))).

Definition durable_move (self : RootedFilesystem) (source target : str) : result unit * RootedFilesystem :=
  let checked :=
    let! source_path := safe_path self source in
    let! target_path := safe_path self target in
    let! present := durable_exists self source in
    raise_if negb present as FileNotFoundError msg "No such file or directory" ;;
    raise_if bool_decide (is_Some (rf_files self !! target_path)) as FileExistsError msg "File exists" ;;
    Ok (source_path, target_path) in
  match checked with
  | Err e => (Err e, self)
  | Ok (source_path, target_path) => rename_no_replace self source_path target_path
  end.

Definition durable_unlink (self : RootedFilesystem) (p : str) : result unit * RootedFilesystem :=
  match safe_path self p with
  | Err e => (Err e, self)
  | Ok path => (Ok tt, mkRooted (delete path (rf_files self)) (rf_bound self))
  end.

Definition durable_iter_files (self : RootedFilesystem) (directory : str) (limit : Z)
    : result (list str * Z * bool) :=
  raise_if negb (bool_decide (directory ∈ DIRECTORIES))
    as ValueError msg "directory is outside the managed namespace" ;;
  let! _ := positive_bound limit in
  let! directory_path := safe_directory self directory in
  let entries := List.filter (fun p => bool_decide (path_parent p = directory_path))
                   (map fst (map_to_list (rf_files self))) in
  let examined := take (Z.to_nat limit) entries in
  Ok (sort_by (fun a b => String.leb (string_of_list_ascii (casefold a))
                            (string_of_list_ascii (casefold b))) examined,
      Z.of_nat (length examined), limit <? Z.of_nat (length entries)).

Definition durable_read_bytes (self : RootedFilesystem) (p : str) (maximum : Z) : result bytes :=
  let! _ := positive_bound maximum in
  let! path := safe_path self p in
  let! present := durable_exists self p in
  raise_if negb present as FileNotFoundError msg "No such file or directory" ;;
  let payload := default [] (rf_files self !! path) in
  raise_if maximum <? blen payload as ValueError msg "file exceeds recovery size bound" ;;
  Ok payload.

Definition durable_file_size (self : RootedFilesystem) (p : str) : result Z :=
  let! path := safe_path self p in
  let! present := durable_exists self p in
  raise_if negb present as FileNotFoundError msg "No such file or directory" ;;
  Ok (blen (default [] (rf_files self !! path))).

Definition durable_sync_file (self : RootedFilesystem) (p : str) : result unit :=
  let! path := safe_path self p in
  raise_if negb (bool_decide (is_Some (rf_files self !! path)))
    as FileNotFoundError msg "No such file or directory" ;;
  Ok tt.

(** The temporary sibling is renamed onto the path, without replacing anything. *)
Definition durable_write_staged_sidecar `{ZoneDatabase} (self : RootedFilesystem) (p : str) (sidecar : ClipSidecar)
    : result unit * RootedFilesystem :=
  let checked :=
    let! path := safe_path self p in
    raise_if bool_decide (is_Some (rf_files self !! path)) as FileExistsError msg "File exists" ;;
    Ok path in
  match checked with
  | Err e => (Err e, self)
  | Ok path => (Ok tt, mkRooted (<[path := to_canonical_json sidecar]> (rf_files self)) (rf_bound self))
  end.

#[export] Instance RootedFinalizationFilesystem `{ZoneDatabase} : FinalizationFilesystem RootedFilesystem := {
  fs_sync_file := durable_sync_file;
  fs_write_staged_sidecar := durable_write_staged_sidecar
}.

(** ** Lemmas *)

Lemma safe_path_ok self p q : safe_path self p = Ok q -> q = p /\ path_ok p /\ managed p /\ rf_bound self = true.
Proof.
  unfold safe_path, safe_directory, assert_bound. intros H. inv_ok. bool_prop.
  apply PairPaths_new_ok in Hb as (_ & Hp & _). split_and!; try done. rename q into p.
  destruct (path_parts_ok p Hp) as [_ Hroot]. unfold managed.
  destruct (path_parts p) as [|d [|n [|]]] eqn:E; try (simpl in *; lia).
  unfold path_parent. by rewrite E, Hroot.
Qed.

(** On a managed path both adapters' validators give the same answer, errors included. *)
Lemma safe_path_resolve self p : managed p -> safe_path self p = resolve_path self p.
Proof.
  intros Hm. unfold safe_path, resolve_path, safe_directory, resolve_directory.
  destruct (PairPaths_new p _ None None) as [x|e] eqn:E; [|done]. simpl.
  apply PairPaths_new_ok in E as (_ & Hp & _). destruct (managed_shape p Hp Hm) as [-> _]. simpl.
  rewrite (bool_decide_true (path_parent p ∈ DIRECTORIES)) by exact Hm. simpl. by destruct (assert_bound self).
Qed.

Section agreement.
Implicit Types f : RootedFilesystem.

Lemma durable_exists_rooted f p : managed p -> durable_exists f p = rooted_exists f p.
Proof. intros Hm. unfold durable_exists, rooted_exists. by rewrite safe_path_resolve. Qed.

Lemma durable_move_rooted f s t :
  managed s -> managed t ->
  snd (durable_move f s t) = snd (rooted_move f s t) /\
  is_ok (fst (durable_move f s t)) = is_ok (fst (rooted_move f s t)).
Proof.
  intros Hs Ht. unfold durable_move, rooted_move. rewrite durable_exists_rooted by done. unfold rooted_exists.
  rewrite !safe_path_resolve by done.
  destruct (resolve_path f s) as [s'|] eqn:Es; [|done]. destruct (resolve_path f t) as [t'|] eqn:Et; [|done].
  cbn [result_bind]. unfold rename_no_replace.
  destruct (rf_files f !! s') as [d|] eqn:Ed; simpl; [|by rewrite ?Ed].
  destruct (rf_files f !! t') eqn:Et2; simpl; by rewrite ?Ed, ?Et2.
Qed.

Lemma durable_read_rooted f p n : managed p -> durable_read_bytes f p n = rooted_read_bytes f p n.
Proof.
  intros Hm. unfold durable_read_bytes, rooted_read_bytes. rewrite durable_exists_rooted by done.
  unfold rooted_exists. rewrite safe_path_resolve by done.
  destruct (positive_bound n); [|done]. cbn [result_bind]. destruct (resolve_path f p) as [q|]; [|done]. cbn [result_bind].
  by destruct (rf_files f !! q).
Qed.

Lemma durable_size_rooted f p : managed p -> durable_file_size f p = rooted_file_size f p.
Proof.
  intros Hm. unfold durable_file_size, rooted_file_size. rewrite durable_exists_rooted by done.
  unfold rooted_exists. rewrite safe_path_resolve by done.
  destruct (resolve_path f p) as [q|]; [|done]. cbn [result_bind]. by destruct (rf_files f !! q).
Qed.

Lemma durable_iter_rooted f directory n : durable_iter_files f directory n = rooted_iter_files f directory n.
Proof.
  unfold durable_iter_files, rooted_iter_files, safe_directory, resolve_directory.
  destruct (negb _) eqn:E; [done|]. destruct (positive_bound n); [|done]. cbn [result_bind].
  by destruct (assert_bound f).
Qed.

End agreement.

#[export] Instance RootedFinalizationLaws `{ZoneDatabase} : FinalizationLaws RootedFilesystem.
Proof.
  constructor. intros f p s r f'. simpl. unfold durable_write_staged_sidecar.
  destruct (safe_path f p) as [path|] eqn:Ep; simpl; [|intros [= <- <-]; by left].
  apply safe_path_ok in Ep as (-> & _). destruct (rf_files f !! p) eqn:E; simpl; intros [= <- <-]; [by left|by right].
Qed.

Definition sample_volume : RootedFilesystem :=
  mkRooted (list_to_map [(u "pending/boot-0123456789ab-000007.partial.mp4", [x00])]) true.

