(* ===== verification/Finalizer.v ===== *)
(** * Closed-segment finalization ([src/dashcam/recorder/finalizer.py])

    [RecorderClipFinalizer] over the modelled catalog and filesystem: it registers the clip being
    written, stages the sidecar of a closed segment, registers its promotion with the catalog and has
    it carried out; it also runs the control operations and the recovery pass of the recorder. The
    injected monotonic clock is a function of the place that reads it. *)

From Stdlib Require Import Ascii String ZArith Lia Strings.Byte.
From stdpp Require Import base list gmap strings.
From S2P Require Import Prelude PyStr PyFloat Uuid DateTime State Naming Intents Models Filesystem.
From S2P Require Import CatalogDb Catalog Reconcile Reclaimer.
From S2P Require Import LocalTime Metadata Sidecar Coordinator FinalizerFilesystem.

Definition MAX_SIDECAR_BYTES : Z := 1048576.
Definition MAX_DIRECTORY_ENTRIES : Z := 100000.
Definition MAX_PENDING_INTENTS : Z := 1024.
Definition MAX_MONOTONIC_NS : Z := 9223372036854775807.
Definition RECOVERY_INTENT_KINDS : list IntentKind := [FINALIZE; RECONCILE_NAME; PROTECT; UNPROTECT].

Record FinalizerLimits := mkFinalizerLimits {
  fl_max_directory_entries : Z;
  fl_max_pending_intents : Z;
  fl_max_actions_per_intent : Z;
  fl_max_sidecar_bytes : Z;
  fl_max_protection_retries : Z
}.

Definition FinalizerLimits_new (self : FinalizerLimits) : result FinalizerLimits :=
  let! _ :=
    validate_all (fun '(name, value, maximum) =>
        raise_if (value <=? 0) || (maximum <? value) as ValueError msg (name ++ " must be between 1 and its maximum")%string ;;
        Ok tt)
      [ ("max_directory_entries"%string, fl_max_directory_entries self, MAX_DIRECTORY_ENTRIES);
        ("max_pending_intents"%string, fl_max_pending_intents self, MAX_PENDING_INTENTS);
        ("max_actions_per_intent"%string, fl_max_actions_per_intent self, 2);
        ("max_sidecar_bytes"%string, fl_max_sidecar_bytes self, MAX_SIDECAR_BYTES);
        ("max_protection_retries"%string, fl_max_protection_retries self, 8) ] in
  Ok self.

Definition DEFAULT_FINALIZER_LIMITS : FinalizerLimits := mkFinalizerLimits 4096 64 2 MAX_SIDECAR_BYTES 3.

Record FinalizationOutcome := mkOutcome {
  fo_clip_id : UUID;
  fo_intent_id : option UUID;
  fo_actions_attempted : Z;
  fo_complete : bool;
  fo_resumed : bool
}.

Record FinalizationRecoveryReport := mkRecoveryReport {
  fr_intents_examined : Z;
  fr_actions_attempted : Z;
  fr_completed : Z;
  fr_more_work : bool
}.

Record MetadataReconciliationCandidate := mkMetadataCandidate { mc_clip_id : UUID; mc_retention_order : Z }.

Definition non_negative (value : Z) (name : string) : result unit :=
  raise_if value <? 0 as ValueError msg (name ++ " must be a non-negative integer")%string ;; Ok tt.

Definition MetadataReconciliationCandidate_new (id : UUID) (order : Z) : result MetadataReconciliationCandidate :=
  let! _ := non_negative order "retention_order" in Ok (mkMetadataCandidate id order).

(** ** Equality of sidecars

    [==] of the frozen dataclasses compares their fields: floats by value, times by instant. *)

Definition option_eqb {A} (eqb : A -> A -> bool) (x y : option A) : bool :=
  match x, y with Some a, Some b => eqb a b | None, None => true | _, _ => false end.

Fixpoint list_eqb {A} (eqb : A -> A -> bool) (x y : list A) : bool :=
  match x, y with
  | [], [] => true
  | a :: x, b :: y => eqb a b && list_eqb eqb x y
  | _, _ => false
  end.

Definition datetime_eqb (x y : datetime) : bool :=
  match dt_off x, dt_off y with
  | Some _, Some _ => utc_us x =? utc_us y
  | None, None => local_us x =? local_us y
  | _, _ => false
  end.

Definition anchor_eqb (x y : TimeAnchor) : bool :=
  bool_decide (ta_source x = ta_source y) && (ta_monotonic_ns x =? ta_monotonic_ns y)
  && datetime_eqb (ta_utc x) (ta_utc y) && (ta_uncertainty_ns x =? ta_uncertainty_ns y)
  && bool_decide (ta_provenance x = ta_provenance y).

Definition video_eqb (x y : VideoSummary) : bool :=
  bool_decide (v_codec x = v_codec y) && (v_width x =? v_width y) && (v_height x =? v_height y)
  && feq (v_fps_nominal x) (v_fps_nominal y) && (v_target_bitrate_bps x =? v_target_bitrate_bps y)
  && (v_measured_bitrate_bps x =? v_measured_bitrate_bps y) && (v_frames_written x =? v_frames_written y)
  && (v_dropped_frames x =? v_dropped_frames y).

Definition sample_eqb (x y : GpsSample) : bool :=
  (s_monotonic_ns x =? s_monotonic_ns y) && option_eqb datetime_eqb (s_utc x) (s_utc y)
  && bool_decide (s_timestamp_quality x = s_timestamp_quality y)
  && option_eqb feq (s_lat_deg x) (s_lat_deg y) && option_eqb feq (s_lon_deg x) (s_lon_deg y)
  && option_eqb feq (s_speed_mps x) (s_speed_mps y) && option_eqb feq (s_course_deg x) (s_course_deg y)
  && option_eqb feq (s_altitude_m x) (s_altitude_m y)
  && bool_decide (s_fix_quality x = s_fix_quality y) && bool_decide (s_satellites x = s_satellites y)
  && option_eqb feq (s_hdop x) (s_hdop y).

Definition gps_eqb (x y : GpsSummary) : bool :=
  Bool.eqb (g_available x) (g_available y) && option_eqb datetime_eqb (g_first_fix_utc x) (g_first_fix_utc y)
  && list_eqb sample_eqb (g_samples x) (g_samples y).

Definition sidecar_eqb `{ZoneDatabase} (x y : Metadata.ClipSidecar) : bool :=
  (sd_schema_version x =? sd_schema_version y)
  && bool_decide (sd_clip_id x = sd_clip_id y) && bool_decide (sd_boot_id x = sd_boot_id y)
  && (sd_sequence x =? sd_sequence y)
  && bool_decide (sd_video_file x = sd_video_file y) && bool_decide (sd_metadata_file x = sd_metadata_file y)
  && option_eqb datetime_eqb (sd_start_utc x) (sd_start_utc y) && option_eqb datetime_eqb (sd_end_utc x) (sd_end_utc y)
  && (sd_start_monotonic_ns x =? sd_start_monotonic_ns y) && (sd_end_monotonic_ns x =? sd_end_monotonic_ns y)
  && bool_decide (sd_gps_time_state x = sd_gps_time_state y)
  && bool_decide (sd_system_clock_state x = sd_system_clock_state y)
  && bool_decide (sd_timestamp_quality x = sd_timestamp_quality y)
  && option_eqb anchor_eqb (sd_time_anchor x) (sd_time_anchor y)
  && bool_decide (sd_timezone x = sd_timezone y)
  && option_eqb local_eqb (sd_start_local x) (sd_start_local y)
  && video_eqb (sd_video x) (sd_video y) && bool_decide (sd_audio x = sd_audio y) && gps_eqb (sd_gps x) (sd_gps y)
  && Bool.eqb (sd_protected x) (sd_protected y) && bool_decide (sd_protection_reason x = sd_protection_reason y)
  && bool_decide (sd_software_version x = sd_software_version y) && bool_decide (sd_warnings x = sd_warnings y).

(** ** Paths *)

Definition or_refused {A} (r : result A) (m : string) : result A :=
  match r with
  | Ok a => Ok a
  | Err e => if bool_decide (exn_cls e = ClipNameError) then Err (Exn FinalizationRefused m) else Err e
  end.

Definition promotion_source (provisional_video_name : str) : result str :=
  let! source := or_refused (parse_clip_filename provisional_video_name) "clip filename identity is invalid" in
  raise_if negb (partial source) || negb (bool_decide (extension source = u "mp4"))
    as FinalizationRefused msg "source must be one provisional .partial.mp4" ;;
  Ok (u "pending/" ++ provisional_video_name).

Definition promotion_paths (provisional_video_name : str) (sidecar : Metadata.ClipSidecar) : result PairPaths :=
  let! names := or_refused (let! source := parse_clip_filename provisional_video_name in
                            let! target := parse_clip_filename (sd_video_file sidecar) in
                            Ok (source, target)) "clip filename identity is invalid" in
  let '(source, target) := names in
  raise_if negb (partial source) || negb (bool_decide (extension source = u "mp4"))
    as FinalizationRefused msg "source must be one provisional .partial.mp4" ;;
  raise_if partial target as FinalizationRefused msg "refusing to promote a .partial basename into clips" ;;
  raise_if negb (bool_decide (boot_id source = boot_id target)) || negb (sequence source =? sequence target)
    as FinalizationRefused msg "source and finalized target identities differ" ;;
  raise_if negb (bool_decide (boot_id target = short_boot_id (sd_boot_id sidecar)))
    as FinalizationRefused msg "filename boot token does not match the sidecar boot UUID" ;;
  raise_if negb (bool_decide (sd_metadata_file sidecar = removesuffix (u ".mp4") (sd_video_file sidecar) ++ u ".json"))
    as FinalizationRefused msg "sidecar pair identity is inconsistent" ;;
  let! video_source := promotion_source provisional_video_name in
  PairPaths_new video_source (u "pending/" ++ removesuffix (u ".mp4") provisional_video_name ++ u ".json")
    (Some (u "clips/" ++ sd_video_file sidecar)) (Some (u "clips/" ++ sd_metadata_file sidecar)).

(** ** Readings of the clock *)

Inductive reading :=
  | AT_REGISTRATION
  | AT_ORPHAN (k : nat)
  | AT_CLOSING (attempt : nat)
  | AT_PROMOTION (attempt : nat)
  | AT_RECONCILIATION
  | AT_FOLLOWUP (k : nat)
  | AT_EXPIRY
  | WITHIN (k : nat) (r : reading).

(** The readings of the [k]-th item of a loop. *)
Definition within_item (k : nat) (clock : reading -> Z) : reading -> Z := fun r => clock (WITHIN k r).

(** [replace(sidecar, protected=..., protection_reason=...)]: the constructor checks it again. *)
Definition replace_protection `{ZoneDatabase} (s : Metadata.ClipSidecar) (protected : bool) (reason : option str)
    : result Metadata.ClipSidecar :=
  ClipSidecar_new
    (mkSidecar (sd_schema_version s) (sd_clip_id s) (sd_boot_id s) (sd_sequence s) (sd_video_file s) (sd_metadata_file s)
       (sd_start_utc s) (sd_end_utc s) (sd_start_monotonic_ns s) (sd_end_monotonic_ns s) (sd_gps_time_state s)
       (sd_system_clock_state s) (sd_timestamp_quality s) (sd_time_anchor s) (sd_timezone s) (sd_start_local s)
       (sd_video s) (sd_audio s) (sd_gps s) protected reason (sd_software_version s) (sd_warnings s)).

Section finalizer.
Context {F : Type} `{CatalogFilesystem F} `{FinalizationFilesystem F} `{ZoneDatabase}.
Context (uuids : nat -> UUID) (sha256 : bytes -> str) (limits : FinalizerLimits).
#[local] Instance finalizer_environment : Environment := metadata_environment uuids sha256.

Definition refuse {A} (m : string) : M F A := mfail FinalizationRefused m.

Definition refuse_when (b : bool) (m : string) : M F unit := guard b FinalizationRefused m.

Definition f_sync_file (p : str) : M F unit := fun w => (fs_sync_file (w_fs w) p, w).

Definition f_write_staged_sidecar (p : str) (s : Metadata.ClipSidecar) : M F unit := fun w =>
  let '(r, f) := fs_write_staged_sidecar (w_fs w) p s in (r, set_fs f w).

(** [_now] *)
Definition finalizer_now (value : Z) : M F Z :=
  refuse_when (negb ((0 <=? value) && (value <=? MAX_MONOTONIC_NS))) "monotonic clock returned an invalid value" ;;;
  mret value.

Definition required_target (p : option str) : M F str :=
  match p with None => refuse "pair promotion is missing a target" | Some p => mret p end.

(** ** The clip being written *)

Definition register_active_clip (provisional_video_name : str) (id : UUID) (start_monotonic_ns retention_order : Z)
    (clock : reading -> Z) : M F unit :=
  source <- lift (promotion_source provisional_video_name) ;;
  parsed <- lift (parse_clip_filename (path_name source)) ;;
  refuse_when (negb (partial parsed)) "active fragment must use a provisional filename" ;;;
  lift (non_negative start_monotonic_ns "start_monotonic_ns") ;;;
  lift (non_negative retention_order "retention_order") ;;;
  let sidecar_source := removesuffix (u ".mp4") source ++ u ".json" in
  let clip := mkCatalogClip id WRITING source sidecar_source start_monotonic_ns None retention_order 0 false None false true None None in
  now <- finalizer_now (clock AT_REGISTRATION) ;;
  register_writing_clip clip now.

(** The loop over the clips of an earlier process. *)
Fixpoint orphan_clips (clock : reading -> Z) (k : nat) (l : list CatalogClip) : M F unit :=
  match l with
  | [] => mret tt
  | clip :: l' =>
      now <- finalizer_now (clock (AT_ORPHAN k)) ;;
      mark_writing_clip_orphaned (c_clip_id clip) now ;;;
      orphan_clips clock (S k) l'
  end.

Definition reconcile_orphaned_writing (limit : Z) (clock : reading -> Z) : M F (Z * bool) :=
  lift (positive_bound limit) ;;;
  values <- list_writing_clips (limit + 1) ;;
  orphan_clips clock 0 (limited limit values) ;;;
  mret (Z.min (Z.of_nat (length values)) limit, limit <? Z.of_nat (length values)).

(** ** Pending intents *)

Definition pending_intents : M F (list OperationIntent * bool) :=
  let limit := fl_max_pending_intents limits in
  values <- list_pending_intents_by_kind RECOVERY_INTENT_KINDS (limit + 1) ;;
  mret (limited limit values, limit <? Z.of_nat (length values)).

Definition has_pending_recovery_intent : M F bool :=
  values <- list_pending_intents_by_kind RECOVERY_INTENT_KINDS 1 ;;
  mret (negb (bool_decide (values = []))).

(** [_reconcile] *)
Definition reconcile (intent : OperationIntent) (resumed : bool) (value : Z) : M F FinalizationOutcome :=
  refuse_when (negb (bool_decide (kind intent ∈ RECOVERY_INTENT_KINDS))) "finalizer cannot execute this pair-intent kind" ;;;
  now <- finalizer_now value ;;
  result <- reconcile_intent (intent_id intent) now (fl_max_actions_per_intent limits) ;;
  refuse_when (negb (bool_decide (rr_intent result = intent))) "catalog returned a different reconciliation intent" ;;;
  refuse_when (negb (bool_decide (rr_problems result = [])))
    ("pair promotion is ambiguous: " ++ String.concat "," (rr_problems result)) ;;;
  mret (mkOutcome (clip_id intent) (Some (intent_id intent)) (rr_actions_attempted result) (rr_complete result) resumed).

(** ** Checks of the sidecar *)

(** The exceptions of [except (OSError, SidecarParseError, ValueError)]. *)
Definition sidecar_exception (e : exn) : bool := is_OSError e || is_ValueError e.

Definition read_sidecar (path : str) (m : string) : M F (bytes * Metadata.ClipSidecar) :=
  mtry (payload <- f_read_bytes path (fl_max_sidecar_bytes limits) ;;
        sidecar <- lift (Sidecar.parse_sidecar_bytes payload) ;;
        mret (payload, sidecar))
    (fun e => if sidecar_exception e then refuse m else mraise e).

Definition check_durable_sidecar (intent : OperationIntent) (expected_payload : option bytes) (target location : str) : M F unit :=
  '(payload, sidecar) <- read_sidecar location "durable sidecar is not canonical bounded JSON" ;;
  if negb (bool_decide (sd_clip_id sidecar = clip_id intent)) then refuse "durable sidecar identity differs from its intent"
  else
    video_target <- required_target (video_target (paths intent)) ;;
    refuse_when (negb (bool_decide (sd_video_file sidecar = path_name video_target))
                 || negb (bool_decide (sd_metadata_file sidecar = path_name target)))
      "durable sidecar identity differs from its intent" ;;;
    match expected_payload with
    | None => mret tt
    | Some expected => refuse_when (negb (bool_decide (payload = expected))) "durable sidecar differs from requested metadata"
    end.

Definition validate_durable_sidecar (intent : OperationIntent) (expected_payload : option bytes) : M F unit :=
  target <- required_target (sidecar_target (paths intent)) ;;
  at_source <- f_exists (sidecar_source (paths intent)) ;;
  at_target <- f_exists target ;;
  let locations := (if at_source : bool then [sidecar_source (paths intent)] else []) ++ (if at_target : bool then [target] else []) in
  mfor (check_durable_sidecar intent expected_payload target) locations.

Definition validate_intent (intent : OperationIntent) (p : PairPaths) : M F unit :=
  refuse_when (negb (bool_decide (kind intent = FINALIZE)) || negb (bool_decide (paths intent = p)))
    "existing intent does not match requested promotion".

(** The staged sidecar holds the expected text and reads back as the sidecar. *)
Definition ensure_pending_sidecar (relative_path : str) (sidecar : Metadata.ClipSidecar) (expected_payload : bytes)
    (replace_existing : bool) : M F unit :=
  staged <- f_exists relative_path ;;
  if staged : bool then
    '(existing, parsed) <- read_sidecar relative_path "existing pending sidecar is not canonical" ;;
    if negb (bool_decide (existing = expected_payload)) || negb (sidecar_eqb parsed sidecar) then
      if replace_existing then
        f_replace_bytes_atomic relative_path expected_payload (fl_max_sidecar_bytes limits) ;;;
        persisted <- f_read_bytes relative_path (fl_max_sidecar_bytes limits) ;;
        refuse_when (negb (bool_decide (persisted = expected_payload))) "replacement pending sidecar failed canonical readback"
      else refuse "existing pending sidecar has different identity"
    else mret tt
  else
    f_write_staged_sidecar relative_path sidecar ;;;
    persisted <- f_read_bytes relative_path (fl_max_sidecar_bytes limits) ;;
    parsed <- mtry (lift (Sidecar.parse_sidecar_bytes persisted))
                (fun e => if bool_decide (exn_cls e = SidecarParseError) then refuse "new sidecar failed canonical readback"
                          else mraise e) ;;
    refuse_when (negb (bool_decide (persisted = expected_payload)) || negb (sidecar_eqb parsed sidecar))
      "new sidecar failed identity readback".

(** ** Names *)

Definition directory_names (directory : str) : M F (list str) :=
  '(listed, _, truncated) <- f_iter_files directory (fl_max_directory_entries limits) ;;
  refuse_when truncated (string_of_list_ascii directory ++ " directory exceeds collision scan bound") ;;;
  mret (map path_name listed).

Definition same_casefolded (expected : str) (names : list str) : list str :=
  List.filter (fun name => bool_decide (casefold name = casefold expected)) names.

Definition require_unique_exact (names : list str) (path : str) : M F unit :=
  refuse_when (negb (bool_decide (same_casefolded (path_name path) names = [path_name path])))
    "provisional MP4 identity is missing or case-ambiguous".

Definition require_absent_casefold (names : list str) (path : option str) (allow_exact : bool) : M F unit :=
  target <- required_target path ;;
  let matches := same_casefolded (path_name target) names in
  refuse_when (negb (bool_decide (matches = []) || allow_exact && bool_decide (matches = [path_name target])))
    "refusing case-insensitive filename collision".

Definition get_clip_if_present (id : UUID) : M F (option CatalogClip) :=
  mtry (clip <- get_clip id ;; mret (Some clip))
    (fun e => if bool_decide (exn_cls e = ClipNotFoundError) then mret None else mraise e).

(** ** Finalization *)

(** A finalized clip already at the requested targets with the requested sidecar. *)
Definition completed_replay (clip : CatalogClip) (p : PairPaths) (expected_payload : bytes) : M F FinalizationOutcome :=
  if negb (bool_decide (c_lifecycle clip = FINALIZED)) || negb (c_pair_reconciled clip)
     || negb (bool_decide (Some (c_video_path clip) = video_target p))
     || negb (bool_decide (Some (c_sidecar_path clip) = sidecar_target p))
  then refuse "catalog already contains conflicting clip state"
  else
    video_exists <- f_exists (c_video_path clip) ;;
    sidecar_exists <- (if video_exists : bool then f_exists (c_sidecar_path clip) else mret false) ;;
    refuse_when (negb sidecar_exists) "catalog already contains conflicting clip state" ;;;
    intent <- lift (OperationIntent_new (mkUUID 0) (c_clip_id clip) FINALIZE 0 p Intents.SCHEMA_VERSION) ;;
    validate_durable_sidecar intent (Some expected_payload) ;;;
    mret (mkOutcome (c_clip_id clip) None 0 true true).

Definition finalizing_clip (s : Metadata.ClipSidecar) (p : PairPaths) (retention_order size_bytes : Z) : CatalogClip :=
  mkCatalogClip (sd_clip_id s) FINALIZING (video_source p) (sidecar_source p) (sd_start_monotonic_ns s)
    (Some (sd_end_monotonic_ns s)) retention_order size_bytes (sd_protected s) (sd_protection_reason s) false true None None.

(** One attempt: take the protection of an active clip, stage the sidecar that states it, and register
    the promotion; [None] when the protection changed in between. *)
Definition register_attempt (sidecar : Metadata.ClipSidecar) (p : PairPaths) (retention_order size_bytes : Z) (active : bool)
    (clock : reading -> Z) (k : nat) : M F (option (UUID * Metadata.ClipSidecar)) :=
  '(effective, revision) <-
    (if active then
       now <- finalizer_now (clock (AT_CLOSING k)) ;;
       protection <- active_closing_protection (sd_clip_id sidecar) now ;;
       effective <- lift (replace_protection sidecar (ap_protected protection) (ap_reason protection)) ;;
       mret (effective, Some (ap_revision protection))
     else mret (sidecar, None)) ;;
  ensure_pending_sidecar (sidecar_source p) effective (Sidecar.to_canonical_json effective) active ;;;
  mtry (now <- finalizer_now (clock (AT_PROMOTION k)) ;;
        id <- register_finalizing_clip (finalizing_clip effective p retention_order size_bytes) p now revision ;;
        mret (Some (id, effective)))
    (fun e => if bool_decide (exn_cls e = ActiveClipProtectionChanged) then mret None else mraise e).

(** The loop over at most [n] attempts. *)
Fixpoint register_attempts (sidecar : Metadata.ClipSidecar) (p : PairPaths) (retention_order size_bytes : Z) (active : bool)
    (clock : reading -> Z) (n k : nat) : M F (UUID * Metadata.ClipSidecar) :=
  match n with
  | O => refuse "active clip protection did not stabilize within its retry bound"
  | S n' =>
      registered <- register_attempt sidecar p retention_order size_bytes active clock k ;;
      match registered with
      | Some r => mret r
      | None => register_attempts sidecar p retention_order size_bytes active clock n' (S k)
      end
  end.

Definition find_registered_intent (id clip : UUID) (p : PairPaths) : M F OperationIntent :=
  found <- get_pending_intent id ;;
  match found with
  | None => refuse "catalog did not expose the committed intent"
  | Some intent =>
      refuse_when (negb (bool_decide (clip_id intent = clip))) "registered intent changed clip identity" ;;;
      validate_intent intent p ;;;
      mret intent
  end.

(** The bounded follow-up moves that carry out a protection change: [n] rounds, then a refusal. *)
Fixpoint reconcile_followups (initial : FinalizationOutcome) (clock : reading -> Z) (n k : nat) (actions : Z)
    : M F FinalizationOutcome :=
  let with_actions complete :=
    mkOutcome (fo_clip_id initial) (fo_intent_id initial) actions complete (fo_resumed initial) in
  match n with
  | O => refuse "clip protection compensation exceeded its bound"
  | S n' =>
      values <- list_pending_intents_for_clip (fo_clip_id initial) [PROTECT; UNPROTECT] 2 ;;
      match values with
      | [] => mret (with_actions (fo_complete initial))
      | [intent] =>
          followup <- reconcile intent true (clock (AT_FOLLOWUP k)) ;;
          if negb (fo_complete followup) then
            mret (mkOutcome (fo_clip_id initial) (fo_intent_id initial) (actions + fo_actions_attempted followup) false
                    (fo_resumed initial))
          else reconcile_followups initial clock n' (S k) (actions + fo_actions_attempted followup)
      | _ => refuse "clip has ambiguous protection follow-up intents"
      end
  end.

Definition reconcile_clip_followups (initial : FinalizationOutcome) (clock : reading -> Z) : M F FinalizationOutcome :=
  reconcile_followups initial clock 2 0 (fo_actions_attempted initial).

(** The scan for names the promotion would collide with. *)
Definition require_free_names (p : PairPaths) : M F unit :=
  pending_names <- directory_names (u "pending") ;;
  require_unique_exact pending_names (video_source p) ;;;
  require_absent_casefold pending_names (Some (sidecar_source p)) true ;;;
  mfor (fun directory =>
      names <- directory_names directory ;;
      require_absent_casefold names (video_target p) false ;;;
      require_absent_casefold names (sidecar_target p) false)
    [u "clips"; u "protected"].

(** The closed MP4 exists, holds something, and is on the card. *)
Definition closed_video_size (source : str) : M F Z :=
  video_exists <- f_exists source ;;
  refuse_when (negb video_exists) "closed provisional MP4 is missing" ;;;
  size_bytes <- f_file_size source ;;
  refuse_when (size_bytes <=? 0) "closed provisional MP4 is empty" ;;;
  mret size_bytes.

(** A first finalization: the part of [finalize] with no intent pending and no finished clip. *)
Definition promote (p : PairPaths) (sidecar : Metadata.ClipSidecar) (retention_order : Z) (active : bool) (clock : reading -> Z)
    : M F FinalizationOutcome :=
  require_free_names p ;;;
  size_bytes <- closed_video_size (video_source p) ;;
  f_sync_file (video_source p) ;;;
  let attempts := if active then Z.to_nat (fl_max_protection_retries limits) else 1%nat in
  '(id, effective_sidecar) <- register_attempts sidecar p retention_order size_bytes active clock attempts 0 ;;
  intent <- find_registered_intent id (sd_clip_id sidecar) p ;;
  outcome <- reconcile intent false (clock AT_RECONCILIATION) ;;
  if fo_complete outcome && sd_protected effective_sidecar then reconcile_clip_followups outcome clock
  else mret outcome.

Definition finalize (provisional_video_name : str) (sidecar : Metadata.ClipSidecar) (retention_order : Z) (clock : reading -> Z)
    : M F FinalizationOutcome :=
  p <- lift (promotion_paths provisional_video_name sidecar) ;;
  lift (non_negative retention_order "retention_order") ;;;
  let expected_payload := Sidecar.to_canonical_json sidecar in
  '(pending, truncated) <- pending_intents ;;
  match List.filter (fun intent => bool_decide (clip_id intent = sd_clip_id sidecar)) pending with
  | [intent] =>
      validate_intent intent p ;;;
      validate_durable_sidecar intent (Some expected_payload) ;;;
      reconcile intent true (clock AT_RECONCILIATION)
  | _ :: _ => refuse "multiple pending intents exist for one clip"
  | [] =>
      refuse_when truncated "pending intent scan bound prevents unique registration" ;;;
      existing <- get_clip_if_present (sd_clip_id sidecar) ;;
      match existing with
      | Some clip =>
          if decide (c_lifecycle clip = WRITING) then promote p sidecar retention_order true clock
          else completed_replay clip p expected_payload
      | None => promote p sidecar retention_order false clock
      end
  end.

(** ** Control operations *)

Definition execute_intent (id : UUID) (clock : reading -> Z) : M F FinalizationOutcome :=
  found <- get_pending_intent id ;;
  match found with
  | None => refuse "control intent is not pending"
  | Some intent =>
      outcome <- reconcile intent true (clock AT_RECONCILIATION) ;;
      if fo_complete outcome then reconcile_clip_followups outcome clock else mret outcome
  end.

(** The loop over the moves an event queued. *)
Fixpoint execute_queued (clock : reading -> Z) (k : nat) (l : list UUID) : M F unit :=
  match l with
  | [] => mret tt
  | id :: l' =>
      outcome <- execute_intent id (within_item k clock) ;;
      refuse_when (negb (fo_complete outcome)) "event protection intent did not converge" ;;;
      execute_queued clock (S k) l'
  end.

Definition trigger_event (current_clip_id : option UUID) (source : EventSource) (monotonic_now_ns previous_count next_count : Z)
    (event_id : UUID) (clock : reading -> Z) : M F EventProtectionResult :=
  event <- Catalog.trigger_event current_clip_id source monotonic_now_ns previous_count next_count (Some event_id) true ;;
  execute_queued clock 0 (er_queued_intent_ids event) ;;;
  mret event.

Definition video_size (provisional_video_name : str) : M F Z :=
  source <- lift (promotion_source provisional_video_name) ;;
  closed_video_size source.

(** ** Recovery *)

(** The loop over the pending intents, with its running totals. *)
Fixpoint recover_intents (clock : reading -> Z) (k : nat) (l : list OperationIntent) (examined actions completed : Z)
    (incomplete : bool) : M F (Z * Z * Z * bool) :=
  match l with
  | [] => mret (examined, actions, completed, incomplete)
  | intent :: l' =>
      (if decide (kind intent = FINALIZE) then validate_durable_sidecar intent None else mret tt) ;;;
      outcome <- reconcile intent true (within_item k clock AT_RECONCILIATION) ;;
      (if decide (kind intent = RECONCILE_NAME) then validate_durable_sidecar intent None else mret tt) ;;;
      recover_intents clock (S k) l' (examined + 1) (actions + fo_actions_attempted outcome)
        (completed + Z.b2z (fo_complete outcome)) (incomplete || negb (fo_complete outcome))
  end.

Definition reconcile_pending (clock : reading -> Z) : M F FinalizationRecoveryReport :=
  '(intents, truncated) <- pending_intents ;;
  '(examined, actions, completed, incomplete) <- recover_intents clock 0 intents 0 0 0 false ;;
  more <- (if truncated || incomplete then mret true else has_pending_recovery_intent) ;;
  mret (mkRecoveryReport examined actions completed more).

Definition expire_download_leases (boot_id : str) (clock : reading -> Z) : M F bool :=
  now <- finalizer_now (clock AT_EXPIRY) ;;
  '(_, more) <- clear_expired_download_leases now boot_id (fl_max_pending_intents limits) ;;
  recovery <- reconcile_pending clock ;;
  mret (more || fr_more_work recovery).

(** [clock1] and [clock2] are the reclaimer's own readings. *)
Definition reclaim_storage_once (boot_id : str) (allow_new : bool) (clock : reading -> Z) (clock1 clock2 : Z) : M F ReclamationStep :=
  expire_download_leases boot_id clock ;;;
  run_one boot_id allow_new clock1 clock2.

Definition metadata_reconciliation_candidates (expected_boot_id : UUID) (limit after_order : Z) (after_clip_id : option UUID)
    (clock : reading -> Z) : M F (list MetadataReconciliationCandidate) :=
  expire_download_leases (uuid_str expected_boot_id) clock ;;;
  clips <- list_metadata_reconciliation_candidates expected_boot_id limit after_order after_clip_id ;;
  lift (result_map (fun clip => MetadataReconciliationCandidate_new (c_clip_id clip) (c_retention_order clip)) clips).

(** The coordinator has its own limits and its own readings of the clock. *)
Definition reconcile_metadata (id : UUID) (anchor : TimeAnchor) (expected_boot_id : UUID) (gps_time_state : GpsTimeState)
    (system_clock_state : SystemClockState) (clock1 clock2 : Z) : M F MetadataCoordinatorOutcome :=
  reconcile_clip uuids sha256 DEFAULT_LIMITS id anchor expected_boot_id gps_time_state system_clock_state clock1 clock2.
End finalizer.
