(* ===== verification/FinalizerSidecar.v ===== *)
(** * A staged sidecar reads back equal

    The finalizer compares the sidecar it staged with the one it reads back, by the equality of the
    dataclasses: they are equal for every sidecar that survives its file. *)

From Stdlib Require Import Ascii String ZArith SpecFloat Lia Strings.Byte.
From stdpp Require Import base list gmap strings.
From S2P Require Import Prelude PyStr PyFloat Uuid DateTime State Naming Models LocalTime Metadata.
From S2P Require Import Sidecar SidecarMapping SidecarProperties SidecarClaims Finalizer.

Lemma feq_refl x : isfinite x = true -> feq x x = true.
Proof.
  destruct x as [[]|[]| |[] m e]; try done; intros _; unfold feq, SFeqb, SFcompare;
    by rewrite Z.compare_refl, Pos.compare_cont_refl.
Qed.

Lemma option_eqb_refl {A} (eqb : A -> A -> bool) x :
  if_some (fun a => eqb a a = true) x -> option_eqb eqb x x = true.
Proof. destruct x; [|done]. intros Hx. by apply Hx. Qed.

Lemma list_eqb_refl {A} (eqb : A -> A -> bool) l : Forall (fun a => eqb a a = true) l -> list_eqb eqb l l = true.
Proof. induction 1 as [|a l Ha _ IH]; simpl; [done|]. by rewrite Ha. Qed.

Lemma datetime_eqb_refl x : datetime_eqb x x = true.
Proof. unfold datetime_eqb. destruct (dt_off x); by rewrite Z.eqb_refl. Qed.

Lemma finite_option lo hi x : if_some (float_within lo hi) x -> option_eqb feq x x = true.
Proof. intros Hx. apply option_eqb_refl. intros a Ha. apply feq_refl. by destruct (Hx a Ha). Qed.

Lemma option_datetime_refl x : option_eqb datetime_eqb x x = true.
Proof. apply option_eqb_refl. intros ? _. apply datetime_eqb_refl. Qed.

Lemma sample_eqb_refl g : sample_ok g -> sample_eqb g g = true.
Proof.
  intros (_ & _ & _ & _ & Hlat & Hlon & Hspeed & Hcourse & Halt & _ & _ & Hh). unfold sample_eqb.
  rewrite (finite_option _ _ _ Hlat), (finite_option _ _ _ Hlon), (finite_option _ _ _ Hspeed), (finite_option _ _ _ Halt),
    (finite_option _ _ _ Hh), option_datetime_refl, Z.eqb_refl, !bool_decide_true by done.
  rewrite (option_eqb_refl feq (s_course_deg g)); [done|]. intros a Ha. apply feq_refl. by destruct (Hcourse a Ha).
Qed.

Lemma video_eqb_refl v : video_ok v -> video_eqb v v = true.
Proof.
  intros Hv. unfold video_eqb. rewrite !Z.eqb_refl, bool_decide_true by done. rewrite feq_refl; [done|]. apply Hv.
Qed.

Lemma anchor_eqb_refl a : anchor_eqb a a = true.
Proof. unfold anchor_eqb. by rewrite !Z.eqb_refl, !bool_decide_true, datetime_eqb_refl. Qed.

Section equality.
Context `{ZoneLaws}.

(** A reading whose offset does not depend on its fold equals itself at that offset. *)
Lemma local_eqb_own_offset x off :
  utcoffset x = Some off -> utcoffset (flip_fold x) = Some off -> local_eqb (at_offset x off) x = true.
Proof.
  intros Ho Hf. unfold local_eqb. case_bool_decide; [unfold fields_us; cbn; apply Z.eqb_refl|].
  rewrite Ho, Hf. cbn [at_offset utcoffset flip_fold ld_tz]. rewrite !bool_decide_true by done. cbn [negb orb].
  unfold fields_us. cbn [at_offset ld_date ld_time]. apply Z.eqb_refl.
Qed.

(** The start read back with its offset for its zone equals the start. *)
Lemma start_local_eqb s :
  validate_time_fields s = Ok tt -> if_some (fun x => local_carried x = true) (sd_start_local s) -> repeated_hour s = false ->
  option_eqb local_eqb (option_map reread_local (sd_start_local s)) (sd_start_local s) = true.
Proof.
  intros Hv Hc Hr. pose proof (time_fields_local s Hv) as Hn. unfold validate_time_fields, repeated_hour in *.
  destruct (sd_start_local s) as [x|]; [|done]. cbn [option_map option_eqb].
  destruct (local_carried_facts x (Hc x eq_refl)) as (Hd & Ht & _). specialize (Hn x eq_refl).
  destruct (bool_decide (sd_timestamp_quality s = MONOTONIC_ONLY)).
  { destruct (sd_start_utc s), (sd_end_utc s), (sd_time_anchor s); done. }
  destruct (sd_start_utc s) as [su|], (sd_end_utc s) as [eu|], (sd_time_anchor s) as [a|]; try done.
  unfold validate_derived_times in Hv. inv_ok. bool_prop.
  match goal with He : astimezone_zone _ _ = Ok ?e |- _ => apply astimezone_zone_ok in He as (Hde & Hte & Hk & off & Ho & _); rename e into e0 end.
  assert (utcoffset x = Some off) as Hox by congruence. unfold reread_local. rewrite Hox. apply local_eqb_own_offset; [done|].
  unfold local_eqb in *. destruct (bool_decide (ld_tz x = ld_tz e0)) eqn:Etz; bool_prop.
  - unfold utcoffset, flip_fold in *. cbn [ld_tz ld_date ld_time ld_fold]. rewrite Etz, Hk in *. injection Hox as Hox.
    destruct (ld_fold x); cbn [negb]; congruence.
  - destruct (bool_decide (utcoffset x = utcoffset (flip_fold x))) eqn:Ef; cbn [negb orb] in *; [|done]. bool_prop. congruence.
Qed.

(** The parsed sidecar compares equal to the staged one. *)
Lemma reread_eqb s : built s -> carried s = true -> repeated_hour s = false -> sidecar_eqb (reread s) s = true.
Proof.
  intros Hb Hc Hr. pose proof (built_ok s Hb) as Hok.
  assert (option_eqb local_eqb (sd_start_local (reread s)) (sd_start_local s) = true) as Hlocal.
  { apply start_local_eqb; [|by apply carried_facts|done]. pose proof (built_sidecar s Hb) as Hn.
    by apply ClipSidecar_new_ok in Hn as (_ & _ & _ & _ & _ & _ & _ & _ & _ & Ht & _). }
  assert (list_eqb sample_eqb (g_samples (sd_gps s)) (g_samples (sd_gps s)) = true) as Hsamples.
  { apply list_eqb_refl. eapply Forall_impl; [apply (ok_gps s Hok)|]. apply sample_eqb_refl. }
  unfold sidecar_eqb, gps_eqb. rewrite Hlocal.
  cbn [reread sd_schema_version sd_clip_id sd_boot_id sd_sequence sd_video_file sd_metadata_file sd_start_utc sd_end_utc
    sd_start_monotonic_ns sd_end_monotonic_ns sd_gps_time_state sd_system_clock_state sd_timestamp_quality sd_time_anchor
    sd_timezone sd_video sd_audio sd_gps sd_protected sd_protection_reason sd_software_version sd_warnings].
  rewrite !Z.eqb_refl, !option_datetime_refl, !eqb_reflx, video_eqb_refl, Hsamples by apply (ok_video s Hok).
  rewrite !bool_decide_true by done.
  rewrite (option_eqb_refl anchor_eqb) by (intros ? _; apply anchor_eqb_refl). done.
Qed.
End equality.
