(* ===== verification/FinalizerSafe.v ===== *)
(** * The finalizer keeps the catalog well-formed and loses no media

    Whatever a call returns, over any lawful filesystem and with any step of it failing. *)

From Stdlib Require Import Ascii String ZArith Lia Strings.Byte.
From stdpp Require Import base list gmap strings sorting.
From S2P Require Import Prelude PyStr Uuid State Naming Intents Models Filesystem.
From S2P Require Import CatalogDb Catalog Reconcile ManagedPath CatalogInv CatalogSafe.
From S2P Require Import ReconcileSafe CatalogProperties ReconcileProperties Protection Reclaimer ReclaimerProperties.
From S2P Require Import LocalTime Metadata Sidecar Projection Coordinator CoordinatorProperties.
From S2P Require Import FinalizerFilesystem Finalizer.

(** ** Media *)

Section media.
Context {F : Type} `{FilesystemLaws F} `{Environment}.
Implicit Types w : World F.

(** Every content the sidecar parser does not accept is still somewhere. *)
Definition media_kept : relation (gmap str bytes) := fun fs fs' =>
  forall d, is_ok (CatalogDb.parse_sidecar_bytes d) = false -> (exists p, fs !! p = Some d) -> exists p, fs' !! p = Some d.

#[export] Instance media_kept_preorder : PreOrder media_kept.
Proof. split; intros ?; unfold media_kept; eauto. Qed.

Lemma data_kept_media fs fs' : data_kept fs fs' -> media_kept fs fs'.
Proof. intros Hk d _. apply Hk. Qed.

(** Replacing an accepted sidecar. *)
Lemma replaced_media_kept fs p d payload :
  fs !! p = Some d -> is_ok (CatalogDb.parse_sidecar_bytes d) = true -> media_kept fs (<[p := payload]> fs).
Proof.
  intros Hd Hs x Hx [q Hq]. exists q. rewrite lookup_insert_ne; [done|]. intros ->. congruence.
Qed.

Lemma replace_media p payload n w d :
  files w !! p = Some d -> is_ok (CatalogDb.parse_sidecar_bytes d) = true ->
  media_kept (files w) (files (snd (f_replace_bytes_atomic p payload n w))).
Proof.
  intros Hd Hs. unfold f_replace_bytes_atomic. destruct (fs_replace_bytes_atomic _ _ _ _) as [r f] eqn:Ep. simpl.
  destruct (replace_spec _ _ _ _ _ _ Ep) as [[E _]|[_ E]]; unfold files in *; simpl; rewrite E; [done|].
  by eapply replaced_media_kept.
Qed.

Lemma affects_bind_at {A B : Type} (R : relation (gmap str bytes)) `{!PreOrder R} (m : M F A) (k : A -> M F B) w :
  R (files w) (files (snd (m w))) -> (forall a, affects R (k a)) -> R (files w) (files (snd (mbind m k w))).
Proof.
  intros Hm Hk. unfold mbind. destruct (m w) as [[a|e] w1]; simpl in *; [|done]. etrans; [exact Hm|apply Hk].
Qed.

Lemma install_target_media i payload hash : affects (F := F) media_kept (install_target_sidecar i payload hash).
Proof.
  intros w. unfold install_target_sidecar. unfold mbind at 1, f_read_bytes at 1.
  destruct (fs_read_bytes _ _ _) as [current|e] eqn:Er; [|simpl; reflexivity]. apply read_spec in Er.
  destruct (bool_decide _); [simpl; reflexivity|]. destruct (negb (bool_decide (_ = hash))); [simpl; reflexivity|].
  unfold mbind at 1, lift. destruct (CatalogDb.parse_sidecar_bytes current) as [s|] eqn:Es; [|simpl; reflexivity].
  destruct (negb _); [simpl; reflexivity|].
  apply affects_bind_at; [apply _|eapply replace_media; [exact Er|by rewrite Es]|].
  intros a. apply affects_same; [apply _|]. repeat fs_same_step.
Qed.

Lemma prepare_name_media i row : affects (F := F) media_kept (prepare_name_reconciliation_sidecar i row).
Proof.
  unfold prepare_name_reconciliation_sidecar. destruct (recovery_data row) as [[payload hash]|]; [|by apply affects_same; [apply _|]].
  apply affects_mtry; [apply _| |intros e; apply affects_nothing; [apply _|]; intros w; by destruct (_ || _)].
  apply affects_bind; [apply _|by apply affects_nothing; [apply _|]|]. intros t. cbv zeta.
  destruct (negb _); [by apply affects_nothing; [apply _|]|].
  apply affects_bind; [apply _|by apply affects_nothing; [apply _|]|]. intros [].
  - apply install_target_media.
  - apply affects_same; [apply _|]. repeat fs_same_step.
Qed.

(** Carrying out anything but a deletion. *)
Lemma reconcile_media w id now n :
  db_ok (w_db w) -> (forall row, intents (w_db w) !! id = Some row -> kind (i_intent row) <> DELETE) ->
  media_kept (files w) (files (snd (reconcile_intent id now n w))).
Proof.
  intros Hok Hk. destruct (reconcile_intent_files id now n w Hok) as [Hsame|(row & v & s & Hi & Hinc & Hplan)].
  { unfold files. by rewrite Hsame. }
  cbv zeta in Hplan. destruct Hplan as [_ Hfs]. specialize (Hk row Hi).
  set (plan := plan_reconciliation (i_intent row) v s) in *.
  assert (Ha : affects media_kept (carry_out (i_intent row) row plan id now n)).
  { apply carry_out_affects; [apply _|..].
    - unfold validate_before_actions. destruct (kind (i_intent row)); try (by apply affects_same; [apply _|]).
      + apply affects_same; [apply _|]. repeat (fs_same_step || apply validate_finalize_fs).
      + apply prepare_name_media.
    - apply affects_same; [apply _|]. unfold confirm_absent. by destruct (kind (i_intent row)).
    - intros a Hin%plan_action_shape. unfold run_action.
      assert (act_kind a = MOVE) as -> by by destruct (kind (i_intent row)).
      apply affects_bind; [apply _| |intros t; eapply affects_weaken; [apply data_kept_media|apply affects_move]].
      apply affects_same; [apply _|apply fs_same_the]. }
  specialize (Ha w). unfold files in *. by rewrite Hfs.
Qed.

(** ** Safe steps

    From any reachable world the step ends in a reachable one, whatever it returns, and keeps the media. *)

Definition safe_at {A : Type} (m : M F A) w : Prop :=
  catalog_reachable w -> catalog_reachable (snd (m w)) /\ media_kept (files w) (files (snd (m w))).

Definition safe {A : Type} (m : M F A) : Prop := forall w, safe_at m w.

Lemma safe_bind_at {A B : Type} (m : M F A) (k : A -> M F B) w :
  safe_at m w -> (forall a w1, m w = (Ok a, w1) -> safe_at (k a) w1) -> safe_at (mbind m k) w.
Proof.
  intros Hm Hk Hok. destruct (Hm Hok) as [Hok1 Hd1]. unfold mbind. destruct (m w) as [[a|e] w1]; simpl in *; [|done].
  destruct (Hk a w1 eq_refl Hok1) as [Hok2 Hd2]. split; [done|]. by etrans.
Qed.

(** A step may assume the invariant it keeps. *)
Lemma safe_with {A : Type} (m : M F A) w : (db_ok (w_db w) -> safe_at m w) -> safe_at m w.
Proof. intros Hm Hok. exact (Hm (reachable_ok w Hok) Hok). Qed.

Lemma safe_here {A : Type} (m : M F A) w : safe m -> safe_at m w.
Proof. intros Hm. apply Hm. Qed.

Lemma safe_bind {A B : Type} (m : M F A) (k : A -> M F B) : safe m -> (forall a, safe (k a)) -> safe (mbind m k).
Proof. intros Hm Hk w. apply safe_bind_at; [apply Hm|intros; apply Hk]. Qed.

Lemma safe_mtry {A : Type} (m : M F A) h : safe m -> (forall e, safe (h e)) -> safe (mtry m h).
Proof.
  intros Hm Hh w Hok. destruct (Hm w Hok) as [Hok1 Hd1]. unfold mtry. destruct (m w) as [[a|e] w1]; simpl in *; [done|].
  destruct (Hh e w1 Hok1) as [Hok2 Hd2]. split; [done|]. by etrans.
Qed.

(** A step that changes nothing. *)
Lemma safe_still {A : Type} (m : M F A) : (forall w, snd (m w) = w) -> safe m.
Proof. intros Hm w Hok. by rewrite Hm. Qed.

(** A step that leaves the files alone. *)
Lemma safe_reaches {A : Type} (m : M F A) : reaches m -> fs_same m -> safe m.
Proof. intros Hk Hf w Hok. split; [by apply Hk|]. unfold files. by rewrite Hf. Qed.

Lemma safe_mfold {A B : Type} (f : B -> A -> M F B) b l : (forall b x, safe (f b x)) -> safe (mfold f b l).
Proof.
  intros Hf. revert b. induction l as [|x l IH]; intros b; simpl; [by apply safe_still|]. by apply safe_bind.
Qed.

Lemma safe_guard b c m : safe (guard (F := F) b c m).
Proof. apply safe_still, still_guard. Qed.

Lemma safe_lift {A : Type} (r : result A) : safe (lift (F := F) r).
Proof. by apply safe_still. Qed.

Lemma fs_same_mfold {A B : Type} (f : B -> A -> M F B) b l : (forall b x, fs_same (f b x)) -> fs_same (mfold f b l).
Proof. intros Hf. revert b. induction l as [|x l IH]; intros b; simpl; [by intros ?|]. by apply fs_same_bind. Qed.
End media.

Ltac fs_db_step :=
  match goal with
  | |- fs_same (transaction _) => apply fs_same_transaction
  | |- fs_same (mfor _ _) => apply fs_same_mfold; intros ? ?
  | |- fs_same (mfold _ _ _) => apply fs_same_mfold; intros ? ?
  | |- fs_same (update_clip _ _) => apply update_clip_fs
  | |- fs_same (insert_intent_locked _ _ _ _ _) => apply insert_intent_fs
  | |- fs_same _ => fs_same_step
  end.

Section catalog.
Context {F : Type} `{FilesystemLaws F} `{Environment}.
Implicit Types w : World F.

(** ** The intents a query returns *)

(** The pending intent of a row of the database. *)
Definition stored_pending (d : DB) (i : OperationIntent) : Prop :=
  exists row, intents d !! intent_id i = Some row /\ i_complete row = false /\ i_intent row = i.

Lemma selected_stored d p n l :
  db_ok d -> result_map intent_from_row (map snd (limited n (select_pending p d))) = Ok l ->
  Forall (fun i => stored_pending d i /\ exists row, i_intent row = i /\ p row = true) l.
Proof.
  intros Hok Hl.
  assert (Hall : forall x, x ∈ limited n (select_pending p d) ->
    intents d !! fst x = Some (snd x) /\ i_complete (snd x) = false /\ p (snd x) = true).
  { intros x Hx. unfold limited in Hx. apply elem_of_take in Hx as (k & Hx%list_elem_of_lookup_2 & _).
    by apply select_pending_elem in Hx. }
  rewrite result_map_stored in Hl.
  2: { apply Forall_map, Forall_forall. intros x Hx%Hall. destruct Hx as (Hx & _). by apply (ok_intents _ Hok) in Hx as (_ & ? & _). }
  injection Hl as <-. rewrite map_map. apply Forall_map, Forall_forall. intros x Hx%Hall. destruct Hx as (Hi & Hinc & Hp).
  split; [|by exists (snd x)]. exists (snd x). split_and!; [|done|done]. by rewrite (proj1 (ok_intents _ Hok _ _ Hi)).
Qed.

Lemma list_by_kind_ok kinds n w l w' :
  db_ok (w_db w) -> list_pending_intents_by_kind kinds n w = (Ok l, w') ->
  w' = w /\ Forall (fun i => stored_pending (w_db w) i /\ kind i ∈ kinds) l.
Proof.
  intros Hok Hm. unfold list_pending_intents_by_kind in Hm. inv_M. split; [done|].
  eapply Forall_impl; [eapply selected_stored; eauto|]. intros i (? & row & <- & Hk). split; [done|]. by bool_prop.
Qed.

Lemma list_for_clip_ok id kinds n w l w' :
  db_ok (w_db w) -> list_pending_intents_for_clip id kinds n w = (Ok l, w') ->
  w' = w /\ Forall (fun i => stored_pending (w_db w) i /\ clip_id i = id /\ kind i ∈ kinds) l.
Proof.
  intros Hok Hm. unfold list_pending_intents_for_clip in Hm. inv_M. split; [done|].
  eapply Forall_impl; [eapply selected_stored; eauto|]. intros i (? & row & <- & Hk). split; [done|]. by bool_prop.
Qed.

Lemma list_pending_ok n w l w' :
  db_ok (w_db w) -> list_pending_intents n w = (Ok l, w') -> w' = w /\ Forall (stored_pending (w_db w)) l.
Proof.
  intros Hok Hm. unfold list_pending_intents in Hm. inv_M. split; [done|].
  eapply Forall_impl; [eapply selected_stored; eauto|]. by intros i (? & _).
Qed.

Lemma get_pending_ok id w o w' :
  db_ok (w_db w) -> get_pending_intent id w = (Ok o, w') ->
  w' = w /\ forall i, o = Some i -> intent_id i = id /\ stored_pending (w_db w) i.
Proof.
  intros Hok Hm. unfold get_pending_intent in Hm.
  apply mbind_ok in Hm as (found & ? & (-> & ->)%query_ok & Hm).
  destruct (intents (w_db w) !! id) as [row|] eqn:Hi; [|by apply mret_ok in Hm as [-> ->]].
  destruct (i_complete row) eqn:Hinc; [by apply mret_ok in Hm as [-> ->]|].
  destruct (ok_intents _ Hok _ _ Hi) as (Hid & Hst & _).
  apply mbind_ok in Hm as (i & ? & [Hl ->]%lift_ok & [-> ->]%mret_ok). rewrite intent_from_row_stored in Hl by done.
  injection Hl as <-. split; [done|]. intros ? [= <-]. split; [done|]. exists row. by rewrite Hid.
Qed.

(** ** Pending intents outlive the carrying out of others *)

(** No intent is rewritten. *)
Definition intents_kept (d d' : DB) : Prop :=
  forall i r, intents d !! i = Some r -> exists r', intents d' !! i = Some r' /\ i_intent r' = i_intent r.

#[export] Instance intents_kept_preorder : PreOrder intents_kept.
Proof.
  split; [intros d i r Hi; by exists r|]. intros a b c Hab Hbc i r Hi.
  destruct (Hab i r Hi) as (r1 & Hr1 & <-). by apply Hbc.
Qed.

Definition grows {A : Type} (m : M F A) : Prop := forall w, intents_kept (w_db w) (w_db (snd (m w))).

Lemma grows_bind {A B : Type} (m : M F A) (k : A -> M F B) : grows m -> (forall a, grows (k a)) -> grows (mbind m k).
Proof.
  intros Hm Hk w. specialize (Hm w). unfold mbind. destruct (m w) as [[a|e] w1]; simpl in *; [|done].
  etrans; [exact Hm|apply Hk].
Qed.

Lemma grows_same {A : Type} (m : M F A) : db_same m -> grows m.
Proof. intros Hm w. by rewrite Hm. Qed.

Lemma grows_mtry {A : Type} (m : M F A) h : grows m -> (forall e, grows (h e)) -> grows (mtry m h).
Proof.
  intros Hm Hh w. specialize (Hm w). unfold mtry. destruct (m w) as [[a|e] w1]; simpl in *; [done|].
  etrans; [exact Hm|apply Hh].
Qed.

Lemma grows_transaction {A : Type} (m : M F A) : grows m -> grows (transaction m).
Proof. intros Hm w. specialize (Hm w). unfold transaction. destruct (m w) as [[a|e] w1]; simpl in *; done. Qed.

Lemma grows_update_clip id f : grows (update_clip (F := F) id f).
Proof.
  intros w i r Hi. exists r. split; [|done]. unfold update_clip, mbind, query, guard. simpl.
  destruct (clips (w_db w) !! id); [|done]. by destruct (negb _).
Qed.

Lemma grows_update_intent id f : (forall r, i_intent (f r) = i_intent r) -> grows (update_intent (F := F) id f).
Proof.
  intros Hf w i r Hi. simpl. rewrite lookup_alter. case_decide as E; [|by exists r].
  subst i. rewrite Hi. simpl. by exists (f r).
Qed.

(** A refused insertion changed nothing. *)
Lemma atomic_insert_intent r : atomic (insert_intent_row (F := F) r).
Proof.
  unfold insert_intent_row. cbv zeta.
  repeat (apply atomic_bind_l; [first [apply db_same_query|apply db_same_guard]|intros ?]). by intros w e w'.
Qed.

Lemma grows_insert_intent r : grows (insert_intent_row (F := F) r).
Proof.
  intros w i s Hi. destruct (insert_intent_row r w) as [[x|e] w'] eqn:E; simpl.
  - apply insert_intent_row_ok in E as (Hn & _ & _ & ->). simpl. exists s.
    rewrite lookup_insert_ne; [done|]. intros E. congruence.
  - assert (w_db w' = w_db w) as -> by (by eapply atomic_insert_intent). by exists s.
Qed.
End catalog.

Ltac grows_step :=
  match goal with
  | |- grows (let x := _ in _) => cbv zeta
  | |- grows (mbind _ _) => apply grows_bind; [|intros ?]
  | |- grows (transaction _) => apply grows_transaction
  | |- grows (mtry _ _) => apply grows_mtry; [|intros ?]
  | |- grows (update_clip _ _) => apply grows_update_clip
  | |- grows (update_intent _ _) => apply grows_update_intent; by intros ?
  | |- grows (insert_intent_row _) => apply grows_insert_intent
  | |- grows (match ?x with _ => _ end) => destruct x
  | |- grows (guard _ _ _) => apply grows_same, db_same_guard
  | |- grows _ => solve [apply grows_same; intros ?; reflexivity]
  end.

Section catalog.
Context {F : Type} `{FilesystemLaws F} `{Environment}.
Implicit Types w : World F.

Lemma grows_insert_locked id k p now e : grows (insert_intent_locked (F := F) id k p now e).
Proof. unfold insert_intent_locked. repeat grows_step. Qed.

Lemma grows_complete i now : grows (complete_intent_locked (F := F) i now).
Proof.
  unfold complete_intent_locked, complete_delete_locked, complete_unprotect_locked, complete_protect_locked,
    complete_rename_locked, mark_intent_complete_locked, queue_protect_after, the, required_clip_row.
  repeat (apply grows_insert_locked || grows_step).
Qed.

Lemma observe_plan_db i : db_same (F := F) (observe_plan i).
Proof.
  unfold observe_plan, exists_optional. repeat (apply db_same_bind; [|intros ?]);
    try (by intros ?); [by destruct (video_target _)|by destruct (sidecar_target _)].
Qed.

Lemma grows_reconcile_intent id now n : grows (reconcile_intent (F := F) id now n).
Proof.
  unfold reconcile_intent, record_problem.
  repeat first [ apply grows_complete | apply grows_same, validate_before_actions_db | apply grows_same, confirm_absent_db
               | apply grows_same, run_actions_db | apply grows_same, observe_plan_db | grows_step ].
Qed.

(** A pending intent stays one of the database, perhaps completed. *)
Definition known (d : DB) (i : OperationIntent) : Prop := exists row, intents d !! intent_id i = Some row /\ i_intent row = i.

Lemma stored_known d i : stored_pending d i -> known d i.
Proof. intros (row & ? & _ & ?). by exists row. Qed.

Lemma known_kept d d' i : intents_kept d d' -> known d i -> known d' i.
Proof. intros Hk (row & Hi & <-). destruct (Hk _ _ Hi) as (row' & Hi' & Hrow'). by exists row'. Qed.

(** Carrying out a known intent that is no deletion is a safe step. *)
Lemma safe_reconcile_intent i now n w :
  known (w_db w) i -> kind i <> DELETE -> safe_at (reconcile_intent (F := F) (intent_id i) now n) w.
Proof.
  intros (row & Hi & Hrow) Hk Hok. split; [by apply reaches_reconcile|].
  apply reconcile_media; [by apply reachable_ok|]. intros row' Hi'. simplify_eq. congruence.
Qed.

(** A catalog call reaches what it reaches in the list of calls. *)
Lemma reaches_call {A : Type} (m : M F A) c : run_call c = void m -> call_typed c -> reaches m.
Proof.
  intros Ec Hc w Hw. pose proof (reach_call w c Hw Hc) as Hr. rewrite Ec in Hr. unfold void, mbind in Hr.
  by destruct (m w) as [[]].
Qed.

Lemma reaches_unit_call (m : M F unit) c : run_call c = m -> call_typed c -> reaches m.
Proof. intros <- Hc w Hw. by apply reach_call. Qed.

(** Steps of the catalog that touch no file. *)
Lemma safe_register_writing clip now : safe (register_writing_clip (F := F) clip now).
Proof.
  apply safe_reaches; [by apply (reaches_unit_call _ (CRegisterWriting clip now))|].
  unfold register_writing_clip, insert_clip_locked, insert_clip_row. repeat fs_db_step.
Qed.

Lemma safe_mark_orphaned id now : safe (mark_writing_clip_orphaned (F := F) id now).
Proof.
  apply safe_reaches; [by apply (reaches_call _ (CMarkOrphaned id now))|]. unfold mark_writing_clip_orphaned. repeat fs_db_step.
Qed.

Lemma protect_for_event_fs id reason now : fs_same (protect_for_event_locked (F := F) id reason now).
Proof. unfold protect_for_event_locked, required_clip_row, queue_move_locked. repeat fs_db_step. Qed.

Lemma insert_target_fs e c t b : fs_same (insert_target_row (F := F) e c t b).
Proof. unfold insert_target_row. repeat fs_db_step. Qed.

Lemma safe_active_closing id now : safe (active_closing_protection (F := F) id now).
Proof.
  apply safe_reaches; [by apply (reaches_call _ (CActiveClosing id now))|].
  unfold active_closing_protection, required_clip_row, consume_closing_window, decrement_remaining.
  repeat (apply protect_for_event_fs || apply insert_target_fs || fs_db_step).
Qed.

Lemma safe_register_finalizing clip p now e : paths_ok p -> safe (register_finalizing_clip (F := F) clip p now e).
Proof.
  intros Hp. apply safe_reaches; [by apply (reaches_call _ (CRegisterFinalizing clip p now e))|].
  unfold register_finalizing_clip, insert_clip_locked, insert_clip_row. repeat fs_db_step.
Qed.

Lemma safe_catalog_trigger current source now p n e rq : safe (Catalog.trigger_event (F := F) current source now p n e rq).
Proof.
  apply safe_reaches; [by apply (reaches_call _ (CTrigger current source now p n e rq))|].
  unfold Catalog.trigger_event, replay_event, record_event, required_clip_row, insert_event_row, protect_target.
  repeat (apply protect_for_event_fs || apply insert_target_fs || fs_db_step).
Qed.

Lemma repair_fs id row now : fs_same (queue_directory_invariant_repair_locked (F := F) id row now).
Proof. unfold queue_directory_invariant_repair_locked, queue_move_locked. repeat fs_db_step. Qed.

Lemma safe_clear_leases now boot n : safe (clear_expired_download_leases (F := F) now boot n).
Proof.
  apply safe_reaches; [by apply (reaches_call _ (CClearLeases now boot n))|].
  unfold clear_expired_download_leases, clear_one_expired, clear_lease_locked, required_clip_row.
  repeat (apply repair_fs || fs_db_step).
Qed.

Lemma safe_register_name plan source now :
  (forall i, mp_intent plan = Some i -> constructed i) -> safe (register_name_reconciliation (F := F) plan source now).
Proof.
  intros Hp. apply safe_reaches; [by apply (reaches_call _ (CRegisterName plan source now))|].
  unfold register_name_reconciliation, required_clip_row, pending_intent_row, insert_existing_intent_locked, insert_intent_row.
  repeat fs_db_step.
Qed.
End catalog.

Ltac safe_step :=
  match goal with
  | |- safe (let x := _ in _) => cbv zeta
  | |- safe (mbind _ _) => apply safe_bind; [|intros ?]
  | |- safe (mtry _ _) => apply safe_mtry; [|intros ?]
  | |- safe (mfor _ _) => apply safe_mfold; intros ? ?
  | |- safe (match ?x with _ => _ end) => destruct x
  | |- safe (guard _ _ _) => apply safe_guard
  | |- safe (lift _) => apply safe_lift
  | |- safe _ => solve [apply safe_still; intros ?; reflexivity]
  end.

(** ** The finalizer's steps *)

Section finalizer.
Context `{FinalizationLaws F} (uuids : nat -> UUID) (sha256 : bytes -> str) (limits : FinalizerLimits).
#[local] Instance safe_environment : Environment := finalizer_environment uuids sha256.
Implicit Types w : World F.

Lemma safe_write_staged p s : safe (f_write_staged_sidecar (F := F) p s).
Proof.
  intros w Hok. unfold f_write_staged_sidecar, files. destruct (fs_write_staged_sidecar (w_fs w) p s) as [r f] eqn:E. simpl.
  split; [by apply reach_files|]. destruct (write_staged_spec _ _ _ _ _ E) as [[-> _]|[Hn ->]]; [done|].
  intros d _ [q Hq]. exists q. rewrite lookup_insert_ne; [done|]. intros ->. congruence.
Qed.

Lemma safe_now v : safe (finalizer_now (F := F) v).
Proof. unfold finalizer_now, refuse_when. repeat safe_step. Qed.

Lemma safe_required_target p : safe (required_target (F := F) p).
Proof. unfold required_target, refuse. repeat safe_step. Qed.

Lemma read_sidecar_ok p m w d s w' :
  read_sidecar (F := F) limits p m w = (Ok (d, s), w') ->
  w' = w /\ files w !! p = Some d /\ parse_sidecar_bytes d = Ok s.
Proof.
  unfold read_sidecar, refuse. intros Hm. apply mtry_ok in Hm; [|intros e w1 b w2; by destruct (sidecar_exception e)].
  apply mbind_ok in Hm as (d' & ? & Hd & Hm). unfold f_read_bytes in Hd. injection Hd as Hd <-.
  apply mbind_ok in Hm as (s' & ? & [Hs ->]%lift_ok & [[= -> ->] ->]%mret_ok). by split_and!; [|eapply read_spec|].
Qed.

Lemma safe_read_sidecar p m : safe (read_sidecar (F := F) limits p m).
Proof. unfold read_sidecar, refuse. repeat safe_step. Qed.

Lemma safe_validate_durable i e : safe (validate_durable_sidecar (F := F) limits i e).
Proof.
  unfold validate_durable_sidecar, check_durable_sidecar, refuse_when, refuse.
  repeat (apply safe_required_target || apply safe_read_sidecar || safe_step).
Qed.

Lemma validate_durable_still i e w r w' : validate_durable_sidecar (F := F) limits i e w = (r, w') -> w' = w.
Proof.
  intros Hv. change w' with (snd (r, w')). rewrite <-Hv. clear. revert w. unfold validate_durable_sidecar.
  apply still_bind; [intros w; by destruct (sidecar_target _)|]. intros target.
  do 2 (apply still_bind; [done|intros ?]). intros w. unfold mfor.
  match goal with |- snd (mfold ?f tt ?l w) = w => assert (forall x w, snd (f tt x w) = w) as Hf; [|generalize l; clear - Hf; revert w] end.
  - intros x. unfold check_durable_sidecar, refuse_when, refuse. apply still_bind.
    + intros w1. unfold read_sidecar, mtry. match goal with |- snd (match ?m w1 with _ => _ end) = _ =>
        assert (forall w2, snd (m w2) = w2) as Hm by (by repeat (apply still_bind; [done|intros ?])); specialize (Hm w1) end.
      destruct (mbind _ _ w1) as [[?|?] ?]; simpl in *; [done|]. subst. unfold refuse. by destruct (sidecar_exception _).
    + intros [d s]. destruct (negb _); [done|]. apply still_bind; [intros w1; by destruct (video_target _)|]. intros v.
      apply still_bind; [apply still_guard|]. intros _ w1. destruct e; [apply still_guard|done].
  - intros w l. revert w. induction l as [|x l IH]; intros w; simpl; [done|]. apply (still_bind _ (fun _ => _)); [apply Hf|].
    by intros [].
Qed.

Lemma safe_ensure_pending p s d b : safe (ensure_pending_sidecar (F := F) limits p s d b).
Proof.
  unfold ensure_pending_sidecar, refuse_when, refuse. safe_step; [by safe_step|]. destruct a.
  - intros w. apply safe_bind_at; [apply safe_read_sidecar|]. intros [x sx] w1 (-> & Hx & Hs)%read_sidecar_ok.
    destruct (negb _ || _); [|by apply safe_still]. destruct b; [|by apply safe_still].
    apply safe_bind_at; [|intros ? ? _; apply safe_here; repeat safe_step].
    intros Hok. split; [|eapply replace_media; [exact Hx|]; change (is_ok (parse_sidecar_bytes x) = true); by rewrite Hs].
    unfold f_replace_bytes_atomic. destruct (fs_replace_bytes_atomic _ _ _ _). by apply reach_files.
  - safe_step; [apply safe_write_staged|]. repeat safe_step.
Qed.

Lemma safe_directory_names d : safe (directory_names (F := F) limits d).
Proof. unfold directory_names, refuse_when. repeat safe_step. Qed.

Lemma safe_require_free p : safe (require_free_names (F := F) limits p).
Proof.
  unfold require_free_names, require_unique_exact, require_absent_casefold, refuse_when.
  repeat (apply safe_directory_names || apply safe_required_target || safe_step).
Qed.

Lemma safe_video_size p : safe (closed_video_size (F := F) p).
Proof. unfold closed_video_size, refuse_when. repeat safe_step. Qed.

Lemma safe_get_clip id : safe (get_clip (F := F) id).
Proof. unfold get_clip, required_clip_row. repeat safe_step. Qed.

Lemma safe_pending_intents : safe (pending_intents (F := F) limits).
Proof. unfold pending_intents, list_pending_intents_by_kind. repeat safe_step. Qed.

Lemma pending_intents_ok w l b w' :
  db_ok (w_db w) -> pending_intents (F := F) limits w = (Ok (l, b), w') ->
  w' = w /\ Forall (fun i => stored_pending (w_db w) i /\ kind i ∈ RECOVERY_INTENT_KINDS) l.
Proof.
  intros Hok Hm. unfold pending_intents in Hm. apply mbind_ok in Hm as (v & w1 & Hl & [[= -> ->] ->]%mret_ok).
  apply list_by_kind_ok in Hl as [-> Hall]; [|done]. split; [done|]. unfold limited. by apply Forall_take.
Qed.

(** [_reconcile] executes no deletion. *)
Lemma safe_reconcile i b v w : known (w_db w) i -> safe_at (reconcile (F := F) uuids sha256 limits i b v) w.
Proof.
  intros Hi. unfold reconcile, refuse_when. apply safe_bind_at; [apply safe_guard|]. intros [] w1 [Hk ->]%guard_ok. bool_prop.
  apply safe_bind_at; [apply safe_now|]. intros now w1 Hn.
  assert (w1 = w) as -> by (unfold finalizer_now, refuse_when in Hn; by inv_M).
  apply safe_bind_at; [|intros; apply safe_here; repeat safe_step]. apply safe_reconcile_intent; [done|]. intros E. rewrite E in Hk.
  revert Hk. apply (bool_decide_eq_false_1 _). reflexivity.
Qed.

Lemma reconcile_kept i b v w : intents_kept (w_db w) (w_db (snd (reconcile (F := F) uuids sha256 limits i b v w))).
Proof.
  assert (grows (reconcile (F := F) uuids sha256 limits i b v)) as Hg; [|apply Hg].
  unfold reconcile, finalizer_now, refuse_when. repeat (apply grows_reconcile_intent || grows_step).
Qed.

(** ** The finalizer's methods *)

Lemma safe_register_active name id start order clock : safe (register_active_clip (F := F) name id start order clock).
Proof.
  unfold register_active_clip, refuse_when. repeat (apply safe_now || apply safe_register_writing || safe_step).
Qed.

Lemma safe_orphan_clips clock l k : safe (orphan_clips (F := F) clock k l).
Proof.
  revert k. induction l as [|c l IH]; intros k; simpl; [by safe_step|].
  safe_step; [apply safe_now|]. safe_step; [apply safe_mark_orphaned|apply IH].
Qed.

Lemma safe_reconcile_orphaned n clock : safe (reconcile_orphaned_writing (F := F) n clock).
Proof. unfold reconcile_orphaned_writing, list_writing_clips. repeat (apply safe_orphan_clips || safe_step). Qed.

Lemma promotion_paths_ok name s p : promotion_paths name s = Ok p -> paths_ok p.
Proof.
  unfold promotion_paths. intros Hp. apply result_bind_ok in Hp as ([source target] & _ & Hp). inv_ok.
  by apply PairPaths_new_ok in Hp as Hp'; destruct Hp' as (-> & _).
Qed.

Lemma safe_register_attempts s p order size active clock n k :
  paths_ok p -> safe (register_attempts (F := F) uuids sha256 limits s p order size active clock n k).
Proof.
  intros Hp. revert k. induction n as [|n IH]; intros k; simpl; [by unfold refuse; safe_step|].
  safe_step; [|destruct a; [by safe_step|apply IH]]. unfold register_attempt.
  safe_step; [repeat (apply safe_now || apply safe_active_closing || safe_step)|destruct a as [effective revision]].
  safe_step; [apply safe_ensure_pending|].
  repeat (apply safe_now || (by apply safe_register_finalizing) || safe_step).
Qed.

Lemma safe_followups o clock n k a : safe (reconcile_followups (F := F) uuids sha256 limits o clock n k a).
Proof.
  revert k a. induction n as [|n IH]; intros k a; simpl; [by unfold refuse; safe_step|]. intros w. apply safe_with. intros Hok.
  apply safe_bind_at; [apply safe_here; unfold list_pending_intents_for_clip; repeat safe_step|].
  intros l w1 [-> Hall]%list_for_clip_ok; [|done].
  destruct l as [|i [|j l]]; [by apply safe_still| |by apply safe_still].
  apply Forall_cons in Hall as [[Hi%stored_known _] _]. apply safe_bind_at; [by apply safe_reconcile|].
  intros r w1 _. apply safe_here. destruct (negb _); [by safe_step|apply IH].
Qed.

(** An intent looked up by its id, or just registered. *)
Lemma safe_pending_then {B : Type} id (k : option OperationIntent -> M F B) :
  (forall w, safe_at (k None) w) -> (forall i w, known (w_db w) i -> safe_at (k (Some i)) w) ->
  safe (mbind (get_pending_intent id) k).
Proof.
  intros Hn Hs w. apply safe_with. intros Hok. apply safe_bind_at.
  - apply safe_here. unfold get_pending_intent. repeat safe_step.
  - intros [i|] w1 [-> Hi]%get_pending_ok; [|done| |done]; [|apply Hn]. apply Hs. by destruct (Hi i eq_refl) as [_ ?%stored_known].
Qed.

Lemma find_registered_ok id c p w i w' :
  db_ok (w_db w) -> find_registered_intent (F := F) id c p w = (Ok i, w') ->
  w' = w /\ intent_id i = id /\ clip_id i = c /\ kind i = FINALIZE /\ paths i = p /\ stored_pending (w_db w) i.
Proof.
  intros Hok. unfold find_registered_intent, validate_intent, refuse_when, refuse. intros Hm.
  apply mbind_ok in Hm as (o & w1 & [-> Hi]%get_pending_ok & Hm); [|done]. destruct o as [j|]; [|done].
  apply mbind_ok in Hm as (? & ? & [Hc ->]%guard_ok & Hm). apply mbind_ok in Hm as (? & ? & [Hk ->]%guard_ok & [-> ->]%mret_ok).
  destruct (Hi j eq_refl) as [? ?]. bool_prop. by split_and!.
Qed.

Lemma safe_find id c p : safe (find_registered_intent (F := F) id c p).
Proof. unfold find_registered_intent, validate_intent, get_pending_intent, refuse_when, refuse. repeat safe_step. Qed.

Lemma safe_promote p s order active clock :
  paths_ok p -> safe (promote (F := F) uuids sha256 limits p s order active clock).
Proof.
  intros Hp. unfold promote. safe_step; [apply safe_require_free|]. safe_step; [apply safe_video_size|].
  safe_step; [by safe_step|]. cbv zeta. safe_step; [by apply safe_register_attempts|].
  match goal with x : UUID * _ |- _ => destruct x as [id effective] end.
  intros w. apply safe_with. intros Hok. apply safe_bind_at; [apply safe_find|].
  intros i w1 (-> & _ & _ & _ & _ & Hi%stored_known)%find_registered_ok; [|done].
  apply safe_bind_at; [by apply safe_reconcile|]. intros o w1 _. apply safe_here.
  destruct (_ && _); [apply safe_followups|by safe_step].
Qed.

Lemma safe_completed_replay c p d : safe (completed_replay (F := F) limits c p d).
Proof.
  unfold completed_replay, refuse_when, refuse. repeat (apply safe_validate_durable || safe_step).
Qed.

Lemma safe_finalize name s order clock : safe (finalize (F := F) uuids sha256 limits name s order clock).
Proof.
  intros w. unfold finalize. apply safe_bind_at; [apply safe_lift|]. intros p w1 [Hp%promotion_paths_ok ->]%lift_ok.
  apply safe_bind_at; [apply safe_lift|]. intros [] w1 [_ ->]%lift_ok. cbv zeta. apply safe_with. intros Hok.
  apply safe_bind_at; [apply safe_pending_intents|]. intros [l b] w1 [-> Hall]%pending_intents_ok; [|done].
  assert (Hmine : Forall (known (w_db w)) (List.filter (fun i => bool_decide (clip_id i = sd_clip_id s)) l)).
  { apply Forall_forall. intros i Hi%list_elem_of_In%filter_In. destruct Hi as [Hi%list_elem_of_In _].
    rewrite Forall_forall in Hall. by destruct (Hall i Hi) as [?%stored_known _]. }
  destruct (List.filter _ l) as [|i [|j l']]; [| |by apply safe_still].
  - apply safe_here. unfold refuse_when, get_clip_if_present.
    repeat (apply safe_get_clip || apply safe_completed_replay || (by apply safe_promote) || safe_step).
  - apply Forall_cons in Hmine as [Hi _]. unfold validate_intent, refuse_when.
    apply safe_bind_at; [apply safe_guard|]. intros [] w1 [_ ->]%guard_ok.
    apply safe_bind_at; [apply safe_validate_durable|]. intros [] w1 ->%validate_durable_still. by apply safe_reconcile.
Qed.

Lemma safe_execute_intent id clock : safe (execute_intent (F := F) uuids sha256 limits id clock).
Proof.
  unfold execute_intent. apply safe_pending_then; [by intros w; apply safe_still|]. intros i w Hi.
  apply safe_bind_at; [by apply safe_reconcile|]. intros o w1 _. apply safe_here.
  destruct (fo_complete o); [apply safe_followups|by safe_step].
Qed.

Lemma safe_execute_queued clock l k : safe (execute_queued (F := F) uuids sha256 limits clock k l).
Proof.
  revert k. induction l as [|id l IH]; intros k; simpl; [by safe_step|]. safe_step; [apply safe_execute_intent|].
  unfold refuse_when. safe_step; [by safe_step|]. apply IH.
Qed.

Lemma safe_trigger current source now p n e clock :
  safe (trigger_event (F := F) uuids sha256 limits current source now p n e clock).
Proof. unfold trigger_event. repeat (apply safe_catalog_trigger || apply safe_execute_queued || safe_step). Qed.

Lemma still_when P `{Decision P} i e w :
  snd ((if decide P then validate_durable_sidecar (F := F) limits i e else mret tt) w) = w.
Proof. destruct (decide P); [|done]. destruct (validate_durable_sidecar _ _ _ w) eqn:E. by apply validate_durable_still in E. Qed.

Lemma still_ok {A : Type} (m : M F A) w r w' : m w = (r, w') -> (forall w, snd (m w) = w) -> w' = w.
Proof. intros E Hm. specialize (Hm w). by rewrite E in Hm. Qed.

(** The intents listed before the loop are known throughout it. *)
Lemma safe_recover_intents clock l k e a c b w :
  Forall (known (w_db w)) l -> safe_at (recover_intents (F := F) uuids sha256 limits clock k l e a c b) w.
Proof.
  revert k e a c b w. induction l as [|i l IH]; intros k e a c b w Hl; simpl; [by apply safe_still|].
  apply Forall_cons in Hl as [Hi Hl].
  apply safe_bind_at; [by apply safe_here, safe_still, still_when|]. intros [] w1 ->%still_ok; [|by apply still_when].
  apply safe_bind_at; [by apply safe_reconcile|]. intros o w1 Ho.
  pose proof (reconcile_kept i true (within_item k clock AT_RECONCILIATION) w) as Hkept. rewrite Ho in Hkept. simpl in Hkept.
  apply safe_bind_at; [by apply safe_here, safe_still, still_when|]. intros [] w2 ->%still_ok; [|by apply still_when].
  apply IH. eapply Forall_impl; [exact Hl|]. intros j. by apply known_kept.
Qed.

Lemma safe_reconcile_pending clock : safe (reconcile_pending (F := F) uuids sha256 limits clock).
Proof.
  intros w. unfold reconcile_pending. apply safe_with. intros Hok.
  apply safe_bind_at; [apply safe_pending_intents|]. intros [l b] w1 [-> Hall]%pending_intents_ok; [|done].
  apply safe_bind_at.
  - apply safe_recover_intents. eapply Forall_impl; [exact Hall|]. intros i [Hi _]. by apply stored_known.
  - intros [[[e a] c] inc] w1 _. apply safe_here. unfold has_pending_recovery_intent, list_pending_intents_by_kind.
    repeat safe_step.
Qed.

Lemma safe_expire boot clock : safe (expire_download_leases (F := F) uuids sha256 limits boot clock).
Proof.
  unfold expire_download_leases. repeat (apply safe_now || apply safe_clear_leases || apply safe_reconcile_pending || safe_step).
Qed.

Lemma safe_candidates boot n after id clock :
  safe (metadata_reconciliation_candidates (F := F) uuids sha256 limits boot n after id clock).
Proof.
  unfold metadata_reconciliation_candidates, list_metadata_reconciliation_candidates.
  repeat (apply safe_expire || safe_step).
Qed.

(** ** The coordinator's call *)

(** An identifier drawn and not used: an event request without a clip draws one and fails. *)
Lemma reaches_uuid4 : reaches (F := F) new_uuid4.
Proof.
  intros w Hw. pose proof (reach_call w (CTrigger None WEB 0 0 0 None false) Hw I) as Hr.
  assert (snd (run_call (CTrigger None WEB 0 0 0 None false) w) = snd (new_uuid4 w)) as <-; [|exact Hr].
  simpl. unfold void, Catalog.trigger_event. cbn [bounded_count non_negative_integer].
  unfold mbind at 1. unfold mbind at 1, lift at 1. cbn. unfold transaction, mbind, query. cbn.
  destruct (events (w_db w) !! _) as [e|]; [|done]. unfold replay_event, mbind, guard, query, mfail, mret. cbn.
  by destruct (_ || _).
Qed.

Lemma safe_apply_intent i b t w :
  known (w_db w) i -> kind i <> DELETE -> safe_at (apply_intent (F := F) uuids sha256 i b t) w.
Proof.
  intros Hi Hk. unfold apply_intent, coordinator_now, refuse_if. apply safe_bind_at; [apply safe_here; repeat safe_step|].
  intros now w1 ->%still_ok; [|by apply still_bind; [apply still_guard|]].
  apply safe_bind_at; [by apply safe_reconcile_intent|]. intros r w1 _. apply safe_here.
  repeat (apply safe_get_clip || safe_step).
Qed.

Lemma matching_pending_known lim id w r w' :
  db_ok (w_db w) -> matching_pending (F := F) lim id w = (Ok r, w') -> w' = w /\ forall i, r = Some i -> known (w_db w) i.
Proof.
  intros Hok. unfold matching_pending, refuse_if. intros Hm.
  apply mbind_ok in Hm as (l & w1 & [-> Hall]%list_pending_ok & Hm); [|done].
  apply mbind_ok in Hm as (? & ? & [_ ->]%guard_ok & Hm). apply mbind_ok in Hm as (? & ? & [_ ->]%guard_ok & [-> ->]%mret_ok).
  split; [done|]. intros i Hi. apply stored_known. rewrite Forall_forall in Hall. apply Hall.
  assert (In i (List.filter (fun intent => bool_decide (clip_id intent = id)) l)) as Hin by (destruct (List.filter _ l); simplify_eq/=; by left).
  apply filter_In in Hin as [Hin _]. by apply list_elem_of_In.
Qed.

Lemma register_name_known target i source now w r w' :
  register_name_reconciliation (F := F) (mkMetadataPlan target (Some i)) source now w = (Ok r, w') ->
  known (w_db w') i /\ kind i = RECONCILE_NAME.
Proof.
  unfold register_name_reconciliation. cbn [mp_intent mp_sidecar]. intros Hm.
  apply mbind_ok in Hm as (? & ? & [_ ->]%lift_ok & Hm). apply mbind_ok in Hm as (? & ? & [Hg ->]%guard_ok & Hm). cbv zeta in Hm.
  apply mbind_ok in Hm as (? & ? & [_ ->]%guard_ok & Hm). apply mbind_ok in Hm as (? & ? & [_ ->]%lift_ok & Hm).
  apply mbind_ok in Hm as (? & ? & [_ ->]%guard_ok & Hm). apply (proj1 (transaction_ok _ _ _ _)) in Hm.
  apply mbind_ok in Hm as (c & ? & [Hc ->]%required_clip_row_ok & Hm). apply mbind_ok in Hm as (? & ? & [_ ->]%query_ok & Hm).
  do 2 apply mbind_ok in Hm as (? & ? & [_ ->]%guard_ok & Hm). unfold insert_existing_intent_locked in Hm.
  apply mbind_ok in Hm as (? & ? & (_ & _ & _ & ->)%insert_intent_row_ok & Hm).
  apply mbind_ok in Hm as (? & ? & Hu & [_ ->]%mret_ok). eapply update_clip_row in Hu as [_ ->]; [|exact Hc].
  split.
  - eexists. simpl. split; [apply lookup_insert_eq|done].
  - unfold name_plan_consistent in Hg. cbn in Hg. bool_prop. done.
Qed.

Lemma safe_plan_and_apply lim id clip source a gps sys t1 t2 :
  safe (plan_and_apply (F := F) uuids sha256 lim id clip source a gps sys t1 t2).
Proof.
  unfold plan_and_apply, coordinator_now, refuse_if. safe_step; [by safe_step|].
  match goal with x : _ * Z * bool |- _ => destruct x as [[listed n] truncated] end.
  do 2 (safe_step; [repeat safe_step|]). safe_step; [by apply safe_reaches; [apply reaches_uuid4|]|]. intros w.
  apply safe_bind_at; [apply safe_here; unfold refused; repeat safe_step|]. intros plan w1 Hp.
  apply mtry_ok in Hp; [|intros e ? ? ?; unfold refused; by destruct (bool_decide _)].
  apply lift_ok in Hp as [Hp ->]. apply plan_inv in Hp as (_ & _ & Hp).
  destruct (project_anchored _ _ _ _ _) as [[r|]|]; [|subst plan; by apply safe_still|done].
  destruct Hp as (i & -> & Hi%reconciliation_intent_constructed). simpl.
  apply safe_bind_at.
  { apply safe_here. apply safe_mtry; [|intros e; unfold refused; repeat safe_step]. apply safe_register_name. by intros ? [= <-]. }
  intros id' w1 Hr. apply mtry_ok in Hr; [|intros e ? ? ?; unfold refused; by destruct (bool_decide _)].
  apply register_name_known in Hr as [Hi' Hk].
  apply safe_bind_at; [apply safe_guard|]. intros [] w2 [_ ->]%guard_ok. apply safe_apply_intent; [done|congruence].
Qed.

Lemma safe_reconcile_clip lim id a boot gps sys t1 t2 :
  safe (reconcile_clip (F := F) uuids sha256 lim id a boot gps sys t1 t2).
Proof.
  intros w. unfold reconcile_clip, refuse_if. apply safe_with. intros Hok.
  apply safe_bind_at; [apply safe_here; unfold matching_pending, list_pending_intents, refuse_if; repeat safe_step|].
  intros pending w1 [-> Hp]%matching_pending_known; [|done]. destruct pending as [i|].
  - apply safe_bind_at; [apply safe_guard|]. intros [] w1 [Hk ->]%guard_ok. bool_prop. apply safe_apply_intent; [by apply Hp|congruence].
  - apply safe_here. unfold required_clip, refused, read_source_sidecar, refused.
    repeat (apply safe_get_clip || apply safe_plan_and_apply || safe_step).
Qed.

Lemma safe_video_name name : safe (video_size (F := F) name).
Proof. unfold video_size. safe_step; [by safe_step|]. apply safe_video_size. Qed.

Lemma reaches_safe {A : Type} (m : M F A) : safe m -> reaches m.
Proof. intros Hm w Hw. by apply Hm. Qed.

Lemma reaches_reclaim boot b clock t1 t2 :
  reaches (reclaim_storage_once (F := F) uuids sha256 limits boot b clock t1 t2).
Proof. apply reaches_bind; [apply reaches_safe, safe_expire|intros ?; apply reaches_run_one]. Qed.

(** ** Any sequence of calls *)

Inductive finalizer_call :=
  | FRegisterActive (name : str) (id : UUID) (start order : Z) (clock : reading -> Z)
  | FReconcileOrphaned (n : Z) (clock : reading -> Z)
  | FFinalize (name : str) (s : Metadata.ClipSidecar) (order : Z) (clock : reading -> Z)
  | FExecuteIntent (id : UUID) (clock : reading -> Z)
  | FTriggerEvent (current : option UUID) (source : EventSource) (now p n : Z) (e : UUID) (clock : reading -> Z)
  | FReconcilePending (clock : reading -> Z)
  | FExpireLeases (boot : str) (clock : reading -> Z)
  | FMetadataCandidates (boot : UUID) (n after : Z) (id : option UUID) (clock : reading -> Z)
  | FReconcileMetadata (id : UUID) (a : TimeAnchor) (boot : UUID) (gps : GpsTimeState) (sys : SystemClockState) (t1 t2 : Z)
  | FReclaim (boot : str) (allow_new : bool) (clock : reading -> Z) (t1 t2 : Z).

Definition run_finalizer (c : finalizer_call) : M F unit :=
  match c with
  | FRegisterActive name id start order clock => register_active_clip name id start order clock
  | FReconcileOrphaned n clock => void (reconcile_orphaned_writing n clock)
  | FFinalize name s order clock => void (finalize uuids sha256 limits name s order clock)
  | FExecuteIntent id clock => void (execute_intent uuids sha256 limits id clock)
  | FTriggerEvent current source now p n e clock => void (trigger_event uuids sha256 limits current source now p n e clock)
  | FReconcilePending clock => void (reconcile_pending uuids sha256 limits clock)
  | FExpireLeases boot clock => void (expire_download_leases uuids sha256 limits boot clock)
  | FMetadataCandidates boot n after id clock => void (metadata_reconciliation_candidates uuids sha256 limits boot n after id clock)
  | FReconcileMetadata id a boot gps sys t1 t2 => void (reconcile_metadata uuids sha256 id a boot gps sys t1 t2)
  | FReclaim boot b clock t1 t2 => void (reclaim_storage_once uuids sha256 limits boot b clock t1 t2)
  end.

Definition reclaims (c : finalizer_call) : bool := match c with FReclaim _ _ _ _ _ => true | _ => false end.

Lemma safe_void {A : Type} (m : M F A) : safe m -> safe (void m).
Proof. intros Hm. unfold void. safe_step; [done|by safe_step]. Qed.

Lemma safe_call c : reclaims c = false -> safe (run_finalizer c).
Proof.
  destruct c; simpl; intros Hc; try apply safe_void;
    eauto using safe_register_active, safe_reconcile_orphaned, safe_finalize, safe_execute_intent, safe_trigger,
      safe_reconcile_pending, safe_expire, safe_candidates; [apply safe_reconcile_clip|done].
Qed.

Lemma reaches_finalizer_call c : reaches (run_finalizer c).
Proof.
  destruct (reclaims c) eqn:Ec; [|by apply reaches_safe, safe_call].
  destruct c; try done. simpl. unfold void. apply reaches_bind; [apply reaches_reclaim|by intros ? w].
Qed.

Definition after_calls (cs : list finalizer_call) (w : World F) : World F := foldl (fun w c => snd (run_finalizer c w)) w cs.

(** C9: the finalizer loses no media: after any sequence of its calls, each with any arguments and clock
    readings and whatever it returns, over any lawful filesystem whose every operation may fail, the
    world is one the catalog's own calls reach, so that the catalog is well-formed; and unless one of the
    calls reclaims storage, every file content that is not an accepted sidecar is still on the volume. *)
Theorem finalizer_loses_no_media cs w :
  catalog_reachable w ->
  catalog_reachable (after_calls cs w) /\ db_ok (w_db (after_calls cs w)) /\
  (Forall (fun c => reclaims c = false) cs ->
   forall p d, files w !! p = Some d -> is_ok (parse_sidecar_bytes d) = false -> exists q, files (after_calls cs w) !! q = Some d).
Proof.
  intros Hw. assert (catalog_reachable (after_calls cs w)) as Hr.
  { revert w Hw. induction cs as [|c cs IH]; intros w Hw; [done|]. by apply IH, reaches_finalizer_call. }
  split; [done|]. split; [by apply reachable_ok|]. intros Hcs p d Hp Hd.
  assert (media_kept (files w) (files (after_calls cs w))) as Hm; [|by eapply Hm; [|exists p]].
  clear Hr p d Hp Hd. revert w Hw. induction Hcs as [|c cs Hc _ IH]; intros w Hw; [done|].
  destruct (safe_call c Hc w Hw) as [Hw1 H1']. etrans; [exact H1'|]. by apply IH.
Qed.
End finalizer.
