(* ===== verification/FinalizerRun.v ===== *)
(** * The finalizer's steps on the rooted filesystem

    What each step of [finalize] returns when nothing stands in its way. *)

From Stdlib Require Import Ascii String ZArith Lia Strings.Byte.
From stdpp Require Import base list gmap strings sorting.
From S2P Require Import Prelude PyStr Uuid DateTime State Naming Intents Models Filesystem.
From S2P Require Import CatalogDb Catalog Reconcile ManagedPath CatalogInv CatalogSafe.
From S2P Require Import ReconcileSafe CatalogProperties Convergence NameConvergence Reclaimer CoordinatorRename FinalizeConvergence.
From S2P Require Import LocalTime Metadata Sidecar SidecarProperties SidecarSize SidecarClaims Projection Coordinator.
From S2P Require Import FinalizerFilesystem Finalizer FinalizerSidecar FinalizerSafe.

Lemma finalizer_limits_facts limits :
  FinalizerLimits_new limits = Ok limits ->
  0 < fl_max_directory_entries limits /\ 0 < fl_max_pending_intents limits <= 1024 /\
  0 < fl_max_actions_per_intent limits <= 2 /\ 0 < fl_max_sidecar_bytes limits /\ 0 < fl_max_protection_retries limits.
Proof.
  unfold FinalizerLimits_new. intros Hlim. apply result_bind_ok in Hlim as ([] & Hlim & _).
  apply validate_all_ok in Hlim. rewrite !Forall_cons in Hlim. destruct Hlim as (H1 & H2 & H3 & H4 & H5 & _).
  inv_ok. bool_prop. unfold MAX_PENDING_INTENTS in *. lia.
Qed.

(** ** The names of a promotion *)

(** A provisional video name and its sidecar's are portable names of one stem. *)
Lemma provisional_stem name n :
  parse_clip_filename name = Ok n -> partial n = true -> extension n = u "mp4" ->
  exists stem, name = stem ++ u ".mp4" /\ validate_filename_component (stem ++ u ".mp4") = Ok (stem ++ u ".mp4") /\
    validate_filename_component (stem ++ u ".json") = Ok (stem ++ u ".json").
Proof.
  unfold parse_clip_filename. intros Hn Hp He. apply result_bind_ok in Hn as (v & Hv & Hn).
  destruct (PROVISIONAL_RE name) as [[[b d] e]|] eqn:E.
  2: { destruct (FINAL_UNSYNCED_RE name) as [[[? ?] ?]|]; [by injection Hn as <-|].
       destruct (FINAL_RE name) as [[[[[[? ?] ?] ?] ?] ?]|]; [|done]. destruct (strptime_groups _ _ _) as [?|e]; [|by destruct (is_ValueError e)].
       by injection Hn as <-. }
  injection Hn as <-. cbn in He. subst e. pose proof E as Eb. apply match_boot_name_inv in E as (-> & Hl & Hd).
  assert (BOOT_ID_RE b = true) as Hb.
  { unfold PROVISIONAL_RE, match_boot_name in Eb. rewrite eat_app in Eb.
    destruct (match_boot _) as [[b' r]|] eqn:Em; [|done]. apply match_boot_inv in Em as [_ Hb].
    destruct (eat _ r) as [r3|]; [|done]. destruct (eat_n _ _ r3) as [[? r4]|]; [|done]. destruct (eat _ r4) as [r5|]; [|done].
    destruct (match_extension r5); [|done]. by injection Eb as <- _ _. }
  assert (exists k, d = digits_fixed 6 k /\ k = int_of_digits d) as (k & Ed & Ek) by (eexists; by rewrite <-Hl, digits_fixed_int).
  assert (0 <= k <= 999999) as Hk by (pose proof (int_of_digits_bounds d Hd) as Hb'; unfold len in Hb'; rewrite Hl in Hb'; lia). clear Ek. subst d.
  exists (u "boot-" ++ b ++ u "-" ++ digits_fixed 6 k ++ u ".partial").
  destruct (boot_stem_ok b k (u ".partial") Hb Hk) as [Hs1 Hs2]; [by apply safe_u|done|]. rewrite zpad_fixed in Hs1, Hs2 by lia.
  split; [|by split]. by rewrite <-!app_assoc.
Qed.

(** A promotion of the sidecar [s]: from one provisional stem in [pending/] to the sidecar's names in [clips/]. *)
Record promotes (stem : str) (s : Metadata.ClipSidecar) (p : PairPaths) : Prop := mkPromotes {
  pr_video : validate_filename_component (stem ++ u ".mp4") = Ok (stem ++ u ".mp4");
  pr_sidecar : validate_filename_component (stem ++ u ".json") = Ok (stem ++ u ".json");
  pr_paths : p = mkPaths (in_directory (u "pending") (stem ++ u ".mp4")) (in_directory (u "pending") (stem ++ u ".json"))
    (Some (in_directory (u "clips") (sd_video_file s))) (Some (in_directory (u "clips") (sd_metadata_file s)));
  pr_valid : paths_ok p;
  pr_names : exists n t, parse_clip_filename (stem ++ u ".mp4") = Ok n /\ parse_clip_filename (sd_video_file s) = Ok t /\
    partial n = true /\ partial t = false /\ boot_id n = boot_id t /\ sequence n = sequence t
}.

Lemma promotion_paths_inv name s p :
  promotion_paths name s = Ok p -> exists stem, name = stem ++ u ".mp4" /\ promotes stem s p.
Proof.
  unfold promotion_paths. intros Hp. pose proof (promotion_paths_ok name s p Hp) as Hok.
  apply result_bind_ok in Hp as ([source target] & Hnames & Hp). unfold or_refused in Hnames.
  destruct (result_bind _ _) as [[source' target']|e] eqn:En in Hnames; [|by destruct (bool_decide _)].
  injection Hnames as -> ->. apply result_bind_ok in En as (n & Hn & En). apply result_bind_ok in En as (t & Ht & [= -> ->]).
  inv_ok. bool_prop. unfold promotion_source, or_refused in *. rewrite Hn in *. inv_ok. bool_prop.
  destruct (provisional_stem name _ Hn) as (stem & -> & Hv & Hm); [done..|]. exists stem. split; [done|].
  apply PairPaths_new_ok in Hp as (-> & _). rewrite removesuffix_app in *. constructor; [done..| |].
  - done.
  - by do 2 eexists.
Qed.

(** The targets are portable names of one pair too. *)
Lemma promotion_targets_valid stem s p :
  promotes stem s p -> is_ok (ClipFilePair_new (sd_video_file s) (sd_metadata_file s)) = true ->
  validate_filename_component (sd_video_file s) = Ok (sd_video_file s) /\
  validate_filename_component (sd_metadata_file s) = Ok (sd_metadata_file s).
Proof.
  intros _ Hp. unfold ClipFilePair_new in Hp.
  assert (forall n r, validate_filename_component n = Ok r -> r = n) as Hsame by (intros n r Hn; unfold validate_filename_component in Hn; by inv_ok).
  destruct (validate_filename_component (sd_video_file s)) eqn:Ev; [|done]. cbn [result_bind] in Hp.
  destruct (validate_filename_component (sd_metadata_file s)) eqn:Em; [|done]. by rewrite (Hsame _ _ Ev), (Hsame _ _ Em).
Qed.

Lemma managed_directory_facts d n :
  d ∈ MANAGED_DIRECTORIES -> validate_filename_component n = Ok n ->
  path_parent (in_directory d n) = d /\ path_name (in_directory d n) = n.
Proof. intros Hd (Hs & Hne & Hdot)%component_facts. by destruct (managed_child d n) as (H1 & H2 & _). Qed.

Lemma pending_managed : u "pending" ∈ MANAGED_DIRECTORIES.
Proof. apply (bool_decide_unpack _). vm_compute. exact I. Qed.

(** ** Scans *)

Lemma filter_single {A} (f : A -> bool) (l : list A) x :
  NoDup l -> x ∈ l -> f x = true -> (forall y, y ∈ l -> f y = true -> y = x) -> List.filter f l = [x].
Proof.
  intros Hnd. induction Hnd as [|y l Hy Hnd IH]; [by intros ?%elem_of_nil|]. intros Hx Hf Hu. cbn [List.filter].
  apply elem_of_cons in Hx as [<-|Hx].
  - rewrite Hf. f_equal. apply filter_none. intros z Hz%list_elem_of_In. destruct (f z) eqn:E; [|done].
    rewrite (Hu z) in Hz by (by rewrite ?elem_of_cons; auto). done.
  - destruct (f y) eqn:E; [rewrite (Hu y) in Hy by (rewrite ?elem_of_cons; auto); done|].
    apply IH; [done|done|]. intros z Hz. apply Hu. by apply elem_of_cons; right.
Qed.

Lemma filter_map {A B} (g : A -> B) (f : B -> bool) l : List.filter f (map g l) = map g (List.filter (fun x => f (g x)) l).
Proof. induction l as [|x l IH]; [done|]. cbn. destruct (f (g x)); cbn; by rewrite IH. Qed.

Lemma guard_pass {F} b c s (w : World F) : b = false -> guard b c s w = (Ok tt, w).
Proof. by intros ->. Qed.

Section scans.
Context `{Environment}.
Implicit Types (m : gmap str bytes) (w : World RootedFilesystem).

Lemma listing_elem m d q : q ∈ listing m d <-> is_Some (m !! q) /\ path_parent q = d.
Proof.
  unfold listing. rewrite sort_by_perm. unfold directory_files. rewrite list_elem_of_In, filter_In, in_map_iff, bool_decide_eq_true.
  split.
  - intros [([q' b] & <- & Hq%list_elem_of_In%elem_of_map_to_list) Hd]. split; [by eexists|done].
  - intros [[b Hb] Hd]. split; [|done]. exists (q, b). split; [done|]. by apply list_elem_of_In, elem_of_map_to_list.
Qed.

Lemma listing_NoDup m d : NoDup (listing m d).
Proof.
  unfold listing. rewrite sort_by_perm. unfold directory_files. apply NoDup_ListNoDup, List.NoDup_filter, NoDup_ListNoDup.
  apply NoDup_fst_map_to_list.
Qed.

(** The listed names equal to [path]'s when case is ignored. *)
Lemma same_casefolded_listing m d p :
  path_parent p = d ->
  (forall q, is_Some (m !! q) -> path_parent q = d -> casefold (path_name q) = casefold (path_name p) -> q = p) ->
  same_casefolded (path_name p) (map path_name (listing m d)) = if present m p then [path_name p] else [].
Proof.
  intros Hp Hu. unfold same_casefolded. rewrite filter_map. unfold present. case_bool_decide as Hpres.
  - rewrite (filter_single _ _ p); [done|apply listing_NoDup|by apply listing_elem|by apply bool_decide_true|].
    intros q [Hq Hd]%listing_elem E. bool_prop. by apply Hu.
  - rewrite filter_none; [done|]. intros q Hq%list_elem_of_In. apply listing_elem in Hq as [Hq Hd]. apply bool_decide_false.
    intros E. by rewrite (Hu q Hq Hd E) in Hq.
Qed.
End scans.

(** No other file of the volume has a name of the promotion, case ignored. *)
Record unique_names (m : gmap str bytes) (p : PairPaths) : Prop := mkUnique {
  un_pending : forall t q, t = video_source p \/ t = sidecar_source p -> is_Some (m !! q) -> path_parent q = u "pending" ->
    casefold (path_name q) = casefold (path_name t) -> q = t;
  un_targets : forall t q, Some t = video_target p \/ Some t = sidecar_target p -> is_Some (m !! q) ->
    path_parent q = u "clips" \/ path_parent q = u "protected" -> casefold (path_name q) <> casefold (path_name t)
}.

Definition scannable (limits : FinalizerLimits) (m : gmap str bytes) : Prop :=
  Forall (fun d => Z.of_nat (length (directory_files m d)) <= fl_max_directory_entries limits)
    [u "pending"; u "clips"; u "protected"].

(** ** The steps *)

Section steps.
Context `{ZoneLaws} (uuids : nat -> UUID) (sha256 : bytes -> str) (limits : FinalizerLimits).
#[local] Instance run_environment : Environment := finalizer_environment uuids sha256.
Implicit Types (w : World RootedFilesystem) (m : gmap str bytes).
Hypothesis Hlimits : FinalizerLimits_new limits = Ok limits.

Lemma directory_names_run m w d :
  d ∈ MANAGED_DIRECTORIES -> Z.of_nat (length (directory_files m d)) <= fl_max_directory_entries limits ->
  directory_names limits d (with_files m w) = (Ok (map path_name (listing m d)), with_files m w).
Proof.
  intros Hd Hl. destruct (finalizer_limits_facts limits Hlimits) as (Hpos & _). unfold directory_names, refuse_when.
  erewrite mbind_run by (by apply listing_run). cbv beta iota. by rewrite guard_run.
Qed.

Lemma absent_casefold_run m w d t :
  (forall q, is_Some (m !! q) -> path_parent q = d -> casefold (path_name q) <> casefold (path_name t)) ->
  require_absent_casefold (F := RootedFilesystem) (map path_name (listing m d)) (Some t) false w = (Ok tt, w).
Proof.
  intros Hu. unfold require_absent_casefold, required_target, refuse_when. erewrite mbind_run by reflexivity. cbv zeta.
  assert (same_casefolded (path_name t) (map path_name (listing m d)) = []) as ->; [|done].
  unfold same_casefolded. rewrite filter_map, filter_none; [done|]. intros q Hq%list_elem_of_In. apply listing_elem in Hq as [Hq Hd].
  apply bool_decide_false. by apply Hu.
Qed.

Lemma require_free_run m w p v' s' :
  scannable limits m -> unique_names m p -> is_Some (m !! video_source p) ->
  path_parent (video_source p) = u "pending" -> path_parent (sidecar_source p) = u "pending" ->
  video_target p = Some v' -> sidecar_target p = Some s' ->
  require_free_names limits p (with_files m w) = (Ok tt, with_files m w).
Proof.
  intros Hs [Hup Hut] Hv Pv Ps Ev Es. unfold scannable in Hs. rewrite !Forall_cons in Hs. destruct Hs as (H1 & H2 & H3 & _).
  unfold require_free_names. erewrite mbind_run by (apply directory_names_run; [apply pending_managed|done]).
  unfold require_unique_exact, refuse_when. rewrite same_casefolded_listing by eauto.
  assert (present m (video_source p) = true) as -> by by apply bool_decide_true.
  rewrite guard_run by (by rewrite bool_decide_true).
  erewrite mbind_run.
  2: { unfold require_absent_casefold, required_target, refuse_when. erewrite mbind_run by reflexivity. cbv zeta.
       rewrite same_casefolded_listing by eauto. unfold guard. destruct (present m (sidecar_source p)); rewrite_same; [rewrite orb_true_r|]; reflexivity. }
  unfold mfor. cbn [mfold].
  assert (forall d, d ∈ [u "clips"; u "protected"] -> Z.of_nat (length (directory_files m d)) <= fl_max_directory_entries limits ->
    (names <- directory_names limits d ;; require_absent_casefold names (video_target p) false ;;;
     require_absent_casefold names (sidecar_target p) false) (with_files m w) = (Ok tt, with_files m w)) as Hscan.
  { intros d Hd Hl. pose proof (final_managed d Hd) as Hm. erewrite mbind_run by (by apply directory_names_run).
    rewrite Ev, Es. rewrite !elem_of_cons, elem_of_nil in Hd.
    assert (forall q, path_parent q = d -> path_parent q = u "clips" \/ path_parent q = u "protected") as Hdir by naive_solver.
    erewrite mbind_run by (apply absent_casefold_run; intros q Hq Hp; apply Hut; [by left|done|by apply Hdir]).
    apply absent_casefold_run; intros q Hq Hp; apply Hut; [by right|done|by apply Hdir]. }
  erewrite mbind_run by (apply Hscan; [by left|done]). erewrite mbind_run by (apply Hscan; [by right; left|done]). done.
Qed.

Lemma closed_video_run m w p d :
  usable p -> m !! p = Some d -> 0 < blen d -> closed_video_size p (with_files m w) = (Ok (blen d), with_files m w).
Proof.
  intros Hp Hd Hl. unfold closed_video_size, refuse_when. erewrite mbind_run by (by apply exists_run).
  unfold present. rewrite (bool_decide_true (is_Some (m !! p))) by by eexists. rewrite guard_run by done.
  erewrite mbind_run.
  2: { unfold f_file_size. cbn. unfold rooted_file_size. rewrite resolve_usable by done. cbn. by rewrite Hd. }
  by rewrite guard_run by lia.
Qed.

Lemma sync_run m w p : usable p -> is_Some (m !! p) -> f_sync_file p (with_files m w) = (Ok tt, with_files m w).
Proof.
  intros Hp Hd. unfold f_sync_file. cbn. unfold durable_sync_file. rewrite safe_path_resolve by apply Hp.
  rewrite resolve_usable by done. cbn. by rewrite bool_decide_true.
Qed.

(** Nothing is staged yet, or an accepted earlier sidecar is. *)
Definition stageable (m : gmap str bytes) (p : str) : Prop :=
  m !! p = None \/
  exists d s, m !! p = Some d /\ Sidecar.parse_sidecar_bytes d = Ok s /\ blen d <= fl_max_sidecar_bytes limits.

Lemma stage_run m w p s :
  usable p -> stageable m p -> built s -> carried s = true -> repeated_hour s = false ->
  blen (Sidecar.to_canonical_json s) <= fl_max_sidecar_bytes limits ->
  ensure_pending_sidecar limits p s (Sidecar.to_canonical_json s) true (with_files m w)
  = (Ok tt, with_files (<[p := Sidecar.to_canonical_json s]> m) w).
Proof.
  intros Hp Hstage Hb Hc Hr Hl. destruct (finalizer_limits_facts limits Hlimits) as (_ & _ & _ & Hpos & _).
  pose proof (reread_eqb s Hb Hc Hr) as Heq. set (text := Sidecar.to_canonical_json s) in *.
  assert (Hparse : Sidecar.parse_sidecar_bytes text = Ok (reread s)) by (unfold text; by rewrite read_back_or_refused, Hr).
  destruct (parsed_built _ _ Hparse) as (_ & _ & Hne & _). assert (text <> []) as Hne' by by intros E; rewrite E in Hne.
  unfold ensure_pending_sidecar, refuse_when, refuse. erewrite mbind_run by (by apply exists_run).
  destruct Hstage as [Hn|(d & x & Hd & Hx & Hdl)]; unfold present.
  - rewrite (bool_decide_false (is_Some (m !! p))) by (rewrite Hn; by intros []).
    erewrite mbind_run.
    2: { unfold f_write_staged_sidecar. cbn [fs_write_staged_sidecar RootedFinalizationFilesystem w_fs with_files set_fs].
         unfold durable_write_staged_sidecar. rewrite safe_path_resolve, resolve_usable by (done || apply Hp). cbn [result_bind rf_files].
         rewrite (bool_decide_false (is_Some (m !! p))) by (rewrite Hn; by intros []). reflexivity. }
    cbn [rf_bound with_files set_fs w_fs]. fold text. change (set_fs (mkRooted (<[p:=text]> m) true) (with_files m w)) with (with_files (<[p:=text]> m) w).
    erewrite mbind_run by (eapply read_run; [done|apply lookup_insert_eq|done|done]).
    erewrite mbind_run by (apply mtry_run; unfold lift; by rewrite Hparse).
    apply guard_pass. rewrite Heq. by rewrite_same.
  - rewrite (bool_decide_true (is_Some (m !! p))) by by eexists.
    erewrite mbind_run.
    2: { unfold read_sidecar. apply mtry_run. erewrite mbind_run by (by eapply read_run). unfold lift. rewrite Hx. reflexivity. }
    cbv beta iota. destruct (decide (d = text)) as [->|Hdt].
    + assert (x = reread s) as -> by congruence. rewrite Heq. rewrite_same. cbn [negb orb].
      by rewrite insert_id.
    + rewrite (bool_decide_false (d = text)) by done. cbn [negb orb].
      erewrite mbind_run by (by eapply replace_run).
      erewrite mbind_run by (eapply read_run; [done|apply lookup_insert_eq|done|done]).
      apply guard_pass. by rewrite_same.
Qed.

Lemma finalizer_now_run {A} v (k : Z -> M RootedFilesystem A) w :
  0 <= v <= MAX_MONOTONIC_NS -> mbind (finalizer_now v) k w = k v w.
Proof.
  intros Hv. unfold finalizer_now, refuse_when. apply mbind_run. rewrite guard_run; [done|].
  apply negb_false_iff, andb_true_iff. lia.
Qed.

(** ** The steps on the catalog *)

(** A clip being written, at the sources of the promotion, that no event window waits for. *)
Record being_written (w : World RootedFilesystem) (id : UUID) (p : PairPaths) (start : Z) (c : ClipRow) : Prop := mkWritten {
  bw_row : clips (w_db w) !! id = Some c;
  bw_state : r_lifecycle c = WRITING /\ r_reconciled c = false /\ r_managed c = true /\ r_lease c = None;
  bw_paths : r_video_path c = video_source p /\ r_sidecar_path c = sidecar_source p;
  bw_start : r_start_ns c = start;
  bw_idle : pending_of (w_db w) id = None;
  bw_windows : select_pending_windows id c (w_db w) = []
}.

Definition recovery_pending (d : DB) : list (UUID * IntentRow) :=
  select_pending (fun r => bool_decide (kind (i_intent r) ∈ RECOVERY_INTENT_KINDS)) d.

Lemma pending_intents_run w :
  db_ok (w_db w) -> Z.of_nat (length (recovery_pending (w_db w))) <= fl_max_pending_intents limits ->
  pending_intents limits w = (Ok (map (fun x => i_intent (snd x)) (recovery_pending (w_db w)), false), w).
Proof.
  intros Hok Hn. destruct (finalizer_limits_facts limits Hlimits) as (_ & Hp & _).
  assert (Hst : Forall (fun x : UUID * IntentRow => stored_ok (i_intent (snd x))) (recovery_pending (w_db w))).
  { apply Forall_forall. intros x (Hi & _)%select_pending_elem. by apply (ok_intents _ Hok) in Hi as (_ & ? & _). }
  unfold pending_intents, list_pending_intents_by_kind. erewrite mbind_run.
  2: { erewrite mbind_run.
       2: { unfold lift, row_limit, positive_integer. replace (fl_max_pending_intents limits + 1 <=? 0) with false by lia.
            cbn [result_bind]. unfold MAX_QUERY_ROWS. by replace (10000 <? fl_max_pending_intents limits + 1) with false by lia. }
       erewrite mbind_run by (unfold lift; cbn; reflexivity). erewrite mbind_run by reflexivity. fold (recovery_pending (w_db w)).
       assert (limited (fl_max_pending_intents limits + 1) (recovery_pending (w_db w)) = recovery_pending (w_db w)) as ->
         by (unfold limited; apply take_ge; lia).
       unfold lift. rewrite result_map_stored by by apply Forall_map. rewrite map_map. reflexivity. }
  rewrite length_map. replace (fl_max_pending_intents limits <? _) with false by lia. unfold mret, limited.
  by rewrite take_ge by (rewrite length_map; lia).
Qed.

(** No pending intent is the clip's. *)
Lemma no_pending_of_clip d id :
  pending_of d id = None ->
  List.filter (fun i => bool_decide (clip_id i = id)) (map (fun x => i_intent (snd x)) (recovery_pending d)) = [].
Proof.
  intros Hp. apply filter_none. intros i Hi. apply in_map_iff in Hi as ([j row] & <- & Hin%list_elem_of_In).
  apply select_pending_elem in Hin as (Hi & Hinc & _). apply bool_decide_false. rewrite pending_of_None in Hp. by eapply Hp.
Qed.

Lemma get_clip_if_present_run id w r :
  clips (w_db w) !! id = Some r -> r_lease r = None -> get_clip_if_present (F := RootedFilesystem) id w = (Ok (Some (row_clip id r)), w).
Proof. intros Hc Hl. unfold get_clip_if_present. apply mtry_run. by erewrite mbind_run by (by apply get_clip_run). Qed.

Lemma closing_protection_run w id p start c now :
  being_written w id p start c -> 0 <= now ->
  active_closing_protection id now w = (Ok (mkActiveProtection (r_protected c) (r_reason c) (r_revision c)), w).
Proof.
  intros [Hc (Hl & _) _ _ _ Hw] Hn. unfold active_closing_protection.
  erewrite mbind_run by (unfold lift, non_negative_integer; by replace (now <? 0) with false by lia).
  apply transaction_run. erewrite mbind_run by (by apply required_clip_row_ok).
  rewrite guard_run by (rewrite Hl; by rewrite_same). erewrite mbind_run by reflexivity. rewrite Hw.
  erewrite mbind_run by reflexivity. by erewrite mbind_run by (by apply required_clip_row_ok).
Qed.

(** The sidecar with the protection of the row. *)
Lemma replace_protection_ok s protected reason e :
  replace_protection s protected reason = Ok e -> built s -> carried s = true -> repeated_hour s = false ->
  built e /\ carried e = true /\ repeated_hour e = false /\ sd_protected e = protected /\ sd_protection_reason e = reason /\
  sd_clip_id e = sd_clip_id s /\ sd_video_file e = sd_video_file s /\ sd_metadata_file e = sd_metadata_file s /\
  sd_start_monotonic_ns e = sd_start_monotonic_ns s /\ sd_end_monotonic_ns e = sd_end_monotonic_ns s.
Proof.
  unfold replace_protection. intros Hn [Hs Hv Ha Hg Hsam Han] Hc Hr. pose proof Hn as Hn'. apply ClipSidecar_new_ok in Hn' as (-> & _).
  split; [by constructor|]. split_and!; done.
Qed.

(** The catalog accepts the reason of a protection. *)
Definition reason_accepted (protected : bool) (reason : option str) : Prop :=
  match reason with Some r => protected = true /\ check_reason r = Ok tt | None => protected = false end.

Lemma promotion_names_distinct stem s p : promotes stem s p -> stem ++ u ".mp4" <> stem ++ u ".json".
Proof. intros _ E%app_inv_head. done. Qed.

Lemma validate_finalizing_clip stem s p order size :
  promotes stem s p -> built s -> reason_accepted (sd_protected s) (sd_protection_reason s) -> 0 <= order -> 0 <= size ->
  validate_clip (finalizing_clip s p order size) = Ok tt.
Proof.
  intros [Hv Hm -> Hok _] Hb Hr Ho Hs. pose proof (ok_monotonic s (built_ok s Hb)) as Hmono.
  destruct (managed_directory_facts (u "pending") _ pending_managed Hv) as [Pv Nv].
  destruct (managed_directory_facts (u "pending") _ pending_managed Hm) as [Pm Nm].
  unfold paths_ok in Hok. apply PairPaths_new_ok in Hok as (_ & Hpv & Hpm & Hne & _).
  unfold validate_clip. cbn -[path_parent path_name in_directory bool_decide PairPaths_new ClipFilePair_new]. cbn [video_source sidecar_source] in *.
  unfold PairPaths_new at 1. unfold path_ok in Hpv, Hpm. cbn [validate_all validate_optional_path]. rewrite Hpv, Hpm. cbn [result_bind].
  rewrite bool_decide_false by done. cbn [result_bind]. rewrite Nv, Nm, ClipFilePair_new_stem by done. cbn [result_bind].
  rewrite Pv, Pm. rewrite_same. cbn [negb]. rewrite (bool_decide_true (u "pending" ∈ MANAGED_DIRECTORIES)) by apply pending_managed. cbn [negb].
  unfold non_negative_integer. replace (sd_start_monotonic_ns s <? 0) with false by lia. cbn [result_bind].
  replace (sd_end_monotonic_ns s <? 0) with false by lia. cbn [result_bind].
  replace (sd_end_monotonic_ns s <=? sd_start_monotonic_ns s) with false by lia. cbn [result_bind].
  replace (order <? 0) with false by lia. cbn [result_bind]. replace (size <? 0) with false by lia. cbn [result_bind].
  rewrite (bool_decide_false (FINALIZING = FINALIZED)) by done. cbn [andb].
  unfold reason_accepted in Hr. destruct (sd_protection_reason s) as [r|].
  - destruct Hr as [-> ->]. reflexivity.
  - rewrite Hr. reflexivity.
Qed.

(** The row and the intent of a registered promotion. *)
Definition closing_row (e : Metadata.ClipSidecar) (size now : Z) (c : ClipRow) : ClipRow :=
  with_updated now (with_lifecycle FINALIZING (with_end_size (sd_end_monotonic_ns e) size c)).

Definition promotion_row (w : World RootedFilesystem) (id : UUID) (p : PairPaths) (now : Z) : IntentRow :=
  mkIntentRow (mkIntent (uuids (w_uuids w)) id FINALIZE now p Intents.SCHEMA_VERSION) false None None None None None.

Definition registered_promotion (e : Metadata.ClipSidecar) (p : PairPaths) (size now : Z) (c : ClipRow) (w : World RootedFilesystem)
    : World RootedFilesystem :=
  mkWorld
    (set_intents (fun rows => <[uuids (w_uuids w) := promotion_row w (sd_clip_id e) p now]> rows)
       (set_clips (fun rows => <[sd_clip_id e := closing_row e size now c]> rows) (w_db w)))
    (w_fs w) (S (w_uuids w)).

Lemma target_facts stem s p :
  promotes stem s p -> built s ->
  path_parent (in_directory (u "clips") (sd_video_file s)) = u "clips" /\
  path_name (in_directory (u "clips") (sd_video_file s)) = sd_video_file s /\
  path_parent (in_directory (u "clips") (sd_metadata_file s)) = u "clips" /\
  path_name (in_directory (u "clips") (sd_metadata_file s)) = sd_metadata_file s.
Proof.
  intros Hp Hb. destruct (promotion_targets_valid stem s p Hp (ok_pair s (built_ok s Hb))) as [Hv Hm].
  destruct (managed_directory_facts (u "clips") _ clips_managed Hv), (managed_directory_facts (u "clips") _ clips_managed Hm). done.
Qed.

Lemma source_facts stem s p :
  promotes stem s p ->
  path_parent (video_source p) = u "pending" /\ path_name (video_source p) = stem ++ u ".mp4" /\
  path_parent (sidecar_source p) = u "pending" /\ path_name (sidecar_source p) = stem ++ u ".json".
Proof.
  intros [Hv Hm -> _ _].
  destruct (managed_directory_facts (u "pending") _ pending_managed Hv), (managed_directory_facts (u "pending") _ pending_managed Hm). done.
Qed.

(** The two pairs are distinct names of four usable files. *)
Lemma promotion_usable stem s p :
  promotes stem s p -> built s ->
  exists v' s', video_target p = Some v' /\ sidecar_target p = Some s' /\ usable (video_source p) /\ usable (sidecar_source p) /\
    usable v' /\ usable s' /\ NoDup [video_source p; v'; sidecar_source p; s'].
Proof.
  intros Hp Hb. destruct (target_facts _ _ _ Hp Hb) as (Pv' & _ & Ps' & _). destruct (source_facts _ _ _ Hp) as (Pv & _ & Ps & _).
  destruct Hp as [_ _ -> Hok _]. cbn [video_source sidecar_source video_target sidecar_target] in *.
  unfold paths_ok in Hok. apply PairPaths_new_ok in Hok as (_ & Hpv & Hps & Hne & Ht & Hne').
  assert (forall d x, d ∈ MANAGED_DIRECTORIES -> path_parent x = d -> managed x) as Hm by (intros d x Hd <-; exact Hd).
  do 2 eexists. split; [done|]. split; [done|].
  split; [split; [done|by apply (Hm (u "pending")); [apply pending_managed|]]|].
  split; [split; [done|by apply (Hm (u "pending")); [apply pending_managed|]]|].
  split; [split; [apply Ht; by left|by apply (Hm (u "clips")); [apply clips_managed|]]|].
  split; [split; [apply Ht; by right|by apply (Hm (u "clips")); [apply clips_managed|]]|].
  assert (forall x y, path_parent x = u "pending" -> path_parent y = u "clips" -> x <> y) as Hd by (intros x y Hx Hy ->; by rewrite Hx in Hy).
  apply NoDup_four; [by apply Hd|exact Hne|by apply Hd|apply not_eq_sym; by apply Hd|by apply Hne'|by apply Hd].
Qed.

Lemma register_finalizing_run w stem e p size now c start :
  db_ok (w_db w) -> being_written w (sd_clip_id e) p start c -> promotes stem e p -> built e ->
  start = sd_start_monotonic_ns e -> r_protected c = sd_protected e -> r_reason c = sd_protection_reason e ->
  reason_accepted (sd_protected e) (sd_protection_reason e) -> 0 <= r_order c -> 0 <= size -> 0 <= now ->
  intents (w_db w) !! uuids (w_uuids w) = None ->
  register_finalizing_clip (finalizing_clip e p (r_order c) size) p now (Some (r_revision c)) w
  = (Ok (uuids (w_uuids w)), registered_promotion e p size now c w).
Proof.
  intros Hok [Hc (Hlife & Hrec & Hman & Hlease) [Ev Es] Hst Hidle _] Hp Hb -> Hprot Hreason Hacc Ho Hsz Hn Hfresh.
  pose proof (target_facts _ _ _ Hp Hb) as (Pv' & Nv' & Ps' & Ns'). pose proof (source_facts _ _ _ Hp) as (Pv & Nv & Ps & Ns).
  pose proof (ok_pair e (built_ok e Hb)) as Hpair. destruct (ok_rows _ Hok _ _ Hc) as (Hchk & _).
  pose proof (ok_monotonic e (built_ok e Hb)) as Hmono.
  pose proof (pr_names _ _ _ Hp) as (n & t & Hpn & Hpt & Hn1 & Hn2 & Hbt & Hsq).
  pose proof (validate_finalizing_clip stem e p (r_order c) size Hp Hb Hacc Ho Hsz) as Hval.
  pose proof (pr_paths _ _ _ Hp) as Ep. pose proof (pr_valid _ _ _ Hp) as Hvalid.
  unfold register_finalizing_clip. erewrite mbind_run by (unfold lift; by rewrite Hval).
  erewrite mbind_run by (unfold lift, non_negative_integer; by replace (now <? 0) with false by lia).
  assert (Evt : video_target p = Some (in_directory (u "clips") (sd_video_file e))) by by rewrite Ep.
  assert (Est : sidecar_target p = Some (in_directory (u "clips") (sd_metadata_file e))) by by rewrite Ep.
  rewrite guard_run.
  2: { unfold finalization_declared. rewrite Evt, Est, Pv', Ps'. unfold finalizing_clip. cbn -[path_parent bool_decide].
       rewrite Pv. rewrite_same. done. }
  erewrite mbind_run.
  2: { unfold lift, or_conflict, finalization_identities. rewrite Evt, Est, Nv, Ns. cbn [from_option id]. rewrite Nv', Ns'.
       rewrite ClipFilePair_new_stem by apply Hp. cbn [result_bind].
       destruct (ClipFilePair_new (sd_video_file e) (sd_metadata_file e)) as [?|]; [|done]. cbn [result_bind].
       rewrite Hpn, Hpt. cbn [result_bind]. reflexivity. }
  cbv iota beta. rewrite guard_run by (rewrite Hn1, Hn2, Hbt, Hsq, Z.eqb_refl; by rewrite_same).
  erewrite mbind_run.
  2: { unfold lift, non_negative_integer. assert (0 <= r_revision c) as Hrev by (unfold clip_checks in Hchk; bool_prop; lia).
       by replace (r_revision c <? 0) with false by lia. }
  apply transaction_run. erewrite mbind_run by reflexivity. cbn [c_clip_id finalizing_clip]. rewrite Hc.
  erewrite mbind_run.
  2: { rewrite guard_run by (by rewrite Z.eqb_refl).
       rewrite guard_run.
       2: { unfold same_writing_identity. cbn -[bool_decide]. rewrite Hlife, Ev, Es, Hst, Hprot, Hreason, Hman, Hrec, !Z.eqb_refl. by rewrite_same. }
       erewrite mbind_run; [reflexivity|]. cbn [c_end_monotonic_ns c_size_bytes].
       apply (update_clip_run (sd_clip_id e) (fun c => with_updated now (with_lifecycle FINALIZING (with_end_size (sd_end_monotonic_ns e) size c))) w c Hc).
       unfold clip_checks in *. cbn. bool_prop. rewrite !andb_true_iff. split_and!; lia. }
  set (w1 := set_db _ w).
  assert (insert_intent_locked (sd_clip_id e) FINALIZE p now None w1
    = (Ok (i_intent (promotion_row w (sd_clip_id e) p now)), registered_promotion e p size now c w)) as Hins.
  { unfold insert_intent_locked. erewrite mbind_run by reflexivity. erewrite mbind_run.
    2: { unfold lift, OperationIntent_new. rewrite Z.eqb_refl, Evt, Est. cbn [negb]. replace (now <? 0) with false by lia. reflexivity. }
    erewrite mbind_run; [reflexivity|].
    apply (insert_intent_run (promotion_row w (sd_clip_id e) p now) (mkWorld (w_db w1) (w_fs w1) (S (w_uuids w1)))
      (closing_row e size now c)); cbn -[insert lookup]; [exact Hfresh|exact Hidle|apply lookup_insert_eq|done]. }
  erewrite mbind_run by exact Hins. done.
Qed.
End steps.
