(* ===== verification/FinalizerClosing.v ===== *)
(** * A closed segment is finalized

    [finalize] from start to end on the rooted filesystem, for the clip being written: the sidecar is
    staged with the clip's protection, the promotion registered and both files moved, to [clips/] or,
    for a protected clip, on to [protected/]. *)

From Stdlib Require Import Ascii String ZArith Lia Strings.Byte.
From stdpp Require Import base list gmap strings sorting.
From S2P Require Import Prelude PyStr Uuid DateTime State Naming Intents Models Filesystem.
From S2P Require Import CatalogDb Catalog Reconcile ManagedPath CatalogInv CatalogSafe.
From S2P Require Import ReconcileSafe CatalogProperties Convergence NameConvergence Reclaimer ReclaimerProperties CoordinatorRename FinalizeConvergence.
From S2P Require Import LocalTime Metadata Sidecar SidecarProperties SidecarSize SidecarClaims Projection Coordinator CoordinatorProperties.
From S2P Require Import FinalizerFilesystem Finalizer FinalizerSidecar FinalizerSafe FinalizerRun.

Section closing.
Context `{ZoneLaws} (uuids : nat -> UUID) (sha256 : bytes -> str) (limits : FinalizerLimits).
#[local] Instance closing_environment : Environment := finalizer_environment uuids sha256.
Implicit Types (w : World RootedFilesystem) (m : gmap str bytes).
Hypothesis Hlimits : FinalizerLimits_new limits = Ok limits.
(** The finalizer may take both steps of a move in one call. *)
Hypothesis Hactions : fl_max_actions_per_intent limits = 2.

(** Nothing stands in the way of the promotion [p] of the clip being written, whose sidecar becomes [e]. *)
Record ready_to_close (w : World RootedFilesystem) (name : str) (s e : Metadata.ClipSidecar) (p : PairPaths) (c : ClipRow)
    (dv : bytes) : Prop := mkReady {
  rc_paths : promotion_paths name s = Ok p;
  rc_written : being_written w (sd_clip_id s) p (sd_start_monotonic_ns s) c;
  rc_order : 0 <= r_order c;
  rc_sidecar : built s /\ carried s = true /\ repeated_hour s = false;
  rc_effective : replace_protection s (r_protected c) (r_reason c) = Ok e;
  rc_reason : reason_accepted (r_protected c) (r_reason c);
  rc_size : blen (Sidecar.to_canonical_json e) <= fl_max_sidecar_bytes limits;
  rc_video : rf_files (w_fs w) !! video_source p = Some dv /\ 0 < blen dv;
  rc_staged : stageable limits (rf_files (w_fs w)) (sidecar_source p);
  rc_names : unique_names (rf_files (w_fs w)) p /\ scannable limits (rf_files (w_fs w));
  rc_bound : rf_bound (w_fs w) = true;
  rc_pending : Z.of_nat (length (recovery_pending (w_db w))) <= fl_max_pending_intents limits;
  rc_fresh : intents (w_db w) !! uuids (w_uuids w) = None
}.

(** Readings a monotonic clock can give. *)
Definition clock_ok (clock : reading -> Z) : Prop := forall r, 0 <= clock r <= MAX_MONOTONIC_NS.

Definition with_staged (w : World RootedFilesystem) (p : PairPaths) (e : Metadata.ClipSidecar) : World RootedFilesystem :=
  with_files (<[sidecar_source p := Sidecar.to_canonical_json e]> (rf_files (w_fs w))) w.

Section one_closing.
Context (w : World RootedFilesystem) (name : str) (s e : Metadata.ClipSidecar) (p : PairPaths) (c : ClipRow) (dv : bytes)
  (clock : reading -> Z).
Hypothesis Hw : catalog_reachable w.
Hypothesis Hready : ready_to_close w name s e p c dv.
Hypothesis Hclock : clock_ok clock.

Let w1 := registered_promotion uuids e p (blen dv) (clock (AT_PROMOTION 0)) c (with_staged w p e).
Let row1 := closing_row e (blen dv) (clock (AT_PROMOTION 0)) c.

Lemma effective_facts :
  built e /\ carried e = true /\ repeated_hour e = false /\ sd_protected e = r_protected c /\ sd_protection_reason e = r_reason c /\
  sd_clip_id e = sd_clip_id s /\ sd_video_file e = sd_video_file s /\ sd_metadata_file e = sd_metadata_file s /\
  sd_start_monotonic_ns e = sd_start_monotonic_ns s /\ sd_end_monotonic_ns e = sd_end_monotonic_ns s.
Proof. destruct Hready as [_ _ _ (Hb & Hc & Hr) He _ _ _ _ _ _ _ _]. by eapply replace_protection_ok. Qed.

Lemma effective_promotes : exists stem, promotes stem e p.
Proof.
  destruct effective_facts as (_ & _ & _ & _ & _ & _ & Ev & Em & _).
  destruct (promotion_paths_inv _ _ _ (rc_paths _ _ _ _ _ _ _ Hready)) as (stem & _ & [Hv Hm Hp Hok Hn]).
  exists stem. constructor; [done|done|by rewrite Ev, Em|done|by rewrite Ev].
Qed.

Lemma world_files : w = with_files (rf_files (w_fs w)) w.
Proof.
  pose proof (rc_bound _ _ _ _ _ _ _ Hready) as Hb. unfold with_files, set_fs. destruct w as [db [m b] n]. cbn in *. by subst.
Qed.

Lemma written_staged : being_written (with_staged w p e) (sd_clip_id e) p (sd_start_monotonic_ns s) c.
Proof.
  destruct effective_facts as (_ & _ & _ & _ & _ & -> & _). destruct (rc_written _ _ _ _ _ _ _ Hready). by constructor.
Qed.

(** The first attempt registers the promotion. *)
Lemma attempt_run :
  register_attempt uuids sha256 limits s p (r_order c) (blen dv) true clock 0 w = (Ok (Some (uuids (w_uuids w), e)), w1).
Proof.
  destruct effective_facts as (Hb & Hc & Hr & Hprot & Hreason & Hid & _ & _ & Hstart & _). destruct effective_promotes as [stem Hp].
  destruct (promotion_usable _ _ _ Hp Hb) as (v' & s' & _ & _ & _ & Us & _).
  pose proof (reachable_ok w Hw) as Hok. pose proof (Hclock (AT_PROMOTION 0)). pose proof (Hclock (AT_CLOSING 0)).
  pose proof Hready as [_ Hwr Ho _ He Hacc Hsz [_ Hlv] Hst _ _ _ Hfresh].
  unfold register_attempt. erewrite mbind_run.
  2: { rewrite finalizer_now_run by done. erewrite mbind_run by (eapply closing_protection_run; [exact Hwr|lia]).
       cbn [ap_protected ap_reason ap_revision]. erewrite mbind_run by (unfold lift; by rewrite He). reflexivity. }
  cbv beta iota. erewrite mbind_run.
  2: { rewrite world_files at 1. apply (stage_run limits Hlimits); [exact Us|exact Hst|exact Hb|exact Hc|exact Hr|exact Hsz]. }
  fold (with_staged w p e). apply mtry_run. rewrite finalizer_now_run by done.
  erewrite mbind_run; [reflexivity|]. eapply register_finalizing_run; try done.
  - exact written_staged.
  - by rewrite Hprot, Hreason.
  - lia.
  - lia.
Qed.

Lemma registered_reachable : catalog_reachable w1.
Proof.
  destruct effective_facts as (Hb & Hc & Hr & Hprot & Hreason & Hid & _ & _ & Hstart & _). destruct effective_promotes as [stem Hp].
  pose proof (reachable_ok w Hw) as Hok. pose proof (Hclock (AT_PROMOTION 0)).
  pose proof Hready as [_ Hwr Ho _ He Hacc Hsz [_ Hlv] Hst _ _ _ Hfresh].
  assert (register_finalizing_clip (finalizing_clip e p (r_order c) (blen dv)) p (clock (AT_PROMOTION 0)) (Some (r_revision c)) (with_staged w p e)
    = (Ok (uuids (w_uuids w)), w1)) as Hreg.
  { eapply register_finalizing_run; try done; [exact written_staged|by rewrite Hprot, Hreason|lia|lia]. }
  pose proof (reach_call (with_staged w p e) (CRegisterFinalizing (finalizing_clip e p (r_order c) (blen dv)) p (clock (AT_PROMOTION 0)) (Some (r_revision c)))
    (reach_files _ _ Hw) (pr_valid _ _ _ Hp)) as Hr1.
  cbn [run_call] in Hr1. unfold void, mbind in Hr1. by rewrite Hreg in Hr1.
Qed.

Lemma registered_rows :
  clips (w_db w1) !! sd_clip_id s = Some row1 /\
  intents (w_db w1) !! uuids (w_uuids w) = Some (promotion_row uuids w (sd_clip_id s) p (clock (AT_PROMOTION 0))).
Proof.
  destruct effective_facts as (_ & _ & _ & _ & _ & Hid & _). unfold w1, registered_promotion. rewrite Hid. cbn -[insert lookup].
  split; apply lookup_insert_eq.
Qed.

Lemma find_run :
  find_registered_intent (F := RootedFilesystem) (uuids (w_uuids w)) (sd_clip_id s) p w1
  = (Ok (i_intent (promotion_row uuids w (sd_clip_id s) p (clock (AT_PROMOTION 0)))), w1).
Proof.
  destruct registered_rows as [_ Hi]. pose proof (reachable_ok w1 registered_reachable) as Hok1.
  unfold find_registered_intent. erewrite mbind_run.
  2: { unfold get_pending_intent. erewrite mbind_run by reflexivity. rewrite Hi. cbn [promotion_row i_complete].
       destruct (ok_intents _ Hok1 _ _ Hi) as (_ & Hst & _).
       erewrite mbind_run by (unfold lift; rewrite intent_from_row_stored by exact Hst; reflexivity). reflexivity. }
  unfold validate_intent, refuse_when. cbn [i_intent promotion_row clip_id kind paths].
  rewrite guard_run by by rewrite_same. erewrite mbind_run; [reflexivity|]. apply guard_pass. by rewrite_same.
Qed.

(** Everything of [finalize] up to the execution of the registered promotion. *)
Lemma finalize_registers :
  finalize uuids sha256 limits name s (r_order c) clock w =
  mbind (reconcile uuids sha256 limits (i_intent (promotion_row uuids w (sd_clip_id s) p (clock (AT_PROMOTION 0)))) false
           (clock AT_RECONCILIATION))
    (fun outcome => if fo_complete outcome && r_protected c then reconcile_clip_followups uuids sha256 limits outcome clock
                    else mret outcome) w1.
Proof.
  destruct effective_facts as (Hb & _ & _ & Hprot & _). destruct effective_promotes as [stem Hp].
  destruct (promotion_usable _ _ _ Hp Hb) as (v' & s' & Ev' & Es' & Uv & Us & _).
  destruct (source_facts _ _ _ Hp) as (Pv & _ & Ps & _).
  pose proof (reachable_ok w Hw) as Hok. destruct (finalizer_limits_facts limits Hlimits) as (_ & _ & _ & _ & Hretry).
  pose proof Hready as [Hpaths Hwr Ho _ _ _ _ [Hv Hlv] _ [Hun Hscan] _ Hpend _]. pose proof Hwr as [Hc (Hlife & _ & _ & Hlease) _ _ Hidle _].
  unfold finalize. erewrite mbind_run by (unfold lift; by rewrite Hpaths).
  erewrite mbind_run by (unfold lift, non_negative; by replace (r_order c <? 0) with false by lia). cbv zeta.
  erewrite mbind_run by (by apply pending_intents_run). cbv beta iota. rewrite no_pending_of_clip by exact Hidle.
  unfold refuse_when at 1. rewrite guard_run by done. erewrite mbind_run by (by apply get_clip_if_present_run).
  cbn [row_clip c_lifecycle]. rewrite Hlife. rewrite decide_True by done. unfold promote.
  erewrite mbind_run by (rewrite world_files at 1; by eapply require_free_run).
  rewrite <-world_files.
  erewrite mbind_run by (rewrite world_files at 1; by apply closed_video_run). rewrite <-world_files.
  erewrite mbind_run by (rewrite world_files at 1; by apply sync_run). rewrite <-world_files. cbv zeta iota.
  destruct (Z.to_nat (fl_max_protection_retries limits)) as [|n] eqn:En; [lia|]. cbn [register_attempts].
  erewrite mbind_run by (erewrite mbind_run by exact attempt_run; reflexivity). cbv beta iota.
  erewrite mbind_run by exact find_run. by rewrite Hprot.
Qed.

(** The registered world meets what the promotion asks. *)
Lemma promotion_ready :
  exists v' s', video_target p = Some v' /\ sidecar_target p = Some s' /\
    path_name v' = sd_video_file e /\ path_name s' = sd_metadata_file e /\ path_parent v' = u "clips" /\ path_parent s' = u "clips" /\
    NoDup [r_video_path row1; v'; r_sidecar_path row1; s'] /\
    at_one_end (rf_files (w_fs w1)) (r_video_path row1) v' dv /\
    at_one_end (rf_files (w_fs w1)) (r_sidecar_path row1) s' (Sidecar.to_canonical_json e) /\
    sidecar_identifies (H0 := closing_environment) (reread e) (sd_clip_id s) v' s' = true /\
    rf_files (w_fs w) !! v' = None /\ rf_files (w_fs w) !! s' = None.
Proof.
  destruct effective_facts as (Hb & _ & _ & _ & _ & Hid & _). destruct effective_promotes as [stem Hp].
  destruct (promotion_usable _ _ _ Hp Hb) as (v' & s' & Ev' & Es' & _ & _ & _ & _ & Hnd).
  destruct (target_facts _ _ _ Hp Hb) as (Pv' & Nv' & Ps' & Ns').
  pose proof Hready as [_ Hwr _ _ _ _ _ [Hv _] _ [[_ Hut] _] _ _ _]. destruct Hwr as [_ _ [Ev Es] _ _ _].
  assert (v' = in_directory (u "clips") (sd_video_file e) /\ s' = in_directory (u "clips") (sd_metadata_file e)) as [-> ->].
  { rewrite (pr_paths _ _ _ Hp) in Ev', Es'. cbn in Ev', Es'. by simplify_eq. }
  assert (forall t, Some t = video_target p \/ Some t = sidecar_target p -> path_parent t = u "clips" -> rf_files (w_fs w) !! t = None) as Hnone.
  { intros t Ht Hd. destruct (rf_files (w_fs w) !! t) eqn:E; [|done]. destruct (Hut t t Ht); [by eexists|by left|done]. }
  exists (in_directory (u "clips") (sd_video_file e)), (in_directory (u "clips") (sd_metadata_file e)).
  cbn [row1 closing_row with_updated with_lifecycle with_end_size r_video_path r_sidecar_path]. rewrite Ev, Es.
  pose proof Hnd as Hnd'. rewrite !NoDup_cons, !elem_of_cons in Hnd'. destruct Hnd' as (Hn1 & Hn2 & Hn3 & _).
  split_and!; try done.
  - left. cbn [w1 registered_promotion w_fs with_staged with_files set_fs rf_files]. rewrite !lookup_insert_ne by naive_solver.
    split; [done|]. apply Hnone; [by left|done].
  - left. cbn [w1 registered_promotion w_fs with_staged with_files set_fs rf_files]. rewrite lookup_insert_eq, lookup_insert_ne by naive_solver.
    split; [done|]. apply Hnone; [by right|done].
  - apply (names_identify uuids sha256); [exact Hid|exact Nv'|exact Ns'].
  - apply Hnone; [by left|done].
  - apply Hnone; [by right|done].
Qed.

Lemma parse_staged : CatalogDb.parse_sidecar_bytes (Sidecar.to_canonical_json e) = Ok (reread e).
Proof.
  destruct effective_facts as (Hb & Hc & Hr & _).
  change (Sidecar.parse_sidecar_bytes (Sidecar.to_canonical_json e) = Ok (reread e)). by rewrite read_back_or_refused, Hr.
Qed.

Lemma staged_bounded : blen (Sidecar.to_canonical_json e) <= Catalog.MAX_SIDECAR_BYTES.
Proof. destruct effective_facts as (Hb & Hc & _). exact (canonical_text_bounded e Hb Hc). Qed.

(** The staged copy makes no difference to where the files end. *)
Lemma staged_after_move v' s' q :
  after_move (rf_files (w_fs w1)) (video_source p) (sidecar_source p) v' s' dv (Sidecar.to_canonical_json e) q
  = after_move (rf_files (w_fs w)) (video_source p) (sidecar_source p) v' s' dv (Sidecar.to_canonical_json e) q.
Proof.
  unfold after_move. cbn [w1 registered_promotion w_fs with_staged with_files set_fs rf_files].
  destruct (decide (q = s')); [done|]. destruct (decide (q = sidecar_source p)) as [|Hne]; [done|].
  by rewrite lookup_insert_ne by congruence.
Qed.

(** The execution of a pending intent the catalog completes. *)
Lemma reconcile_completes i b v k w0 w' :
  kind i ∈ RECOVERY_INTENT_KINDS -> 0 <= v <= MAX_MONOTONIC_NS ->
  reconcile_intent (intent_id i) v 2 w0 = (Ok (mkReconcileResult i k true []), w') ->
  reconcile uuids sha256 limits i b v w0 = (Ok (mkOutcome (clip_id i) (Some (intent_id i)) k true b), w').
Proof.
  intros Hk Hv Hrun. unfold reconcile, refuse_when. rewrite guard_run by (by rewrite bool_decide_true).
  rewrite finalizer_now_run by done. rewrite Hactions. erewrite mbind_run by exact Hrun. cbn [rr_intent rr_problems].
  rewrite guard_run by by rewrite_same. rewrite guard_run by by rewrite_same. done.
Qed.

Lemma promotion_kind : FINALIZE ∈ RECOVERY_INTENT_KINDS.
Proof. apply (bool_decide_unpack _). vm_compute. exact I. Qed.

Lemma with_restored r (f : IntentRow -> IntentRow) i (rows : gmap UUID IntentRow) : alter f i (<[i := r]> rows) = <[i := f r]> rows.
Proof. apply map_eq. intros j. rewrite lookup_alter. case_decide as E; [by rewrite <-E, !lookup_insert_eq|by rewrite !lookup_insert_ne]. Qed.

(** The promotion of an unprotected clip. *)
Lemma finalize_unprotected :
  r_protected c = false ->
  exists k v' s' w',
    finalize uuids sha256 limits name s (r_order c) clock w
      = (Ok (mkOutcome (sd_clip_id s) (Some (uuids (w_uuids w))) k true false), w') /\
    video_target p = Some v' /\ sidecar_target p = Some s' /\ catalog_reachable w' /\ rf_bound (w_fs w') = true /\
    (forall q, rf_files (w_fs w') !! q
       = after_move (rf_files (w_fs w)) (video_source p) (sidecar_source p) v' s' dv (Sidecar.to_canonical_json e) q) /\
    clips (w_db w') = <[sd_clip_id s := renamed_row (clock AT_RECONCILIATION) v' s' row1]> (clips (w_db w)) /\
    intents (w_db w') = <[uuids (w_uuids w) := with_complete (clock AT_RECONCILIATION)
      (promotion_row uuids w (sd_clip_id s) p (clock (AT_PROMOTION 0)))]> (intents (w_db w)).
Proof.
  intros Hprot. destruct promotion_ready as (v' & s' & Ev' & Es' & Nv' & Ns' & _ & _ & Hnd & H1 & H2 & Hid & _).
  destruct registered_rows as [Hc1 Hi1]. pose proof (reachable_ok w1 registered_reachable) as Hok1.
  pose proof (Hclock AT_RECONCILIATION). pose proof Hready as [_ [Hc _ [Ev Es] _ _ _] _ _ _ _ _ _ _ _ Hb _ _].
  destruct effective_facts as (_ & _ & _ & _ & _ & Heid & _).
  edestruct (@finalize_intent_run closing_environment w1 (uuids (w_uuids w)) (promotion_row uuids w (sd_clip_id s) p (clock (AT_PROMOTION 0)))
    (clock AT_RECONCILIATION) 2 row1 v' s' (Sidecar.to_canonical_json e) (reread e) dv)
    as (k & w' & Hrun & Hbound & Hn & Hfiles & Hclips & Hints); try done; try lia.
  { exact parse_staged. } { exact staged_bounded. }
  exists k, v', s', w'. split; [|split; [done|split; [done|split; [|split; [done|split; [|split]]]]]].
  - rewrite finalize_registers. erewrite mbind_run by (by apply reconcile_completes; [apply promotion_kind|..]).
    cbn [fo_complete]. by rewrite Hprot.
  - pose proof (reaches_reconcile (uuids (w_uuids w)) (clock AT_RECONCILIATION) 2 w1 registered_reachable) as Hr. by rewrite Hrun in Hr.
  - intros q. rewrite Hfiles. cbn [row1 closing_row with_updated with_lifecycle with_end_size r_video_path r_sidecar_path].
    rewrite Ev, Es. apply staged_after_move.
  - rewrite Hclips. cbn [i_intent promotion_row clip_id]. unfold w1, registered_promotion. cbn -[insert]. by rewrite Heid, insert_insert_eq.
  - rewrite Hints. unfold w1, registered_promotion. cbn -[insert alter]. by rewrite Heid, with_restored.
Qed.

(** The follow-up moves of a clip. *)
Definition followups (id : UUID) (r : IntentRow) : bool :=
  bool_decide (clip_id (i_intent r) = id) && bool_decide (kind (i_intent r) ∈ [PROTECT; UNPROTECT]).

Lemma followups_run id w0 l :
  db_ok (w_db w0) -> select_pending (followups id) (w_db w0) = l -> (length l <= 2)%nat ->
  list_pending_intents_for_clip (F := RootedFilesystem) id [PROTECT; UNPROTECT] 2 w0 = (Ok (map (fun x => i_intent (snd x)) l), w0).
Proof.
  intros Hok Hl Hn. unfold list_pending_intents_for_clip. erewrite mbind_run by reflexivity.
  erewrite mbind_run by (unfold lift; cbn; reflexivity). erewrite mbind_run by reflexivity. fold (followups id). rewrite Hl.
  unfold limited. rewrite take_ge by lia. unfold lift. rewrite result_map_stored; [by rewrite map_map|].
  apply Forall_map, Forall_forall. intros x Hx. rewrite <-Hl in Hx. apply select_pending_elem in Hx as (Hi & _).
  by apply (ok_intents _ Hok) in Hi as (_ & ? & _).
Qed.

Lemma followups_single w0 id i row :
  db_ok (w_db w0) -> intents (w_db w0) !! i = Some row -> i_complete row = false -> followups id row = true ->
  select_pending (followups id) (w_db w0) = [(i, row)].
Proof.
  intros Hok Hi Hc Hf. unfold select_pending. rewrite (filter_single _ _ (i, row)); [done|apply NoDup_map_to_list|by apply elem_of_map_to_list| |].
  - cbn. by rewrite Hc, Hf.
  - intros [j r] Hj%elem_of_map_to_list Hr. cbn in Hr. unfold followups in *. bool_prop.
    assert (j = i) as -> by (eapply (ok_unique _ Hok); [exact Hj|exact Hi|done..|congruence]). congruence.
Qed.

Lemma followups_none w0 id :
  pending_of (w_db w0) id = None -> select_pending (followups id) (w_db w0) = [].
Proof.
  intros Hp. unfold select_pending. rewrite filter_none; [done|]. intros [j r] Hj%list_elem_of_In. apply elem_of_map_to_list in Hj. cbn.
  destruct (i_complete r) eqn:Hc; [done|]. unfold followups. rewrite pending_of_None in Hp.
  rewrite (bool_decide_false (clip_id (i_intent r) = id)) by (by eapply Hp). done.
Qed.

(** A clip under an event's protection is moved on to [protected/]: one follow-up, then none. *)
Lemma followup_completes w0 i row c0 v' s' v2 s2 d1 d2 k0 k1 :
  catalog_reachable w0 -> rf_bound (w_fs w0) = true -> intents (w_db w0) !! i = Some row -> i_complete row = false ->
  kind (i_intent row) = PROTECT -> clips (w_db w0) !! clip_id (i_intent row) = Some c0 ->
  video_target (paths (i_intent row)) = Some v2 -> sidecar_target (paths (i_intent row)) = Some s2 ->
  r_video_path c0 = v' -> r_sidecar_path c0 = s' -> NoDup [v'; v2; s'; s2] ->
  at_one_end (rf_files (w_fs w0)) v' v2 d1 -> at_one_end (rf_files (w_fs w0)) s' s2 d2 ->
  exists k w', reconcile_clip_followups uuids sha256 limits (mkOutcome (clip_id (i_intent row)) k0 k1 true false) clock w0
      = (Ok (mkOutcome (clip_id (i_intent row)) k0 (k1 + k) true false), w') /\
    rf_bound (w_fs w') = true /\ catalog_reachable w' /\
    (forall q, rf_files (w_fs w') !! q = after_move (rf_files (w_fs w0)) v' s' v2 s2 d1 d2 q) /\
    clips (w_db w') = <[clip_id (i_intent row) := protected_row (clock (AT_FOLLOWUP 0)) v2 s2 c0]> (clips (w_db w0)).
Proof.
  intros Hw0 Hb Hi Hinc Hk Hc Hvt Hst <- <- Hnd H1 H2. pose proof (reachable_ok w0 Hw0) as Hok0. pose proof (Hclock (AT_FOLLOWUP 0)).
  destruct (ok_intents _ Hok0 _ _ Hi) as (Hid & _).
  destruct (@protect_intent_run closing_environment w0 i row (clock (AT_FOLLOWUP 0)) 2 c0 v2 s2 d1 d2)
    as (k & w' & Hrun & Hbound & _ & Hfiles & Hclips & Hints); try done; try lia.
  assert (catalog_reachable w') as Hw'.
  { pose proof (reaches_reconcile i (clock (AT_FOLLOWUP 0)) 2 w0 Hw0) as Hr. by rewrite Hrun in Hr. }
  exists k, w'. split; [|by split]. unfold reconcile_clip_followups. cbn [reconcile_followups fo_clip_id fo_intent_id fo_resumed fo_complete fo_actions_attempted].
  erewrite mbind_run.
  2: { apply followups_run; [done|apply (followups_single w0 _ i row); try done|cbn; lia]. unfold followups. rewrite Hk. by rewrite_same. }
  cbn [map snd].
  erewrite mbind_run.
  2: { apply reconcile_completes; [rewrite Hk; apply (bool_decide_unpack _); vm_compute; exact I|done|rewrite Hid; exact Hrun]. }
  cbn [fo_complete fo_actions_attempted negb].
  erewrite mbind_run.
  2: { apply followups_run; [by apply reachable_ok|apply followups_none|cbn; lia].
       eapply reconciled_idle; [by apply reachable_ok|rewrite Hclips; apply lookup_insert_eq|done]. }
  cbn [map]. done.
Qed.

(** The names of the move from [clips/] to [protected/]. *)
Lemma onward_ready v' s' p2 :
  video_target p = Some v' -> sidecar_target p = Some s' -> path_name v' = sd_video_file e -> path_name s' = sd_metadata_file e ->
  path_parent v' = u "clips" -> path_parent s' = u "clips" -> move_paths v' s' (u "protected") = Ok p2 ->
  exists v2 s2, v2 = in_directory (u "protected") (sd_video_file s) /\ s2 = in_directory (u "protected") (sd_metadata_file s) /\
    video_target p2 = Some v2 /\ sidecar_target p2 = Some s2 /\ NoDup [v'; v2; s'; s2] /\
    rf_files (w_fs w) !! v2 = None /\ rf_files (w_fs w) !! s2 = None /\
    path_parent v2 = u "protected" /\ path_parent s2 = u "protected".
Proof.
  intros Ev' Es' Nv' Ns' Pv' Ps' Hp2. destruct effective_facts as (Hb & _ & _ & _ & _ & _ & Efv & Efm & _).
  destruct effective_promotes as [stem Hp]. destruct (promotion_targets_valid stem e p Hp (ok_pair e (built_ok e Hb))) as [Hvv Hvm].
  pose proof Hp2 as Hp2'. apply move_paths_ok in Hp2' as (Hok2 & _ & _ & Evt & Est).
  rewrite Nv' in Evt. rewrite Ns' in Est.
  assert (forall n, validate_filename_component n = Ok n ->
    path_parent (in_directory (u "protected") n) = u "protected" /\ path_name (in_directory (u "protected") n) = n /\
    path_join (u "protected") n = in_directory (u "protected") n) as Hchild.
  { intros n (Hs & Hne & Hdot)%component_facts. by apply managed_child; [apply protected_managed|..]. }
  destruct (Hchild _ Hvv) as (Pv2 & Nv2 & Jv). destruct (Hchild _ Hvm) as (Ps2 & Ns2 & Js). rewrite Jv in Evt. rewrite Js in Est.
  unfold paths_ok in Hok2. apply PairPaths_new_ok in Hok2 as (_ & _ & _ & Hne & _ & Hne2).
  pose proof Hp2 as (_ & E1 & E2 & _)%move_paths_ok. rewrite E1, E2 in Hne.
  pose proof Hready as [_ _ _ _ _ _ _ _ _ [[_ Hut] _] _ _ _].
  assert (forall t n, Some t = video_target p \/ Some t = sidecar_target p -> path_name t = n ->
    path_parent (in_directory (u "protected") n) = u "protected" -> path_name (in_directory (u "protected") n) = n ->
    rf_files (w_fs w) !! in_directory (u "protected") n = None) as Hnone.
  { intros t n Ht Hn Hd Hd'. destruct (rf_files (w_fs w) !! in_directory (u "protected") n) eqn:E; [|done].
    destruct (Hut t (in_directory (u "protected") n) Ht); [by eexists|by right|by rewrite Hn, Hd']. }
  assert (forall x y, path_parent x = u "clips" -> path_parent y = u "protected" -> x <> y) as Hd by (intros x y Hx Hy ->; by rewrite Hx in Hy).
  rewrite <-Efv, <-Efm. exists (in_directory (u "protected") (sd_video_file e)), (in_directory (u "protected") (sd_metadata_file e)).
  split; [done|]. split; [done|]. split; [done|]. split; [done|]. split.
  - apply NoDup_four; [by apply Hd|exact Hne|by apply Hd|apply not_eq_sym; by apply Hd|by apply Hne2|by apply Hd].
  - split; [by apply (Hnone v'); [left|..]|]. split; [by apply (Hnone s'); [right|..]|]. done.
Qed.

(** The promotion of a protected clip, and the move that follows it. *)
Lemma finalize_protected p2 v' s' :
  r_protected c = true -> video_target p = Some v' -> sidecar_target p = Some s' -> move_paths v' s' (u "protected") = Ok p2 ->
  uuids (S (w_uuids w)) <> uuids (w_uuids w) -> intents (w_db w) !! uuids (S (w_uuids w)) = None ->
  exists k v2 s2 w',
    finalize uuids sha256 limits name s (r_order c) clock w
      = (Ok (mkOutcome (sd_clip_id s) (Some (uuids (w_uuids w))) k true false), w') /\
    v2 = in_directory (u "protected") (sd_video_file s) /\ s2 = in_directory (u "protected") (sd_metadata_file s) /\
    (forall q, rf_files (w_fs w') !! q
       = if decide (q = s2) then Some (Sidecar.to_canonical_json e) else if decide (q = sidecar_source p) then None
         else if decide (q = v2) then Some dv else if decide (q = video_source p) then None else rf_files (w_fs w) !! q) /\
    clips (w_db w') = <[sd_clip_id s := protected_row (clock (AT_FOLLOWUP 0)) v2 s2
      (promoted_row (clock AT_RECONCILIATION) row1 v' s')]> (clips (w_db w)).
Proof.
  intros Hprot Evt Est Hp2 Hne Hfresh2. destruct promotion_ready as (v1 & s1 & Ev' & Es' & Nv' & Ns' & Pv' & Ps' & Hnd & H1 & H2 & Hid & Hv0 & Hs0).
  rewrite Evt in Ev'. rewrite Est in Es'. injection Ev' as <-. injection Es' as <-.
  destruct (onward_ready v' s' p2) as (v2 & s2 & Ev2 & Es2 & Evt2 & Est2 & Hnd2 & Hn1 & Hn2 & Pv2 & Ps2); try done.
  destruct registered_rows as [Hc1 Hi1]. pose proof (reachable_ok w1 registered_reachable) as Hok1.
  pose proof (Hclock AT_RECONCILIATION). pose proof Hready as [_ [Hc _ [Ev Es] _ _ _] _ _ _ _ _ _ _ _ Hb _ _].
  destruct effective_facts as (_ & _ & _ & _ & _ & Heid & _). destruct effective_promotes as [stem Hp]. destruct (source_facts _ _ _ Hp) as (Pv & _ & Ps & _).
  edestruct (@finalize_protected_run closing_environment w1 (uuids (w_uuids w)) (promotion_row uuids w (sd_clip_id s) p (clock (AT_PROMOTION 0)))
    (clock AT_RECONCILIATION) 2 row1 v' s' (Sidecar.to_canonical_json e) (reread e) dv)
    with (p := p2) as (k1 & w2 & Hrun & Hbound & _ & Hfiles & Hclips & Hints); try done; try lia.
  { exact parse_staged. } { exact staged_bounded. }
  { unfold w1, registered_promotion. cbn -[lookup insert]. by rewrite lookup_insert_ne by congruence. }
  set (n2 := uuids (S (w_uuids w))) in *.
  assert (catalog_reachable w2) as Hw2.
  { pose proof (reaches_reconcile (uuids (w_uuids w)) (clock AT_RECONCILIATION) 2 w1 registered_reachable) as Hr. by rewrite Hrun in Hr. }
  assert (forall q, rf_files (w_fs w2) !! q
    = after_move (rf_files (w_fs w)) (video_source p) (sidecar_source p) v' s' dv (Sidecar.to_canonical_json e) q) as Hfiles2.
  { intros q. rewrite Hfiles. cbn [row1 closing_row with_updated with_lifecycle with_end_size r_video_path r_sidecar_path].
    rewrite Ev, Es. apply staged_after_move. }
  destruct (after_move_ends (rf_files (w_fs w)) (video_source p) (sidecar_source p) v' s' dv (Sidecar.to_canonical_json e)) as (Fv' & Fs' & Fv & Fs).
  { by rewrite <-Ev, <-Es. }
  assert (forall t, path_parent t = u "protected" -> rf_files (w_fs w) !! t = None -> rf_files (w_fs w2) !! t = None) as Hnone2.
  { assert (u "clips" <> u "protected") as Hcp by done. intros t Pt Ht. rewrite Hfiles2. unfold after_move. repeat case_decide; subst; congruence. }
  destruct (followup_completes w2 n2 (onward_row w1 (promotion_row uuids w (sd_clip_id s) p (clock (AT_PROMOTION 0))) (clock AT_RECONCILIATION) p2)
    (promoted_row (clock AT_RECONCILIATION) row1 v' s') v' s' v2 s2 dv (Sidecar.to_canonical_json e)
    (Some (uuids (w_uuids w))) k1 Hw2 Hbound) as (k2 & w3 & Hrun3 & _ & _ & Hfiles3 & Hclips3);
    [rewrite Hints; apply lookup_insert_eq|done|done|rewrite Hclips; apply lookup_insert_eq|exact Evt2|exact Est2|done|done|exact Hnd2|..].
  { left. rewrite Hfiles2. split; [exact Fv'|by apply Hnone2]. }
  { left. rewrite Hfiles2. split; [exact Fs'|by apply Hnone2]. }
  exists (k1 + k2), v2, s2, w3. split; [|split; [done|split; [done|split]]].
  - rewrite finalize_registers. erewrite mbind_run by (by apply reconcile_completes; [apply promotion_kind|..]).
    cbn [fo_complete]. rewrite Hprot. exact Hrun3.
  - intros q. rewrite Hfiles3. unfold after_move at 1. rewrite Hfiles2. unfold after_move.
    assert (u "pending" <> u "protected") as Hpp by done.
    assert (forall x y, path_parent x = u "pending" -> path_parent y = u "protected" -> x <> y) as Hd by (intros x y Hx Hy ->; congruence).
    pose proof (Hd _ _ Pv Pv2). pose proof (Hd _ _ Pv Ps2). pose proof (Hd _ _ Ps Pv2). pose proof (Hd _ _ Ps Ps2).
    rewrite !NoDup_cons, !not_elem_of_cons in Hnd2. destruct Hnd2 as ((? & ? & ? & _) & (? & ? & _) & (? & _) & _).
    repeat case_decide; congruence.
  - rewrite Hclips3, Hclips. cbn [i_intent promotion_row onward_row clip_id]. unfold w1, registered_promotion. cbn -[insert].
    by rewrite Heid, !insert_insert_eq.
Qed.

End one_closing.

(** ** Finalizing again *)

Lemma filter_perm {A} (f : A -> bool) l l' : l ≡ₚ l' -> List.filter f l ≡ₚ List.filter f l'.
Proof.
  induction 1 as [|x l l' _ IH|x y l|l l1 l2 _ IH1 _ IH2]; cbn; [done| | |by etrans].
  - destruct (f x); [by constructor|done].
  - destruct (f x), (f y); try done. apply perm_swap.
Qed.

Lemma recovery_pending_completed d i row :
  intents d !! i = None -> i_complete row = true ->
  length (recovery_pending (set_intents (fun rows => <[i := row]> rows) d)) = length (recovery_pending d).
Proof.
  intros Hi Hc. unfold recovery_pending, select_pending. rewrite !sort_by_perm. cbn [intents set_intents].
  rewrite (filter_perm _ _ _ (map_to_list_insert (intents d) i row Hi)). cbn [List.filter snd]. by rewrite Hc.
Qed.

(** A finalized pair with the requested sidecar is recognized, and nothing is changed. *)
Lemma completed_replay_run w id r p v' s' text x :
  db_ok (w_db w) -> rf_bound (w_fs w) = true -> clips (w_db w) !! id = Some r ->
  r_lifecycle r = FINALIZED -> r_reconciled r = true -> r_video_path r = v' -> r_sidecar_path r = s' ->
  video_target p = Some v' -> sidecar_target p = Some s' -> usable (sidecar_source p) ->
  is_Some (rf_files (w_fs w) !! v') -> rf_files (w_fs w) !! s' = Some text -> rf_files (w_fs w) !! sidecar_source p = None ->
  Sidecar.parse_sidecar_bytes text = Ok x -> blen text <= fl_max_sidecar_bytes limits ->
  sd_clip_id x = id -> sd_video_file x = path_name v' -> sd_metadata_file x = path_name s' ->
  completed_replay limits (row_clip id r) p text w = (Ok (mkOutcome id None 0 true true), w).
Proof.
  intros Hok Hb Hc Hl Hr Hv Hs Evt Est Us Hvid Hsid Hnone Hx Hlen Hxid Hxv Hxs.
  destruct (finalizer_limits_facts limits Hlimits) as (_ & _ & _ & Hpos & _).
  destruct (ok_rows _ Hok _ _ Hc) as (_ & _ & [Hpl Hmv Hms]). apply PairPaths_new_ok in Hpl as (_ & Hpv & Hps & _).
  rewrite Hv in Hmv, Hpv. rewrite Hs in Hms, Hps.
  destruct w as [db [m b] n]. cbn [w_fs w_db rf_files rf_bound] in *. subst b. set (w := mkWorld db (mkRooted m true) n).
  change w with (with_files m w). unfold completed_replay, refuse_when. cbn [row_clip c_lifecycle c_pair_reconciled c_video_path c_sidecar_path c_clip_id].
  rewrite Hl, Hr, Hv, Hs, Evt, Est. rewrite_same. cbn [negb orb].
  erewrite mbind_run by (by apply exists_run). unfold present at 1. rewrite (bool_decide_true _ Hvid).
  erewrite mbind_run by (by apply exists_run). unfold present at 1. rewrite (bool_decide_true (is_Some (m !! s'))) by by eexists.
  rewrite guard_run by done.
  erewrite mbind_run by (unfold lift, OperationIntent_new; rewrite Z.eqb_refl, Evt, Est; reflexivity).
  erewrite mbind_run; [reflexivity|]. unfold validate_durable_sidecar. cbn [paths]. rewrite Est.
  erewrite mbind_run by reflexivity. erewrite mbind_run by (by apply exists_run). erewrite mbind_run by (by apply exists_run). cbv zeta.
  unfold present. rewrite (bool_decide_false (is_Some (m !! sidecar_source p))) by (rewrite Hnone; by intros []).
  rewrite (bool_decide_true (is_Some (m !! s'))) by by eexists. cbn [app]. unfold mfor. cbn [mfold].
  erewrite mbind_run; [reflexivity|]. unfold check_durable_sidecar, refuse_when. erewrite mbind_run.
  2: { unfold read_sidecar. apply mtry_run. erewrite mbind_run by (by eapply read_run). unfold lift. rewrite Hx. reflexivity. }
  cbv beta iota. cbn [clip_id paths]. rewrite Hxid. rewrite_same. cbn [negb]. rewrite Evt. erewrite mbind_run by reflexivity.
  rewrite guard_run by (rewrite Hxv, Hxs; by rewrite_same). apply guard_pass. by rewrite_same.
Qed.

(** [finalize] on a finalized pair. *)
Lemma finalize_again w name s order p r v' s' text x clock :
  catalog_reachable w -> rf_bound (w_fs w) = true -> promotion_paths name s = Ok p -> 0 <= order ->
  Z.of_nat (length (recovery_pending (w_db w))) <= fl_max_pending_intents limits ->
  clips (w_db w) !! sd_clip_id s = Some r -> r_lifecycle r = FINALIZED -> r_reconciled r = true -> r_lease r = None ->
  r_video_path r = v' -> r_sidecar_path r = s' -> video_target p = Some v' -> sidecar_target p = Some s' -> usable (sidecar_source p) ->
  is_Some (rf_files (w_fs w) !! v') -> rf_files (w_fs w) !! s' = Some text -> rf_files (w_fs w) !! sidecar_source p = None ->
  text = Sidecar.to_canonical_json s -> Sidecar.parse_sidecar_bytes text = Ok x -> blen text <= fl_max_sidecar_bytes limits ->
  sd_clip_id x = sd_clip_id s -> sd_video_file x = path_name v' -> sd_metadata_file x = path_name s' ->
  finalize uuids sha256 limits name s order clock w = (Ok (mkOutcome (sd_clip_id s) None 0 true true), w).
Proof.
  intros Hw Hb Hp Ho Hn Hc Hl Hr Hlease Hv Hs Evt Est Us Hvid Hsid Hnone -> Hx Hlen Hxid Hxv Hxs.
  pose proof (reachable_ok w Hw) as Hok. unfold finalize. erewrite mbind_run by (unfold lift; by rewrite Hp).
  erewrite mbind_run by (unfold lift, non_negative; by replace (order <? 0) with false by lia). cbv zeta.
  erewrite mbind_run by (by apply pending_intents_run). cbv beta iota.
  rewrite no_pending_of_clip by (by eapply reconciled_idle).
  unfold refuse_when at 1. rewrite guard_run by done. erewrite mbind_run by (by apply get_clip_if_present_run).
  cbn [row_clip c_lifecycle]. rewrite Hl. rewrite decide_False by done.
  by apply (completed_replay_run w (sd_clip_id s) r p v' s' _ x).
Qed.


End closing.
