(* ===== verification/FinalizerRefusals.v ===== *)
(** * The recovery pass and a refusal

    The bounds of the recovery pass and what its report promises; a sidecar that cannot be read back
    stops its clip from ever being finalized. *)

From Stdlib Require Import Ascii String ZArith Lia Strings.Byte.
From stdpp Require Import base list gmap strings sorting.
From S2P Require Import Prelude PyStr Uuid DateTime State Naming Intents Models Filesystem.
From S2P Require Import CatalogDb Catalog Reconcile ManagedPath CatalogInv CatalogSafe.
From S2P Require Import ReconcileSafe CatalogProperties ReconcileProperties Reclaimer ReclaimerProperties CoordinatorRename.
From S2P Require Import LocalTime Metadata Sidecar SidecarProperties SidecarSize SidecarClaims Coordinator CoordinatorProperties.
From S2P Require Import FinalizerFilesystem Finalizer FinalizerSafe FinalizerRun.

(** ** The recovery pass *)

Section recovery.
Context {F : Type} `{CatalogFilesystem F} `{FinalizationFilesystem F} `{ZoneDatabase}.
Context (uuids : nat -> UUID) (sha256 : bytes -> str) (limits : FinalizerLimits).
#[local] Instance recovery_environment : Environment := finalizer_environment uuids sha256.
Implicit Types w : World F.
Hypothesis Hlimits : FinalizerLimits_new limits = Ok limits.

Lemma reconcile_intent_actions id now n w r w' :
  reconcile_intent (F := F) id now n w = (Ok r, w') -> 0 <= rr_actions_attempted r <= n.
Proof.
  unfold reconcile_intent. intros Hm. apply mbind_ok in Hm as (? & ? & [_ ->]%lift_ok & Hm).
  apply mbind_ok in Hm as (? & ? & [Hn ->]%lift_ok & Hm). unfold positive_integer in Hn. inv_ok.
  apply (proj1 (transaction_ok _ _ _ _)) in Hm. apply mbind_ok in Hm as (found & ? & _ & Hm). destruct found as [row|]; [|done].
  apply mbind_ok in Hm as (intent & ? & _ & Hm). destruct (i_complete row); [apply mret_ok in Hm as [-> _]; cbn; lia|].
  apply mbind_ok in Hm as (plan & ? & _ & Hm). destruct (negb _).
  - apply mbind_ok in Hm as (? & ? & _ & [-> _]%mret_ok). cbn. lia.
  - apply mbind_ok in Hm as ([problem|] & ? & _ & Hm).
    + apply mbind_ok in Hm as (? & ? & _ & [-> _]%mret_ok). cbn. lia.
    + apply mbind_ok in Hm as (? & ? & _ & Hm). cbv zeta in Hm. do 3 apply mbind_ok in Hm as (? & ? & _ & Hm).
      apply mret_ok in Hm as [-> _]. cbn. unfold limited. rewrite length_take. lia.
Qed.

Lemma reconcile_actions i b v w o w' :
  reconcile (F := F) uuids sha256 limits i b v w = (Ok o, w') -> 0 <= fo_actions_attempted o <= fl_max_actions_per_intent limits.
Proof.
  unfold reconcile, refuse_when. intros Hm. apply mbind_ok in Hm as (? & ? & _ & Hm). apply mbind_ok in Hm as (? & ? & _ & Hm).
  apply mbind_ok in Hm as (r & ? & Hr & Hm). do 2 apply mbind_ok in Hm as (? & ? & _ & Hm). apply mret_ok in Hm as [-> _].
  by eapply reconcile_intent_actions.
Qed.

(** The totals of the loop. *)
Lemma recover_totals clock l k e a c b w e' a' c' b' w' :
  recover_intents (F := F) uuids sha256 limits clock k l e a c b w = (Ok (e', a', c', b'), w') ->
  e' = e + Z.of_nat (length l) /\ 0 <= c' - c <= Z.of_nat (length l) /\
  0 <= a' - a <= fl_max_actions_per_intent limits * Z.of_nat (length l) /\
  (b' = false -> b = false /\ c' - c = Z.of_nat (length l)).
Proof.
  revert k e a c b w. induction l as [|i l IH]; intros k e a c b w Hm; cbn [recover_intents] in Hm.
  - apply mret_ok in Hm as [[= -> -> -> ->] _]. cbn. split_and!; try lia. intros ->. split; [done|lia].
  - apply mbind_ok in Hm as (? & ? & _ & Hm). apply mbind_ok in Hm as (o & ? & Ho%reconcile_actions & Hm).
    apply mbind_ok in Hm as (? & ? & _ & Hm). apply IH in Hm as (-> & Hc & Ha & Hb). cbn [length].
    destruct (fo_complete o) eqn:Eo; cbn [Z.b2z negb orb] in *; rewrite ?orb_true_r, ?orb_false_r in *.
    + split_and!; try nia. intros Hb'. destruct (Hb Hb') as [-> ?]. split; [done|lia].
    + split_and!; try nia. intros Hb'. by destruct (Hb Hb').
Qed.

Lemma no_pending_recovery w w' :
  has_pending_recovery_intent (F := F) w = (Ok false, w') ->
  w' = w /\ forall j row, intents (w_db w) !! j = Some row -> i_complete row = false -> kind (i_intent row) ∉ RECOVERY_INTENT_KINDS.
Proof.
  unfold has_pending_recovery_intent, list_pending_intents_by_kind. intros Hm.
  apply mbind_ok in Hm as (l & ? & Hl & [Hb ->]%mret_ok). symmetry in Hb. bool_prop. subst l.
  apply mbind_ok in Hl as (? & ? & [_ ->]%lift_ok & Hl). apply mbind_ok in Hl as (? & ? & [_ ->]%lift_ok & Hl).
  apply mbind_ok in Hl as (rows & ? & [Hrows ->]%query_ok & [Hr ->]%lift_ok). split; [done|]. intros j row Hj Hc Hk.
  assert ((j, row) ∈ select_pending (fun r => bool_decide (kind (i_intent r) ∈ RECOVERY_INTENT_KINDS)) (w_db w)) as Hin.
  { apply select_pending_elem. split_and!; [done|done|]. by apply bool_decide_true. }
  destruct (select_pending _ (w_db w)) as [|x xs]; [by apply elem_of_nil in Hin|].
  rewrite Hrows in Hr. cbn [limited Z.to_nat Pos.to_nat take] in Hr. unfold limited in Hr. cbn in Hr. by apply result_bind_ok in Hr as (? & _ & Hr).
Qed.

(** C20: the recovery pass is bounded and its report is honest: it examines at most the configured number
    of pending intents, attempts at most the configured actions for each, and completes no more than it
    examined; when it reports no more work, every intent it examined is complete and no promotion,
    rename or protection move is pending in the catalog. *)
Theorem recovery_pass_bounded clock w r w' :
  reconcile_pending (F := F) uuids sha256 limits clock w = (Ok r, w') ->
  0 <= fr_completed r <= fr_intents_examined r /\ fr_intents_examined r <= fl_max_pending_intents limits /\
  0 <= fr_actions_attempted r <= fl_max_actions_per_intent limits * fr_intents_examined r /\
  (fr_more_work r = false ->
   fr_completed r = fr_intents_examined r /\
   forall j row, intents (w_db w') !! j = Some row -> i_complete row = false -> kind (i_intent row) ∉ RECOVERY_INTENT_KINDS).
Proof.
  destruct (finalizer_limits_facts limits Hlimits) as (_ & Hp & _). unfold reconcile_pending, pending_intents. intros Hm.
  apply mbind_ok in Hm as ([l truncated] & w1 & Hl & Hm). apply mbind_ok in Hl as (values & ? & _ & [[= -> ->] ->]%mret_ok).
  apply mbind_ok in Hm as ([[[e a] c] b] & w2 & (-> & Hc & Ha & Hb)%recover_totals & Hm).
  apply mbind_ok in Hm as (more & w3 & Hmore & [-> ->]%mret_ok). cbn [fr_completed fr_intents_examined fr_actions_attempted fr_more_work].
  unfold limited in *. rewrite length_take in *. split_and!; try lia. intros ->.
  destruct (_ || b) eqn:Eor; [by apply mret_ok in Hmore as [? _]|]. apply orb_false_iff in Eor as [_ ->].
  destruct (Hb eq_refl) as [_ Hc']. split; [lia|]. by apply no_pending_recovery in Hmore as [-> Hnone].
Qed.
End recovery.

(** ** A sidecar that cannot be read back *)

Section unreadable.
Context `{FinalizationLaws F} `{!ZoneLaws} (uuids : nat -> UUID) (sha256 : bytes -> str) (limits : FinalizerLimits).
#[local] Instance unreadable_environment : Environment := finalizer_environment uuids sha256.
Implicit Types w : World F.

Lemma read_error s d x : built s -> carried s = true -> repeated_hour s = true ->
  d = Sidecar.to_canonical_json s -> Sidecar.parse_sidecar_bytes d = Ok x -> False.
Proof. intros Hb Hc Hr -> Hp. rewrite read_back_or_refused, Hr in Hp by done. done. Qed.

Lemma exists_ok p b w w' : f_exists (F := F) p w = (Ok b, w') -> w' = w /\ (b = true <-> is_Some (files w !! p)).
Proof. unfold f_exists. intros [= Hb <-]. split; [done|]. by eapply exists_spec. Qed.

(** Staging it for the first time fails its readback. *)
Lemma stage_refused p s b w x w' :
  built s -> carried s = true -> repeated_hour s = true -> files w !! p = None ->
  ensure_pending_sidecar (F := F) limits p s (Sidecar.to_canonical_json s) b w = (Ok x, w') -> False.
Proof.
  intros Hb Hc Hr Hp. unfold ensure_pending_sidecar, refuse_when, refuse. intros Hm.
  apply mbind_ok in Hm as (staged & ? & [-> Hst]%exists_ok & Hm). destruct staged; [destruct (proj1 Hst eq_refl); congruence|].
  apply mbind_ok in Hm as (? & w1 & _ & Hm). apply mbind_ok in Hm as (d & w2 & _ & Hm). apply mbind_ok in Hm as (y & w3 & Hy & Hm).
  apply mtry_ok in Hy; [|intros e ? ? ?; unfold mfail, mraise; by case_match]. apply lift_ok in Hy as [Hy _].
  apply guard_ok in Hm as [Hg _]. bool_prop. by eapply read_error.
Qed.

Lemma closing_fs id now : fs_same (active_closing_protection (F := F) id now).
Proof.
  unfold active_closing_protection, required_clip_row, consume_closing_window, decrement_remaining.
  repeat (apply protect_for_event_fs || apply insert_target_fs || fs_db_step).
Qed.

Lemma now_fs v : fs_same (finalizer_now (F := F) v).
Proof. unfold finalizer_now, refuse_when. repeat fs_db_step. Qed.

Lemma names_fs p : fs_same (require_free_names (F := F) limits p).
Proof.
  unfold require_free_names, require_unique_exact, require_absent_casefold, directory_names, required_target, refuse_when, refuse.
  repeat fs_db_step.
Qed.

Lemma video_size_fs p : fs_same (closed_video_size (F := F) p).
Proof. unfold closed_video_size, refuse_when. repeat fs_db_step. Qed.

Lemma same_files {A} (m : M F A) w x w' : fs_same m -> m w = (x, w') -> files w' = files w.
Proof. intros Hm E. unfold files. specialize (Hm w). rewrite E in Hm. simpl in Hm. by rewrite Hm. Qed.

(** No attempt registers it. *)
Lemma attempt_refused s p order size active clock k w x w' :
  built s -> carried s = true -> repeated_hour s = true -> files w !! sidecar_source p = None ->
  register_attempt (F := F) uuids sha256 limits s p order size active clock k w = (Ok x, w') -> False.
Proof.
  intros Hb Hc Hr Hp. unfold register_attempt. intros Hm. apply mbind_ok in Hm as ([e revision] & w1 & He & Hm).
  assert (files w1 !! sidecar_source p = None /\ built e /\ carried e = true /\ repeated_hour e = true) as (Hp1 & Hbe & Hce & Hre).
  { destruct active; [|by apply mret_ok in He as [[= -> ->] ->]].
    apply mbind_ok in He as (? & w2 & E2%same_files & He); [|apply now_fs].
    apply mbind_ok in He as (pr & w3 & E3%same_files & He); [|apply closing_fs].
    apply mbind_ok in He as (e' & ? & [He' ->]%lift_ok & [[= -> ->] ->]%mret_ok). split; [by rewrite E3, E2|].
    unfold replace_protection in He'. pose proof He' as He2. apply ClipSidecar_new_ok in He2 as (-> & _).
    destruct Hb. split; [by constructor|done]. }
  apply mbind_ok in Hm as (? & w2 & Hstage & _). by eapply stage_refused.
Qed.

Lemma attempts_refused s p order size active clock n k w x w' :
  built s -> carried s = true -> repeated_hour s = true -> files w !! sidecar_source p = None ->
  register_attempts (F := F) uuids sha256 limits s p order size active clock n k w = (Ok x, w') -> False.
Proof.
  intros Hb Hc Hr Hp. destruct n as [|n]; cbn [register_attempts]; [done|]. intros Hm.
  apply mbind_ok in Hm as (? & ? & Ha & _). by eapply attempt_refused.
Qed.

Lemma promote_refused p s order active clock w x w' :
  built s -> carried s = true -> repeated_hour s = true -> files w !! sidecar_source p = None ->
  promote (F := F) uuids sha256 limits p s order active clock w = (Ok x, w') -> False.
Proof.
  intros Hb Hc Hr Hp. unfold promote. intros Hm.
  apply mbind_ok in Hm as (? & w1 & E1%same_files & Hm); [|apply names_fs].
  apply mbind_ok in Hm as (? & w2 & E2%same_files & Hm); [|apply video_size_fs].
  apply mbind_ok in Hm as (? & w3 & E3%same_files & Hm); [|by intros ?].
  cbv zeta in Hm. apply mbind_ok in Hm as ([id e] & w4 & Ha & _). eapply attempts_refused; [done..| |exact Ha].
  by rewrite E3, E2, E1.
Qed.

Lemma check_refused i s target location w x w' :
  built s -> carried s = true -> repeated_hour s = true ->
  check_durable_sidecar (F := F) limits i (Some (Sidecar.to_canonical_json s)) target location w = (Ok x, w') -> False.
Proof.
  intros Hb Hc Hr. unfold check_durable_sidecar, refuse_when, refuse. intros Hm.
  apply mbind_ok in Hm as ([d y] & w1 & (_ & _ & Hy)%read_sidecar_ok & Hm). destruct (negb _); [done|].
  apply mbind_ok in Hm as (v & ? & _ & Hm). apply mbind_ok in Hm as (? & ? & _ & [Hg _]%guard_ok). bool_prop. by eapply read_error.
Qed.

(** Nor is a finished pair ever recognized as its. *)
Lemma replay_refused clip p s w x w' :
  built s -> carried s = true -> repeated_hour s = true ->
  completed_replay (F := F) limits clip p (Sidecar.to_canonical_json s) w = (Ok x, w') -> False.
Proof.
  intros Hb Hc Hr. unfold completed_replay, refuse_when, refuse. intros Hm. destruct (_ || _) eqn:Ew; [done|]. bool_prop.
  match goal with Hs : Some (c_sidecar_path clip) = _ |- _ => rename Hs into Es end.
  apply mbind_ok in Hm as (v & ? & [-> _]%exists_ok & Hm). apply mbind_ok in Hm as (sx & w1 & Hsx & Hm).
  destruct v; [|apply mret_ok in Hsx as [-> ->]; by apply mbind_ok in Hm as (? & ? & [? ?]%guard_ok & _)].
  apply exists_ok in Hsx as [-> Hsx]. apply mbind_ok in Hm as (? & ? & [Hg ->]%guard_ok & Hm). bool_prop. subst sx.
  apply mbind_ok in Hm as (i & ? & [Hi ->]%lift_ok & Hm). apply mbind_ok in Hm as (? & ? & Hv & _).
  unfold OperationIntent_new in Hi. inv_ok. unfold validate_durable_sidecar in Hv. cbn [paths] in Hv. rewrite <-Es in Hv.
  apply mbind_ok in Hv as (t & ? & [-> ->]%mret_ok & Hv). apply mbind_ok in Hv as (a & ? & [-> _]%exists_ok & Hv).
  apply mbind_ok in Hv as (b & ? & [-> Hb']%exists_ok & Hv). cbv zeta in Hv.
  assert (b = true) as -> by by apply Hb', Hsx. unfold mfor in Hv.
  destruct a; cbn [app mfold] in Hv; apply mbind_ok in Hv as (? & ? & Hchk & _); by eapply check_refused.
Qed.

Lemma still_get_clip id w : snd (get_clip_if_present (F := F) id w) = w.
Proof.
  assert (snd (get_clip (F := F) id w) = w) as Hg.
  { revert w. unfold get_clip, required_clip_row. repeat (apply still_bind; [|intros ?]); intros w; try done. by case_match. }
  unfold get_clip_if_present, mtry, mbind. destruct (get_clip id w) as [[c|e] w1]; cbn in Hg; subst w1; [done|].
  unfold mfail, mraise, mret. by case_match.
Qed.

(** C19: a clip that starts in a local hour its zone repeats is never finalized: whatever the database and
    the volume hold, and whatever the clock reads, [finalize] with such a sidecar fails, as long as no
    sidecar is staged for the clip and no promotion of it is pending. *)
Theorem repeated_hour_never_finalized name s order clock w :
  db_ok (w_db w) -> built s -> carried s = true -> repeated_hour s = true -> pending_of (w_db w) (sd_clip_id s) = None ->
  (forall p, promotion_paths name s = Ok p -> files w !! sidecar_source p = None) ->
  exists e w', finalize (F := F) uuids sha256 limits name s order clock w = (Err e, w').
Proof.
  intros Hok Hb Hc Hr Hidle Hstaged. destruct (finalize _ _ _ _ _ _ _ w) as [[o|e] w'] eqn:Hm; [|by do 2 eexists]. exfalso.
  unfold finalize in Hm. apply mbind_ok in Hm as (p & ? & [Hp ->]%lift_ok & Hm). apply mbind_ok in Hm as (? & ? & [_ ->]%lift_ok & Hm).
  cbv zeta in Hm. apply mbind_ok in Hm as ([l b] & ? & [-> Hall]%pending_intents_ok & Hm); [|done].
  rewrite filter_none in Hm.
  2: { intros i Hi%list_elem_of_In. rewrite Forall_forall in Hall. destruct (Hall i Hi) as ((row & Hrow & Hinc & <-) & _).
       apply bool_decide_false. rewrite pending_of_None in Hidle. by eapply Hidle. }
  apply mbind_ok in Hm as (? & ? & [_ ->]%guard_ok & Hm). apply mbind_ok in Hm as (existing & w1 & Hex & Hm).
  assert (w1 = w) as ->.
  { eapply still_ok; [exact Hex|]. apply still_get_clip. }
  specialize (Hstaged p Hp). destruct existing as [clip|]; [|by eapply promote_refused].
  destruct (decide _); [by eapply promote_refused|by eapply replay_refused].
Qed.
End unreadable.
