(* ===== verification/FinalizerDemo.v ===== *)
(** * A segment to finalize

    The clip the demo boot is writing, closed on a rooted volume; the instances on which the
    finalizer's theorems are applied. *)

From Stdlib Require Import Ascii String ZArith Lia Strings.Byte.
From stdpp Require Import base list gmap strings.
From S2P Require Import Prelude PyStr DateTime Uuid State Naming Intents Models Filesystem.
From S2P Require Import CatalogDb Catalog Reconcile CatalogInv CatalogProperties ReconcileProperties Convergence.
From S2P Require Import LocalTime Metadata Sidecar SidecarProperties SidecarClaims MetadataDemo Projection Coordinator CoordinatorDemo.
From S2P Require Import FinalizerFilesystem Finalizer FinalizerSafe FinalizerRun FinalizerClosing FinalizerRefusals.

#[local] Existing Instances demo_zones demo_zone_laws.
#[local] Existing Instance cd_environment.

Definition fd_name : str := u "boot-0123456789ab-000007.partial.mp4".
Definition fd_video : str := u "pending/boot-0123456789ab-000007.partial.mp4".
Definition fd_sidecar_path : str := u "pending/boot-0123456789ab-000007.partial.json".

Definition fd_sidecar : Metadata.ClipSidecar :=
  mkSidecar 1 md_clip md_boot 7 (u "boot-0123456789ab-000007.mp4") (u "boot-0123456789ab-000007.json")
    None None 100000000000 160000000000 UNSYNCED UNSET MONOTONIC_ONLY None jerusalem None
    md_video md_audio (mkGps true None [md_sample]) false None (u "1.0.0") [].

Definition fd_clock : reading -> Z := fun _ => 170000000000.

Definition fd_files : RootedFilesystem := mkRooted (list_to_map [(fd_video, [x00; x01])]) true.

Definition fd_start : World RootedFilesystem := mkWorld empty_db fd_files 0.

(** The clip is registered, and in the second world protected while it is written. *)
Definition fd_world : World RootedFilesystem := snd (register_active_clip fd_name md_clip 100000000000 12 fd_clock fd_start).
Definition fd_protected : World RootedFilesystem := snd (run_call (CProtect md_clip (u "button") 150000000000) fd_world).

Definition fd_effective : Metadata.ClipSidecar :=
  match replace_protection fd_sidecar true (Some (u "button")) with Ok e => e | Err _ => fd_sidecar end.

Definition fd_paths : PairPaths :=
  mkPaths fd_video fd_sidecar_path (Some (u "clips/boot-0123456789ab-000007.mp4")) (Some (u "clips/boot-0123456789ab-000007.json")).

Definition fd_row : ClipRow := mkClipRow WRITING fd_video fd_sidecar_path 100000000000 None 12 0 false None false true None
  170000000000 170000000000 0.

Definition fd_protected_row : ClipRow := mkClipRow WRITING fd_video fd_sidecar_path 100000000000 None 12 0 true (Some (u "button"))
  false true None 170000000000 150000000000 1.

Lemma fd_reachable : catalog_reachable fd_world.
Proof.
  exact (reaches_finalizer_call cd_uuids cd_sha256 DEFAULT_FINALIZER_LIMITS (FRegisterActive fd_name md_clip 100000000000 12 fd_clock)
    fd_start (reach_start fd_files 0)).
Qed.

Lemma fd_protected_reachable : catalog_reachable fd_protected.
Proof. exact (reach_call fd_world (CProtect md_clip (u "button") 150000000000) fd_reachable I). Qed.

Lemma fd_built : built fd_sidecar.
Proof.
  constructor;
  [ vm_compute; reflexivity | vm_compute; reflexivity | vm_compute; reflexivity | vm_compute; reflexivity
  | repeat constructor; vm_compute; reflexivity | done ].
Qed.

(** The video is the only file. *)
Lemma fd_only q : is_Some (rf_files fd_files !! q) -> q = fd_video.
Proof.
  cbn [fd_files rf_files list_to_map foldr]. intros [d Hd]. apply lookup_insert_Some in Hd as [[<- _]|[_ Hd]]; [done|].
  by rewrite lookup_empty in Hd.
Qed.

Lemma fd_unique : unique_names (rf_files fd_files) fd_paths.
Proof.
  constructor.
  - intros t q Ht Hq%fd_only _ Hc. subst q. destruct Ht as [->| ->]; [done|]. by vm_compute in Hc.
  - intros t q _ Hq%fd_only Hd. subst q. destruct Hd as [Hd|Hd]; by vm_compute in Hd.
Qed.

Lemma fd_written w c :
  clips (w_db w) !! md_clip = Some c -> r_lifecycle c = WRITING /\ r_reconciled c = false /\ r_managed c = true /\ r_lease c = None ->
  r_video_path c = fd_video /\ r_sidecar_path c = fd_sidecar_path -> r_start_ns c = 100000000000 ->
  map_to_list (intents (w_db w)) = [] -> map_to_list (events (w_db w)) = [] -> being_written w md_clip fd_paths 100000000000 c.
Proof.
  intros Hc Hs Hp Ht Hi He. constructor; [done|done|done|done|by unfold pending_of; rewrite Hi|by unfold select_pending_windows; rewrite He].
Qed.

Lemma fd_ready w e c :
  w_fs w = fd_files -> clips (w_db w) !! md_clip = Some c -> r_lifecycle c = WRITING /\ r_reconciled c = false /\ r_managed c = true /\ r_lease c = None ->
  r_video_path c = fd_video /\ r_sidecar_path c = fd_sidecar_path -> r_start_ns c = 100000000000 -> 0 <= r_order c ->
  map_to_list (intents (w_db w)) = [] -> map_to_list (events (w_db w)) = [] ->
  replace_protection fd_sidecar (r_protected c) (r_reason c) = Ok e -> reason_accepted (r_protected c) (r_reason c) ->
  blen (Sidecar.to_canonical_json e) <= MAX_SIDECAR_BYTES -> w_uuids w = 0%nat ->
  ready_to_close cd_uuids DEFAULT_FINALIZER_LIMITS w fd_name fd_sidecar e fd_paths c [x00; x01].
Proof.
  intros Hf Hc Hs Hp Ht Ho Hi He Heff Hr Hl Hu. constructor; rewrite ?Hf.
  - vm_compute. reflexivity.
  - by apply fd_written.
  - done.
  - split_and!; [apply fd_built|vm_compute; reflexivity|vm_compute; reflexivity].
  - done.
  - done.
  - done.
  - split; vm_compute; reflexivity.
  - left. vm_compute. reflexivity.
  - split; [apply fd_unique|]. repeat constructor; vm_compute; discriminate.
  - done.
  - unfold recovery_pending, select_pending. rewrite Hi. vm_compute. discriminate.
  - rewrite Hu. destruct (intents (w_db w) !! _) eqn:E; [|done]. apply elem_of_map_to_list in E. rewrite Hi in E. by apply elem_of_nil in E.
Qed.

(** ** Witnesses *)

Ltac decide_fd := vm_compute; first [reflexivity | discriminate | split_and!; reflexivity].



(** A power cut after the promotion was registered and the video moved. *)
Definition fd_interrupted : World RootedFilesystem :=
  set_fs (mkRooted (list_to_map [ (u "clips/boot-0123456789ab-000007.mp4", [x00; x01]);
                                  (fd_sidecar_path, Sidecar.to_canonical_json fd_sidecar) ]) true)
    (snd (register_finalizing_clip (finalizing_clip fd_sidecar fd_paths 12 2) fd_paths 170000000000 None
       (mkWorld empty_db fd_files 0))).

Lemma recovery_pass_bounded_witness :
  exists r w', reconcile_pending cd_uuids cd_sha256 DEFAULT_FINALIZER_LIMITS fd_clock fd_interrupted = (Ok r, w') /\
    fr_intents_examined r = 1 /\ fr_completed r = fr_intents_examined r.
Proof.
  destruct (reconcile_pending cd_uuids cd_sha256 DEFAULT_FINALIZER_LIMITS fd_clock fd_interrupted) as [[r|e] w'] eqn:E.
  - exists r, w'. split; [reflexivity|].
    pose proof (f_equal (fun x => match fst x with Ok r => (fr_intents_examined r, fr_more_work r) | Err _ => (0, true) end) E) as Hr.
    vm_compute in Hr. injection Hr as Hn Hm. split; [done|].
    apply (recovery_pass_bounded cd_uuids cd_sha256 DEFAULT_FINALIZER_LIMITS eq_refl fd_clock fd_interrupted r w' E). done.
  - exfalso. pose proof (f_equal (fun x => is_ok (fst x)) E) as Hr. vm_compute in Hr. discriminate.
Defined.

Lemma repeated_hour_never_finalized_witness :
  is_ok (promotion_paths fd_name md_repeated) = true /\
  exists e w', finalize cd_uuids cd_sha256 DEFAULT_FINALIZER_LIMITS fd_name md_repeated 12 fd_clock fd_world = (Err e, w').
Proof.
  split; [vm_compute; reflexivity|].
  apply (repeated_hour_never_finalized cd_uuids cd_sha256 DEFAULT_FINALIZER_LIMITS fd_name md_repeated 12 fd_clock fd_world).
  - apply reachable_ok, fd_reachable.
  - decide_built.
  - vm_compute. reflexivity.
  - vm_compute. reflexivity.
  - vm_compute. reflexivity.
  - intros p Hp. vm_compute in Hp. injection Hp as <-. vm_compute. reflexivity.
Defined.

Lemma finalizer_loses_no_media_witness :
  exists q, files (after_calls cd_uuids cd_sha256 DEFAULT_FINALIZER_LIMITS
      [FRegisterActive fd_name md_clip 100000000000 12 fd_clock; FFinalize fd_name fd_sidecar 12 fd_clock; FReconcilePending fd_clock]
      fd_start) !! q = Some [x00; x01].
Proof.
  refine (proj2 (proj2 (finalizer_loses_no_media cd_uuids cd_sha256 DEFAULT_FINALIZER_LIMITS _ fd_start (reach_start _ _))) _ fd_video [x00; x01] _ _).
  - repeat constructor.
  - reflexivity.
  - vm_compute. reflexivity.
Defined.
