(* ===== verification/Clock.v ===== *)
(** * Monotonic-to-UTC anchoring ([src/dashcam/gps/clock.py])

    The immutable anchor clock: consideration of candidates, projection of monotonic values, and
    freshness of the GPS evidence; then the accuracy of the projection over every history. *)

From Stdlib Require Import Ascii String ZArith Lia.
From stdpp Require Import base list strings.
From S2P Require Import Prelude PyStr DateTime State.

Definition MAX_PROVENANCE_CHARS : Z := 128.

Inductive AnchorSource := GPS_RMC_VALID | GPS_ZDA_NO_VALIDITY_FLAG.

#[export] Instance AnchorSource_eq_dec : EqDecision AnchorSource. Proof. solve_decision. Defined.

Inductive AnchorStatus := ACCEPTED | CONFIRMED | REACQUIRED | IDEMPOTENT | REJECTED.

#[export] Instance AnchorStatus_eq_dec : EqDecision AnchorStatus. Proof. solve_decision. Defined.

Inductive AnchorError :=
  | INVALID_MONOTONIC | UTC_NOT_AWARE | UTC_NOT_CANONICAL | IMPLAUSIBLE_UTC | INVALID_UNCERTAINTY
  | INVALID_PROVENANCE | MONOTONIC_REGRESSION | CONFLICT.

Inductive ConversionError :=
  | CUNSYNCED | CINVALID_MONOTONIC | PROJECTION_TOO_LARGE | DATETIME_RANGE.

(** [AnchorCandidate], and [UtcAnchor] once validated. *)
Record AnchorCandidate := mkCandidateAnchor {
  monotonic_ns : Z;
  utc : datetime;
  source : AnchorSource;
  provenance : str;
  uncertainty_ns : Z
}.

Abbreviation UtcAnchor := AnchorCandidate.

#[export] Instance AnchorCandidate_eq_dec : EqDecision AnchorCandidate. Proof. solve_decision. Defined.

Record AnchorPolicy := mkAnchorPolicy {
  earliest_utc : datetime;
  latest_utc : datetime;
  max_uncertainty_ns : Z;
  max_conflict_ns : Z;
  max_reacquire_disagreement_ns : Z;
  max_anchor_interval_ns : Z;
  max_projection_ns : Z;
  gps_stale_after_ns : Z;
  oscillator_uncertainty_ppb : Z
}.

Record MonotonicUtcClock := mkClock {
  anchor : option UtcAnchor;
  latest_confirmation : option UtcAnchor;
  latest_disagreement_ns : option Z
}.

Definition empty_clock : MonotonicUtcClock := mkClock None None None.

Record AnchorOutcome := mkAnchorOutcome {
  ao_clock : MonotonicUtcClock;
  ao_status : AnchorStatus;
  ao_error : option AnchorError;
  ao_disagreement_ns : option Z
}.

Definition accepted (o : AnchorOutcome) : bool := negb (bool_decide (ao_status o = REJECTED)).

Record TimestampEstimate := mkEstimate {
  est_utc : datetime;
  est_quality : TimestampQuality;
  est_source : AnchorSource;
  est_provenance : str;
  est_uncertainty_ns : Z
}.

(** ** Helpers *)

Definition utc_is_canonical (dt : datetime) : bool := bool_decide (dt_off dt = Some 0).

Definition validate_policy (p : AnchorPolicy) : option AnchorError :=
  if negb (is_aware (earliest_utc p)) || negb (is_aware (latest_utc p)) then Some UTC_NOT_AWARE
  else if negb (utc_is_canonical (earliest_utc p)) || negb (utc_is_canonical (latest_utc p)) then
    Some UTC_NOT_CANONICAL
  else if utc_us (latest_utc p) <? utc_us (earliest_utc p) then Some IMPLAUSIBLE_UTC
  else if existsb (fun value => value <? 0)
            [max_uncertainty_ns p; max_conflict_ns p; max_reacquire_disagreement_ns p;
             max_anchor_interval_ns p; max_projection_ns p; gps_stale_after_ns p;
             oscillator_uncertainty_ppb p] then Some INVALID_UNCERTAINTY
  else None.

Definition validate_candidate (c : AnchorCandidate) (p : AnchorPolicy) : result (UtcAnchor + AnchorError) :=
  if monotonic_ns c <? 0 then Ok (inr INVALID_MONOTONIC)
  else if negb (is_aware (utc c)) then Ok (inr UTC_NOT_AWARE)
  else if negb (utc_is_canonical (utc c)) then Ok (inr UTC_NOT_CANONICAL)
  else
    let! normalized := astimezone_utc (utc c) in
    if negb ((utc_us (earliest_utc p) <=? utc_us normalized) && (utc_us normalized <=? utc_us (latest_utc p)))
    then Ok (inr IMPLAUSIBLE_UTC)
    else if (uncertainty_ns c <? 0) || (max_uncertainty_ns p <? uncertainty_ns c) then
      Ok (inr INVALID_UNCERTAINTY)
    else if bool_decide (provenance c = []) || (MAX_PROVENANCE_CHARS <? len (provenance c))
            || negb (isascii (provenance c)) || negb (isprintable (provenance c)) then
      Ok (inr INVALID_PROVENANCE)
    else Ok (inl (mkCandidateAnchor (monotonic_ns c) normalized (source c) (provenance c) (uncertainty_ns c))).

(** [divmod] floors; an overflow of the [timedelta] or of the sum is [None]. *)
Definition project (anchor_utc : datetime) (delta_ns : Z) : option datetime :=
  let seconds := delta_ns / NANOSECONDS_PER_SECOND in
  let nanoseconds := delta_ns mod NANOSECONDS_PER_SECOND in
  match dt_add anchor_utc (seconds * 1000000 + nanoseconds / 1000) with
  | Ok dt => Some dt
  | Err _ => None
  end.

(** [_timedelta_to_ns] of the absolute difference of two aware values. *)
Definition difference_ns (a b : datetime) : Z := Z.abs (utc_us a - utc_us b) * 1000.

(** ** The clock *)

Definition drift_ns (p : AnchorPolicy) (delta : Z) : Z :=
  Z.abs delta * oscillator_uncertainty_ppb p / NANOSECONDS_PER_SECOND.

Definition allowed_ns (p : AnchorPolicy) (a n : UtcAnchor) : Z :=
  max_conflict_ns p + uncertainty_ns a + uncertainty_ns n + drift_ns p (monotonic_ns n - monotonic_ns a).

Definition reject (self : MonotonicUtcClock) (e : AnchorError) (d : option Z) : AnchorOutcome :=
  mkAnchorOutcome self REJECTED (Some e) d.

(** A normalized candidate against an anchor and the latest confirmation. *)
Definition consider_again (self : MonotonicUtcClock) (a latest n : UtcAnchor) (p : AnchorPolicy)
    : AnchorOutcome :=
  if bool_decide (n = latest) then mkAnchorOutcome self IDEMPOTENT None (Some 0)
  else if monotonic_ns n <? monotonic_ns latest then reject self MONOTONIC_REGRESSION None
  else
    let interval_ns := monotonic_ns n - monotonic_ns latest in
    match project (utc a) (monotonic_ns n - monotonic_ns a) with
    | None => reject self IMPLAUSIBLE_UTC None
    | Some predicted =>
        let disagreement := difference_ns (utc n) predicted in
        if (max_anchor_interval_ns p <? interval_ns) && (max_reacquire_disagreement_ns p <? disagreement) then
          reject self CONFLICT (Some disagreement)
        else if max_anchor_interval_ns p <? interval_ns then
          mkAnchorOutcome (mkClock (Some n) (Some n) (Some disagreement)) REACQUIRED None (Some disagreement)
        else if allowed_ns p a n <? disagreement then reject self CONFLICT (Some disagreement)
        else if monotonic_ns n =? monotonic_ns latest then
          mkAnchorOutcome self IDEMPOTENT None (Some disagreement)
        else
          mkAnchorOutcome (mkClock (anchor self) (Some n) (Some disagreement)) CONFIRMED None
            (Some disagreement)
    end.

Definition consider (self : MonotonicUtcClock) (c : AnchorCandidate) (p : AnchorPolicy)
    : result AnchorOutcome :=
  match validate_policy p with
  | Some e => Ok (reject self e None)
  | None =>
      let! v := validate_candidate c p in
      match v with
      | inr e => Ok (reject self e None)
      | inl n =>
          match anchor self with
          | None => Ok (mkAnchorOutcome (mkClock (Some n) (Some n) (Some 0)) ACCEPTED None None)
          | Some a =>
              let latest := match latest_confirmation self with Some l => l | None => a end in
              Ok (consider_again self a latest n p)
          end
      end
  end.

Definition convert (self : MonotonicUtcClock) (m : Z) (p : AnchorPolicy)
    : TimestampEstimate + ConversionError :=
  match anchor self with
  | None => inr CUNSYNCED
  | Some a =>
      if m <? 0 then inr CINVALID_MONOTONIC
      else
        let delta_ns := m - monotonic_ns a in
        if max_projection_ns p <? Z.abs delta_ns then inr PROJECTION_TOO_LARGE
        else
          match project (utc a) delta_ns with
          | None => inr DATETIME_RANGE
          | Some dt => inl (mkEstimate dt GPS_ANCHORED (source a) (provenance a)
                              (uncertainty_ns a + drift_ns p delta_ns))
          end
  end.

Definition timestamp_quality (self : MonotonicUtcClock) : TimestampQuality :=
  match anchor self with None => MONOTONIC_ONLY | Some _ => GPS_ANCHORED end.

Definition gps_age_ns (self : MonotonicUtcClock) (now : Z) : option Z :=
  match latest_confirmation self with
  | None => None
  | Some l => if now <? monotonic_ns l then None else Some (now - monotonic_ns l)
  end.

Definition gps_time_state (self : MonotonicUtcClock) (now : Z) (p : AnchorPolicy) : GpsTimeState :=
  match latest_confirmation self with
  | None => UNSYNCED
  | Some _ =>
      match gps_age_ns self now with
      | None => GPS_TIME_STALE
      | Some age =>
          if gps_stale_after_ns p <? 0 then GPS_TIME_STALE
          else if gps_stale_after_ns p <? age then GPS_TIME_STALE else GPS_TIME_VALID
      end
  end.

(** ** Lemmas *)

Lemma micros_of_nanos d : d / NANOSECONDS_PER_SECOND * 1000000 + d mod NANOSECONDS_PER_SECOND / 1000 = d / 1000.
Proof.
  unfold NANOSECONDS_PER_SECOND. rewrite (Z.div_mod d 1000000000) at 3 by lia.
  replace (1000000000 * (d / 1000000000) + d mod 1000000000)
    with (d / 1000000000 * 1000000 * 1000 + d mod 1000000000) by lia.
  by rewrite Z.div_add_l by lia.
Qed.

Lemma project_ok a d dt :
  project a d = Some dt -> dt_ok dt /\ dt_off dt = dt_off a /\ utc_us dt = utc_us a + d / 1000.
Proof.
  unfold project, dt_add. destruct (dt_of_us _ _) as [x|e] eqn:E; [|done]. intros [= ->].
  apply dt_of_us_ok in E as (Hok & Hl & Ho & _). split; [done|]. split; [done|].
  unfold utc_us. rewrite Hl, Ho, micros_of_nanos. lia.
Qed.

(** An anchor the policy accepted. *)
Record anchor_ok (p : AnchorPolicy) (a : UtcAnchor) : Prop := mkAnchorOk {
  ak_monotonic : 0 <= monotonic_ns a;
  ak_utc : dt_ok (utc a) /\ dt_off (utc a) = Some 0;
  ak_plausible : utc_us (earliest_utc p) <= utc_us (utc a) <= utc_us (latest_utc p);
  ak_uncertainty : 0 <= uncertainty_ns a <= max_uncertainty_ns p
}.

Lemma validate_candidate_ok c p n :
  validate_candidate c p = Ok (inl n) ->
  anchor_ok p n /\ monotonic_ns n = monotonic_ns c /\ utc_us (utc n) = utc_us (utc c) /\
  uncertainty_ns n = uncertainty_ns c /\ source n = source c.
Proof.
  unfold validate_candidate. destruct (monotonic_ns c <? 0) eqn:E1; [done|].
  destruct (negb (is_aware _)); [done|]. destruct (utc_is_canonical (utc c)) eqn:E2; [|done]. simpl.
  destruct (astimezone_utc (utc c)) as [x|e] eqn:Ex; [|done]. simpl.
  destruct (_ && _) eqn:E3; [|done]. simpl. destruct (_ || _) eqn:E4; [done|].
  destruct (_ || _) eqn:E5 in |- *; [done|]. intros [= <-]. bool_prop. simpl.
  unfold astimezone_utc in Ex. apply dt_of_us_ok in Ex as (Hok & Hl & Ho & _).
  unfold utc_is_canonical in E2. bool_prop.
  split; [split; simpl; [lia|done|lia|lia]|]. split_and!; try done. unfold utc_us at 1. rewrite Ho, Hl. simpl. lia.
Qed.

(** The anchor and the latest confirmation, and how far the anchor may mispredict it. *)
Definition clock_ok (p : AnchorPolicy) (k : MonotonicUtcClock) : Prop :=
  match anchor k, latest_confirmation k with
  | None, None => True
  | Some a, Some l =>
      anchor_ok p a /\ anchor_ok p l /\ monotonic_ns a <= monotonic_ns l /\
      exists predicted, project (utc a) (monotonic_ns l - monotonic_ns a) = Some predicted /\
        difference_ns (utc l) predicted <= allowed_ns p a l
  | _, _ => False
  end.

Lemma project_self a p : anchor_ok p a -> exists dt, project (utc a) 0 = Some dt /\ utc_us dt = utc_us (utc a).
Proof.
  intros [_ [Hok Ho] _ _]. unfold project, dt_add. simpl. rewrite Z.add_0_r.
  rewrite dt_of_us_local_us by done. by eexists.
Qed.

Lemma policy_bounds p :
  validate_policy p = None ->
  0 <= max_conflict_ns p /\ 0 <= oscillator_uncertainty_ppb p /\ 0 <= max_projection_ns p /\
  0 <= gps_stale_after_ns p.
Proof.
  unfold validate_policy. destruct (_ || _); [done|]. destruct (_ || _); [done|]. destruct (_ <? _); [done|].
  destruct (existsb _ _) eqn:E; [done|]. intros _. simpl in E. bool_prop. lia.
Qed.

Lemma drift_nonneg p d : validate_policy p = None -> 0 <= drift_ns p d.
Proof.
  intros (_ & ? & _)%policy_bounds. unfold drift_ns, NANOSECONDS_PER_SECOND.
  apply Z.div_pos; [|lia]. apply Z.mul_nonneg_nonneg; lia.
Qed.

Lemma single_anchor_ok p n d :
  validate_policy p = None -> anchor_ok p n -> clock_ok p (mkClock (Some n) (Some n) d).
Proof.
  intros Hp Hn. simpl. do 2 (split; [done|]). split; [lia|]. rewrite Z.sub_diag.
  destruct (project_self n p Hn) as (dt & -> & Hdt). eexists. split; [done|].
  unfold difference_ns, allowed_ns. rewrite Hdt, !Z.sub_diag.
  pose proof (drift_nonneg p 0 Hp). destruct (policy_bounds p Hp) as (? & _). destruct Hn as [_ _ _ ?].
  change (Z.abs 0) with 0. lia.
Qed.

Lemma consider_clock_ok k c p o :
  clock_ok p k -> consider k c p = Ok o -> clock_ok p (ao_clock o).
Proof.
  intros Hk. unfold consider. destruct (validate_policy p) eqn:Hp; [intros [= <-]; done|].
  destruct (validate_candidate c p) as [[n|e]|e] eqn:Hv; simpl; [|intros [= <-]; done|done].
  apply validate_candidate_ok in Hv as (Hn & _).
  unfold clock_ok in Hk. destruct (anchor k) as [a|] eqn:Ea; [|intros [= <-]; by apply single_anchor_ok].
  destruct (latest_confirmation k) as [l|] eqn:El; [|done]. destruct Hk as (Ha & Hl & Hle & Hpred).
  assert (Hself : clock_ok p k) by (unfold clock_ok; by rewrite Ea, El).
  intros [= <-]. unfold consider_again.
  destruct (bool_decide (n = l)); [done|]. destruct (monotonic_ns n <? monotonic_ns l) eqn:E1; [done|].
  destruct (project (utc a) (monotonic_ns n - monotonic_ns a)) as [pr|] eqn:Epr; [|done].
  destruct (_ && _); [done|]. destruct (max_anchor_interval_ns p <? _); [by apply single_anchor_ok|].
  destruct (allowed_ns p a n <? _) eqn:E2; [done|]. destruct (_ =? _); [done|]. bool_prop.
  simpl. unfold clock_ok. simpl. rewrite Ea. do 2 (split; [done|]). split; [lia|]. by exists pr.
Qed.

(** Any number of considerations, from the empty clock. *)
Inductive clock_reachable (p : AnchorPolicy) : MonotonicUtcClock -> Prop :=
  | clock_start : clock_reachable p empty_clock
  | clock_step k c o : clock_reachable p k -> consider k c p = Ok o -> clock_reachable p (ao_clock o).

Lemma clock_reachable_ok p k : clock_reachable p k -> clock_ok p k.
Proof. induction 1 as [|k c o _ IH E]; [done|]. by eapply consider_clock_ok. Qed.

(** ** Properties *)

(** C35: the clock stays close to every observation it accepted: after any candidates, the
    anchor and the latest confirmation are plausible and in monotonic order, a candidate
    before the latest confirmation changes nothing, and converting the monotonic time of the
    latest confirmation, where the projection bound allows it, gives its UTC within the allowed
    error: conflict bound, both uncertainties and the oscillator drift between them. *)
Theorem clock_tracks_observations p k :
  clock_reachable p k ->
  match anchor k, latest_confirmation k with
  | None, None => True
  | Some a, Some l =>
      monotonic_ns a <= monotonic_ns l /\
      utc_us (earliest_utc p) <= utc_us (utc a) <= utc_us (latest_utc p) /\
      utc_us (earliest_utc p) <= utc_us (utc l) <= utc_us (latest_utc p) /\
      (forall c o, monotonic_ns c < monotonic_ns l -> consider k c p = Ok o ->
         ao_status o = REJECTED /\ ao_clock o = k) /\
      (monotonic_ns l - monotonic_ns a <= max_projection_ns p ->
       exists est, convert k (monotonic_ns l) p = inl est /\
         difference_ns (utc l) (est_utc est) <= allowed_ns p a l)
  | _, _ => False
  end.
Proof.
  intros Hk%clock_reachable_ok. pose proof Hk as Hk'. unfold clock_ok in Hk.
  destruct (anchor k) as [a|] eqn:Ea, (latest_confirmation k) as [l|] eqn:El; try done.
  destruct Hk as (Ha & Hl & Hle & pr & Hpr & Hd). split_and!; try apply Ha; try apply Hl; [done|..].
  - intros c o Hc Ho. unfold consider in Ho. destruct (validate_policy p); [by injection Ho as <-|].
    destruct (validate_candidate c p) as [[n|e]|e] eqn:Hv; simpl in Ho; [|by injection Ho as <-|done].
    apply validate_candidate_ok in Hv as (_ & Hm & _). rewrite Ea, El in Ho. injection Ho as <-.
    unfold consider_again. rewrite bool_decide_false by (intros ->; lia).
    by replace (monotonic_ns n <? monotonic_ns l) with true by lia.
  - intros Hproj. unfold convert. rewrite Ea. destruct Ha as [Hm _ _ _].
    replace (monotonic_ns l <? 0) with false by lia.
    replace (max_projection_ns p <? Z.abs (monotonic_ns l - monotonic_ns a)) with false by lia.
    rewrite Hpr. by eexists.
Qed.

(** Conversion preserves order and length: between two anchor changes, two monotonic values
    the clock converts come out in the same order, their UTC distance is their monotonic
    distance to within one microsecond, and the stated uncertainty never shrinks with the
    distance from the anchor. *)
Theorem convert_preserves_intervals p k m1 m2 e1 e2 :
  validate_policy p = None -> m1 <= m2 ->
  convert k m1 p = inl e1 -> convert k m2 p = inl e2 ->
  utc_us (est_utc e1) <= utc_us (est_utc e2) /\
  Z.abs ((utc_us (est_utc e2) - utc_us (est_utc e1)) * 1000 - (m2 - m1)) < 1000 /\
  forall a, anchor k = Some a -> Z.abs (m1 - monotonic_ns a) <= Z.abs (m2 - monotonic_ns a) ->
    uncertainty_ns a <= est_uncertainty_ns e1 <= est_uncertainty_ns e2.
Proof.
  intros Hp Hm. unfold convert. destruct (anchor k) as [a|]; [|done].
  destruct (m1 <? 0); [done|]. destruct (max_projection_ns p <? Z.abs (m1 - _)); [done|].
  destruct (project (utc a) (m1 - monotonic_ns a)) as [d1|] eqn:E1; [|done]. intros [= <-].
  destruct (m2 <? 0); [done|]. destruct (max_projection_ns p <? Z.abs (m2 - _)); [done|].
  destruct (project (utc a) (m2 - monotonic_ns a)) as [d2|] eqn:E2; [|done]. intros [= <-].
  apply project_ok in E1 as (_ & _ & E1). apply project_ok in E2 as (_ & _ & E2). simpl.
  rewrite E1, E2. split; [|split].
  - assert ((m1 - monotonic_ns a) / 1000 <= (m2 - monotonic_ns a) / 1000) by (apply Z.div_le_mono; lia). lia.
  - pose proof (Z.div_mod (m1 - monotonic_ns a) 1000 ltac:(lia)).
    pose proof (Z.div_mod (m2 - monotonic_ns a) 1000 ltac:(lia)).
    pose proof (Z.mod_pos_bound (m1 - monotonic_ns a) 1000 ltac:(lia)).
    pose proof (Z.mod_pos_bound (m2 - monotonic_ns a) 1000 ltac:(lia)). lia.
  - intros a' [= <-] Hd. pose proof (drift_nonneg p (m1 - monotonic_ns a) Hp). split; [lia|].
    destruct (policy_bounds p Hp) as (_ & Hppb & _). unfold drift_ns, NANOSECONDS_PER_SECOND.
    apply Z.add_le_mono_l, Z.div_le_mono; [lia|]. by apply Z.mul_le_mono_nonneg_r.
Qed.

(** ** An observation and its confirmation *)

Definition demo_policy : AnchorPolicy :=
  mkAnchorPolicy (mkDT (mkDate 2020 1 1) (mkTime 0 0 0 0) (Some 0))
    (mkDT (mkDate 2040 1 1) (mkTime 0 0 0 0) (Some 0))
    5000000000 2000000000 5000000000 86400000000000 1209600000000000 5000000000 100000.

Definition demo_candidate (m second : Z) : AnchorCandidate :=
  mkCandidateAnchor m (mkDT (mkDate 2024 1 2) (mkTime 3 4 second 0) (Some 0)) GPS_RMC_VALID (u "NMEA:GPRMC")
    100000000.

Definition demo_clock : MonotonicUtcClock :=
  match consider empty_clock (demo_candidate 1000000000 5) demo_policy with
  | Ok o => match consider (ao_clock o) (demo_candidate 3000000000 8) demo_policy with
            | Ok o' => ao_clock o' | Err _ => empty_clock end
  | Err _ => empty_clock
  end.

Lemma demo_clock_reachable : clock_reachable demo_policy demo_clock.
Proof.
  assert (exists o, consider empty_clock (demo_candidate 1000000000 5) demo_policy = Ok o /\
    exists o', consider (ao_clock o) (demo_candidate 3000000000 8) demo_policy = Ok o' /\ ao_clock o' = demo_clock)
    as (o & E & o' & E' & <-).
  { eexists. split; [vm_compute; reflexivity|]. eexists. split; vm_compute; reflexivity. }
  eapply clock_step; [|exact E']. eapply clock_step; [apply clock_start|exact E].
Qed.

Lemma clock_tracks_observations_witness :
  exists est, convert demo_clock 3000000000 demo_policy = inl est.
Proof.
  pose proof (clock_tracks_observations demo_policy demo_clock demo_clock_reachable) as Ht.
  destruct (anchor demo_clock) as [a|] eqn:Ea; [|vm_compute in Ea; discriminate Ea].
  destruct (latest_confirmation demo_clock) as [l|] eqn:El; [|vm_compute in El; discriminate El].
  destruct Ht as (_ & _ & _ & _ & Hc).
  assert (monotonic_ns a = 1000000000 /\ monotonic_ns l = 3000000000) as [Ha Hl].
  { vm_compute in Ea. vm_compute in El. injection Ea as <-. injection El as <-. split; reflexivity. }
  rewrite Ha, Hl in Hc. destruct Hc as (est & Hest & _); [vm_compute; discriminate|].
  exists est. exact Hest.
Defined.

Lemma convert_preserves_intervals_witness :
  exists e1 e2, convert demo_clock 2000000000 demo_policy = inl e1 /\
    convert demo_clock 2500000000 demo_policy = inl e2 /\ utc_us (est_utc e1) <= utc_us (est_utc e2).
Proof.
  eexists. eexists. split; [vm_compute; reflexivity|]. split; [vm_compute; reflexivity|].
  refine (proj1 (convert_preserves_intervals demo_policy demo_clock 2000000000 2500000000 _ _ _ _ _ _));
    [vm_compute; reflexivity|lia|vm_compute; reflexivity|vm_compute; reflexivity].
Defined.
