(* ===== verification/Nmea.v ===== *)
(** * NMEA sentences ([src/dashcam/gps/nmea.py])

    The bounded parser of one serial record: envelope and checksum, then the RMC, ZDA and GGA
    forms. Errors carry their stable code; the diagnostic text beside it is left out. *)

From Stdlib Require Import Ascii String ZArith Lia.
From stdpp Require Import base list strings.
From S2P Require Import Prelude PyStr PyFloat DateTime Uuid.

Definition MAX_NMEA_LINE_BYTES : Z := 82.
Definition MAX_NMEA_FIELDS : Z := 20.
Definition SUPPORTED_TALKERS : list str := map u ["BD"; "GA"; "GB"; "GI"; "GL"; "GN"; "GP"; "GQ"]%string.

Inductive SentenceType := RMC | ZDA | GGA.

Inductive TimeTrust :=
  | UNAVAILABLE | RMC_STATUS_VALID | RMC_STATUS_INVALID | ZDA_REQUIRES_PLAUSIBILITY.

Inductive NmeaError :=
  | EMPTY | TOO_LONG | NON_ASCII | INVALID_MONOTONIC | MALFORMED_ENVELOPE | BAD_CHECKSUM_FORMAT
  | CHECKSUM_MISMATCH | TOO_MANY_FIELDS | UNSUPPORTED_TALKER | UNSUPPORTED_SENTENCE
  | MALFORMED_FIELDS.

#[export] Instance SentenceType_eq_dec : EqDecision SentenceType. Proof. solve_decision. Defined.
#[export] Instance TimeTrust_eq_dec : EqDecision TimeTrust. Proof. solve_decision. Defined.
#[export] Instance NmeaError_eq_dec : EqDecision NmeaError. Proof. solve_decision. Defined.

Record NmeaSentence := mkSentence {
  sentence_type : SentenceType;
  talker : str;
  received_monotonic_ns : option Z;
  utc_time : option time;
  utc_datetime : option datetime;
  time_trust : TimeTrust;
  latitude_deg : option float;
  longitude_deg : option float;
  speed_knots : option float;
  course_deg : option float;
  altitude_m : option float;
  fix_quality : option Z;
  satellites : option Z;
  hdop : option float;
  navigation_valid : bool
}.

(** The constructor with the class's defaults for what a sentence type does not carry. *)
Definition mkTimed (ty : SentenceType) (tk : str) (received : option Z) (t : option time)
    (dt : option datetime) (trust : TimeTrust) (lat lon speed course : option float)
    (nav : bool) : NmeaSentence :=
  mkSentence ty tk received t dt trust lat lon speed course None None None None nav.

Definition time_anchor_candidate (s : NmeaSentence) : bool :=
  bool_decide (is_Some (utc_datetime s)) &&
  match time_trust s with RMC_STATUS_VALID | ZDA_REQUIRES_PLAUSIBILITY => true | _ => false end.

(** [NmeaParseOutcome]: exactly one of the sentence and the error. *)
Abbreviation NmeaParseOutcome := (NmeaSentence + NmeaError)%type.

(** ** Fields *)

Definition value_error {A} (m : string) : result A := Err (Exn ValueError m).

Definition field (fields : list str) (index : nat) : str := default [] (fields !! index).

(** Two-digit hour, minute and second, then nothing or a point and one to nine digits. *)
Definition TIME_RE (s : str) : option (str * str * str * str) :=
  match eat_n is_digit 2 s with
  | None => None
  | Some (h, r1) =>
      match eat_n is_digit 2 r1 with
      | None => None
      | Some (mi, r2) =>
          match eat_n is_digit 2 r2 with
          | None => None
          | Some (sec, []) => Some (h, mi, sec, [])
          | Some (sec, c :: f) =>
              if char_eqb c "." && (1 <=? len f) && (len f <=? 9) && forallb is_digit f
              then Some (h, mi, sec, f) else None
          end
      end
  end.

Definition required_utc_time (value : str) : result time :=
  match TIME_RE value with
  | None => value_error "invalid UTC time"
  | Some (h, mi, sec, fraction) =>
      time_new (int_of_digits h) (int_of_digits mi) (int_of_digits sec)
        (int_of_digits (take 6 (fraction ++ u "000000")))
  end.

Definition optional_utc_time (value : str) : result (option time) :=
  match value with
  | [] => Ok None
  | _ => let! t := required_utc_time value in Ok (Some t)
  end.

Definition optional_nmea_date (value : str) : result (option date) :=
  match value with
  | [] => Ok None
  | _ =>
      raise_if negb ((len value =? 6) && forallb is_digit value) as ValueError msg "invalid RMC date" ;;
      let day := int_of_digits (take 2 value) in
      let month := int_of_digits (take 2 (drop 2 value)) in
      let two_digit_year := int_of_digits (drop 4 value) in
      let year := if 80 <=? two_digit_year then 1900 + two_digit_year else 2000 + two_digit_year in
      let! d := date_new year month day in Ok (Some d)
  end.

Definition combine_utc (d : option date) (t : option time) : result (option datetime) :=
  match d, t with
  | Some d, Some t => let! dt := astimezone_utc (mkDT d t (Some 0)) in Ok (Some dt)
  | _, _ => Ok None
  end.

Definition required_float (value : str) (minimum maximum : float) : result float :=
  match value, float_of_text value with
  | [], _ | _, None => value_error "required numeric field is invalid"
  | _, Some parsed =>
      raise_if negb (isfinite parsed) || negb (fle minimum parsed && fle parsed maximum)
        as ValueError msg "numeric field is out of range" ;;
      Ok parsed
  end.

Definition optional_float (value : str) (minimum maximum : float) : result (option float) :=
  match value with
  | [] => Ok None
  | _ => let! x := required_float value minimum maximum in Ok (Some x)
  end.

(** An optional sign and digits, as the integer [int] reads from them. *)
Definition INTEGER_RE (s : str) : option Z :=
  let '(negative, r) :=
    match s with
    | c :: r => if char_eqb c "-" then (true, r) else if char_eqb c "+" then (false, r) else (false, s)
    | [] => (false, s)
    end in
  if isdecimal r then Some (if (negative : bool) then - int_of_digits r else int_of_digits r) else None.

Definition required_int (value : str) (minimum maximum : Z) : result Z :=
  match INTEGER_RE value with
  | None => value_error "required integer field is invalid"
  | Some parsed =>
      raise_if negb ((minimum <=? parsed) && (parsed <=? maximum))
        as ValueError msg "integer field is out of range" ;;
      Ok parsed
  end.

Definition optional_int (value : str) (minimum maximum : Z) : result (option Z) :=
  match value with
  | [] => Ok None
  | _ => let! x := required_int value minimum maximum in Ok (Some x)
  end.

(** Two digits, then nothing or a point and at least one digit. *)
Definition minutes_re (s : str) : bool :=
  match eat_n is_digit 2 s with
  | None => false
  | Some (_, []) => true
  | Some (_, c :: f) => char_eqb c "." && isdecimal f
  end.

Definition coordinate (value hemisphere : str) (degree_digits : nat) (limit : Z) : result float :=
  raise_if negb (bool_decide (hemisphere ∈
              (if bool_decide (degree_digits = 2%nat) then [u "N"; u "S"] else [u "E"; u "W"])))
    as ValueError msg "invalid coordinate hemisphere" ;;
  raise_if (len value <? Z.of_nat degree_digits + 3) || negb (isdecimal (take 2 (drop degree_digits value)))
    as ValueError msg "invalid coordinate format" ;;
  let degrees_text := take degree_digits value in
  let minutes_text := drop degree_digits value in
  raise_if negb (isdecimal degrees_text) as ValueError msg "invalid coordinate degrees" ;;
  raise_if negb (minutes_re minutes_text) as ValueError msg "invalid coordinate minutes" ;;
  let! minutes := required_float minutes_text (literal "0.0") (literal "59.999999999") in
  let degrees := int_of_digits degrees_text in
  raise_if (limit <? degrees) || ((degrees =? limit) && negb (feq minutes (literal "0.0")))
    as ValueError msg "coordinate exceeds legal range" ;;
  let result := fadd (float_of_int degrees) (fdiv minutes (literal "60.0")) in
  Ok (if bool_decide (hemisphere = u "S") || bool_decide (hemisphere = u "W") then fneg result else result).

Definition coordinates (lat_value lat_hemisphere lon_value lon_hemisphere : str)
    : result (option float * option float) :=
  let present s := negb (bool_decide (s = [])) in
  let values := [lat_value; lat_hemisphere; lon_value; lon_hemisphere] in
  if negb (existsb present values) then Ok (None, None)
  else
    raise_if negb (forallb present values) as ValueError msg "coordinate fields must be complete" ;;
    let! latitude := coordinate lat_value lat_hemisphere 2 90 in
    let! longitude := coordinate lon_value lon_hemisphere 3 180 in
    Ok (Some latitude, Some longitude).

(** ** Sentences *)

Definition parse_rmc (tk : str) (fields : list str) (received : option Z) : result NmeaSentence :=
  let! t := optional_utc_time (field fields 0) in
  let status := field fields 1 in
  raise_if negb (bool_decide (status ∈ [u "A"; u "V"])) as ValueError msg "RMC status must be A or V" ;;
  let! c := coordinates (field fields 2) (field fields 3) (field fields 4) (field fields 5) in
  let '(latitude, longitude) := c in
  let! speed := optional_float (field fields 6) (literal "0.0") (literal "2000.0") in
  let! course := optional_float (field fields 7) (literal "0.0") (literal "360.0") in
  let! d := optional_nmea_date (field fields 8) in
  let! dt := combine_utc d t in
  let trust :=
    if bool_decide (status = u "A") && bool_decide (is_Some dt) then RMC_STATUS_VALID
    else if bool_decide (status = u "V") then RMC_STATUS_INVALID
    else UNAVAILABLE in
  Ok (mkTimed RMC tk received t dt trust latitude longitude speed course
        (bool_decide (status = u "A") && bool_decide (is_Some latitude) && bool_decide (is_Some longitude))).

Definition parse_zda (tk : str) (fields : list str) (received : option Z) : result NmeaSentence :=
  let! t := required_utc_time (field fields 0) in
  let! day := required_int (field fields 1) 1 31 in
  let! month := required_int (field fields 2) 1 12 in
  let! year := required_int (field fields 3) 1980 9999 in
  let! d := date_new year month day in
  let local_hour := field fields 4 in
  let local_minute := field fields 5 in
  raise_if xorb (bool_decide (local_hour = [])) (bool_decide (local_minute = []))
    as ValueError msg "ZDA local-zone fields must both be present or empty" ;;
  let! _ :=
    match local_hour with
    | [] => Ok tt
    | _ =>
        let! _ := required_int local_hour (-13) 13 in
        let! _ := required_int local_minute 0 59 in
        Ok tt
    end in
  let! dt := combine_utc (Some d) (Some t) in
  Ok (mkTimed ZDA tk received (Some t) dt ZDA_REQUIRES_PLAUSIBILITY None None None None false).

Definition parse_gga (tk : str) (fields : list str) (received : option Z) : result NmeaSentence :=
  let! t := optional_utc_time (field fields 0) in
  let! c := coordinates (field fields 1) (field fields 2) (field fields 3) (field fields 4) in
  let '(latitude, longitude) := c in
  let! quality := required_int (field fields 5) 0 8 in
  let! sats := optional_int (field fields 6) 0 99 in
  let! dilution := optional_float (field fields 7) (literal "0.0") (literal "100.0") in
  let! altitude := optional_float (field fields 8) (literal "-20000.0") (literal "20000.0") in
  raise_if bool_decide (is_Some altitude) && negb (bool_decide (field fields 9 = u "M"))
    as ValueError msg "GGA altitude must use metres" ;;
  Ok (mkSentence GGA tk received t None UNAVAILABLE latitude longitude None None altitude
        (Some quality) sats dilution
        ((0 <? quality) && bool_decide (is_Some latitude) && bool_decide (is_Some longitude))).

(** ** Records *)

Inductive RawLine := RawStr (s : str) | RawBytes (b : str).

Definition strip_eol (line : str) : str :=
  if endswith [chr 13; chr 10] line then take (length line - 2) line
  else if endswith [chr 13] line || endswith [chr 10] line then take (length line - 1) line
  else line.

Definition decode_bounded_ascii (raw : RawLine) : str + NmeaError :=
  match raw with
  | RawBytes b =>
      if MAX_NMEA_LINE_BYTES <? len b then inr TOO_LONG
      else if negb (isascii b) then inr NON_ASCII else inl (strip_eol b)
  | RawStr s =>
      if negb (isascii s) then inr NON_ASCII
      else if MAX_NMEA_LINE_BYTES <? len s then inr TOO_LONG else inl (strip_eol s)
  end.

Definition checksum (body : str) : Z := foldl (fun acc c => Z.lxor acc (ord c)) 0 body.

Definition count (c : ascii) (s : str) : Z := len (List.filter (char_eqb c) s).

Definition star : ascii := "*"%char.
Definition comma : ascii := ","%char.

(** Two hexadecimal digits. *)
Definition checksum_re (s : str) : bool := (len s =? 2) && forallb is_hex s.

Definition int_of_hex (s : str) : Z := foldl (fun acc c => acc * 16 + hex_value c) 0 s.

Definition SentenceType_of (formatter : str) : option SentenceType :=
  if bool_decide (formatter = u "RMC") then Some RMC
  else if bool_decide (formatter = u "ZDA") then Some ZDA
  else if bool_decide (formatter = u "GGA") then Some GGA
  else None.

Definition parse_fields (ty : SentenceType) (tk : str) (fields : list str) (received : option Z)
    : result NmeaSentence :=
  match ty with
  | RMC => parse_rmc tk fields received
  | ZDA => parse_zda tk fields received
  | GGA => parse_gga tk fields received
  end.

(** What the [except] of the field parsers catches: [ValueError], [IndexError] and
    [ArithmeticError], of which [OverflowError] is one. *)
Definition caught (e : exn) : bool := is_ValueError e || bool_decide (exn_cls e = OverflowError).

(** The checksum-verified body. *)
Definition parse_body (body : str) (received : option Z) : result NmeaParseOutcome :=
  if MAX_NMEA_FIELDS <? count comma body + 1 then Ok (inr TOO_MANY_FIELDS)
  else
    let '(identifier, _, _) := partition comma body in
    if negb ((len identifier =? 5) && forallb is_upper_alnum identifier) then Ok (inr MALFORMED_ENVELOPE)
    else
      let tk := take 2 identifier in
      if negb (bool_decide (tk ∈ SUPPORTED_TALKERS)) then Ok (inr UNSUPPORTED_TALKER)
      else
        match SentenceType_of (drop 2 identifier) with
        | None => Ok (inr UNSUPPORTED_SENTENCE)
        | Some ty =>
            match parse_fields ty tk (drop 1 (split_on comma body)) received with
            | Ok s => Ok (inl s)
            | Err e => if caught e then Ok (inr MALFORMED_FIELDS) else Err e
            end
        end.

(** The decoded line. *)
Definition parse_line (line : str) (received : option Z) : result NmeaParseOutcome :=
  if bool_decide (line = []) then Ok (inr EMPTY)
  else if negb (isprintable line) then Ok (inr NON_ASCII)
  else if negb (startswith (u "$") line) || negb (count star line =? 1) then Ok (inr MALFORMED_ENVELOPE)
  else
    let '(body, _, transmitted) := partition star (drop 1 line) in
    if negb (checksum_re transmitted) then Ok (inr BAD_CHECKSUM_FORMAT)
    else if negb (checksum body =? int_of_hex transmitted) then Ok (inr CHECKSUM_MISMATCH)
    else parse_body body received.

Definition parse_nmea_line (raw : RawLine) (received : option Z) : result NmeaParseOutcome :=
  if match received with Some r => r <? 0 | None => false end then Ok (inr INVALID_MONOTONIC)
  else
    match decode_bounded_ascii raw with
    | inr e => Ok (inr e)
    | inl line => parse_line line received
    end.

Definition is_stale (s : NmeaSentence) (now stale_after : Z) : bool :=
  match received_monotonic_ns s with
  | None => true
  | Some received =>
      if (now <? received) || (stale_after <? 0) then true else stale_after <? now - received
  end.

(** A canonical UTC value is its own normalization. *)
Lemma astimezone_utc_canonical dt : dt_ok dt -> dt_off dt = Some 0 -> astimezone_utc dt = Ok dt.
Proof.
  intros Hok Hoff. unfold astimezone_utc, utc_us. rewrite Hoff. cbn [default]. rewrite Z.sub_0_r, <-Hoff.
  by apply dt_of_us_local_us.
Qed.
