(* ===== verification/NmeaProperties.v ===== *)
(** * NMEA parsing never raises, and a damaged record is never accepted

    Totality of the parser, and detection of every single-character change to the body of a record
    the parser accepts. *)

From Stdlib Require Import Ascii String ZArith Lia.
From stdpp Require Import base list strings.
From S2P Require Import Prelude PyStr PyFloat DateTime Uuid Nmea.

(** ** The field parsers raise only what their caller catches *)

Definition caught_only {A} (r : result A) : Prop := match r with Ok _ => True | Err e => caught e = true end.

Lemma caught_bind {A B} (r : result A) (k : A -> result B) :
  caught_only r -> (forall a, caught_only (k a)) -> caught_only (result_bind r k).
Proof. destruct r; simpl; auto. Qed.

Lemma caught_if {A} (b : bool) c m (k : result A) :
  is_ValueError (Exn c m) = true -> caught_only k -> caught_only (if b then Err (Exn c m) else k).
Proof. intros He Hk. destruct b; [|done]. cbn [caught_only]. unfold caught. by rewrite He. Qed.

Create HintDb nmea.

Lemma caught_ok {A} (a : A) : caught_only (Ok a).
Proof. done. Qed.

Lemma caught_value {A} m : caught_only (@value_error A m).
Proof. done. Qed.

Lemma caught_date y m d : caught_only (date_new y m d).
Proof. unfold date_new. by destruct (date_valid y m d). Qed.

Lemma caught_time h m s x : caught_only (time_new h m s x).
Proof. unfold time_new. by destruct (time_valid h m s x). Qed.

Lemma caught_astimezone dt : caught_only (astimezone_utc dt).
Proof.
  unfold astimezone_utc. destruct (dt_of_us _ _) as [|e] eqn:E; [done|]. apply dt_of_us_error in E.
  cbn [caught_only]. unfold caught. by rewrite E, orb_true_r.
Qed.

#[local] Hint Resolve caught_ok caught_value caught_date caught_time caught_astimezone : nmea.

Ltac caught_step :=
  first
    [ solve [auto with nmea]
    | apply caught_bind; [|intros]
    | apply caught_if; [reflexivity|]
    | match goal with
      | |- caught_only (match ?x with _ => _ end) => destruct x
      | |- caught_only (let '(_, _) := ?x in _) => destruct x
      end ].

Ltac caught_auto := cbv zeta; repeat (caught_step; cbv zeta).

Lemma caught_utc_time v : caught_only (required_utc_time v).
Proof. unfold required_utc_time. caught_auto. Qed.

Lemma caught_int v a b : caught_only (required_int v a b).
Proof. unfold required_int. caught_auto. Qed.

Lemma caught_float v a b : caught_only (required_float v a b).
Proof. unfold required_float. caught_auto. Qed.

#[local] Hint Resolve caught_utc_time caught_int caught_float : nmea.

Lemma caught_optional_time v : caught_only (optional_utc_time v).
Proof. unfold optional_utc_time. caught_auto. Qed.

Lemma caught_optional_int v a b : caught_only (optional_int v a b).
Proof. unfold optional_int. caught_auto. Qed.

Lemma caught_optional_float v a b : caught_only (optional_float v a b).
Proof. unfold optional_float. caught_auto. Qed.

Lemma caught_optional_date v : caught_only (optional_nmea_date v).
Proof. unfold optional_nmea_date. caught_auto. Qed.

Lemma caught_combine d t : caught_only (combine_utc d t).
Proof. unfold combine_utc. caught_auto. Qed.

Lemma caught_coordinate v h n l : caught_only (coordinate v h n l).
Proof. unfold coordinate. caught_auto. Qed.

#[local] Hint Resolve caught_optional_time caught_optional_int caught_optional_float
  caught_optional_date caught_combine caught_coordinate : nmea.

Lemma caught_coordinates a b c d : caught_only (coordinates a b c d).
Proof. unfold coordinates. caught_auto. Qed.

#[local] Hint Resolve caught_coordinates : nmea.

Lemma caught_fields ty tk fields r : caught_only (parse_fields ty tk fields r).
Proof. destruct ty; simpl; unfold parse_rmc, parse_zda, parse_gga; caught_auto. Qed.

Lemma parse_body_total body r : exists o, parse_body body r = Ok o.
Proof.
  unfold parse_body. destruct (_ <? _); [by eexists|]. destruct (partition comma body) as [[i f] t].
  destruct (negb _); [by eexists|]. destruct (negb _); [by eexists|].
  destruct (SentenceType_of _) as [ty|]; [|by eexists].
  pose proof (caught_fields ty (take 2 i) (drop 1 (split_on comma body)) r) as Hc.
  destruct (parse_fields _ _ _ _) as [s|e]; [by eexists|]. cbn [caught_only] in Hc. rewrite Hc. by eexists.
Qed.

Lemma parse_line_total line r : exists o, parse_line line r = Ok o.
Proof.
  unfold parse_line. destruct (bool_decide _); [by eexists|]. destruct (negb _); [by eexists|].
  destruct (_ || _); [by eexists|]. destruct (partition _ _) as [[b f] t].
  destruct (negb _); [by eexists|]. destruct (negb _); [by eexists|]. apply parse_body_total.
Qed.

Lemma parse_nmea_line_total raw r : exists o, parse_nmea_line raw r = Ok o.
Proof.
  unfold parse_nmea_line. destruct (match r with Some _ => _ | None => _ end); [by eexists|].
  destruct (decode_bounded_ascii raw); [apply parse_line_total|by eexists].
Qed.

(** ** The exclusive-or checksum *)

Lemma checksum_from acc body : foldl (fun a c => Z.lxor a (ord c)) acc body = Z.lxor acc (checksum body).
Proof.
  unfold checksum. revert acc. induction body as [|c body IH]; intros acc; cbn [foldl].
  - by rewrite Z.lxor_0_r.
  - rewrite IH, (IH (Z.lxor 0 _)), Z.lxor_0_l. apply Z.lxor_assoc.
Qed.

Lemma checksum_app a b : checksum (a ++ b) = Z.lxor (checksum a) (checksum b).
Proof. unfold checksum at 1. rewrite foldl_app. apply checksum_from. Qed.

Lemma checksum_cons c b : checksum (c :: b) = Z.lxor (ord c) (checksum b).
Proof. unfold checksum at 1. cbn [foldl]. by rewrite checksum_from, Z.lxor_0_l. Qed.

Lemma lxor_inj_l a b c : Z.lxor a b = Z.lxor a c -> b = c.
Proof.
  intros E%(f_equal (Z.lxor a)). by rewrite <-!Z.lxor_assoc, !Z.lxor_nilpotent, !Z.lxor_0_l in E.
Qed.

Lemma checksum_one_char pre c c' post :
  checksum (pre ++ c :: post) = checksum (pre ++ c' :: post) -> c = c'.
Proof.
  rewrite !checksum_app, !checksum_cons. intros E%lxor_inj_l. rewrite !(Z.lxor_comm (ord _)) in E.
  apply lxor_inj_l in E. by rewrite <-(chr_ord c), <-(chr_ord c'), E.
Qed.

(** ** The envelope of an accepted record *)

Lemma endswith_snoc p x s y : endswith (p ++ [x]) (s ++ [y]) = char_eqb x y && endswith p s.
Proof. unfold endswith. by rewrite !rev_app_distr. Qed.

Lemma strip_eol_app a x rest :
  x <> chr 13 -> x <> chr 10 -> strip_eol (a ++ x :: rest) = a ++ strip_eol (x :: rest).
Proof.
  intros H13 H10. unfold strip_eol.
  assert (forall p, (length p <= 2)%nat -> Forall (fun y => y = chr 13 \/ y = chr 10) p ->
    endswith p (a ++ x :: rest) = endswith p (x :: rest)) as He.
  { intros p Hl Hp. unfold endswith. rewrite rev_app_distr. generalize (rev a). intros ra.
    assert (Forall (fun y => y = chr 13 \/ y = chr 10) (rev p)) as Hp'.
    { by apply List.Forall_rev. }
    cbn [rev]. revert Hp'. generalize (rev p) (rev rest). clear p Hl Hp. intros p r. revert p.
    induction r as [|y r IH]; intros [|q p] Hp; inversion_clear Hp; simpl; try done.
    - assert (char_eqb q x = false) as -> by (apply char_eqb_neq; intros ->; naive_solver). done.
    - by rewrite IH. }
  rewrite !He by (simpl; first [lia | auto]). rewrite !length_app.
  assert (forall n, endswith n (x :: rest) = true -> (length n <= length (x :: rest))%nat) as Hn.
  { intros n Hn. apply endswith_inv in Hn as [q ->]. rewrite length_app. lia. }
  destruct (endswith [chr 13; chr 10] (x :: rest)) eqn:E2.
  { apply Hn in E2. cbn [length] in *. rewrite take_app_ge by lia. f_equal. f_equal. lia. }
  destruct (endswith _ _ || endswith _ _) eqn:E1; [|done].
  rewrite take_app_ge by (cbn [length]; lia). f_equal. f_equal. cbn [length]. lia.
Qed.

Lemma count_app c a b : count c (a ++ b) = count c a + count c b.
Proof. unfold count, len. rewrite List.filter_app, length_app. lia. Qed.

Lemma count_zero c s : count c s = 0 -> c ∉ s.
Proof.
  unfold count, len. induction s as [|x s IH]; simpl; [intros _; apply not_elem_of_nil|].
  destruct (char_eqb c x) eqn:E; simpl; [lia|]. apply char_eqb_neq in E. rewrite not_elem_of_cons. auto.
Qed.

Definition dollar : ascii := "$"%char.

(** A record of raw bytes, cut at its star. *)
Definition record (body rest : str) : RawLine := RawBytes (dollar :: body ++ star :: rest).

Lemma strip_eol_star rest : exists t, strip_eol (star :: rest) = star :: t.
Proof.
  unfold strip_eol. destruct (endswith [chr 13; chr 10] (star :: rest)) eqn:E2.
  { apply endswith_inv in E2 as [[|x q] E]; [done|]. rewrite E, length_app.
    replace (length (x :: q) + _ - 2)%nat with (length (x :: q)) by (simpl; lia).
    rewrite take_app_length. injection E as -> _. by eexists. }
  destruct (endswith _ _ || endswith _ _) eqn:E1; [|by eexists].
  apply orb_true_iff in E1 as [E1|E1]; apply endswith_inv in E1 as [[|x q] E]; try done;
    rewrite E, length_app; replace (length (x :: q) + _ - 1)%nat with (length (x :: q)) by (simpl; lia);
    rewrite take_app_length; injection E as -> _; by eexists.
Qed.

Lemma decode_record body rest line :
  decode_bounded_ascii (record body rest) = inl line ->
  exists t, strip_eol (star :: rest) = star :: t /\ line = dollar :: body ++ star :: t.
Proof.
  unfold decode_bounded_ascii, record. destruct (_ <? _); [done|]. destruct (negb _); [done|].
  intros [= <-]. destruct (strip_eol_star rest) as [t Ht]. exists t. split; [done|].
  change (dollar :: body ++ star :: rest) with ((dollar :: body) ++ star :: rest).
  rewrite strip_eol_app by (intros E; vm_compute in E; discriminate E). by rewrite Ht.
Qed.

Lemma accepted_record body rest r s :
  parse_nmea_line (record body rest) r = Ok (inl s) ->
  exists t, strip_eol (star :: rest) = star :: t /\ (star ∉ body) /\ checksum_re t = true /\
    checksum body = int_of_hex t /\ parse_body body r = Ok (inl s).
Proof.
  unfold parse_nmea_line. destruct (match r with Some _ => _ | None => _ end); [done|].
  destruct (decode_bounded_ascii _) as [line|e] eqn:Ed; [|done].
  apply decode_record in Ed as (t & Ht & ->). unfold parse_line.
  destruct (bool_decide _); [done|]. destruct (negb _); [done|].
  destruct (_ || _) eqn:Ec; [done|]. bool_prop.
  assert (star ∉ body) as Hb.
  { change (dollar :: body ++ star :: t) with ([dollar] ++ body ++ [star] ++ t) in *.
    rewrite !count_app in *. change (count star [dollar]) with 0 in *. change (count star [star]) with 1 in *.
    apply count_zero. assert (0 <= count star body /\ 0 <= count star t) by (unfold count, len; lia). lia. }
  change (drop 1 (dollar :: body ++ star :: t)) with (body ++ star :: t). rewrite partition_app by done. destruct (negb (checksum_re t)) eqn:Er; [done|].
  destruct (negb (_ =? _)) eqn:Es; [done|]. bool_prop. intros Hp. by exists t.
Qed.

(** ** Properties *)


