(* ===== verification/NmeaRoundtrip.v ===== *)
(** * Records that state a time parse back to it

    A rendering of an active RMC record for a UTC instant, and that the parser reads the instant
    from it. *)

From Stdlib Require Import Ascii String ZArith Lia.
From stdpp Require Import base list strings.
From S2P Require Import Prelude PyStr PyFloat DateTime Uuid Nmea NmeaProperties.

(** [hhmmss.ffffff] *)
Definition rmc_time (t : time) : str :=
  digits_fixed 2 (t_hour t) ++ digits_fixed 2 (t_minute t) ++ digits_fixed 2 (t_second t) ++
  "."%char :: digits_fixed 6 (t_us t).

(** [ddmmyy] *)
Definition rmc_date (d : date) : str :=
  digits_fixed 2 (d_day d) ++ digits_fixed 2 (d_month d) ++ digits_fixed 2 (d_year d).

(** Active status, no position, speed or course. *)
Definition rmc_body (tk : str) (dt : datetime) : str :=
  (tk ++ u "RMC") ++ comma :: rmc_time (dt_time dt) ++ u ",A,,,,,,," ++ rmc_date (dt_date dt).

Definition checksum_text (body : str) : str := hex_fixed 2 (checksum body).

Definition rmc_record (tk : str) (dt : datetime) : RawLine :=
  record (rmc_body tk dt) (checksum_text (rmc_body tk dt) ++ [chr 13; chr 10]).

(** ** Fields *)

Lemma required_utc_time_text t : time_ok t -> required_utc_time (rmc_time t) = Ok t.
Proof.
  intros Ht. pose proof Ht as (H1 & H2 & H3 & H4)%time_valid_iff. unfold required_utc_time, TIME_RE, rmc_time.
  do 3 rewrite eat_n_app by (apply digits_fixed_length || apply digits_fixed_digits).
  rewrite char_eqb_refl. unfold len. rewrite digits_fixed_length. cbn [andb].
  replace (forallb is_digit (digits_fixed 6 (t_us t))) with true
    by (symmetry; apply forallb_Forall, digits_fixed_digits).
  change ((1 <=? Z.of_nat 6) && (Z.of_nat 6 <=? 9) && true) with true. cbv iota.
  rewrite take_app_le, take_ge by (rewrite digits_fixed_length; lia).
  rewrite !int_of_digits_fixed_small by (simpl; lia). unfold time_new.
  unfold time_ok in Ht. rewrite Ht. by destruct t.
Qed.

Lemma optional_utc_time_text t : time_ok t -> optional_utc_time (rmc_time t) = Ok (Some t).
Proof.
  intros Ht%required_utc_time_text. unfold optional_utc_time. destruct (rmc_time t) as [|c s]; [done|].
  by rewrite Ht.
Qed.

Lemma take_drop_2 {A} (a b c : list A) :
  length a = 2%nat -> length b = 2%nat ->
  take 2 (a ++ b ++ c) = a /\ take 2 (drop 2 (a ++ b ++ c)) = b /\ drop 4 (a ++ b ++ c) = c.
Proof. by destruct a as [|? [|? [|??]]], b as [|? [|? [|??]]]. Qed.

Lemma optional_nmea_date_text d :
  date_ok d -> 1980 <= d_year d <= 2079 -> optional_nmea_date (rmc_date d) = Ok (Some d).
Proof.
  intros Hd Hy. pose proof Hd as Hv. unfold date_ok in Hv. apply date_valid_iff in Hd as (_ & Hm & Hday).
  assert (d_day d < 100) by (unfold days_in_month in Hday; repeat case_match; lia).
  unfold optional_nmea_date, rmc_date.
  assert (len (digits_fixed 2 (d_day d) ++ digits_fixed 2 (d_month d) ++ digits_fixed 2 (d_year d)) = 6) as Hlen
    by (unfold len; rewrite !length_app, !digits_fixed_length; done).
  rewrite Hlen.
  assert (forallb is_digit (digits_fixed 2 (d_day d) ++ digits_fixed 2 (d_month d) ++ digits_fixed 2 (d_year d)) = true) as ->.
  { rewrite !forallb_app. by rewrite !(proj2 (forallb_Forall _ _) (digits_fixed_digits _ _)). }
  match goal with |- match ?v with _ => _ end = _ => destruct v as [|c s] eqn:Es; [done|rewrite <-Es; clear Es] end.
  cbn [negb andb Z.eqb Pos.eqb]. cbv zeta.
  destruct (take_drop_2 (digits_fixed 2 (d_day d)) (digits_fixed 2 (d_month d)) (digits_fixed 2 (d_year d)))
    as (-> & -> & ->); [apply digits_fixed_length..|].
  rewrite !int_of_digits_fixed. change (10 ^ Z.of_nat 2) with 100.
  rewrite (Z.mod_small (d_day d)), (Z.mod_small (d_month d)) by lia.
  replace (if 80 <=? d_year d mod 100 then 1900 + d_year d mod 100 else 2000 + d_year d mod 100) with (d_year d).
  2:{ destruct (Z_lt_le_dec (d_year d) 2000).
      - replace (d_year d mod 100) with (d_year d - 1900)
          by (replace (d_year d) with (d_year d - 1900 + 19 * 100) at 2 by lia; rewrite Z.mod_add, Z.mod_small; lia).
        replace (80 <=? d_year d - 1900) with true by lia. lia.
      - replace (d_year d mod 100) with (d_year d - 2000)
          by (replace (d_year d) with (d_year d - 2000 + 20 * 100) at 2 by lia; rewrite Z.mod_add, Z.mod_small; lia).
        replace (80 <=? d_year d - 2000) with false by lia. lia. }
  unfold date_new. rewrite Hv. by destruct d.
Qed.

(** ** Characters *)

(** What a field of the record consists of. *)
Definition plain (c : ascii) : bool :=
  printable c && (ord c <? 128) && negb (char_eqb star c) && negb (char_eqb comma c).

(** What the body consists of. *)
Definition framed (c : ascii) : bool := plain c || char_eqb comma c.

Lemma digit_plain c : is_digit c = true -> plain c = true.
Proof. intros Hc. destruct c as [[] [] [] [] [] [] [] []]; vm_compute in Hc; try discriminate Hc; reflexivity. Qed.

Lemma hex_plain c : is_lower_hex c = true -> plain c = true.
Proof. intros Hc. destruct c as [[] [] [] [] [] [] [] []]; vm_compute in Hc; try discriminate Hc; reflexivity. Qed.

Lemma framed_facts c : framed c = true -> printable c = true /\ (ord c <? 128) = true /\ char_eqb star c = false.
Proof. destruct c as [[] [] [] [] [] [] [] []]; vm_compute; try discriminate; done. Qed.

Lemma plain_facts c : plain c = true -> framed c = true /\ char_eqb comma c = false.
Proof. destruct c as [[] [] [] [] [] [] [] []]; vm_compute; try discriminate; done. Qed.

Lemma digits_plain k n : Forall (fun c => plain c = true) (digits_fixed k n).
Proof. eapply Forall_impl; [apply digits_fixed_digits|]. apply digit_plain. Qed.

Lemma count_none c s : Forall (fun x => char_eqb c x = false) s -> count c s = 0.
Proof. unfold count, len. induction 1 as [|x s Hx _ IH]; simpl; [done|]. by rewrite Hx. Qed.

Lemma not_in_plain s : Forall (fun c => plain c = true) s -> comma ∉ s.
Proof.
  intros Hs. apply count_zero, count_none. eapply Forall_impl; [exact Hs|]. intros c. apply plain_facts.
Qed.

Ltac plain_text :=
  repeat first [apply digits_plain | apply Forall_app; split | apply Forall_cons; split; [reflexivity|]].

Lemma rmc_time_plain t : Forall (fun c => plain c = true) (rmc_time t).
Proof. unfold rmc_time. plain_text. Qed.

Lemma rmc_date_plain d : Forall (fun c => plain c = true) (rmc_date d).
Proof. unfold rmc_date. plain_text. Qed.

Lemma rmc_time_length t : length (rmc_time t) = 13%nat.
Proof. unfold rmc_time. rewrite !length_app. cbn [length]. by rewrite !digits_fixed_length. Qed.

Lemma rmc_date_length d : length (rmc_date d) = 6%nat.
Proof. unfold rmc_date. by rewrite !length_app, !digits_fixed_length. Qed.

Lemma talker_facts tk :
  tk ∈ SUPPORTED_TALKERS ->
  length tk = 2%nat /\ Forall (fun c => plain c = true) (tk ++ u "RMC") /\
  forallb is_upper_alnum (tk ++ u "RMC") = true.
Proof.
  unfold SUPPORTED_TALKERS. cbn [map]. rewrite !elem_of_cons. intros Htk.
  destruct_or! Htk; try (subst; split; [reflexivity|split; [repeat constructor|reflexivity]]).
  by apply elem_of_nil in Htk.
Qed.

Lemma lxor_byte a b : 0 <= a < 256 -> 0 <= b < 256 -> 0 <= Z.lxor a b < 256.
Proof.
  intros Ha Hb. assert (0 <= Z.lxor a b) as Hn by (apply Z.lxor_nonneg; lia). split; [done|].
  destruct (Z.eq_dec (Z.lxor a b) 0) as [->|Hz]; [lia|].
  change 256 with (2 ^ 8). apply Z.log2_lt_pow2; [lia|].
  pose proof (Z.log2_lxor a b ltac:(lia) ltac:(lia)) as Hlog.
  pose proof (Z.log2_le_mono a 255 ltac:(lia)) as H1. pose proof (Z.log2_le_mono b 255 ltac:(lia)) as H2.
  change (Z.log2 255) with 7 in H1, H2. lia.
Qed.

Lemma checksum_bounds s : 0 <= checksum s < 256.
Proof.
  induction s as [|c s IH]; [by vm_compute|]. rewrite checksum_cons. apply lxor_byte; [apply ord_bounds|done].
Qed.

Section Record.
Context (tk : str) (dt : datetime) (Htk : tk ∈ SUPPORTED_TALKERS).

Lemma rmc_body_framed : Forall (fun c => framed c = true) (rmc_body tk dt).
Proof.
  assert (forall s, Forall (fun c => plain c = true) s -> Forall (fun c => framed c = true) s) as Hp.
  { intros s Hs. eapply Forall_impl; [exact Hs|]. intros c. apply plain_facts. }
  destruct (talker_facts tk Htk) as (_ & Hid & _). unfold rmc_body.
  apply Forall_app. split; [auto|]. apply Forall_cons. split; [done|].
  apply Forall_app. split; [auto using rmc_time_plain|].
  apply Forall_app. split; [repeat constructor|auto using rmc_date_plain].
Qed.

Lemma rmc_body_length : length (rmc_body tk dt) = 34%nat.
Proof.
  destruct (talker_facts tk Htk) as (Hl & _). unfold rmc_body. rewrite !length_app. cbn [length].
  by rewrite !length_app, rmc_time_length, rmc_date_length, Hl.
Qed.

Lemma body_facts :
  isprintable (rmc_body tk dt) = true /\ isascii (rmc_body tk dt) = true /\
  count star (rmc_body tk dt) = 0 /\ 0 <= checksum (rmc_body tk dt) < 256.
Proof.
  pose proof rmc_body_framed as Hf. unfold isprintable, isascii. rewrite !forallb_Forall.
  split_and!; try (eapply Forall_impl; [exact Hf|]; intros c Hc; apply framed_facts in Hc; tauto).
  - apply count_none. eapply Forall_impl; [exact Hf|]. intros c. apply framed_facts.
  - apply checksum_bounds.
  - apply checksum_bounds.
Qed.

Lemma count_comma_body : count comma (rmc_body tk dt) = 9.
Proof.
  assert (forall s, Forall (fun c => plain c = true) s -> count comma s = 0) as Hp.
  { intros s Hs. apply count_none. eapply Forall_impl; [exact Hs|]. intros c. apply plain_facts. }
  destruct (talker_facts tk Htk) as (_ & Hid & _). unfold rmc_body.
  change (comma :: rmc_time (dt_time dt) ++ u ",A,,,,,,," ++ rmc_date (dt_date dt))
    with ([comma] ++ rmc_time (dt_time dt) ++ u ",A,,,,,,," ++ rmc_date (dt_date dt)).
  rewrite count_app, (Hp _ Hid), !count_app, (Hp _ (rmc_time_plain _)), (Hp _ (rmc_date_plain _)).
  reflexivity.
Qed.

Lemma body_fields :
  split_on comma (rmc_body tk dt) =
    [tk ++ u "RMC"; rmc_time (dt_time dt); u "A"; []; []; []; []; []; []; rmc_date (dt_date dt)].
Proof.
  destruct (talker_facts tk Htk) as (_ & Hid & _). unfold rmc_body.
  rewrite split_on_app_sep by auto using not_in_plain. f_equal.
  change (u ",A,,,,,,," ++ rmc_date (dt_date dt)) with (comma :: u "A,,,,,,," ++ rmc_date (dt_date dt)).
  rewrite split_on_app_sep by auto using not_in_plain, rmc_time_plain. f_equal.
  pose proof (split_on_single comma _ (not_in_plain _ (rmc_date_plain (dt_date dt)))) as Hd.
  revert Hd. generalize (rmc_date (dt_date dt)). intros d Hd. unfold comma, u in *. simpl. by rewrite Hd.
Qed.

Context (Hok : dt_ok dt) (Hoff : dt_off dt = Some 0) (Hyear : 1980 <= d_year (dt_date dt) <= 2079).

Definition rmc_sentence (received : option Z) : NmeaSentence :=
  mkTimed RMC tk received (Some (dt_time dt)) (Some dt) RMC_STATUS_VALID None None None None false.

Lemma combine_utc_text : combine_utc (Some (dt_date dt)) (Some (dt_time dt)) = Ok (Some dt).
Proof.
  cbn [combine_utc]. assert (mkDT (dt_date dt) (dt_time dt) (Some 0) = dt) as -> by (destruct dt; simpl in *; congruence).
  by rewrite astimezone_utc_canonical.
Qed.

Lemma parse_rmc_text received :
  parse_fields RMC tk [rmc_time (dt_time dt); u "A"; []; []; []; []; []; []; rmc_date (dt_date dt)] received
  = Ok (rmc_sentence received).
Proof.
  destruct Hok as [Hd Ht]. unfold parse_fields, parse_rmc, field.
  cbn -[optional_utc_time rmc_time coordinates optional_float optional_nmea_date rmc_date combine_utc
        literal bool_decide u].
  rewrite optional_utc_time_text by done. cbn [result_bind].
  change (negb (bool_decide (u "A" ∈ [u "A"; u "V"]))) with false. cbv iota.
  change (coordinates [] [] [] []) with (@Ok (option float * option float) (None, None)).
  change (optional_float [] _ _) with (@Ok (option float) None). cbn [result_bind].
  rewrite optional_nmea_date_text by done. cbn [result_bind]. rewrite combine_utc_text. reflexivity.
Qed.

Lemma parse_body_text received : parse_body (rmc_body tk dt) received = Ok (inl (rmc_sentence received)).
Proof.
  destruct (talker_facts tk Htk) as (Hl & Hid & Hup). unfold parse_body. rewrite count_comma_body, body_fields.
  change (MAX_NMEA_FIELDS <? 9 + 1) with false. cbv iota. unfold rmc_body at 1.
  rewrite partition_app by auto using not_in_plain. unfold len. rewrite length_app, Hl, Hup.
  cbn [length u list_ascii_of_string]. change (Z.of_nat (2 + 3) =? 5) with true. cbn [andb negb].
  rewrite take_app_length' by done. rewrite drop_app_length' by done.
  rewrite bool_decide_true by done. cbn [negb].
  change (SentenceType_of (u "RMC")) with (Some RMC). cbv iota.
  change (drop 1 ((tk ++ u "RMC") :: ?l)) with l. by rewrite parse_rmc_text.
Qed.

Lemma checksum_text_re : checksum_re (checksum_text (rmc_body tk dt)) = true /\
  int_of_hex (checksum_text (rmc_body tk dt)) = checksum (rmc_body tk dt).
Proof.
  destruct body_facts as (_ & _ & _ & Hc). unfold checksum_text. revert Hc.
  generalize (checksum (rmc_body tk dt)). intros n Hn. unfold checksum_re, len. rewrite hex_fixed_length. split.
  - apply forallb_Forall. eapply Forall_impl; [apply hex_fixed_hex|]. apply is_lower_hex_is_hex.
  - cbn [hex_fixed app]. unfold int_of_hex. cbn [foldl].
    rewrite !hex_value_nibble by (apply Z.mod_pos_bound; lia).
    pose proof (Z.div_mod n 16 ltac:(lia)). rewrite (Z.mod_small (n / 16)); [lia|].
    split; [apply Z.div_pos; lia|]. apply Z.div_lt_upper_bound; lia.
Qed.

Lemma decode_text :
  decode_bounded_ascii (rmc_record tk dt) =
    inl (dollar :: rmc_body tk dt ++ star :: checksum_text (rmc_body tk dt)).
Proof.
  destruct body_facts as (_ & Ha & _ & _).
  assert (length (checksum_text (rmc_body tk dt)) = 2%nat) as Hl by apply hex_fixed_length.
  assert (isascii (checksum_text (rmc_body tk dt)) = true) as Hh.
  { apply forallb_Forall. eapply Forall_impl; [apply hex_fixed_hex|]. intros c Hc%hex_plain.
    apply plain_facts in Hc as [Hc _]. apply framed_facts in Hc; tauto. }
  unfold rmc_record, record, decode_bounded_ascii.
  assert (len (dollar :: rmc_body tk dt ++ star :: checksum_text (rmc_body tk dt) ++ [chr 13; chr 10]) = 40) as ->.
  { unfold len. cbn [length]. rewrite length_app. cbn [length]. by rewrite length_app, Hl, rmc_body_length. }
  change (MAX_NMEA_LINE_BYTES <? 40) with false. cbv iota.
  unfold isascii in *. cbn [forallb]. rewrite forallb_app. cbn [forallb]. rewrite forallb_app, Ha, Hh.
  change (negb _) with false. cbv iota. f_equal.
  change (dollar :: rmc_body tk dt ++ star :: checksum_text (rmc_body tk dt) ++ [chr 13; chr 10])
    with ((dollar :: rmc_body tk dt) ++ star :: checksum_text (rmc_body tk dt) ++ [chr 13; chr 10]).
  rewrite strip_eol_app by (intros E; vm_compute in E; discriminate E).
  change (dollar :: rmc_body tk dt ++ star :: checksum_text (rmc_body tk dt))
    with ((dollar :: rmc_body tk dt) ++ star :: checksum_text (rmc_body tk dt)). f_equal.
Qed.

Lemma parse_record_text received :
  0 <= received ->
  parse_nmea_line (rmc_record tk dt) (Some received) = Ok (inl (rmc_sentence (Some received))).
Proof.
  intros Hr. destruct body_facts as (Hp & _ & Hs & _). destruct checksum_text_re as [Hre Hint].
  assert (Forall (fun c => plain c = true) (checksum_text (rmc_body tk dt))) as Hpl.
  { eapply Forall_impl; [apply hex_fixed_hex|]. apply hex_plain. }
  unfold parse_nmea_line. replace (received <? 0) with false by lia. rewrite decode_text.
  unfold parse_line. rewrite bool_decide_false by done.
  assert (isprintable (dollar :: rmc_body tk dt ++ star :: checksum_text (rmc_body tk dt)) = true) as ->.
  { unfold isprintable in *. cbn [forallb]. rewrite forallb_app, Hp. cbn [forallb].
    apply andb_true_iff. split; [done|]. apply andb_true_iff. split; [done|].
    apply andb_true_iff. split; [done|]. apply forallb_Forall. eapply Forall_impl; [exact Hpl|].
    intros c [Hc _]%plain_facts. apply framed_facts in Hc; tauto. }
  assert (count star (dollar :: rmc_body tk dt ++ star :: checksum_text (rmc_body tk dt)) = 1) as ->.
  { change (dollar :: rmc_body tk dt ++ star :: checksum_text (rmc_body tk dt))
      with ([dollar] ++ rmc_body tk dt ++ [star] ++ checksum_text (rmc_body tk dt)).
    rewrite !count_app, Hs, (count_none star (checksum_text _)); [done|].
    eapply Forall_impl; [exact Hpl|]. intros c [Hc _]%plain_facts. apply framed_facts in Hc; tauto. }
  change (drop 1 (dollar :: ?l)) with l. rewrite partition_app by (by apply count_zero).
  rewrite Hre, Hint, !Z.eqb_refl, parse_body_text. reflexivity.
Qed.
End Record.
