(* ===== verification/Anchors.v ===== *)
(** * NMEA observations to the anchor clock ([src/dashcam/gps/anchors.py])

    The immutable tracker between the parser and the clock. *)

From Stdlib Require Import Ascii String ZArith Lia.
From stdpp Require Import base list strings.
From S2P Require Import Prelude PyStr PyFloat DateTime Uuid State Nmea Clock.

Inductive NmeaAnchorError :=
  | NA_INVALID_UNCERTAINTY | NA_INVALID_MONOTONIC | NA_INVALID_SENTENCE | NA_UNSUPPORTED_SENTENCE
  | NA_RMC_NOT_ACTIVE_VALID | NA_ZDA_NOT_COMPLETE | NA_INCOMPLETE_UTC.

(** [NmeaCandidateOutcome]: exactly one of the candidate and the error. *)
Abbreviation NmeaCandidateOutcome := (AnchorCandidate + NmeaAnchorError)%type.

Record NmeaAnchorTracker := mkTracker {
  policy : AnchorPolicy;
  tr_uncertainty_ns : Z;
  clock : MonotonicUtcClock
}.

Record NmeaAnchorOutcome := mkNmeaAnchorOutcome {
  tracker : NmeaAnchorTracker;
  candidate_outcome : NmeaCandidateOutcome;
  clock_outcome : option AnchorOutcome
}.

Definition outcome_accepted (o : NmeaAnchorOutcome) : bool :=
  match clock_outcome o with Some c => accepted c | None => false end.

Definition valid_uncertainty (uncertainty : Z) (p : AnchorPolicy) : bool :=
  (0 <? uncertainty) && (uncertainty <=? max_uncertainty_ns p).

Definition valid_talker (tk : str) : bool :=
  (len tk =? 2) && isascii tk && forallb is_alnum tk && bool_decide (upper tk = tk).

(** The last lines of [candidate_from], for a source and its provenance. *)
Definition adapt (self : NmeaAnchorTracker) (s : NmeaSentence) (received : Z) (dt : datetime)
    (src : AnchorSource) (prov : str) : NmeaCandidateOutcome :=
  if negb (time_anchor_candidate s) || (MAX_PROVENANCE_CHARS <? len prov) then inr NA_INCOMPLETE_UTC
  else inl (mkCandidateAnchor received dt src prov (tr_uncertainty_ns self)).

Definition candidate_from (self : NmeaAnchorTracker) (s : NmeaSentence) : NmeaCandidateOutcome :=
  if negb (valid_uncertainty (tr_uncertainty_ns self) (policy self)) then inr NA_INVALID_UNCERTAINTY
  else
    match received_monotonic_ns s with
    | None => inr NA_INVALID_MONOTONIC
    | Some received =>
        if received <? 0 then inr NA_INVALID_MONOTONIC
        else if negb (valid_talker (talker s)) then inr NA_INVALID_SENTENCE
        else
          match sentence_type s with
          | RMC =>
              if negb (bool_decide (time_trust s = RMC_STATUS_VALID)) then inr NA_RMC_NOT_ACTIVE_VALID
              else
                match utc_datetime s with
                | None => inr NA_INCOMPLETE_UTC
                | Some dt =>
                    adapt self s received dt GPS_RMC_VALID
                      (u "NMEA:" ++ talker s ++ u "RMC:active-valid:complete-utc")
                end
          | ZDA =>
              if negb (bool_decide (time_trust s = ZDA_REQUIRES_PLAUSIBILITY)) then inr NA_ZDA_NOT_COMPLETE
              else
                match utc_datetime s with
                | None => inr NA_INCOMPLETE_UTC
                | Some dt =>
                    adapt self s received dt GPS_ZDA_NO_VALIDITY_FLAG
                      (u "NMEA:" ++ talker s ++ u "ZDA:complete:no-validity-flag")
                end
          | GGA => inr NA_UNSUPPORTED_SENTENCE
          end
    end.

Definition tracker_consider (self : NmeaAnchorTracker) (s : NmeaSentence) : result NmeaAnchorOutcome :=
  match candidate_from self s with
  | inr e => Ok (mkNmeaAnchorOutcome self (inr e) None)
  | inl c =>
      let! o := consider (clock self) c (policy self) in
      Ok (mkNmeaAnchorOutcome (mkTracker (policy self) (tr_uncertainty_ns self) (ao_clock o)) (inl c) (Some o))
  end.

Definition tracker_gps_time_state (self : NmeaAnchorTracker) (now : Z) : GpsTimeState :=
  gps_time_state (clock self) now (policy self).

(** One serial record read at a monotonic time: a record that does not parse is dropped. *)
Definition feed (self : NmeaAnchorTracker) (raw : RawLine) (received : Z) : result NmeaAnchorTracker :=
  let! o := parse_nmea_line raw (Some received) in
  match o with
  | inr _ => Ok self
  | inl s => let! c := tracker_consider self s in Ok (tracker c)
  end.
