(* ===== verification/AnchorProperties.v ===== *)
(** * From a serial record to the clock

    What a record must state to move the clock, and that a record stating a time sets it. *)

From Stdlib Require Import Ascii String ZArith Lia.
From stdpp Require Import base list strings.
From S2P Require Import Prelude PyStr PyFloat DateTime Uuid State Nmea NmeaProperties NmeaRoundtrip Clock Anchors.

(** The fields after the identifier. *)
Definition record_fields (body : str) : list str := drop 1 (split_on comma body).

Lemma combine_utc_some d t r : combine_utc (Some d) (Some t) = Ok r -> date_ok d -> time_ok t -> r = Some (mkDT d t (Some 0)).
Proof.
  intros H Hd Ht. cbn [combine_utc] in H. rewrite (astimezone_utc_canonical (mkDT d t (Some 0))) in H by done.
  by injection H as <-.
Qed.

Lemma combine_utc_inv d t dt : combine_utc d t = Ok (Some dt) -> exists d' t', d = Some d' /\ t = Some t'.
Proof. destruct d, t; simpl; try done. by eauto. Qed.

Lemma date_new_ok y m d dt : date_new y m d = Ok dt -> date_ok dt.
Proof. unfold date_new, date_ok. destruct (date_valid y m d) eqn:E; [|done]. by intros [= <-]. Qed.

Lemma time_new_ok h m s x t : time_new h m s x = Ok t -> time_ok t.
Proof. unfold time_new, time_ok. destruct (time_valid h m s x) eqn:E; [|done]. by intros [= <-]. Qed.

Lemma required_utc_time_ok v t : required_utc_time v = Ok t -> time_ok t.
Proof. unfold required_utc_time. destruct (TIME_RE v) as [[[[? ?] ?] ?]|]; [|done]. apply time_new_ok. Qed.

Lemma optional_utc_time_some v t : optional_utc_time v = Ok (Some t) -> required_utc_time v = Ok t /\ time_ok t.
Proof.
  unfold optional_utc_time. destruct v as [|c v]; [done|]. intros H. inv_ok.
  simplify_eq. eauto using required_utc_time_ok.
Qed.

Lemma optional_nmea_date_some v d : optional_nmea_date v = Ok (Some d) -> date_ok d.
Proof.
  unfold optional_nmea_date. destruct v as [|c v]; [done|]. cbv zeta. intros H. inv_ok.
  simplify_eq. eauto using date_new_ok.
Qed.

(** ** What the parsers state *)

(** The time of day and date an RMC record states. *)
Definition states_rmc (fields : list str) (dt : datetime) : Prop :=
  required_utc_time (field fields 0) = Ok (dt_time dt) /\
  optional_nmea_date (field fields 8) = Ok (Some (dt_date dt)).

(** The time of day and date a ZDA record states. *)
Definition states_zda (fields : list str) (dt : datetime) : Prop :=
  required_utc_time (field fields 0) = Ok (dt_time dt) /\
  required_int (field fields 1) 1 31 = Ok (d_day (dt_date dt)) /\
  required_int (field fields 2) 1 12 = Ok (d_month (dt_date dt)) /\
  required_int (field fields 3) 1980 9999 = Ok (d_year (dt_date dt)).

Lemma parse_rmc_states tk fields r s dt :
  parse_rmc tk fields r = Ok s -> time_trust s = RMC_STATUS_VALID -> utc_datetime s = Some dt ->
  sentence_type s = RMC /\ received_monotonic_ns s = r /\ field fields 1 = u "A" /\
  states_rmc fields dt /\ dt_ok dt /\ dt_off dt = Some 0.
Proof.
  unfold parse_rmc. cbv zeta. intros H. inv_ok. destruct x0 as [lat lon]. inv_ok. intros Ht Hd.
  simpl in Ht, Hd. subst. cbn [sentence_type received_monotonic_ns mkTimed].
  destruct (bool_decide (field fields 1 = u "A")) eqn:Ea; [|cbn in Ht; case_match; discriminate Ht].
  apply bool_decide_eq_true_1 in Ea.
  destruct (combine_utc_inv _ _ _ Hb4) as (d & t & -> & ->).
  apply optional_utc_time_some in Hb as [Ht1 Ht2]. pose proof (optional_nmea_date_some _ _ Hb3) as Hd2.
  apply combine_utc_some in Hb4; [|done..]. injection Hb4 as ->.
  split_and!; try done.
Qed.

Lemma parse_zda_states tk fields r s dt :
  parse_zda tk fields r = Ok s -> utc_datetime s = Some dt ->
  sentence_type s = ZDA /\ received_monotonic_ns s = r /\ states_zda fields dt /\ dt_ok dt /\
  dt_off dt = Some 0.
Proof.
  unfold parse_zda. cbv zeta. intros H. inv_ok. intros Hd. simpl in Hd. subst.
  pose proof (required_utc_time_ok _ _ Hb) as Ht. pose proof (date_new_ok _ _ _ _ Hb3) as Hd2.
  apply combine_utc_some in Hb5; [|done..]. injection Hb5 as ->.
  unfold date_new in Hb3. destruct (date_valid _ _ _); [|done]. injection Hb3 as <-. done.
Qed.

Lemma parse_gga_type tk fields r s : parse_gga tk fields r = Ok s -> sentence_type s = GGA.
Proof. unfold parse_gga. cbv zeta. intros H. inv_ok. by destruct x0; inv_ok. Qed.

Lemma parse_body_inv body r s :
  parse_body body r = Ok (inl s) ->
  exists ty tk, parse_fields ty tk (record_fields body) r = Ok s.
Proof.
  unfold parse_body, record_fields. destruct (_ <? _); [done|].
  destruct (partition comma body) as [[i f] t]. destruct (negb _); [done|]. destruct (negb _); [done|].
  destruct (SentenceType_of _) as [ty|]; [|done]. destruct (parse_fields _ _ _ _) as [s'|e] eqn:E.
  - intros [= <-]. eauto.
  - by destruct (caught e).
Qed.

(** ** What the tracker takes from a sentence *)

Lemma candidate_from_inv self s c :
  candidate_from self s = inl c ->
  exists received dt, received_monotonic_ns s = Some received /\ utc_datetime s = Some dt /\
    monotonic_ns c = received /\ utc c = dt /\ uncertainty_ns c = tr_uncertainty_ns self /\
    (sentence_type s = RMC /\ time_trust s = RMC_STATUS_VALID /\ source c = GPS_RMC_VALID \/
     sentence_type s = ZDA /\ source c = GPS_ZDA_NO_VALIDITY_FLAG).
Proof.
  unfold candidate_from, adapt. destruct (negb (valid_uncertainty _ _)); [done|].
  destruct (received_monotonic_ns s) as [received|]; [|done]. destruct (received <? 0); [done|].
  destruct (negb (valid_talker _)); [done|]. destruct (sentence_type s) eqn:Et; [..|done];
    (destruct (negb (bool_decide _)) eqn:Eb; [done|]); (destruct (utc_datetime s) as [dt|] eqn:Ed; [|done]);
    (destruct (_ || _); [done|]); intros [= <-]; bool_prop; exists received, dt; simpl; eauto 10.
Qed.

Lemma validate_candidate_canonical c p n :
  dt_ok (utc c) -> validate_candidate c p = Ok (inl n) -> n = c.
Proof.
  intros Hok. unfold validate_candidate. destruct (monotonic_ns c <? 0); [done|].
  destruct (negb (is_aware _)); [done|]. destruct (utc_is_canonical (utc c)) eqn:Ec; [|done]. simpl.
  unfold utc_is_canonical in Ec. apply bool_decide_eq_true_1 in Ec.
  rewrite (astimezone_utc_canonical (utc c)) by done.
  simpl. destruct (negb _); [done|]. destruct (_ || _); [done|]. destruct (_ || _); [done|].
  intros [= <-]. by destruct c.
Qed.

Lemma consider_moves k c p o :
  consider k c p = Ok o -> ao_clock o <> k ->
  exists n, validate_candidate c p = Ok (inl n) /\ latest_confirmation (ao_clock o) = Some n.
Proof.
  unfold consider. destruct (validate_policy p); [by intros [= <-]|].
  destruct (validate_candidate c p) as [[n|e]|e]; cbn [result_bind]; [|by intros [= <-]|done].
  destruct (anchor k) as [a|]; [|by intros [= <-] _; exists n].
  intros [= <-]. unfold consider_again. destruct (bool_decide _); [done|]. destruct (_ <? _); [done|].
  destruct (project _ _); [|done]. destruct (_ && _); [done|]. destruct (_ <? _); [by exists n|].
  destruct (_ <? _); [done|]. destruct (_ =? _); [done|]. by exists n.
Qed.

(** ** Properties *)


(** A tracker, and the tracker once a record has set its clock. *)
Definition demo_tracker : NmeaAnchorTracker := mkTracker demo_policy 100000000 empty_clock.

Definition demo_tracker_after : NmeaAnchorTracker :=
  match feed demo_tracker (record (u "GPZDA,201530.00,04,07,2022,00,00") (u "62" ++ [chr 13; chr 10])) 5000000000 with
  | Ok t => t
  | Err _ => demo_tracker
  end.


(** ** Setting the clock *)

Lemma talker_valid tk :
  tk ∈ SUPPORTED_TALKERS ->
  valid_talker tk = true /\
  let prov := u "NMEA:" ++ tk ++ u "RMC:active-valid:complete-utc" in
  bool_decide (prov = []) || (MAX_PROVENANCE_CHARS <? len prov) || negb (isascii prov) ||
    negb (isprintable prov) = false /\ (MAX_PROVENANCE_CHARS <? len prov) = false.
Proof.
  unfold SUPPORTED_TALKERS. cbn [map]. rewrite !elem_of_cons. intros Htk.
  destruct_or! Htk; try (subst; vm_compute; done). by apply elem_of_nil in Htk.
Qed.

Definition rmc_candidate (unc : Z) (tk : str) (dt : datetime) (received : Z) : AnchorCandidate :=
  mkCandidateAnchor received dt GPS_RMC_VALID (u "NMEA:" ++ tk ++ u "RMC:active-valid:complete-utc") unc.

Lemma candidate_from_text p unc k tk dt received :
  tk ∈ SUPPORTED_TALKERS -> 0 < unc <= max_uncertainty_ns p -> 0 <= received ->
  candidate_from (mkTracker p unc k) (rmc_sentence tk dt (Some received)) =
    inl (rmc_candidate unc tk dt received).
Proof.
  intros Htk Hunc Hr. destruct (talker_valid tk Htk) as (Hvt & _ & Hlen).
  unfold candidate_from, valid_uncertainty, rmc_sentence, mkTimed. cbn -[Z.ltb Z.leb valid_talker adapt u].
  replace ((0 <? unc) && (unc <=? max_uncertainty_ns p)) with true by lia.
  replace (received <? 0) with false by lia. rewrite Hvt, bool_decide_true by done. cbn [negb].
  unfold adapt. rewrite Hlen. reflexivity.
Qed.

Lemma consider_empty p c :
  validate_policy p = None -> validate_candidate c p = Ok (inl c) ->
  consider empty_clock c p = Ok (mkAnchorOutcome (mkClock (Some c) (Some c) (Some 0)) ACCEPTED None None).
Proof. intros Hp Hv. unfold consider. rewrite Hp, Hv. reflexivity. Qed.

Lemma validate_text p unc tk dt received :
  tk ∈ SUPPORTED_TALKERS -> dt_ok dt -> dt_off dt = Some 0 -> 0 < unc <= max_uncertainty_ns p ->
  utc_us (earliest_utc p) <= utc_us dt <= utc_us (latest_utc p) -> 0 <= received ->
  validate_candidate (rmc_candidate unc tk dt received) p = Ok (inl (rmc_candidate unc tk dt received)).
Proof.
  intros Htk Hok Hoff Hunc Hpl Hr. destruct (talker_valid tk Htk) as (_ & Hprov & _).
  unfold validate_candidate, rmc_candidate. cbn [monotonic_ns utc uncertainty_ns provenance source].
  replace (received <? 0) with false by lia.
  unfold is_aware, utc_is_canonical. rewrite Hoff.
  rewrite (bool_decide_true (is_Some _)) by eauto. rewrite bool_decide_true by done. cbn [negb].
  rewrite astimezone_utc_canonical by done. cbn [result_bind].
  replace ((utc_us (earliest_utc p) <=? utc_us dt) && (utc_us dt <=? utc_us (latest_utc p))) with true by lia.
  replace ((unc <? 0) || (max_uncertainty_ns p <? unc)) with false by lia. cbn [negb].
  cbv zeta in Hprov. by rewrite Hprov.
Qed.

(** At its own monotonic time an anchor converts to itself. *)
Lemma convert_self p a l d :
  validate_policy p = None -> 0 <= monotonic_ns a -> dt_ok (utc a) ->
  convert (mkClock (Some a) l d) (monotonic_ns a) p =
    inl (mkEstimate (utc a) GPS_ANCHORED (source a) (provenance a) (uncertainty_ns a)).
Proof.
  intros (_ & _ & Hproj & _)%policy_bounds Hm Hok. unfold convert. cbn [anchor].
  replace (monotonic_ns a <? 0) with false by lia. rewrite Z.sub_diag. change (Z.abs 0) with 0.
  replace (max_projection_ns p <? 0) with false by lia.
  unfold project, dt_add. cbn [Z.div Z.modulo Z.div_eucl Z.add Z.mul fst snd]. change (0 / 1000) with 0.
  rewrite Z.add_0_r, dt_of_us_local_us by done. change (drift_ns p 0) with 0. by rewrite Z.add_0_r.
Qed.

Lemma fresh_until p a l d now :
  validate_policy p = None ->
  gps_time_state (mkClock a (Some l) d) now p = GPS_TIME_VALID <->
    monotonic_ns l <= now <= monotonic_ns l + gps_stale_after_ns p.
Proof.
  intros (_ & _ & _ & Hstale)%policy_bounds. unfold gps_time_state, gps_age_ns. cbn [latest_confirmation].
  destruct (now <? monotonic_ns l) eqn:E; bool_prop; [split; [done|lia]|].
  replace (gps_stale_after_ns p <? 0) with false by lia.
  destruct (gps_stale_after_ns p <? now - monotonic_ns l) eqn:E2; bool_prop; split; try done; lia.
Qed.

(** C36: a stated time is kept exactly: fed to a tracker whose clock is empty, an active RMC record
    rendering any UTC instant of the years 1980 to 2079 that the policy finds plausible is accepted,
    the clock then converts the time of reception to exactly that instant with the configured
    uncertainty, and reports valid GPS time exactly until the policy's freshness bound. *)
Theorem stated_time_sets_clock p unc tk dt received :
  tk ∈ SUPPORTED_TALKERS -> dt_ok dt -> dt_off dt = Some 0 -> 1980 <= d_year (dt_date dt) <= 2079 ->
  validate_policy p = None -> 0 < unc <= max_uncertainty_ns p ->
  utc_us (earliest_utc p) <= utc_us dt <= utc_us (latest_utc p) -> 0 <= received ->
  exists self' est, feed (mkTracker p unc empty_clock) (rmc_record tk dt) received = Ok self' /\
    convert (clock self') received p = inl est /\ est_utc est = dt /\ est_uncertainty_ns est = unc /\
    est_source est = GPS_RMC_VALID /\
    forall now, tracker_gps_time_state self' now = GPS_TIME_VALID <->
      received <= now <= received + gps_stale_after_ns p.
Proof.
  intros Htk Hok Hoff Hy Hp Hunc Hpl Hr. set (c := rmc_candidate unc tk dt received).
  exists (mkTracker p unc (mkClock (Some c) (Some c) (Some 0))). eexists. split; [|split_and!].
  - unfold feed. rewrite parse_record_text by done. cbn [result_bind]. unfold tracker_consider.
    rewrite candidate_from_text by done. cbn [policy tr_uncertainty_ns clock].
    fold c. rewrite (consider_empty p c Hp) by (by apply validate_text). reflexivity.
  - by apply (convert_self p c).
  - done.
  - done.
  - done.
  - intros now. by apply (fresh_until p (Some c) c).
Qed.

Lemma stated_time_sets_clock_witness :
  let dt := mkDT (mkDate 2024 2 29) (mkTime 23 59 58 250000) (Some 0) in
  exists self' est, feed demo_tracker (rmc_record (u "GN") dt) 7000000000 = Ok self' /\
    convert (clock self') 7000000000 demo_policy = inl est /\ est_utc est = dt.
Proof.
  intros dt. destruct (stated_time_sets_clock demo_policy 100000000 (u "GN") dt 7000000000)
    as (self' & est & Hf & Hc & He & _);
    [apply (bool_decide_eq_true_1 _); vm_compute; reflexivity|split; vm_compute; reflexivity|reflexivity
    |split; vm_compute; intros E; discriminate E|vm_compute; reflexivity|split; [reflexivity|vm_compute; intros E; discriminate E]
    |split; vm_compute; intros E; discriminate E|lia|].
  exists self', est. split; [exact Hf|split; [exact Hc|exact He]].
Defined.
