(* ===== verification/NetworkProfile.v ===== *)
(** * Fallback credentials and profile ([src/dashcam/network_fallback.py])

    The values of the network fallback: credentials with their stored form, results, and the
    NetworkManager keyfile of the access point with its validation. SHA-256 and SHA-1 are parameters. *)

From Stdlib Require Import Ascii String ZArith Lia Strings.Byte.
From stdpp Require Import base list strings.
From S2P Require Import Prelude PyStr PyFloat Uuid Models Json.

Definition NMCLI : str := u "/usr/bin/nmcli".
Definition IP : str := u "/usr/sbin/ip".
Definition NETWORK_MANAGER_PROFILE : str :=
  u "/etc/NetworkManager/system-connections/dashcam-fallback-ap.nmconnection".
Definition PRIVATE_CREDENTIALS : str := u "/var/lib/dashcam/network/ap-credentials.json".
Definition BOOT_CREDENTIALS : str := u "/boot/firmware/dashcam-ap-credentials.txt".
Definition PROFILE_NAME : str := u "dashcam-fallback-ap".
Definition AP_ADDRESS : str := u "192.168.50.1/24".
Definition AP_DHCP_RANGE : str := u "192.168.50.20,192.168.50.100".
Definition CLIENT_WINDOW_SECONDS : Z := 60.
Definition POLL_SECONDS : Z := 5.
Definition COMMAND_TIMEOUT_SECONDS : Z := 5.
Definition AP_ACTIVATION_WINDOW_SECONDS : Z := 30.
Definition MAX_OUTPUT_BYTES : Z := 16 * 1024.

(** ** Patterns *)

Definition DEVICE_ID_RE (s : str) : bool := (4 <=? len s) && (len s <=? 128) && forallb is_alnum s.

Definition secret_char (c : ascii) : bool := is_alnum c || one_of "_-" c.
Definition SECRET_RE (s : str) : bool := (20 <=? len s) && (len s <=? 128) && forallb secret_char s.

Definition is_upper_hex (c : ascii) : bool := in_range 65 70 c || is_digit c.
Definition SSID_RE (s : str) : bool :=
  match eat (u "Dashcam-") s with
  | Some r => (len r =? 8) && forallb is_upper_hex r
  | None => false
  end.

(** [re.fullmatch(r"[A-Za-z0-9_.-]{1,32}", s)] *)
Definition interface_char (c : ascii) : bool := is_alnum c || one_of "_.-" c.
Definition safe_interface (s : str) : bool := (1 <=? len s) && (len s <=? 32) && forallb interface_char s.

(** ** Values *)

Inductive NetworkMode := CLIENT | AP | REFUSED.

Inductive NetworkReason :=
  | CLIENT_READY | CLIENT_WINDOW_EXPIRED | AMBIGUOUS_WIFI | COMMAND_FAILED | AP_ACTIVATION_FAILED | ALREADY_SELECTED.

#[export] Instance NetworkMode_eq_dec : EqDecision NetworkMode.
Proof. solve_decision. Defined.
#[export] Instance NetworkReason_eq_dec : EqDecision NetworkReason.
Proof. solve_decision. Defined.

Record CommandResult := mkCommandResult { returncode : Z; stdout : str; stderr : str }.

Definition CommandResult_new (self : CommandResult) : result CommandResult :=
  raise_if (MAX_OUTPUT_BYTES <? Z.of_nat (length (encode (stdout self))))
           || (MAX_OUTPUT_BYTES <? Z.of_nat (length (encode (stderr self))))
    as NetworkError msg "command output exceeds the network policy bound" ;;
  Ok self.

Record CredentialState := mkCredentialState { ssid : str; secret : str; profile_uuid : str }.

Definition CredentialState_new (self : CredentialState) : result CredentialState :=
  raise_if negb (SSID_RE (ssid self)) as NetworkError msg "fallback SSID is invalid" ;;
  raise_if negb (SECRET_RE (secret self)) as NetworkError msg "fallback WPA secret is invalid" ;;
  match UUID_of_str (profile_uuid self) with
  | Err e => if is_ValueError e then Err (Exn NetworkError "fallback profile UUID is invalid") else Err e
  | Ok i =>
      raise_if negb (bool_decide (profile_uuid self = uuid_str i))
        as NetworkError msg "fallback profile UUID must be canonical lowercase" ;;
      Ok self
  end.

Definition nl : str := [chr 10].

Definition private_mapping (self : CredentialState) : value :=
  VObj [ (u "profile_uuid", VStr (profile_uuid self));
         (u "schema_version", VInt 2);
         (u "secret", VStr (secret self));
         (u "ssid", VStr (ssid self)) ].

Definition to_private_json (self : CredentialState) : str := dumps (sorted_keys (private_mapping self)) ++ nl.

Record NetworkResult := mkNetworkResult {
  r_mode : NetworkMode;
  r_reason : NetworkReason;
  r_interface : option str;
  r_ssid : option str;
  r_credentials_published : bool
}.

#[export] Instance NetworkResult_eq_dec : EqDecision NetworkResult.
Proof. solve_decision. Defined.

Definition NetworkResult_new (self : NetworkResult) : result NetworkResult :=
  raise_if bool_decide (r_mode self = AP) && bool_decide (r_ssid self = None)
    as NetworkError msg "AP results require an SSID" ;;
  raise_if negb (bool_decide (r_mode self = AP)) && negb (bool_decide (r_ssid self = None))
    as NetworkError msg "only AP results may identify an SSID" ;;
  Ok self.

(** ** The access point's keyfile *)

Definition PLACEHOLDER : str := u "${INTERFACE}".

(** The settings a keyfile must contain. *)
Definition required_settings (credentials : CredentialState) : list str := [
  u "id=" ++ PROFILE_NAME;
  u "uuid=" ++ profile_uuid credentials;
  u "type=wifi";
  u "autoconnect=false";
  u "ssid=" ++ ssid credentials;
  u "mode=ap";
  u "key-mgmt=wpa-psk";
  u "psk=" ++ secret credentials;
  u "method=shared";
  u "address1=" ++ AP_ADDRESS;
  u "shared-dhcp-range=" ++ AP_DHCP_RANGE;
  u "method=disabled" ].

Definition interface_lines (profile : str) : list str :=
  List.filter (startswith (u "interface-name=")) (splitlines profile).

Definition validate_ap_profile (profile : str) (credentials : CredentialState) (interface_placeholder : bool) :
    result unit :=
  raise_if negb (count_str PLACEHOLDER profile =? (if interface_placeholder then 1 else 0))
    as NetworkError msg "AP profile interface placeholder is invalid" ;;
  raise_if contains (chr 0) profile || contains (chr 13) profile
    as NetworkError msg "AP profile contains unsafe control characters" ;;
  let unresolved := replace_str PLACEHOLDER [] profile in
  raise_if contains_str (u "${") unresolved as NetworkError msg "AP profile contains an unresolved placeholder" ;;
  raise_if existsb (fun line => negb (contains_str line profile)) (required_settings credentials)
    as NetworkError msg "AP profile is missing a required closed setting" ;;
  match interface_lines profile with
  | [line] =>
      let interface_value := removeprefix (u "interface-name=") line in
      if interface_placeholder then
        raise_if negb (bool_decide (interface_value = PLACEHOLDER))
          as NetworkError msg "AP profile does not preserve its interface placeholder" ;; Ok tt
      else
        raise_if negb (safe_interface interface_value)
          as NetworkError msg "AP profile has an unsafe interface binding" ;; Ok tt
  | _ => Err (Exn NetworkError "AP profile interface binding is invalid")
  end.

Definition ap_profile_text (credentials : CredentialState) : str :=
  u "[connection]" ++ nl ++
  u "id=" ++ PROFILE_NAME ++ nl ++
  u "uuid=" ++ profile_uuid credentials ++ nl ++
  u "type=wifi" ++ nl ++
  u "interface-name=${INTERFACE}" ++ nl ++
  u "autoconnect=false" ++ nl ++ nl ++
  u "[wifi]" ++ nl ++
  u "ssid=" ++ ssid credentials ++ nl ++
  u "mode=ap" ++ nl ++ nl ++
  u "[wifi-security]" ++ nl ++
  u "key-mgmt=wpa-psk" ++ nl ++
  u "psk=" ++ secret credentials ++ nl ++ nl ++
  u "[ipv4]" ++ nl ++
  u "method=shared" ++ nl ++
  u "address1=" ++ AP_ADDRESS ++ nl ++
  u "shared-dhcp-range=" ++ AP_DHCP_RANGE ++ nl ++ nl ++
  u "[ipv6]" ++ nl ++
  u "method=disabled" ++ nl.

Definition render_ap_profile (credentials : CredentialState) : result str :=
  let profile := ap_profile_text credentials in
  let! _ := validate_ap_profile profile credentials true in
  Ok profile.

Definition profile_for_interface (credentials : CredentialState) (interface : str) : result str :=
  raise_if negb (safe_interface interface) as NetworkError msg "Wi-Fi interface name is unsafe" ;;
  let! rendered := render_ap_profile credentials in
  let profile := replace_str PLACEHOLDER interface rendered in
  let! _ := validate_ap_profile profile credentials false in
  Ok profile.

(** ** New and stored credentials *)

(** One character of the URL-safe base 64 alphabet. *)
Definition base64_char (n : Z) : ascii :=
  if n <? 26 then chr (65 + n) else if n <? 52 then chr (71 + n) else if n <? 62 then chr (n - 4)
  else if n =? 62 then "-"%char else "_"%char.

(** [base64.urlsafe_b64encode(token).rstrip("=")]: the padding is left out. *)
Fixpoint base64_unpadded (token : list Z) : str :=
  match token with
  | a :: b :: c :: rest =>
      base64_char (a / 4) :: base64_char (a mod 4 * 16 + b / 16) :: base64_char (b mod 16 * 4 + c / 64)
        :: base64_char (c mod 64) :: base64_unpadded rest
  | [a; b] => [base64_char (a / 4); base64_char (a mod 4 * 16 + b / 16); base64_char (b mod 16 * 4)]
  | [a] => [base64_char (a / 4); base64_char (a mod 4 * 16)]
  | [] => []
  end.

(** [secrets.token_urlsafe] of random bytes. *)
Definition token_urlsafe (token : bytes) : str :=
  base64_unpadded (map (fun b => Z.of_N (Byte.to_N b)) token).

(** [int.from_bytes(b, "big")] and [n.to_bytes(k, "big")] *)
Definition int_from_bytes (b : bytes) : Z := foldl (fun acc x => acc * 256 + Z.of_N (Byte.to_N x)) 0 b.
Fixpoint int_to_bytes (k : nat) (n : Z) : bytes :=
  match k with
  | O => []
  | S k' => int_to_bytes k' (n / 256) ++ [byte_of_ascii (chr (n mod 256))]
  end.

Definition PROFILE_UUID_NAMESPACE : UUID :=
  mkUUID 0x50f13cf7504c4f8f80b101c3fdc2ab4f.

(** [uuid5(namespace, name)]: the first sixteen bytes of the SHA-1 digest, with the RFC 4122 variant and
    version 5 set in them. *)
Definition uuid5 (sha1 : bytes -> bytes) (namespace : UUID) (name : str) : UUID :=
  let n := int_from_bytes (take 16 (sha1 (int_to_bytes 16 (Z.of_N (uuid_int namespace)) ++ encode name))) in
  let n := Z.lor (Z.land n (Z.lnot (Z.shiftl 0xc000 48))) (Z.shiftl 0x8000 48) in
  let n := Z.lor (Z.land n (Z.lnot (Z.shiftl 0xf000 64))) (Z.shiftl 5 76) in
  mkUUID (Z.to_N n).

Section Stored.
Variables (sha256_hexdigest : bytes -> str) (sha1 : bytes -> bytes).

Definition short_device_id (device_id : str) : result str :=
  raise_if negb (DEVICE_ID_RE device_id) as NetworkError msg "device identity is invalid" ;;
  Ok (upper (take 8 (sha256_hexdigest (encode device_id)))).

(** [set(parsed) == names] *)
Definition same_keys (fields : list (str * value)) (names : list str) : bool :=
  forallb (fun k => bool_decide (k ∈ names)) (map fst fields) && forallb (fun k => bool_decide (k ∈ map fst fields)) names.

Fixpoint lookup_key (k : str) (fields : list (str * value)) : option value :=
  match fields with
  | [] => None
  | (k', v) :: rest => if bool_decide (k = k') then Some v else lookup_key k rest
  end.

(** [v == n] for an integer [n]: booleans are integers, and a float may be one. *)
Definition equals_int (v : option value) (n : Z) : bool :=
  match v with
  | Some (VInt z) => z =? n
  | Some (VBool b) => (if b then 1 else 0) =? n
  | Some (VFloat x) => feq x (float_of_int n)
  | _ => false
  end.

Definition text_of (v : option value) : option str :=
  match v with Some (VStr s) => Some s | _ => None end.

(** What [_credentials] makes of the parsed private file: the credentials, and whether they come from the
    first schema and have to be written back before they are used. *)
Definition stored_credentials (parsed : value) : result (CredentialState * bool) :=
  match parsed with
  | VObj fields =>
      let get k := lookup_key (u k) fields in
      if same_keys fields [u "schema_version"; u "secret"; u "ssid"] && equals_int (get "schema_version"%string) 1 then
        match text_of (get "secret"%string), text_of (get "ssid"%string) with
        | Some psk, Some name =>
            let! credentials := CredentialState_new
              (mkCredentialState name psk (uuid_str (uuid5 sha1 PROFILE_UUID_NAMESPACE (name ++ u ":" ++ psk)))) in
            Ok (credentials, true)
        | _, _ => Err (Exn NetworkError "private AP credential values are invalid")
        end
      else
        raise_if negb (same_keys fields [u "profile_uuid"; u "schema_version"; u "secret"; u "ssid"])
          as NetworkError msg "private AP credential schema is invalid" ;;
        match equals_int (get "schema_version"%string) 2, text_of (get "secret"%string), text_of (get "ssid"%string) with
        | true, Some psk, Some name =>
            match text_of (get "profile_uuid"%string) with
            | None => Err (Exn NetworkError "private AP credential profile UUID is invalid")
            | Some profile => let! credentials := CredentialState_new (mkCredentialState name psk profile) in
                              Ok (credentials, false)
            end
        | _, _, _ => Err (Exn NetworkError "private AP credential values are invalid")
        end
  | _ => Err (Exn NetworkError "private AP credential schema is invalid")
  end.

End Stored.

(** ** The boot mount *)

(** [_mounted_boot_source]: the device of the one boot entry of [/proc/mounts]. *)
Definition mounted_boot_source (mounts_text : str) : option str :=
  let candidates :=
    flat_map (fun line =>
      match words line with
      | source :: mount :: filesystem :: _ =>
          if negb (bool_decide (mount = u "/boot/firmware")) then []
          else if (bool_decide (filesystem = u "vfat") || bool_decide (filesystem = u "msdos"))
                  && startswith (u "/dev/") source && negb (contains "\" source) && negb (contains (chr 0) source)
          then [source] else []
      | _ => []
      end) (splitlines mounts_text) in
  match candidates with [source] => Some source | _ => None end.
