(* ===== verification/NetworkProfileProperties.v ===== *)
(** * The fallback profile and its credentials

    Every accepted pair of credentials and interface has a valid profile, whose interface line reads the
    interface back; the private file of credentials reads back as they were. *)

From Stdlib Require Import Ascii String ZArith Lia Strings.Byte.
From stdpp Require Import base list strings.
From S2P Require Import Prelude PyStr PyFloat Uuid Models Json JsonProperties NetworkProfile.

(** ** Texts *)

Lemma count_skip p a b : count_from (length a) p (a ++ b) = count_from 0 p b.
Proof. induction a as [|c a IH]; [done|]. exact IH. Qed.

Lemma replace_skip p new a b : replace_from (length a) p new (a ++ b) = replace_from 0 p new b.
Proof. induction a as [|c a IH]; [done|]. exact IH. Qed.

Lemma startswith_other c p x s : c <> x -> startswith (c :: p) (x :: s) = false.
Proof. intros Hc. cbn [startswith]. by rewrite (proj2 (char_eqb_neq c x) Hc). Qed.

(** A text is scanned past characters that begin no occurrence. *)
Lemma count_past c p a b : c ∉ a -> count_str (c :: p) (a ++ b) = count_str (c :: p) b.
Proof.
  unfold count_str. induction a as [|x a IH]; [done|]. intros [Hx Ha]%not_elem_of_cons.
  cbn [app count_from]. rewrite startswith_other by done. by apply IH.
Qed.

Lemma replace_past c p new a b :
  c ∉ a -> replace_str (c :: p) new (a ++ b) = a ++ replace_str (c :: p) new b.
Proof.
  unfold replace_str. induction a as [|x a IH]; [done|]. intros [Hx Ha]%not_elem_of_cons.
  cbn [app replace_from]. rewrite startswith_other by done. by rewrite IH.
Qed.

Lemma count_absent c p a : c ∉ a -> count_str (c :: p) a = 0.
Proof. intros Ha. rewrite <-(app_nil_r a). by rewrite count_past. Qed.

Lemma replace_none c p new a : c ∉ a -> replace_str (c :: p) new a = a.
Proof. intros Ha. rewrite <-(app_nil_r a) at 1. rewrite replace_past by done. cbn. by rewrite app_nil_r. Qed.

Lemma count_once c p a b : c ∉ a -> c ∉ b -> count_str (c :: p) (a ++ (c :: p) ++ b) = 1.
Proof.
  intros Ha Hb. rewrite count_past by done. unfold count_str. cbn [app count_from].
  rewrite (startswith_app (c :: p) b : startswith _ (c :: p ++ b) = true). cbn [length]. rewrite Nat.sub_1_r. cbn [Nat.pred].
  rewrite count_skip. pose proof (count_absent c p b Hb) as E. unfold count_str in E. lia.
Qed.

Lemma replace_once c p new a b :
  c ∉ a -> c ∉ b -> replace_str (c :: p) new (a ++ (c :: p) ++ b) = a ++ new ++ b.
Proof.
  intros Ha Hb. rewrite replace_past by done. f_equal. unfold replace_str. cbn [app replace_from].
  rewrite (startswith_app (c :: p) b : startswith _ (c :: p ++ b) = true). cbn [length]. rewrite Nat.sub_1_r. cbn [Nat.pred].
  rewrite replace_skip. f_equal. by apply replace_none.
Qed.

Lemma contains_str_here p r : contains_str p (p ++ r) = true.
Proof.
  pose proof (startswith_app p r) as Hs. destruct (p ++ r); cbn [contains_str]; by rewrite Hs.
Qed.

Lemma contains_str_here2 a b r : contains_str (a ++ b) (a ++ b ++ r) = true.
Proof. rewrite app_assoc. apply contains_str_here. Qed.

Lemma contains_str_skip p a b : contains_str p b = true -> contains_str p (a ++ b) = true.
Proof. intros Hb. induction a as [|x a IH]; [done|]. cbn [app contains_str]. by rewrite IH, orb_true_r. Qed.

Lemma contains_str_head c p s : c ∉ s -> contains_str (c :: p) s = false.
Proof.
  induction s as [|x s IH]; [done|]. intros [Hx Hs]%not_elem_of_cons.
  cbn [contains_str]. rewrite startswith_other by done. by apply IH.
Qed.

Lemma removeprefix_app p s : removeprefix p (p ++ s) = s.
Proof. unfold removeprefix. by rewrite startswith_app, drop_app_length. Qed.

(** A line without boundaries, up to its line feed. *)
Definition no_break (s : str) : bool := forallb (fun c => negb (is_line_break c)) s.

Lemma splitlines_line a s : no_break a = true -> splitlines (a ++ nl ++ s) = a :: splitlines s.
Proof.
  unfold no_break. induction a as [|c a IH]; intros Ha.
  - destruct s; reflexivity.
  - cbn [forallb] in Ha. apply andb_true_iff in Ha as [Hc Ha]. apply negb_true_iff in Hc.
    cbn [app splitlines]. rewrite Hc. by rewrite (IH Ha).
Qed.

Lemma no_break_app a b : no_break (a ++ b) = no_break a && no_break b.
Proof. apply forallb_app. Qed.

Lemma splitlines_line2 a b s :
  no_break a = true -> no_break b = true -> splitlines (a ++ b ++ nl ++ s) = (a ++ b) :: splitlines s.
Proof. intros Ha Hb. rewrite app_assoc. apply splitlines_line. by rewrite no_break_app, Ha, Hb. Qed.

(** ** Credentials *)

Definition credentials_ok (c : CredentialState) : Prop := CredentialState_new c = Ok c.

Lemma CredentialState_new_ok c c' : CredentialState_new c = Ok c' -> c' = c /\ credentials_ok c.
Proof.
  unfold credentials_ok. intros Hc. enough (c' = c) by (split; [done|congruence]). revert Hc. unfold CredentialState_new.
  repeat split_if; try done. destruct (UUID_of_str _) as [i|e]; [|by split_if]. split_if; [done|]. by intros [= ->].
Qed.

(** The characters of a profile's variable parts. *)
Definition plain_char (c : ascii) : bool := is_alnum c || one_of "_-." c.

Lemma plain_char_facts c :
  plain_char c = true -> c <> "$"%char /\ c <> chr 0 /\ c <> chr 13 /\ is_line_break c = false /\ (ord c <? 128) = true.
Proof. destruct c as [[] [] [] [] [] [] [] []]; vm_compute; try discriminate; intros _; repeat split; discriminate. Qed.

Definition plain (s : str) : Prop := Forall (fun c => plain_char c = true) s.

Lemma plain_of (f : ascii -> bool) s :
  (forall c, f c = true -> plain_char c = true) -> forallb f s = true -> plain s.
Proof. intros Hf Hs%forallb_Forall. eapply Forall_impl; [exact Hs|]. exact Hf. Qed.

Lemma uuid_str_plain i : plain (uuid_str i).
Proof.
  apply Forall_forall. intros c Hc. unfold uuid_str in Hc. apply hyphenate_chars in Hc; [|apply hex_fixed_hex].
  destruct Hc as [Hc| ->]; [|done]. revert Hc. destruct c as [[] [] [] [] [] [] [] []]; vm_compute; auto.
Qed.

Record credentials_facts (c : CredentialState) : Prop := {
  cf_ssid : SSID_RE (ssid c) = true;
  cf_secret : SECRET_RE (secret c) = true;
  cf_uuid : exists i, UUID_of_str (profile_uuid c) = Ok i /\ profile_uuid c = uuid_str i;
  cf_plain : plain (ssid c) /\ plain (secret c) /\ plain (profile_uuid c)
}.

Lemma SSID_RE_plain s : SSID_RE s = true -> plain s.
Proof.
  unfold SSID_RE. destruct (eat _ s) as [r|] eqn:E; [|done]. apply eat_inv in E as ->. intros Hr. bool_prop.
  apply Forall_app. split; [by apply forallb_Forall|].
  eapply (plain_of is_upper_hex); [|done]. intros c. destruct c as [[] [] [] [] [] [] [] []]; vm_compute; auto.
Qed.

Lemma SECRET_RE_plain s : SECRET_RE s = true -> plain s.
Proof.
  unfold SECRET_RE. intros Hs. bool_prop. eapply (plain_of secret_char); [|done].
  intros c. destruct c as [[] [] [] [] [] [] [] []]; vm_compute; auto.
Qed.

Lemma safe_interface_plain s : safe_interface s = true -> plain s.
Proof.
  unfold safe_interface. intros Hs. bool_prop. eapply (plain_of interface_char); [|done].
  intros c. destruct c as [[] [] [] [] [] [] [] []]; vm_compute; auto.
Qed.

Lemma credentials_facts_of c : credentials_ok c -> credentials_facts c.
Proof.
  unfold credentials_ok, CredentialState_new. destruct (SSID_RE _) eqn:Hs; [|done]. destruct (SECRET_RE _) eqn:Hk; [|done].
  cbn [negb]. destruct (UUID_of_str _) as [i|e] eqn:Hi; [|by split_if]. split_if; [done|]. intros _. bool_prop.
  split; [done..|by exists i|]. split_and!; [by apply SSID_RE_plain|by apply SECRET_RE_plain|].
  by match goal with E : profile_uuid c = _ |- _ => rewrite E; apply uuid_str_plain end.
Qed.

(** ** The profile *)

(** What precedes and follows the interface. *)
Definition profile_before (c : CredentialState) : str :=
  u "[connection]" ++ nl ++ u "id=" ++ PROFILE_NAME ++ nl ++ u "uuid=" ++ profile_uuid c ++ nl ++
  u "type=wifi" ++ nl ++ u "interface-name=".

Definition profile_after (c : CredentialState) : str :=
  nl ++ u "autoconnect=false" ++ nl ++ nl ++
  u "[wifi]" ++ nl ++ u "ssid=" ++ ssid c ++ nl ++ u "mode=ap" ++ nl ++ nl ++
  u "[wifi-security]" ++ nl ++ u "key-mgmt=wpa-psk" ++ nl ++ u "psk=" ++ secret c ++ nl ++ nl ++
  u "[ipv4]" ++ nl ++ u "method=shared" ++ nl ++ u "address1=" ++ AP_ADDRESS ++ nl ++
  u "shared-dhcp-range=" ++ AP_DHCP_RANGE ++ nl ++ nl ++
  u "[ipv6]" ++ nl ++ u "method=disabled" ++ nl.

(** The profile bound to an interface, or to the placeholder. *)
Definition profile_with (c : CredentialState) (interface : str) : str :=
  profile_before c ++ interface ++ profile_after c.

Lemma ap_profile_text_with c : ap_profile_text c = profile_with c PLACEHOLDER.
Proof.
  unfold ap_profile_text, profile_with, profile_before, profile_after.
  change (u "interface-name=${INTERFACE}") with (u "interface-name=" ++ PLACEHOLDER). by rewrite <-!app_assoc.
Qed.

(** Characters of a profile: plain ones and those of its fixed parts. *)
Definition profile_char (c : ascii) : bool := plain_char c || one_of "[]=,/" c || (ord c =? 10).

Lemma profile_char_facts c :
  profile_char c = true -> c <> "$"%char /\ c <> chr 0 /\ c <> chr 13 /\ (ord c <? 128) = true.
Proof. destruct c as [[] [] [] [] [] [] [] []]; vm_compute; try discriminate; intros _; repeat split; discriminate. Qed.

Lemma plain_profile s : plain s -> forallb profile_char s = true.
Proof. intros Hs. apply forallb_Forall. eapply Forall_impl; [exact Hs|]. intros c Hc. unfold profile_char. by rewrite Hc. Qed.

Ltac profile_chars := rewrite !forallb_app; repeat (apply andb_true_iff; split); first [reflexivity | by apply plain_profile].

Lemma profile_parts c :
  credentials_facts c -> forallb profile_char (profile_before c) = true /\ forallb profile_char (profile_after c) = true.
Proof. intros [_ _ _ (? & ? & ?)]. split; unfold profile_before, profile_after; profile_chars. Qed.

Lemma profile_with_chars c i : credentials_facts c -> plain i -> forallb profile_char (profile_with c i) = true.
Proof.
  intros Hc Hi. destruct (profile_parts c Hc) as [Hb Ha]. unfold profile_with.
  by rewrite !forallb_app, Hb, Ha, plain_profile.
Qed.

Lemma absent_of s x : forallb profile_char s = true -> profile_char x = false -> x ∉ s.
Proof. rewrite forallb_Forall, Forall_forall. intros Hs Hx Hin. apply Hs in Hin. congruence. Qed.

(** The lines of a profile, and the one that binds it. *)
Lemma plain_no_break s : plain s -> no_break s = true.
Proof.
  intros Hs. apply forallb_Forall. eapply Forall_impl; [exact Hs|]. intros c Hc.
  by destruct (plain_char_facts c Hc) as (_ & _ & _ & -> & _).
Qed.

Lemma interface_lines_with c x :
  credentials_facts c -> no_break x = true -> interface_lines (profile_with c x) = [u "interface-name=" ++ x].
Proof.
  intros [_ _ _ (Hs%plain_no_break & Hk%plain_no_break & Hu%plain_no_break)] Hx.
  unfold interface_lines, profile_with, profile_before, profile_after. rewrite <-!app_assoc.
  repeat first [ rewrite (splitlines_line (u _)) by reflexivity
               | rewrite splitlines_line2 by (reflexivity || assumption)
               | rewrite (splitlines_line []  (u _ ++ _) eq_refl : splitlines (nl ++ u _ ++ _) = _) ].
  reflexivity.
Qed.

Lemma required_settings_present c x line :
  In line (required_settings c) -> contains_str line (profile_with c x) = true.
Proof.
  unfold profile_with, profile_before, profile_after. rewrite <-!app_assoc.
  cbn [required_settings In]. intros Hline.
  repeat (destruct Hline as [<-|Hline]; [repeat first [apply contains_str_here2 | apply contains_str_here | apply contains_str_skip]|]).
  done.
Qed.

Lemma validate_with c x (placeholder : bool) :
  credentials_facts c -> no_break x = true -> contains (chr 0) x = false -> contains (chr 13) x = false ->
  (if placeholder then x = PLACEHOLDER else plain x /\ safe_interface x = true) ->
  validate_ap_profile (profile_with c x) c placeholder = Ok tt.
Proof.
  intros Hc Hx H0 H13 Hp. destruct (profile_parts c Hc) as [Hb Ha]. unfold validate_ap_profile.
  rewrite interface_lines_with, removeprefix_app by done.
  assert (existsb (fun line => negb (contains_str line (profile_with c x))) (required_settings c) = false) as ->.
  { apply not_true_is_false. rewrite existsb_exists. intros (line & Hl & Hn).
    by rewrite required_settings_present in Hn. }
  assert (contains (chr 0) (profile_with c x) || contains (chr 13) (profile_with c x) = false) as ->.
  { apply orb_false_iff. rewrite !contains_false_iff in *. unfold profile_with.
    split; rewrite !not_elem_of_app; split_and!; try done; by eapply absent_of. }
  pose proof (absent_of _ "$"%char Hb eq_refl) as Db. pose proof (absent_of _ "$"%char Ha eq_refl) as Da.
  assert (contains_str (u "${") (profile_before c ++ profile_after c) = false) as Hu
    by (apply contains_str_head; by rewrite not_elem_of_app).
  change PLACEHOLDER with ("$"%char :: u "{INTERFACE}") in *. destruct placeholder.
  - subst x. unfold profile_with. rewrite count_once, replace_once by done. cbn [app]. rewrite Hu.
    by rewrite bool_decide_true.
  - destruct Hp as [Hp Hs]. unfold profile_with.
    assert ("$"%char ∉ profile_before c ++ x ++ profile_after c).
    { rewrite !not_elem_of_app. split_and!; [done| |done]. eapply absent_of; [by apply plain_profile|done]. }
    rewrite count_absent, replace_none by done.
    change (u "${") with ("$"%char :: u "{"). rewrite contains_str_head by done. by rewrite Hs.
Qed.

(** Every accepted pair has a profile. *)
Lemma profile_for_interface_ok c i :
  credentials_ok c -> safe_interface i = true -> profile_for_interface c i = Ok (profile_with c i).
Proof.
  intros Hc%credentials_facts_of Hi. pose proof (safe_interface_plain i Hi) as Hp.
  unfold profile_for_interface, render_ap_profile. rewrite Hi, ap_profile_text_with. cbn [negb].
  rewrite (validate_with c PLACEHOLDER true) by first [done | reflexivity]. cbn [result_bind].
  assert (replace_str PLACEHOLDER i (profile_with c PLACEHOLDER) = profile_with c i) as ->.
  { destruct (profile_parts c Hc) as [Hb Ha]. apply (replace_once "$"%char (u "{INTERFACE}")); by eapply absent_of. }
  rewrite (validate_with c i false); [done|done|by apply plain_no_break| | |done];
    apply contains_false_iff; (eapply absent_of; [by apply plain_profile|done]).
Qed.

Lemma profile_for_interface_inv c i p :
  profile_for_interface c i = Ok p -> safe_interface i = true.
Proof. unfold profile_for_interface. by destruct (safe_interface i). Qed.

Lemma profile_isascii c i : credentials_facts c -> plain i -> isascii (profile_with c i) = true.
Proof.
  intros Hc Hi. pose proof (profile_with_chars c i Hc Hi) as Hf. unfold isascii. rewrite forallb_Forall in *.
  eapply Forall_impl; [exact Hf|]. intros x Hx. by destruct (profile_char_facts x Hx) as (_ & _ & _ & ->).
Qed.

(** ** Stored credentials *)

Lemma sorted_private_mapping c : sorted_keys (private_mapping c) = private_mapping c.
Proof. reflexivity. Qed.

(** Whitespace after a text is ignored. *)
Lemma loads_private {hooks : JsonHooks} `{!PlainObjects hooks} c :
  loads (to_private_json c) = Ok (private_mapping c).
Proof.
  unfold loads, to_private_json. rewrite sorted_private_mapping.
  assert (readable (private_mapping c) = true) as Hv by reflexivity. pose proof (depth_length _ Hv) as Hd.
  destruct (dumps_start _ Hv) as (x & t & E & Hx).
  assert (skip_ws (dumps (private_mapping c) ++ nl) = dumps (private_mapping c) ++ nl) as ->
    by (rewrite E; by apply skip_ws_start).
  rewrite (scan_dumps _ Hv); [reflexivity| |intros ? ? [= <- <-]; reflexivity].
  rewrite length_app. lia.
Qed.

Lemma stored_private sha1 c : credentials_ok c -> stored_credentials sha1 (private_mapping c) = Ok (c, false).
Proof.
  intros Hc. unfold stored_credentials, private_mapping. destruct c as [a b d].
  transitivity (let! c := CredentialState_new (mkCredentialState a b d) in Ok (c, false)); [reflexivity|]. by rewrite Hc.
Qed.

Lemma stored_credentials_ok sha1 v c m : stored_credentials sha1 v = Ok (c, m) -> credentials_ok c.
Proof.
  unfold stored_credentials. destruct v as [| | | | | |fields]; try done. cbv zeta. intros Hs.
  repeat (split_if || case_match); try done;
    apply result_bind_ok in Hs as (c' & Hs & [= <- <-]); by apply CredentialState_new_ok in Hs as [-> ?].
Qed.
