(* ===== verification/NetworkFallback.v ===== *)
(** * The network mode of one boot ([src/dashcam/network_fallback.py])

    [NetworkFallbackController] over its injected protocols: a command runner, a file store, a monotonic
    clock with a sleeper, and the random source of new credentials. The environment [E] answers every
    call and may change with it; a log records what was run, slept, read and written. Clock readings
    are numbers of a type [T] that is binary64 in production. *)

From Stdlib Require Import Ascii String ZArith Lia Strings.Byte.
From stdpp Require Import base list strings.
From S2P Require Import Prelude PyStr PyFloat Uuid Models Json NetworkProfile.

(** ** Protocols *)

(** The numbers a clock returns, as far as the policy computes with them. *)
Class Seconds (T : Type) := {
  sec_of_int : Z -> T;
  sec_add : T -> T -> T;
  sec_sub : T -> T -> T;
  sec_ltb : T -> T -> bool;
  sec_leb : T -> T -> bool
}.

#[export] Instance float_seconds : Seconds float := {|
  sec_of_int := float_of_int; sec_add := fadd; sec_sub := fsub; sec_ltb := flt; sec_leb := fle |}.

(** [min(a, b)] *)
Definition sec_min {T} `{Seconds T} (a b : T) : T := if sec_ltb b a then b else a.

Class MonotonicClock (E T : Type) := {
  env_monotonic : E -> T * E;
  env_sleep : E -> T -> E
}.

Class CommandRunner (E T : Type) := {
  env_run : E -> list str -> T -> result CommandResult * E
}.

Class FileStore (E : Type) := {
  env_read_text : E -> str -> result (option str);
  env_private_file_is_safe : E -> str -> result bool;
  env_boot_credentials_path_is_safe : E -> result bool;
  env_atomic_write : E -> str -> str -> Z -> result unit * E
}.

Class RandomSource (E : Type) := {
  env_token_bytes : E -> nat -> bytes * E;
  env_uuid4 : E -> UUID * E
}.

(** ** The controller's calls *)

Inductive event (T : Type) :=
  | Ran (argv : list str) (timeout_seconds : T) (answer : result CommandResult)
  | Slept (seconds : T)
  | Looked (path : str) (answer : result (option str))
  | Wrote (path content : str) (mode : Z) (answer : result unit).
Arguments Ran {T} argv timeout_seconds answer.
Arguments Slept {T} seconds.
Arguments Looked {T} path answer.
Arguments Wrote {T} path content mode answer.

(** [selected] is the field [_selected]. *)
Record NetWorld (E T : Type) := mkNetWorld {
  n_env : E;
  n_log : list (event T);
  selected : option NetworkResult
}.
Arguments mkNetWorld {E T} n_env n_log selected.
Arguments n_env {E T} n.
Arguments n_log {E T} n.
Arguments selected {E T} n.

Definition Net (E T A : Type) : Type := NetWorld E T -> result A * NetWorld E T.

Definition nret {E T A} (a : A) : Net E T A := fun w => (Ok a, w).
Definition nraise {E T A} (e : exn) : Net E T A := fun w => (Err e, w).
Definition nlift {E T A} (r : result A) : Net E T A := fun w => (r, w).
Definition nbind {E T A B} (m : Net E T A) (k : A -> Net E T B) : Net E T B := fun w =>
  match m w with
  | (Ok a, w') => k a w'
  | (Err e, w') => (Err e, w')
  end.
Definition ntry {E T A} (m : Net E T A) (handler : exn -> Net E T A) : Net E T A := fun w =>
  match m w with
  | (Ok a, w') => (Ok a, w')
  | (Err e, w') => handler e w'
  end.

Declare Scope net_scope.
Delimit Scope net_scope with net.
Notation "x <- m ;; k" := (nbind m (fun x => k))
  (at level 20, m at level 99, k at level 200) : net_scope.
Notation "' pat <- m ;; k" := (nbind m (fun x => match x with pat => k end))
  (at level 20, pat pattern, m at level 99, k at level 200) : net_scope.
Notation "m ;;; k" := (nbind m (fun _ => k)) (at level 100, k at level 200, right associativity) : net_scope.
#[global] Open Scope net_scope.

Definition network_error {E T A} (m : string) : Net E T A := nraise (Exn NetworkError m).

(** [except (NetworkError, OSError)] *)
Definition is_refusal (e : exn) : bool := bool_decide (exn_cls e = NetworkError) || is_OSError e.

(** The constructor's arguments. *)
Record NetworkFallbackController := mkController { device_id : str; window : Z; poll : Z }.

Section Controller.
Context {E T : Type} `{Seconds T} `{MonotonicClock E T} `{CommandRunner E T} `{FileStore E} `{RandomSource E}.
Variables (sha256_hexdigest : bytes -> str) (sha1 : bytes -> bytes).

Definition NetworkFallbackController_new (self : NetworkFallbackController) : result NetworkFallbackController :=
  raise_if negb ((1 <=? window self) && (window self <=? CLIENT_WINDOW_SECONDS))
    as NetworkError msg "client window must be within 1..60 seconds" ;;
  raise_if negb ((1 <=? poll self) && (poll self <=? window self))
    as NetworkError msg "poll interval must be bounded by the client window" ;;
  let! _ := short_device_id sha256_hexdigest (device_id self) in
  Ok self.

Definition monotonic : Net E T T := fun w =>
  let '(t, e) := env_monotonic (n_env w) in (Ok t, mkNetWorld e (n_log w) (selected w)).

Definition sleeper (seconds : T) : Net E T unit := fun w =>
  (Ok tt, mkNetWorld (env_sleep (n_env w) seconds) (n_log w ++ [Slept seconds]) (selected w)).

Definition runner_run (argv : list str) (timeout_seconds : T) : Net E T CommandResult := fun w =>
  let '(answer, e) := env_run (n_env w) argv timeout_seconds in
  (answer, mkNetWorld e (n_log w ++ [Ran argv timeout_seconds answer]) (selected w)).

Definition read_text (path : str) : Net E T (option str) := fun w =>
  let answer := env_read_text (n_env w) path in
  (answer, mkNetWorld (n_env w) (n_log w ++ [Looked path answer]) (selected w)).

Definition private_file_is_safe (path : str) : Net E T bool := fun w =>
  (env_private_file_is_safe (n_env w) path, w).

Definition boot_credentials_path_is_safe : Net E T bool := fun w =>
  (env_boot_credentials_path_is_safe (n_env w), w).

Definition atomic_write (path content : str) (mode : Z) : Net E T unit := fun w =>
  let '(answer, e) := env_atomic_write (n_env w) path content mode in
  (answer, mkNetWorld e (n_log w ++ [Wrote path content mode answer]) (selected w)).

Definition token_bytes (n : nat) : Net E T bytes := fun w =>
  let '(b, e) := env_token_bytes (n_env w) n in (Ok b, mkNetWorld e (n_log w) (selected w)).

Definition uuid4 : Net E T UUID := fun w =>
  let '(i, e) := env_uuid4 (n_env w) in (Ok i, mkNetWorld e (n_log w) (selected w)).

Definition set_selected (r : option NetworkResult) : Net E T unit := fun w =>
  (Ok tt, mkNetWorld (n_env w) (n_log w) r).

Definition get_selected : Net E T (option NetworkResult) := fun w => (Ok (selected w), w).

(** ** Commands *)

Definition run_before (argv : list str) (deadline : T) : Net E T (option CommandResult) :=
  t <- monotonic ;;
  let remaining := sec_sub deadline t in
  if sec_leb remaining (sec_of_int 0) then nret None
  else
    answer <- runner_run argv (sec_min (sec_of_int COMMAND_TIMEOUT_SECONDS) remaining) ;;
    nret (Some answer).

Definition succeeded (answer : option CommandResult) : bool :=
  match answer with Some a => returncode a =? 0 | None => false end.

Definition output (answer : option CommandResult) : str :=
  match answer with Some a => stdout a | None => [] end.

Definition device_status : list str := [NMCLI; u "--terse"; u "--fields"; u "DEVICE,TYPE"; u "device"; u "status"].
Definition device_value (field interface : str) : list str :=
  [NMCLI; u "--get-values"; field; u "device"; u "show"; interface].
Definition connection_mode (uuid : str) : list str :=
  [NMCLI; u "--get-values"; u "802-11-wireless.mode"; u "connection"; u "show"; u "uuid"; uuid].
Definition route_show (interface : str) : list str := [IP; u "-4"; u "route"; u "show"; u "dev"; interface].
Definition connection_down (uuid : str) : list str := [NMCLI; u "connection"; u "down"; u "uuid"; uuid].
Definition connection_load : list str := [NMCLI; u "connection"; u "load"; NETWORK_MANAGER_PROFILE].
Definition connection_up (uuid interface : str) : list str :=
  [NMCLI; u "connection"; u "up"; u "uuid"; uuid; u "ifname"; interface].
Definition connection_show_active : list str :=
  [NMCLI; u "--terse"; u "--fields"; u "UUID,DEVICE"; u "connection"; u "show"; u "--active"].
Definition address_show (interface : str) : list str :=
  [IP; u "-4"; u "-o"; u "address"; u "show"; u "dev"; interface].

(** The Wi-Fi interfaces a device listing names. *)
Definition wifi_interfaces (text : str) : list str :=
  flat_map (fun line =>
    match split_on ":" line with
    | [name; kind] => if bool_decide (kind = u "wifi") && safe_interface name then [name] else []
    | _ => []
    end) (splitlines text).

Definition find_one_wifi_interface (deadline : T) : Net E T (option str * bool) :=
  answer <- run_before device_status deadline ;;
  if negb (succeeded answer) then nret (None, true)
  else
    match wifi_interfaces (output answer) with
    | [interface] => nret (Some interface, false)
    | _ => nret (None, false)
    end.

Definition strip (s : str) : str := strip_by is_space s.

(** A route that leads somewhere. *)
Definition usable_route (line : str) : bool :=
  negb (bool_decide (strip line = [])) && negb (startswith (u "unreachable") (lstrip_by is_space line)).

Definition client_is_usable (interface : str) (deadline : T) : Net E T bool :=
  state <- run_before (device_value (u "GENERAL.STATE") interface) deadline ;;
  if negb (succeeded state) || negb (startswith (u "100") (strip (output state))) then nret false
  else
    connection <- run_before (device_value (u "GENERAL.CON-UUID") interface) deadline ;;
    match connection with
    | None => nret false
    | Some connection =>
        let active_uuid := strip (stdout connection) in
        match UUID_of_str active_uuid with
        | Err e => if is_ValueError e then nret false else nraise e
        | Ok i =>
            if negb (returncode connection =? 0) || negb (bool_decide (active_uuid = uuid_str i)) then nret false
            else
              mode <- run_before (connection_mode active_uuid) deadline ;;
              if negb (succeeded mode)
                 || negb (bool_decide (strip (output mode) ∈ [[]; u "infrastructure"])) then nret false
              else
                routes <- run_before (route_show interface) deadline ;;
                nret (succeeded routes && existsb usable_route (splitlines (output routes)))
        end
    end.

(** ** Credentials *)

Definition private_mode : Z := 384. (* 0o600 *)
Definition public_mode : Z := 420. (* 0o644 *)

Definition new_credentials (self : NetworkFallbackController) : Net E T CredentialState :=
  short <- nlift (short_device_id sha256_hexdigest (device_id self)) ;;
  token <- token_bytes 32 ;;
  random <- uuid4 ;;
  nlift (CredentialState_new (mkCredentialState (u "Dashcam-" ++ short) (token_urlsafe token) (uuid_str random))).

Definition credentials (self : NetworkFallbackController) : Net E T CredentialState :=
  raw <- read_text PRIVATE_CREDENTIALS ;;
  match raw with
  | Some raw =>
      safe <- private_file_is_safe PRIVATE_CREDENTIALS ;;
      if negb safe then network_error "existing private AP credentials are unsafe"
      else
        ntry
          (parsed <- nlift (loads (hooks := default_hooks) raw) ;;
           '(c, migrate) <- nlift (stored_credentials sha1 parsed) ;;
           if migrate : bool then
             atomic_write PRIVATE_CREDENTIALS (to_private_json c) private_mode ;;; nret c
           else nret c)
          (fun e => if bool_decide (exn_cls e = JSONDecodeError) || bool_decide (exn_cls e = TypeError)
                    then network_error "private AP credentials are malformed" else nraise e)
  | None =>
      c <- new_credentials self ;;
      atomic_write PRIVATE_CREDENTIALS (to_private_json c) private_mode ;;;
      nret c
  end.

(** [secrets.compare_digest] of two texts. *)
Definition compare_digest (a b : str) : result bool :=
  raise_if negb (isascii a && isascii b)
    as TypeError msg "comparing strings with non-ASCII characters is not supported" ;;
  Ok (bool_decide (a = b)).

Definition persisted_ap_identity (self : NetworkFallbackController) : Net E T (CredentialState * str) :=
  c <- credentials self ;;
  profile <- read_text NETWORK_MANAGER_PROFILE ;;
  match profile with
  | None => network_error "persisted AP profile is absent or unsafe"
  | Some profile =>
      safe <- private_file_is_safe NETWORK_MANAGER_PROFILE ;;
      if negb safe then network_error "persisted AP profile is absent or unsafe"
      else
        match map (removeprefix (u "interface-name=")) (interface_lines profile) with
        | [interface] =>
            expected <- nlift (profile_for_interface c interface) ;;
            same <- nlift (compare_digest profile expected) ;;
            if same : bool then nret (c, interface)
            else network_error "persisted AP profile does not match private credentials"
        | _ => network_error "persisted AP profile interface is ambiguous"
        end
  end.

(** ** The access point *)

(** An address line of the interface with the access point's address. *)
Definition has_ap_address (interface line : str) : bool :=
  match words line with
  | _ :: name :: family :: address :: _ =>
      bool_decide (name = interface) && bool_decide (family = u "inet") && bool_decide (address = AP_ADDRESS)
  | _ => false
  end.

Definition active_binding (c : CredentialState) (interface : str) : str := profile_uuid c ++ u ":" ++ interface.

Definition ap_is_exactly_active (c : CredentialState) (interface : str) (deadline : T) : Net E T bool :=
  active <- run_before connection_show_active deadline ;;
  if negb (succeeded active) then nret false
  else
    let exact_binding := active_binding c interface in
    if negb (bool_decide (List.filter (fun line => bool_decide (line = exact_binding)) (splitlines (output active))
                          = [exact_binding])) then nret false
    else
      addresses <- run_before (address_show interface) deadline ;;
      if negb (succeeded addresses) then nret false
      else nret (existsb (has_ap_address interface) (splitlines (output addresses))).

Definition boot_body (c : CredentialState) : str :=
  u "SSID=" ++ ssid c ++ nl ++ u "WPA_PASSPHRASE=" ++ secret c ++ nl ++ u "ADDRESS=192.168.50.1" ++ nl.

Definition network_result (mode : NetworkMode) (reason : NetworkReason) (interface ssid : option str) (published : bool) :
    Net E T NetworkResult :=
  nlift (NetworkResult_new (mkNetworkResult mode reason interface ssid published)).

Definition publish_credentials (c : CredentialState) : Net E T bool :=
  safe <- boot_credentials_path_is_safe ;;
  if safe : bool then
    ntry (atomic_write BOOT_CREDENTIALS (boot_body c) public_mode ;;; nret true)
         (fun e => if is_OSError e then nret false else nraise e)
  else nret false.

Definition activate_ap (self : NetworkFallbackController) (interface : str) : Net E T NetworkResult :=
  let failed := network_result REFUSED AP_ACTIVATION_FAILED (Some interface) None false in
  t <- monotonic ;;
  let deadline := sec_add t (sec_of_int AP_ACTIVATION_WINDOW_SECONDS) in
  prepared <- ntry
    (c <- credentials self ;;
     profile <- nlift (profile_for_interface c interface) ;;
     atomic_write NETWORK_MANAGER_PROFILE profile private_mode ;;;
     nret (Some c))
    (fun e => if is_refusal e then nret None else nraise e) ;;
  match prepared with
  | None => failed
  | Some c =>
      load <- run_before connection_load deadline ;;
      if negb (succeeded load) then failed
      else
        up <- run_before (connection_up (profile_uuid c) interface) deadline ;;
        if negb (succeeded up) then failed
        else
          active <- ap_is_exactly_active c interface deadline ;;
          if negb active then failed
          else
            published <- publish_credentials c ;;
            network_result AP CLIENT_WINDOW_EXPIRED (Some interface) (Some (ssid c)) published
  end.

(** ** Selection *)

(** The polling loop of the client window: whether a client connection came up, or nothing when the fuel
    runs out. *)
Fixpoint poll_client (fuel : nat) (self : NetworkFallbackController) (interface : str) (deadline : T) :
    Net E T (option bool) :=
  match fuel with
  | O => nret None
  | S fuel' =>
      t <- monotonic ;;
      if negb (sec_ltb t deadline) then nret (Some false)
      else
        usable <- client_is_usable interface deadline ;;
        if usable : bool then nret (Some true)
        else
          t' <- monotonic ;;
          let remaining := sec_sub deadline t' in
          if sec_leb remaining (sec_of_int 0) then nret (Some false)
          else
            sleeper (sec_min (sec_of_int (poll self)) remaining) ;;;
            poll_client fuel' self interface deadline
  end.

Definition select_and_keep (m : Net E T NetworkResult) : Net E T (option NetworkResult) :=
  r <- m ;; set_selected (Some r) ;;; nret (Some r).

Definition select_for_boot (fuel : nat) (self : NetworkFallbackController) : Net E T (option NetworkResult) :=
  chosen <- get_selected ;;
  match chosen with
  | Some r =>
      again <- network_result (r_mode r) ALREADY_SELECTED (r_interface r) (r_ssid r) (r_credentials_published r) ;;
      nret (Some again)
  | None =>
      t <- monotonic ;;
      let deadline := sec_add t (sec_of_int (window self)) in
      '(interface, discovery_failed) <- find_one_wifi_interface deadline ;;
      match interface with
      | None =>
          select_and_keep
            (network_result REFUSED (if discovery_failed : bool then COMMAND_FAILED else AMBIGUOUS_WIFI) None None false)
      | Some interface =>
          connected <- poll_client fuel self interface deadline ;;
          match connected with
          | None => nret None
          | Some true => select_and_keep (network_result CLIENT CLIENT_READY (Some interface) None false)
          | Some false => select_and_keep (activate_ap self interface)
          end
      end
  end.

Definition retry_client (fuel : nat) (self : NetworkFallbackController) : Net E T (option NetworkResult) :=
  identity <- ntry (i <- persisted_ap_identity self ;; nret (Some i))
                   (fun e => if is_refusal e then nret None else nraise e) ;;
  match identity with
  | None => r <- network_result REFUSED COMMAND_FAILED None None false ;; nret (Some r)
  | Some (c, interface) =>
      t <- monotonic ;;
      let deadline := sec_add t (sec_of_int AP_ACTIVATION_WINDOW_SECONDS) in
      down <- run_before (connection_down (profile_uuid c)) deadline ;;
      if negb (succeeded down) then
        r <- network_result AP COMMAND_FAILED (Some interface) (Some (ssid c)) false ;; nret (Some r)
      else
        set_selected None ;;;
        select_for_boot fuel self
  end.

(** [_main]: the exit status, with the controller of the machine's identity. *)
Definition main (fuel : nat) (retry : bool) : Net E T (option Z) :=
  machine <- read_text (u "/etc/machine-id") ;;
  match machine with
  | None => nret (Some 2)
  | Some machine =>
      self <- nlift (NetworkFallbackController_new
                       (mkController (strip machine) CLIENT_WINDOW_SECONDS POLL_SECONDS)) ;;
      set_selected None ;;;
      result <- (if retry then retry_client fuel self else select_for_boot fuel self) ;;
      match result with
      | None => nret None
      | Some r => nret (Some (if negb (bool_decide (r_mode r = REFUSED)) then 0 else 1))
      end
  end.

End Controller.
