(* ===== verification/NetworkProperties.v ===== *)
(** * What the network controller does and does not do

    A small program logic for the controller's calls: what they log, and what they return. From it, the
    closed list of the controller's interactions, and the evidence behind each selected mode. *)

From Stdlib Require Import Ascii String ZArith Lia Strings.Byte.
From stdpp Require Import base list sets strings.
From S2P Require Import Prelude PyStr PyFloat Uuid Models Json JsonProperties NetworkProfile NetworkProfileProperties NetworkFallback.

(** ** Calls and what they log *)

Section Logic.
Context {E T : Type}.

(** Whatever it returns, [m] logs only events of [Q], and a value it returns satisfies [P]. *)
Definition logs {A} (Q : event T -> Prop) (m : Net E T A) (P : A -> Prop) : Prop :=
  forall w r w', m w = (r, w') ->
    (exists l, n_log w' = n_log w ++ l /\ Forall Q l) /\ (forall a, r = Ok a -> P a).

Lemma logs_silent {A} Q (m : Net E T A) (P : A -> Prop) :
  (forall w, n_log (snd (m w)) = n_log w) -> (forall w a w', m w = (Ok a, w') -> P a) -> logs Q m P.
Proof.
  intros Hs Hp w r w' Hm. split; [|intros a ->; by eapply Hp].
  exists []. specialize (Hs w). rewrite Hm in Hs. by rewrite app_nil_r.
Qed.

Lemma logs_ret {A} Q (a : A) (P : A -> Prop) : P a -> logs Q (nret a : Net E T A) P.
Proof. intros Ha. apply logs_silent; [done|]. by intros ? ? ? [= <- <-]. Qed.

Lemma logs_lift {A} Q (r : result A) (P : A -> Prop) :
  (forall a, r = Ok a -> P a) -> logs Q (nlift r : Net E T A) P.
Proof. intros Hr. apply logs_silent; [done|]. intros ? a ? [= Ha _]. by apply Hr. Qed.

Lemma logs_raise {A} Q e (P : A -> Prop) : logs Q (nraise e : Net E T A) P.
Proof. by apply logs_silent. Qed.

Lemma logs_bind {A B} Q (m : Net E T A) (k : A -> Net E T B) (R : A -> Prop) (P : B -> Prop) :
  logs Q m R -> (forall a, R a -> logs Q (k a) P) -> logs Q (nbind m k) P.
Proof.
  intros Hm Hk w r w'. unfold nbind. destruct (m w) as [[a|e] w1] eqn:E1;
    apply Hm in E1 as [(l1 & Hl1 & Hq1) Ha]; [|intros [= <- <-]; by split; [exists l1|]].
  intros E2%(Hk a (Ha a eq_refl)). destruct E2 as [(l2 & Hl2 & Hq2) Hb]. split; [|done].
  exists (l1 ++ l2). split; [by rewrite Hl2, Hl1, app_assoc|]. by apply Forall_app.
Qed.

Lemma logs_try {A} Q (m : Net E T A) handler (P : A -> Prop) :
  logs Q m P -> (forall e, logs Q (handler e) P) -> logs Q (ntry m handler) P.
Proof.
  intros Hm Hh w r w'. unfold ntry. destruct (m w) as [[a|e] w1] eqn:E1;
    apply Hm in E1 as [(l1 & Hl1 & Hq1) Ha]; [by intros [= <- <-]; split; [exists l1|]|].
  intros E2%Hh. destruct E2 as [(l2 & Hl2 & Hq2) Hb]. split; [|done].
  exists (l1 ++ l2). split; [by rewrite Hl2, Hl1, app_assoc|]. by apply Forall_app.
Qed.

Lemma logs_weaken {A} Q (m : Net E T A) (P R : A -> Prop) : logs Q m R -> (forall a, R a -> P a) -> logs Q m P.
Proof. intros Hm Hp w r w' [Hl Ha]%Hm. split; [done|]. eauto. Qed.

(** Inversion of a call that returned. *)
Lemma nbind_ok {A B} (m : Net E T A) (k : A -> Net E T B) w b w' :
  nbind m k w = (Ok b, w') -> exists a w1, m w = (Ok a, w1) /\ k a w1 = (Ok b, w').
Proof. unfold nbind. destruct (m w) as [[a|e] w1]; [|done]. eauto. Qed.

Lemma nlift_ok {A} (r : result A) w a w' : (nlift r : Net E T A) w = (Ok a, w') -> r = Ok a /\ w' = w.
Proof. by intros [= -> ->]. Qed.

Lemma nret_ok {A} (b : A) w a w' : (nret b : Net E T A) w = (Ok a, w') -> b = a /\ w' = w.
Proof. by intros [= -> ->]. Qed.

Lemma nbind_run {A B} (m : Net E T A) (k : A -> Net E T B) w a w1 :
  m w = (Ok a, w1) -> nbind m k w = k a w1.
Proof. unfold nbind. by intros ->. Qed.
End Logic.

Ltac net_inv :=
  repeat match goal with
  | H : nbind _ _ _ = (Ok _, _) |- _ =>
      let a := fresh "a" in let w := fresh "w" in let H' := fresh "Hn" in
      apply nbind_ok in H as (a & w & H' & H)
  | H : nret _ _ = (Ok _, _) |- _ => apply nret_ok in H as [? ?]; simplify_eq
  | H : nlift _ _ = (Ok _, _) |- _ => apply nlift_ok in H as [? ?]; simplify_eq
  | H : nraise _ _ = (Ok _, _) |- _ => discriminate H
  | H : network_error _ _ = (Ok _, _) |- _ => discriminate H
  | H : (if ?b then _ else _) _ = (Ok _, _) |- _ => let Hb := fresh "Hb" in destruct b eqn:Hb
  end.

(** ** The closed list of interactions *)

Section Closed.
Context {E T : Type} `{Seconds T} `{MonotonicClock E T} `{CommandRunner E T} `{FileStore E} `{RandomSource E}.
Variables (sha256_hexdigest : bytes -> str) (sha1 : bytes -> bytes).

(** The commands the policy may run: a safe interface and a canonical UUID are their only variable parts. *)
Inductive closed_command : list str -> Prop :=
  | closed_status : closed_command device_status
  | closed_value field i : field ∈ [u "GENERAL.STATE"; u "GENERAL.CON-UUID"] -> safe_interface i = true ->
      closed_command (device_value field i)
  | closed_mode j : closed_command (connection_mode (uuid_str j))
  | closed_route i : safe_interface i = true -> closed_command (route_show i)
  | closed_down j : closed_command (connection_down (uuid_str j))
  | closed_load : closed_command connection_load
  | closed_up j i : safe_interface i = true -> closed_command (connection_up (uuid_str j) i)
  | closed_active : closed_command connection_show_active
  | closed_address i : safe_interface i = true -> closed_command (address_show i).

(** A duration the policy asks for: positive, and cut at a number of seconds. *)
Definition cut_at (n : Z) (t : T) : Prop :=
  exists remaining, sec_leb remaining (sec_of_int 0) = false /\ t = sec_min (sec_of_int n) remaining.

(** The one place, mode and content the policy writes each of its files with. *)
Definition closed_write (path content : str) (mode : Z) : Prop :=
  exists c, credentials_ok c /\
    ((path = PRIVATE_CREDENTIALS /\ mode = private_mode /\ content = to_private_json c) \/
     (path = NETWORK_MANAGER_PROFILE /\ mode = private_mode /\
        exists i, safe_interface i = true /\ content = profile_with c i) \/
     (path = BOOT_CREDENTIALS /\ mode = public_mode /\ content = boot_body c)).

Definition closed_event (self : NetworkFallbackController) (e : event T) : Prop :=
  match e with
  | Ran argv t _ => closed_command argv /\ cut_at COMMAND_TIMEOUT_SECONDS t
  | Slept t => cut_at (poll self) t
  | Looked path _ => path ∈ [PRIVATE_CREDENTIALS; NETWORK_MANAGER_PROFILE]
  | Wrote path content mode _ => closed_write path content mode
  end.

Abbreviation closed self := (logs (closed_event self)).

Lemma logs_event {A} Q (m : Net E T A) (e : result A -> event T) :
  (forall w, n_log (snd (m w)) = n_log w ++ [e (fst (m w))]) -> (forall r, Q (e r)) -> logs Q m (fun _ => True).
Proof.
  intros Hm Hq w r w' Hw. split; [|done]. exists [e r]. specialize (Hm w). rewrite Hw in Hm.
  split; [done|]. by apply Forall_singleton.
Qed.

Lemma closed_monotonic Q : logs Q (monotonic : Net E T T) (fun _ => True).
Proof. apply logs_silent; [|done]. intros w. unfold monotonic. by destruct (env_monotonic _). Qed.

(** Logs that allow every command of the list. *)
Definition allows_commands (Q : event T -> Prop) : Prop :=
  forall argv t answer, closed_command argv -> cut_at COMMAND_TIMEOUT_SECONDS t -> Q (Ran argv t answer).

Lemma closed_event_commands self : allows_commands (closed_event self).
Proof. by split. Qed.

Lemma closed_run_before Q argv deadline :
  allows_commands Q -> closed_command argv -> logs Q (run_before argv deadline : Net E T _) (fun _ => True).
Proof.
  intros HQ Hc. eapply logs_bind; [apply closed_monotonic|]. intros t _. cbv zeta.
  destruct (sec_leb _ _) eqn:El; [by apply logs_ret|].
  eapply logs_bind; [|intros; by apply logs_ret].
  apply (logs_event _ _ (fun r => Ran argv (sec_min (sec_of_int COMMAND_TIMEOUT_SECONDS) (sec_sub deadline t)) r)).
  - intros w. unfold runner_run. by destruct (env_run _ _ _).
  - intros r. apply HQ; [done|]. by exists (sec_sub deadline t).
Qed.

(** Logs that also allow the reads and writes of its files. *)
Definition allows_files (Q : event T -> Prop) : Prop :=
  (forall path answer, path ∈ [PRIVATE_CREDENTIALS; NETWORK_MANAGER_PROFILE] -> Q (Looked path answer)) /\
  (forall path content mode answer, closed_write path content mode -> Q (Wrote path content mode answer)).

Lemma closed_event_files self : allows_files (closed_event self).
Proof. by split. Qed.

Lemma closed_read Q path :
  allows_files Q -> path ∈ [PRIVATE_CREDENTIALS; NETWORK_MANAGER_PROFILE] -> logs Q (read_text path : Net E T _) (fun _ => True).
Proof. intros [HQ _] Hp. apply (logs_event _ _ (fun r => Looked path r)); [done|]. intros answer. by apply HQ. Qed.

Lemma closed_atomic_write Q path content mode :
  allows_files Q -> closed_write path content mode -> logs Q (atomic_write path content mode : Net E T _) (fun _ => True).
Proof.
  intros [_ HQ] Hp. apply (logs_event _ _ (fun r => Wrote path content mode r)); [|intros answer; by apply HQ].
  intros w. unfold atomic_write. by destruct (env_atomic_write _ _ _ _).
Qed.

Lemma closed_result Q mode reason i s p :
  logs Q (network_result mode reason i s p : Net E T _) (fun _ => True).
Proof. by apply logs_lift. Qed.

Lemma wifi_interfaces_safe text : Forall (fun i => safe_interface i = true) (wifi_interfaces text).
Proof.
  unfold wifi_interfaces. apply Forall_flat_map. apply Forall_forall. intros line _.
  destruct (split_on ":" line) as [|? [|? []]]; try done. split_if; [|done]. bool_prop. by apply Forall_singleton.
Qed.

Lemma closed_find Q deadline :
  allows_commands Q ->
  logs Q (find_one_wifi_interface deadline : Net E T _) (fun f => forall i, fst f = Some i -> safe_interface i = true).
Proof.
  intros HQ. eapply logs_bind; [apply closed_run_before, closed_status; done|]. intros answer _.
  split_if; [by apply logs_ret|]. pose proof (wifi_interfaces_safe (output answer)) as Hs.
  destruct (wifi_interfaces _) as [|i []]; apply logs_ret; try done. intros ? [= <-]. by apply Forall_one in Hs.
Qed.

(** Steps of a call whose commands are in the list. *)
Ltac closed_step :=
  match goal with
  | |- logs _ (nbind (run_before _ _) _) _ => eapply logs_bind; [apply closed_run_before; [first [done | apply closed_event_commands]|]|intros ? _]
  | |- logs _ (nbind monotonic _) _ => eapply logs_bind; [apply closed_monotonic|intros ? _]
  | |- logs _ (nbind (read_text _) _) _ => eapply logs_bind; [apply closed_read; [done|set_solver]|intros ? _]
  | |- logs _ (nbind (private_file_is_safe _) _) _ =>
      eapply (logs_bind _ _ _ (fun _ => True)); [by apply logs_silent|intros ? _]
  | |- logs _ (nret _) _ => by apply logs_ret
  | |- logs _ (nraise _) _ => apply logs_raise
  | |- logs _ (network_error _) _ => apply logs_raise
  | |- logs _ (network_result _ _ _ _ _) _ => apply closed_result
  | |- logs _ (if ?b then _ else _) _ => let Hb := fresh "Hb" in destruct b eqn:Hb
  end.

Lemma closed_client Q i deadline :
  allows_commands Q -> safe_interface i = true -> logs Q (client_is_usable i deadline : Net E T _) (fun _ => True).
Proof.
  intros HQ Hi. unfold client_is_usable. repeat closed_step.
  - apply closed_value; [set_solver|done].
  - apply closed_value; [set_solver|done].
  - match goal with |- logs _ (match ?o with _ => _ end) _ => destruct o as [connection|] end; [|closed_step].
    cbv zeta. destruct (UUID_of_str _) as [j|e]; repeat closed_step.
    + bool_prop. match goal with E : strip _ = _ |- _ => rewrite E end. apply closed_mode.
    + by apply closed_route.
Qed.

Lemma closed_poll Q fuel self i deadline :
  allows_commands Q -> (forall t, cut_at (poll self) t -> Q (Slept t)) -> safe_interface i = true ->
  logs Q (poll_client fuel self i deadline : Net E T _) (fun _ => True).
Proof.
  intros HQ Hsleep Hi. induction fuel as [|fuel IH]; [by apply logs_ret|]. cbn [poll_client]. repeat closed_step.
  eapply logs_bind; [by apply closed_client|]. intros usable _. repeat closed_step.
  eapply logs_bind; [|intros; exact IH].
  match goal with |- logs _ (sleeper ?t) _ => apply (logs_event _ _ (fun _ => Slept t)); [done|] end.
  intros _. apply Hsleep. eexists. eauto.
Qed.

(** ** Credentials *)

Lemma closed_create Q (controller : NetworkFallbackController) :
  logs Q (new_credentials sha256_hexdigest controller : Net E T _) credentials_ok.
Proof.
  eapply logs_bind; [by apply (logs_lift _ _ (fun _ => True))|]. intros short _.
  eapply (logs_bind _ _ _ (fun _ => True)).
  { apply logs_silent; [|done]. intros w. unfold token_bytes. by destruct (env_token_bytes _ _). }
  intros token _. eapply (logs_bind _ _ _ (fun _ => True)).
  { apply logs_silent; [|done]. intros w. unfold uuid4. by destruct (env_uuid4 _). }
  intros random _. apply logs_lift. intros c Hc. by apply CredentialState_new_ok in Hc as [-> ?].
Qed.

Lemma closed_credentials Q (controller : NetworkFallbackController) :
  allows_files Q -> logs Q (credentials sha256_hexdigest sha1 controller : Net E T _) credentials_ok.
Proof.
  intros HQ. unfold credentials. closed_step. match goal with |- logs _ (match ?o with _ => _ end) _ => destruct o as [raw|] end.
  - closed_step. closed_step; [closed_step|]. apply logs_try; [|intros e; repeat closed_step].
    eapply logs_bind; [by apply (logs_lift _ _ (fun _ => True))|]. intros parsed _.
    eapply (logs_bind _ _ _ (fun cm => credentials_ok (fst cm))).
    { apply logs_lift. intros [c m] Hc. by eapply stored_credentials_ok. }
    intros [c m] Hc. cbn [fst] in Hc. closed_step; [|by apply logs_ret].
    eapply logs_bind; [|intros; by apply logs_ret]. apply closed_atomic_write; [done|]. exists c. split; [done|]. by left.
  - eapply logs_bind; [apply closed_create|]. intros c Hc.
    eapply logs_bind; [|intros; by apply logs_ret]. apply closed_atomic_write; [done|]. exists c. split; [done|]. by left.
Qed.

Lemma credentials_uuid c : credentials_ok c -> exists j, profile_uuid c = uuid_str j.
Proof. intros (j & _ & Hj)%credentials_facts_of%cf_uuid. by exists j. Qed.

Lemma closed_identity Q (controller : NetworkFallbackController) :
  allows_files Q -> logs Q (persisted_ap_identity sha256_hexdigest sha1 controller : Net E T _)
    (fun '(c, i) => credentials_ok c /\ safe_interface i = true).
Proof.
  intros HQ. eapply logs_bind; [by apply closed_credentials|]. intros c Hc. closed_step.
  match goal with |- logs _ (match ?o with _ => _ end) _ => destruct o as [profile|] end; [|closed_step].
  closed_step. closed_step; [closed_step|]. destruct (map _ _) as [|i []]; try closed_step.
  eapply (logs_bind _ _ _ (fun _ => safe_interface i = true)).
  { apply logs_lift. intros p Hp. by eapply profile_for_interface_inv. }
  intros expected Hi. eapply logs_bind; [by apply (logs_lift _ _ (fun _ => True))|]. intros same _. repeat closed_step.
Qed.

Lemma closed_publish Q c : allows_files Q -> credentials_ok c -> logs Q (publish_credentials c : Net E T _) (fun _ => True).
Proof.
  intros HQ Hc. eapply (logs_bind _ _ _ (fun _ => True)); [by apply logs_silent|]. intros safe _. closed_step; [|closed_step].
  apply logs_try; [|intros e; repeat closed_step]. eapply logs_bind; [|intros; by apply logs_ret].
  apply closed_atomic_write; [done|]. exists c. split; [done|]. by right; right.
Qed.

Lemma closed_activate Q (controller : NetworkFallbackController) i :
  allows_commands Q -> allows_files Q -> safe_interface i = true ->
  logs Q (activate_ap sha256_hexdigest sha1 controller i : Net E T _) (fun _ => True).
Proof.
  intros HC HQ Hi. unfold activate_ap. cbv zeta. closed_step.
  eapply (logs_bind _ _ _ (fun o => forall c, o = Some c -> credentials_ok c)).
  { apply logs_try; [|intros e; repeat closed_step]. eapply logs_bind; [by apply closed_credentials|]. intros c Hc.
    eapply (logs_bind _ _ _ (fun p => p = profile_with c i)).
    { apply logs_lift. intros p. rewrite profile_for_interface_ok by done. by intros [= <-]. }
    intros p ->. eapply logs_bind; [|intros; apply logs_ret; by intros ? [= <-]].
    apply closed_atomic_write; [done|]. exists c. split; [done|]. right; left. eauto. }
  intros [c|] Hc; [|closed_step]. specialize (Hc c eq_refl). destruct (credentials_uuid c Hc) as [j Hj]. rewrite Hj.
  repeat closed_step; [apply closed_load|by apply closed_up|].
  eapply (logs_bind _ _ _ (fun _ => True)).
  { unfold ap_is_exactly_active. repeat closed_step; [apply closed_active|by apply closed_address]. }
  intros active _. closed_step; [closed_step|]. eapply logs_bind; [by apply closed_publish|]. intros. closed_step.
Qed.

Lemma closed_keep Q (m : Net E T NetworkResult) :
  logs Q m (fun _ => True) -> logs Q (select_and_keep m) (fun _ => True).
Proof.
  intros Hm. eapply logs_bind; [exact Hm|]. intros r _.
  eapply (logs_bind _ _ _ (fun _ => True)); [by apply logs_silent|]. intros. by apply logs_ret.
Qed.

Lemma closed_select fuel self :
  closed self (select_for_boot sha256_hexdigest sha1 fuel self : Net E T _) (fun _ => True).
Proof.
  eapply (logs_bind _ _ _ (fun _ => True)); [by apply logs_silent|]. intros [r|] _.
  { eapply logs_bind; [apply closed_result|]. intros. by apply logs_ret. }
  closed_step. cbv zeta. eapply logs_bind; [apply closed_find, closed_event_commands|]. intros [[i|] failed] Hi; cbn [fst] in Hi.
  - specialize (Hi i eq_refl). eapply logs_bind; [apply closed_poll; [apply closed_event_commands|done..]|].
    intros [[]|] _; [apply closed_keep, closed_result|apply closed_keep, closed_activate; [apply closed_event_commands|apply closed_event_files|done]|by apply logs_ret].
  - apply closed_keep, closed_result.
Qed.

Lemma closed_retry fuel self :
  closed self (retry_client sha256_hexdigest sha1 fuel self : Net E T _) (fun _ => True).
Proof.
  eapply (logs_bind _ _ _ (fun o => forall c i, o = Some (c, i) -> credentials_ok c)).
  { apply logs_try; [|intros e; repeat closed_step].
    eapply logs_bind; [apply closed_identity, closed_event_files|]. intros [c i] [Hc _]. apply logs_ret. by intros ? ? [= <- <-]. }
  intros [[c i]|] Hc.
  - specialize (Hc c i eq_refl). destruct (credentials_uuid c Hc) as [j Hj]. rewrite Hj.
    closed_step. cbv zeta. closed_step; [apply closed_down|]. closed_step.
    + eapply logs_bind; [apply closed_result|]. intros. by apply logs_ret.
    + eapply (logs_bind _ _ _ (fun _ => True)); [by apply logs_silent|]. intros. apply closed_select.
  - eapply logs_bind; [apply closed_result|]. intros. by apply logs_ret.
Qed.

End Closed.
