(* ===== verification/NetworkEvidence.v ===== *)
(** * The evidence behind a selected mode

    What the controller has seen and written when it reports a client connection or an access point,
    whatever the environment answers. *)

From Stdlib Require Import Ascii String ZArith Lia Strings.Byte.
From stdpp Require Import base list sets strings.
From S2P Require Import Prelude PyStr PyFloat Uuid Models Json JsonProperties NetworkProfile NetworkProfileProperties NetworkFallback.
From S2P Require Import NetworkProperties.

Section Evidence.
Context {E T : Type} `{Seconds T} `{MonotonicClock E T} `{CommandRunner E T} `{FileStore E} `{RandomSource E}.
Variables (sha256_hexdigest : bytes -> str) (sha1 : bytes -> bytes).

(** The last four commands found a connected, canonical, infrastructure connection with a usable route. *)
Definition client_evidence (i : str) (l : list (event T)) : Prop :=
  exists pre j t1 t2 t3 t4 a1 a2 a3 a4,
    l = pre ++ [Ran (device_value (u "GENERAL.STATE") i) t1 (Ok a1);
                Ran (device_value (u "GENERAL.CON-UUID") i) t2 (Ok a2);
                Ran (connection_mode (uuid_str j)) t3 (Ok a3);
                Ran (route_show i) t4 (Ok a4)] /\
    returncode a1 = 0 /\ startswith (u "100") (strip (stdout a1)) = true /\
    returncode a2 = 0 /\ strip (stdout a2) = uuid_str j /\
    returncode a3 = 0 /\ strip (stdout a3) ∈ [[]; u "infrastructure"] /\
    returncode a4 = 0 /\ exists line, line ∈ splitlines (stdout a4) /\ usable_route line = true.

(** The credentials were durable before they were used: written, or read from the private file. *)
Definition durable_credentials (c : CredentialState) (l : list (event T)) : Prop :=
  Wrote PRIVATE_CREDENTIALS (to_private_json c) private_mode (Ok tt) ∈ l \/
  exists raw v, Looked PRIVATE_CREDENTIALS (Ok (Some raw)) ∈ l /\
    loads (hooks := default_hooks) raw = Ok v /\ stored_credentials sha1 v = Ok (c, false).

(** The events of a successful activation: the profile written, loaded and brought up by its UUID, its
    binding the one active line, its address on the interface, and the hand-off file. *)
Definition access_point_evidence (c : CredentialState) (i : str) (published : bool) (l : list (event T)) : Prop :=
  exists pre fin t1 t2 t3 t4 a1 a2 a3 a4,
    l = pre ++ [Wrote NETWORK_MANAGER_PROFILE (profile_with c i) private_mode (Ok tt);
                Ran connection_load t1 (Ok a1);
                Ran (connection_up (profile_uuid c) i) t2 (Ok a2);
                Ran connection_show_active t3 (Ok a3);
                Ran (address_show i) t4 (Ok a4)] ++ fin /\
    durable_credentials c pre /\
    returncode a1 = 0 /\ returncode a2 = 0 /\ returncode a3 = 0 /\ returncode a4 = 0 /\
    List.filter (fun line => bool_decide (line = active_binding c i)) (splitlines (stdout a3)) = [active_binding c i] /\
    (exists line, line ∈ splitlines (stdout a4) /\ has_ap_address i line = true) /\
    (if published then fin = [Wrote BOOT_CREDENTIALS (boot_body c) public_mode (Ok tt)]
     else fin = [] \/ exists e, is_OSError e = true /\ fin = [Wrote BOOT_CREDENTIALS (boot_body c) public_mode (Err e)]).

(** ** Inversion of the steps *)

Lemma monotonic_log w : n_log (snd ((monotonic : Net E T T) w)) = n_log w.
Proof. unfold monotonic. by destruct (env_monotonic _). Qed.

Lemma monotonic_ok (w w' : NetWorld E T) t : monotonic w = (Ok t, w') -> n_log w' = n_log w.
Proof. intros Hm. pose proof (monotonic_log w) as Hl. by rewrite Hm in Hl. Qed.

Lemma run_before_ok argv deadline (w w' : NetWorld E T) r :
  run_before argv deadline w = (Ok r, w') -> succeeded r = true ->
  exists t a, r = Some a /\ returncode a = 0 /\ n_log w' = n_log w ++ [Ran argv t (Ok a)].
Proof.
  unfold run_before. intros (t & w1 & Ht%monotonic_ok & Hr)%nbind_ok Hs. cbv zeta in Hr.
  destruct (sec_leb _ _); [apply nret_ok in Hr as [<- _]; done|].
  apply nbind_ok in Hr as (a & w2 & Ha & [<- ->]%nret_ok). cbn [succeeded] in Hs. apply Z.eqb_eq in Hs.
  unfold runner_run in Ha. destruct (env_run _ _ _) as [answer e]. injection Ha as -> <-.
  eexists _, a. split_and!; [done..|]. cbn [n_log]. by rewrite Ht.
Qed.

Lemma atomic_write_ok path content mode (w w' : NetWorld E T) :
  atomic_write path content mode w = (Ok tt, w') -> n_log w' = n_log w ++ [Wrote path content mode (Ok tt)].
Proof. unfold atomic_write. destruct (env_atomic_write _ _ _ _). by intros [= -> <-]. Qed.

Lemma read_text_ok path (w w' : NetWorld E T) r :
  read_text path w = (Ok r, w') -> n_log w' = n_log w ++ [Looked path (Ok r)] /\ n_env w' = n_env w.
Proof. unfold read_text. by intros [= -> <-]. Qed.

Lemma private_safe_ok path (w w' : NetWorld E T) r :
  private_file_is_safe path w = (Ok r, w') -> w' = w.
Proof. by intros [= _ <-]. Qed.

Lemma ntry_ok {A} (m : Net E T A) h w a w' :
  ntry m h w = (Ok a, w') -> m w = (Ok a, w') \/ exists e w1, m w = (Err e, w1) /\ h e w1 = (Ok a, w').
Proof. unfold ntry. destruct (m w) as [[b|e] w1]; [intros [= -> ->]; by left|]. right. eauto. Qed.

(** Credentials that are returned are durable. *)
Lemma credentials_durable controller (w w' : NetWorld E T) c :
  credentials sha256_hexdigest sha1 controller w = (Ok c, w') ->
  exists l, n_log w' = n_log w ++ l /\ durable_credentials c l.
Proof.
  intros (raw & w1 & (Hl1 & _)%read_text_ok & Hm)%nbind_ok. destruct raw as [raw|].
  - apply nbind_ok in Hm as (safe & w2 & ->%private_safe_ok & Hm). destruct safe; cbn [negb] in Hm; [|done].
    apply ntry_ok in Hm as [Hm|(e & w3 & _ & Hm)]; [|net_inv].
    apply nbind_ok in Hm as (v & ? & [Hv ->]%nlift_ok & Hm). apply nbind_ok in Hm as ([c' m] & ? & [Hs ->]%nlift_ok & Hm).
    destruct m; net_inv.
    + destruct a. match goal with Hw : atomic_write _ _ _ _ = _ |- _ => apply atomic_write_ok in Hw; rewrite Hw, Hl1 end.
      rewrite <-app_assoc. eexists. split; [done|]. left. set_solver.
    + exists [Looked PRIVATE_CREDENTIALS (Ok (Some raw))]. split; [done|]. right. exists raw, v. split; [set_solver|done].
  - apply nbind_ok in Hm as (c' & w2 & Hc & Hm). net_inv. destruct a.
    match goal with Hw : atomic_write _ _ _ _ = _ |- _ => apply atomic_write_ok in Hw; rewrite Hw end.
    assert (n_log w2 = n_log w1) as ->.
    { unfold new_credentials in Hc. net_inv. unfold token_bytes, uuid4 in *. repeat case_match. by simplify_eq. }
    rewrite Hl1, <-app_assoc. eexists. split; [done|]. left. set_solver.
Qed.

Lemma exists_line f text : existsb f (splitlines text) = true -> exists line, line ∈ splitlines text /\ f line = true.
Proof. intros (line & Hl & Hf)%existsb_exists. exists line. by rewrite list_elem_of_In. Qed.

(** A usable client is seen by the four commands. *)
Lemma client_usable_evidence i deadline (w w' : NetWorld E T) :
  client_is_usable i deadline w = (Ok true, w') ->
  exists l, n_log w' = n_log w ++ l /\ forall pre, client_evidence i (pre ++ l).
Proof.
  intros (state & w1 & Hs & Hm)%nbind_ok. destruct (_ || _) eqn:Hb; [by net_inv|]. bool_prop.
  apply run_before_ok in Hs as (t1 & a1 & -> & R1 & L1); [|done].
  apply nbind_ok in Hm as (conn & w2 & Hs & Hm). destruct conn as [a2|]; [|by net_inv]. cbv zeta in Hm.
  destruct (UUID_of_str _) as [j|e]; [|by net_inv]. destruct (_ || _) eqn:Hb in Hm; [by net_inv|]. bool_prop.
  apply run_before_ok in Hs as (t2 & a2' & [= <-] & R2 & L2); [|by apply Z.eqb_eq].
  apply nbind_ok in Hm as (mode & w3 & Hs & Hm). destruct (_ || _) eqn:Hb in Hm; [by net_inv|]. bool_prop.
  match goal with Hu : strip (stdout a2) = _ |- _ => rename Hu into U2; rewrite U2 in Hs end.
  apply run_before_ok in Hs as (t3 & a3 & -> & R3 & L3); [|done].
  apply nbind_ok in Hm as (routes & w4 & Hs & [Hr ->]%nret_ok). apply andb_true_iff in Hr as [Hr Hx].
  apply run_before_ok in Hs as (t4 & a4 & -> & R4 & L4); [|done].
  rewrite L4, L3, L2, L1, <-!app_assoc. eexists. split; [done|]. intros pre.
  exists pre, j, t1, t2, t3, t4, a1, a2, a3, a4. split_and!; try done. by apply exists_line.
Qed.

Lemma poll_client_evidence fuel controller i deadline (w w' : NetWorld E T) :
  safe_interface i = true -> poll_client fuel controller i deadline w = (Ok (Some true), w') ->
  exists l, n_log w' = n_log w ++ l /\ forall pre, client_evidence i (pre ++ l).
Proof.
  intros Hi. revert w. induction fuel as [|fuel IH]; intros w; [done|]. cbn [poll_client].
  intros (t & w1 & Ht%monotonic_ok & Hm)%nbind_ok. destruct (negb _); [by net_inv|].
  apply nbind_ok in Hm as (usable & w2 & Hu & Hm). destruct usable.
  - apply nret_ok in Hm as [_ ->]. apply client_usable_evidence in Hu as (l & -> & Hl). exists l. by rewrite Ht.
  - apply nbind_ok in Hm as (t' & w3 & Ht'%monotonic_ok & Hm). cbv zeta in Hm. destruct (sec_leb _ _); [by net_inv|].
    apply nbind_ok in Hm as ([] & w4 & Hs & Hm). apply IH in Hm as (l & -> & Hl). injection Hs as <-. cbn [n_log].
    assert (exists l', n_log w2 = n_log w1 ++ l') as [l' E2].
    { destruct (closed_client (fun _ => True) i deadline ltac:(done) Hi _ _ _ Hu) as [(l' & ? & _) _]. by exists l'. }
    rewrite Ht', E2, Ht, <-!app_assoc. eexists. split; [done|]. intros pre. rewrite !app_assoc. apply Hl.
Qed.

(** Publication reports what the hand-off write answered. *)
Lemma publish_log c (w w' : NetWorld E T) published :
  publish_credentials c w = (Ok published, w') ->
  exists fin, n_log w' = n_log w ++ fin /\
    if published then fin = [Wrote BOOT_CREDENTIALS (boot_body c) public_mode (Ok tt)]
    else fin = [] \/ exists e, is_OSError e = true /\ fin = [Wrote BOOT_CREDENTIALS (boot_body c) public_mode (Err e)].
Proof.
  intros (safe & w1 & Hs & Hm)%nbind_ok. injection Hs as _ <-. destruct safe.
  - apply ntry_ok in Hm as [Hm|(e & w2 & Hw & Hm)].
    + net_inv. match goal with Hw : atomic_write _ _ _ _ = (Ok ?a, _) |- _ => destruct a; apply atomic_write_ok in Hw end. eauto.
    + destruct (is_OSError e) eqn:He; net_inv. exists [Wrote BOOT_CREDENTIALS (boot_body c) public_mode (Err e)]. split.
      * unfold nbind, atomic_write in Hw. destruct (env_atomic_write _ _ _ _) as [[[]|e'] env]; by simplify_eq.
      * right. eauto.
  - net_inv. exists []. rewrite app_nil_r. eauto.
Qed.

Lemma ap_active_evidence c i deadline (w w' : NetWorld E T) :
  ap_is_exactly_active c i deadline w = (Ok true, w') ->
  exists t3 t4 a3 a4, n_log w' = n_log w ++ [Ran connection_show_active t3 (Ok a3); Ran (address_show i) t4 (Ok a4)] /\
    returncode a3 = 0 /\ returncode a4 = 0 /\
    List.filter (fun line => bool_decide (line = active_binding c i)) (splitlines (stdout a3)) = [active_binding c i] /\
    exists line, line ∈ splitlines (stdout a4) /\ has_ap_address i line = true.
Proof.
  intros (active & w1 & Hs & Hm)%nbind_ok. destruct (succeeded active) eqn:Hb; [|by net_inv]. cbn [negb] in Hm. cbv zeta in Hm.
  apply run_before_ok in Hs as (t3 & a3 & -> & R3 & L3); [|done]. destruct (negb _) eqn:Hb' in Hm; [by net_inv|]. bool_prop.
  apply nbind_ok in Hm as (addresses & w2 & Hs & Hm). destruct (succeeded addresses) eqn:Hb2; [|by net_inv]. cbn [negb] in Hm.
  apply run_before_ok in Hs as (t4 & a4 & -> & R4 & L4); [|done]. apply nret_ok in Hm as [Hx%exists_line ->].
  exists t3, t4, a3, a4. split_and!; try done. by rewrite L4, L3, <-app_assoc.
Qed.

(** What was prepared before the activation. *)
Definition prepare_ap (controller : NetworkFallbackController) (interface : str) : Net E T (option CredentialState) :=
  ntry
    (c <- credentials sha256_hexdigest sha1 controller ;;
     profile <- nlift (profile_for_interface c interface) ;;
     atomic_write NETWORK_MANAGER_PROFILE profile private_mode ;;;
     nret (Some c))
    (fun e => if is_refusal e then nret None else nraise e).

Lemma prepare_ap_ok controller i (w w' : NetWorld E T) c :
  safe_interface i = true -> prepare_ap controller i w = (Ok (Some c), w') ->
  credentials_ok c /\ exists pre, durable_credentials c pre /\
    n_log w' = n_log w ++ pre ++ [Wrote NETWORK_MANAGER_PROFILE (profile_with c i) private_mode (Ok tt)].
Proof.
  intros Hi [Hm|(e & w1 & _ & Hm)]%ntry_ok; [|by net_inv].
  apply nbind_ok in Hm as (c' & w1 & Hc & Hm). destruct (closed_credentials sha256_hexdigest sha1 (fun _ => True) controller ltac:(done) _ _ _ Hc) as [_ Hok].
  specialize (Hok c' eq_refl). apply credentials_durable in Hc as (pre & L1 & Hd).
  rewrite profile_for_interface_ok in Hm by done. apply nbind_ok in Hm as (p & ? & [[= <-] ->]%nlift_ok & Hm). net_inv.
  match goal with Hw : atomic_write _ _ _ _ = (Ok ?a, _) |- _ => destruct a; apply atomic_write_ok in Hw; rewrite Hw, L1 end.
  split; [done|]. exists pre. by rewrite <-app_assoc.
Qed.

(** The steps of an activation that reports an access point. *)
Lemma activate_steps controller i (w w' : NetWorld E T) r :
  activate_ap sha256_hexdigest sha1 controller i w = (Ok r, w') -> r_mode r = AP ->
  exists c published deadline load up t w1 w2 w3 w4 w5,
    monotonic w = (Ok t, w1) /\ prepare_ap controller i w1 = (Ok (Some c), w2) /\
    run_before connection_load deadline w2 = (Ok load, w3) /\ succeeded load = true /\
    run_before (connection_up (profile_uuid c) i) deadline w3 = (Ok up, w4) /\ succeeded up = true /\
    ap_is_exactly_active c i deadline w4 = (Ok true, w5) /\
    publish_credentials c w5 = (Ok published, w') /\
    r = mkNetworkResult AP CLIENT_WINDOW_EXPIRED (Some i) (Some (ssid c)) published.
Proof.
  intros Hm Hr. assert (forall reason j s p w1, (network_result REFUSED reason j s p : Net E T _) w1 <> (Ok r, w')) as Hno.
  { intros reason j s p w1 [Hn _]%nlift_ok. unfold NetworkResult_new in Hn. inv_ok. done. }
  unfold activate_ap in Hm. cbv zeta in Hm. apply nbind_ok in Hm as (t & w1 & Ht & Hm).
  apply nbind_ok in Hm as ([c|] & w2 & Hp & Hm); [|by apply Hno in Hm].
  apply nbind_ok in Hm as (load & w3 & Hl & Hm). destruct (succeeded load) eqn:Hb; [|by apply Hno in Hm]. cbn [negb] in Hm.
  apply nbind_ok in Hm as (up & w4 & Hu & Hm). destruct (succeeded up) eqn:Hb2; [|by apply Hno in Hm]. cbn [negb] in Hm.
  apply nbind_ok in Hm as (active & w5 & Ha & Hm). destruct active; [|by apply Hno in Hm]. cbn [negb] in Hm.
  apply nbind_ok in Hm as (published & w6 & Hpub & [Hn ->]%nlift_ok). unfold NetworkResult_new in Hn. inv_ok.
  exists c, published. do 9 eexists. split_and!; done.
Qed.

(** An activation that reports an access point. *)
Lemma activate_evidence controller i (w w' : NetWorld E T) r :
  safe_interface i = true -> activate_ap sha256_hexdigest sha1 controller i w = (Ok r, w') -> r_mode r = AP ->
  exists c published l, credentials_ok c /\ n_log w' = n_log w ++ l /\
    r = mkNetworkResult AP CLIENT_WINDOW_EXPIRED (Some i) (Some (ssid c)) published /\
    forall pre, access_point_evidence c i published (pre ++ l).
Proof.
  intros Hi Hm Hr. apply activate_steps in Hm
    as (c & published & deadline & load & up & t & w1 & w2 & w3 & w4 & w5 & Ht%monotonic_ok & Hp & Hl & Rl & Hu & Ru & Ha & Hpub & ->);
    [|done].
  apply prepare_ap_ok in Hp as (Hc & pre & Hd & L2); [|done].
  apply run_before_ok in Hl as (t1 & a1 & _ & R1 & L3); [|done]. apply run_before_ok in Hu as (t2 & a2 & _ & R2 & L4); [|done].
  apply ap_active_evidence in Ha as (t3 & t4 & a3 & a4 & L5 & R3 & R4 & Hbind & Haddr).
  apply publish_log in Hpub as (fin & L6 & Hfin). exists c, published. eexists. split; [done|]. split; [|split; [done|]].
  - rewrite L6, L5, L4, L3, L2, Ht, <-!app_assoc. done.
  - intros l0. exists (l0 ++ pre), fin, t1, t2, t3, t4, a1, a2, a3, a4. split_and!; try done.
    + by rewrite <-!app_assoc.
    + destruct Hd as [Hd|(raw & v & Hd & Hv)]; [left; set_solver|]. right. exists raw, v. split; [set_solver|done].
Qed.

End Evidence.
