(* ===== verification/NetworkSelection.v ===== *)
(** * The selected mode

    The two safety properties of the network fallback: its interactions are a closed list, and a mode it
    reports is backed by what it saw and wrote, and kept. *)

From Stdlib Require Import Ascii String ZArith Lia Strings.Byte.
From stdpp Require Import base list sets strings.
From S2P Require Import Prelude PyStr PyFloat Uuid Models Json JsonProperties NetworkProfile NetworkProfileProperties NetworkFallback.
From S2P Require Import NetworkProperties NetworkEvidence.

Section Selection.
Context {E T : Type} `{Seconds T} `{MonotonicClock E T} `{CommandRunner E T} `{FileStore E} `{RandomSource E}.
Variables (sha256_hexdigest : bytes -> str) (sha1 : bytes -> bytes).

(** The operations of a controller: the boot service's and the operator's. *)
Inductive net_call := SelectForBoot (fuel : nat) | RetryClient (fuel : nat).

Definition net_step (self : NetworkFallbackController) (w : NetWorld E T) (call : net_call) : NetWorld E T :=
  match call with
  | SelectForBoot fuel => snd (select_for_boot sha256_hexdigest sha1 fuel self w)
  | RetryClient fuel => snd (retry_client sha256_hexdigest sha1 fuel self w)
  end.

(** C33: the network policy stays inside a closed list of interactions: through any calls, whatever they
    return and whatever the commands, the files and the clock answer, every command is one of nine, with
    a safe interface name and a canonical UUID as its only variable parts and a positive timeout of at
    most five seconds; every sleep is positive and at most the poll interval; only the two private files
    are read; and the passphrase is only ever written to the two private files, mode 0600, and to the
    boot hand-off file. *)
Theorem network_actions_closed self calls w :
  exists l, n_log (foldl (net_step self) w calls) = n_log w ++ l /\ Forall (closed_event self) l.
Proof.
  revert w. induction calls as [|call calls IH]; intros w; cbn [foldl]; [exists []; by rewrite app_nil_r|].
  assert (exists l, n_log (net_step self w call) = n_log w ++ l /\ Forall (closed_event self) l) as (l1 & E1 & H1').
  { destruct call as [fuel|fuel]; cbn [net_step].
    - destruct (select_for_boot _ _ fuel self w) as [r w'] eqn:Hm. by apply closed_select in Hm as [? _].
    - destruct (retry_client _ _ fuel self w) as [r w'] eqn:Hm. by apply closed_retry in Hm as [? _]. }
  destruct (IH (net_step self w call)) as (l2 & E2 & H2'). exists (l1 ++ l2).
  split; [by rewrite E2, E1, app_assoc|by apply Forall_app].
Qed.

(** A command or a pause: nothing read or written. *)
Definition is_probe (e : event T) : Prop :=
  match e with Ran _ _ _ | Slept _ => True | _ => False end.

Lemma select_and_keep_ok (m : Net E T NetworkResult) w r w' :
  select_and_keep m w = (Ok (Some r), w') ->
  exists w1, m w = (Ok r, w1) /\ w' = mkNetWorld (n_env w1) (n_log w1) (Some r).
Proof.
  intros (r' & w1 & Hm & Hk)%nbind_ok. apply nbind_ok in Hk as ([] & w2 & [= <-] & [[= <-] ->]%nret_ok). by exists w1.
Qed.

(** A selected result is reported again and nothing is done. *)
Definition reported_again (r : NetworkResult) : NetworkResult :=
  mkNetworkResult (r_mode r) ALREADY_SELECTED (r_interface r) (r_ssid r) (r_credentials_published r).

Lemma select_again fuel self (w : NetWorld E T) r :
  selected w = Some r -> NetworkResult_new r = Ok r ->
  select_for_boot sha256_hexdigest sha1 fuel self w = (Ok (Some (reported_again r)), w).
Proof.
  intros Hs Hr. unfold select_for_boot, get_selected, nbind. rewrite Hs. unfold network_result, nlift, NetworkResult_new in *.
  cbn [r_mode r_ssid]. destruct (_ && _); [done|]. by destruct (_ && _).
Qed.

Lemma find_one_log deadline (w w' : NetWorld E T) f :
  find_one_wifi_interface deadline w = (Ok f, w') ->
  (exists l, n_log w' = n_log w ++ l /\ Forall is_probe l) /\ forall i, fst f = Some i -> safe_interface i = true.
Proof.
  intros Hf. apply (closed_find is_probe deadline) in Hf as [Hl Hi]; [|done]. split; [done|]. by apply Hi.
Qed.

Lemma network_result_ok mode reason i s p (w w' : NetWorld E T) r :
  network_result mode reason i s p w = (Ok r, w') ->
  r = mkNetworkResult mode reason i s p /\ NetworkResult_new r = Ok r /\ w' = w.
Proof.
  intros [Hn ->]%nlift_ok. assert (r = mkNetworkResult mode reason i s p) as -> by (unfold NetworkResult_new in Hn; by inv_ok).
  done.
Qed.

Lemma activate_result controller i (w w' : NetWorld E T) r :
  activate_ap sha256_hexdigest sha1 controller i w = (Ok r, w') -> NetworkResult_new r = Ok r /\ r_mode r <> CLIENT.
Proof.
  unfold activate_ap. cbv zeta. intros Hm.
  repeat match goal with
  | H : nbind _ _ _ = (Ok _, _) |- _ => apply nbind_ok in H as (? & ? & _ & H)
  | H : (if ?b then _ else _) _ = (Ok _, _) |- _ => destruct b
  | H : (match ?o with Some _ => _ | None => _ end) _ = (Ok _, _) |- _ => destruct o
  end; by apply network_result_ok in Hm as (-> & ? & _).
Qed.

(** What a first selection did: commands and pauses, then the result of its branch, kept. *)
Lemma select_first fuel self (w w' : NetWorld E T) r :
  selected w = None -> select_for_boot sha256_hexdigest sha1 fuel self w = (Ok (Some r), w') ->
  exists l w1 w2, n_log w1 = n_log w ++ l /\ Forall is_probe l /\ w' = mkNetWorld (n_env w2) (n_log w2) (Some r) /\
    ((exists reason, network_result REFUSED reason None None false w1 = (Ok r, w2)) \/
     exists i, safe_interface i = true /\
       (client_evidence i l /\ network_result CLIENT CLIENT_READY (Some i) None false w1 = (Ok r, w2) \/
        activate_ap sha256_hexdigest sha1 self i w1 = (Ok r, w2))).
Proof.
  intros Hnone. unfold select_for_boot. intros (chosen & w0 & [= <- <-] & Hm)%nbind_ok. rewrite Hnone in Hm.
  apply nbind_ok in Hm as (t & w1 & Ht%monotonic_ok & Hm). cbv zeta in Hm.
  apply nbind_ok in Hm as ([[i|] failed] & w2 & [(l2 & E2 & P2) Hi]%find_one_log & Hm); cbn [fst] in Hi.
  - specialize (Hi i eq_refl). apply nbind_ok in Hm as (connected & w3 & Hp & Hm).
    destruct (closed_poll is_probe fuel self i (sec_add t (sec_of_int (window self))) ltac:(done) ltac:(done) Hi _ _ _ Hp)
      as [(l3 & E3 & P3) _].
    destruct connected as [[]|]; [| |by apply nret_ok in Hm as [? _]]; apply select_and_keep_ok in Hm as (w4 & Hm & E4);
      exists (l2 ++ l3), w3, w4; (split_and!; [by rewrite E3, E2, Ht, app_assoc|by apply Forall_app|done..|]); right; exists i; (split; [done|]).
    + left. split; [|done]. apply poll_client_evidence in Hp as (l & El & Hl); [|done].
      rewrite E3 in El. apply app_inv_head in El as ->. apply Hl.
    + by right.
  - apply select_and_keep_ok in Hm as (w4 & Hm & E4). exists l2, w2, w4. split_and!; [by rewrite E2, Ht|done..|]. left. eauto.
Qed.

End Selection.
