(* ===== verification/NetworkClock.v ===== *)
(** * The client window ends

    On a clock that does not go back, and whose sleeps last at least as long as asked, the selection of a
    boot always comes to an end, after a number of polls fixed by its policy. *)

From Stdlib Require Import Ascii String ZArith Lia Strings.Byte.
From stdpp Require Import base list sets strings.
From S2P Require Import Prelude PyStr PyFloat Uuid Models Json NetworkProfile NetworkProfileProperties NetworkFallback.
From S2P Require Import NetworkProperties NetworkEvidence NetworkSelection.

(** Clock numbers without rounding, as nanoseconds. *)
Class ExactSeconds (T : Type) `{Seconds T} := {
  nanoseconds : T -> Z;
  nanoseconds_of_int n : nanoseconds (sec_of_int n) = n * 1000000000;
  nanoseconds_add a b : nanoseconds (sec_add a b) = nanoseconds a + nanoseconds b;
  nanoseconds_sub a b : nanoseconds (sec_sub a b) = nanoseconds a - nanoseconds b;
  sec_ltb_exact a b : sec_ltb a b = (nanoseconds a <? nanoseconds b);
  sec_leb_exact a b : sec_leb a b = (nanoseconds a <=? nanoseconds b)
}.

(** The clock of [time.monotonic_ns], scaled. *)
#[export] Instance integer_seconds : Seconds Z := {|
  sec_of_int n := n * 1000000000; sec_add := Z.add; sec_sub := Z.sub; sec_ltb := Z.ltb; sec_leb := Z.leb |}.

#[export, refine] Instance integer_exact : ExactSeconds Z := {| nanoseconds z := z |}.
Proof. all: reflexivity. Defined.

(** The documented behaviour of [time.monotonic] and [time.sleep]: readings never decrease, whatever runs
    between them, and a sleep lasts at least as long as asked. *)
Class SteadyClock (E T : Type) `{ExactSeconds T} `{MonotonicClock E T} `{CommandRunner E T} := {
  clock : E -> Z;
  monotonic_steady e t e' : env_monotonic e = (t, e') -> clock e <= clock e' /\ nanoseconds t = clock e';
  sleep_steady e d : clock e + nanoseconds d <= clock (env_sleep e d);
  run_steady e argv d r e' : env_run e argv d = (r, e') -> clock e <= clock e'
}.

Section Window.
Context {E T : Type} `{Seconds T} `{!ExactSeconds T} `{MonotonicClock E T} `{CommandRunner E T}.
Context `{FileStore E} `{RandomSource E} `{!SteadyClock E T}.
Variables (sha256_hexdigest : bytes -> str) (sha1 : bytes -> bytes).

Definition advances {A} (m : Net E T A) : Prop := forall w, clock (n_env w) <= clock (n_env (snd (m w))).

Lemma advances_bind {A B} (m : Net E T A) (k : A -> Net E T B) :
  advances m -> (forall a, advances (k a)) -> advances (nbind m k).
Proof.
  intros Hm Hk w. specialize (Hm w). unfold nbind. destruct (m w) as [[a|e] w1]; cbn [snd] in *; [|done].
  specialize (Hk a w1). lia.
Qed.

Lemma advances_still {A} (m : Net E T A) : (forall w, n_env (snd (m w)) = n_env w) -> advances m.
Proof. intros Hm w. rewrite Hm. lia. Qed.

Lemma advances_monotonic : advances (monotonic : Net E T T).
Proof.
  intros w. unfold monotonic. destruct (env_monotonic (n_env w)) as [t e] eqn:Ht. cbn. by apply monotonic_steady in Ht as [? _].
Qed.

Lemma advances_run_before argv deadline : advances (run_before argv deadline : Net E T _).
Proof.
  apply advances_bind; [apply advances_monotonic|]. intros t. cbv zeta. destruct (sec_leb _ _); [by apply advances_still|].
  apply advances_bind; [|intros; by apply advances_still]. intros w. unfold runner_run.
  destruct (env_run _ _ _) as [r e] eqn:Hr. cbn. by apply run_steady in Hr.
Qed.

Lemma advances_client i deadline : advances (client_is_usable i deadline : Net E T _).
Proof.
  unfold client_is_usable.
  repeat first [ by apply advances_still | apply advances_bind; [apply advances_run_before|intros ?] | case_match; cbv zeta ].
Qed.

Lemma advances_find deadline : advances (find_one_wifi_interface deadline : Net E T _).
Proof.
  apply advances_bind; [apply advances_run_before|]. intros answer. repeat case_match; by apply advances_still.
Qed.

(** ** The polls of the window *)

Definition is_sleep (e : event T) : bool := match e with Slept _ => true | _ => false end.
Definition sleeps (l : list (event T)) : Z := Z.of_nat (length (List.filter is_sleep l)).

Lemma sleeps_app a b : sleeps (a ++ b) = sleeps a + sleeps b.
Proof. unfold sleeps. rewrite List.filter_app, length_app. lia. Qed.

Lemma sleeps_none l : Forall (fun e => is_sleep e = false) l -> sleeps l = 0.
Proof. unfold sleeps. induction 1 as [|e l He _ IH]; cbn [List.filter]; [done|]. by rewrite He. Qed.

Lemma sleepless {A} (m : Net E T A) (P : A -> Prop) w r w' :
  logs (fun e => is_sleep e = false) m P -> m w = (r, w') -> exists l, n_log w' = n_log w ++ l /\ sleeps l = 0.
Proof. intros Hl Hm. apply Hl in Hm as [(l & E1 & Hs) _]. exists l. split; [done|]. by apply sleeps_none. Qed.

Lemma monotonic_run (w : NetWorld E T) :
  exists t w', monotonic w = (Ok t, w') /\ n_log w' = n_log w /\
    clock (n_env w) <= clock (n_env w') /\ nanoseconds t = clock (n_env w').
Proof.
  unfold monotonic. destruct (env_monotonic (n_env w)) as [t e] eqn:Ht. apply monotonic_steady in Ht as [? ?].
  by eexists _, _.
Qed.

(** One round of the loop: it ends the polling, or sleeps and leaves at most the window less a poll. *)
Lemma poll_round controller i deadline w :
  1 <= poll controller -> safe_interface i = true ->
  (exists r w' l, r <> Ok None /\ n_log w' = n_log w ++ l /\ sleeps l = 0 /\
     forall fuel, poll_client (S fuel) controller i deadline w = (r, w')) \/
  (exists w' l, n_log w' = n_log w ++ l /\ sleeps l = 1 /\ 0 < nanoseconds deadline - clock (n_env w) /\
     nanoseconds deadline - clock (n_env w')
       <= Z.max 0 (nanoseconds deadline - clock (n_env w) - poll controller * 1000000000) /\
     forall fuel, poll_client (S fuel) controller i deadline w = poll_client fuel controller i deadline w').
Proof.
  intros Hp Hi. destruct (monotonic_run w) as (t & w1 & Ht & L1 & C1 & V1).
  destruct (sec_ltb t deadline) eqn:Hlt.
  2: { left. exists (Ok (Some false)), w1, []. split_and!; [done|by rewrite app_nil_r|done|].
       intros fuel. cbn [poll_client]. rewrite (nbind_run _ _ _ _ _ Ht), Hlt. done. }
  rewrite sec_ltb_exact in Hlt. apply Z.ltb_lt in Hlt.
  pose proof (advances_client i deadline w1) as C2. destruct (client_is_usable i deadline w1) as [[usable|e] w2] eqn:Hu; cbn [snd] in C2.
  all: destruct (sleepless _ _ _ _ _ (closed_client (fun e => is_sleep e = false) i deadline ltac:(done) Hi) Hu) as (l & L2 & S2).
  2: { left. exists (Err e), w2, l. split_and!; [done|by rewrite L2, L1|done|].
       intros fuel. cbn [poll_client]. rewrite (nbind_run _ _ _ _ _ Ht), sec_ltb_exact, (proj2 (Z.ltb_lt _ _) Hlt). cbn [negb].
       unfold nbind at 1. by rewrite Hu. }
  assert (forall fuel, poll_client (S fuel) controller i deadline w =
    (if usable then nret (Some true)
     else
       t' <- monotonic ;;
       let remaining := sec_sub deadline t' in
       if sec_leb remaining (sec_of_int 0) then nret (Some false)
       else sleeper (sec_min (sec_of_int (poll controller)) remaining) ;;; poll_client fuel controller i deadline) w2) as Hstep.
  { intros fuel. cbn [poll_client]. rewrite (nbind_run _ _ _ _ _ Ht), sec_ltb_exact, (proj2 (Z.ltb_lt _ _) Hlt). cbn [negb].
    by rewrite (nbind_run _ _ _ _ _ Hu). }
  destruct usable; [left; exists (Ok (Some true)), w2, l; split_and!; [done|by rewrite L2, L1|done|done]|].
  destruct (monotonic_run w2) as (t' & w3 & Ht' & L3 & C3 & V3).
  destruct (sec_leb (sec_sub deadline t') (sec_of_int 0)) eqn:Hle.
  { left. exists (Ok (Some false)), w3, l. split_and!; [done|by rewrite L3, L2, L1|done|].
    intros fuel. rewrite Hstep, (nbind_run _ _ _ _ _ Ht'). cbv zeta. by rewrite Hle. }
  rewrite sec_leb_exact, nanoseconds_sub, nanoseconds_of_int in Hle. apply Z.leb_gt in Hle. right.
  set (d := sec_min (sec_of_int (poll controller)) (sec_sub deadline t')).
  exists (mkNetWorld (env_sleep (n_env w3) d) (n_log w3 ++ [Slept d]) (selected w3)), (l ++ [Slept d]).
  cbn [n_log n_env]. pose proof (sleep_steady (n_env w3) d) as C4.
  assert (nanoseconds d = Z.min (poll controller * 1000000000) (nanoseconds deadline - nanoseconds t')) as Vd.
  { unfold d, sec_min. rewrite sec_ltb_exact, nanoseconds_sub, nanoseconds_of_int. split_if; bool_prop;
      rewrite ?nanoseconds_sub, ?nanoseconds_of_int; lia. }
  split_and!; [by rewrite L3, L2, L1, app_assoc|rewrite sleeps_app, S2; reflexivity|lia|lia|].
  intros fuel. rewrite Hstep, (nbind_run _ _ _ _ _ Ht'). cbv zeta. rewrite sec_leb_exact, nanoseconds_sub, nanoseconds_of_int.
  by rewrite (proj2 (Z.leb_gt _ _) Hle).
Qed.

(** With [n] poll intervals left, [n + 1] rounds are enough and at most [n] of them sleep. *)
Lemma poll_client_ends controller i deadline n w :
  1 <= poll controller -> safe_interface i = true ->
  nanoseconds deadline - clock (n_env w) <= Z.of_nat n * (poll controller * 1000000000) ->
  exists r w' l, r <> Ok None /\ n_log w' = n_log w ++ l /\ sleeps l <= Z.of_nat n /\
    forall fuel, (n < fuel)%nat -> poll_client fuel controller i deadline w = (r, w').
Proof.
  intros Hp Hi. revert w. induction n as [|n IH]; intros w Hw;
    (destruct (poll_round controller i deadline w Hp Hi) as [(r & w' & l & Hr & El & Hs & Hf)|(w' & l & El & Hs & H0' & Hc & Hf)];
     [exists r, w', l; split_and!; [done|done|lia|intros [|fuel] ?; [lia|apply Hf]]|]).
  - lia.
  - destruct (IH w') as (r & w2 & l2 & Hr & El2 & Hs2 & Hf2); [lia|].
    exists r, w2, (l ++ l2). split_and!; [done|by rewrite El2, El, app_assoc|rewrite sleeps_app; lia|].
    intros [|fuel] ?; [lia|]. rewrite Hf. apply Hf2. lia.
Qed.

(** ** The whole selection *)

(** Poll intervals in the window, the last one perhaps cut. *)
Definition polls (self : NetworkFallbackController) : nat := Z.to_nat ((window self + poll self - 1) / poll self).

Lemma polls_cover self :
  1 <= poll self -> 1 <= window self -> window self <= Z.of_nat (polls self) * poll self < window self + poll self.
Proof.
  intros Hp Hw. unfold polls. rewrite Z2Nat.id by (apply Z.div_pos; lia).
  pose proof (Z.div_mod (window self + poll self - 1) (poll self) ltac:(lia)).
  pose proof (Z.mod_pos_bound (window self + poll self - 1) (poll self) ltac:(lia)). lia.
Qed.

(** A selection that stands, or one that is kept, logs no pause and is a result. *)
Definition settles (m : Net E T (option NetworkResult)) : Prop :=
  forall w, exists r w' l, m w = (r, w') /\ r <> Ok None /\ n_log w' = n_log w ++ l /\ sleeps l = 0.

Lemma settles_keep (m : Net E T NetworkResult) :
  logs (fun e => is_sleep e = false) m (fun _ => True) -> settles (select_and_keep m).
Proof.
  intros Hm w. destruct (select_and_keep m w) as [r w'] eqn:Hk.
  destruct (sleepless _ _ _ _ _ (closed_keep _ m Hm) Hk) as (l & El & Sl). exists r, w', l. split_and!; try done.
  revert Hk. unfold select_and_keep, nbind. destruct (m w) as [[a|e] w1]; intros [= <- _]; done.
Qed.

Lemma settles_again (r : NetworkResult) :
  settles (again <- network_result (r_mode r) ALREADY_SELECTED (r_interface r) (r_ssid r) (r_credentials_published r) ;;
           nret (Some again)).
Proof.
  intros w. unfold nbind, network_result, nlift.
  destruct (NetworkResult_new _) as [a|e]; eexists _, w, []; (split; [done|]); by rewrite app_nil_r.
Qed.

Lemma select_ends_first self w :
  1 <= poll self -> 1 <= window self -> selected w = None ->
  exists r w' l, r <> Ok None /\ n_log w' = n_log w ++ l /\ sleeps l <= Z.of_nat (polls self) /\
    forall fuel, (polls self < fuel)%nat -> select_for_boot sha256_hexdigest sha1 fuel self w = (r, w').
Proof.
  intros Hp Hw Hsel. destruct (polls_cover self Hp Hw) as [Hlow _].
  destruct (monotonic_run w) as (t & w1 & Ht & L1 & C1 & V1). set (deadline := sec_add t (sec_of_int (window self))).
  assert (nanoseconds deadline = nanoseconds t + window self * 1000000000) as Vd
    by (unfold deadline; by rewrite nanoseconds_add, nanoseconds_of_int).
  pose proof (advances_find deadline w1) as C2.
  destruct (find_one_wifi_interface deadline w1) as [f w2] eqn:Hf. cbn [snd] in C2.
  destruct (sleepless _ _ _ _ _ (closed_find (fun e => is_sleep e = false) deadline ltac:(done)) Hf) as (l2 & L2 & S2).
  unfold select_for_boot, get_selected.
  assert (forall m, settles m -> exists r w' l, r <> Ok None /\ n_log w' = n_log w ++ l /\ sleeps l <= Z.of_nat (polls self) /\ m w2 = (r, w')) as Hset.
  { intros m Hm. destruct (Hm w2) as (r & w' & l & Hr & Hn & El & Sl). exists r, w', (l2 ++ l).
    split_and!; [done|by rewrite El, L2, L1, app_assoc|rewrite sleeps_app; lia|done]. }
  destruct f as [[[i|] failed]|e].
  - pose proof (proj2 (find_one_log _ _ _ _ Hf) i eq_refl) as Hi.
    destruct (poll_client_ends self i deadline (polls self) w2 Hp Hi ltac:(nia)) as (r & w3 & l3 & Hr & L3 & S3 & Hpoll).
    destruct r as [[b|]|e]; [|done|].
    + assert (settles (if b : bool then select_and_keep (network_result CLIENT CLIENT_READY (Some i) None false)
                       else select_and_keep (activate_ap sha256_hexdigest sha1 self i))) as Hb.
      { destruct b; apply settles_keep; [apply closed_result|by apply closed_activate]. }
      destruct (Hb w3) as (r & w4 & l4 & Hk & Hn & L4 & S4). exists r, w4, (l2 ++ l3 ++ l4).
      split_and!; [done|by rewrite L4, L3, L2, L1, !app_assoc|rewrite !sleeps_app; lia|].
      intros fuel Hfuel. erewrite nbind_run by done. rewrite Hsel, (nbind_run _ _ _ _ _ Ht). cbv zeta. fold deadline.
      rewrite (nbind_run _ _ _ _ _ Hf), (nbind_run _ _ _ _ _ (Hpoll fuel Hfuel)). destruct b; exact Hk.
    + exists (Err e), w3, (l2 ++ l3). split_and!; [done|by rewrite L3, L2, L1, !app_assoc|rewrite !sleeps_app; lia|].
      intros fuel Hfuel. erewrite nbind_run by done. rewrite Hsel, (nbind_run _ _ _ _ _ Ht). cbv zeta. fold deadline.
      rewrite (nbind_run _ _ _ _ _ Hf). unfold nbind. by rewrite (Hpoll fuel Hfuel).
  - destruct (Hset _ (settles_keep _ (closed_result _ REFUSED (if failed : bool then COMMAND_FAILED else AMBIGUOUS_WIFI) None None false)))
      as (r & w' & l & Hn & El & Sl & Hk).
    exists r, w', l. split_and!; try done. intros fuel _. erewrite nbind_run by done. rewrite Hsel, (nbind_run _ _ _ _ _ Ht).
    cbv zeta. fold deadline. rewrite (nbind_run _ _ _ _ _ Hf). exact Hk.
  - exists (Err e), w2, l2. split_and!; [done|by rewrite L2, L1|lia|]. intros fuel _. erewrite nbind_run by done.
    rewrite Hsel, (nbind_run _ _ _ _ _ Ht). cbv zeta. fold deadline. unfold nbind. by rewrite Hf.
Qed.


End Window.
