(* ===== verification/NetworkRetry.v ===== *)
(** * The operator's retry finds the activated access point

    On a file store that keeps what it writes, the credentials and the profile an activation leaves behind
    are read back by a later process, which brings down exactly that access point before it tries the
    client again. *)

From Stdlib Require Import Ascii String ZArith Lia Strings.Byte.
From stdpp Require Import base list sets strings.
From S2P Require Import Prelude PyStr PyFloat Uuid Models Json JsonProperties NetworkProfile NetworkProfileProperties NetworkFallback.
From S2P Require Import NetworkProperties NetworkEvidence NetworkSelection.

(** The documented behaviour of [FileStore]: it reads and vouches for the files it has, a write replaces one
    file, and neither the clock, the random source nor the policy's commands touch any. *)
Class FileStoreLaws (E T : Type) `{MonotonicClock E T} `{CommandRunner E T} `{FileStore E} `{RandomSource E} := {
  file : E -> str -> option (str * Z);
  read_file e p : env_read_text e p = Ok (option_map fst (file e p));
  safe_file e p : env_private_file_is_safe e p = Ok (bool_decide (option_map snd (file e p) = Some private_mode));
  written_file e p c m e' : env_atomic_write e p c m = (Ok tt, e') -> file e' p = Some (c, m);
  write_keeps e p c m r e' q : env_atomic_write e p c m = (r, e') -> q <> p -> file e' q = file e q;
  monotonic_keeps e t e' q : env_monotonic e = (t, e') -> file e' q = file e q;
  run_keeps e argv d r e' q : env_run e argv d = (r, e') -> file e' q = file e q;
  random_keeps e : (forall n b e' q, env_token_bytes e n = (b, e') -> file e' q = file e q) /\
                   (forall i e' q, env_uuid4 e = (i, e') -> file e' q = file e q)
}.

Section Retry.
Context {E T : Type} `{Seconds T} `{MonotonicClock E T} `{CommandRunner E T} `{FileStore E} `{RandomSource E}.
Context `{!FileStoreLaws E T}.
Variables (sha256_hexdigest : bytes -> str) (sha1 : bytes -> bytes).

(** ** What the volume holds *)

(** The private file holds credentials of the current schema. *)
Definition holds_credentials (e : E) (c : CredentialState) : Prop :=
  credentials_ok c /\ exists raw v, file e PRIVATE_CREDENTIALS = Some (raw, private_mode) /\
    loads (hooks := default_hooks) raw = Ok v /\ stored_credentials sha1 v = Ok (c, false).

Definition holds_profile (e : E) (c : CredentialState) (i : str) : Prop :=
  file e NETWORK_MANAGER_PROFILE = Some (profile_with c i, private_mode).

Definition same_private_files (e e' : E) : Prop :=
  file e' PRIVATE_CREDENTIALS = file e PRIVATE_CREDENTIALS /\
  file e' NETWORK_MANAGER_PROFILE = file e NETWORK_MANAGER_PROFILE.

Lemma same_trans e1 e2 e3 : same_private_files e1 e2 -> same_private_files e2 e3 -> same_private_files e1 e3.
Proof. intros [] []. split; congruence. Qed.

Definition keeps {A} (m : Net E T A) : Prop := forall w, same_private_files (n_env w) (n_env (snd (m w))).

Lemma files_kept_bind {A B} (m : Net E T A) (k : A -> Net E T B) : keeps m -> (forall a, keeps (k a)) -> keeps (nbind m k).
Proof.
  intros Hm Hk w. specialize (Hm w). unfold nbind. destruct (m w) as [[a|e] w1]; cbn [snd] in *; [|done].
  eapply same_trans; [exact Hm|apply Hk].
Qed.

Lemma keeps_still {A} (m : Net E T A) : (forall w, n_env (snd (m w)) = n_env w) -> keeps m.
Proof. intros Hm w. unfold same_private_files. by rewrite Hm. Qed.

Lemma keeps_ok {A} (m : Net E T A) w r w' : keeps m -> m w = (r, w') -> same_private_files (n_env w) (n_env w').
Proof. intros Hk Hm. specialize (Hk w). by rewrite Hm in Hk. Qed.

Lemma keeps_monotonic : keeps (monotonic : Net E T T).
Proof.
  intros w. unfold monotonic. destruct (env_monotonic (n_env w)) as [t e] eqn:Ht. split; by eapply monotonic_keeps.
Qed.

Lemma keeps_run_before argv deadline : keeps (run_before argv deadline : Net E T _).
Proof.
  apply files_kept_bind; [apply keeps_monotonic|]. intros t. cbv zeta. destruct (sec_leb _ _); [by apply keeps_still|].
  apply files_kept_bind; [|intros; by apply keeps_still]. intros w. unfold runner_run.
  destruct (env_run _ _ _) as [r e] eqn:Hr. split; by eapply run_keeps.
Qed.

Lemma keeps_active c i deadline : keeps (ap_is_exactly_active c i deadline : Net E T _).
Proof.
  unfold ap_is_exactly_active.
  repeat first [ by apply keeps_still | apply files_kept_bind; [apply keeps_run_before|intros ?] | case_match; cbv zeta ].
Qed.

Lemma keeps_publish c : keeps (publish_credentials c : Net E T _).
Proof.
  apply files_kept_bind; [by apply keeps_still|]. intros safe. destruct safe; [|by apply keeps_still].
  intros w. unfold ntry, nbind, atomic_write. destruct (env_atomic_write _ _ _ _) as [[[]|e] env] eqn:Hw; cbn.
  2: destruct (is_OSError e); cbn.
  all: split; by eapply write_keeps.
Qed.

Lemma same_files_hold e e' c i :
  same_private_files e e' -> holds_credentials e c -> holds_profile e c i -> holds_credentials e' c /\ holds_profile e' c i.
Proof. intros [E1 E2] (Hc & raw & v & Hf & Hv) Hp. unfold holds_profile. rewrite E2. split; [|done]. split; [done|]. exists raw, v. by rewrite E1. Qed.

(** ** Credentials and profile are on the volume before the activation *)

Lemma atomic_write_file path content mode (w w' : NetWorld E T) :
  atomic_write path content mode w = (Ok tt, w') ->
  file (n_env w') path = Some (content, mode) /\ forall q, q <> path -> file (n_env w') q = file (n_env w) q.
Proof.
  unfold atomic_write. destruct (env_atomic_write _ _ _ _) as [r e] eqn:Hw. intros [= -> <-]. cbn.
  split; [by eapply written_file|]. intros q. by eapply write_keeps.
Qed.

Lemma credentials_held controller (w w' : NetWorld E T) c :
  credentials sha256_hexdigest sha1 controller w = (Ok c, w') -> holds_credentials (n_env w') c.
Proof.
  intros Hm. destruct (closed_credentials sha256_hexdigest sha1 (fun _ => True) controller ltac:(done) _ _ _ Hm) as [_ Hok].
  specialize (Hok c eq_refl). split; [done|].
  assert (forall w1 w2 : NetWorld E T, atomic_write PRIVATE_CREDENTIALS (to_private_json c) private_mode w1 = (Ok tt, w2) ->
    exists raw v, file (n_env w2) PRIVATE_CREDENTIALS = Some (raw, private_mode) /\
      loads (hooks := default_hooks) raw = Ok v /\ stored_credentials sha1 v = Ok (c, false)) as Hwritten.
  { intros w1 w2 [Hw _]%atomic_write_file. exists (to_private_json c), (private_mapping c).
    split_and!; [done|apply loads_private|by apply stored_private]. }
  unfold credentials in Hm. apply nbind_ok in Hm as (raw & w1 & Hr & Hm). unfold read_text in Hr. rewrite read_file in Hr.
  injection Hr as <- <-. destruct (file (n_env w) PRIVATE_CREDENTIALS) as [[raw mode]|] eqn:Hf; cbn [option_map fst] in Hm.
  - apply nbind_ok in Hm as (safe & w2 & Hs & Hm). unfold private_file_is_safe in Hs. rewrite safe_file in Hs. cbn [n_env] in Hs.
    rewrite Hf in Hs. cbn [option_map snd] in Hs. injection Hs as <- <-. case_bool_decide; [|by net_inv]. cbn [negb] in Hm. simplify_eq.
    apply ntry_ok in Hm as [Hm|(e & w3 & _ & Hm)]; [|by net_inv].
    apply nbind_ok in Hm as (v & ? & [Hv ->]%nlift_ok & Hm). apply nbind_ok in Hm as ([c' m] & ? & [Hs ->]%nlift_ok & Hm).
    destruct m; net_inv; [match goal with a : unit |- _ => destruct a end; by eapply Hwritten|]. by exists raw, v.
  - apply nbind_ok in Hm as (c' & w2 & _ & Hm). net_inv. match goal with a : unit |- _ => destruct a end. by eapply Hwritten.
Qed.

Lemma activate_held controller i (w w' : NetWorld E T) r :
  safe_interface i = true -> activate_ap sha256_hexdigest sha1 controller i w = (Ok r, w') -> r_mode r = AP ->
  exists c t a, holds_credentials (n_env w') c /\ holds_profile (n_env w') c i /\
    r_interface r = Some i /\ r_ssid r = Some (ssid c) /\
    Ran (connection_up (profile_uuid c) i) t (Ok a) ∈ n_log w' /\ returncode a = 0.
Proof.
  intros Hi Hm Hr. apply activate_steps in Hm
    as (c & published & deadline & load & up & t & w1 & w2 & w3 & w4 & w5 & _ & Hp & Hl & _ & Hu & Ru & Ha & Hpub & ->);
    [|done].
  assert (holds_credentials (n_env w2) c /\ holds_profile (n_env w2) c i) as [Hc Hf].
  { apply ntry_ok in Hp as [Hp|(e & w6 & _ & Hp)]; [|by net_inv]. apply nbind_ok in Hp as (c' & w6 & Hc%credentials_held & Hp).
    rewrite profile_for_interface_ok in Hp by first [apply Hc | done].
    apply nbind_ok in Hp as (p & ? & [[= <-] ->]%nlift_ok & Hp). net_inv. match goal with a : unit |- _ => destruct a end.
    match goal with Hw : atomic_write _ _ _ _ = _ |- _ => apply atomic_write_file in Hw as [Hw Hq] end. split; [|done].
    destruct Hc as (Hc & raw & v & Hraw & Hv). split; [done|]. exists raw, v. by rewrite Hq. }
  pose proof (keeps_ok _ _ _ _ (keeps_run_before _ _) Hl) as K3. pose proof (keeps_ok _ _ _ _ (keeps_run_before _ _) Hu) as K4.
  pose proof (keeps_ok _ _ _ _ (keeps_active _ _ _) Ha) as K5. pose proof (keeps_ok _ _ _ _ (keeps_publish _) Hpub) as K6.
  destruct (same_files_hold _ (n_env w') _ _ (same_trans _ _ _ (same_trans _ _ _ K3 K4) (same_trans _ _ _ K5 K6)) Hc Hf) as [Hc' Hf'].
  apply run_before_ok in Hu as (t2 & a2 & _ & R2 & L4); [|done]. exists c, t2, a2. split_and!; try done.
  apply ap_active_evidence in Ha as (? & ? & ? & ? & L5 & _). apply publish_log in Hpub as (fin & L6 & _).
  rewrite L6, L5, L4. set_solver.
Qed.

(** ** The retry *)

Definition identity_reads (e : E) : list (event T) :=
  [Looked PRIVATE_CREDENTIALS (Ok (option_map fst (file e PRIVATE_CREDENTIALS)));
   Looked NETWORK_MANAGER_PROFILE (Ok (option_map fst (file e NETWORK_MANAGER_PROFILE)))].

(** Stored credentials are read back. *)
Lemma credentials_read_back controller (w : NetWorld E T) c :
  holds_credentials (n_env w) c ->
  credentials sha256_hexdigest sha1 controller w =
    (Ok c, mkNetWorld (n_env w) (n_log w ++ [Looked PRIVATE_CREDENTIALS (Ok (option_map fst (file (n_env w) PRIVATE_CREDENTIALS)))])
             (selected w)).
Proof.
  intros (Hc & raw & v & Hraw & Hv & Hs). unfold credentials, read_text, nbind. rewrite read_file, Hraw. cbn [option_map fst].
  unfold private_file_is_safe. cbn [n_env]. rewrite safe_file, Hraw. cbn [option_map snd]. rewrite bool_decide_true by done.
  cbn [negb]. unfold ntry, nlift. rewrite Hv. by rewrite Hs.
Qed.

(** What an activation left is read back. *)
Lemma identity_read_back controller (w : NetWorld E T) c i :
  safe_interface i = true -> holds_credentials (n_env w) c -> holds_profile (n_env w) c i ->
  persisted_ap_identity sha256_hexdigest sha1 controller w =
    (Ok (c, i), mkNetWorld (n_env w) (n_log w ++ identity_reads (n_env w)) (selected w)).
Proof.
  intros Hi Hheld Hp. unfold holds_profile in Hp. pose proof (credentials_read_back controller w c Hheld) as Hcred.
  destruct Hheld as [Hc _].
  pose proof (credentials_facts_of c Hc) as Hfacts. pose proof (safe_interface_plain i Hi) as Hplain.
  unfold persisted_ap_identity.
  rewrite (nbind_run _ _ _ _ _ Hcred). unfold read_text, nbind. cbn [n_env n_log selected]. rewrite read_file, Hp.
  cbn [option_map fst]. unfold private_file_is_safe. cbn [n_env]. rewrite safe_file, Hp. cbn [option_map snd].
  rewrite bool_decide_true by done. cbn [negb]. rewrite interface_lines_with by first [done | by apply plain_no_break].
  cbn [map]. rewrite removeprefix_app, profile_for_interface_ok by done. unfold nlift, compare_digest.
  rewrite profile_isascii by done. cbn [andb negb]. rewrite bool_decide_true by done. unfold nret, identity_reads.
  rewrite Hp. by rewrite <-app_assoc.
Qed.

(** A command runs out of time, or is run and answers. *)
Lemma run_before_cases argv deadline (w : NetWorld E T) :
  exists w', (run_before argv deadline w = (Ok None, w') /\ n_log w' = n_log w) \/
    (exists t answer, n_log w' = n_log w ++ [Ran argv t answer] /\
       run_before argv deadline w = (match answer with Ok a => Ok (Some a) | Err e => Err e end, w')).
Proof.
  unfold run_before. destruct (monotonic w) as [[t|e] w1] eqn:Ht; [|unfold monotonic in Ht; by destruct (env_monotonic _)].
  rewrite (nbind_run _ _ _ _ _ Ht). apply monotonic_ok in Ht. cbv zeta. destruct (sec_leb _ _); [exists w1; by left|].
  set (s := sec_min _ _). unfold nbind, runner_run. destruct (env_run _ _ _) as [answer e].
  exists (mkNetWorld e (n_log w1 ++ [Ran argv s answer]) (selected w1)). right. exists s, answer. cbn [n_log]. rewrite Ht.
  by destruct answer.
Qed.

(** C32: the operator's retry takes down exactly the access point the boot service brought up. Once a
    selection reports an access point on an interface, any later retry of any process, as long as the
    two private files are as they were left, reads them, and either has no time or runs one command that
    takes down the UUID the selection brought up. If that fails, it reports the same access point, with
    the failure; if it succeeds, it answers with a fresh selection. *)
Theorem retry_takes_down_activated_ap fuel self w r w' :
  selected w = None -> select_for_boot sha256_hexdigest sha1 fuel self w = (Ok (Some r), w') -> r_mode r = AP ->
  exists c i t a, r_interface r = Some i /\ r_ssid r = Some (ssid c) /\
    Ran (connection_up (profile_uuid c) i) t (Ok a) ∈ n_log w' /\ returncode a = 0 /\
    forall fuel2 self2 w2, same_private_files (n_env w') (n_env w2) ->
    exists w3 rest,
      n_log w3 = n_log w2 ++ identity_reads (n_env w2) ++ rest /\
      let failed := Ok (Some (mkNetworkResult AP COMMAND_FAILED (Some i) (Some (ssid c)) false)) in
      (rest = [] /\ retry_client sha256_hexdigest sha1 fuel2 self2 w2 = (failed, w3) \/
       exists t2 answer, rest = [Ran (connection_down (profile_uuid c)) t2 answer] /\
         retry_client sha256_hexdigest sha1 fuel2 self2 w2 =
           match answer with
           | Err e => (Err e, w3)
           | Ok b => if returncode b =? 0
                     then select_for_boot sha256_hexdigest sha1 fuel2 self2 (mkNetWorld (n_env w3) (n_log w3) None)
                     else (failed, w3)
           end).
Proof.
  intros Hnone (l & w1 & w4 & _ & _ & -> & Hcase)%select_first Hr; [|done]. cbn [n_env n_log].
  destruct Hcase as [(reason & (-> & _)%network_result_ok)|(i & Hi & [[_ (-> & _)%network_result_ok]|Ha])]; [done|done|].
  apply activate_held in Ha as (c & t & a & Hc & Hf & Hint & Hssid & Hup & Hzero); [|done|done].
  exists c, i, t, a. split_and!; [done..|]. intros fuel2 self2 w2 Hsame.
  destruct (same_files_hold _ _ _ _ Hsame Hc Hf) as [Hc2 Hf2].
  pose proof (identity_read_back self2 w2 c i Hi Hc2 Hf2) as Hid. set (wi := mkNetWorld (n_env w2) _ _) in Hid.
  assert (ntry (i <- persisted_ap_identity sha256_hexdigest sha1 self2 ;; nret (Some i))
    (fun e => if is_refusal e then nret None else nraise e) w2 = (Ok (Some (c, i)), wi)) as Htry.
  { unfold ntry, nbind. by rewrite Hid. }
  unfold retry_client. rewrite (nbind_run _ _ _ _ _ Htry).
  destruct (monotonic wi) as [[t0|e] w5] eqn:Ht0; [|unfold monotonic in Ht0; by destruct (env_monotonic _)].
  rewrite (nbind_run _ _ _ _ _ Ht0). cbv zeta. apply monotonic_ok in Ht0.
  set (deadline := sec_add t0 (sec_of_int AP_ACTIVATION_WINDOW_SECONDS)).
  destruct (run_before_cases (connection_down (profile_uuid c)) deadline w5) as [w3 [[Hrun L3]|(t2 & answer & L3 & Hrun)]].
  - exists w3, []. split; [by rewrite L3, Ht0; cbn [wi n_log]; rewrite app_nil_r|]. cbv zeta. left. split; [done|].
    by rewrite (nbind_run _ _ _ _ _ Hrun).
  - exists w3, [Ran (connection_down (profile_uuid c)) t2 answer].
    split; [by rewrite L3, Ht0; cbn [wi n_log]; rewrite <-app_assoc|]. cbv zeta. right. exists t2, answer. split; [done|].
    destruct answer as [b|e]; [|unfold nbind at 1; by rewrite Hrun]. rewrite (nbind_run _ _ _ _ _ Hrun). cbn [succeeded].
    by destruct (returncode b =? 0).
Qed.

(** C22: the comparison of the retry raises on text it should refuse: when the persisted profile holds a
    character outside ASCII, has one interface line naming a safe interface, and its credentials are in
    place, [retry_client] neither reports a refusal nor runs any command, but raises [TypeError], which
    its handler does not catch. *)
Theorem non_ascii_profile_escapes fuel self w c i profile :
  holds_credentials (n_env w) c -> file (n_env w) NETWORK_MANAGER_PROFILE = Some (profile, private_mode) ->
  interface_lines profile = [u "interface-name=" ++ i] -> safe_interface i = true -> isascii profile = false ->
  retry_client sha256_hexdigest sha1 fuel self w =
    (Err (Exn TypeError "comparing strings with non-ASCII characters is not supported"),
     mkNetWorld (n_env w) (n_log w ++ identity_reads (n_env w)) (selected w)).
Proof.
  intros Hc Hp Hlines Hi Hascii. pose proof (credentials_read_back self w c Hc) as Hcred. destruct Hc as [Hc _].
  unfold retry_client, ntry, persisted_ap_identity, nbind. rewrite Hcred. unfold read_text. cbn [n_env n_log selected].
  rewrite read_file, Hp. cbn [option_map fst]. unfold private_file_is_safe. cbn [n_env]. rewrite safe_file, Hp.
  cbn [option_map snd]. rewrite bool_decide_true by done. cbn [negb]. rewrite Hlines. cbn [map].
  rewrite removeprefix_app, profile_for_interface_ok by done. unfold nlift, compare_digest. rewrite Hascii. cbn [andb negb].
  unfold identity_reads. rewrite Hp. cbn [option_map fst]. by rewrite <-app_assoc.
Qed.

End Retry.
