(* ===== verification/NetworkDemo.v ===== *)
(** * A boot without its network

    A concrete environment: a clock of whole nanoseconds, a file store as an association list, and a
    device whose Wi-Fi interface has no client connection but can bring up the access point. The
    instances on which the network theorems are applied. *)

From Stdlib Require Import Ascii String ZArith Lia Strings.Byte.
From stdpp Require Import base list sets strings.
From S2P Require Import Prelude PyStr PyFloat Uuid Models Json JsonProperties NetworkProfile NetworkProfileProperties NetworkFallback.
From S2P Require Import NetworkProperties NetworkEvidence NetworkSelection NetworkClock NetworkRetry.

Record DemoDevice := mkDemo {
  dm_now : Z;
  dm_client : bool;
  dm_files : list (str * (str * Z));
  dm_up : option str
}.

Fixpoint demo_file (files : list (str * (str * Z))) (p : str) : option (str * Z) :=
  match files with
  | [] => None
  | (q, f) :: rest => if bool_decide (p = q) then Some f else demo_file rest p
  end.

Definition wlan0 : str := u "wlan0".
Definition demo_uuid : UUID := mkUUID 0x0123456789abcdef0123456789abcdef.

Definition demo_output (d : DemoDevice) (argv : list str) : str :=
  if bool_decide (argv = device_status) then u "lo:loopback" ++ nl ++ u "wlan0:wifi" ++ nl
  else if bool_decide (argv = device_value (u "GENERAL.STATE") wlan0) then
    (if dm_client d then u "100 (connected)" else u "30 (disconnected)") ++ nl
  else if bool_decide (argv = device_value (u "GENERAL.CON-UUID") wlan0) then uuid_str demo_uuid ++ nl
  else if bool_decide (argv = route_show wlan0) then u "default via 10.0.0.1" ++ nl
  else if bool_decide (argv = connection_show_active) then default [] (dm_up d) ++ u ":wlan0" ++ nl
  else if bool_decide (argv = address_show wlan0) then u "2: wlan0 inet 192.168.50.1/24 scope global wlan0" ++ nl
  else [].

(** The UUID an activation brings up. *)
Definition demo_brings_up (argv : list str) (up : option str) : option str :=
  match argv with
  | [_; _; verb; _; i; _; _] => if bool_decide (verb = u "up") then Some i else up
  | _ => up
  end.

(** A command takes a second; [sleep] takes as long as asked. *)
#[export] Instance demo_clock : MonotonicClock DemoDevice Z := {|
  env_monotonic d := (dm_now d, d);
  env_sleep d t := mkDemo (dm_now d + Z.max 0 t) (dm_client d) (dm_files d) (dm_up d) |}.

#[export] Instance demo_runner : CommandRunner DemoDevice Z := {|
  env_run d argv t :=
    (CommandResult_new (mkCommandResult 0 (demo_output d argv) []),
     mkDemo (dm_now d + 1000000000) (dm_client d) (dm_files d) (demo_brings_up argv (dm_up d))) |}.

#[export] Instance demo_store : FileStore DemoDevice := {|
  env_read_text d p := Ok (option_map fst (demo_file (dm_files d) p));
  env_private_file_is_safe d p := Ok (bool_decide (option_map snd (demo_file (dm_files d) p) = Some private_mode));
  env_boot_credentials_path_is_safe d := Ok true;
  env_atomic_write d p c m := (Ok tt, mkDemo (dm_now d) (dm_client d) ((p, (c, m)) :: dm_files d) (dm_up d)) |}.

#[export] Instance demo_random : RandomSource DemoDevice := {|
  env_token_bytes d n := (repeat "a"%byte n, d);
  env_uuid4 d := (demo_uuid, d) |}.

#[export, refine] Instance demo_steady : SteadyClock DemoDevice Z := {| clock := dm_now |}.
Proof.
  - by intros e t e' [= <- <-].
  - intros e d. cbn. unfold nanoseconds. simpl. lia.
  - intros e argv d r e' [= _ <-]. cbn. lia.
Defined.

#[export, refine] Instance demo_laws : FileStoreLaws DemoDevice Z := {| file d := demo_file (dm_files d) |}.
Proof.
  - done.
  - done.
  - intros e p c m e' [= <-]. cbn. by rewrite bool_decide_true.
  - intros e p c m r e' q [= _ <-] Hq. cbn. by rewrite bool_decide_false.
  - by intros e t e' q [= _ <-].
  - by intros e argv d r e' q [= _ <-].
  - intros e. split; [by intros n b e' q [= _ <-]|by intros i e' q [= _ <-]].
Defined.

Definition demo_sha256 (b : bytes) : str := u "00112233445566778899aabbccddeeff00112233445566778899aabbccddeeff".
Definition demo_sha1 (b : bytes) : bytes := repeat "5"%byte 20.

Definition demo_controller : NetworkFallbackController := mkController (u "0123456789abcdef") 12 5.

Definition demo_start (client : bool) : NetWorld DemoDevice Z := mkNetWorld (mkDemo 0 client [] None) [] None.

Definition demo_select (client : bool) := select_for_boot demo_sha256 demo_sha1 61 demo_controller (demo_start client).

Definition demo_access_point : NetworkResult :=
  mkNetworkResult AP CLIENT_WINDOW_EXPIRED (Some wlan0) (Some (u "Dashcam-00112233")) true.

Lemma demo_selects :
  fst (demo_select false) = Ok (Some demo_access_point) /\
  fst (demo_select true) = Ok (Some (mkNetworkResult CLIENT CLIENT_READY (Some wlan0) None false)).
Proof. vm_compute. split; reflexivity. Qed.

(** What the selection leaves behind. *)
Definition demo_after : NetWorld DemoDevice Z := Eval vm_compute in snd (demo_select false).

Lemma demo_selected :
  select_for_boot demo_sha256 demo_sha1 61 demo_controller (demo_start false) = (Ok (Some demo_access_point), demo_after).
Proof. vm_compute. reflexivity. Qed.

(** ** Witnesses *)



Lemma retry_takes_down_activated_ap_witness :
  exists c t a, ssid c = u "Dashcam-00112233" /\
    Ran (connection_up (profile_uuid c) wlan0) t (Ok a) ∈ n_log demo_after /\
    exists (w3 : NetWorld DemoDevice Z) rest, n_log w3 = n_log demo_after ++ identity_reads (n_env demo_after) ++ rest.
Proof.
  destruct (retry_takes_down_activated_ap demo_sha256 demo_sha1 61 demo_controller (demo_start false) demo_access_point demo_after
    eq_refl demo_selected eq_refl) as (c & i & t & a & Hi & Hs & Hup & _ & Hretry).
  injection Hi as <-. injection Hs as Hs. exists c, t, a. split; [symmetry; exact Hs|]. split; [exact Hup|].
  destruct (Hretry 61%nat demo_controller demo_after (conj eq_refl eq_refl)) as (w3 & rest & L3 & _).
  by exists w3, rest.
Defined.

(** The volume after the demo activation, with a comment in Latin-1 added to its profile. *)
Definition demo_credentials : CredentialState :=
  mkCredentialState (u "Dashcam-00112233") (token_urlsafe (repeat "a"%byte 32)) (uuid_str demo_uuid).

Definition demo_edited : str := u "# voil" ++ [chr 224] ++ nl ++ profile_with demo_credentials wlan0.

Definition demo_edited_device : NetWorld DemoDevice Z :=
  mkNetWorld (mkDemo 0 false [(PRIVATE_CREDENTIALS, (to_private_json demo_credentials, private_mode));
                              (NETWORK_MANAGER_PROFILE, (demo_edited, private_mode))] None) [] None.

Lemma non_ascii_profile_escapes_witness :
  isascii demo_edited = false /\
  fst (retry_client demo_sha256 demo_sha1 61 demo_controller demo_edited_device) =
    Err (Exn TypeError "comparing strings with non-ASCII characters is not supported").
Proof.
  split; [vm_compute; reflexivity|].
  rewrite (non_ascii_profile_escapes demo_sha256 demo_sha1 61 demo_controller demo_edited_device demo_credentials wlan0 demo_edited);
    [reflexivity| |vm_compute; reflexivity..].
  split; [vm_compute; reflexivity|]. exists (to_private_json demo_credentials), (private_mapping demo_credentials).
  split; [vm_compute; reflexivity|]. split; vm_compute; reflexivity.
Defined.
